(* ===== verification/_CoqProject ===== *)
-Q . S2P
Prelude.v
Cmonad.v
Mmu.v
Printfmt.v
Str.v
StrSpec.v
Console.v
Readline.v
State.v
Spinlock.v
Umem.v
Pmap.v
PageList.v
Vm.v
VmInv.v
PmapLem.v
VmLem.v
PmapSpec.v
VmDir.v
MemInit.v
MemSpec.v
KernMap.v
Lapic.v
Mpconfig.v
MpSpec.v
UserLem.v
Env.v
EnvLem.v
Sched.v
EnvSpec.v
Syscall.v
Kdebug.v
KdebugSpec.v
SyscallSpec.v
IpcSpec.v
SyscallInv.v
Trap.v
Monitor.v
MonitorSpec.v
Ulib.v
UlibSpec.v
CowSpec.v
MsgSpec.v
Dumbfork.v
LoadSpec.v
CreateSpec.v
Msgs.v
Sieve.v
Forktree.v
Pingpong.v
Spin.v
Entry.v
Boot.v
Init.v
InitSpec.v
TrapSpec.v
FaultSpec.v
