(* ===== verification/Prelude.v ===== *)
(** * The JOS kernel and its user library: a verification development

    JOS is a small exokernel for IA-32 multiprocessors, written in C: physical
    pages and two-level page tables, environments (processes) with a round-robin
    scheduler under one big lock, system calls and traps, a console and a monitor;
    a boot loader; and a user library that builds [fork] and messages out of the
    system calls.  These files model the C code of [src/boot], [src/kern] and
    [src/lib] and prove what its parts do.

    ** How the parts interact

    The boot loader reads the kernel from disk and enters it.  [i386_init] sets up
    the console, memory, environments, traps and the local APIC, takes the lock,
    starts the other processors one at a time, creates the first environments and
    calls the scheduler.  From then on the kernel runs when a processor traps into
    it: [trap] takes the lock if it came from user mode, dispatches to a system
    call, the page fault handler, the timer or the monitor, and leaves through
    [env_run] or the scheduler, which give the lock back.  System calls and the
    scheduler work on the environment table; both, and [fork] through them, work on
    the page tables; everything that needs a page gets it from the allocator.

    ** How C is modelled

    - [Cmonad]: a C function is a function from the machine state to an [outcome]:
      it returns, control leaves it for good, it panics, or it does something C
      gives no meaning to.  [wp m Q s] excludes the last three.
    - [State]: the kernel's structs are records with the source's fields, its
      global variables the fields of [kstate]; physical memory is [pmem], 32-bit
      words by frame and index.  Pointers to page tables are addresses, and reach
      memory through the linear map ([kload], [kstore]); pointers into the arrays
      [pages], [envs] and [cpus] are indices, null is [None].  Instructions whose
      effect is outside memory are events of [trace].  What the linker and the
      hardware decide is the class [Machine].
    - An integer is the [Z] of its value; each conversion or unsigned operation
      that can wrap says so ([u8], [u16], [u32], [s32] of this file).
    - A loop with no structural bound has fuel, and runs into [Undef] without it,
      so a theorem that excludes [Undef] also says the loop ends.  The fuel is
      computed from the state where the code bounds the loop by it ([Str.rounds] by
      the size of memory, [Printfmt.vprintfmt_fuel] by the length of the format, the
      binary search by the size of its region), and a parameter where the
      environment decides (characters typed, polls of a disk), with the theorem
      saying how much is enough.

    ** The files and the code they model

    - [Prelude] (this file): wrap-around and bits.  [Mmu]: [inc/mmu.h],
      [inc/memlayout.h], [inc/types.h].
    - [Printfmt]: [lib/printfmt.c], [lib/printf.c], [kern/printf.c].  Theorems:
      termination on every format, what [printnum] prints.
    - [Str], [StrSpec]: [lib/string.c].  Theorems: [memmove] on overlapping blocks,
      [strlcpy], [strcmp] as an order, [strtol] reads back what [printnum] prints.
    - [Console]: [kern/console.c], [kern/picirq.c], [kern/kclock.c].  Theorems: the
      input buffer is a queue while fewer than 512 characters wait, the cursor stays
      on the screen.
    - [Readline]: [lib/readline.c] over the interface [CharIO], which the console
      implements.
    - [Spinlock]: [kern/spinlock.c], as functions and as interleaved memory
      accesses.  Theorems: mutual exclusion, no false panic, and that the functions
      refine the interleaving.
    - [Umem], [UserLem]: access to user memory through the page tables.
    - [Pmap]: the operations of [kern/pmap.c].  [PageList]: the allocator against an
      abstract stack.  [Vm], [VmInv]: address spaces and the memory invariant
      [vm_inv].  [PmapLem], [VmLem], [VmDir]: each operation over the
      invariant.  [PmapSpec]: the theorems.  [KernMap]: the kernel's own mappings.
      [MemInit], [MemSpec]: [mem_init] and its self-checks.
    - [Lapic]: [kern/lapic.c].  [Mpconfig], [MpSpec]: [kern/mpconfig.c].
    - [Env]: [kern/env.c] and [kern/sched.c], which call each other.  [EnvLem],
      [EnvSpec], [Sched]: their theorems.  [LoadSpec]: loading a program.
      [CreateSpec]: [env_create], out of both.
    - [Syscall]: [kern/syscall.c].  [SyscallSpec]: calls on memory.  [IpcSpec]:
      messages and new environments.  [SyscallInv]: what every call keeps.
    - [Kdebug], [KdebugSpec]: [kern/kdebug.c].  [Monitor], [MonitorSpec]:
      [kern/monitor.c].
    - [Ulib]: [lib/syscall.c], [lib/fork.c], [lib/pgfault.c], [lib/ipc.c],
      [lib/libmain.c], [lib/exit.c], on top of the kernel.  [UlibSpec]: [fork].
      [CowSpec]: the copy-on-write fault.  [MsgSpec]: messages.
    - [Dumbfork]: [user/dumbfork.c], a fork that copies every page, on the same ground.
    - [Msgs]: the calls of forking programs that exchange messages, as they
      interleave.  [Sieve], [Forktree], [Pingpong], [Spin]: the programs of that kind
      in [user/], and what they print.
    - [Entry]: [kern/entrypgdir.c].  [Boot]: [boot/main.c] over the interface [Ide].
    - [Init]: [kern/init.c], and the start of the processors as an interleaving.
      [InitSpec]: the function [boot_aps] refines it.
    - [Trap]: [kern/trap.c].  [TrapSpec]: the interrupt table, system calls from trap
      to return.  [FaultSpec]: user page faults, and [sys_cputs].

    ** The main theorems

    - Memory.  [vm_inv base s fl D O] says that the free list is [fl], the page
      tables of the directories [D] are well formed and owned as [O] says, and that
      every page's reference count is the number of its mappings, plus one for a
      table or directory, plus [base].  [page_insert], [page_remove], [page_alloc],
      [env_setup_vm], [env_free] keep it and change exactly the translations they
      should; so no page is freed while mapped, and none is lost.
    - System calls.  Each is characterised on every branch for a caller in the
      state [calling], from the checks of the arguments to the new translations.
      [kernel_ok] is the invariant of the whole kernel between two calls: [calling],
      an address space for every environment in use, the kernel's directory untouched,
      every free environment on the free list once.  The calls that allocate, map,
      unmap, fork, send, or set up or destroy another environment keep it, for the
      arguments of [call_ok]; on the others the code itself goes wrong
      ([sys_page_map_uninitialised] and [page_remove_unmapped] are two such cases), or the
      call does not return.
    - User level.  On top of these, [fork] makes a child whose address space shares
      the parent's copy-on-write - the first time it gives the parent its exception
      stack and upcall too - and [pgfault] gives the program that writes to such
      a page a copy of its own: no address space but those of the two
      environments changes.  [dumbfork] makes a child with copies of all pages.
      [ipc_send] and [ipc_recv] hand a value over.
    - Programs in concert.  Under every interleaving of their processes, and whichever
      fork fails and panics, the sieve of [primes.c] prints the primes in order and does not
      deadlock, [forktree.c] prints no string of the tree twice, and each of them when no
      fork fails, and ends, [pingpong.c] prints its rally, and the parent of [spin.c] gets through its
      calls.
    - Programs.  [load_icode] gives the new address space the bytes of the file's
      segments with zeros after them, a stack and an entry point, and leaves every
      other page of every address space alone, for any file whose headers are in
      range and whose segments share no page; running out of memory is the only
      panic.  [env_create] puts it together with [env_alloc].
    - Control.  A system call returns to its caller with its result; a user page
      fault with a handler enters it with the right frame; the scheduler runs the
      next runnable environment, and passes a runnable one over fewer than [NENV]
      times; the lock excludes, under every interleaving.  The start of the
      processors is an interleaving too ([Init.sstep]), with their later entries
      into the kernel, the halted state, and the monitor, which keeps the lock for
      good when nothing is runnable: the others start on stacks of their own and
      cannot schedule too early, and the loop of [boot_aps] ends.  That every
      processor then gets the lock is not claimed: nobody gets it from the monitor.
    - The monitor.  Its run is that of [session], the prompt and the output of
      the command named, line by line.
    - Libraries and tools: as listed with the files above.

    A theorem with hypotheses is followed, in its file, by a lemma that applies it to
    a concrete state ([..._witness]); the states are small kernels of four to six
    pages.

    ** What is not modelled, and why

    - Assembly ([boot.S], [entry.S], [mpentry.S], [trapentry.S], [lib/entry.S],
      [pfentry.S]) and the instructions inside [asm]: their effect is an event, a
      field of the state, a parameter of [Machine], or the way control leaves.
    - The TLB: a translation is what the page tables say; [invlpg] and the load of
      [%cr3] are events, and the theorems say where they occur.
    - The window of 4 MB: until [mem_init] loads its own directory the kernel runs
      on the tables of [Entry], which map 4 MB, while the linear map of the model
      reaches all of RAM from the start.
    - Preemption: the kernel runs with interrupts off and holds the lock, so its
      functions are atomic; a user program's system calls are atomic, but no other
      environment runs between the steps of [fork] or [pgfault] in the model.
      Interleavings are modelled where the code depends on them: the lock, the
      start of the processors and the programs that exchange messages.  There a call
      is one step, as [IpcSpec] and [MsgSpec] describe it, and environment
      identifiers are not used twice.
    - A user program's own variables live in fields of [uprog] and not in the pages
      [fork] shares.
    - The other programs under [user/]: most are one instruction that faults or one
      line that is printed. *)

From Stdlib Require Import Lia ZArith.
From stdpp Require Import base gmap list strings numbers.

#[global] Open Scope Z_scope.
#[export] Set Warnings "-clear-no-such-hyp".

(** ** C integers

    The machine is an IA-32: [uint32_t], pointers and [size_t] are 32 bits wide,
    [int] is a 32-bit two's complement integer.  A C integer is the [Z] of its
    value, and each conversion or unsigned operation writes its wrap-around. *)

Definition u8 (x : Z) : Z := x mod 2 ^ 8.
Definition u16 (x : Z) : Z := x mod 2 ^ 16.
Definition u32 (x : Z) : Z := x mod 2 ^ 32.
Definition u64 (x : Z) : Z := x mod 2 ^ 64.
Definition s32 (x : Z) : Z := (x + 2 ^ 31) mod 2 ^ 32 - 2 ^ 31.

(** The truth value of a bit test such as [pte & PTE_P]. *)
Definition tst (x mask : Z) : bool := negb (Z.land x mask =? 0).

(** Declares the arithmetic side conditions [lia] needs about the constants. *)
Ltac zlia := unfold u8, u16, u32, u64 in *; Z.div_mod_to_equations; lia.

Lemma u32_range x : 0 <= u32 x < 2 ^ 32.
Proof. apply Z.mod_pos_bound; lia. Qed.

Lemma u32_id x : 0 <= x < 2 ^ 32 -> u32 x = x.
Proof. apply Z.mod_small. Qed.

Lemma u32_idem x : u32 (u32 x) = u32 x.
Proof. apply Z.mod_mod; lia. Qed.

Lemma u16_range x : 0 <= u16 x < 2 ^ 16.
Proof. apply Z.mod_pos_bound; lia. Qed.

Lemma u16_id x : 0 <= x < 2 ^ 16 -> u16 x = x.
Proof. apply Z.mod_small. Qed.

Lemma u8_range x : 0 <= u8 x < 2 ^ 8.
Proof. apply Z.mod_pos_bound; lia. Qed.

Lemma u8_id x : 0 <= x < 2 ^ 8 -> u8 x = x.
Proof. apply Z.mod_small. Qed.

Lemma s32_id x : - 2 ^ 31 <= x < 2 ^ 31 -> s32 x = x.
Proof. intros H. unfold s32. rewrite Z.mod_small; lia. Qed.

Lemma s32_u32 x : - 2 ^ 31 <= x < 2 ^ 31 -> s32 (u32 x) = x.
Proof. intros H. unfold s32, u32. Z.div_mod_to_equations; lia. Qed.

Lemma s32_range x : - 2 ^ 31 <= s32 x < 2 ^ 31.
Proof. unfold s32. pose proof (Z.mod_pos_bound (x + 2 ^ 31) (2 ^ 32)). lia. Qed.

(** ** Bit operations against arithmetic *)

Lemma land_ones_mod x n : 0 <= n -> Z.land x (Z.ones n) = x mod 2 ^ n.
Proof. intros; by apply Z.land_ones. Qed.

(** Bits of a small number are clear above its width. *)
Lemma testbit_small x n i : 0 <= x < 2 ^ n -> n <= i -> 0 <= n -> Z.testbit x i = false.
Proof.
  intros Hx Hi Hn. rewrite <- (Z.mod_small x (2 ^ n)) by lia.
  by apply Z.mod_pow2_bits_high.
Qed.

(** [(hi << n) | lo] with [lo] below [2^n] is a sum. *)
Lemma lor_shift_add hi lo n :
  0 <= n -> 0 <= lo < 2 ^ n -> Z.lor (hi * 2 ^ n) lo = hi * 2 ^ n + lo.
Proof.
  intros Hn Hlo.
  assert (Z.land (hi * 2 ^ n) lo = 0) as Hd.
  { apply Z.bits_inj'; intros i Hi. rewrite Z.land_spec, Z.bits_0.
    destruct (decide (i < n)).
    - rewrite Z.mul_pow2_bits_low by lia. done.
    - rewrite (testbit_small lo n i) by lia. apply andb_false_r. }
  rewrite <- Z.lxor_lor by done. by rewrite Z.add_nocarry_lxor.
Qed.

(** A page number and the low twelve bits. *)
Lemma lor_page p lo : 0 <= lo < 4096 -> Z.lor (p * 4096) lo = p * 4096 + lo.
Proof. apply (lor_shift_add p lo 12). lia. Qed.

(** [x & ~(2^n - 1)] rounds down to a multiple of [2^n]. *)
Lemma land_lnot_ones x n :
  0 <= n -> Z.land x (Z.lnot (Z.ones n)) = x / 2 ^ n * 2 ^ n.
Proof.
  intros Hn. rewrite <- Z.shiftr_div_pow2, <- Z.shiftl_mul_pow2 by lia.
  apply Z.bits_inj'; intros i Hi.
  rewrite Z.land_spec, Z.lnot_spec, Z.shiftl_spec by lia.
  destruct (decide (i < n)).
  - rewrite Z.ones_spec_low, (Z.testbit_neg_r _ (i - n)) by lia. apply andb_false_r.
  - rewrite Z.ones_spec_high, Z.shiftr_spec by lia.
    replace (i - n + n) with i by lia. apply andb_true_r.
Qed.

Lemma lor_small x y n :
  0 <= n -> 0 <= x < 2 ^ n -> 0 <= y < 2 ^ n -> 0 <= Z.lor x y < 2 ^ n.
Proof.
  intros Hn Hx Hy. rewrite <- (Z.mod_small x (2 ^ n)), <- (Z.mod_small y (2 ^ n)) by lia.
  rewrite <- !Z.land_ones, <- Z.land_lor_distr_l, Z.land_ones by lia.
  apply Z.mod_pos_bound; lia.
Qed.

Lemma tst_lor x y m : tst (Z.lor x y) m = tst x m || tst y m.
Proof.
  unfold tst. rewrite <- negb_andb. f_equal.
  rewrite Z.land_lor_distr_l.
  destruct (Z.land x m =? 0) eqn:E1, (Z.land y m =? 0) eqn:E2; cbn;
    rewrite ?Z.eqb_eq, ?Z.eqb_neq in *; rewrite ?Z.eqb_neq.
  - by rewrite E1, E2.
  - rewrite Z.lor_eq_0_iff. tauto.
  - rewrite Z.lor_eq_0_iff. tauto.
  - rewrite Z.lor_eq_0_iff. tauto.
Qed.

(** A test of a single-bit mask reads that bit. *)
Lemma tst_pow2 x n : 0 <= n -> tst x (2 ^ n) = Z.testbit x n.
Proof.
  intros Hn. unfold tst. destruct (Z.testbit x n) eqn:E.
  - apply negb_true_iff, Z.eqb_neq. intros H.
    apply (f_equal (fun z => Z.testbit z n)) in H.
    rewrite Z.land_spec, E, Z.pow2_bits_true, Z.bits_0 in H; done.
  - apply negb_false_iff, Z.eqb_eq. apply Z.bits_inj'; intros i Hi.
    rewrite Z.land_spec, Z.bits_0. destruct (decide (i = n)) as [->|].
    + by rewrite E.
    + rewrite (Z.pow2_bits_false n i) by lia. apply andb_false_r.
Qed.
