(* ===== verification/Cmonad.v ===== *)
(** * How C functions are written

    A C function with side effects is a function from the machine state to an
    outcome.  It returns ([Ret]), or control leaves it for good through a
    function that does not return ([Stop], for [env_run], [sched_halt] and the
    kernel monitor), or it calls [panic] ([Panic]), or it does something the C
    standard gives no meaning to, such as reading through a wild pointer
    ([Undef]).  Sequencing runs the rest only after a [Ret].

    [wp m Q s] says that [m] run from [s] returns, and that the result and the
    state it returns satisfy [Q]: no panic, no undefined behaviour, no loss of
    control.  [ends m Q s] allows [m] to give up control as well, and [tries m Q E s]
    to panic. *)

From Stdlib Require Import Lia ZArith.
From stdpp Require Import base gmap list strings numbers.
From S2P Require Import Prelude.

Inductive outcome (S X A : Type) : Type :=
  | Ret (a : A) (s : S)
  | Stop (x : X) (s : S)
  | Panic (msg : string) (s : S)
  | Undef (why : string).

Arguments Ret {S X A} a s.
Arguments Stop {S X A} x s.
Arguments Panic {S X A} msg s.
Arguments Undef {S X A} why.

Definition M (S X A : Type) : Type := S -> outcome S X A.

#[export] Instance M_ret {S X} : MRet (M S X) := fun A a s => Ret a s.

#[export] Instance M_bind {S X} : MBind (M S X) := fun A B f m s =>
  match m s with
  | Ret a s' => f a s'
  | Stop x s' => Stop x s'
  | Panic msg s' => Panic msg s'
  | Undef why => Undef why
  end.

Section Ops.
Context {S X : Type}.

Definition gets {A} (f : S -> A) : M S X A := fun s => Ret (f s) s.
Definition modify (f : S -> S) : M S X unit := fun s => Ret tt (f s).
Definition stop {A} (x : X) : M S X A := fun s => Stop x s.
Definition panic {A} (msg : string) : M S X A := fun s => Panic msg s.
Definition undef {A} (why : string) : M S X A := fun _ => Undef why.

(** [assert(b)]: panics with the text of the failed condition. *)
Definition assert (b : bool) (msg : string) : M S X unit :=
  if b then mret tt else panic msg.

(** [if (b) m;] *)
Definition when (b : bool) (m : M S X unit) : M S X unit :=
  if b then m else mret tt.

(** [for (i = i0; n times; i += step) body(i)] with no early exit. *)
Fixpoint for_loop (n : nat) (i step : Z) (body : Z -> M S X unit) : M S X unit :=
  match n with
  | O => mret tt
  | Datatypes.S n' => body i ;; for_loop n' (i + step) step body
  end.
End Ops.

(** ** Reasoning *)

Section Wp.
Context {S X : Type}.

Definition wp {A} (m : M S X A) (Q : A -> S -> Prop) (s : S) : Prop :=
  match m s with Ret a s' => Q a s' | _ => False end.

(** Returns or hands control over; never panics, never undefined. *)
Definition ends {A} (m : M S X A) (Q : A -> S -> Prop) (E : X -> S -> Prop) (s : S) : Prop :=
  match m s with Ret a s' => Q a s' | Stop x s' => E x s' | _ => False end.

Lemma wp_ret {A} (a : A) Q s : Q a s -> wp (mret a) Q s.
Proof. done. Qed.

Lemma wp_bind {A B} (m : M S X A) (f : A -> M S X B) Q s :
  wp m (fun a s' => wp (f a) Q s') s -> wp (m ≫= f) Q s.
Proof. unfold wp, mbind, M_bind. by destruct (m s). Qed.

Lemma wp_bind_inv {A B} (m : M S X A) (f : A -> M S X B) Q s :
  wp (m ≫= f) Q s -> wp m (fun a s' => wp (f a) Q s') s.
Proof. unfold wp, mbind, M_bind. by destruct (m s). Qed.

Lemma wp_mono {A} (m : M S X A) (Q Q' : A -> S -> Prop) s :
  wp m Q s -> (forall a s', Q a s' -> Q' a s') -> wp m Q' s.
Proof. unfold wp. destruct (m s); auto. Qed.

Lemma wp_gets {A} (f : S -> A) Q s : Q (f s) s -> wp (gets f) Q s.
Proof. done. Qed.

Lemma wp_modify f (Q : unit -> S -> Prop) s : Q tt (f s) -> wp (modify f) Q s.
Proof. done. Qed.

Lemma wp_assert b msg (Q : unit -> S -> Prop) s :
  b = true -> Q tt s -> wp (assert b msg) Q s.
Proof. by intros ->. Qed.

Lemma wp_eq {A} (m : M S X A) Q s :
  wp m Q s <-> exists a s', m s = Ret a s' /\ Q a s'.
Proof.
  unfold wp. destruct (m s); split; try done; try (by intros (?&?&?&?)).
  - eauto.
  - by intros (? & ? & [= <- <-] & ?).
Qed.

Lemma wp_inv {A} (m : M S X A) Q s : wp m Q s -> exists a s', m s = Ret a s' /\ Q a s'.
Proof. apply wp_eq. Qed.

Lemma wp_ext {A} (m m' : M S X A) Q s : m s = m' s -> wp m' Q s -> wp m Q s.
Proof. unfold wp. by intros ->. Qed.

Lemma wp_Ret {A} (m : M S X A) Q s a s' : m s = Ret a s' -> Q a s' -> wp m Q s.
Proof. unfold wp. by intros ->. Qed.

(** The rule for a counted loop: an invariant indexed by the loop counter. *)
Lemma wp_for_loop n i step body (I : Z -> S -> Prop) (Q : unit -> S -> Prop) s :
  I i s ->
  (forall k s', (k < n)%nat -> I (i + step * Z.of_nat k) s' ->
     wp (body (i + step * Z.of_nat k)) (fun _ s'' => I (i + step * Z.of_nat k + step) s'') s') ->
  (forall s', I (i + step * Z.of_nat n) s' -> Q tt s') ->
  wp (for_loop n i step body) Q s.
Proof.
  revert i s. induction n as [|n IH]; intros i s Hi Hstep HQ; cbn.
  - apply HQ. by replace (i + step * Z.of_nat 0) with i by lia.
  - apply wp_bind. eapply wp_mono.
    { specialize (Hstep 0%nat s ltac:(lia)).
      replace (i + step * Z.of_nat 0) with i in Hstep by lia. by apply Hstep. }
    intros [] s1 H1. apply IH; [done| |].
    + intros k s' Hk HI.
      specialize (Hstep (Datatypes.S k) s' ltac:(lia)).
      replace (i + step * Z.of_nat (Datatypes.S k)) with (i + step + step * Z.of_nat k)
        in Hstep by lia.
      by apply Hstep.
    + intros s' HI. apply HQ.
      by replace (i + step * Z.of_nat (Datatypes.S n)) with (i + step + step * Z.of_nat n) by lia.
Qed.

Lemma bind_Ret {A B} (m : M S X A) (f : A -> M S X B) s a s' :
  m s = Ret a s' -> (m ≫= f) s = f a s'.
Proof. unfold mbind, M_bind. by intros ->. Qed.

Lemma bind_Stop {A B} (m : M S X A) (f : A -> M S X B) s x s' :
  m s = Stop x s' -> (m ≫= f) s = Stop x s'.
Proof. unfold mbind, M_bind. by intros ->. Qed.

(** Loops whose body leaves the state alone, up to a round that gives up control. *)
Lemma for_loop_skip n i step (body : Z -> M S X unit) s :
  (forall k, (k < n)%nat -> body (i + step * Z.of_nat k) s = Ret tt s) ->
  for_loop n i step body s = Ret tt s.
Proof.
  revert i. induction n as [|n IH]; intros i H; [done|]. cbn.
  erewrite bind_Ret.
  2:{ specialize (H 0%nat ltac:(lia)). by replace (i + step * Z.of_nat 0) with i in H by lia. }
  apply IH. intros k Hk. specialize (H (Datatypes.S k) ltac:(lia)).
  by replace (i + step * Z.of_nat (Datatypes.S k)) with (i + step + step * Z.of_nat k) in H by lia.
Qed.

Lemma for_loop_stop n i step (body : Z -> M S X unit) s k x s' :
  (k < n)%nat -> (forall j, (j < k)%nat -> body (i + step * Z.of_nat j) s = Ret tt s) ->
  body (i + step * Z.of_nat k) s = Stop x s' ->
  for_loop n i step body s = Stop x s'.
Proof.
  revert i k. induction n as [|n IH]; intros i k Hk Hj Hx; [lia|]. cbn.
  destruct k as [|k].
  - apply bind_Stop. by replace (i + step * Z.of_nat 0) with i in Hx by lia.
  - erewrite bind_Ret.
    2:{ specialize (Hj 0%nat ltac:(lia)). by replace (i + step * Z.of_nat 0) with i in Hj by lia. }
    apply (IH _ k); [lia| |].
    + intros j Hlt. specialize (Hj (Datatypes.S j) ltac:(lia)).
      by replace (i + step * Z.of_nat (Datatypes.S j)) with (i + step + step * Z.of_nat j) in Hj by lia.
    + by replace (i + step * Z.of_nat (Datatypes.S k)) with (i + step + step * Z.of_nat k) in Hx by lia.
Qed.

Lemma ends_Stop {A} (m : M S X A) Q E s x s' : m s = Stop x s' -> E x s' -> ends m Q E s.
Proof. unfold ends. by intros ->. Qed.

Lemma ends_Ret {A} (m : M S X A) (Q : A -> S -> Prop) E s a s' : m s = Ret a s' -> Q a s' -> ends m Q E s.
Proof. unfold ends. by intros ->. Qed.

Lemma ends_eq {A} (m : M S X A) Q E s :
  ends m Q E s <-> (exists a s', m s = Ret a s' /\ Q a s') \/ (exists x s', m s = Stop x s' /\ E x s').
Proof. unfold ends. destruct (m s); naive_solver. Qed.

Lemma ends_inv {A} (m : M S X A) Q E s :
  ends m Q E s ->
  (exists a s', m s = Ret a s' /\ Q a s') \/ (exists x s', m s = Stop x s' /\ E x s').
Proof. apply ends_eq. Qed.

Lemma ends_of_wp {A} (m : M S X A) Q E s : wp m Q s -> ends m Q E s.
Proof. unfold wp, ends. by destruct (m s). Qed.

Lemma ends_bind {A B} (m : M S X A) (f : A -> M S X B) Q E s :
  ends m (fun a s' => ends (f a) Q E s') E s -> ends (m ≫= f) Q E s.
Proof. unfold ends, mbind, M_bind. by destruct (m s). Qed.

Lemma ends_mono {A} (m : M S X A) (Q Q' : A -> S -> Prop) (E E' : X -> S -> Prop) s :
  ends m Q E s -> (forall a s', Q a s' -> Q' a s') -> (forall x s', E x s' -> E' x s') ->
  ends m Q' E' s.
Proof. unfold ends. destruct (m s); auto. Qed.
End Wp.

(** ** Programs that may give up

    [tries m Q E s]: [m] returns a result with [Q], or calls [panic] in a state
    with [E]. *)

Section Tries.
Context {S X : Type}.

Definition tries {A} (m : M S X A) (Q : A -> S -> Prop) (E : S -> Prop) (s : S) : Prop :=
  match m s with Ret a s' => Q a s' | Panic _ s' => E s' | _ => False end.

Lemma tries_bind {A B} (m : M S X A) (f : A -> M S X B) Q E s :
  tries m (fun a s' => tries (f a) Q E s') E s -> tries (m ≫= f) Q E s.
Proof. unfold tries, mbind, M_bind. by destruct (m s). Qed.

Lemma tries_mono {A} (m : M S X A) (Q Q' : A -> S -> Prop) E s :
  tries m Q E s -> (forall a s', Q a s' -> Q' a s') -> tries m Q' E s.
Proof. unfold tries. destruct (m s); auto. Qed.

Lemma tries_ret {A} (a : A) Q E s : Q a s -> tries (mret a) Q E s.
Proof. done. Qed.

Lemma tries_Ret {A} (m : M S X A) Q E s a s' : m s = Ret a s' -> Q a s' -> tries m Q E s.
Proof. unfold tries. by intros ->. Qed.

Lemma tries_inv {A} (m : M S X A) Q E s a s' : m s = Ret a s' -> tries m Q E s -> Q a s'.
Proof. unfold tries. by intros ->. Qed.

Lemma tries_when (b : bool) (m : M S X unit) Q E s :
  (b = true -> tries m Q E s) -> (b = false -> Q tt s) -> tries (when b m) Q E s.
Proof. destruct b; cbn; auto. Qed.

Lemma tries_panic {A} msg (Q : A -> S -> Prop) (E : S -> Prop) s : E s -> tries (panic msg) Q E s.
Proof. done. Qed.

(** [m ;; when .. ;; rest] in two parts. *)
Lemma tries_assoc {A B C} (m : M S X A) (f : A -> M S X B) (g : B -> M S X C) Q E s :
  tries ((m ≫= f) ≫= g) Q E s -> tries (m ≫= fun a => f a ≫= g) Q E s.
Proof. unfold tries, mbind, M_bind. by destruct (m s). Qed.

Lemma tries_for_loop n i step body (I : Z -> S -> Prop) (Q : unit -> S -> Prop) E s :
  I i s ->
  (forall k s', (k < n)%nat -> I (i + step * Z.of_nat k) s' ->
     tries (body (i + step * Z.of_nat k)) (fun _ s'' => I (i + step * Z.of_nat k + step) s'') E s') ->
  (forall s', I (i + step * Z.of_nat n) s' -> Q tt s') ->
  tries (for_loop n i step body) Q E s.
Proof.
  revert i s. induction n as [|n IH]; intros i s Hi Hs HQ; cbn [for_loop].
  - apply HQ. by replace (i + step * Z.of_nat 0) with i by lia.
  - apply tries_bind. eapply tries_mono.
    { specialize (Hs 0%nat s ltac:(lia)). replace (i + step * Z.of_nat 0) with i in Hs by lia. by apply Hs. }
    intros [] s1 H1. apply IH; [done| |].
    + intros k s' Hk HI. specialize (Hs (Datatypes.S k) s' ltac:(lia)).
      replace (i + step * Z.of_nat (Datatypes.S k)) with (i + step + step * Z.of_nat k) in Hs by lia. by apply Hs.
    + intros s' HI. apply HQ.
      by replace (i + step * Z.of_nat (Datatypes.S n)) with (i + step + step * Z.of_nat n) by lia.
Qed.

Lemma tries_weaken {A} (m : M S X A) (Q : A -> S -> Prop) (E E' : S -> Prop) s :
  tries m Q E s -> (forall s', E s' -> E' s') -> tries m Q E' s.
Proof. unfold tries. destruct (m s); auto. Qed.

Lemma tries_of_wp {A} (m : M S X A) Q E s : wp m Q s -> tries m Q E s.
Proof. unfold wp, tries. by destruct (m s). Qed.
End Tries.

(** Symbolic execution of straight-line code. *)
Ltac wp_step :=
  lazymatch goal with
  | |- wp (mbind _ _) _ _ => apply wp_bind
  | |- wp (mret _) _ _ => apply wp_ret
  | |- wp (gets _) _ _ => apply wp_gets
  | |- wp (modify _) _ _ => apply wp_modify
  end.
Ltac wp_steps := repeat wp_step.

(** ** Record update

    [upd f g r] is the record [r] with field [f] passed through [g].  A record
    type declares its eta expansion as an [Eta] instance; the update of any of
    its fields is then found by abstracting that field's projection from it. *)

Class Eta (R : Type) := eta_of : R -> R.
Class Upd {R T : Type} (field : R -> T) := upd : (T -> T) -> R -> R.
Arguments upd {R T} field {_} _ _ : assert.
Arguments eta_of {R _} _ : assert.

Ltac find_upd :=
  lazymatch goal with
  | |- @Upd ?R ?T ?field =>
      let e := eval hnf in (ltac:(typeclasses eauto) : Eta R) in
      let p := eval pattern field in e in
      lazymatch p with
      | ?ctx _ => exact (fun g r => ctx (fun r' => g (field r')) r)
      end
  end.

#[export] Hint Extern 1 (Upd _) => find_upd : typeclass_instances.

Definition put {R T} (field : R -> T) {U : Upd field} (v : T) (r : R) : R :=
  upd field (fun _ => v) r.
