(* ===== verification/Mmu.v ===== *)
(** * The MMU's data structures and the memory layout

    The macros and constants of [inc/mmu.h], [inc/memlayout.h] and
    [inc/types.h]: page numbers, directory and table indices, page table entry
    flags, rounding, segment and gate descriptors.  The macros compute on
    [uint32_t], so each result is taken modulo [2^32] where C does. *)

From Stdlib Require Import Lia ZArith ZifyClasses ZifyInst ZifyBool.
From stdpp Require Import base gmap list strings numbers.
From S2P Require Import Prelude.

(** ** Constants

    Each constant is declared to [zify] so that [lia] knows its value. *)

Definition PGSIZE : Z := 4096.
Definition PGSHIFT : Z := 12.
Definition PTSIZE : Z := 4194304.
Definition PTXSHIFT : Z := 12.
Definition PDXSHIFT : Z := 22.
Definition NPDENTRIES : Z := 1024.
Definition NPTENTRIES : Z := 1024.

#[export] Instance cst_PGSIZE : CstOp PGSIZE := @mkcst Z Z PGSIZE Inj_Z_Z 4096 eq_refl.
Add Zify CstOp cst_PGSIZE.
#[export] Instance cst_PGSHIFT : CstOp PGSHIFT := @mkcst Z Z PGSHIFT Inj_Z_Z 12 eq_refl.
Add Zify CstOp cst_PGSHIFT.
#[export] Instance cst_PTSIZE : CstOp PTSIZE := @mkcst Z Z PTSIZE Inj_Z_Z 4194304 eq_refl.
Add Zify CstOp cst_PTSIZE.
#[export] Instance cst_NPDENTRIES : CstOp NPDENTRIES := @mkcst Z Z NPDENTRIES Inj_Z_Z 1024 eq_refl.
Add Zify CstOp cst_NPDENTRIES.
#[export] Instance cst_NPTENTRIES : CstOp NPTENTRIES := @mkcst Z Z NPTENTRIES Inj_Z_Z 1024 eq_refl.
Add Zify CstOp cst_NPTENTRIES.

(** Page table and directory entry flags. *)
Definition PTE_P : Z := 0x001.
Definition PTE_W : Z := 0x002.
Definition PTE_U : Z := 0x004.
Definition PTE_PWT : Z := 0x008.
Definition PTE_PCD : Z := 0x010.
Definition PTE_A : Z := 0x020.
Definition PTE_D : Z := 0x040.
Definition PTE_PS : Z := 0x080.
Definition PTE_G : Z := 0x100.
Definition PTE_AVAIL : Z := 0xE00.
Definition PTE_SYSCALL : Z := Z.lor (Z.lor (Z.lor PTE_AVAIL PTE_P) PTE_W) PTE_U.

(** Page fault error codes. *)
Definition FEC_PR : Z := 0x1.
Definition FEC_WR : Z := 0x2.
Definition FEC_U : Z := 0x4.

(** [%eflags] interrupt flag. *)
Definition FL_IF : Z := 0x200.

(** Global descriptor selectors. *)
Definition GD_KT : Z := 0x08.
Definition GD_KD : Z := 0x10.
Definition GD_UT : Z := 0x18.
Definition GD_UD : Z := 0x20.
Definition GD_TSS0 : Z := 0x28.

(** The virtual memory map. *)
Definition KERNBASE : Z := 0xF0000000.
Definition IOPHYSMEM : Z := 0x0A0000.
Definition EXTPHYSMEM : Z := 0x100000.
Definition KSTACKTOP : Z := KERNBASE.
Definition KSTKSIZE : Z := 8 * PGSIZE.
Definition KSTKGAP : Z := 8 * PGSIZE.
Definition MMIOLIM : Z := KSTACKTOP - PTSIZE.
Definition MMIOBASE : Z := MMIOLIM - PTSIZE.
Definition ULIM : Z := MMIOBASE.
Definition UVPT : Z := ULIM - PTSIZE.
Definition UPAGES : Z := UVPT - PTSIZE.
Definition UENVS : Z := UPAGES - PTSIZE.
Definition UTOP : Z := UENVS.
Definition UXSTACKTOP : Z := UTOP.
Definition USTACKTOP : Z := UTOP - 2 * PGSIZE.
Definition UTEXT : Z := 2 * PTSIZE.
Definition UTEMP : Z := PTSIZE.
Definition PFTEMP : Z := UTEMP + PTSIZE - PGSIZE.
Definition USTABDATA : Z := PTSIZE / 2.
Definition MPENTRY_PADDR : Z := 0x7000.

#[export] Instance cst_KERNBASE : CstOp KERNBASE := @mkcst Z Z KERNBASE Inj_Z_Z 0xF0000000 eq_refl.
Add Zify CstOp cst_KERNBASE.
#[export] Instance cst_IOPHYSMEM : CstOp IOPHYSMEM := @mkcst Z Z IOPHYSMEM Inj_Z_Z 0x0A0000 eq_refl.
Add Zify CstOp cst_IOPHYSMEM.
#[export] Instance cst_EXTPHYSMEM : CstOp EXTPHYSMEM := @mkcst Z Z EXTPHYSMEM Inj_Z_Z 0x100000 eq_refl.
Add Zify CstOp cst_EXTPHYSMEM.
#[export] Instance cst_KSTACKTOP : CstOp KSTACKTOP := @mkcst Z Z KSTACKTOP Inj_Z_Z 0xF0000000 eq_refl.
Add Zify CstOp cst_KSTACKTOP.
#[export] Instance cst_KSTKSIZE : CstOp KSTKSIZE := @mkcst Z Z KSTKSIZE Inj_Z_Z 32768 eq_refl.
Add Zify CstOp cst_KSTKSIZE.
#[export] Instance cst_KSTKGAP : CstOp KSTKGAP := @mkcst Z Z KSTKGAP Inj_Z_Z 32768 eq_refl.
Add Zify CstOp cst_KSTKGAP.
#[export] Instance cst_MMIOLIM : CstOp MMIOLIM := @mkcst Z Z MMIOLIM Inj_Z_Z 0xEFC00000 eq_refl.
Add Zify CstOp cst_MMIOLIM.
#[export] Instance cst_MMIOBASE : CstOp MMIOBASE := @mkcst Z Z MMIOBASE Inj_Z_Z 0xEF800000 eq_refl.
Add Zify CstOp cst_MMIOBASE.
#[export] Instance cst_ULIM : CstOp ULIM := @mkcst Z Z ULIM Inj_Z_Z 0xEF800000 eq_refl.
Add Zify CstOp cst_ULIM.
#[export] Instance cst_UVPT : CstOp UVPT := @mkcst Z Z UVPT Inj_Z_Z 0xEF400000 eq_refl.
Add Zify CstOp cst_UVPT.
#[export] Instance cst_UPAGES : CstOp UPAGES := @mkcst Z Z UPAGES Inj_Z_Z 0xEF000000 eq_refl.
Add Zify CstOp cst_UPAGES.
#[export] Instance cst_UENVS : CstOp UENVS := @mkcst Z Z UENVS Inj_Z_Z 0xEEC00000 eq_refl.
Add Zify CstOp cst_UENVS.
#[export] Instance cst_UTOP : CstOp UTOP := @mkcst Z Z UTOP Inj_Z_Z 0xEEC00000 eq_refl.
Add Zify CstOp cst_UTOP.
#[export] Instance cst_UXSTACKTOP : CstOp UXSTACKTOP := @mkcst Z Z UXSTACKTOP Inj_Z_Z 0xEEC00000 eq_refl.
Add Zify CstOp cst_UXSTACKTOP.
#[export] Instance cst_USTACKTOP : CstOp USTACKTOP := @mkcst Z Z USTACKTOP Inj_Z_Z 0xEEBFE000 eq_refl.
Add Zify CstOp cst_USTACKTOP.
#[export] Instance cst_MPENTRY_PADDR : CstOp MPENTRY_PADDR := @mkcst Z Z MPENTRY_PADDR Inj_Z_Z 0x7000 eq_refl.
Add Zify CstOp cst_MPENTRY_PADDR.

(** ** Linear addresses *)

Definition PGNUM (la : Z) : Z := Z.shiftr (u32 la) PTXSHIFT.
Definition PDX (la : Z) : Z := Z.land (Z.shiftr (u32 la) PDXSHIFT) 0x3FF.
Definition PTX (la : Z) : Z := Z.land (Z.shiftr (u32 la) PTXSHIFT) 0x3FF.
Definition PGOFF (la : Z) : Z := Z.land (u32 la) 0xFFF.
Definition PGADDR (d t o : Z) : Z :=
  u32 (Z.lor (Z.lor (Z.shiftl d PDXSHIFT) (Z.shiftl t PTXSHIFT)) o).
Definition PTE_ADDR (pte : Z) : Z := Z.land (u32 pte) (Z.lnot 0xFFF).

(** ** Rounding: [ROUNDDOWN] and [ROUNDUP] of [inc/types.h] *)

Definition ROUNDDOWN (a n : Z) : Z := u32 a - u32 a mod u32 n.
Definition ROUNDUP (a n : Z) : Z := ROUNDDOWN (u32 (u32 a + u32 n - 1)) (u32 n).

Definition MIN (a b : Z) : Z := if a <=? b then a else b.
Definition MAX (a b : Z) : Z := if a >=? b then a else b.

(** ** Segment and gate descriptors

    A field of [w] bits keeps its value modulo [2^w]. *)

Definition STA_X : Z := 0x8.
Definition STA_W : Z := 0x2.
Definition STA_R : Z := 0x2.
Definition STS_T32A : Z := 0x9.
Definition STS_IG32 : Z := 0xE.
Definition STS_TG32 : Z := 0xF.

Record Segdesc := mkSegdesc {
  sd_lim_15_0 : Z; sd_base_15_0 : Z; sd_base_23_16 : Z; sd_type : Z; sd_s : Z;
  sd_dpl : Z; sd_p : Z; sd_lim_19_16 : Z; sd_avl : Z; sd_rsv1 : Z; sd_db : Z;
  sd_g : Z; sd_base_31_24 : Z
}.

Definition SEG_NULL : Segdesc := mkSegdesc 0 0 0 0 0 0 0 0 0 0 0 0 0.

Definition SEG (type base lim dpl : Z) : Segdesc :=
  mkSegdesc (Z.land (Z.shiftr lim 12) 0xffff) (Z.land base 0xffff)
    (Z.land (Z.shiftr base 16) 0xff) (type mod 2 ^ 4) 1 (dpl mod 2 ^ 2) 1
    (Z.shiftr (u32 lim) 28 mod 2 ^ 4) 0 0 1 1 (Z.shiftr (u32 base) 24 mod 2 ^ 8).

Definition SEG16 (type base lim dpl : Z) : Segdesc :=
  mkSegdesc (Z.land lim 0xffff) (Z.land base 0xffff)
    (Z.land (Z.shiftr base 16) 0xff) (type mod 2 ^ 4) 1 (dpl mod 2 ^ 2) 1
    (Z.shiftr (u32 lim) 16 mod 2 ^ 4) 0 0 1 0 (Z.shiftr (u32 base) 24 mod 2 ^ 8).

(** What the processor reads from a descriptor (the layout of the struct). *)
Definition seg_base (d : Segdesc) : Z :=
  sd_base_15_0 d + sd_base_23_16 d * 2 ^ 16 + sd_base_31_24 d * 2 ^ 24.
Definition seg_limit (d : Segdesc) : Z :=
  let l := sd_lim_15_0 d + sd_lim_19_16 d * 2 ^ 16 in
  if sd_g d =? 1 then l * 2 ^ 12 + (2 ^ 12 - 1) else l.

Record Gatedesc := mkGatedesc {
  gd_off_15_0 : Z; gd_sel : Z; gd_args : Z; gd_rsv1 : Z; gd_type : Z; gd_s : Z;
  gd_dpl : Z; gd_p : Z; gd_off_31_16 : Z
}.

Definition gate_zero : Gatedesc := mkGatedesc 0 0 0 0 0 0 0 0 0.

(** [SETGATE(gate, istrap, sel, off, dpl)]: the gate it leaves behind. *)
Definition SETGATE (istrap : bool) (sel off dpl : Z) : Gatedesc :=
  mkGatedesc (Z.land (u32 off) 0xffff) (sel mod 2 ^ 16) 0 0
    (if istrap then STS_TG32 else STS_IG32) 0 (dpl mod 2 ^ 2) 1
    (Z.shiftr (u32 off) 16 mod 2 ^ 16).

Definition gate_off (g : Gatedesc) : Z := gd_off_15_0 g + gd_off_31_16 g * 2 ^ 16.

(** ** Arithmetic of the macros *)

Lemma land_mod x n m : 0 <= n -> m = Z.ones n -> Z.land x m = x mod 2 ^ n.
Proof. intros Hn ->. by apply Z.land_ones. Qed.

Lemma PGNUM_div la : 0 <= la < 2 ^ 32 -> PGNUM la = la / 4096.
Proof. intros. unfold PGNUM, PTXSHIFT. by rewrite u32_id, Z.shiftr_div_pow2. Qed.

Lemma PDX_div la : 0 <= la < 2 ^ 32 -> PDX la = la / 4194304.
Proof.
  intros. unfold PDX, PDXSHIFT.
  rewrite u32_id, Z.shiftr_div_pow2, (land_mod _ 10) by done.
  change (2 ^ 22) with 4194304. change (2 ^ 10) with 1024.
  apply Z.mod_small. zlia.
Qed.

Lemma PTX_div la : 0 <= la < 2 ^ 32 -> PTX la = la / 4096 mod 1024.
Proof.
  intros. unfold PTX, PTXSHIFT.
  by rewrite u32_id, Z.shiftr_div_pow2, (land_mod _ 10) by done.
Qed.

Lemma PGOFF_mod la : 0 <= la < 2 ^ 32 -> PGOFF la = la mod 4096.
Proof. intros. unfold PGOFF. by rewrite u32_id, (land_mod _ 12) by done. Qed.

Lemma PTE_ADDR_div p : 0 <= p < 2 ^ 32 -> PTE_ADDR p = p / 4096 * 4096.
Proof.
  intros. unfold PTE_ADDR. rewrite u32_id by done.
  change 0xFFF with (Z.ones 12). by rewrite land_lnot_ones.
Qed.

Lemma PGADDR_sum d t o :
  0 <= d < 1024 -> 0 <= t < 1024 -> 0 <= o < 4096 ->
  PGADDR d t o = d * 4194304 + t * 4096 + o.
Proof.
  intros Hd Ht Ho. unfold PGADDR, PDXSHIFT, PTXSHIFT.
  rewrite !Z.shiftl_mul_pow2 by lia.
  rewrite (lor_shift_add d (t * 2 ^ 12) 22) by lia.
  replace (d * 2 ^ 22 + t * 2 ^ 12) with ((d * 1024 + t) * 2 ^ 12) by lia.
  rewrite lor_shift_add by lia. rewrite u32_id; lia.
Qed.

Lemma ROUNDDOWN_spec a : 0 <= a < 2 ^ 32 -> ROUNDDOWN a PGSIZE = a / 4096 * 4096.
Proof.
  intros. unfold ROUNDDOWN. rewrite u32_id by done.
  change (u32 PGSIZE) with 4096. zlia.
Qed.

(** Rounding up wraps to 0 in the last page of the address space. *)
Lemma ROUNDUP_spec a :
  0 <= a < 2 ^ 32 ->
  ROUNDUP a PGSIZE = if a <=? 2 ^ 32 - 4096 then (a + 4095) / 4096 * 4096 else 0.
Proof.
  intros. unfold ROUNDUP, ROUNDDOWN.
  change (u32 PGSIZE) with 4096. rewrite (u32_id a) by done.
  change (u32 4096) with 4096. rewrite (u32_id (u32 _)) by apply u32_range.
  unfold u32. destruct (Z.leb_spec a (2 ^ 32 - 4096)).
  - rewrite (Z.mod_small (a + 4096 - 1)) by lia. zlia.
  - replace (a + 4096 - 1) with (a - 2 ^ 32 + 4095 + 1 * 2 ^ 32) by lia.
    rewrite Z.mod_add, Z.mod_small by lia. rewrite Z.mod_small; lia.
Qed.

(** ** Properties *)

(** Splitting and rebuilding a linear address are inverse. *)
Theorem la_roundtrip la :
  0 <= la < 2 ^ 32 -> PGADDR (PDX la) (PTX la) (PGOFF la) = la.
Proof.
  intros H. rewrite PDX_div, PTX_div, PGOFF_mod by done.
  rewrite PGADDR_sum; zlia.
Qed.

Lemma la_roundtrip_witness : PGADDR (PDX 0xdeadbeef) (PTX 0xdeadbeef) (PGOFF 0xdeadbeef) = 0xdeadbeef.
Proof. apply la_roundtrip. lia. Defined.
