(* ===== verification/Printfmt.v ===== *)
(** * Formatted output: [lib/printfmt.c] and the two [printf.c]

    [vprintfmt] calls [putch] once per character and never looks at what
    [putch] did, so its effect is the list of characters it passes on, in
    order.  The callers ([vcprintf] of the kernel and of the user library,
    [vsnprintf]) run their own [putch] over that list.

    Format strings and string arguments are lists of bytes without the final
    NUL.  The variable arguments are a list of typed words. *)

From Stdlib Require Import Lia ZArith ZifyClasses ZifyInst ZifyBool.
From stdpp Require Import base gmap list strings numbers.
From S2P Require Import Prelude.

(** The code of a character, and the bytes of a string. *)
Definition ch (s : string) : Z :=
  match s with String a _ => Z.of_N (Ascii.N_of_ascii a) | EmptyString => 0 end.

Fixpoint chars (s : string) : list Z :=
  match s with
  | EmptyString => []
  | String a s' => Z.of_N (Ascii.N_of_ascii a) :: chars s'
  end.

Definition s8 (x : Z) : Z := (x + 2 ^ 7) mod 2 ^ 8 - 2 ^ 7.
Definition s64 (x : Z) : Z := (x + 2 ^ 63) mod 2 ^ 64 - 2 ^ 63.

(** A variable argument: a word, a 64-bit integer, or a string pointer. *)
Inductive varg : Type :=
  | AInt (z : Z)
  | ALong (z : Z)
  | AStr (s : option (list Z)).

(** What a call of [vprintfmt] does: the characters it puts, or the reason it
    has none. *)
Inductive printed : Type :=
  | POk (out : list Z)
  | PBad (why : string)      (* an argument of the wrong type, or missing *)
  | PFuel.                   (* the recursion bound was too small *)

Definition pcons (pre : list Z) (r : printed) : printed :=
  match r with POk out => POk (pre ++ out) | _ => r end.

(** ** [error_string] *)

Definition error_strings : list (option string) :=
  [None; Some "unspecified error"; Some "bad environment"; Some "invalid parameter";
   Some "out of memory"; Some "out of environments"; Some "segmentation fault"; None;
   Some "env is not recving"; Some "unexpected end of file"]%string.

(** ** [printnum] *)

Definition digit (d : Z) : Z := nth (Z.to_nat d) (chars "0123456789abcdef") 0.

(** [num] has at most 64 bits and [base] is at least 2: 64 calls are enough. *)
Fixpoint printnum (fuel : nat) (num base width padc : Z) : list Z :=
  match fuel with
  | O => []
  | S fuel' =>
      (if base <=? num then printnum fuel' (num / base) base (width - 1) padc
       else replicate (Z.to_nat (width - 1)) padc) ++ [digit (num mod base)]
  end.

(** ** Arguments *)

Definition getuint (lflag : Z) (ap : list varg) : option (Z * list varg) :=
  if 2 <=? lflag then
    match ap with ALong z :: ap' => Some (u64 z, ap') | _ => None end
  else match ap with AInt z :: ap' => Some (u32 z, ap') | _ => None end.

Definition getint (lflag : Z) (ap : list varg) : option (Z * list varg) :=
  if 2 <=? lflag then
    match ap with ALong z :: ap' => Some (s64 z, ap') | _ => None end
  else match ap with AInt z :: ap' => Some (s32 z, ap') | _ => None end.

(** ** [vprintfmt] *)

Record flags := mkFlags { padc : Z; width : Z; precision : Z; lflag : Z; altflag : bool }.

Definition flags0 : flags := mkFlags (ch " ") (-1) (-1) 0 false.

Definition is_digit (c : Z) : bool := (ch "0" <=? c) && (c <=? ch "9").

(** The loop of the width field: [ch] is the digit just read. *)
Fixpoint read_width (precision ch0 : Z) (fmt : list Z) : Z * list Z :=
  let precision := s32 (precision * 10 + ch0 - ch "0") in
  match fmt with
  | c :: fmt' => if is_digit c then read_width precision c fmt' else (precision, fmt)
  | [] => (precision, fmt)
  end.

Definition process_precision (f : flags) (p : Z) : flags :=
  if width f <? 0 then mkFlags (padc f) p (-1) (lflag f) (altflag f)
  else mkFlags (padc f) (width f) p (lflag f) (altflag f).

(** [%s]: [width] spaces or zeros first, unless the flag is [-]; then the
    characters, at most [precision] of them; then spaces up to [width]. *)
Fixpoint put_chars (alt : bool) (precision : Z) (p : list Z) : list Z :=
  match p with
  | [] => []
  | b :: p' =>
      let c := s8 b in
      if c =? 0 then []
      else if precision <? 0 then
        (if alt && ((c <? ch " ") || (ch "~" <? c)) then ch "?" else c) :: put_chars alt precision p'
      else if 0 <=? precision - 1 then
        (if alt && ((c <? ch " ") || (ch "~" <? c)) then ch "?" else c)
          :: put_chars alt (precision - 1) p'
      else []
  end.

Fixpoint strnlen (size : Z) (p : list Z) : Z :=
  match p with
  | [] => 0
  | b :: p' => if (size =? 0) || (b =? 0) then 0 else 1 + strnlen (size - 1) p'
  end.

Definition put_string (f : flags) (p : list Z) : list Z :=
  let front := (0 <? width f) && negb (padc f =? ch "-") in
  (* [strnlen] takes a [size_t]: a negative precision is no limit *)
  let w := if front then width f - strnlen (u32 (precision f)) p else width f in
  let pad := if front then replicate (Z.to_nat w) (padc f) else [] in
  (* the padding loop leaves [width] at 0 when it runs *)
  let w := if front then Z.min w 0 else w in
  let body := put_chars (altflag f) (precision f) p in
  pad ++ body ++ replicate (Z.to_nat (w - Z.of_nat (length body))) (ch " ").

(** What follows a [%]: [start] is the format just after it.  [rec] is
    [vprintfmt] itself. *)
Fixpoint escape (rec : list Z -> list varg -> printed) (fuel : nat) (f : flags)
    (start fmt : list Z) (ap : list varg) : printed :=
  match fuel with
  | O => PFuel
  | S fuel' =>
      let again := escape rec fuel' in
      let literal := pcons [ch "%"] (rec start ap) in
      let number num base fmt' ap' :=
        pcons (printnum 64 num base (width f) (padc f)) (rec fmt' ap') in
      match fmt with
      | [] => literal
      | c :: fmt' =>
          if c =? ch "-" then again (mkFlags (ch "-") (width f) (precision f) (lflag f) (altflag f)) start fmt' ap
          else if c =? ch "0" then again (mkFlags (ch "0") (width f) (precision f) (lflag f) (altflag f)) start fmt' ap
          else if is_digit c then
            let '(p, fmt'') := read_width 0 c fmt' in again (process_precision f p) start fmt'' ap
          else if c =? ch "*" then
            match ap with
            | AInt z :: ap' => again (process_precision f (s32 z)) start fmt' ap'
            | _ => PBad "int"
            end
          else if c =? ch "." then
            again (mkFlags (padc f) (if width f <? 0 then 0 else width f) (precision f) (lflag f) (altflag f)) start fmt' ap
          else if c =? ch "#" then again (mkFlags (padc f) (width f) (precision f) (lflag f) true) start fmt' ap
          else if c =? ch "l" then again (mkFlags (padc f) (width f) (precision f) (lflag f + 1) (altflag f)) start fmt' ap
          else if c =? ch "c" then
            match ap with AInt z :: ap' => pcons [s32 z] (rec fmt' ap') | _ => PBad "int" end
          else if c =? ch "e" then
            match ap with
            | AInt z :: ap' =>
                let err := if s32 z <? 0 then s32 (- s32 z) else s32 z in
                if err <? 0 then PBad "error_string out of bounds"
                else
                  let msg :=
                    if 10 <=? err then rec (chars "error %d") [AInt err]
                    else match nth (Z.to_nat err) error_strings None with
                         | None => rec (chars "error %d") [AInt err]
                         | Some s => rec (chars "%s") [AStr (Some (chars s))]
                         end in
                  match msg with POk out => pcons out (rec fmt' ap') | _ => msg end
            | _ => PBad "int"
            end
          else if c =? ch "s" then
            match ap with
            | AStr p :: ap' => pcons (put_string f (default (chars "(null)") p)) (rec fmt' ap')
            | _ => PBad "string"
            end
          else if c =? ch "d" then
            match getint (lflag f) ap with
            | Some (n, ap') =>
                if n <? 0 then pcons [ch "-"] (number (u64 (- n)) 10 fmt' ap')
                else number n 10 fmt' ap'
            | None => PBad "int"
            end
          else if c =? ch "u" then
            match getuint (lflag f) ap with Some (n, ap') => number n 10 fmt' ap' | None => PBad "unsigned" end
          else if c =? ch "o" then pcons [ch "X"; ch "X"; ch "X"] (rec fmt' ap)
          else if c =? ch "p" then
            match ap with AInt z :: ap' => pcons [ch "0"; ch "x"] (number (u32 z) 16 fmt' ap') | _ => PBad "pointer" end
          else if c =? ch "x" then
            match getuint (lflag f) ap with Some (n, ap') => number n 16 fmt' ap' | None => PBad "unsigned" end
          else if c =? ch "%" then pcons [c] (rec fmt' ap)
          else literal
      end
  end.

Fixpoint vprintfmt_fuel (fuel : nat) (fmt : list Z) (ap : list varg) : printed :=
  match fuel with
  | O => PFuel
  | S fuel' =>
      match fmt with
      | [] => POk []
      | c :: fmt' =>
          if negb (c =? ch "%") then pcons [c] (vprintfmt_fuel fuel' fmt' ap)
          else escape (vprintfmt_fuel fuel') (S (length fmt')) flags0 fmt' fmt' ap
      end
  end.

(** The rounds of the outer loop, and at most ten more for the nested call of [%e]. *)
Definition vprintfmt (fmt : list Z) (ap : list varg) : printed :=
  vprintfmt_fuel (length fmt + 10) fmt ap.

(** ** Callers *)

(** [sprintputch] and [vsnprintf]: [buf] is the memory from [b->buf] on, [room]
    the bytes before [b->ebuf]; the result is the bytes stored, the final NUL
    included, and the return value. *)
Record sprintbuf := mkSprintbuf { sb_stored : list Z; sb_room : Z; sb_cnt : Z }.

Definition sprintputch (b : sprintbuf) (c : Z) : sprintbuf :=
  let cnt := s32 (sb_cnt b + 1) in
  if 0 <? sb_room b then mkSprintbuf (sb_stored b ++ [u8 c]) (sb_room b - 1) cnt
  else mkSprintbuf (sb_stored b) (sb_room b) cnt.

Definition vsnprintf (buf_null : bool) (n : Z) (fmt : list Z) (ap : list varg)
  : option (Z * list Z) :=
  if buf_null || (n <? 1) then Some (-3, [])     (* -E_INVAL *)
  else
    match vprintfmt fmt ap with
    | POk out =>
        let b := foldl sprintputch (mkSprintbuf [] (n - 1) 0) out in
        Some (sb_cnt b, sb_stored b ++ [0])
    | _ => None
    end.

(** The kernel's [putch] and [vcprintf].  [*cnt++] increments the parameter
    [cnt], a pointer, and not the integer it points to. *)
Definition kern_putch (cnt : Z) (c : Z) : Z := cnt.

Definition kern_vcprintf (fmt : list Z) (ap : list varg) : option (Z * list Z) :=
  match vprintfmt fmt ap with
  | POk out => Some (foldl kern_putch 0 out, out)
  | _ => None
  end.

(** The user library's: [struct printbuf], with the strings handed to
    [sys_cputs] so far, oldest first. *)
Record printbuf := mkPrintbuf { pb_buf : list Z; pb_cnt : Z; pb_sent : list (list Z) }.

Definition user_putch (b : printbuf) (c : Z) : printbuf :=
  let buf := pb_buf b ++ [u8 c] in
  let b' :=
    if Z.of_nat (length buf) =? 256 - 1 then mkPrintbuf [] (pb_cnt b) (pb_sent b ++ [buf])
    else mkPrintbuf buf (pb_cnt b) (pb_sent b) in
  mkPrintbuf (pb_buf b') (s32 (pb_cnt b + 1)) (pb_sent b').

Definition user_vcprintf (fmt : list Z) (ap : list varg) : option (Z * list (list Z)) :=
  match vprintfmt fmt ap with
  | POk out =>
      let b := foldl user_putch (mkPrintbuf [] 0 []) out in
      Some (pb_cnt b, pb_sent b ++ [pb_buf b])
  | _ => None
  end.

(** ** Termination *)

Lemma read_width_length p c fmt : (length (read_width p c fmt).2 <= length fmt)%nat.
Proof.
  revert p c. induction fmt as [|d fmt IH]; intros p c; cbn [read_width]; [done|].
  destruct (is_digit d); [|done]. etrans; [apply IH|]. cbn [length]. lia.
Qed.

Lemma pcons_fuel pre r : r <> PFuel -> pcons pre r <> PFuel.
Proof. by destruct r. Qed.

Section Fuel.
Variable rec : list Z -> list varg -> printed.
Variable n : nat.
Hypothesis rec_fuel : forall fmt ap, (length fmt <= n)%nat -> rec fmt ap <> PFuel.
Hypothesis rec_error : forall err, rec (chars "error %d") [AInt err] <> PFuel.
Hypothesis rec_string : forall s, rec (chars "%s") [AStr s] <> PFuel.

Lemma escape_fuel fuel f start fmt ap :
  (length start <= n)%nat -> (length fmt <= n)%nat -> (length fmt < fuel)%nat ->
  escape rec fuel f start fmt ap <> PFuel.
Proof.
  intros Hs. revert f fmt ap. induction fuel as [|fuel IH]; intros f fmt ap Hn Hf; [lia|].
  cbn [escape]. destruct fmt as [|c fmt]; [by apply pcons_fuel, rec_fuel|]. cbn in Hn, Hf.
  pose proof (read_width_length 0 c fmt) as Hw.
  destruct (read_width 0 c fmt) as [p fmt''] eqn:Erw; cbn in Hw.
  repeat case_match; simplify_eq; try done;
    repeat apply pcons_fuel; try (apply rec_fuel; lia); try (apply IH; lia);
    try (match goal with H : rec ?x ?y = PFuel |- _ => exfalso; revert H end;
         first [apply rec_error | apply rec_string]).
Qed.
End Fuel.

Lemma vprintfmt_error_fuel k err : vprintfmt_fuel (9 + k) (chars "error %d") [AInt err] <> PFuel.
Proof. lazy -[printnum s32 Z.ltb u64 Z.opp not]. by destruct (s32 err <? 0). Qed.

Lemma vprintfmt_string_fuel k s : vprintfmt_fuel (9 + k) (chars "%s") [AStr s] <> PFuel.
Proof. done. Qed.

Lemma vprintfmt_fuel_enough fuel fmt ap :
  (length fmt + 10 <= fuel)%nat -> vprintfmt_fuel fuel fmt ap <> PFuel.
Proof.
  revert fmt ap. induction fuel as [|fuel IH]; intros fmt ap Hf; [lia|].
  cbn [vprintfmt_fuel]. destruct fmt as [|c fmt]; [done|]. cbn in Hf.
  destruct (c =? ch "%"); cbn [negb].
  - replace fuel with (9 + (fuel - 9))%nat by lia.
    apply (escape_fuel _ (length fmt)); [|apply vprintfmt_error_fuel|apply vprintfmt_string_fuel|lia..].
    intros fmt' ap' Hl. replace (9 + (fuel - 9))%nat with fuel by lia. apply IH. lia.
  - apply pcons_fuel, IH. lia.
Qed.

(** C32: [vprintfmt] terminates on every format string and argument list: the
    recursion bound of the model, one round per format character and ten for
    the messages of [%e], is never reached. *)
Theorem vprintfmt_terminates fmt ap : vprintfmt fmt ap <> PFuel.
Proof. apply vprintfmt_fuel_enough. lia. Qed.

(** ** Numbers *)

(** The value of a list of digits, most significant first. *)
Definition digits_value (base : Z) (ds : list Z) : Z := foldl (fun a d => a * base + d) 0 ds.

Lemma digits_value_snoc base ds d :
  digits_value base (ds ++ [d]) = digits_value base ds * base + d.
Proof. unfold digits_value. by rewrite foldl_app. Qed.

Lemma printnum_digits fuel num base width padc :
  2 <= base -> (0 < fuel)%nat -> 0 <= num < 2 ^ Z.of_nat fuel ->
  exists ds, printnum fuel num base width padc =
      replicate (Z.to_nat (width - Z.of_nat (length ds))) padc ++ map digit ds /\
    Forall (fun d => 0 <= d < base) ds /\ digits_value base ds = num /\
    (ds = [0] \/ exists d ds', ds = d :: ds' /\ d <> 0).
Proof.
  intros Hb. revert num width. induction fuel as [|fuel IH]; intros num width Hf Hn; [lia|].
  cbn [printnum]. pose proof (Z.mod_pos_bound num base ltac:(lia)) as Hm.
  destruct (Z.leb_spec base num) as [Hge|Hlt].
  - rewrite Nat2Z.inj_succ, Z.pow_succ_r in Hn by lia.
    assert (1 <= num / base) by (apply Z.div_le_lower_bound; lia).
    assert (num / base < 2 ^ Z.of_nat fuel) by (apply Z.div_lt_upper_bound; nia).
    assert (fuel <> 0%nat) by (intros ->; cbn in *; lia).
    destruct (IH (num / base) (width - 1)) as (ds & Hp & Hds & Hv & Hlead); [lia|lia|].
    exists (ds ++ [num mod base]). rewrite Hp, map_app, app_assoc, length_app. cbn [length map].
    split; [by replace (width - 1 - Z.of_nat (length ds)) with
      (width - Z.of_nat (length ds + 1)) by lia|].
    split; [apply Forall_app; auto|]. split.
    + rewrite digits_value_snoc, Hv. pose proof (Z.div_mod num base). lia.
    + right. destruct Hlead as [->|(d & ds' & -> & Hd)].
      * unfold digits_value in Hv. cbn in Hv. lia.
      * by exists d, (ds' ++ [num mod base]).
  - exists [num]. rewrite Z.mod_small by lia. cbn [length map].
    change (Z.of_nat 1) with 1. split; [done|]. split; [apply Forall_singleton; lia|]. split; [done|].
    destruct (decide (num = 0)) as [->|]; [by left|right; by exists num, []].
Qed.

(** [printnum] prints the digits of the number in its base, with no leading
    zero, preceded by pad characters up to the field width. *)
Theorem printnum_correct num base width padc :
  2 <= base <= 16 -> 0 <= num < 2 ^ 64 ->
  exists ds, printnum 64 num base width padc =
      replicate (Z.to_nat (width - Z.of_nat (length ds))) padc ++ map digit ds /\
    Forall (fun d => 0 <= d < base) ds /\ digits_value base ds = num /\
    (ds = [0] \/ exists d ds', ds = d :: ds' /\ d <> 0).
Proof. intros Hb Hn. apply printnum_digits; lia. Qed.

Lemma printnum_correct_witness :
  exists ds, printnum 64 0xf01 16 8 (ch "0") =
      replicate (Z.to_nat (8 - Z.of_nat (length ds))) (ch "0") ++ map digit ds /\
    digits_value 16 ds = 0xf01.
Proof.
  destruct (printnum_correct 0xf01 16 8 (ch "0")) as (ds & H1 & _ & H2 & _); [lia|lia|].
  by exists ds.
Defined.

(** ** The callers *)

Lemma sprintputch_fold out b :
  0 <= sb_room b ->
  let b' := foldl sprintputch b out in
  sb_stored b' = sb_stored b ++ map u8 (take (Z.to_nat (sb_room b)) out) /\
  (- 2 ^ 31 <= sb_cnt b -> sb_cnt b + Z.of_nat (length out) < 2 ^ 31 ->
   sb_cnt b' = sb_cnt b + Z.of_nat (length out)).
Proof.
  revert b. induction out as [|c out IH]; intros b Hr; cbn [foldl].
  { split; [|cbn; lia]. by rewrite take_nil, app_nil_r. }
  unfold sprintputch at 2 4. destruct (Z.ltb_spec 0 (sb_room b)) as [Hlt|Hge].
  - destruct (IH (mkSprintbuf (sb_stored b ++ [u8 c]) (sb_room b - 1) (s32 (sb_cnt b + 1))))
      as [H1 H2]; [cbn; lia|]. cbn [sb_stored sb_room sb_cnt] in *. split.
    + rewrite H1. replace (Z.to_nat (sb_room b)) with (S (Z.to_nat (sb_room b - 1))) by lia.
      cbn [take map]. by rewrite <- app_assoc.
    + cbn [length]. intros. rewrite s32_id in * by lia. rewrite H2; lia.
  - destruct (IH (mkSprintbuf (sb_stored b) (sb_room b) (s32 (sb_cnt b + 1)))) as [H1 H2];
      [cbn; lia|]. cbn [sb_stored sb_room sb_cnt] in *.
    replace (Z.to_nat (sb_room b)) with 0%nat in * by lia. split.
    + by rewrite H1.
    + cbn [length]. intros. rewrite s32_id in * by lia. rewrite H2; lia.
Qed.

(** [vsnprintf] into [n] bytes stores at most [n] of them, the first [n-1]
    characters of the full output and then a NUL, and returns the length of the
    full output, truncated or not. *)
Theorem vsnprintf_bounded n fmt ap out :
  1 <= n -> vprintfmt fmt ap = POk out -> Z.of_nat (length out) < 2 ^ 31 ->
  exists stored, vsnprintf false n fmt ap = Some (Z.of_nat (length out), stored) /\
    stored = map u8 (take (Z.to_nat (n - 1)) out) ++ [0] /\ Z.of_nat (length stored) <= n.
Proof.
  intros Hn Hout Hlen. unfold vsnprintf. destruct (Z.ltb_spec n 1); [lia|]. cbn [orb]. rewrite Hout.
  destruct (sprintputch_fold out (mkSprintbuf [] (n - 1) 0)) as [H1 H2]; [cbn; lia|].
  cbn [sb_stored sb_room sb_cnt] in *. rewrite H1, H2 by lia.
  eexists. split; [reflexivity|]. split; [done|].
  cbn [app]. rewrite length_app, length_map, length_take. cbn [length]. lia.
Qed.

Lemma vsnprintf_bounded_witness :
  exists stored, vsnprintf false 3 (chars "%d") [AInt 1234] = Some (4, stored) /\
    stored = [ch "1"; ch "2"; 0].
Proof.
  destruct (vsnprintf_bounded 3 (chars "%d") [AInt 1234] (chars "1234")) as (st & H1 & H2 & _);
    [lia|reflexivity|cbn; lia|]. exists st. split; [exact H1|]. rewrite H2. reflexivity.
Defined.

(** The kernel's [cprintf] returns 0 whatever it prints: its [putch] moves
    the pointer to the count instead of counting. *)
Theorem kern_vcprintf_returns_0 fmt ap out :
  vprintfmt fmt ap = POk out -> kern_vcprintf fmt ap = Some (0, out).
Proof.
  intros H. unfold kern_vcprintf. rewrite H. do 2 f_equal. clear H.
  assert (forall cnt, foldl kern_putch cnt out = cnt) as Hc; [|apply Hc].
  induction out; intros; cbn; auto.
Qed.

Lemma kern_vcprintf_returns_0_witness :
  kern_vcprintf (chars "%d") [AInt 7] = Some (0, chars "7").
Proof. apply kern_vcprintf_returns_0. reflexivity. Defined.

Lemma user_putch_fold out b :
  (length (pb_buf b) < 255)%nat ->
  let b' := foldl user_putch b out in
  concat (pb_sent b') ++ pb_buf b' = concat (pb_sent b) ++ pb_buf b ++ map u8 out /\
  (length (pb_buf b') < 255)%nat /\
  (Forall (fun l => length l = 255%nat) (pb_sent b) ->
   Forall (fun l => length l = 255%nat) (pb_sent b')) /\
  (- 2 ^ 31 <= pb_cnt b -> pb_cnt b + Z.of_nat (length out) < 2 ^ 31 ->
   pb_cnt b' = pb_cnt b + Z.of_nat (length out)).
Proof.
  revert b. induction out as [|c out IH]; intros b Hb; cbn [foldl].
  { split_and!; [by rewrite app_nil_r|done|done|cbn; lia]. }
  unfold user_putch at 2 4 6 8 10. rewrite length_app. cbn [length].
  destruct (Z.eqb_spec (Z.of_nat (length (pb_buf b) + 1)) (256 - 1)) as [He|He];
    cbn [pb_buf pb_sent pb_cnt].
  - destruct (IH (mkPrintbuf [] (s32 (pb_cnt b + 1)) (pb_sent b ++ [pb_buf b ++ [u8 c]])))
      as (H1 & H2 & H3 & H4); [cbn; lia|]. cbn [pb_buf pb_sent pb_cnt map] in *.
    split_and!; [|done| |].
    + rewrite H1, concat_app. cbn. by rewrite app_nil_r, <- !app_assoc.
    + intros Hf. apply H3, Forall_app. split; [done|]. repeat constructor. rewrite length_app. cbn. lia.
    + intros. rewrite s32_id in * by lia. rewrite H4; lia.
  - destruct (IH (mkPrintbuf (pb_buf b ++ [u8 c]) (s32 (pb_cnt b + 1)) (pb_sent b)))
      as (H1 & H2 & H3 & H4); [cbn; rewrite length_app; cbn; lia|].
    cbn [pb_buf pb_sent pb_cnt map] in *. split_and!; [|done|done|].
    + rewrite H1. by rewrite <- !app_assoc.
    + intros. rewrite s32_id in * by lia. rewrite H4; lia.
Qed.

(** The user library's [vcprintf] passes all of the output, in order, to
    [sys_cputs], in pieces of 255 bytes and a shorter last one, and returns its
    length. *)
Theorem user_vcprintf_correct fmt ap out :
  vprintfmt fmt ap = POk out -> Z.of_nat (length out) < 2 ^ 31 ->
  exists sent last, user_vcprintf fmt ap = Some (Z.of_nat (length out), sent ++ [last]) /\
    concat (sent ++ [last]) = map u8 out /\
    Forall (fun l => length l = 255%nat) sent /\ (length last < 255)%nat.
Proof.
  intros Hout Hlen. unfold user_vcprintf. rewrite Hout.
  destruct (user_putch_fold out (mkPrintbuf [] 0 [])) as (H1 & H2 & H3 & H4); [cbn; lia|].
  cbn [pb_buf pb_sent pb_cnt] in *. eexists _, _. rewrite H4 by lia. split; [reflexivity|].
  rewrite concat_app. cbn [concat]. rewrite app_nil_r, H1. split_and!; auto.
Qed.

Lemma user_vcprintf_correct_witness :
  exists sent last, user_vcprintf (chars "ok %x") [AInt 255] = Some (5, sent ++ [last]) /\
    concat (sent ++ [last]) = chars "ok ff".
Proof.
  destruct (user_vcprintf_correct (chars "ok %x") [AInt 255] (chars "ok ff"))
    as (sent & last & H1 & H2 & _); [reflexivity|cbn; lia|]. by exists sent, last.
Defined.

(** ** Conversions *)

(** The characters of a C string: up to the first NUL. *)
Fixpoint until_nul (p : list Z) : list Z :=
  match p with [] => [] | b :: p' => if b =? 0 then [] else b :: until_nul p' end.

Lemma s8_zero b : 0 <= b < 256 -> (s8 b =? 0) = (b =? 0).
Proof.
  intros Hb. unfold s8. change (2 ^ 7) with 128. change (2 ^ 8) with 256.
  destruct (Z.eqb_spec b 0) as [->|]; [done|]. apply Z.eqb_neq. Z.div_mod_to_equations. lia.
Qed.

Lemma put_chars_precision n p :
  Forall (fun b => 0 <= b < 256) p ->
  put_chars false (Z.of_nat n) p = map s8 (take n (until_nul p)).
Proof.
  intros Hp. revert n. induction Hp as [|b p Hb Hp IH]; intros n; cbn [put_chars until_nul].
  { by rewrite take_nil. }
  rewrite s8_zero by done. destruct (b =? 0); [by rewrite take_nil|].
  destruct (Z.ltb_spec (Z.of_nat n) 0); [lia|]. cbn [andb].
  destruct n as [|n]; [done|]. destruct (Z.leb_spec 0 (Z.of_nat (S n) - 1)); [|lia].
  cbn [take map]. rewrite <- IH. by replace (Z.of_nat (S n) - 1) with (Z.of_nat n) by lia.
Qed.

(** The format of [sys_cputs], [%.*s], prints the first [len] bytes of the
    string, or the bytes before its NUL if that comes first, and no padding. *)
Theorem printf_counted_string len p :
  Z.of_nat len < 2 ^ 31 -> Forall (fun b => 0 <= b < 256) p ->
  vprintfmt (chars "%.*s") [AInt (Z.of_nat len); AStr (Some p)] =
    POk (map s8 (take len (until_nul p))).
Proof.
  intros Hl Hp. rewrite <- put_chars_precision by done.
  transitivity (pcons (put_string (mkFlags (ch " ") 0 (s32 (Z.of_nat len)) 0 false) p) (POk [])).
  { reflexivity. }
  rewrite s32_id by lia. unfold put_string. cbn [width padc altflag precision Z.ltb andb].
  change (0 <? 0) with false. cbn [andb pcons app].
  replace (Z.to_nat (0 - Z.of_nat (length (put_chars false (Z.of_nat len) p)))) with 0%nat by lia.
  cbn [replicate]. by rewrite !app_nil_r.
Qed.

Lemma printf_counted_string_witness :
  vprintfmt (chars "%.*s") [AInt 3; AStr (Some (chars "hello"))] = POk (chars "hel").
Proof.
  apply (printf_counted_string 3 (chars "hello")); [cbn; lia|].
  repeat (constructor; [cbn; lia|]). constructor.
Defined.

(** With a number, the flag [-] does not pad on the right: the field is
    padded on the left, with minus signs. *)
Theorem minus_flag_pads_left n :
  0 <= n < 2 ^ 31 -> exists ds,
  vprintfmt (chars "%-9d") [AInt n] =
    POk (replicate (Z.to_nat (9 - Z.of_nat (length ds))) (ch "-") ++ map digit ds) /\
  digits_value 10 ds = n.
Proof.
  intros Hn. destruct (printnum_digits 64 n 10 9 (ch "-")) as (ds & Hp & _ & Hv & _); [lia..|].
  exists ds. split; [|done]. rewrite <- Hp.
  transitivity (if s32 n <? 0 then pcons [ch "-"] (POk (printnum 64 (u64 (- s32 n)) 10 9 (ch "-") ++ []))
                else POk (printnum 64 (s32 n) 10 9 (ch "-") ++ [])).
  { lazy -[printnum s32 Z.ltb u64 Z.opp not]. reflexivity. }
  rewrite s32_id by lia. destruct (Z.ltb_spec n 0); [lia|]. by rewrite app_nil_r.
Qed.

Lemma minus_flag_pads_left_witness :
  exists ds, vprintfmt (chars "%-9d") [AInt 42] =
    POk (replicate (Z.to_nat (9 - Z.of_nat (length ds))) (ch "-") ++ map digit ds).
Proof. destruct (minus_flag_pads_left 42) as (ds & H & _); [lia|]. by exists ds. Defined.
