(* ===== verification/Str.v ===== *)
(** * The string library ([lib/string.c])

    Over the memory of one address space: the bytes that are mapped, by address.
    Loading or storing elsewhere is undefined.  A byte is its unsigned value;
    two [char]s are equal exactly when their bytes are, and the range tests of
    [strtol] are false for a byte of 128 or more, which is a negative [char].
    [memset] and [memmove] are the versions with string instructions ([ASM] is
    1).

    A loop that runs to the end of a string visits consecutive addresses, and
    there are only [size m] mapped ones: [S (size m)] rounds are more than it
    can make, and [Undef] after that many is never reached. *)

From Stdlib Require Import Lia ZArith ZifyClasses ZifyInst ZifyBool.
From stdpp Require Import base gmap list strings numbers.
From S2P Require Import Prelude Cmonad Printfmt.

Abbreviation mem := (gmap Z Z).
Abbreviation MM := (M mem Empty_set).

Definition ld (a : Z) : MM Z := fun m =>
  match m !! a with Some b => Ret b m | None => Undef "load outside the memory" end.

Definition st (a b : Z) : MM unit := fun m =>
  if bool_decide (is_Some (m !! a)) then Ret tt (<[a := u8 b]> m) else Undef "store outside the memory".

Definition rounds : MM nat := gets (fun m : mem => S (size m)).

(** ** Strings *)

Fixpoint strlen_loop (fuel : nat) (s n : Z) : MM Z :=
  match fuel with
  | O => undef "no end"
  | S fuel' => b ← ld s; if negb (b =? 0) then strlen_loop fuel' (s + 1) (n + 1) else mret n
  end.

Definition strlen (s : Z) : MM Z := k ← rounds; strlen_loop k s 0.

Fixpoint strnlen_loop (k : nat) (s n : Z) : MM Z :=
  match k with
  | O => mret n
  | S k' => b ← ld s; if negb (b =? 0) then strnlen_loop k' (s + 1) (n + 1) else mret n
  end.

Definition strnlen (s size : Z) : MM Z := strnlen_loop (Z.to_nat size) s 0.

Fixpoint strcpy_loop (fuel : nat) (dst src : Z) : MM unit :=
  match fuel with
  | O => undef "no end"
  | S fuel' =>
      b ← ld src; st dst b ;;
      if negb (b =? 0) then strcpy_loop fuel' (dst + 1) (src + 1) else mret tt
  end.

Definition strcpy (dst src : Z) : MM Z := k ← rounds; strcpy_loop k dst src ;; mret dst.

Definition strcat (dst src : Z) : MM Z :=
  len ← strlen dst; strcpy (dst + len) src ;; mret dst.

Fixpoint strncpy_loop (k : nat) (dst src : Z) : MM unit :=
  match k with
  | O => mret tt
  | S k' =>
      b ← ld src; st dst b ;;
      b' ← ld src;
      strncpy_loop k' (dst + 1) (if negb (b' =? 0) then src + 1 else src)
  end.

Definition strncpy (dst src size : Z) : MM Z := strncpy_loop (Z.to_nat size) dst src ;; mret dst.

(** [while (--size > 0 && *src != 0) *dst++ = *src++]; the result is [dst] after it. *)
Fixpoint strlcpy_loop (k : nat) (dst src : Z) : MM Z :=
  match k with
  | O => mret dst
  | S k' =>
      b ← ld src;
      if negb (b =? 0) then st dst b ;; strlcpy_loop k' (dst + 1) (src + 1) else mret dst
  end.

Definition strlcpy (dst src size : Z) : MM Z :=
  if 0 <? size then
    d ← strlcpy_loop (Z.to_nat (size - 1)) dst src;
    st d 0 ;;
    mret (d - dst)
  else mret 0.

Fixpoint strcmp_loop (fuel : nat) (p q : Z) : MM Z :=
  match fuel with
  | O => undef "no end"
  | S fuel' =>
      a ← ld p;
      if a =? 0 then b ← ld q; mret (a - b)
      else b ← ld q; if a =? b then strcmp_loop fuel' (p + 1) (q + 1) else mret (a - b)
  end.

Definition strcmp (p q : Z) : MM Z := k ← rounds; strcmp_loop k p q.

Fixpoint strncmp_loop (n : nat) (p q : Z) : MM Z :=
  match n with
  | O => mret 0
  | S n' =>
      a ← ld p;
      if a =? 0 then b ← ld q; mret (a - b)
      else b ← ld q; if a =? b then strncmp_loop n' (p + 1) (q + 1) else mret (a - b)
  end.

Definition strncmp (p q n : Z) : MM Z := strncmp_loop (Z.to_nat n) p q.

Fixpoint strchr_loop (fuel : nat) (s c : Z) : MM (option Z) :=
  match fuel with
  | O => undef "no end"
  | S fuel' =>
      b ← ld s;
      if b =? 0 then mret None
      else if b =? c then mret (Some s) else strchr_loop fuel' (s + 1) c
  end.

(** A null pointer is [None]. *)
Definition strchr (s c : Z) : MM (option Z) := k ← rounds; strchr_loop k s (u8 c).

Fixpoint strfind_loop (fuel : nat) (s c : Z) : MM Z :=
  match fuel with
  | O => undef "no end"
  | S fuel' =>
      b ← ld s;
      if b =? 0 then mret s else if b =? c then mret s else strfind_loop fuel' (s + 1) c
  end.

Definition strfind (s c : Z) : MM Z := k ← rounds; strfind_loop k s (u8 c).

(** ** Blocks of memory

    [ldn] and [stn] move the bytes of one byte or doubleword; [rep_stos] and
    [rep_movs] repeat, with the pointers moved by [delta] each time, which is
    negative when the direction flag is set. *)

Fixpoint ldn (w : nat) (a : Z) : MM (list Z) :=
  match w with
  | O => mret []
  | S w' => b ← ld a; l ← ldn w' (a + 1); mret (b :: l)
  end.

Fixpoint stn (a : Z) (l : list Z) : MM unit :=
  match l with
  | [] => mret tt
  | b :: l' => st a b ;; stn (a + 1) l'
  end.

Fixpoint rep_stos (k : nat) (delta d : Z) (l : list Z) : MM unit :=
  match k with
  | O => mret tt
  | S k' => stn d l ;; rep_stos k' delta (d + delta) l
  end.

Fixpoint rep_movs (k : nat) (w : nat) (delta d s : Z) : MM unit :=
  match k with
  | O => mret tt
  | S k' => l ← ldn w s; stn d l ;; rep_movs k' w delta (d + delta) (s + delta)
  end.

(** The low byte four times, as the little-endian doubleword [stosl] stores. *)
Definition memset (v c n : Z) : MM Z :=
  if n =? 0 then mret v
  else if (v mod 4 =? 0) && (n mod 4 =? 0) then
    let c := Z.land c 0xFF in
    rep_stos (Z.to_nat (n / 4)) 4 v [c; c; c; c] ;; mret v
  else rep_stos (Z.to_nat n) 1 v [u8 c] ;; mret v.

Definition memmove (dst src n : Z) : MM Z :=
  if (src <? dst) && (dst <? src + n) then
    let s := src + n in
    let d := dst + n in
    (if (s mod 4 =? 0) && (d mod 4 =? 0) && (n mod 4 =? 0)
     then rep_movs (Z.to_nat (n / 4)) 4 (-4) (d - 4) (s - 4)
     else rep_movs (Z.to_nat n) 1 (-1) (d - 1) (s - 1)) ;;
    mret dst
  else
    (if (src mod 4 =? 0) && (dst mod 4 =? 0) && (n mod 4 =? 0)
     then rep_movs (Z.to_nat (n / 4)) 4 4 dst src
     else rep_movs (Z.to_nat n) 1 1 dst src) ;;
    mret dst.

Definition memcpy (dst src n : Z) : MM Z := memmove dst src n.

Fixpoint memcmp_loop (n : nat) (s1 s2 : Z) : MM Z :=
  match n with
  | O => mret 0
  | S n' =>
      a ← ld s1; b ← ld s2;
      if negb (a =? b) then mret (a - b) else memcmp_loop n' (s1 + 1) (s2 + 1)
  end.

Definition memcmp (v1 v2 n : Z) : MM Z := memcmp_loop (Z.to_nat n) v1 v2.

Fixpoint memfind_loop (n : nat) (s c : Z) : MM Z :=
  match n with
  | O => mret s
  | S n' => b ← ld s; if b =? c then mret s else memfind_loop n' (s + 1) c
  end.

Definition memfind (s c n : Z) : MM Z := memfind_loop (Z.to_nat n) s (u8 c).

(** ** Numbers

    [long] is 32 bits; the arithmetic that overflows it is undefined in C, and
    wraps around in the compiled code. *)

Definition digit_value (b : Z) : option Z :=
  if (48 <=? b) && (b <=? 57) then Some (b - 48)
  else if (97 <=? b) && (b <=? 122) then Some (b - 97 + 10)
  else if (65 <=? b) && (b <=? 90) then Some (b - 65 + 10)
  else None.

Fixpoint skip_blanks (fuel : nat) (s : Z) : MM Z :=
  match fuel with
  | O => undef "no end"
  | S fuel' => b ← ld s; if (b =? 32) || (b =? 9) then skip_blanks fuel' (s + 1) else mret s
  end.

(** Where the digits start, and the base. *)
Definition strtol_prefix (s base : Z) : MM (Z * Z) :=
  c0 ← ld s;
  hex ← (if ((base =? 0) || (base =? 16)) && (c0 =? 48) then
           c1 ← ld (s + 1); mret (c1 =? 120)
         else mret false);
  if hex : bool then mret (s + 2, 16)
  else if (base =? 0) && (c0 =? 48) then mret (s + 1, 8)
  else if base =? 0 then mret (s, 10)
  else mret (s, base).

Fixpoint strtol_digits (fuel : nat) (s base val : Z) : MM (Z * Z) :=
  match fuel with
  | O => undef "no end"
  | S fuel' =>
      b ← ld s;
      match digit_value b with
      | None => mret (s, val)
      | Some dig =>
          if base <=? dig then mret (s, val)
          else strtol_digits fuel' (s + 1) base (s32 (s32 (val * base) + dig))
      end
  end.

(** The value, and [*endptr]. *)
Definition strtol (s base : Z) : MM (Z * Z) :=
  k ← rounds;
  s ← skip_blanks k s;
  c ← ld s;
  let '(s, neg) :=
    if c =? 43 then (s + 1, false) else if c =? 45 then (s + 1, true) else (s, false) in
  '(s, base) ← strtol_prefix s base;
  '(s, val) ← strtol_digits k s base 0;
  mret (if neg : bool then s32 (- val) else val, s).
