(* ===== verification/StrSpec.v ===== *)
(** * Properties of the string library *)

From Stdlib Require Import Lia ZArith ZifyClasses ZifyInst ZifyBool.
From stdpp Require Import base gmap list strings numbers.
From S2P Require Import Prelude Cmonad Printfmt Str.

(** Memory holds bytes. *)
Definition bytes_ok (m : mem) : Prop := map_Forall (fun _ b => 0 <= b < 256) m.

(** The addresses from [a] on, [n] of them, are mapped. *)
Definition mapped (m : mem) (a n : Z) : Prop := forall i, 0 <= i < n -> is_Some (m !! (a + i)).

(** The C string at [a] is [l]. *)
Fixpoint cstr (m : mem) (a : Z) (l : list Z) : Prop :=
  match l with
  | [] => m !! a = Some 0
  | b :: l' => m !! a = Some b /\ 0 < b < 256 /\ cstr m (a + 1) l'
  end.

Lemma ld_eq m a b : m !! a = Some b -> ld a m = Ret b m.
Proof. unfold ld. by intros ->. Qed.

Lemma st_eq m a b : is_Some (m !! a) -> st a b m = Ret tt (<[a := u8 b]> m).
Proof. intros H. unfold st. by rewrite bool_decide_eq_true_2. Qed.

Lemma cstr_at m a l i : cstr m a l -> 0 <= i <= Z.of_nat (length l) -> is_Some (m !! (a + i)).
Proof.
  revert a i. induction l as [|b l IH]; intros a i; cbn [length cstr].
  - intros H Hi. replace (a + i) with a by lia. by exists 0.
  - intros (H & _ & Hl) Hi. destruct (decide (i = 0)) as [->|].
    + rewrite Z.add_0_r. by exists b.
    + replace (a + i) with (a + 1 + (i - 1)) by lia. apply IH; [done|lia].
Qed.

Lemma cstr_lookup m a l i b : cstr m a l -> l !! i = Some b -> m !! (a + Z.of_nat i) = Some b /\ 0 < b < 256.
Proof.
  revert a i. induction l as [|c l IH]; intros a i; [done|]. intros (H & Hc & Hl). destruct i as [|i]; cbn.
  - intros [= ->]. by rewrite Z.add_0_r.
  - intros Hi. replace (a + Z.of_nat (S i)) with (a + 1 + Z.of_nat i) by lia. by apply IH.
Qed.

(** A string is shorter than the memory it is in. *)
Lemma mapped_size m a n : mapped m a (Z.of_nat n) -> (n <= size m)%nat.
Proof.
  intros H. rewrite <- (size_dom (D := gset Z)).
  assert ((list_to_set (seqZ a (Z.of_nat n)) : gset Z) ⊆ dom m) as Hsub.
  { intros x Hx. apply elem_of_list_to_set, elem_of_seqZ in Hx. apply elem_of_dom.
    replace x with (a + (x - a)) by lia. apply H. lia. }
  apply subseteq_size in Hsub. rewrite size_list_to_set, length_seqZ in Hsub by apply NoDup_seqZ. lia.
Qed.

Lemma cstr_rounds m a l : cstr m a l -> (length l < size m)%nat.
Proof. intros H. apply (mapped_size _ a). intros i Hi. apply (cstr_at m a l); [done|lia]. Qed.

(** ** [strlen] and [strcmp] *)

Lemma strlen_loop_eq m s l k n : cstr m s l -> (length l < k)%nat -> strlen_loop k s n m = Ret (n + Z.of_nat (length l)) m.
Proof.
  revert s k n. induction l as [|b l IH]; intros s k n Hl Hk; (destruct k as [|k]; [cbn in Hk; lia|]); cbn [strlen_loop].
  - erewrite bind_Ret by (by apply ld_eq). cbn. by rewrite Z.add_0_r.
  - destruct Hl as (Hb & Hb0 & Hl). erewrite bind_Ret by (by apply ld_eq).
    destruct (Z.eqb_spec b 0); [lia|]. cbn [negb]. rewrite IH by (done || cbn in Hk; lia).
    f_equal. cbn [length]. lia.
Qed.

Lemma strlen_eq m s l : cstr m s l -> strlen s m = Ret (Z.of_nat (length l)) m.
Proof.
  intros H. unfold strlen. erewrite bind_Ret by reflexivity.
  rewrite (strlen_loop_eq m s l) by (done || pose proof (cstr_rounds _ _ _ H); lia). done.
Qed.

(** The difference [strcmp] returns. *)
Fixpoint lcmp (p q : list Z) : Z :=
  match p, q with
  | [], [] => 0
  | [], b :: _ => - b
  | a :: _, [] => a
  | a :: p', b :: q' => if a =? b then lcmp p' q' else a - b
  end.

(** Lexicographic order. *)
Inductive lex_lt : list Z -> list Z -> Prop :=
  | lex_nil b q : lex_lt [] (b :: q)
  | lex_head a p b q : a < b -> lex_lt (a :: p) (b :: q)
  | lex_tail a p q : lex_lt p q -> lex_lt (a :: p) (a :: q).

Lemma lcmp_spec m p q lp lq : cstr m p lp -> cstr m q lq ->
  (lcmp lp lq = 0 <-> lp = lq) /\ (lcmp lp lq < 0 <-> lex_lt lp lq).
Proof.
  revert p q lq. induction lp as [|a lp IH]; intros p q [|b lq]; cbn [cstr lcmp].
  - intros _ _. split; [done|]. split; [lia|inversion 1].
  - intros _ (_ & Hb & _). split; [split; [lia|done]|]. split; [constructor|lia].
  - intros (_ & Ha & _) _. split; [split; [lia|done]|]. split; [lia|inversion 1].
  - intros (_ & Ha & Hp) (_ & Hb & Hq). destruct (IH _ _ _ Hp Hq) as [Heq Hlt].
    destruct (Z.eqb_spec a b) as [->|Hne].
    + rewrite Heq, Hlt. split; [naive_solver|]. split; [by constructor|]. inversion 1; subst; (lia || done).
    + split; [split; [lia|naive_solver]|]. split; [intros; constructor; lia|]. inversion 1; subst; (lia || done).
Qed.

Lemma strcmp_loop_eq m p q lp lq k :
  cstr m p lp -> cstr m q lq -> (length lp < k)%nat -> strcmp_loop k p q m = Ret (lcmp lp lq) m.
Proof.
  revert p q lq k. induction lp as [|a lp IH]; intros p q lq k Hp Hq Hk;
    (destruct k as [|k]; [cbn in Hk; lia|]); cbn [strcmp_loop].
  - cbn [cstr] in Hp. erewrite bind_Ret by (by apply ld_eq). cbn [Z.eqb]. destruct lq as [|b lq].
    + by erewrite bind_Ret by (by apply ld_eq).
    + destruct Hq as (Hb & _). by erewrite bind_Ret by (by apply ld_eq).
  - destruct Hp as (Ha & Ha0 & Hp). erewrite bind_Ret by (by apply ld_eq).
    destruct (Z.eqb_spec a 0); [lia|]. destruct lq as [|b lq]; cbn [cstr lcmp] in *.
    + erewrite bind_Ret by (by apply ld_eq). destruct (Z.eqb_spec a 0); [lia|]. by rewrite Z.sub_0_r.
    + destruct Hq as (Hb & _ & Hq). erewrite bind_Ret by (by apply ld_eq).
      destruct (Z.eqb_spec a b); [|done]. apply IH; (done || cbn in Hk; lia).
Qed.

(** C35: [strcmp] compares two C strings as sequences of unsigned characters: it
    returns 0 exactly when they are equal and a negative number exactly when
    the first comes before the second in lexicographic order. *)
Theorem strcmp_correct m p q lp lq :
  cstr m p lp -> cstr m q lq ->
  exists r, strcmp p q m = Ret r m /\ (r = 0 <-> lp = lq) /\ (r < 0 <-> lex_lt lp lq).
Proof.
  intros Hp Hq. exists (lcmp lp lq). split; [|by apply (lcmp_spec m p q)].
  unfold strcmp. erewrite bind_Ret by reflexivity.
  apply strcmp_loop_eq; [done|done|]. pose proof (cstr_rounds _ _ _ Hp). lia.
Qed.

Lemma strcmp_correct_witness :
  exists r, strcmp 16 32 (list_to_map [(16, 97); (17, 0); (32, 97); (33, 98); (34, 0)]) = Ret r
    (list_to_map [(16, 97); (17, 0); (32, 97); (33, 98); (34, 0)]) /\ r < 0.
Proof.
  destruct (strcmp_correct (list_to_map [(16, 97); (17, 0); (32, 97); (33, 98); (34, 0)]) 16 32 [97] [97; 98])
    as (r & Hr & _ & Hlt); [cbn [cstr]; split_and!; (reflexivity || lia)..|].
  exists r. split; [exact Hr|]. apply Hlt. apply lex_tail, lex_nil.
Defined.

(** ** Copying blocks *)

(** [m'] is [m] with the [n] bytes from [s] on copied to [d]. *)
Definition copied (m m' : mem) (d s n : Z) : Prop :=
  (forall i, 0 <= i < n -> m' !! (d + i) = m !! (s + i)) /\
  (forall a, ~ d <= a < d + n -> m' !! a = m !! a).

Lemma copied_typed m m' d s n : bytes_ok m -> mapped m s n -> copied m m' d s n -> bytes_ok m'.
Proof.
  intros Hm Hs [Hin Hout] a b Ha. destruct (decide (d <= a < d + n)).
  - replace a with (d + (a - d)) in Ha by lia. rewrite Hin in Ha by lia. by apply (Hm _ _ Ha).
  - rewrite Hout in Ha by done. by apply (Hm _ _ Ha).
Qed.

Lemma copied_mapped m m' d s n a k : copied m m' d s n -> mapped m s n -> mapped m a k -> mapped m' a k.
Proof.
  intros [Hin Hout] Hs Ha i Hi. destruct (decide (d <= a + i < d + n)).
  - replace (a + i) with (d + (a + i - d)) by lia. rewrite Hin by lia. apply Hs. lia.
  - rewrite Hout by done. by apply Ha.
Qed.

Lemma ldn_eq w a m : mapped m a (Z.of_nat w) ->
  exists l, ldn w a m = Ret l m /\ length l = w /\ (forall i, (i < w)%nat -> l !! i = m !! (a + Z.of_nat i)).
Proof.
  revert a. induction w as [|w IH]; intros a Ha; [exists []; split; [done|split; [done|lia]]|].
  destruct (Ha 0) as [b Hb]; [lia|]. rewrite Z.add_0_r in Hb.
  destruct (IH (a + 1)) as (l & Hl & Hlen & Hlk).
  { intros i Hi. replace (a + 1 + i) with (a + (i + 1)) by lia. apply Ha. lia. }
  exists (b :: l). split; [|split; [cbn; lia|]].
  - cbn [ldn]. erewrite bind_Ret by (by apply ld_eq). by erewrite bind_Ret by exact Hl.
  - intros [|i] Hi.
    + by rewrite Z.add_0_r.
    + change ((b :: l) !! S i) with (l !! i). rewrite (Hlk i) by lia. f_equal. lia.
Qed.

Lemma stn_eq l a m : mapped m a (Z.of_nat (length l)) ->
  exists m', stn a l m = Ret tt m' /\
    (forall i b, l !! i = Some b -> m' !! (a + Z.of_nat i) = Some (u8 b)) /\
    (forall x, ~ a <= x < a + Z.of_nat (length l) -> m' !! x = m !! x).
Proof.
  revert a m. induction l as [|b l IH]; intros a m Ha; [by exists m|]. cbn [length] in Ha.
  assert (is_Some (m !! a)) as Hs by (rewrite <- (Z.add_0_r a); apply Ha; lia).
  destruct (IH (a + 1) (<[a := u8 b]> m)) as (m' & Hm' & Hin & Hout).
  { intros i Hi. rewrite lookup_insert_ne by lia. replace (a + 1 + i) with (a + (i + 1)) by lia. apply Ha. lia. }
  exists m'. split; [|split].
  - cbn [stn]. by erewrite bind_Ret by (by apply st_eq).
  - intros [|i] c; cbn.
    + intros [= <-]. rewrite Z.add_0_r, Hout by lia. apply lookup_insert_eq.
    + intros Hi. rewrite <- (Hin i c Hi). f_equal. lia.
  - intros x Hx. cbn [length] in Hx. rewrite Hout by lia. apply lookup_insert_ne. lia.
Qed.

(** One string instruction: all its bytes are loaded before they are stored. *)
Lemma movs_eq w d s m :
  bytes_ok m -> mapped m s (Z.of_nat w) -> mapped m d (Z.of_nat w) ->
  exists m', (l ← ldn w s; stn d l) m = Ret tt m' /\ copied m m' d s (Z.of_nat w).
Proof.
  intros Hb Hs Hd. destruct (ldn_eq w s m Hs) as (l & Hl & Hlen & Hlk).
  destruct (stn_eq l d m) as (m' & Hm' & Hin & Hout); [by rewrite Hlen|].
  exists m'. split; [by erewrite bind_Ret by exact Hl|]. rewrite Hlen in Hout. split; [|exact Hout].
  intros i Hi. destruct (Hs i Hi) as [b Hbi]. rewrite Hbi.
  replace i with (Z.of_nat (Z.to_nat i)) by lia. replace i with (Z.of_nat (Z.to_nat i)) in Hbi by lia.
  rewrite (Hin (Z.to_nat i) b) by (rewrite Hlk by lia; exact Hbi). f_equal. apply u8_id. by apply (Hb _ _ Hbi).
Qed.

Lemma mapped_sub m a n b k : mapped m a n -> a <= b -> b + k <= a + n -> mapped m b k.
Proof. intros H Hab Hle i Hi. replace (b + i) with (a + (b + i - a)) by lia. apply H. lia. Qed.

(** Forwards, when no byte is overwritten before it is read. *)
Lemma movs_forward k w d s m :
  let n := Z.of_nat k * Z.of_nat w in
  bytes_ok m -> mapped m s n -> mapped m d n -> d <= s \/ s + n <= d ->
  exists m', rep_movs k w (Z.of_nat w) d s m = Ret tt m' /\ copied m m' d s n.
Proof.
  cbv zeta. revert d s m. induction k as [|k IH]; intros d s m Hb Hs Hd Hor.
  { exists m. split; [done|]. split; [lia|done]. }
  set (W := Z.of_nat w) in *. assert (Z.of_nat (S k) * W = W + Z.of_nat k * W) as Hn by lia. rewrite Hn in *.
  assert (mapped m s W) as Hs1 by (apply (mapped_sub _ _ _ _ _ Hs); nia).
  assert (mapped m d W) as Hd1 by (apply (mapped_sub _ _ _ _ _ Hd); nia).
  destruct (movs_eq w d s m Hb Hs1 Hd1) as (m1 & Hm1 & Hc1). fold W in Hc1.
  destruct (IH (d + W) (s + W) m1) as (m2 & Hm2 & Hc2); [exact (copied_typed _ _ _ _ _ Hb Hs1 Hc1)| | |lia|].
  { eapply copied_mapped; [exact Hc1|exact Hs1|]. apply (mapped_sub _ _ _ _ _ Hs); lia. }
  { eapply copied_mapped; [exact Hc1|exact Hs1|]. apply (mapped_sub _ _ _ _ _ Hd); lia. }
  exists m2. split.
  - cbn [rep_movs]. unfold mbind, M_bind in Hm1 |- *. destruct (ldn w s m) as [l m0| | |]; [|done..]. by rewrite Hm1.
  - destruct Hc1 as [Hin1 Hout1], Hc2 as [Hin2 Hout2]. split.
    + intros i Hi. destruct (decide (i < W)).
      * rewrite Hout2 by lia. apply Hin1. lia.
      * replace (d + i) with (d + W + (i - W)) by lia. rewrite Hin2 by lia.
        rewrite Hout1 by nia. f_equal. lia.
    + intros a Ha. rewrite Hout2 by nia. apply Hout1. nia.
Qed.

(** Backwards, when the destination is above the source. *)
Lemma movs_backward k w d s m :
  let n := Z.of_nat k * Z.of_nat w in
  bytes_ok m -> mapped m s n -> mapped m d n -> s < d ->
  exists m', rep_movs k w (- Z.of_nat w) (d + n - Z.of_nat w) (s + n - Z.of_nat w) m = Ret tt m' /\
    copied m m' d s n.
Proof.
  cbv zeta. revert m. induction k as [|k IH]; intros m Hb Hs Hd Hlt.
  { exists m. split; [done|]. split; [lia|done]. }
  set (W := Z.of_nat w) in *. set (N := Z.of_nat k * W) in *.
  assert (Z.of_nat (S k) * W = W + N) as Hn by lia. rewrite Hn in *. assert (0 <= N) by nia.
  replace (d + (W + N) - W) with (d + N) by lia. replace (s + (W + N) - W) with (s + N) by lia.
  assert (mapped m (s + N) W) as Hs1 by (apply (mapped_sub _ _ _ _ _ Hs); lia).
  assert (mapped m (d + N) W) as Hd1 by (apply (mapped_sub _ _ _ _ _ Hd); lia).
  destruct (movs_eq w (d + N) (s + N) m Hb Hs1 Hd1) as (m1 & Hm1 & Hc1). fold W in Hc1.
  destruct (IH m1) as (m2 & Hm2 & Hc2); [exact (copied_typed _ _ _ _ _ Hb Hs1 Hc1)| | |done|].
  { eapply copied_mapped; [exact Hc1|exact Hs1|]. apply (mapped_sub _ _ _ _ _ Hs); lia. }
  { eapply copied_mapped; [exact Hc1|exact Hs1|]. apply (mapped_sub _ _ _ _ _ Hd); lia. }
  exists m2. split.
  - cbn [rep_movs]. unfold mbind, M_bind in Hm1 |- *. destruct (ldn w (s + N) m) as [l m0| | |]; [|done..]. rewrite Hm1.
    by replace (d + N + - W) with (d + N - W) by lia; replace (s + N + - W) with (s + N - W) by lia.
  - destruct Hc1 as [Hin1 Hout1], Hc2 as [Hin2 Hout2]. split.
    + intros i Hi. destruct (decide (i < N)).
      * rewrite Hin2 by lia. apply Hout1. lia.
      * rewrite Hout2 by lia. replace (d + i) with (d + N + (i - N)) by lia. rewrite Hin1 by lia. f_equal. lia.
    + intros a Ha. rewrite Hout2 by lia. apply Hout1. lia.
Qed.

(** C33: [memmove] copies its [n] bytes as they were before the call, however the
    two blocks overlap and whichever of its four copying loops runs, and
    changes no other byte. *)
Theorem memmove_correct m dst src n :
  bytes_ok m -> 0 <= n -> mapped m src n -> mapped m dst n ->
  exists m', memmove dst src n m = Ret dst m' /\ copied m m' dst src n.
Proof.
  intros Hb Hn Hs Hd. unfold memmove. pose proof (Z.div_mod n 4 ltac:(lia)) as Hdm.
  assert ((n mod 4 =? 0) = true -> Z.of_nat (Z.to_nat (n / 4)) * Z.of_nat 4 = n) as H4 by lia.
  assert (Z.of_nat (Z.to_nat n) * Z.of_nat 1 = n) as H1 by lia.
  pose proof (movs_backward (Z.to_nat (n / 4)) 4 dst src m) as B4.
  pose proof (movs_backward (Z.to_nat n) 1 dst src m) as B1.
  pose proof (movs_forward (Z.to_nat (n / 4)) 4 dst src m) as F4.
  pose proof (movs_forward (Z.to_nat n) 1 dst src m) as F1.
  cbv zeta in *. rewrite H1 in B1, F1.
  destruct (Z.ltb_spec src dst) as [Ha|Ha], (Z.ltb_spec dst (src + n)) as [Hc|Hc]; cbn [andb];
    destruct (_ && _ && _) eqn:E;
    try (apply andb_true_iff in E as [_ E]; rewrite (H4 E) in B4, F4);
    [destruct B4 as (m' & Hm & Hcp)|destruct B1 as (m' & Hm & Hcp)
    |destruct F4 as (m' & Hm & Hcp)|destruct F1 as (m' & Hm & Hcp)
    |destruct F4 as (m' & Hm & Hcp)|destruct F1 as (m' & Hm & Hcp)
    |destruct F4 as (m' & Hm & Hcp)|destruct F1 as (m' & Hm & Hcp)]; try done; try lia;
    exists m'; (split; [by erewrite bind_Ret by exact Hm|done]).
Qed.

Lemma memmove_correct_witness :
  exists m', memmove 101 100 3 (list_to_map [(100, 1); (101, 2); (102, 3); (103, 4)]) = Ret 101 m' /\
    m' !! 102 = Some 2 /\ m' !! 103 = Some 3.
Proof.
  destruct (memmove_correct (list_to_map [(100, 1); (101, 2); (102, 3); (103, 4)]) 101 100 3) as (m' & Hm & Hin & _).
  - intros a b Ha. cbn in Ha. rewrite !lookup_insert_Some, lookup_empty in Ha. naive_solver lia.
  - lia.
  - intros i Hi. assert (i = 0 \/ i = 1 \/ i = 2) as [-> | [-> | ->]] by lia; by eexists.
  - intros i Hi. assert (i = 0 \/ i = 1 \/ i = 2) as [-> | [-> | ->]] by lia; by eexists.
  - exists m'. split; [exact Hm|]. split; [exact (Hin 1 ltac:(lia))|exact (Hin 2 ltac:(lia))].
Defined.

(** ** [strlcpy] *)

Lemma cstr_insert_ne m a l x b :
  ~ a <= x <= a + Z.of_nat (length l) -> cstr m a l -> cstr (<[x := b]> m) a l.
Proof.
  revert a. induction l as [|c l IH]; intros a Hx; cbn [cstr length] in *.
  - intros Ha. rewrite lookup_insert_ne by lia. done.
  - intros (Ha & Hc & Hl). rewrite lookup_insert_ne by lia. split_and!; try done; [lia..|]. apply IH; [lia|done].
Qed.

Lemma strlcpy_loop_eq k dst src m l :
  cstr m src l -> mapped m dst (Z.of_nat k) ->
  dst + Z.of_nat k <= src \/ src + Z.of_nat (length l) < dst ->
  let r := Nat.min (length l) k in
  exists m', strlcpy_loop k dst src m = Ret (dst + Z.of_nat r) m' /\
    (forall i b, take r l !! i = Some b -> m' !! (dst + Z.of_nat i) = Some b) /\
    (forall a, ~ dst <= a < dst + Z.of_nat r -> m' !! a = m !! a).
Proof.
  cbv zeta. revert dst src m l. induction k as [|k IH]; intros dst src m l Hl Hd Hor.
  { exists m. rewrite Nat.min_0_r, take_0. change (Z.of_nat 0) with 0. rewrite Z.add_0_r. split_and!; done. }
  destruct l as [|b l]; cbn [strlcpy_loop length Nat.min].
  { cbn [cstr] in Hl. erewrite bind_Ret by (by apply ld_eq). cbn [negb Z.eqb]. exists m.
    change (Z.of_nat 0) with 0. rewrite Z.add_0_r. split_and!; done. }
  destruct Hl as (Hb & Hb0 & Hl). erewrite bind_Ret by (by apply ld_eq).
  destruct (Z.eqb_spec b 0); [lia|]. cbn [negb length] in *.
  assert (is_Some (m !! dst)) as Hs by (rewrite <- (Z.add_0_r dst); apply Hd; lia).
  erewrite bind_Ret by (by apply st_eq). rewrite u8_id by lia.
  assert (cstr (<[dst := b]> m) (src + 1) l) as Hl'.
  { apply cstr_insert_ne; [|done]. lia. }
  destruct (IH (dst + 1) (src + 1) (<[dst := b]> m) l Hl') as (m' & Hm' & Hin & Hout).
  { intros i Hi. apply lookup_insert_is_Some'. right. rewrite <- Z.add_assoc. apply Hd. lia. }
  { lia. }
  exists m'. split; [rewrite Hm'; f_equal; lia|]. split.
  - intros [|i] c; cbn.
    + intros [= <-]. rewrite Z.add_0_r, Hout by lia. apply lookup_insert_eq.
    + intros Hi. rewrite <- (Hin i c Hi). f_equal. lia.
  - intros a Ha. rewrite Hout by lia. apply lookup_insert_ne. lia.
Qed.

Lemma cstr_intro m a l : (forall i b, l !! i = Some b -> m !! (a + Z.of_nat i) = Some b /\ 0 < b < 256) ->
  m !! (a + Z.of_nat (length l)) = Some 0 -> cstr m a l.
Proof.
  revert a. induction l as [|b l IH]; intros a H H0; cbn [cstr length] in *.
  - by rewrite Z.add_0_r in H0.
  - destruct (H 0%nat b eq_refl) as [Hb Hb0]. rewrite Z.add_0_r in Hb. split_and!; [done|lia|lia|].
    apply IH.
    + intros i c Hi. replace (a + 1 + Z.of_nat i) with (a + Z.of_nat (S i)) by lia. by apply H.
    + replace (a + 1 + Z.of_nat (length l)) with (a + Z.of_nat (S (length l))) by lia. done.
Qed.

(** C34: whatever the source string is, a call of [strlcpy] with room for [size]
    bytes leaves a C string at [dst] that fits in them: the longest prefix that
    leaves room for the terminator, whose length it returns.  It stores nothing
    beyond the terminator. *)
Theorem strlcpy_correct m dst src size l :
  cstr m src l -> 0 < size -> mapped m dst size ->
  dst + size <= src \/ src + Z.of_nat (length l) < dst ->
  let r := Z.min (Z.of_nat (length l)) (size - 1) in
  exists m', strlcpy dst src size m = Ret r m' /\
    cstr m' dst (take (Z.to_nat r) l) /\ Z.of_nat (length (take (Z.to_nat r) l)) = r /\
    (forall a, ~ dst <= a <= dst + r -> m' !! a = m !! a).
Proof.
  intros Hl Hsz Hd Hor r. unfold strlcpy. destruct (Z.ltb_spec 0 size); [|lia].
  destruct (strlcpy_loop_eq (Z.to_nat (size - 1)) dst src m l Hl) as (m1 & Hm1 & Hin & Hout); [|lia|].
  { intros i Hi. apply Hd. lia. }
  replace (Nat.min (length l) (Z.to_nat (size - 1))) with (Z.to_nat r) in * by lia.
  rewrite Z2Nat.id in * by lia.
  erewrite bind_Ret by exact Hm1. erewrite bind_Ret by (apply st_eq; rewrite Hout by lia; apply Hd; lia).
  eexists. split; [unfold mret, M_ret; f_equal; lia|]. assert (length (take (Z.to_nat r) l) = Z.to_nat r) as Hlen
    by (rewrite length_take; lia).
  split; [|split; [lia|]].
  - apply cstr_intro.
    + intros i b Hi. assert (i < Z.to_nat r)%nat as Hir by (apply lookup_lt_Some in Hi; lia).
      rewrite lookup_insert_ne by lia. split; [by apply Hin|].
      rewrite lookup_take_lt in Hi by done. by apply (cstr_lookup m src l i b).
    + rewrite Hlen, Z2Nat.id by lia. by rewrite lookup_insert_eq.
  - intros a Ha. rewrite lookup_insert_ne by lia. apply Hout. lia.
Qed.

Lemma strlcpy_correct_witness :
  let m := list_to_map [(1, 7); (2, 7); (3, 7); (16, 97); (17, 98); (18, 99); (19, 0)] in
  exists m', strlcpy 1 16 3 m = Ret 2 m' /\ cstr m' 1 [97; 98].
Proof.
  cbv zeta. destruct (strlcpy_correct (list_to_map [(1, 7); (2, 7); (3, 7); (16, 97); (17, 98); (18, 99); (19, 0)])
    1 16 3 [97; 98; 99]) as (m' & Hm & Hs & _).
  - cbn [cstr]. split_and!; (reflexivity || lia).
  - lia.
  - intros i Hi. assert (i = 0 \/ i = 1 \/ i = 2) as [-> | [-> | ->]] by lia; by eexists.
  - left. lia.
  - exists m'. split; [exact Hm|exact Hs].
Defined.

(** ** Numbers *)

Lemma digit_char d : 0 <= d < 16 ->
  digit_value (digit d) = Some d /\ 48 <= digit d <= 102.
Proof.
  intros H. assert (Forall (fun d => digit_value (digit d) = Some d /\ 48 <= digit d <= 102) (seqZ 0 16)) as HF
    by (apply (bool_decide_unpack _); vm_compute; exact I).
  rewrite list.Forall_forall in HF. apply HF, elem_of_seqZ. lia.
Qed.

Definition value_from (base acc : Z) (ds : list Z) : Z := foldl (fun a d => a * base + d) acc ds.

Lemma value_from_ge base acc ds : 1 <= base -> 0 <= acc -> Forall (fun d => 0 <= d) ds -> acc <= value_from base acc ds.
Proof.
  intros Hb. revert acc. induction ds as [|d ds IH]; intros acc Ha Hds; cbn; [lia|].
  inversion Hds; subst. etrans; [|apply IH; [nia|done]]. nia.
Qed.

Lemma strtol_digits_eq k m a base val ds :
  2 <= base <= 16 -> Forall (fun d => 0 <= d < base) ds -> cstr m a (map digit ds) ->
  (length ds < k)%nat -> 0 <= val -> value_from base val ds < 2 ^ 31 ->
  strtol_digits k a base val m = Ret (a + Z.of_nat (length ds), value_from base val ds) m.
Proof.
  intros Hb Hds. revert k a val. induction Hds as [|d ds Hd Hds IH]; intros k a val Hc Hk Hv Hlt;
    (destruct k as [|k]; [cbn in Hk; lia|]); cbn [strtol_digits map cstr length] in *.
  - erewrite bind_Ret by (by apply ld_eq). cbn. by rewrite Z.add_0_r.
  - destruct Hc as (Hc & _ & Hcs). erewrite bind_Ret by (by apply ld_eq).
    destruct (digit_char d) as [-> _]; [lia|]. destruct (Z.leb_spec base d); [lia|].
    assert (val * base + d <= value_from base (val * base + d) ds) as Hge.
    { apply value_from_ge; [lia|nia|]. eapply Forall_impl; [|exact Hds]. cbn. lia. }
    change (value_from base val (d :: ds)) with (value_from base (val * base + d) ds) in *.
    rewrite (s32_id (val * base)), s32_id by nia. rewrite IH by (done || nia || lia). f_equal. f_equal. lia.
Qed.

(** Digits have no base prefix. *)
Lemma strtol_prefix_eq m b base d ds :
  2 <= base <= 16 -> Forall (fun d => 0 <= d < base) (d :: ds) -> cstr m b (map digit (d :: ds)) ->
  strtol_prefix b base m = Ret (b, base) m.
Proof.
  intros Hb Hds (Hd & _ & Hcd). unfold strtol_prefix. erewrite bind_Ret by (by apply ld_eq).
  destruct (Z.eqb_spec base 0); [lia|]. cbn [orb].
  destruct ((base =? 16) && (digit d =? 48)); [|by erewrite bind_Ret by reflexivity].
  assert (exists c, m !! (b + 1) = Some c /\ c <> 120) as (c & Hc1 & Hne).
  { destruct ds as [|d2 ds]; [by exists 0|]. destruct Hcd as (Hd2 & _). exists (digit d2). split; [done|].
    inversion Hds as [|??? Hds2]; subst. inversion Hds2; subst. destruct (digit_char d2); lia. }
  erewrite bind_Ret.
  2:{ by erewrite bind_Ret by (by apply ld_eq). }
  by destruct (Z.eqb_spec c 120).
Qed.

(** C36: what [printnum] prints [strtol] reads: given the printed digits of a
    number in a base up to 16, with or without a minus sign in front, it returns
    that number and the end of the string. *)
Theorem strtol_printnum m a num base padc (neg : bool) :
  2 <= base <= 16 -> 0 <= num < 2 ^ 31 ->
  let text := (if neg then [45] else []) ++ printnum 64 num base 0 padc in
  cstr m a text ->
  strtol a base m = Ret (if neg then - num else num, a + Z.of_nat (length text)) m.
Proof.
  intros Hb Hn text Hc. unfold text in *.
  destruct (printnum_digits 64 num base 0 padc) as (ds & Hp & Hds & Hval & Hlead); [lia..|].
  rewrite Hp in *. replace (Z.to_nat (0 - Z.of_nat (length ds))) with 0%nat in * by lia. cbn [replicate app] in *.
  assert (exists d ds', ds = d :: ds') as (d & ds' & Hcons) by (destruct Hlead as [->|(? & ? & -> & _)]; eauto).
  pose proof (cstr_rounds _ _ _ Hc) as Hk. rewrite length_app, length_map in *.
  set (b := a + Z.of_nat (length (if neg then [45] else []))).
  assert (cstr m b (map digit ds)) as Hcd by (unfold b; destruct neg; cbn [length app cstr] in *; [apply Hc|by rewrite Z.add_0_r]).
  assert (exists c, m !! b = Some (digit d)) as (_ & Hfirst) by (rewrite Hcons in Hcd; exists 0; apply Hcd).
  assert (48 <= digit d <= 102) as Hdc by (apply digit_char; rewrite Hcons in Hds; inversion Hds; lia).
  unfold strtol. erewrite bind_Ret by reflexivity.
  (* no blanks *)
  erewrite bind_Ret.
  2:{ cbn [skip_blanks]. destruct neg; cbn [app cstr] in Hc.
      - destruct Hc as (Hc0 & _). by erewrite bind_Ret by (by apply ld_eq).
      - replace b with a in Hfirst by (unfold b; cbn; lia). erewrite bind_Ret by (by apply ld_eq).
        destruct (Z.eqb_spec (digit d) 32), (Z.eqb_spec (digit d) 9); (lia || reflexivity). }
  erewrite bind_Ret.
  2:{ apply (ld_eq m a (if neg then 45 else digit d)). destruct neg; [apply Hc|]. by replace b with a in Hfirst by (unfold b; cbn; lia). }
  assert ((if (if neg then 45 else digit d) =? 43 then (a + 1, false)
      else if (if neg then 45 else digit d) =? 45 then (a + 1, true) else (a, false)) = (b, neg)) as ->.
  { unfold b. destruct neg; cbn [length]; [done|]. destruct (Z.eqb_spec (digit d) 43), (Z.eqb_spec (digit d) 45); try lia. f_equal. lia. }
  cbv beta iota.
  (* no prefix *)
  erewrite (bind_Ret (strtol_prefix b base) _ m (b, base) m).
  2:{ rewrite Hcons in Hcd, Hds. by apply (strtol_prefix_eq m b base d ds'). }
  cbv beta iota.
  assert (value_from base 0 ds = num) as Hvf by exact Hval.
  erewrite bind_Ret by (apply strtol_digits_eq; (done || lia)).
  cbv beta iota. rewrite Hvf. unfold mret, M_ret, b. f_equal. f_equal; [|lia].
  destruct neg; [apply s32_id; lia|done].
Qed.

Lemma strtol_printnum_witness :
  let m := list_to_map [(7, 45); (8, 50); (9, 97); (10, 0)] in strtol 7 16 m = Ret (-42, 10) m.
Proof.
  cbv zeta. apply (strtol_printnum _ 7 42 16 32 true); [lia|lia|].
  change ([45] ++ printnum 64 42 16 0 32) with [45; 50; 97].
  cbn [cstr]. split_and!; (reflexivity || lia).
Defined.
