(* ===== verification/Console.v ===== *)
(** * The console and its interrupt controller: [kern/console.c],
    [kern/picirq.c], [kern/kclock.c]

    The input ring buffer, the serial port, the keyboard's scan code decoder,
    and the text display, on one record [console] that holds the file's static
    variables.

    Devices.  [com1] and [kbd] are the bytes the UART and the keyboard
    controller have received and not yet handed over: the status port says
    whether there is one, and reading the data port takes the first.  Writes
    to ports are kept in [ports], newest first.  [delay] reads a port that has
    no effect. *)

From Stdlib Require Import Lia ZArith ZifyClasses ZifyInst ZifyBool.
From stdpp Require Import base gmap list strings numbers.
From S2P Require Import Prelude Cmonad Printfmt.

Record console := mkConsole {
  cbuf : gmap Z Z; rpos : Z; wpos : Z;           (* static struct cons *)
  shift : Z;                                     (* static in kbd_proc_data *)
  serial_exists : bool;
  addr_6845 : Z; crt_buf : gmap Z Z; crt_pos : Z;
  irq_mask_8259A : Z; didinit : bool;            (* kern/picirq.c *)
  com1 : list Z; kbd : list Z; ports : list (Z * Z)
}.
#[export] Instance eta_console : Eta console := fun r =>
  mkConsole (cbuf r) (rpos r) (wpos r) (shift r) (serial_exists r) (addr_6845 r)
    (crt_buf r) (crt_pos r) (irq_mask_8259A r) (didinit r) (com1 r) (kbd r) (ports r).

Section Console.
Context {X : Type}.
Abbreviation C := (M console X).

Definition outb (port data : Z) : C unit := modify (upd ports (cons (port, u8 data))).

(** ** Serial port *)

Definition COM1 : Z := 0x3F8.
Definition COM_RX : Z := 0.
Definition COM_TX : Z := 0.
Definition COM_DLL : Z := 0.
Definition COM_DLM : Z := 1.
Definition COM_IER : Z := 1.
Definition COM_IER_RDI : Z := 0x01.
Definition COM_FCR : Z := 2.
Definition COM_LCR : Z := 3.
Definition COM_LCR_DLAB : Z := 0x80.
Definition COM_LCR_WLEN8 : Z := 0x03.
Definition COM_MCR : Z := 4.

Definition serial_proc_data : C Z :=
  rx ← gets com1;
  match rx with
  | [] => mret (-1)
  | b :: rx' => modify (put com1 rx') ;; mret b
  end.

(** The wait for the transmitter polls the status port at most 12800 times
    and then sends whether or not it is ready: only the write is an effect. *)
Definition serial_putc (c : Z) : C unit := outb (COM1 + COM_TX) c.

(** [lsr] is what the line status register holds at start-up. *)
Definition serial_init (lsr : Z) : C unit :=
  outb (COM1 + COM_FCR) 0 ;;
  outb (COM1 + COM_LCR) COM_LCR_DLAB ;;
  outb (COM1 + COM_DLL) (115200 / 9600) ;;
  outb (COM1 + COM_DLM) 0 ;;
  outb (COM1 + COM_LCR) (Z.land COM_LCR_WLEN8 (Z.lnot COM_LCR_DLAB)) ;;
  outb (COM1 + COM_MCR) 0 ;;
  outb (COM1 + COM_IER) COM_IER_RDI ;;
  modify (put serial_exists (negb (lsr =? 0xFF))) ;;
  modify (upd com1 (drop 1)).

(** ** Parallel port *)

Definition lpt_putc (c : Z) : C unit :=
  outb 0x378 c ;; outb (0x378 + 2) (Z.lor (Z.lor 0x08 0x04) 0x01) ;; outb (0x378 + 2) 0x08.

(** ** Display *)

Definition MONO_BASE : Z := 0x3B4.
Definition CGA_BASE : Z := 0x3D4.
Definition CRT_COLS : Z := 80.
Definition CRT_ROWS : Z := 25.
Definition CRT_SIZE : Z := CRT_ROWS * CRT_COLS.

(** [has_cga]: memory at [CGA_BUF] keeps what is written; [hi] and [lo] are
    the cursor registers; [mem] the contents of the buffer found. *)
Definition cga_init (has_cga : bool) (hi lo : Z) (mem : gmap Z Z) : C unit :=
  let base := if has_cga then CGA_BASE else MONO_BASE in
  modify (put addr_6845 base) ;;
  outb base 14 ;; outb base 15 ;;
  modify (put crt_buf mem) ;;
  modify (put crt_pos (u16 (Z.lor (Z.shiftl hi 8) lo))).

(** One line up: [memmove] and the blanking loop. *)
Definition crt_scroll (m : gmap Z Z) : gmap Z Z :=
  foldl (fun m' i =>
    <[i := if i <? CRT_SIZE - CRT_COLS then default 0 (m !! (i + CRT_COLS)) else Z.lor 0x0700 32]> m')
    m (seqZ 0 CRT_SIZE).

Definition cga_tail : C unit :=
  pos ← gets crt_pos;
  when (CRT_SIZE <=? pos)
    (modify (upd crt_buf crt_scroll) ;; modify (put crt_pos (u16 (pos - CRT_COLS)))) ;;
  base ← gets addr_6845;
  pos ← gets crt_pos;
  outb base 14 ;; outb (base + 1) (Z.shiftr pos 8) ;;
  outb base 15 ;; outb (base + 1) pos.

(** The part of [cga_putc] before the scroll, except for tabs. *)
Definition cga_char (c : Z) : C unit :=
  pos ← gets crt_pos;
  if Z.land c 0xff =? 8 then                                    (* \b *)
    when (0 <? pos)
      (modify (put crt_pos (u16 (pos - 1))) ;;
       modify (upd crt_buf (insert (u16 (pos - 1)) (u16 (Z.lor (Z.land c (Z.lnot 0xff)) 32)))))
  else if Z.land c 0xff =? 10 then                              (* \n, falling through to \r *)
    let pos := u16 (pos + CRT_COLS) in modify (put crt_pos (u16 (pos - pos mod CRT_COLS)))
  else if Z.land c 0xff =? 13 then                              (* \r *)
    modify (put crt_pos (u16 (pos - pos mod CRT_COLS)))
  else
    modify (upd crt_buf (insert pos (u16 c))) ;; modify (put crt_pos (u16 (pos + 1))).

Definition cga_attr (c : Z) : Z :=
  if Z.land c (Z.lnot 0xFF) =? 0 then Z.lor c 0x0700 else c.

Definition cons_putc_plain (c : Z) : C unit :=
  serial_putc c ;; lpt_putc c ;; cga_char (cga_attr c) ;; cga_tail.

(** A tab prints five spaces through [cons_putc], which is recursive only there. *)
Definition cga_putc (c : Z) : C unit :=
  let c := cga_attr c in
  (if Z.land c 0xff =? 9 then
     cons_putc_plain 32 ;; cons_putc_plain 32 ;; cons_putc_plain 32 ;;
     cons_putc_plain 32 ;; cons_putc_plain 32
   else cga_char c) ;;
  cga_tail.

Definition cons_putc (c : Z) : C unit := serial_putc c ;; lpt_putc c ;; cga_putc c.
Definition cputchar (c : Z) : C unit := cons_putc c.

(** The kernel's [cprintf]: the characters of [vprintfmt] go to [cputchar] in turn. *)
Fixpoint cons_puts (l : list Z) : C unit :=
  match l with [] => mret tt | c :: l' => cputchar c ;; cons_puts l' end.

Definition kprint (fmt : list Z) (ap : list varg) : C unit :=
  match vprintfmt fmt ap with
  | POk out => cons_puts out
  | _ => undef "bad cprintf arguments"
  end.

(** ** Keyboard *)

Definition NO : Z := 0.
Definition SHIFT : Z := Z.shiftl 1 0.
Definition CTL : Z := Z.shiftl 1 1.
Definition ALT : Z := Z.shiftl 1 2.
Definition CAPSLOCK : Z := Z.shiftl 1 3.
Definition NUMLOCK : Z := Z.shiftl 1 4.
Definition SCROLLLOCK : Z := Z.shiftl 1 5.
Definition E0ESC : Z := Z.shiftl 1 6.

Definition KEY_HOME : Z := 0xE0.
Definition KEY_END : Z := 0xE1.
Definition KEY_UP : Z := 0xE2.
Definition KEY_DN : Z := 0xE3.
Definition KEY_LF : Z := 0xE4.
Definition KEY_RT : Z := 0xE5.
Definition KEY_PGUP : Z := 0xE6.
Definition KEY_PGDN : Z := 0xE7.
Definition KEY_INS : Z := 0xE8.
Definition KEY_DEL : Z := 0xE9.

(** A table given by its first entries and by designated ones; the others are 0. *)
Definition table (first : list Z) (rest : list (Z * Z)) (i : Z) : Z :=
  match List.find (fun p => p.1 =? i) rest with
  | Some p => p.2
  | None => nth (Z.to_nat i) first 0
  end.

Definition shiftcode : Z -> Z :=
  table [] [(0x1D, CTL); (0x2A, SHIFT); (0x36, SHIFT); (0x38, ALT); (0x9D, CTL); (0xB8, ALT)].

Definition togglecode : Z -> Z :=
  table [] [(0x3A, CAPSLOCK); (0x45, NUMLOCK); (0x46, SCROLLLOCK)].

Definition special_keys : list (Z * Z) :=
  [(0xC7, KEY_HOME); (0x9C, 10); (0xB5, ch "/"); (0xC8, KEY_UP); (0xC9, KEY_PGUP);
   (0xCB, KEY_LF); (0xCD, KEY_RT); (0xCF, KEY_END); (0xD0, KEY_DN); (0xD1, KEY_PGDN);
   (0xD2, KEY_INS); (0xD3, KEY_DEL)].

Definition normalmap : Z -> Z :=
  table
   [NO; 0x1B; ch "1"; ch "2"; ch "3"; ch "4"; ch "5"; ch "6";
    ch "7"; ch "8"; ch "9"; ch "0"; ch "-"; ch "="; 8; 9;
    ch "q"; ch "w"; ch "e"; ch "r"; ch "t"; ch "y"; ch "u"; ch "i";
    ch "o"; ch "p"; ch "["; ch "]"; 10; NO; ch "a"; ch "s";
    ch "d"; ch "f"; ch "g"; ch "h"; ch "j"; ch "k"; ch "l"; ch ";";
    39; ch "`"; NO; ch "\"; ch "z"; ch "x"; ch "c"; ch "v";
    ch "b"; ch "n"; ch "m"; ch ","; ch "."; ch "/"; NO; ch "*";
    NO; ch " "; NO; NO; NO; NO; NO; NO;
    NO; NO; NO; NO; NO; NO; NO; ch "7";
    ch "8"; ch "9"; ch "-"; ch "4"; ch "5"; ch "6"; ch "+"; ch "1";
    ch "2"; ch "3"; ch "0"; ch "."; NO; NO; NO; NO] special_keys.

Definition shiftmap : Z -> Z :=
  table
   [NO; 27; ch "!"; ch "@"; ch "#"; ch "$"; ch "%"; ch "^";
    ch "&"; ch "*"; ch "("; ch ")"; ch "_"; ch "+"; 8; 9;
    ch "Q"; ch "W"; ch "E"; ch "R"; ch "T"; ch "Y"; ch "U"; ch "I";
    ch "O"; ch "P"; ch "{"; ch "}"; 10; NO; ch "A"; ch "S";
    ch "D"; ch "F"; ch "G"; ch "H"; ch "J"; ch "K"; ch "L"; ch ":";
    34; ch "~"; NO; ch "|"; ch "Z"; ch "X"; ch "C"; ch "V";
    ch "B"; ch "N"; ch "M"; ch "<"; ch ">"; ch "?"; NO; ch "*";
    NO; ch " "; NO; NO; NO; NO; NO; NO;
    NO; NO; NO; NO; NO; NO; NO; ch "7";
    ch "8"; ch "9"; ch "-"; ch "4"; ch "5"; ch "6"; ch "+"; ch "1";
    ch "2"; ch "3"; ch "0"; ch "."; NO; NO; NO; NO] special_keys.

(** [#define C(x) (x - '@')], in a [uint8_t] table. *)
Definition ctl (s : string) : Z := u8 (ch s - ch "@").

Definition ctlmap : Z -> Z :=
  table
   [NO; NO; NO; NO; NO; NO; NO; NO;
    NO; NO; NO; NO; NO; NO; NO; NO;
    ctl "Q"; ctl "W"; ctl "E"; ctl "R"; ctl "T"; ctl "Y"; ctl "U"; ctl "I";
    ctl "O"; ctl "P"; NO; NO; 13; NO; ctl "A"; ctl "S";
    ctl "D"; ctl "F"; ctl "G"; ctl "H"; ctl "J"; ctl "K"; ctl "L"; NO;
    NO; NO; NO; ctl "\"; ctl "Z"; ctl "X"; ctl "C"; ctl "V";
    ctl "B"; ctl "N"; ctl "M"; NO; NO; ctl "/"; NO; NO]
   [(0x97, KEY_HOME); (0xB5, ctl "/"); (0xC8, KEY_UP); (0xC9, KEY_PGUP); (0xCB, KEY_LF);
    (0xCD, KEY_RT); (0xCF, KEY_END); (0xD0, KEY_DN); (0xD1, KEY_PGDN);
    (0xD2, KEY_INS); (0xD3, KEY_DEL)].

Definition charcode (i : Z) : Z -> Z :=
  if i =? 0 then normalmap else if i =? 1 then shiftmap else ctlmap.

(** One scan code: the new shift state and the character, 0 for none. *)
Definition kbd_decode (sh data : Z) : Z * Z :=
  if data =? 0xE0 then (Z.lor sh E0ESC, 0)
  else if tst data 0x80 then
    let data := if tst sh E0ESC then data else Z.land data 0x7F in
    (Z.land sh (Z.lnot (Z.lor (shiftcode data) E0ESC)), 0)
  else
    let esc := tst sh E0ESC in
    let data := if esc then Z.lor data 0x80 else data in
    let sh := if esc then Z.land sh (Z.lnot E0ESC) else sh in
    let sh := Z.lxor (Z.lor sh (shiftcode data)) (togglecode data) in
    let c := charcode (Z.land sh (Z.lor CTL SHIFT)) data in
    let c :=
      if tst sh CAPSLOCK then
        if (ch "a" <=? c) && (c <=? ch "z") then c + (ch "A" - ch "a")
        else if (ch "A" <=? c) && (c <=? ch "Z") then c + (ch "a" - ch "A")
        else c
      else c in
    (sh, c).

Definition kbd_proc_data : C Z :=
  q ← gets kbd;
  match q with
  | [] => mret (-1)
  | data :: q' =>
      modify (put kbd q') ;;
      sh ← gets shift;
      let '(sh', c) := kbd_decode sh data in
      modify (put shift sh') ;;
      (* Ctrl-Alt-Del, only for a key press *)
      when (negb (data =? 0xE0) && negb (tst data 0x80) &&
            negb (tst (Z.lnot sh') (Z.lor CTL ALT)) && (c =? KEY_DEL))
        (kprint (chars "Rebooting!" ++ [10]) [] ;; outb 0x92 0x3) ;;
      mret c
  end.

(** ** The input buffer *)

Definition CONSBUFSIZE : Z := 512.

Definition cons_put (c : Z) : C unit :=
  w ← gets wpos;
  modify (upd cbuf (insert w (u8 c))) ;;
  modify (put wpos (if u32 (w + 1) =? CONSBUFSIZE then 0 else u32 (w + 1))).

(** The loop ends at the first [-1]; each round before it consumes a byte
    the device holds, so one more round than bytes is enough fuel. *)
Fixpoint cons_intr (fuel : nat) (proc : C Z) : C unit :=
  match fuel with
  | O => undef "loop bound"
  | S fuel' =>
      c ← proc;
      if c =? -1 then mret tt
      else when (negb (c =? 0)) (cons_put c) ;; cons_intr fuel' proc
  end.

Definition serial_intr : C unit :=
  ex ← gets serial_exists;
  rx ← gets com1;
  when ex (cons_intr (S (length rx)) serial_proc_data).

Definition kbd_intr : C unit :=
  q ← gets kbd;
  cons_intr (S (length q)) kbd_proc_data.

Definition cons_getc : C Z :=
  serial_intr ;;
  kbd_intr ;;
  r ← gets rpos;
  w ← gets wpos;
  if negb (r =? w) then
    b ← gets cbuf;
    modify (put rpos (if u32 (r + 1) =? CONSBUFSIZE then 0 else u32 (r + 1))) ;;
    mret (default 0 (b !! r))
  else mret 0.

(** ** The interrupt controller *)

Definition IO_PIC1 : Z := 0x20.
Definition IO_PIC2 : Z := 0xA0.
Definition IRQ_SLAVE : Z := 2.
Definition PIC_OFFSET : Z := 32.   (* IRQ_OFFSET *)

Fixpoint print_irqs (n : nat) (i mask : Z) : C unit :=
  match n with
  | O => mret tt
  | S n' =>
      when (tst (Z.lnot mask) (Z.shiftl 1 i)) (kprint (chars " %d") [AInt i]) ;;
      print_irqs n' (i + 1) mask
  end.

Definition irq_setmask_8259A (mask : Z) : C unit :=
  modify (put irq_mask_8259A (u16 mask)) ;;
  init ← gets didinit;
  when init
    (outb (IO_PIC1 + 1) (u16 mask) ;;
     outb (IO_PIC2 + 1) (Z.shiftr (u16 mask) 8) ;;
     kprint (chars "enabled interrupts:") [] ;;
     print_irqs 16 0 (u16 mask) ;;
     kprint [10] []).

Definition pic_init : C unit :=
  modify (put didinit true) ;;
  outb (IO_PIC1 + 1) 0xFF ;; outb (IO_PIC2 + 1) 0xFF ;;
  outb IO_PIC1 0x11 ;; outb (IO_PIC1 + 1) PIC_OFFSET ;;
  outb (IO_PIC1 + 1) (Z.shiftl 1 IRQ_SLAVE) ;; outb (IO_PIC1 + 1) 0x3 ;;
  outb IO_PIC2 0x11 ;; outb (IO_PIC2 + 1) (PIC_OFFSET + 8) ;;
  outb (IO_PIC2 + 1) IRQ_SLAVE ;; outb (IO_PIC2 + 1) 0x01 ;;
  outb IO_PIC1 0x68 ;; outb IO_PIC1 0x0a ;;
  outb IO_PIC2 0x68 ;; outb IO_PIC2 0x0a ;;
  mask ← gets irq_mask_8259A;
  when (negb (mask =? 0xFFFF)) (irq_setmask_8259A mask).

(** ** Start-up *)

Definition kbd_init : C unit :=
  kbd_intr ;;
  mask ← gets irq_mask_8259A;
  irq_setmask_8259A (Z.land mask (Z.lnot (Z.shiftl 1 1))).

Definition cons_init (has_cga : bool) (hi lo : Z) (mem : gmap Z Z) (lsr : Z) : C unit :=
  cga_init has_cga hi lo mem ;;
  kbd_init ;;
  serial_init lsr ;;
  ex ← gets serial_exists;
  when (negb ex) (kprint (chars "Serial port does not exist!" ++ [10]) []).

(** ** The real-time clock's memory; [rtc] is its contents *)

Definition IO_RTC : Z := 0x070.

Definition mc146818_read (rtc : Z -> Z) (reg : Z) : C Z :=
  outb IO_RTC reg ;; mret (u8 (rtc (u8 reg))).

Definition mc146818_write (reg datum : Z) : C unit :=
  outb IO_RTC reg ;; outb (IO_RTC + 1) datum.
End Console.

(** The console before [cons_init]: static variables at their initial values. *)
Definition console0 : console :=
  mkConsole ∅ 0 0 0 false 0 ∅ 0 (Z.land 0xFFFF (Z.lnot (Z.shiftl 1 IRQ_SLAVE))) false [] [] [].

(** ** The input buffer as a queue *)

Definition ring_ok (c : console) : Prop := 0 <= rpos c < 512 /\ 0 <= wpos c < 512.

(** The characters waiting, oldest first. *)
Definition queued (c : console) : list Z :=
  (fun k => default 0 (cbuf c !! ((rpos c + k) mod 512))) <$> seqZ 0 ((wpos c - rpos c) mod 512).

Lemma queued_length c : length (queued c) = Z.to_nat ((wpos c - rpos c) mod 512).
Proof. unfold queued. by rewrite length_fmap, length_seqZ. Qed.

(** The ring and what the producers read are separate. *)
Definition same_ring (c c' : console) : Prop :=
  cbuf c' = cbuf c /\ rpos c' = rpos c /\ wpos c' = wpos c.

Lemma same_ring_queued c c' : same_ring c c' -> queued c' = queued c /\ (ring_ok c -> ring_ok c').
Proof. intros (Hb & Hr & Hw). unfold queued, ring_ok. by rewrite Hb, Hr, Hw. Qed.

Definition after_put (v : Z) (c : console) : console :=
  put wpos (if wpos c + 1 =? 512 then 0 else wpos c + 1) (upd cbuf (insert (wpos c) (u8 v)) c).

Lemma cons_put_eq {X} v c : ring_ok c -> @cons_put X v c = Ret tt (after_put v c).
Proof.
  intros [Hr Hw]. unfold cons_put, mbind, M_bind, gets, modify, after_put.
  rewrite u32_id by lia. done.
Qed.

Lemma after_put_ok v c : ring_ok c -> ring_ok (after_put v c).
Proof.
  intros [Hr Hw]. unfold ring_ok, after_put. cbn [rpos wpos put upd].
  destruct (Z.eqb_spec (wpos c + 1) 512); lia.
Qed.

(** One character in: it is last in the queue, unless the queue holds 511
    characters, and then the queue is empty. *)
Lemma after_put_queued v c :
  ring_ok c ->
  queued (after_put v c) =
    if decide (length (queued c) = 511%nat) then [] else queued c ++ [u8 v].
Proof.
  intros [Hr Hw]. rewrite queued_length.
  set (n := (wpos c - rpos c) mod 512).
  assert (0 <= n < 512) as Hn by (apply Z.mod_pos_bound; lia).
  assert ((rpos c + n) mod 512 = wpos c) as Hwn.
  { unfold n. rewrite Zplus_mod_idemp_r. replace (rpos c + (wpos c - rpos c)) with (wpos c) by lia.
    apply Z.mod_small. lia. }
  assert (forall w, w = (if wpos c + 1 =? 512 then 0 else wpos c + 1) -> (w - rpos c) mod 512 = (n + 1) mod 512) as Hlen.
  { intros w ->. unfold n. rewrite Zplus_mod_idemp_l.
    destruct (Z.eqb_spec (wpos c + 1) 512).
    - replace (wpos c - rpos c + 1) with (0 - rpos c + 1 * 512) by lia. by rewrite Z.mod_add by lia.
    - f_equal. lia. }
  unfold queued, after_put. cbn [rpos wpos cbuf put upd]. rewrite (Hlen _ eq_refl). fold n.
  case_decide as Hd.
  - assert (n = 511) as -> by lia. done.
  - rewrite (Z.mod_small (n + 1)) by lia. rewrite seqZ_app by lia. rewrite fmap_app.
    change (seqZ (0 + n) 1) with [0 + n]. cbn [fmap list_fmap]. f_equal.
    + apply list_fmap_ext. intros i k Hk. apply lookup_seqZ in Hk as [-> Hk].
      rewrite lookup_insert_ne; [done|]. rewrite <- Hwn. intros He.
      assert (0 <= (rpos c + n) mod 512 < 512) by (apply Z.mod_pos_bound; lia).
      Z.div_mod_to_equations. lia.
    + by rewrite Z.add_0_l, Hwn, lookup_insert_eq.
Qed.

(** ** Producers *)

Definition nonzero (l : list Z) : list Z := filter (fun v => v <> 0) l.

Section Producer.
Context {X : Type}.
Variable proc : M console X Z.
Variable src : list Z -> console -> Prop.   (* the values [proc] will return *)
Hypothesis src_nil : forall c, src [] c -> proc c = Ret (-1) c.
Hypothesis src_cons : forall v l c, src (v :: l) c ->
  v <> -1 /\ exists c', proc c = Ret v c' /\ same_ring c c' /\ src l c'.
Hypothesis src_put : forall v l c, src l c -> src l (after_put v c).

Lemma cons_intr_queue l c :
  src l c -> ring_ok c -> (length (queued c) + length (nonzero l) <= 511)%nat ->
  wp (cons_intr (S (length l)) proc) (fun _ c' =>
    queued c' = queued c ++ (u8 <$> nonzero l) /\ ring_ok c' /\ src [] c') c.
Proof.
  revert c. induction l as [|v l IH]; intros c Hs Hok Hlen.
  - cbn [cons_intr length]. apply wp_bind. eapply wp_Ret; [by apply src_nil|].
    cbn. by rewrite app_nil_r.
  - cbn [cons_intr length]. destruct (src_cons _ _ _ Hs) as (Hv & c' & Hp & Hr & Hs').
    destruct (same_ring_queued _ _ Hr) as [Hq Hok']. specialize (Hok' Hok).
    apply wp_bind. eapply wp_Ret; [exact Hp|]. apply Z.eqb_neq in Hv as ->.
    apply wp_bind. unfold nonzero in *. destruct (Z.eqb_spec v 0) as [->|Hv0]; cbn [negb when].
    + rewrite filter_cons_False in Hlen |- * by lia. apply wp_ret.
      rewrite <- Hq. apply IH; [done..|by rewrite Hq].
    + rewrite filter_cons_True in Hlen |- * by done. cbn [length] in Hlen.
      unfold when. eapply wp_Ret; [by apply cons_put_eq|].
      assert (queued (after_put v c') = queued c ++ [u8 v]) as Hq'.
      { rewrite after_put_queued by done. rewrite decide_False by (rewrite Hq; lia). by rewrite Hq. }
      eapply wp_mono; [apply IH; [by apply src_put|by apply after_put_ok|]|].
      * rewrite Hq', length_app. cbn [length]. lia.
      * intros [] c2 (H1 & H2 & H3). rewrite H1, Hq'. cbn [fmap list_fmap].
        by rewrite <- app_assoc.
Qed.
End Producer.

(** Printing touches the display and the ports only. *)
Record out_only (c c' : console) : Prop := {
  oo_ring : same_ring c c';
  oo_shift : shift c' = shift c;
  oo_com1 : com1 c' = com1 c;
  oo_kbd : kbd c' = kbd c;
  oo_serial : serial_exists c' = serial_exists c
}.

#[export] Instance out_only_preorder : PreOrder out_only.
Proof.
  split; [by constructor|]. intros c1 c2 c3 [(?&?&?) ????] [(?&?&?) ????].
  constructor; [split_and!|..]; etrans; eassumption.
Qed.

Create HintDb console.
#[export] Hint Extern 1 (out_only _ _) => solve [by constructor] : console.

Section Output.
Context {X : Type}.
Abbreviation outputs m := (forall c, wp m (fun _ c' => out_only c c') c).

Lemma outputs_bind {A} (m1 : M console X unit) (m2 : M console X A) :
  outputs m1 -> outputs m2 -> outputs (m1 ;; m2).
Proof.
  intros H1 H2 c. apply wp_bind. eapply wp_mono; [apply H1|]. intros [] c1 Hc1.
  eapply wp_mono; [apply H2|]. intros a c2 Hc2. by etrans.
Qed.

Lemma outb_outputs p d : outputs (@outb X p d).
Proof. intros c. apply wp_modify. auto with console. Qed.

Lemma cga_tail_outputs : outputs (@cga_tail X).
Proof.
  intros c. unfold cga_tail, when. wp_steps. destruct (CRT_SIZE <=? crt_pos c);
    unfold outb; wp_steps; auto with console.
Qed.

Lemma cga_char_outputs x : outputs (@cga_char X x).
Proof. intros c. unfold cga_char, when. wp_steps. repeat case_match; wp_steps; auto with console. Qed.

Lemma cons_putc_outputs x : outputs (@cons_putc X x).
Proof.
  assert (forall y, outputs (@serial_putc X y)) as Hs by (intros y; apply outb_outputs).
  assert (forall y, outputs (@lpt_putc X y)) as Hl
    by (intros y; repeat apply outputs_bind; apply outb_outputs).
  assert (outputs (@cons_putc_plain X 32)) as Hp.
  { intros c. unfold cons_putc_plain. apply outputs_bind; [done|]. apply outputs_bind; [done|].
    apply outputs_bind; [apply cga_char_outputs|apply cga_tail_outputs]. }
  intros c. unfold cons_putc. apply outputs_bind; [done|]. apply outputs_bind; [done|].
  apply outputs_bind; [|apply cga_tail_outputs].
  case_match; [|apply cga_char_outputs]. do 4 (apply outputs_bind; [exact Hp|]). exact Hp.
Qed.

Lemma cons_puts_outputs l : outputs (@cons_puts X l).
Proof.
  induction l as [|y l IH]; intros c; [by apply wp_ret|]. apply outputs_bind; [|done].
  apply cons_putc_outputs.
Qed.

Lemma kprint_outputs fmt ap out : vprintfmt fmt ap = POk out -> outputs (@kprint X fmt ap).
Proof. intros H. unfold kprint. rewrite H. apply cons_puts_outputs. Qed.
End Output.

(** ** Keyboard decoding *)

Lemma table_nonneg first rest i :
  forallb (fun v => 0 <=? v) first = true -> forallb (fun p => 0 <=? p.2) rest = true ->
  0 <= table first rest i.
Proof.
  intros Hf Hr. unfold table. destruct (List.find _ rest) as [p|] eqn:E.
  - apply find_some in E as [Hin _]. rewrite forallb_forall in Hr. apply Hr in Hin. lia.
  - rewrite forallb_forall in Hf. destruct (nth_in_or_default (Z.to_nat i) first 0) as [H|H]; [|lia].
    apply Hf in H. lia.
Qed.

Lemma charcode_nonneg i d : 0 <= charcode i d.
Proof. unfold charcode. repeat case_match; by apply table_nonneg. Qed.

Lemma kbd_decode_nonneg sh d : 0 <= (kbd_decode sh d).2.
Proof.
  unfold kbd_decode. destruct (d =? 0xE0); [done|]. destruct (tst d 0x80); [done|]. cbn [snd].
  match goal with |- context [charcode ?i ?x] => pose proof (charcode_nonneg i x) as H; revert H;
    generalize (charcode i x) end.
  intros v Hv. change (ch "a") with 97. change (ch "z") with 122. change (ch "A") with 65.
  change (ch "Z") with 90. repeat case_match; lia.
Qed.

(** The values a sequence of scan codes decodes to, from a shift state. *)
Fixpoint kbd_vals (sh : Z) (q : list Z) : list Z :=
  match q with
  | [] => []
  | d :: q' => (kbd_decode sh d).2 :: kbd_vals (kbd_decode sh d).1 q'
  end.

Lemma kbd_vals_length sh q : length (kbd_vals sh q) = length q.
Proof. revert sh. induction q; intros; cbn; auto. Qed.

(** ** The queue of both devices *)

Definition serial_src (q : list Z) (sh : Z) (l : list Z) (c : console) : Prop :=
  com1 c = l /\ Forall (fun b => 0 <= b) l /\ kbd c = q /\ shift c = sh /\ serial_exists c = true.

Definition kbd_src (l : list Z) (c : console) : Prop :=
  kbd_vals (shift c) (kbd c) = l /\ com1 c = [] /\ serial_exists c = true.

Section Sources.
Context {X : Type}.

Lemma serial_intr_queue (c : console) :
  ring_ok c -> serial_exists c = true -> Forall (fun b => 0 <= b) (com1 c) ->
  (length (queued c) + length (nonzero (com1 c)) <= 511)%nat ->
  wp (@serial_intr X) (fun _ c' =>
    queued c' = queued c ++ (u8 <$> nonzero (com1 c)) /\ ring_ok c' /\
    serial_src (kbd c) (shift c) [] c') c.
Proof.
  intros Hok Hex Hb Hl. unfold serial_intr. wp_steps. rewrite Hex. cbn [when].
  apply (cons_intr_queue _ (serial_src (kbd c) (shift c))); [| | | |done..].
  - intros c' (Hc & _). unfold serial_proc_data, mbind, M_bind, gets. by rewrite Hc.
  - intros v l c' (Hc & Hf & Hk & Hs & Hx). apply Forall_cons_1 in Hf as [Hv Hf]. split; [lia|].
    unfold serial_proc_data, mbind, M_bind, gets. rewrite Hc.
    eexists. split; [reflexivity|]. by split.
  - done.
  - by split_and!.
Qed.

Lemma kbd_proc_data_step d q c :
  kbd c = d :: q ->
  exists c', @kbd_proc_data X c = Ret (kbd_decode (shift c) d).2 c' /\ same_ring c c' /\
    kbd c' = q /\ shift c' = (kbd_decode (shift c) d).1 /\ com1 c' = com1 c /\
    serial_exists c' = serial_exists c.
Proof.
  intros Hk. unfold kbd_proc_data. erewrite bind_Ret by reflexivity. rewrite Hk.
  erewrite bind_Ret by reflexivity. erewrite bind_Ret by reflexivity. cbn [shift put upd].
  destruct (kbd_decode (shift c) d) as [sh' v]. cbn [fst snd].
  erewrite bind_Ret by reflexivity.
  set (c1 := put shift sh' (put kbd q c)). change (put shift sh' (put kbd q c)) with c1.
  assert (wp (when (negb (d =? 0xE0) && negb (tst d 0x80) &&
            negb (tst (Z.lnot sh') (Z.lor CTL ALT)) && (v =? KEY_DEL))
        (@kprint X (chars "Rebooting!" ++ [10]) [] ;; outb 0x92 0x3)) (fun _ c' => out_only c1 c') c1)
    as Hw.
  { unfold when. case_match; [|by apply wp_ret].
    apply outputs_bind; [eapply kprint_outputs; reflexivity|apply outb_outputs]. }
  apply wp_inv in Hw as ([] & c2 & Hc2 & [(Hb & Hr & Hw) Hs H1 H2 Hx]).
  erewrite bind_Ret by exact Hc2. exists c2. split; [done|]. by rewrite Hs, H1, H2, Hx.
Qed.

Lemma kbd_intr_queue (c : console) :
  ring_ok c -> com1 c = [] -> serial_exists c = true ->
  (length (queued c) + length (nonzero (kbd_vals (shift c) (kbd c))) <= 511)%nat ->
  wp (@kbd_intr X) (fun _ c' =>
    queued c' = queued c ++ (u8 <$> nonzero (kbd_vals (shift c) (kbd c))) /\ ring_ok c' /\
    kbd_src [] c') c.
Proof.
  intros Hok Hcom Hex Hl. unfold kbd_intr. wp_steps. rewrite <- (kbd_vals_length (shift c)).
  apply (cons_intr_queue _ kbd_src); [| | |done..].
  - intros c' (Hv & _). unfold kbd_proc_data, mbind, M_bind, gets.
    destruct (kbd c') eqn:E; [done|]. by cbn in Hv.
  - intros v l c' (Hv & Hc'). destruct (kbd c') as [|d q] eqn:E; [done|]. cbn in Hv.
    injection Hv as Hv Hl'. pose proof (kbd_decode_nonneg (shift c') d). split; [lia|].
    destruct (kbd_proc_data_step d q c' E) as (c2 & H2 & Hr & Hk & Hs & Hc2 & Hx).
    exists c2. rewrite <- Hv. split; [done|]. split; [done|]. destruct Hc' as [Hc' Hx'].
    split; [by rewrite Hs, Hk|split; congruence].
  - done.
Qed.
End Sources.

(** Taking the first character off. *)
Lemma queued_pop c :
  ring_ok c ->
  match queued c with
  | [] => rpos c = wpos c
  | x :: rest =>
      rpos c <> wpos c /\ default 0 (cbuf c !! rpos c) = x /\
      queued (put rpos (if rpos c + 1 =? 512 then 0 else rpos c + 1) c) = rest
  end.
Proof.
  intros [Hr Hw]. destruct (queued c) as [|x rest] eqn:E.
  - apply (f_equal length) in E. rewrite queued_length in E. cbn in E.
    Z.div_mod_to_equations. lia.
  - unfold queued in *. cbn [rpos wpos cbuf put upd].
    set (n := (wpos c - rpos c) mod 512) in *.
    assert (0 <= n < 512) as Hn by (apply Z.mod_pos_bound; lia).
    destruct (decide (n = 0)) as [Hn0|Hn0]; [by rewrite Hn0 in E|].
    rewrite seqZ_cons in E by lia. cbn [fmap list_fmap] in E. injection E as Hx Hrest.
    split; [intros He; apply Hn0; unfold n; rewrite He, Z.sub_diag; done|].
    split; [by rewrite <- Hx, Z.add_0_r, Z.mod_small by lia|]. rewrite <- Hrest.
    set (r' := if rpos c + 1 =? 512 then 0 else rpos c + 1).
    assert ((wpos c - r') mod 512 = n - 1 /\ forall k, (r' + k) mod 512 = (rpos c + (k + 1)) mod 512)
      as [-> Hk].
    { unfold r', n in *. destruct (Z.eqb_spec (rpos c + 1) 512); split.
      - Z.div_mod_to_equations. lia.
      - intros k. replace (rpos c + (k + 1)) with (0 + k + 1 * 512) by lia. by rewrite Z.mod_add by lia.
      - Z.div_mod_to_equations. lia.
      - intros k. f_equal. lia. }
    change (Z.succ 0) with (1 + 0). rewrite <- (fmap_add_seqZ 1 0).
    replace (Z.pred n) with (n - 1) by lia. rewrite <- list_fmap_compose.
    apply list_fmap_ext. intros i k _. cbn. by rewrite Hk, (Z.add_comm k 1).
Qed.

Lemma cons_getc_wp (X : Type) (c : console) :
  ring_ok c -> serial_exists c = true -> Forall (fun b => 0 <= b) (com1 c) ->
  let arrived := (u8 <$> nonzero (com1 c)) ++ (u8 <$> nonzero (kbd_vals (shift c) (kbd c))) in
  (length (queued c) + length arrived <= 511)%nat ->
  wp (@cons_getc X) (fun r c' =>
    ring_ok c' /\ com1 c' = [] /\ kbd c' = [] /\ serial_exists c' = true /\
    match queued c ++ arrived with
    | [] => r = 0 /\ queued c' = []
    | x :: rest => r = x /\ queued c' = rest
    end) c.
Proof.
  intros Hok Hex Hb arrived Hl. unfold arrived in Hl. rewrite length_app, !length_fmap in Hl.
  unfold cons_getc. apply wp_bind. eapply wp_mono; [apply serial_intr_queue; done || lia|].
  intros [] c1 (Hq1 & Hok1 & Hcom1 & _ & Hkbd1 & Hsh1 & Hex1).
  apply wp_bind. eapply wp_mono.
  { apply kbd_intr_queue; [done..|]. rewrite Hq1, Hkbd1, Hsh1, length_app, length_fmap. lia. }
  rewrite Hq1, Hkbd1, Hsh1, <- app_assoc. fold arrived.
  intros [] c2 (Hq2 & Hok2 & Hv2 & Hcom2 & Hex2).
  assert (kbd c2 = []) as Hk2 by (by destruct (kbd c2)).
  pose proof (queued_pop c2 Hok2) as Hpop. rewrite Hq2 in Hpop. destruct Hok2 as [Hr2 Hw2].
  wp_steps. destruct (queued c ++ arrived) as [|x rest].
  - apply Z.eqb_eq in Hpop as Hpop'. rewrite Hpop'. cbn [negb]. apply wp_ret.
    split_and!; try done; lia.
  - destruct Hpop as (Hne & Hx & Hrest). apply Z.eqb_neq in Hne as ->. cbn [negb]. wp_steps.
    rewrite u32_id by lia. change CONSBUFSIZE with 512. split_and!; try done.
    split; cbn [rpos wpos put upd]; destruct (Z.eqb_spec (rpos c2 + 1) 512); lia.
Qed.

(** C30: [cons_getc] is a first-in first-out queue: as long as fewer than 512
    characters wait, it returns the oldest one (0 if there is none), counting
    those the serial port and then the keyboard deliver during the call, and
    keeps all the others in order. *)
Theorem cons_getc_fifo (X : Type) (c : console) :
  ring_ok c -> serial_exists c = true -> Forall (fun b => 0 <= b) (com1 c) ->
  let arrived := (u8 <$> nonzero (com1 c)) ++ (u8 <$> nonzero (kbd_vals (shift c) (kbd c))) in
  (length (queued c) + length arrived <= 511)%nat ->
  wp (@cons_getc X) (fun r c' =>
    ring_ok c' /\ com1 c' = [] /\ kbd c' = [] /\
    match queued c ++ arrived with
    | [] => r = 0 /\ queued c' = []
    | x :: rest => r = x /\ queued c' = rest
    end) c.
Proof.
  intros Hok Hex Hb arrived Hl. eapply wp_mono; [by apply cons_getc_wp|].
  intros r c' (H1 & H2 & H3 & _ & H4). by split_and!.
Qed.

(** A console with a serial port that has received two characters, and a
    keyboard on which "a" was pressed. *)
Definition console_demo : console :=
  put serial_exists true (put com1 [ch "h"; 0; ch "i"] (put kbd [0x1e] console0)).

Lemma cons_getc_fifo_witness :
  exists c', @cons_getc unit console_demo = Ret (ch "h") c' /\ queued c' = [ch "i"; ch "a"].
Proof.
  pose proof (cons_getc_fifo unit console_demo) as H.
  specialize (H ltac:(split; cbn; lia) eq_refl ltac:(repeat (constructor; [cbn; lia|]); constructor)
    ltac:(apply Nat.leb_le; reflexivity)).
  apply wp_inv in H as (r & c' & Hc & _ & _ & _ & Hr & Hq). exists c'. split; [|exact Hq].
  rewrite Hc, Hr. reflexivity.
Defined.

(** The buffer does not guard against overrun: when 511 characters wait, the
    next one that arrives makes the buffer look empty, and all 512 are lost. *)
Theorem cons_intr_overrun (X : Type) (c : console) b :
  ring_ok c -> serial_exists c = true -> com1 c = [b] -> 0 < b ->
  length (queued c) = 511%nat ->
  wp (@serial_intr X) (fun _ c' => queued c' = []) c.
Proof.
  intros Hok Hex Hcom Hb Hl. unfold serial_intr. wp_steps. rewrite Hex, Hcom. cbn [when length cons_intr].
  apply wp_bind. unfold serial_proc_data at 1. wp_steps. rewrite Hcom. wp_steps.
  destruct (Z.eqb_spec b (-1)); [lia|]. destruct (Z.eqb_spec b 0); [lia|]. cbn [negb when].
  apply wp_bind. unfold when. eapply wp_Ret; [by apply cons_put_eq|].
  apply wp_bind. unfold serial_proc_data. wp_steps. cbn -[queued].
  change (queued (after_put b (put com1 [] c)) = []).
  rewrite after_put_queued by done. by rewrite decide_True by done.
Qed.

Definition console_full : console :=
  put wpos 511 (put com1 [ch "x"] (put serial_exists true console0)).

Lemma cons_intr_overrun_witness :
  exists c', @serial_intr unit console_full = Ret tt c' /\ length (queued console_full) = 511%nat /\
    queued c' = [].
Proof.
  assert (length (queued console_full) = 511%nat) as Hl by (rewrite queued_length; reflexivity).
  pose proof (cons_intr_overrun unit console_full (ch "x") ltac:(split; cbn; lia) eq_refl eq_refl
    ltac:(cbn; lia) Hl) as H.
  apply wp_inv in H as ([] & c' & Hc & Hq). by exists c'.
Defined.

(** ** The display *)

Definition on_screen (c : console) : Prop := 0 <= crt_pos c < 2000.

(** Memory after the text buffer is as it was. *)
Definition screen_step (c c' : console) : Prop :=
  on_screen c' /\ forall i, 2000 <= i -> crt_buf c' !! i = crt_buf c !! i.

Lemma screen_step_trans c1 c2 c3 : screen_step c1 c2 -> screen_step c2 c3 -> screen_step c1 c3.
Proof. intros [_ H1] [Hs H2]. split; [done|]. intros i Hi. by rewrite H2, H1. Qed.

Lemma foldl_insert_outside (g : Z -> Z) l (m : gmap Z Z) i :
  i ∉ l -> foldl (fun m' k => <[k := g k]> m') m l !! i = m !! i.
Proof.
  revert m. induction l as [|k l IH]; intros m Hi; [done|]. apply not_elem_of_cons in Hi as [Hk Hi].
  cbn [foldl]. rewrite IH by done. by rewrite lookup_insert_ne.
Qed.

Lemma crt_scroll_outside m i : 2000 <= i -> crt_scroll m !! i = m !! i.
Proof.
  intros Hi. unfold crt_scroll. apply foldl_insert_outside. rewrite elem_of_seqZ.
  change CRT_SIZE with 2000. lia.
Qed.

Section Screen.
Context {X : Type}.
Abbreviation keeps m := (forall c, on_screen c -> wp m (fun _ c' => screen_step c c') c).

Lemma keeps_bind {A} (m1 : M console X unit) (m2 : M console X A) :
  keeps m1 -> keeps m2 -> keeps (m1 ;; m2).
Proof.
  intros H1 H2 c Hc. apply wp_bind. eapply wp_mono; [by apply H1|]. intros [] c1 Hc1.
  eapply wp_mono; [apply H2, Hc1|]. intros a c2 Hc2. by eapply screen_step_trans.
Qed.

Lemma outb_keeps p d : keeps (@outb X p d).
Proof. intros c Hc. by apply wp_modify. Qed.

(** The character may leave the cursor on the line below the screen. *)
Lemma cga_char_below x c :
  on_screen c -> wp (@cga_char X x) (fun _ c' =>
    0 <= crt_pos c' <= 2000 /\ addr_6845 c' = addr_6845 c /\
    forall i, 2000 <= i -> crt_buf c' !! i = crt_buf c !! i) c.
Proof.
  intros Hc. unfold on_screen in Hc. unfold cga_char, when. wp_steps. change CRT_COLS with 80.
  repeat case_match; wp_steps; cbn [crt_pos crt_buf addr_6845 put upd];
    rewrite ?u16_id by zlia; (split; [zlia|]); (split; [done|]); intros i Hi;
    rewrite ?lookup_insert_ne by lia; done.
Qed.

Lemma cga_tail_keeps c :
  0 <= crt_pos c <= 2000 -> wp (@cga_tail X) (fun _ c' => screen_step c c') c.
Proof.
  intros Hc. unfold cga_tail, when, outb. wp_steps. change CRT_SIZE with 2000. change CRT_COLS with 80.
  destruct (Z.leb_spec 2000 (crt_pos c)); wp_steps; unfold screen_step, on_screen;
    cbn [crt_pos crt_buf put upd]; rewrite ?u16_id by lia; (split; [lia|]); intros i Hi; [|done].
  by apply crt_scroll_outside.
Qed.

Lemma cga_char_tail_keeps x : keeps (@cga_char X x ;; cga_tail).
Proof.
  intros c Hc. apply wp_bind. eapply wp_mono; [by apply cga_char_below|].
  intros [] c1 (H1 & _ & H2). eapply wp_mono; [by apply cga_tail_keeps|].
  intros [] c2 [H3 H4]. split; [done|]. intros i Hi. by rewrite H4, H2.
Qed.

Lemma serial_lpt_keeps {A} x (m : M console X A) :
  keeps m -> keeps (serial_putc x ;; lpt_putc x ;; m).
Proof.
  intros Hm. apply keeps_bind; [apply outb_keeps|]. apply keeps_bind; [|exact Hm].
  unfold lpt_putc. do 2 (apply keeps_bind; [apply outb_keeps|]). apply outb_keeps.
Qed.
End Screen.

(** C31: printing a character, newline, backspace or tab leaves the cursor on
    the 80 by 25 screen and writes nowhere but in the text buffer. *)
Theorem cons_putc_in_bounds (X : Type) (x : Z) (c : console) :
  0 <= crt_pos c < CRT_SIZE ->
  wp (@cons_putc X x) (fun _ c' =>
    0 <= crt_pos c' < CRT_SIZE /\
    forall i, CRT_SIZE <= i -> crt_buf c' !! i = crt_buf c !! i) c.
Proof.
  intros Hc. change CRT_SIZE with 2000 in *. revert c Hc. apply serial_lpt_keeps. unfold cga_putc.
  destruct (Z.land (cga_attr x) 0xff =? 9).
  - apply keeps_bind; [|intros c Hc; apply cga_tail_keeps; unfold on_screen in Hc; lia].
    do 4 (apply keeps_bind; [apply serial_lpt_keeps, cga_char_tail_keeps|]).
    apply serial_lpt_keeps, cga_char_tail_keeps.
  - apply cga_char_tail_keeps.
Qed.

Lemma cons_putc_in_bounds_witness :
  exists c', @cons_putc unit 10 (put crt_pos 1990 console0) = Ret tt c' /\ 0 <= crt_pos c' < CRT_SIZE.
Proof.
  pose proof (cons_putc_in_bounds unit 10 (put crt_pos 1990 console0) ltac:(split; [done|reflexivity])) as H.
  apply wp_inv in H as ([] & c' & Hc & Hp & _). by exists c'.
Defined.
