(* ===== verification/Readline.v ===== *)
(** * The line editor ([lib/readline.c])

    [readline] reads from and prints to whatever implements [getchar] and
    [cputchar]: the kernel's console ([kern/console.c]) or, in a user program,
    the system calls ([lib/console.c]).  [CharIO] is that interface and
    [CharIOLaws] what [readline] relies on; its theorem is proved against them,
    and the console is shown to satisfy them. *)

From Stdlib Require Import Lia ZArith ZifyClasses ZifyInst ZifyBool.
From stdpp Require Import base gmap list strings numbers.
From S2P Require Import Prelude Cmonad Printfmt Console.

Class CharIO (S X : Type) := {
  getchar : M S X Z;
  putchar : Z -> M S X unit;
  cprintf : string -> list varg -> M S X unit;
  iscons : bool
}.

Definition BUFLEN : Z := 1024.

Section Readline.
Context {S X : Type} {io : CharIO S X}.

(** One round of the loop consumes one character; [fuel] is one more than the
    characters there are.  The result says whether the pointer returned is
    [buf] or null, and what the static [buf] holds then. *)
Fixpoint readline_loop (fuel : nat) (i : Z) (buf : gmap Z Z) : M S X (bool * gmap Z Z) :=
  match fuel with
  | O => undef "out of fuel"
  | Datatypes.S fuel' =>
      c ← getchar;
      if c <? 0 then
        cprintf ("read error: %e" +:+ String (Ascii.ascii_of_nat 10) EmptyString) [AInt c] ;;
        mret (false, buf)
      else if ((c =? 8) || (c =? 0x7f)) && (0 <? i) then
        when iscons (putchar 8) ;; readline_loop fuel' (i - 1) buf
      else if (32 <=? c) && (i <? BUFLEN - 1) then
        when iscons (putchar c) ;; readline_loop fuel' (i + 1) (<[i := u8 c]> buf)
      else if (c =? 10) || (c =? 13) then
        when iscons (putchar 10) ;; mret (true, <[i := 0]> buf)
      else readline_loop fuel' i buf
  end.

Definition readline (fuel : nat) (prompt : option (list Z)) (buf : gmap Z Z) : M S X (bool * gmap Z Z) :=
  match prompt with
  | Some p => cprintf "%s" [AStr (Some p)]
  | None => mret tt
  end ;;
  readline_loop fuel 0 buf.
End Readline.

(** ** What the interface promises *)

(** [io_has g s l]: in state [s] the characters [l] are still to come, and then
    none, so that [getchar] waits for ever ([io_waiting]); and, as [io_logged g s] says,
    the strings [g] have been printed so far, last first, and nothing else. *)
Class CharIOLaws {S X : Type} (io : CharIO S X) := {
  io_has : list (list Z) -> S -> list Z -> Prop;
  io_logged : list (list Z) -> S -> Prop;
  io_waiting : X;
  io_get g c l s : io_has g s (c :: l) -> wp getchar (fun r s' => r = c /\ io_has g s' l) s;
  io_wait g s : io_has g s [] -> exists s', getchar s = Stop io_waiting s' /\ io_logged g s';
  io_put g c l s : io_has g s l -> wp (putchar c) (fun _ s' => io_has g s' l) s;
  io_print g p l s : io_has g s l -> wp (cprintf "%s" [AStr (Some p)]) (fun _ s' => io_has (p :: g) s' l) s
}.

(** The line typed by [l], read against the line so far, last character first;
    and the characters after it. *)
Fixpoint edit (line l : list Z) : option (list Z * list Z) :=
  match l with
  | [] => None
  | c :: l' =>
      match line with
      | _ :: line' => if bool_decide (c = 8 \/ c = 0x7f) then edit line' l' else
          if bool_decide (32 <= c /\ Z.of_nat (length line) < 1023) then edit (u8 c :: line) l'
          else if bool_decide (c = 10 \/ c = 13) then Some (rev line, l') else edit line l'
      | [] => if bool_decide (32 <= c) then edit [u8 c] l'
          else if bool_decide (c = 10 \/ c = 13) then Some ([], l') else edit [] l'
      end
  end.

(** The buffer holds [line], from the start. *)
Definition holds (buf : gmap Z Z) (line : list Z) : Prop :=
  forall i b, line !! i = Some b -> buf !! (Z.of_nat i) = Some b.

Lemma holds_app buf line b : holds buf line -> holds (<[Z.of_nat (length line) := b]> buf) (line ++ [b]).
Proof.
  intros H i x Hi. destruct (decide (i = length line)) as [->|Hne].
  - rewrite lookup_app_r, Nat.sub_diag in Hi by lia. injection Hi as <-. apply lookup_insert_eq.
  - rewrite lookup_insert_ne by lia. apply H. rewrite lookup_app_l in Hi; [done|].
    apply lookup_lt_Some in Hi. rewrite length_app in Hi. cbn in Hi. lia.
Qed.

Lemma holds_removelast buf line b : holds buf (line ++ [b]) -> holds buf line.
Proof. intros H i x Hi. apply H. by apply lookup_app_l_Some. Qed.

(** Only the bytes of the buffer are stored to. *)
Definition only_buffer (buf buf' : gmap Z Z) : Prop :=
  forall i, ~ 0 <= i < BUFLEN -> buf' !! i = buf !! i.

Section Laws.
Context {S X : Type} {io : CharIO S X} {laws : CharIOLaws io}.

Lemma when_put b g c l s : io_has g s l -> wp (when b (putchar c)) (fun _ s' => io_has g s' l) s.
Proof. intros H. destruct b; [by apply io_put|by apply wp_ret]. Qed.

Definition line_read (g : list (list Z)) (buf : gmap Z Z) (r : option (list Z * list Z)) (m : M S X (bool * gmap Z Z)) (s : S) : Prop :=
  match r with
  | Some (text, rest) => wp m (fun b s' => io_has g s' rest /\ exists buf', b = (true, buf') /\
      holds buf' text /\ buf' !! (Z.of_nat (length text)) = Some 0 /\ Z.of_nat (length text) < BUFLEN /\
      only_buffer buf buf') s
  | None => exists s', m s = Stop io_waiting s' /\ io_logged g s'
  end.

Lemma line_read_bind {A} g buf r (m : M S X A) f s :
  wp m (fun a s' => line_read g buf r (f a) s') s -> line_read g buf r (m ≫= f) s.
Proof.
  intros (a & s' & Hm & H)%wp_inv. unfold line_read in *. destruct r as [[text rest]|].
  - apply wp_bind. by eapply wp_Ret.
  - destruct H as (s2 & H & Hl). exists s2. split; [|done]. by erewrite bind_Ret by exact Hm.
Qed.

Lemma line_read_mono g buf1 buf2 r m s : only_buffer buf1 buf2 -> line_read g buf2 r m s -> line_read g buf1 r m s.
Proof.
  intros Ho. unfold line_read. destruct r as [[text rest]|]; [|done]. intros H. eapply wp_mono; [exact H|].
  intros b s' (H1 & buf' & H2 & H3 & H4 & H5 & H6). split; [done|]. exists buf'. split_and!; try done.
  intros i Hi. rewrite H6 by done. by apply Ho.
Qed.

Lemma readline_loop_edit k g line l buf s :
  io_has g s l -> Forall (fun c => 0 <= c) l -> (length l < k)%nat ->
  holds buf (rev line) -> Z.of_nat (length line) < BUFLEN ->
  line_read g buf (edit line l) (readline_loop k (Z.of_nat (length line)) buf) s.
Proof.
  revert k line buf s. induction l as [|c l IH]; intros k line buf s Hs Hpos Hk Hb Hlen;
    (destruct k as [|k]; [cbn in Hk; lia|]); cbn [readline_loop].
  { destruct (io_wait g s Hs) as (s' & Hw & Hl). exists s'. split; [by apply bind_Stop|done]. }
  apply Forall_cons_1 in Hpos as [Hc Hpos]. cbn [length] in Hk.
  apply line_read_bind. eapply wp_mono; [by apply io_get|]. intros r s1 [-> Hs1].
  destruct (Z.ltb_spec c 0); [lia|].
  set (n := Z.of_nat (length line)) in *.
  assert (forall line', Z.of_nat (length line') < BUFLEN -> forall b buf', holds buf' (rev line') -> only_buffer buf buf' ->
    line_read g buf (edit line' l) (when iscons (putchar b) ;; readline_loop k (Z.of_nat (length line')) buf') s1) as Hgo.
  { intros line' Hl' b buf' Hb' Ho. apply line_read_bind. eapply wp_mono; [by apply when_put|].
    intros [] s2 Hs2. apply (line_read_mono _ _ buf'); [done|]. apply IH; (done || lia). }
  assert (only_buffer buf buf) as Hrefl by by intros.
  assert (only_buffer buf (<[n := u8 c]> buf)) as Hins by (intros i Hi; rewrite lookup_insert_ne by lia; done).
  assert (32 <= c -> n < BUFLEN - 1 ->
    line_read g buf (edit (u8 c :: line) l) (when iscons (putchar c) ;; readline_loop k (n + 1) (<[n := u8 c]> buf)) s1) as Hadd.
  { intros _ Hn. replace (n + 1) with (Z.of_nat (length (u8 c :: line))) by (unfold n; cbn [length]; lia).
    apply Hgo; [cbn [length]; lia| |done]. cbn [rev]. unfold n. rewrite <- length_rev. by apply holds_app. }
  assert (line_read g buf (Some (rev line, l)) (when iscons (putchar 10) ;; mret (true, <[n := 0]> buf)) s1) as Hend.
  { apply line_read_bind. eapply wp_mono; [by apply when_put|]. intros [] s2 Hs2. apply wp_ret. split; [done|].
    eexists. split; [done|]. rewrite length_rev. fold n. split_and!.
    - intros i b Hi. rewrite lookup_insert_ne; [by apply Hb|]. apply lookup_lt_Some in Hi. rewrite length_rev in Hi. lia.
    - apply lookup_insert_eq.
    - lia.
    - intros i Hi. rewrite lookup_insert_ne by lia. done. }
  assert (line_read g buf (edit line l) (readline_loop k n buf) s1) as Hskip by (apply IH; (done || lia)).
  unfold BUFLEN in *. destruct line as [|y line]; cbn [edit].
  - subst n. cbn [length Z.of_nat] in *. cbn [Z.ltb Z.compare]. rewrite andb_false_r.
    destruct (Z.leb_spec 32 c).
    + rewrite bool_decide_eq_true_2 by done. apply Hadd; lia.
    + rewrite bool_decide_eq_false_2 by lia. cbn [andb].
      destruct (Z.eqb_spec c 10), (Z.eqb_spec c 13); cbn [orb];
        (rewrite bool_decide_eq_true_2 by lia; exact Hend) || (rewrite bool_decide_eq_false_2 by lia; exact Hskip).
  - assert ((0 <? n) = true) as -> by (apply Z.ltb_lt; unfold n; cbn [length]; lia). rewrite andb_true_r.
    case_bool_decide as Hbs.
    + assert ((c =? 8) || (c =? 0x7f) = true) as -> by lia.
      replace (n - 1) with (Z.of_nat (length line)) by (unfold n; cbn [length]; lia).
      apply Hgo; [unfold n in Hlen; cbn [length] in Hlen; lia|by apply holds_removelast in Hb|done].
    + assert ((c =? 8) || (c =? 0x7f) = false) as -> by lia. fold n.
      case_bool_decide as Hpr.
      * assert ((32 <=? c) && (n <? 1024 - 1) = true) as -> by lia. apply Hadd; lia.
      * assert ((32 <=? c) && (n <? 1024 - 1) = false) as -> by lia.
        case_bool_decide as Hnl; [assert ((c =? 10) || (c =? 13) = true) as -> by lia; exact Hend|].
        assert ((c =? 10) || (c =? 13) = false) as -> by lia. exact Hskip.
Qed.

Lemma readline_eq k g prompt buf l s :
  io_has g s l -> Forall (fun c => 0 <= c) l -> (length l < k)%nat ->
  line_read (from_option (fun p => p :: g) g prompt) buf (edit [] l) (readline k prompt buf) s.
Proof.
  intros Hs Hpos Hk. unfold readline. apply line_read_bind.
  apply (wp_mono _ (fun _ s' => io_has (from_option (fun p => p :: g) g prompt) s' l));
    [destruct prompt; [by apply io_print|by apply wp_ret]|].
  intros [] s1 Hs1. by apply (readline_loop_edit k _ []).
Qed.

(** [readline] over any character device that keeps its promises: it prints the
    prompt, and returns the edited line as a C string at the start of its buffer as soon
    as the end of a line has been typed, leaves the characters after it to the next
    call, and stores only within the 1024 bytes of the buffer; without an end of
    line it waits. *)
Theorem readline_correct k g prompt buf l s :
  io_has g s l -> Forall (fun c => 0 <= c) l -> (length l < k)%nat ->
  line_read (from_option (fun p => p :: g) g prompt) buf (edit [] l) (readline k prompt buf) s.
Proof. apply readline_eq. Qed.
End Laws.

(** ** The kernel's console *)

Section Console.
Context {X : Type} (waiting : X).

(** [getchar] of [kern/console.c] spins until there is a character. *)
Definition cons_getchar : M console X Z :=
  c ← cons_getc; if c =? 0 then stop waiting else mret c.

#[export] Instance console_io : CharIO console X := {|
  getchar := cons_getchar; putchar := cputchar; cprintf := fun fmt => kprint (chars fmt); iscons := true
|}.

(** The characters that have arrived, in the buffer or still in the devices. *)
Definition typed (c : console) : list Z :=
  queued c ++ (u8 <$> nonzero (com1 c)) ++ (u8 <$> nonzero (kbd_vals (shift c) (kbd c))).

Record typing (c : console) (l : list Z) : Prop := {
  ty_ring : ring_ok c;
  ty_serial : serial_exists c = true;
  ty_com1 : Forall (fun b => 0 <= b) (com1 c);
  ty_typed : typed c = l;
  ty_room : (length l <= 511)%nat;
  ty_bytes : Forall (fun b => 0 < b < 256) l
}.

Lemma typing_out c c' l : typing c l -> out_only c c' -> typing c' l.
Proof.
  intros [H1 H2 H3 H4 H5 H6] [Hr Hs Hc Hk Hx]. destruct (same_ring_queued _ _ Hr) as [Hq Hok].
  constructor; [auto|by rewrite Hx|by rewrite Hc| |done|done].
  unfold typed in *. by rewrite Hq, Hs, Hc, Hk.
Qed.

Lemma typing_getc c l : typing c l ->
  wp (@cons_getc X) (fun r c' =>
    match l with [] => r = 0 | x :: l' => r = x /\ typing c' l' end) c.
Proof.
  intros [H1 H2 H3 H4 H5 H6]. eapply wp_mono; [apply cons_getc_wp; try done|].
  { rewrite <- length_app. fold (typed c). by rewrite H4. }
  cbv zeta. fold (typed c). rewrite H4. intros r c' (Hok & Hc & Hk & Hs & Hm).
  destruct l as [|x l]; [apply Hm|]. destruct Hm as [-> Hq]. split; [done|].
  apply Forall_cons_1 in H6 as [_ H6]. cbn [length] in H5.
  constructor; try done; [by rewrite Hc|unfold typed; rewrite Hc, Hk; cbn; by rewrite app_nil_r|lia].
Qed.

#[export] Instance console_laws : CharIOLaws console_io.
Proof.
  apply (Build_CharIOLaws _ _ _ (fun _ => typing) (fun _ _ => True) waiting).
  - intros _ c l s H. cbn. unfold cons_getchar. apply wp_bind. eapply wp_mono; [by apply typing_getc|].
    intros r s' [-> H']. pose proof (ty_bytes _ _ H) as [Hc _]%Forall_cons_1.
    destruct (Z.eqb_spec c 0); [lia|]. by apply wp_ret.
  - intros _ s (r & s' & Hs & ->)%typing_getc%wp_inv. exists s'. cbn. unfold cons_getchar.
    split; [by erewrite bind_Ret by exact Hs|done].
  - intros _ c l s H. eapply wp_mono; [apply cons_putc_outputs|]. intros [] s'. by apply typing_out.
  - intros _ p l s H. unfold cprintf, console_io, kprint.
    assert (exists out, vprintfmt (chars "%s") [AStr (Some p)] = POk out) as [out ->] by (eexists; reflexivity).
    eapply wp_mono; [apply cons_puts_outputs|]. intros [] s'. by apply typing_out.
Defined.
End Console.

(** "hj", backspace, "i" and return on the serial line. *)
Definition line_demo : console := put serial_exists true (put com1 [104; 106; 8; 105; 13] console0).

Lemma line_demo_typing : typing line_demo [104; 106; 8; 105; 13].
Proof.
  constructor; [split; cbn; lia|reflexivity|repeat constructor; lia|by vm_compute|cbn; lia|repeat constructor; lia].
Qed.

Lemma readline_correct_witness :
  line_read (laws := console_laws tt) [chars "K> "] ∅ (Some ([104; 105], [])) (readline (io := console_io tt) 6 (Some (chars "K> ")) ∅) line_demo.
Proof.
  apply (readline_correct (laws := console_laws tt) 6 [] (Some (chars "K> ")) ∅ [104; 106; 8; 105; 13] line_demo).
  - exact line_demo_typing.
  - repeat constructor; lia.
  - cbn. lia.
Defined.
