(* ===== verification/State.v ===== *)
(** * The machine state of the kernel

    The C structs as records and the kernel's global variables as the fields of
    one record [kstate].

    Pointers.  A [pde_t *] or [pte_t *] is the kernel virtual address it holds;
    the kernel reaches physical memory through the linear map at [KERNBASE]
    ([kload], [kstore]), and an access outside it is [Undef].  A
    [struct PageInfo *] into [pages] and a [struct Env *] into [envs] is the
    index of the element, and a null one is [None].  The two arrays are typed
    arrays, separate from the words of [pmem].

    [pmem] is physical memory: frame number, then word index, then the 32-bit
    word; a word never stored reads as 0.

    What the linker and the processor decide (addresses of symbols, the kernel
    stack, control registers) is the class [Machine], a parameter of the
    functions that use it. *)

From Stdlib Require Import Lia ZArith ZifyClasses ZifyInst ZifyBool.
From stdpp Require Import base gmap list strings numbers.
From S2P Require Import Prelude Cmonad Mmu Printfmt Console.

(** ** Structs *)

(** [struct PageInfo] of [inc/memlayout.h]. *)
Record PageInfo := mkPageInfo { pp_link : option Z; pp_ref : Z }.
#[export] Instance eta_PageInfo : Eta PageInfo := fun r => mkPageInfo (pp_link r) (pp_ref r).

(** [struct PushRegs], [struct Trapframe] and [struct UTrapframe] of [inc/trap.h]. *)
Record PushRegs := mkPushRegs {
  reg_edi : Z; reg_esi : Z; reg_ebp : Z; reg_oesp : Z;
  reg_ebx : Z; reg_edx : Z; reg_ecx : Z; reg_eax : Z
}.
#[export] Instance eta_PushRegs : Eta PushRegs := fun r =>
  mkPushRegs (reg_edi r) (reg_esi r) (reg_ebp r) (reg_oesp r)
    (reg_ebx r) (reg_edx r) (reg_ecx r) (reg_eax r).

Record Trapframe := mkTrapframe {
  tf_regs : PushRegs; tf_es : Z; tf_ds : Z; tf_trapno : Z; tf_err : Z;
  tf_eip : Z; tf_cs : Z; tf_eflags : Z; tf_esp : Z; tf_ss : Z
}.
#[export] Instance eta_Trapframe : Eta Trapframe := fun r =>
  mkTrapframe (tf_regs r) (tf_es r) (tf_ds r) (tf_trapno r) (tf_err r)
    (tf_eip r) (tf_cs r) (tf_eflags r) (tf_esp r) (tf_ss r).

Record UTrapframe := mkUTrapframe {
  utf_fault_va : Z; utf_err : Z; utf_regs : PushRegs; utf_eip : Z;
  utf_eflags : Z; utf_esp : Z
}.

(** Values of [env_status] in [struct Env], in the order of the C enum. *)
Inductive EnvStatus : Set :=
  | ENV_FREE | ENV_DYING | ENV_RUNNABLE | ENV_RUNNING | ENV_NOT_RUNNABLE.

#[export] Instance EnvStatus_eq_dec : EqDecision EnvStatus.
Proof. solve_decision. Defined.

Definition status_code (st : EnvStatus) : Z :=
  match st with
  | ENV_FREE => 0 | ENV_DYING => 1 | ENV_RUNNABLE => 2
  | ENV_RUNNING => 3 | ENV_NOT_RUNNABLE => 4
  end.

(** [enum EnvType] has one value. *)
Inductive EnvType : Set := ENV_TYPE_USER.

(** [struct Env] of [inc/env.h]. *)
Record Env := mkEnv {
  env_tf : Trapframe; env_link : option Z; env_id : Z; env_parent_id : Z;
  env_type : EnvType; env_status : EnvStatus; env_runs : Z; env_cpunum : Z;
  env_pgdir : Z; env_pgfault_upcall : Z;
  env_ipc_recving : bool; env_ipc_dstva : Z; env_ipc_value : Z;
  env_ipc_from : Z; env_ipc_perm : Z
}.
#[export] Instance eta_Env : Eta Env := fun r =>
  mkEnv (env_tf r) (env_link r) (env_id r) (env_parent_id r) (env_type r)
    (env_status r) (env_runs r) (env_cpunum r) (env_pgdir r) (env_pgfault_upcall r)
    (env_ipc_recving r) (env_ipc_dstva r) (env_ipc_value r) (env_ipc_from r)
    (env_ipc_perm r).

Definition LOG2NENV : Z := 10.
Definition NENV : Z := Z.shiftl 1 LOG2NENV.
Definition ENVX (envid : Z) : Z := Z.land envid (NENV - 1).

#[export] Instance cst_NENV : CstOp NENV := @mkcst Z Z NENV Inj_Z_Z 1024 eq_refl.
Add Zify CstOp cst_NENV.

(** [struct CpuInfo] of [kern/cpu.h]; of the task state segment the kernel uses
    the stack pointer and the stack segment. *)
Inductive CpuStatus : Set := CPU_UNUSED | CPU_STARTED | CPU_HALTED.

#[export] Instance CpuStatus_eq_dec : EqDecision CpuStatus.
Proof. solve_decision. Defined.

Record CpuInfo := mkCpuInfo {
  cpu_id : Z; cpu_status : CpuStatus; cpu_env : option Z; ts_esp0 : Z; ts_ss0 : Z
}.
#[export] Instance eta_CpuInfo : Eta CpuInfo := fun r =>
  mkCpuInfo (cpu_id r) (cpu_status r) (cpu_env r) (ts_esp0 r) (ts_ss0 r).

Definition NCPU : Z := 8.

(** [sizeof(struct PageInfo)] and [sizeof(struct Env)]. *)
Definition sizeof_PageInfo : Z := 8.
Definition sizeof_Env : Z := 124.

(** [struct spinlock] with [DEBUG_SPINLOCK]: the holder is the index of its
    [struct CpuInfo], null when nobody holds it. *)
Record spinlock := mkSpinlock { locked : Z; lk_cpu : option Z; lk_pcs : list Z }.
#[export] Instance eta_spinlock : Eta spinlock := fun r =>
  mkSpinlock (locked r) (lk_cpu r) (lk_pcs r).

(** ** What the kernel does to the outside

    The trace records, newest first, the instructions and calls whose effect is
    not on the kernel's memory. *)
Inductive event : Type :=
  | EvInvlpg (va : Z)                          (* invlpg *)
  | EvLcr3 (pa : Z)                            (* load %cr3 *)
  | EvPrint (fmt : string) (args : list varg)  (* cprintf *)
  | EvBacktrace (pcs : list Z)                 (* the lines spin_unlock prints for these pcs *)
  | EvLoad (what : string) (v : Z)             (* lgdt, lldt, ltr, lidt, lcr0, segment registers *)
  | EvLapicw (index value : Z)                 (* a store to a register of the local APIC *)
  | EvLapicWait (index mask : Z)               (* polls that register until the bit is clear *)
  | EvPause.                                   (* pause *)

Coercion AInt : Z >-> varg.
Definition pstr (s : string) : varg := AStr (Some (chars s)).

(** A pointer to a trap frame: one on the kernel stack, or that of an environment. *)
Inductive tfptr : Type :=
  | TfStack (tf : Trapframe)
  | TfEnv (e : Z).

(** How control can leave the kernel. *)
Inductive leave : Type :=
  | ToUser (e : Z) (tf : Trapframe)   (* iret into environment [e] *)
  | CpuHalt                           (* hlt *)
  | InMonitor                         (* the kernel monitor's loop *)
  | Spinning.                         (* spins on a lock another CPU holds *)

(** ** The kernel's global variables *)

Record kstate := mkKstate {
  pmem : gmap Z (gmap Z Z);
  npages : Z;
  npages_basemem : Z;
  kern_pgdir : Z;
  pages : gmap Z PageInfo;
  pages_va : Z;                (* the pointer [pages] itself *)
  page_free_list : option Z;
  nextfree : Z;                (* static in boot_alloc *)
  mmio_base : Z;               (* static [base] in mmio_map_region *)
  user_mem_check_addr : Z;
  envs : gmap Z Env;
  envs_va : Z;                 (* the pointer [envs] itself *)
  env_free_list : option Z;
  cpus : gmap Z CpuInfo;
  cpunum : Z;                  (* the CPU this code runs on *)
  kernel_lock : spinlock;
  panicstr : bool;             (* some CPU has panicked *)
  cr3 : Z;
  gdt : gmap Z Segdesc;
  idt : gmap Z Gatedesc;
  last_tf : option tfptr;
  ncpu : Z;
  bootcpu : Z;                 (* index into [cpus] *)
  ismp : bool;
  lapicaddr : Z;
  lapic : Z;
  mpentry_kstack : Z;
  cons : console;
  trace : list event
}.
#[export] Instance eta_kstate : Eta kstate := fun r =>
  mkKstate (pmem r) (npages r) (npages_basemem r) (kern_pgdir r) (pages r) (pages_va r)
    (page_free_list r) (nextfree r) (mmio_base r) (user_mem_check_addr r) (envs r)
    (envs_va r) (env_free_list r) (cpus r) (cpunum r) (kernel_lock r) (panicstr r)
    (cr3 r) (gdt r) (idt r) (last_tf r) (ncpu r) (bootcpu r) (ismp r) (lapicaddr r) (lapic r)
    (mpentry_kstack r) (cons r) (trace r).

Abbreviation K := (M kstate leave).

Ltac kred :=
  cbn [upd put pmem npages npages_basemem kern_pgdir pages pages_va page_free_list
       nextfree mmio_base user_mem_check_addr envs envs_va env_free_list cpus cpunum
       kernel_lock panicstr cr3 gdt idt last_tf ncpu bootcpu ismp lapicaddr lapic mpentry_kstack
       cons trace].

(** What the linker and the hardware give. *)
Class Machine := {
  end_sym : Z;                 (* end of the kernel image *)
  percpu_kstacks : Z -> Z;     (* the stack areas of the CPUs *)
  bootstack : Z;
  cpu_ts_va : Z -> Z;          (* &cpus[i].cpu_ts *)
  vector : Z -> Z;             (* the entry points of kern/trapentry.S, by trap number *)
  cmos : Z -> Z;               (* the CMOS memory *)
  read_ebp : Z;                (* the frame pointer of the running function *)
  kstack : Z -> Z;             (* words of the kernel stack *)
  stack_tf_va : Z;             (* where the processor's trap frame is on the kernel stack *)
  rcr2 : Z;                    (* the faulting address *)
  read_eflags : Z;
  rcr0 : Z;                    (* %cr0 as kern/entry.S leaves it *)
  lapic_read : Z -> Z;         (* the registers of the local APIC *)
  mpentry_code : list Z;       (* the bytes from mpentry_start to mpentry_end *)
  edata_sym : Z; etext_sym : Z; entry_sym : Z; start_sym : Z
}.

(** Running console code in the kernel. *)
Definition with_cons {A} (m : M console leave A) : K A := fun s =>
  match m (cons s) with
  | Ret a c => Ret a (put cons c s)
  | Stop x c => Stop x (put cons c s)
  | Panic msg c => Panic msg (put cons c s)
  | Undef why => Undef why
  end.

Definition emit (ev : event) : K unit := modify (upd trace (fun tr => ev :: tr)).

(** ** Kernel loads and stores *)

Definition word (m : gmap Z (gmap Z Z)) (f i : Z) : Z :=
  default 0 (m !! f ≫= fun fr => fr !! i).

Definition set_word (f i v : Z) (m : gmap Z (gmap Z Z)) : gmap Z (gmap Z Z) :=
  <[f := <[i := v]> (default ∅ (m !! f))]> m.

(** Does the linear map at [KERNBASE] reach RAM at [va]? *)
Definition in_linear (s : kstate) (va : Z) : bool :=
  (KERNBASE <=? va) && (va - KERNBASE <? npages s * PGSIZE).

Definition kload (va : Z) : K Z := fun s =>
  if in_linear s va then
    let pa := va - KERNBASE in
    Ret (word (pmem s) (pa / PGSIZE) (pa mod PGSIZE / 4)) s
  else Undef "load through a wild pointer".

Definition kstore (va v : Z) : K unit := fun s =>
  if in_linear s va then
    let pa := va - KERNBASE in
    Ret tt (upd pmem (set_word (pa / PGSIZE) (pa mod PGSIZE / 4) (u32 v)) s)
  else Undef "store through a wild pointer".

(** [memset(kva, 0, PGSIZE)] and [memcpy(dst, src, PGSIZE)] on whole pages. *)
Definition kzero_page (kva : Z) : K unit := fun s =>
  if in_linear s kva then
    Ret tt (upd pmem (fun m => <[(kva - KERNBASE) / PGSIZE := ∅]> m) s)
  else Undef "memset of a wild pointer".

Definition kcopy_page (dst src : Z) : K unit := fun s =>
  if in_linear s dst && in_linear s src then
    Ret tt (upd pmem (fun m =>
      <[(dst - KERNBASE) / PGSIZE := default ∅ (m !! ((src - KERNBASE) / PGSIZE))]> m) s)
  else Undef "memcpy with a wild pointer".

(** ** Array elements *)

Definition get_page (p : Z) : K PageInfo := fun s =>
  match pages s !! p with
  | Some pi => Ret pi s
  | None => Undef "outside the pages array"
  end.

Definition upd_page (p : Z) (g : PageInfo -> PageInfo) : K unit :=
  pi ← get_page p; modify (upd pages (fun a => <[p := g pi]> a)).

Definition get_env (e : Z) : K Env := fun s =>
  match envs s !! e with
  | Some v => Ret v s
  | None => Undef "outside the envs array"
  end.

Definition upd_env (e : Z) (g : Env -> Env) : K unit :=
  v ← get_env e; modify (upd envs (fun a => <[e := g v]> a)).

(** [thiscpu] and [curenv]. *)
Definition get_thiscpu : K CpuInfo := fun s =>
  match cpus s !! cpunum s with
  | Some c => Ret c s
  | None => Undef "outside the cpus array"
  end.

Definition upd_thiscpu (g : CpuInfo -> CpuInfo) : K unit :=
  c ← get_thiscpu; modify (fun s => upd cpus (fun a => <[cpunum s := g c]> a) s).

Definition curenv : K (option Z) := c ← get_thiscpu; mret (cpu_env c).
Definition set_curenv (e : option Z) : K unit := upd_thiscpu (put cpu_env e).

Definition lcr3 (pa : Z) : K unit := modify (fun s => put cr3 pa (upd trace (fun tr => EvLcr3 pa :: tr) s)).
Definition cprintf (fmt : string) (args : list varg) : K unit := emit (EvPrint fmt args).

(** A format that ends in a newline. *)
Definition nl : string := String (Ascii.ascii_of_nat 10) EmptyString.
Definition cprintln (fmt : string) (args : list varg) : K unit := cprintf (fmt +:+ nl) args.

(** ** Reading after a write *)

Lemma word_set_eq m f i v : word (set_word f i v m) f i = v.
Proof. unfold word, set_word. rewrite lookup_insert_eq. cbn. by rewrite lookup_insert_eq. Qed.

Lemma word_set_ne m f i v f' i' :
  f <> f' \/ i <> i' -> word (set_word f i v m) f' i' = word m f' i'.
Proof.
  intros H. unfold word, set_word. destruct (decide (f = f')) as [->|].
  - rewrite lookup_insert_eq. cbn. rewrite lookup_insert_ne by naive_solver.
    by destruct (m !! f').
  - by rewrite lookup_insert_ne.
Qed.

Lemma word_set m f i v f' i' :
  word (set_word f i v m) f' i' = if decide (f = f' /\ i = i') then v else word m f' i'.
Proof.
  case_decide as Hd; [destruct Hd as [-> ->]; apply word_set_eq|].
  apply word_set_ne. destruct (decide (f = f')); naive_solver.
Qed.

Lemma word_zero_page m f f' i' :
  word (<[f := ∅]> m) f' i' = if decide (f = f') then 0 else word m f' i'.
Proof.
  unfold word. case_decide as Hd.
  - subst. rewrite lookup_insert_eq. cbn. by rewrite lookup_empty.
  - by rewrite lookup_insert_ne.
Qed.

(** ** A small machine

    A state with [np] pages of RAM and nothing else, for concrete runs. *)
Definition blank_tf : Trapframe :=
  mkTrapframe (mkPushRegs 0 0 0 0 0 0 0 0) 0 0 0 0 0 0 0 0 0.

Definition blank (np : Z) : kstate :=
  mkKstate ∅ np 160 0 ∅ 0 None 0 MMIOBASE 0 ∅ 0 None
    {[ 0 := mkCpuInfo 0 CPU_STARTED None 0 0 ]} 0 (mkSpinlock 0 None []) false 0 ∅ ∅ None
    0 0 false 0 0 0 console0 [].

(** Values for what the linker and the hardware decide. *)
Definition small_machine : Machine := {|
  end_sym := 0xf0200000; percpu_kstacks := fun i => 0xf0100000 + i * KSTKSIZE;
  bootstack := 0xf0110000; cpu_ts_va := fun i => 0xf0180000 + i * 128;
  vector := fun n => u32 (0xf0103000 + n * 16); cmos := fun _ => 0;
  read_ebp := 0; kstack := fun _ => 0; stack_tf_va := 0xefffffbc;
  rcr2 := 0xdeadb000; read_eflags := 0; rcr0 := 0x80010011; lapic_read := fun _ => 0;
  mpentry_code := [0xfa; 0x31; 0xc0]; edata_sym := 0xf0130000; etext_sym := 0xf0108000;
  entry_sym := 0xf010000c; start_sym := 0x0010000c
|}.
