(* ===== verification/Spinlock.v ===== *)
(** * The big kernel lock: [kern/spinlock.c] and [kern/spinlock.h]

    The functions on the kernel state, as one CPU runs them, and the same code
    cut into its memory accesses, as several CPUs interleave them ([lstep]).
    [xchg] is one access.  The second is where mutual exclusion is proved. *)

From Stdlib Require Import Lia ZArith ZifyClasses ZifyInst ZifyBool.
From stdpp Require Import base gmap list strings numbers.
From S2P Require Import Prelude Cmonad Mmu Printfmt Console State.

(** ** The functions *)

Section Locks.
Context {machine : Machine}.

(** The loop of [get_caller_pcs], then zeros up to ten entries. *)
Fixpoint get_caller_pcs_loop (n : nat) (ebp : Z) : list Z :=
  match n with
  | O => []
  | S n' =>
      if (ebp =? 0) || (ebp <? ULIM) then replicate n 0
      else kstack (u32 (ebp + 4)) :: get_caller_pcs_loop n' (kstack ebp)
  end.

Definition get_caller_pcs : list Z := get_caller_pcs_loop 10 read_ebp.

Definition holding : K bool :=
  lk ← gets kernel_lock;
  me ← gets cpunum;
  mret (negb (locked lk =? 0) && bool_decide (lk_cpu lk = Some me)).

Definition spin_initlock : K unit :=
  modify (upd kernel_lock (fun lk => put lk_cpu None (put locked 0 lk))).

Definition spin_lock : K unit :=
  h ← holding;
  if (h : bool) then panic "CPU %d cannot acquire %s: already holding"
  else
    (* while (xchg(&lk->locked, 1) != 0) pause *)
    lk ← gets kernel_lock;
    modify (upd kernel_lock (put locked 1)) ;;
    if negb (locked lk =? 0) then emit EvPause ;; stop Spinning
    else
      me ← gets cpunum;
      modify (upd kernel_lock (put lk_cpu (Some me))) ;;
      modify (upd kernel_lock (put lk_pcs get_caller_pcs)).

Definition spin_unlock : K unit :=
  h ← holding;
  if (h : bool) then
    modify (upd kernel_lock (upd lk_pcs (fun pcs => <[0%nat := 0]> pcs))) ;;
    modify (upd kernel_lock (put lk_cpu None)) ;;
    modify (upd kernel_lock (put locked 0))
  else
    lk ← gets kernel_lock;
    me ← gets cpunum;
    match lk_cpu lk with
    | None => undef "null lk->cpu"
    | Some c =>
        cs ← gets cpus;
        match cs !! c with
        | None => undef "outside the cpus array"
        | Some ci =>
            cprintf "CPU %d cannot release %s: held by CPU %d
Acquired at:" [AInt me; pstr "kernel_lock"; AInt (cpu_id ci)] ;;
            emit (EvBacktrace (lk_pcs lk)) ;;
            panic "spin_unlock"
        end
    end.

Definition lock_kernel : K unit := spin_lock.
Definition unlock_kernel : K unit := spin_unlock ;; emit EvPause.
End Locks.

(** Running them: the lock moves between free and held by this CPU. *)

Section LockLemmas.
Context {machine : Machine}.

Definition lock_free (s : kstate) : Prop := locked (kernel_lock s) = 0.
Definition lock_mine (s : kstate) : Prop :=
  locked (kernel_lock s) = 1 /\ lk_cpu (kernel_lock s) = Some (cpunum s).

Lemma holding_eq s :
  holding s = Ret (negb (locked (kernel_lock s) =? 0)
                   && bool_decide (lk_cpu (kernel_lock s) = Some (cpunum s))) s.
Proof. done. Qed.

Lemma lock_kernel_eq s :
  lock_free s ->
  lock_kernel s = Ret tt (put kernel_lock (mkSpinlock 1 (Some (cpunum s)) get_caller_pcs) s).
Proof.
  intros H. unfold lock_kernel, spin_lock. erewrite bind_Ret by apply holding_eq.
  unfold lock_free in H. rewrite H. cbn [Z.eqb negb andb].
  do 2 erewrite bind_Ret by reflexivity. rewrite H. cbn [Z.eqb negb].
  do 2 erewrite bind_Ret by reflexivity. by destruct s.
Qed.

Lemma unlock_kernel_eq s :
  lock_mine s ->
  unlock_kernel s =
    Ret tt (put trace (EvPause :: trace s)
      (put kernel_lock (mkSpinlock 0 None (<[0%nat := 0]> (lk_pcs (kernel_lock s)))) s)).
Proof.
  intros [H1 H2]. unfold unlock_kernel, spin_unlock.
  erewrite bind_Ret.
  2:{ erewrite bind_Ret by apply holding_eq. rewrite H1, H2, bool_decide_eq_true_2 by done.
      reflexivity. }
  by destruct s.
Qed.
End LockLemmas.

(** ** Interleavings *)

(** Where a CPU is in the code: outside; in [spin_lock], before the reads of
    [holding], the exchange and the stores; inside the critical section; in
    [spin_unlock]; or stopped by a panic. *)
Inductive pc : Set :=
  | Out | LChk1 | LChk2 | LXchg | LGot | In | UChk1 | UChk2 | UClear | UXchg | Panicked.

#[export] Instance pc_eq_dec : EqDecision pc.
Proof. solve_decision. Defined.

(** The lock's two words and the position of each CPU. *)
Record lstate := mkLstate { l_locked : Z; l_cpu : option Z; l_pc : Z -> pc }.

Definition at_pc (c : Z) (p : pc) (f : Z -> pc) : Z -> pc := fun c' => if decide (c' = c) then p else f c'.

Inductive lstep : lstate -> lstate -> Prop :=
  | st_enter c s : l_pc s c = Out ->
      lstep s (mkLstate (l_locked s) (l_cpu s) (at_pc c LChk1 (l_pc s)))
  | st_chk1 c s : l_pc s c = LChk1 ->
      lstep s (mkLstate (l_locked s) (l_cpu s)
                 (at_pc c (if l_locked s =? 0 then LXchg else LChk2) (l_pc s)))
  | st_chk2 c s : l_pc s c = LChk2 ->
      lstep s (mkLstate (l_locked s) (l_cpu s)
                 (at_pc c (if decide (l_cpu s = Some c) then Panicked else LXchg) (l_pc s)))
  | st_xchg c s : l_pc s c = LXchg ->
      lstep s (mkLstate 1 (l_cpu s)
                 (at_pc c (if l_locked s =? 0 then LGot else LXchg) (l_pc s)))
  | st_got c s : l_pc s c = LGot ->
      lstep s (mkLstate (l_locked s) (Some c) (at_pc c In (l_pc s)))
  | st_leave c s : l_pc s c = In ->
      lstep s (mkLstate (l_locked s) (l_cpu s) (at_pc c UChk1 (l_pc s)))
  | st_uchk1 c s : l_pc s c = UChk1 ->
      lstep s (mkLstate (l_locked s) (l_cpu s)
                 (at_pc c (if l_locked s =? 0 then Panicked else UChk2) (l_pc s)))
  | st_uchk2 c s : l_pc s c = UChk2 ->
      lstep s (mkLstate (l_locked s) (l_cpu s)
                 (at_pc c (if decide (l_cpu s = Some c) then UClear else Panicked) (l_pc s)))
  | st_clear c s : l_pc s c = UClear ->
      lstep s (mkLstate (l_locked s) None (at_pc c UXchg (l_pc s)))
  | st_rel c s : l_pc s c = UXchg ->
      lstep s (mkLstate 0 (l_cpu s) (at_pc c Out (l_pc s))).

Definition lock_init : lstate := mkLstate 0 None (fun _ => Out).

(** Past the exchange that took the lock, before the one that gives it back. *)
Definition owns (p : pc) : bool :=
  match p with LGot | In | UChk1 | UChk2 | UClear | UXchg => true | _ => false end.

(** ... and recorded as the holder. *)
Definition recorded (p : pc) : bool :=
  match p with In | UChk1 | UChk2 | UClear => true | _ => false end.

(** [o] is the CPU that has the lock. *)
Record lock_inv (o : option Z) (s : lstate) : Prop := {
  li_owner c : owns (l_pc s c) = true <-> o = Some c;
  li_locked : l_locked s = if o is Some _ then 1 else 0;
  li_cpu : l_cpu s = match o with
                     | Some c => if recorded (l_pc s c) then Some c else None
                     | None => None
                     end;
  li_calm c : l_pc s c <> Panicked
}.

Lemma lock_init_inv : lock_inv None lock_init.
Proof. by constructor. Qed.

Lemma at_pc_eq c p f : at_pc c p f c = p.
Proof. unfold at_pc. by rewrite decide_True. Qed.

Lemma at_pc_ne c p f c' : c' <> c -> at_pc c p f c' = f c'.
Proof. unfold at_pc. intros. by rewrite decide_False. Qed.

(** A step of [c] that neither takes nor gives back the lock, nor changes
    whether [c] is recorded. *)
Lemma lock_inv_move o s c p :
  lock_inv o s -> owns p = owns (l_pc s c) -> recorded p = recorded (l_pc s c) -> p <> Panicked ->
  lock_inv o (mkLstate (l_locked s) (l_cpu s) (at_pc c p (l_pc s))).
Proof.
  intros [Ho Hl Hc Hp] Howns Hrec Hpan. constructor; cbn.
  - intros c'. destruct (decide (c' = c)) as [->|].
    + by rewrite at_pc_eq, Howns.
    + by rewrite at_pc_ne.
  - done.
  - rewrite Hc. destruct o as [c'|]; [|done]. destruct (decide (c' = c)) as [->|].
    + by rewrite at_pc_eq, Hrec.
    + by rewrite at_pc_ne.
  - intros c'. destruct (decide (c' = c)) as [->|]; [by rewrite at_pc_eq|by rewrite at_pc_ne].
Qed.

(** The owner's own steps. *)
Lemma lock_inv_owner s c lk cpu p o' :
  lock_inv (Some c) s -> p <> Panicked ->
  o' = (if owns p then Some c else None) ->
  lk = (if owns p then 1 else 0) -> cpu = (if recorded p then Some c else None) ->
  (recorded p = true -> owns p = true) ->
  lock_inv o' (mkLstate lk cpu (at_pc c p (l_pc s))).
Proof.
  intros [Ho Hl Hc Hp] Hpan -> -> -> Hro. constructor; cbn.
  - intros c'. destruct (decide (c' = c)) as [->|Hne].
    + rewrite at_pc_eq. destruct (owns p); naive_solver.
    + rewrite at_pc_ne by done. rewrite Ho. destruct (owns p); naive_solver.
  - by destruct (owns p).
  - destruct (owns p); [by rewrite at_pc_eq|]. by destruct (recorded p); [specialize (Hro eq_refl)|].
  - intros c'. destruct (decide (c' = c)) as [->|]; [by rewrite at_pc_eq|by rewrite at_pc_ne].
Qed.

Lemma lock_inv_owns o s c : lock_inv o s -> owns (l_pc s c) = true -> o = Some c.
Proof. intros H. apply (li_owner _ _ H). Qed.

Lemma lock_inv_step o s s' : lock_inv o s -> lstep s s' -> exists o', lock_inv o' s'.
Proof.
  intros Hi Hst. pose proof Hi as [Ho Hl Hc Hp].
  destruct Hst as [c s H|c s H|c s H|c s H|c s H|c s H|c s H|c s H|c s H|c s H].
  - exists o. apply lock_inv_move; by rewrite ?H.
  - exists o. apply lock_inv_move; rewrite ?H; by destruct (l_locked s =? 0).
  - (* [lk->cpu] is another CPU *)
    assert (l_cpu s <> Some c) as Hne.
    { rewrite Hc. destruct o as [c'|]; [|done]. destruct (recorded _) eqn:E; [|done].
      intros [= ->]. by rewrite H in E. }
    exists o. rewrite decide_False by done. apply lock_inv_move; by rewrite ?H.
  - destruct o as [c'|]; rewrite Hl; cbn [Z.eqb].
    + exists (Some c'). rewrite <- Hl at 1. apply lock_inv_move; by rewrite ?H.
    + exists (Some c). constructor; cbn.
      * intros c'. destruct (decide (c' = c)) as [->|]; [by rewrite at_pc_eq|].
        rewrite at_pc_ne by done. rewrite Ho. naive_solver.
      * done.
      * by rewrite at_pc_eq, Hc.
      * intros c'. destruct (decide (c' = c)) as [->|]; [by rewrite at_pc_eq|by rewrite at_pc_ne].
  - pose proof (lock_inv_owns _ _ c Hi ltac:(by rewrite H)) as ->.
    exists (Some c). by apply lock_inv_owner.
  - exists o. apply lock_inv_move; by rewrite ?H.
  - pose proof (lock_inv_owns _ _ c Hi ltac:(by rewrite H)) as ->.
    exists (Some c). rewrite Hl. cbn [Z.eqb]. rewrite <- Hl. apply lock_inv_move; by rewrite ?H.
  - pose proof (lock_inv_owns _ _ c Hi ltac:(by rewrite H)) as ->.
    exists (Some c). rewrite decide_True by (by rewrite Hc, H). apply lock_inv_move; by rewrite ?H.
  - pose proof (lock_inv_owns _ _ c Hi ltac:(by rewrite H)) as ->.
    exists (Some c). by apply lock_inv_owner.
  - pose proof (lock_inv_owns _ _ c Hi ltac:(by rewrite H)) as ->.
    exists None. apply lock_inv_owner; try done. by rewrite Hc, H.
Qed.

Lemma lock_inv_reachable s : rtc lstep lock_init s -> exists o, lock_inv o s.
Proof.
  intros H. assert (exists o, lock_inv o lock_init) as Hi by (exists None; apply lock_init_inv).
  induction H as [|s1 s2 s3 Hstep _ IH]; [done|].
  destruct Hi as [o Hi]. apply IH. by eapply lock_inv_step.
Qed.

(** C12: under every interleaving of the CPUs' memory accesses, at most one CPU
    is between taking the big kernel lock and giving it back. *)
Theorem kernel_lock_mutual_exclusion s c c' :
  rtc lstep lock_init s -> owns (l_pc s c) = true -> owns (l_pc s c') = true -> c = c'.
Proof.
  intros [o Hi]%lock_inv_reachable H1 H2.
  apply (lock_inv_owns _ _ _ Hi) in H1. apply (lock_inv_owns _ _ _ Hi) in H2. congruence.
Qed.

(** The debugging checks never panic in correct use, although [holding]
    reads [locked] and [cpu] without the lock and in two accesses: a CPU that
    takes the lock only when outside, and gives it back only when inside, never
    sees itself as the holder too early or another CPU as the holder too late. *)
Theorem kernel_lock_no_false_panic s c :
  rtc lstep lock_init s -> l_pc s c <> Panicked.
Proof. intros [o Hi]%lock_inv_reachable. apply (li_calm _ _ Hi). Qed.

(** CPU 0 inside the lock, CPU 1 spinning. *)
Lemma lock_demo_reachable :
  exists s, rtc lstep lock_init s /\ l_pc s 0 = In /\ l_pc s 1 = LXchg.
Proof.
  eexists. split.
  - eapply rtc_l; [by apply (st_enter 0)|]. eapply rtc_l; [by apply (st_chk1 0)|].
    eapply rtc_l; [by apply (st_xchg 0)|]. eapply rtc_l; [by apply (st_got 0)|].
    eapply rtc_l; [by apply (st_enter 1)|]. eapply rtc_l; [by apply (st_chk1 1)|].
    eapply rtc_l; [by apply (st_chk2 1)|]. eapply rtc_l; [by apply (st_xchg 1)|].
    apply rtc_refl.
  - done.
Qed.

Lemma kernel_lock_mutual_exclusion_witness :
  exists s, rtc lstep lock_init s /\ l_pc s 0 = In /\
    (forall c, owns (l_pc s c) = true -> c = 0).
Proof.
  destruct lock_demo_reachable as (s & Hs & H0 & _). exists s. split; [done|]. split; [done|].
  intros c Hc. apply (kernel_lock_mutual_exclusion s c 0 Hs Hc). by rewrite H0.
Defined.

Lemma kernel_lock_no_false_panic_witness :
  exists s, rtc lstep lock_init s /\ l_pc s 1 = LXchg /\ l_pc s 0 <> Panicked.
Proof.
  destruct lock_demo_reachable as (s & Hs & _ & H1). exists s. split; [done|]. split; [done|].
  by apply kernel_lock_no_false_panic.
Defined.

(** ** The two views agree *)

(** Nobody else interferes: the accesses of [spin_lock], one after the other. *)
Lemma uncontended_lock c f :
  f c = Out ->
  exists f', rtc lstep (mkLstate 0 None f) (mkLstate 1 (Some c) f') /\ f' c = In /\
    (forall c', c' <> c -> f' c' = f c').
Proof.
  intros Hf. eexists. split; [|split].
  - eapply rtc_l; [by apply (st_enter c)|]. cbn.
    eapply rtc_l; [apply (st_chk1 c); cbn; by rewrite at_pc_eq|]. cbn.
    eapply rtc_l; [apply (st_xchg c); cbn; by rewrite at_pc_eq|]. cbn.
    eapply rtc_l; [apply (st_got c); cbn; by rewrite at_pc_eq|]. apply rtc_refl.
  - by rewrite at_pc_eq.
  - intros c' Hne. cbn. by rewrite !at_pc_ne.
Qed.

Lemma uncontended_unlock c f :
  f c = In ->
  exists f', rtc lstep (mkLstate 1 (Some c) f) (mkLstate 0 None f') /\ f' c = Out /\
    (forall c', c' <> c -> f' c' = f c').
Proof.
  intros Hf. eexists. split; [|split].
  - eapply rtc_l; [by apply (st_leave c)|]. cbn.
    eapply rtc_l; [apply (st_uchk1 c); cbn; by rewrite at_pc_eq|]. cbn.
    eapply rtc_l; [apply (st_uchk2 c); cbn; by rewrite at_pc_eq|]. cbn.
    rewrite decide_True by done.
    eapply rtc_l; [apply (st_clear c); cbn; by rewrite at_pc_eq|]. cbn.
    eapply rtc_l; [apply (st_rel c); cbn; by rewrite at_pc_eq|]. apply rtc_refl.
  - by rewrite at_pc_eq.
  - intros c' Hne. cbn. by rewrite !at_pc_ne.
Qed.

(** [lock_kernel] and [unlock_kernel], as the rest of the kernel uses them,
    are runs of the interleaved model: when they return, their effect on the
    lock is that of a sequence of the calling CPU's accesses. *)
Theorem lock_kernel_refines {machine : Machine} s s' f :
  lk_cpu (kernel_lock s) = None -> lock_kernel s = Ret tt s' -> f (cpunum s) = Out ->
  exists f', rtc lstep (mkLstate (locked (kernel_lock s)) (lk_cpu (kernel_lock s)) f)
                       (mkLstate (locked (kernel_lock s')) (lk_cpu (kernel_lock s')) f') /\
    f' (cpunum s) = In /\ (forall c, c <> cpunum s -> f' c = f c) /\
    exists s'' f'', unlock_kernel s' = Ret tt s'' /\
      rtc lstep (mkLstate (locked (kernel_lock s')) (lk_cpu (kernel_lock s')) f')
                (mkLstate (locked (kernel_lock s'')) (lk_cpu (kernel_lock s'')) f'') /\
      f'' (cpunum s) = Out.
Proof.
  intros Hcpu Hlock Hf.
  assert (lock_free s) as Hfree.
  { unfold lock_kernel, spin_lock in Hlock. erewrite bind_Ret in Hlock by apply holding_eq.
    rewrite Hcpu, bool_decide_eq_false_2, andb_false_r in Hlock by done.
    do 2 erewrite bind_Ret in Hlock by reflexivity. unfold lock_free.
    destruct (Z.eqb_spec (locked (kernel_lock s)) 0); [done|]. cbn in Hlock. done. }
  rewrite (lock_kernel_eq s Hfree) in Hlock. injection Hlock as <-.
  rewrite Hcpu, Hfree. kred. cbn [locked lk_cpu].
  destruct (uncontended_lock (cpunum s) f Hf) as (f' & H1 & H2 & H3).
  exists f'. split_and!; [done..|].
  destruct (uncontended_unlock (cpunum s) f' H2) as (f'' & H4 & H5 & _).
  eexists _, f''. split; [by apply unlock_kernel_eq|]. kred. by cbn [locked lk_cpu].
Qed.

Lemma lock_kernel_refines_witness :
  exists s' f', @lock_kernel small_machine (blank 4) = Ret tt s' /\ f' 0 = In /\
    rtc lstep lock_init (mkLstate (locked (kernel_lock s')) (lk_cpu (kernel_lock s')) f').
Proof.
  destruct (@lock_kernel_refines small_machine (blank 4) _ (fun _ => Out) eq_refl
    (lock_kernel_eq (blank 4) eq_refl) eq_refl) as (f' & H1 & H2 & _).
  eexists _, f'. split; [by apply lock_kernel_eq|]. split; [exact H2|exact H1].
Defined.
