(* ===== verification/Umem.v ===== *)
(** * Bytes of memory, through the kernel's map and through the page tables

    The kernel reaches user memory by its user address, through the page
    directory in [%cr3], when it loads a program, prints a user's string or
    builds a page fault frame.  [mmu_translate] is what the processor does with
    such an address in kernel mode: write access needs [PTE_W] as well, since
    the kernel sets [CR0_WP].  An access it refuses is a page fault in the
    kernel, on which [page_fault_handler] panics.

    Words are little-endian; accesses need no alignment. *)

From Stdlib Require Import Lia ZArith ZifyClasses ZifyInst ZifyBool.
From stdpp Require Import base gmap list strings numbers.
From S2P Require Import Prelude Cmonad Mmu Printfmt Console State.

(** ** Physical bytes *)

Definition get_byte (m : gmap Z (gmap Z Z)) (pa : Z) : Z :=
  Z.land (Z.shiftr (word m (pa / PGSIZE) (pa mod PGSIZE / 4)) (8 * (pa mod 4))) 0xff.

Definition set_byte (pa b : Z) (m : gmap Z (gmap Z Z)) : gmap Z (gmap Z Z) :=
  let w := word m (pa / PGSIZE) (pa mod PGSIZE / 4) in
  let sh := 8 * (pa mod 4) in
  set_word (pa / PGSIZE) (pa mod PGSIZE / 4)
    (Z.lor (Z.land w (Z.lnot (Z.shiftl 0xff sh))) (Z.shiftl (u8 b) sh)) m.

Definition pload_byte (pa : Z) : K Z := fun s =>
  if pa / PGSIZE <? npages s then Ret (get_byte (pmem s) pa) s
  else Undef "load outside RAM".

Definition pstore_byte (pa b : Z) : K unit := fun s =>
  if pa / PGSIZE <? npages s then Ret tt (upd pmem (set_byte pa b) s)
  else Undef "store outside RAM".

(** ** Kernel addresses *)

Definition kload_byte (va : Z) : K Z := fun s =>
  if in_linear s va then pload_byte (va - KERNBASE) s else Undef "load through a wild pointer".

Definition kstore_byte (va b : Z) : K unit := fun s =>
  if in_linear s va then pstore_byte (va - KERNBASE) b s else Undef "store through a wild pointer".

(** ** User addresses *)

Definition mmu_translate (s : kstate) (va : Z) (write : bool) : option Z :=
  let pde := word (pmem s) (cr3 s / PGSIZE) (PDX va) in
  let e := word (pmem s) (PTE_ADDR pde / PGSIZE) (PTX va) in
  if tst pde PTE_P && tst e PTE_P && (negb write || tst pde PTE_W && tst e PTE_W)
  then Some (PTE_ADDR e + PGOFF va) else None.

Definition uload_byte (va : Z) : K Z := fun s =>
  match mmu_translate s (u32 va) false with
  | Some pa => pload_byte pa s
  | None => Panic "page fault happened in kernel" s
  end.

Definition ustore_byte (va b : Z) : K unit := fun s =>
  match mmu_translate s (u32 va) true with
  | Some pa => pstore_byte pa b s
  | None => Panic "page fault happened in kernel" s
  end.

(** ** Words, and runs of bytes *)

Fixpoint read_le (load : Z -> K Z) (n : nat) (va : Z) : K Z :=
  match n with
  | O => mret 0
  | S n' => b ← load va; hi ← read_le load n' (va + 1); mret (b + 256 * hi)
  end.

Fixpoint write_le (store : Z -> Z -> K unit) (n : nat) (va v : Z) : K unit :=
  match n with
  | O => mret tt
  | S n' => store va (v mod 256) ;; write_le store n' (va + 1) (v / 256)
  end.

Definition kread32 (va : Z) : K Z := read_le kload_byte 4 va.
Definition kread16 (va : Z) : K Z := read_le kload_byte 2 va.
Definition uwrite32 (va v : Z) : K unit := write_le ustore_byte 4 va (u32 v).

(** [memmove(dst, src, n)] from kernel memory to user memory, which are
    different addresses, and [memset(dst, 0, n)] on user memory. *)
Fixpoint copy_to_user (n : nat) (dst src : Z) : K unit :=
  match n with
  | O => mret tt
  | S n' => b ← kload_byte src; ustore_byte dst b ;; copy_to_user n' (dst + 1) (src + 1)
  end.

Fixpoint zero_user (n : nat) (dst : Z) : K unit :=
  match n with
  | O => mret tt
  | S n' => ustore_byte dst 0 ;; zero_user n' (dst + 1)
  end.

(** The bytes the [%s] conversion reads at [va]:
    [(ch = *p++) != 0 && (precision < 0 || --precision >= 0)] loads a byte
    before it looks at the precision, so one more byte than it prints.  After
    [2^32] bytes the pointer is back where it started. *)
Fixpoint read_user_string (fuel : nat) (precision va : Z) : K (list Z) :=
  match fuel with
  | O => undef "a string without end"
  | S fuel' =>
      b ← uload_byte va;
      if b =? 0 then mret [b]
      else if precision <? 0 then
        rest ← read_user_string fuel' precision (va + 1); mret (b :: rest)
      else if 0 <=? precision - 1 then
        rest ← read_user_string fuel' (precision - 1) (va + 1); mret (b :: rest)
      else mret [b]
  end.

Definition user_string (precision va : Z) : K (list Z) :=
  read_user_string (Z.to_nat (if precision <? 0 then 2 ^ 32 else precision + 1)) precision va.

(** ** Properties of bytes *)

Lemma get_set_byte m pa b :
  0 <= pa -> 0 <= b < 256 -> get_byte (set_byte pa b m) pa = b.
Proof.
  intros Hpa Hb. unfold get_byte, set_byte.
  rewrite word_set_eq.
  set (k := 8 * (pa mod 4)). assert (0 <= k) by (unfold k; Z.div_mod_to_equations; lia).
  rewrite (u8_id b) by done. apply Z.bits_inj'. intros n Hn.
  change 0xff with (Z.ones 8). rewrite Z.land_spec, Z.shiftr_spec, Z.lor_spec, Z.land_spec,
    Z.lnot_spec, !Z.shiftl_spec by lia. replace (n + k - k) with n by lia.
  destruct (decide (n < 8)).
  - rewrite Z.ones_spec_low by lia. cbn. by rewrite andb_false_r, andb_true_r.
  - rewrite Z.ones_spec_high, andb_false_r by lia. symmetry. by apply (testbit_small b 8); lia.
Qed.

Lemma get_set_byte_ne m pa pa' b :
  0 <= pa -> 0 <= pa' -> pa <> pa' -> get_byte (set_byte pa b m) pa' = get_byte m pa'.
Proof.
  intros Hpa Hpa' Hne. unfold get_byte, set_byte. rewrite word_set.
  case_decide as Hw; [|done]. destruct Hw as [H1 H2]. rewrite H1, H2.
  assert (pa mod 4 <> pa' mod 4) as Hm by (clear -Hpa Hpa' Hne H1 H2; change PGSIZE with 4096 in *; Z.div_mod_to_equations; lia).
  set (w := word m (pa' / PGSIZE) (pa' mod PGSIZE / 4)).
  assert (0 <= pa mod 4 < 4 /\ 0 <= pa' mod 4 < 4) as [Hk Hk'] by (Z.div_mod_to_equations; lia).
  set (k := pa mod 4) in *. set (k' := pa' mod 4) in *.
  apply Z.bits_inj'. intros n Hn. change 0xff with (Z.ones 8). rewrite !Z.land_spec.
  destruct (decide (n < 8)) as [Hn8|Hn8].
  2:{ rewrite Z.ones_spec_high by lia. by rewrite !andb_false_r. }
  rewrite !Z.shiftr_spec by lia. rewrite Z.lor_spec, Z.land_spec, Z.lnot_spec by lia.
  rewrite !Z.shiftl_spec by lia.
  assert (Z.testbit (Z.ones 8) (n + 8 * k' - 8 * k) = false /\
          Z.testbit (u8 b) (n + 8 * k' - 8 * k) = false) as [-> ->].
  { destruct (decide (k < k')).
    - rewrite Z.ones_spec_high by lia. split; [done|]. apply (testbit_small _ 8); [|lia..].
      unfold u8. apply Z.mod_pos_bound. lia.
    - rewrite !Z.testbit_neg_r by lia. done. }
  cbn [negb]. by rewrite andb_true_r, orb_false_r.
Qed.

(** A word with one byte replaced is still a word. *)
Lemma set_byte_word m pa b f i :
  0 <= pa -> 0 <= word m f i < 2 ^ 32 -> 0 <= word (set_byte pa b m) f i < 2 ^ 32.
Proof.
  intros Hpa Hw. unfold set_byte. rewrite word_set. case_decide as Hd; [|done].
  destruct Hd as [<- <-] in Hw. set (w := word m _ _) in *.
  assert (0 <= pa mod 4 < 4) as Hk by (Z.div_mod_to_equations; lia).
  apply lor_small; [lia| |].
  - rewrite <- (Z.mod_small w (2 ^ 32)), <- Z.land_ones, <- Z.land_assoc, (Z.land_comm (Z.ones 32)),
      Z.land_assoc, Z.land_ones by lia. apply Z.mod_pos_bound. lia.
  - rewrite Z.shiftl_mul_pow2 by lia. assert (0 <= u8 b < 256) by (unfold u8; apply Z.mod_pos_bound; lia).
    assert (pa mod 4 = 0 \/ pa mod 4 = 1 \/ pa mod 4 = 2 \/ pa mod 4 = 3) as [->|[->|[->| ->]]] by lia; lia.
Qed.

Lemma set_byte_outside m pa b f i : f <> pa / PGSIZE -> word (set_byte pa b m) f i = word m f i.
Proof. intros H. unfold set_byte. apply word_set_ne. left. congruence. Qed.

(** ** Runs of bytes *)

Fixpoint ustore_bytes (va : Z) (l : list Z) : K unit :=
  match l with
  | [] => mret tt
  | b :: l' => ustore_byte va b ;; ustore_bytes (va + 1) l'
  end.

Fixpoint le_split (n : nat) (v : Z) : list Z :=
  match n with O => [] | S n' => v mod 256 :: le_split n' (v / 256) end.

Lemma length_le_split n v : length (le_split n v) = n.
Proof. revert v. induction n as [|n IH]; intros v; [done|]. cbn. by rewrite IH. Qed.

Lemma write_le_bytes n va v s : write_le ustore_byte n va v s = ustore_bytes va (le_split n v) s.
Proof.
  revert va v s. induction n as [|n IH]; intros va v s; [done|].
  cbn. unfold mbind, M_bind. destruct (ustore_byte va (v mod 256) s); [apply IH|done..].
Qed.

Lemma ustore_bytes_app va l1 l2 s :
  (ustore_bytes va l1 ;; ustore_bytes (va + Z.of_nat (length l1)) l2) s = ustore_bytes va (l1 ++ l2) s.
Proof.
  revert va s. induction l1 as [|b l1 IH]; intros va s.
  - cbn [length app]. by replace (va + Z.of_nat 0) with va by lia.
  - cbn [ustore_bytes app]. specialize (IH (va + 1)). unfold mbind, M_bind in *.
    destruct (ustore_byte va b s) as [[] s1| | |]; [|done..]. rewrite <- (IH s1).
    by replace (va + Z.of_nat (length (b :: l1))) with (va + 1 + Z.of_nat (length l1)) by (cbn [length]; lia).
Qed.
