(* ===== verification/Pmap.v ===== *)
(** * Physical pages and page tables: the operations of [kern/pmap.c]

    The page allocator on the linked free list, the two-level page tables, the
    boot-time allocator and mappings, and the checks on user memory, each
    function statement by statement.  [PmapSpec] and [VmSpec] prove what they do. *)

From Stdlib Require Import Lia ZArith ZifyClasses ZifyInst ZifyBool.
From stdpp Require Import base gmap list strings numbers.
From S2P Require Import Prelude Cmonad Mmu Printfmt Console State.

(** Error codes of [inc/error.h]. *)
Definition E_UNSPECIFIED : Z := 1.
Definition E_BAD_ENV : Z := 2.
Definition E_INVAL : Z := 3.
Definition E_NO_MEM : Z := 4.
Definition E_NO_FREE_ENV : Z := 5.
Definition E_FAULT : Z := 6.
Definition E_NO_SYS : Z := 7.
Definition E_IPC_NOT_RECV : Z := 8.
Definition E_EOF : Z := 9.
Definition MAXERROR : Z := 10.

Definition NULL : Z := 0.
Definition ALLOC_ZERO : Z := 1.

(** ** Addresses ([kern/pmap.h]) *)

Definition PADDR (kva : Z) : K Z :=
  if kva <? KERNBASE then panic "PADDR called with invalid kva"
  else mret (u32 (kva - KERNBASE)).

Definition KADDR (pa : Z) : K Z :=
  np ← gets npages;
  if np <=? PGNUM pa then panic "KADDR called with invalid pa"
  else mret (u32 (pa + KERNBASE)).

Definition page2pa (pp : Z) : Z := u32 (Z.shiftl pp PGSHIFT).

Definition pa2page (pa : Z) : K Z :=
  np ← gets npages;
  if np <=? PGNUM pa then panic "pa2page called with invalid pa"
  else mret (PGNUM pa).

Definition page2kva (pp : Z) : K Z := KADDR (page2pa pp).

(** ** Detecting physical memory *)

Section Detect.
Context {machine : Machine}.

Definition nvram_read (r : Z) : K Z :=
  lo ← with_cons (mc146818_read cmos r);
  hi ← with_cons (mc146818_read cmos (r + 1));
  mret (Z.lor lo (Z.shiftl hi 8)).

Definition NVRAM_BASELO : Z := 0x15.
Definition NVRAM_EXTLO : Z := 0x17.

Definition i386_detect_memory : K unit :=
  base ← nvram_read NVRAM_BASELO;
  modify (put npages_basemem (base * 1024 / PGSIZE)) ;;
  ext ← nvram_read NVRAM_EXTLO;
  let npages_extmem := ext * 1024 / PGSIZE in
  npages_base ← gets npages_basemem;
  modify (put npages (if npages_extmem =? 0 then npages_base
                      else EXTPHYSMEM / PGSIZE + npages_extmem)) ;;
  np ← gets npages;
  cprintln "Physical memory: %uK available, base = %uK, extended = %uK"
    [AInt (u32 (np * PGSIZE) / 1024); AInt (u32 (npages_base * PGSIZE) / 1024);
     AInt (u32 (npages_extmem * PGSIZE) / 1024)].
End Detect.

(** ** [boot_alloc]

    [end_sym] is the linker symbol [end], the first address past the kernel. *)
Definition boot_alloc (end_sym n : Z) : K Z :=
  nf ← gets nextfree;
  when (nf =? 0) (modify (put nextfree (ROUNDUP end_sym PGSIZE))) ;;
  nf ← gets nextfree;
  np ← gets npages;
  if 0 <? n then
    if u32 (KERNBASE + u32 (np * PGSIZE)) <? nf then panic "out of memory"
    else
      modify (put nextfree (ROUNDUP (u32 (nf + n)) PGSIZE)) ;;
      mret nf
  else mret nf.

(** ** The page free list *)

(** One iteration of the loop of [page_init]. *)
Definition page_init_at (nextfree_va : Z) (i : Z) : K unit :=
  base ← gets npages_basemem;
  head ← gets page_free_list;
  if i =? 0 then upd_page i (fun _ => mkPageInfo None 1)
  else if i =? MPENTRY_PADDR / PGSIZE then mret tt
  else if i <? base then
    upd_page i (fun _ => mkPageInfo head 0) ;; modify (put page_free_list (Some i))
  else if (IOPHYSMEM / PGSIZE <=? i) && (i <? EXTPHYSMEM / PGSIZE) then
    upd_page i (put pp_ref 1)
  else if (IOPHYSMEM / PGSIZE <=? i) && (i <? u32 (nextfree_va - KERNBASE) / PGSIZE) then
    upd_page i (fun _ => mkPageInfo None 1)
  else
    upd_page i (fun _ => mkPageInfo head 0) ;; modify (put page_free_list (Some i)).

Definition page_init (end_sym : Z) : K unit :=
  nf ← boot_alloc end_sym 0;
  np ← gets npages;
  for_loop (Z.to_nat np) 0 1 (page_init_at nf).

Definition page_alloc (alloc_flags : Z) : K (option Z) :=
  head ← gets page_free_list;
  match head with
  | None => mret None
  | Some new_page =>
      pi ← get_page new_page;
      modify (put page_free_list (pp_link pi)) ;;
      upd_page new_page (put pp_link None) ;;
      when (tst alloc_flags ALLOC_ZERO) (kva ← page2kva new_page; kzero_page kva) ;;
      mret (Some new_page)
  end.

Definition page_free (pp : Z) : K unit :=
  pi ← get_page pp;
  assert (pp_ref pi =? 0) "assertion failed: pp->pp_ref == 0" ;;
  assert (bool_decide (pp_link pi = None)) "assertion failed: pp->pp_link == NULL" ;;
  head ← gets page_free_list;
  upd_page pp (put pp_link head) ;;
  modify (put page_free_list (Some pp)).

Definition page_decref (pp : Z) : K unit :=
  upd_page pp (upd pp_ref (fun r => u16 (r - 1))) ;;
  pi ← get_page pp;
  when (pp_ref pi =? 0) (page_free pp).

(** ** Page tables *)

Definition pgdir_walk (pgdir va : Z) (create : bool) : K Z :=
  let pd_index := PDX va in
  let pte_index := PTX va in
  pde ← kload (pgdir + 4 * pd_index);
  if tst pde PTE_P then
    pt_addr_v ← KADDR (PTE_ADDR pde);
    mret (pt_addr_v + 4 * pte_index)
  else if create then
    new_pt ← page_alloc ALLOC_ZERO;
    match new_pt with
    | None => mret NULL
    | Some np =>
        upd_page np (upd pp_ref (fun r => u16 (r + 1))) ;;
        kstore (pgdir + 4 * pd_index)
          (Z.lor (Z.lor (Z.lor (page2pa np) PTE_U) PTE_W) PTE_P) ;;
        pde ← kload (pgdir + 4 * pd_index);
        pt_addr_v ← KADDR (PTE_ADDR pde);
        mret (pt_addr_v + 4 * pte_index)
    end
  else mret NULL.

(** Flush the TLB entry, but only if [pgdir] is in use on this CPU. *)
Definition tlb_invalidate (pgdir va : Z) : K unit :=
  cur ← curenv;
  match cur with
  | None => emit (EvInvlpg va)
  | Some e =>
      v ← get_env e;
      when (env_pgdir v =? pgdir) (emit (EvInvlpg va))
  end.

(** Returns the page and the address of its entry (what [*pte_store] is set
    to); a null page leaves [*pte_store] alone. *)
Definition page_lookup (pgdir va : Z) : K (option (Z * Z)) :=
  pte ← pgdir_walk pgdir va false;
  if pte =? NULL then mret None
  else
    e ← kload pte;
    pg ← pa2page (PTE_ADDR e);
    mret (Some (pg, pte)).

Definition page_remove (pgdir va : Z) : K unit :=
  r ← page_lookup pgdir va;
  match r with
  | None => mret tt
  | Some (fpage, pte) =>
      page_decref fpage ;;
      kstore pte 0 ;;
      tlb_invalidate pgdir va
  end.

Definition page_insert (pgdir pp va perm : Z) : K Z :=
  pte ← pgdir_walk pgdir va true;
  if pte =? NULL then mret (- E_NO_MEM)
  else
    e ← kload pte;
    when (tst e PTE_P)
      (if PTE_ADDR e =? page2pa pp then
         tlb_invalidate pgdir va ;;
         upd_page pp (upd pp_ref (fun r => u16 (r - 1)))
       else page_remove pgdir va) ;;
    kstore pte (Z.lor (Z.lor (page2pa pp) perm) PTE_P) ;;
    upd_page pp (upd pp_ref (fun r => u16 (r + 1))) ;;
    pde ← kload (pgdir + 4 * PDX va);
    kstore (pgdir + 4 * PDX va) (Z.lor pde perm) ;;
    mret 0.

(** ** Static mappings above [UTOP] *)

Definition boot_map_region (pgdir va size pa perm : Z) : K unit :=
  let size := ROUNDUP size PGSIZE in
  let page_num := PGNUM size in
  for_loop (Z.to_nat page_num) 0 1 (fun i =>
    pte ← pgdir_walk pgdir (u32 (va + i * PGSIZE)) true;
    kstore pte (Z.lor (Z.lor (u32 (pa + i * PGSIZE)) perm) PTE_P)).

Definition mmio_map_region (pa size : Z) : K Z :=
  let mmio_size := ROUNDUP size PGSIZE in
  base ← gets mmio_base;
  if MMIOLIM <? u32 (base + mmio_size) then panic "no enough memory for MMIO map"
  else
    pgdir ← gets kern_pgdir;
    boot_map_region pgdir base mmio_size pa (Z.lor (Z.lor PTE_PCD PTE_PWT) PTE_W) ;;
    modify (put mmio_base (u32 (base + mmio_size))) ;;
    mret base.

(** The per-CPU kernel stacks. *)
Definition mem_init_mp {machine : Machine} : K unit :=
  for_loop (Z.to_nat NCPU) 0 1 (fun i =>
    let kstacktop_i := KSTACKTOP - KSTKSIZE - i * (KSTKSIZE + KSTKGAP) in
    pgdir ← gets kern_pgdir;
    pa ← PADDR (percpu_kstacks i);
    boot_map_region pgdir kstacktop_i KSTKSIZE pa (Z.lor PTE_W PTE_P)).

(** The page walk the self-checks use in place of the hardware's. *)
Definition check_va2pa (pgdir va : Z) : K Z :=
  pde ← kload (pgdir + 4 * PDX va);
  if tst pde PTE_P then
    p ← KADDR (PTE_ADDR pde);
    pte ← kload (p + 4 * PTX va);
    if tst pte PTE_P then mret (PTE_ADDR pte) else mret (2 ^ 32 - 1)
  else mret (2 ^ 32 - 1).

(** ** Checks on user memory *)

(** The loop [for (i = begin; i < end; i += PGSIZE)]; it runs at most
    [(end - begin) / PGSIZE] times because [begin] and [end] are page-aligned
    and [i] does not pass [end]. *)
Fixpoint user_mem_check_loop (n : nat) (pgdir va i : Z) (perm : Z) : K Z :=
  match n with
  | O => mret 0
  | S n' =>
      pte ← pgdir_walk pgdir i false;
      let fail :=
        modify (put user_mem_check_addr (if i <? va then va else i)) ;;
        mret (- E_FAULT) in
      if (pte =? NULL) || (ULIM <=? i) then fail
      else
        e ← kload pte;
        if negb (tst e PTE_P) || negb (Z.land e perm =? perm) then fail
        else user_mem_check_loop n' pgdir va (i + PGSIZE) perm
  end.

Definition user_mem_check (e : Z) (va len perm : Z) : K Z :=
  env ← get_env e;
  let begin := ROUNDDOWN va PGSIZE in
  let end_ := ROUNDUP (u32 (va + len)) PGSIZE in
  user_mem_check_loop (Z.to_nat ((end_ - begin) / PGSIZE)) (env_pgdir env) va begin perm.
