(* ===== verification/PageList.v ===== *)
(** * The page allocator against an abstract stack

    [kern/pmap.c] keeps the free pages on a linked list threaded through
    [pages].  [free_list s l] says that the list from [page_free_list] is [l].
    [page_alloc] pops it and [page_free] pushes it; [alloc_ok] is what the
    page-table proofs know of the list. *)

From Stdlib Require Import Lia ZArith ZifyClasses ZifyInst ZifyBool.
From stdpp Require Import base gmap list strings numbers.
From S2P Require Import Prelude Cmonad Mmu State Pmap.

(** ** Linked lists in the [pages] array *)

Fixpoint chain (pgs : gmap Z PageInfo) (head : option Z) (l : list Z) : Prop :=
  match l with
  | [] => head = None
  | p :: l' => head = Some p /\ exists pi, pgs !! p = Some pi /\ chain pgs (pp_link pi) l'
  end.

Section Chain.
Implicit Types (pgs : gmap Z PageInfo) (l : list Z).

Lemma chain_det pgs h l1 l2 : chain pgs h l1 -> chain pgs h l2 -> l1 = l2.
Proof.
  revert h l2. induction l1 as [|p l1 IH]; intros h [|q l2]; cbn.
  - done.
  - by intros -> [? _].
  - by intros [-> _].
  - intros [-> (pi & Hp & H1)] [[= <-] (pj & Hq & H2)].
  f_equal. rewrite Hp in Hq. injection Hq as <-. eauto.
Qed.

Lemma chain_suffix pgs h l1 p l2 : chain pgs h (l1 ++ p :: l2) -> chain pgs (Some p) (p :: l2).
Proof.
  revert h. induction l1 as [|q l1 IH]; intros h; [by intros [-> ?]|].
  intros [_ (pj & _ & Hch)]. by apply (IH _ Hch).
Qed.

(** A list that ends in null visits each page once. *)
Lemma chain_NoDup pgs h l : chain pgs h l -> NoDup l.
Proof.
  revert h. induction l as [|p l IH]; intros h; [constructor|].
  cbn. intros [-> (pi & Hp & H)]. constructor; [|by eapply IH].
  intros (l1 & l2 & ->)%list_elem_of_split.
  pose proof (chain_suffix _ _ _ _ _ H) as H2.
  assert (p :: l2 = p :: (l1 ++ p :: l2)) as Heq.
  { eapply chain_det; [exact H2|]. cbn. eauto. }
  apply (f_equal length) in Heq. cbn in Heq. rewrite length_app in Heq. cbn in Heq. lia.
Qed.

Lemma chain_insert_ne pgs h l q pi :
  q ∉ l -> chain pgs h l -> chain (<[q := pi]> pgs) h l.
Proof.
  revert h. induction l as [|p l IH]; intros h Hq; [done|].
  apply not_elem_of_cons in Hq as [Hqp Hq].
  cbn. intros [-> (pj & Hp & H)]. split; [done|].
  exists pj. rewrite lookup_insert_ne by done. auto.
Qed.

(** Changing a page's reference count leaves the links alone. *)
Lemma chain_ref pgs h l q pi r :
  pgs !! q = Some pi -> chain pgs h l -> chain (<[q := mkPageInfo (pp_link pi) r]> pgs) h l.
Proof.
  intros Hq. revert h. induction l as [|p l IH]; intros h; [done|].
  cbn. intros [-> (pj & Hp & H)]. split; [done|].
  destruct (decide (q = p)) as [->|].
  - rewrite Hq in Hp. injection Hp as <-. rewrite lookup_insert_eq.
    eexists; split; [done|]. by apply IH.
  - rewrite lookup_insert_ne by done. eauto.
Qed.

Lemma chain_lookup pgs h l p : chain pgs h l -> p ∈ l -> is_Some (pgs !! p).
Proof.
  revert h. induction l as [|q l IH]; intros h; [by intros _ ?%elem_of_nil|].
  cbn. intros [_ (pi & Hp & H)] [->|Hin]%elem_of_cons; eauto.
Qed.
End Chain.

(** ** The allocator's invariant

    The array has one element per physical page; the free pages are the chain
    from the head, have no references, and are the only ones linked. *)
Record alloc_ok (pgs : gmap Z PageInfo) (head : option Z) (np : Z) (fl : list Z) : Prop := {
  ao_np : 0 < np <= 65536;
  ao_dom p : is_Some (pgs !! p) <-> 0 <= p < np;
  ao_chain : chain pgs head fl;
  ao_free p pi : pgs !! p = Some pi -> p ∈ fl -> pp_ref pi = 0;
  ao_link p pi : pgs !! p = Some pi -> p ∉ fl -> pp_link pi = None;
  ao_ref p pi : pgs !! p = Some pi -> 0 <= pp_ref pi < 2 ^ 16
}.

Definition free_list (s : kstate) (fl : list Z) : Prop :=
  alloc_ok (pages s) (page_free_list s) (npages s) fl.

Section AllocOk.
Context {pgs : gmap Z PageInfo} {head : option Z} {np : Z} {fl : list Z}.
Hypothesis OK : alloc_ok pgs head np fl.

Lemma ao_NoDup : NoDup fl.
Proof. eapply chain_NoDup, ao_chain, OK. Qed.

Lemma ao_bound p : p ∈ fl -> 0 <= p < np.
Proof. intros. eapply ao_dom; [done|]. eapply chain_lookup; eauto using ao_chain. Qed.

Lemma ao_dom_insert p pi q :
  0 <= p < np -> is_Some (<[p := pi]> pgs !! q) <-> 0 <= q < np.
Proof.
  intros Hp. destruct (decide (p = q)) as [->|].
  - rewrite lookup_insert_eq. split; [done|eauto].
  - rewrite lookup_insert_ne by done. apply (ao_dom _ _ _ _ OK).
Qed.

(** The reference count of an allocated page may change. *)
Lemma alloc_ok_ref p pi r :
  pgs !! p = Some pi -> p ∉ fl -> 0 <= r < 2 ^ 16 ->
  alloc_ok (<[p := mkPageInfo (pp_link pi) r]> pgs) head np fl.
Proof.
  intros Hp Hfl Hr. destruct OK as [Hnp Hdom Hch Hfree Hlink Href].
  constructor; auto.
  - intros q. apply ao_dom_insert, Hdom; eauto.
  - by apply chain_ref.
  - intros q qi [[-> <-]|[Hne Hq]]%lookup_insert_Some Hin; [done|eauto].
  - intros q qi [[-> <-]|[Hne Hq]]%lookup_insert_Some Hin; cbn; eauto.
  - intros q qi [[-> <-]|[Hne Hq]]%lookup_insert_Some; cbn; eauto.
Qed.
End AllocOk.

(** Taking the first page off the list. *)
Lemma alloc_ok_pop pgs p np fl pi :
  alloc_ok pgs (Some p) np (p :: fl) -> pgs !! p = Some pi ->
  alloc_ok (<[p := mkPageInfo None (pp_ref pi)]> pgs) (pp_link pi) np fl.
Proof.
  intros OK Hp. pose proof (ao_NoDup OK) as [Hnin Hnd]%list.NoDup_cons.
  pose proof OK as [Hnp Hdom Hch Hfree Hlink Href].
  destruct Hch as [_ (pj & Hpj & Hch)]. rewrite Hp in Hpj. injection Hpj as <-.
  constructor; auto.
  - intros q. apply (ao_dom_insert OK), Hdom; eauto.
  - by apply chain_insert_ne.
  - intros q qi [[-> <-]|[Hne Hq]]%lookup_insert_Some Hin; [done|].
    eapply Hfree; [done|]. by right.
  - intros q qi [[-> <-]|[Hne Hq]]%lookup_insert_Some Hin; [done|].
    eapply Hlink; [done|]. apply not_elem_of_cons; auto.
  - intros q qi [[-> <-]|[Hne Hq]]%lookup_insert_Some; cbn; eauto.
Qed.

(** Putting an unreferenced page on the list. *)
Lemma alloc_ok_push pgs head p np fl pi :
  alloc_ok pgs head np fl -> pgs !! p = Some pi -> pp_ref pi = 0 -> p ∉ fl ->
  alloc_ok (<[p := mkPageInfo head 0]> pgs) (Some p) np (p :: fl).
Proof.
  intros OK Hp Hr Hnin. pose proof OK as [Hnp Hdom Hch Hfree Hlink Href].
  constructor; auto.
  - intros q. apply (ao_dom_insert OK), Hdom; eauto.
  - cbn. split; [done|]. exists (mkPageInfo head 0). rewrite lookup_insert_eq.
    split; [done|]. by apply chain_insert_ne.
  - intros q qi [[-> <-]|[Hne Hq]]%lookup_insert_Some Hin; [done|].
    eapply Hfree; [done|]. set_solver.
  - intros q qi [[-> <-]|[Hne Hq]]%lookup_insert_Some Hin; [set_solver|].
    eapply Hlink; [done|]. set_solver.
  - intros q qi [[-> <-]|[Hne Hq]]%lookup_insert_Some; cbn; eauto; lia.
Qed.
