(* ===== verification/Vm.v ===== *)
(** * Address spaces: what the page tables mean

    [pte m d v] is the page table entry a walk of the directory in frame [d]
    finds for virtual page number [v], 0 when there is no page table, and
    [maps m d v] the frame it maps.  [vm_ok] is the shape of memory the kernel
    keeps: every page table of the user part belongs to one entry of one
    directory, and no user mapping reaches a directory or a page table.
    [nmaps] counts the mappings of a frame over all address spaces. *)

From Stdlib Require Import Lia ZArith ZifyClasses ZifyInst ZifyBool.
From stdpp Require Import base gmap list strings numbers.
From S2P Require Import Prelude Cmonad Mmu State.

(** Number of page directory entries and of pages below [UTOP]. *)
Definition UPDES : Z := 955.
Definition UVPNS : Z := 977920.

#[export] Instance cst_UPDES : CstOp UPDES := @mkcst Z Z UPDES Inj_Z_Z 955 eq_refl.
Add Zify CstOp cst_UPDES.
#[export] Instance cst_UVPNS : CstOp UVPNS := @mkcst Z Z UVPNS Inj_Z_Z 977920 eq_refl.
Add Zify CstOp cst_UVPNS.

Lemma UPDES_eq : UPDES = PDX UTOP. Proof. reflexivity. Qed.
Lemma UVPNS_eq : UVPNS = PGNUM UTOP. Proof. reflexivity. Qed.

Abbreviation physmem := (gmap Z (gmap Z Z)).

(** The frame an entry points to. *)
Definition fr (e : Z) : Z := e / 4096.

Definition present (e : Z) : bool := tst e PTE_P.

Definition pte (m : physmem) (d v : Z) : Z :=
  let pde := word m d (v / 1024) in
  if present pde then word m (fr pde) (v mod 1024) else 0.

Definition maps (m : physmem) (d v : Z) : option Z :=
  let e := pte m d v in if present e then Some (fr e) else None.

Lemma present_0 : present 0 = false. Proof. reflexivity. Qed.

Lemma fr_lor_flags p flags :
  0 <= flags < 4096 -> fr (Z.lor (p * 4096) flags) = p.
Proof.
  intros H. unfold fr. rewrite lor_page by done. zlia.
Qed.

(** Adding flag bits to an entry keeps its frame. *)
Lemma fr_lor e flags : 0 <= e -> 0 <= flags < 4096 -> fr (Z.lor e flags) = fr e.
Proof.
  intros He H. unfold fr. change 4096 with (2 ^ 12).
  rewrite <- !Z.shiftr_div_pow2, Z.shiftr_lor by lia.
  rewrite (Z.shiftr_div_pow2 flags), Z.div_small, Z.lor_0_r by lia. done.
Qed.

(** ** The shape of memory *)

Record vm_ok (m : physmem) (np : Z) (D : gset Z) (O : gmap Z (Z * Z)) : Prop := {
  (* words are 32 bits *)
  vo_word f i : 0 <= word m f i < 2 ^ 32;
  (* page directories are RAM, and are not page tables *)
  vo_pd d : d ∈ D -> 0 <= d < np /\ O !! d = None;
  (* a present user PDE points to the page table that belongs to it *)
  vo_pde d i : d ∈ D -> 0 <= i < UPDES -> present (word m d i) = true ->
    O !! fr (word m d i) = Some (d, i);
  (* and a page table belongs to a present user PDE *)
  vo_own f d i : O !! f = Some (d, i) ->
    0 <= f < np /\ d ∈ D /\ 0 <= i < UPDES /\ present (word m d i) = true /\ fr (word m d i) = f;
  (* user mappings reach RAM that holds no page table or directory *)
  vo_map d v p : d ∈ D -> 0 <= v < UVPNS -> maps m d v = Some p ->
    0 <= p < np /\ (p ∉ D) /\ O !! p = None
}.

Lemma vpn_split v : 0 <= v < UVPNS -> 0 <= v / 1024 < UPDES /\ 0 <= v mod 1024 < 1024.
Proof. intros. zlia. Qed.

Lemma vpn_eq v i j :
  0 <= j < 1024 -> v / 1024 = i /\ v mod 1024 = j <-> v = i * 1024 + j.
Proof. intros. zlia. Qed.

Section VmOk.
Context {m : physmem} {np : Z} {D : gset Z} {O : gmap Z (Z * Z)}.
Hypothesis OK : vm_ok m np D O.

Lemma vo_pt_ne d i f : d ∈ D -> O !! f = Some i -> d <> f.
Proof. intros Hd Hf ->. apply (vo_pd _ _ _ _ OK) in Hd as [_ ?]. congruence. Qed.

(** Storing an entry into a page table changes that one translation. *)
Lemma pte_set_pt f d i j e d' v' :
  O !! f = Some (d, i) -> 0 <= j < 1024 -> d' ∈ D -> 0 <= v' < UVPNS ->
  pte (set_word f j e m) d' v' =
    if decide (d' = d /\ v' = i * 1024 + j) then e else pte m d' v'.
Proof.
  intros Hf Hj Hd' Hv'. unfold pte.
  destruct (vpn_split _ Hv') as [Hi' Hj'].
  rewrite (word_set_ne _ f j e d') by (left; apply not_eq_sym; by eapply vo_pt_ne).
  pose proof (vo_own _ _ _ _ OK _ _ _ Hf) as (_ & Hd & Hi & Hp & Hfr).
  destruct (present (word m d' (v' / 1024))) eqn:Hp'.
  - pose proof (vo_pde _ _ _ _ OK _ _ Hd' Hi' Hp') as Ho. rewrite word_set.
    case_decide as H1; case_decide as H2; try done.
    + destruct H1 as [-> ->]. rewrite Ho in Hf. injection Hf as <- <-.
      contradict H2. split; [done|]. zlia.
    + destruct H2 as [-> [Hi2 <-]%vpn_eq]; [|done]. contradict H1.
      rewrite Hi2, Hfr. done.
  - case_decide as H2; [|done].
    destruct H2 as [-> [Hi2 <-]%vpn_eq]; [|done]. congruence.
Qed.

(** So does adding flag bits to a directory entry change none. *)
Lemma pte_pde_flags d i flags d' v' :
  d ∈ D -> 0 <= i < UPDES -> present (word m d i) = true -> 0 <= flags < 4096 ->
  d' ∈ D -> 0 <= v' < UVPNS ->
  pte (set_word d i (Z.lor (word m d i) flags) m) d' v' = pte m d' v'.
Proof.
  intros Hd Hi Hp Hfl Hd' Hv'. unfold pte.
  destruct (vpn_split _ Hv') as [Hi' Hj'].
  pose proof (vo_word _ _ _ _ OK d i) as Hw.
  assert (forall x, present (word m d' x) = true -> 0 <= x < UPDES ->
            word (set_word d i (Z.lor (word m d i) flags) m) (fr (word m d' x)) (v' mod 1024)
            = word m (fr (word m d' x)) (v' mod 1024)) as Hpt.
  { intros x Hx Hxr. apply word_set_ne. left.
    eapply vo_pt_ne; [done|]. by eapply (vo_pde _ _ _ _ OK). }
  rewrite word_set. case_decide as H1.
  - destruct H1 as [<- <-]. unfold present at 1. rewrite tst_lor.
    fold (present (word m d i)). rewrite Hp. cbn [orb].
    rewrite fr_lor by lia. by apply Hpt.
  - destruct (present (word m d' (v' / 1024))) eqn:Hp'; [|done]. by apply Hpt.
Qed.

(** Installing an empty page table in an absent entry changes none. *)
Lemma pte_new_pt d i f flags d' v' :
  d ∈ D -> 0 <= i < UPDES -> present (word m d i) = false ->
  f ∉ D -> O !! f = None -> 0 <= flags < 4096 -> present flags = true ->
  d' ∈ D -> 0 <= v' < UVPNS ->
  pte (set_word d i (Z.lor (f * 4096) flags) (<[f := ∅]> m)) d' v' = pte m d' v'.
Proof.
  intros Hd Hi Hp HfD HfO Hfl Hflp Hd' Hv'. unfold pte.
  destruct (vpn_split _ Hv') as [Hi' Hj'].
  rewrite word_set. case_decide as H1.
  - destruct H1 as [<- <-]. rewrite Hp.
    unfold present at 1. rewrite tst_lor. fold (present flags). rewrite Hflp, orb_true_r.
    rewrite fr_lor_flags by done. rewrite word_set_ne by (left; set_solver).
    rewrite word_zero_page. by rewrite decide_True.
  - rewrite word_zero_page, decide_False by set_solver.
    destruct (present (word m d' (v' / 1024))) eqn:Hp'; [|done].
    pose proof (vo_pde _ _ _ _ OK _ _ Hd' Hi' Hp') as Ho.
    rewrite word_set_ne by (left; by eapply vo_pt_ne).
    rewrite word_zero_page, decide_False; [done|]. congruence.
Qed.
End VmOk.

(** ** Preservation of the shape *)

Lemma maps_pte m m' d v : pte m' d v = pte m d v -> maps m' d v = maps m d v.
Proof. unfold maps. by intros ->. Qed.

(** [e] is a legal entry to store: 32 bits, mapping nothing or a data frame. *)
Definition legal_entry (np : Z) (D : gset Z) (O : gmap Z (Z * Z)) (e : Z) : Prop :=
  0 <= e < 2 ^ 32 /\
  (present e = true -> 0 <= fr e < np /\ (fr e ∉ D) /\ O !! fr e = None).

Lemma set_word_range m f i e :
  (forall f i, 0 <= word m f i < 2 ^ 32) -> 0 <= e < 2 ^ 32 ->
  forall f' i', 0 <= word (set_word f i e m) f' i' < 2 ^ 32.
Proof. intros H He f' i'. rewrite word_set. by case_decide. Qed.

Section Preserve.
Context {m : physmem} {np : Z} {D : gset Z} {O : gmap Z (Z * Z)}.
Hypothesis OK : vm_ok m np D O.

Lemma vm_ok_set_pt f d i j e :
  O !! f = Some (d, i) -> 0 <= j < 1024 -> legal_entry np D O e ->
  vm_ok (set_word f j e m) np D O.
Proof.
  intros Hf Hj [He Hleg]. pose proof OK as [Hw Hpd Hpde Hown Hmap].
  assert (forall d' x, d' ∈ D -> word (set_word f j e m) d' x = word m d' x) as Hd.
  { intros d' x Hd'. apply word_set_ne. left. apply not_eq_sym. by eapply (vo_pt_ne OK). }
  constructor.
  - by apply set_word_range.
  - done.
  - intros d' x Hd'. rewrite Hd by done. by apply Hpde.
  - intros f' d' x Hf'. pose proof (Hown _ _ _ Hf') as (? & ? & ?). by rewrite Hd.
  - intros d' v p Hd' Hv. unfold maps. rewrite (pte_set_pt OK f d i) by done.
    case_decide; [|by apply Hmap].
    destruct (present e) eqn:Hpe; [|done]. intros [= <-]. by apply Hleg.
Qed.

Lemma vm_ok_pde_flags d i flags :
  d ∈ D -> 0 <= i < UPDES -> present (word m d i) = true -> 0 <= flags < 4096 ->
  vm_ok (set_word d i (Z.lor (word m d i) flags) m) np D O.
Proof.
  intros Hd Hi Hp Hfl. pose proof OK as [Hw Hpd Hpde Hown Hmap].
  assert (0 <= Z.lor (word m d i) flags < 2 ^ 32) as Hr
    by (apply lor_small; [lia|apply Hw|lia]).
  assert (forall x, present (word (set_word d i (Z.lor (word m d i) flags) m) d x)
                    = present (word m d x) /\
                    fr (word (set_word d i (Z.lor (word m d i) flags) m) d x)
                    = fr (word m d x)) as Hsame.
  { intros x. rewrite word_set. case_decide as Hx; [|done]. destruct Hx as [_ <-].
    rewrite fr_lor by (try lia; apply Hw). split; [|done].
    unfold present. rewrite tst_lor. fold (present (word m d i)). by rewrite Hp. }
  assert (forall d' x, present (word (set_word d i (Z.lor (word m d i) flags) m) d' x)
                    = present (word m d' x) /\
                    fr (word (set_word d i (Z.lor (word m d i) flags) m) d' x)
                    = fr (word m d' x)) as Hall.
  { intros d' x. destruct (decide (d = d')) as [<-|]; [done|].
    by rewrite word_set_ne by auto. }
  constructor.
  - by apply set_word_range.
  - done.
  - intros d' x Hd' Hx. destruct (Hall d' x) as [-> ->]. by apply Hpde.
  - intros f' d' x Hf'. destruct (Hall d' x) as [-> ->]. by apply Hown.
  - intros d' v p Hd' Hv. rewrite (maps_pte _ _ _ _ (pte_pde_flags OK d i flags d' v Hd Hi Hp Hfl Hd' Hv)).
    by apply Hmap.
Qed.

Lemma vm_ok_new_pt d i f flags :
  d ∈ D -> 0 <= i < UPDES -> present (word m d i) = false ->
  0 <= f < np -> np <= 65536 -> f ∉ D -> O !! f = None ->
  (forall d' v, d' ∈ D -> 0 <= v < UVPNS -> maps m d' v <> Some f) ->
  0 <= flags < 4096 -> present flags = true ->
  vm_ok (set_word d i (Z.lor (f * 4096) flags) (<[f := ∅]> m)) np D (<[f := (d, i)]> O).
Proof.
  intros Hd Hi Hp Hf Hnp HfD HfO Hnm Hfl Hflp. pose proof OK as [Hw Hpd Hpde Hown Hmap].
  set (e := Z.lor (f * 4096) flags).
  assert (present e = true) as Hpe
    by (unfold e, present; rewrite tst_lor; fold (present flags); rewrite Hflp; apply orb_true_r).
  assert (fr e = f) as Hfe by by apply fr_lor_flags.
  assert (forall d' x, d' ∈ D -> ~ (d = d' /\ i = x) ->
            word (set_word d i e (<[f := ∅]> m)) d' x = word m d' x) as Hne.
  { intros d' x Hd' Hx. rewrite word_set, decide_False by done.
    by rewrite word_zero_page, decide_False by set_solver. }
  constructor.
  - apply set_word_range.
    + intros f' i'. rewrite word_zero_page. case_decide; [lia|apply Hw].
    + unfold e. rewrite lor_page by done. lia.
  - intros d' Hd'. destruct (Hpd _ Hd'). split; [done|].
    rewrite lookup_insert_ne by set_solver. done.
  - intros d' x Hd' Hx. destruct (decide (d = d' /\ i = x)) as [[<- <-]|Hx'].
    + rewrite word_set_eq, Hfe. intros _. by rewrite lookup_insert_eq.
    + rewrite Hne by done. intros Hpx. pose proof (Hpde _ _ Hd' Hx Hpx) as Ho.
      rewrite lookup_insert_ne; [done|]. congruence.
  - intros f' d' x [[<- [= <- <-]]|[Hff Hf']]%lookup_insert_Some.
    + rewrite word_set_eq. done.
    + pose proof (Hown _ _ _ Hf') as (? & Hd' & ? & Hpx & Hfx).
      rewrite Hne; [done|done|]. intros [<- <-]. congruence.
  - intros d' v p Hd' Hv. unfold e.
    rewrite (maps_pte _ _ _ _ (pte_new_pt OK d i f flags d' v Hd Hi Hp HfD HfO Hfl Hflp Hd' Hv)).
    intros Hm. destruct (Hmap _ _ _ Hd' Hv Hm) as (? & ? & ?).
    split; [done|]. split; [done|]. rewrite lookup_insert_ne; [done|].
    intros <-. by eapply Hnm.
Qed.
End Preserve.

(** ** Counting mappings *)

(** How many keys of a list satisfy a test. *)
Fixpoint cnt {A} (P : A -> bool) (l : list A) : Z :=
  match l with [] => 0 | x :: l' => (if P x then 1 else 0) + cnt P l' end.

Lemma cnt_nonneg {A} (P : A -> bool) l : 0 <= cnt P l.
Proof. induction l; cbn; [lia|]. destruct (P a); lia. Qed.

Lemma cnt_ext {A} (P P' : A -> bool) l : (forall x, x ∈ l -> P x = P' x) -> cnt P l = cnt P' l.
Proof.
  induction l as [|x l IH]; intros H; cbn; [done|].
  rewrite H by left. rewrite IH; [done|]. intros y Hy. apply H. by right.
Qed.

Lemma cnt_pos {A} (P : A -> bool) l x : x ∈ l -> P x = true -> 0 < cnt P l.
Proof.
  induction 1 as [x l|x y l Hx IH]; intros HP; cbn.
  - rewrite HP. pose proof (cnt_nonneg P l). lia.
  - specialize (IH HP). destruct (P y); lia.
Qed.

Lemma cnt_change {A} `{EqDecision A} (P P' : A -> bool) l k :
  NoDup l -> k ∈ l -> (forall x, x ∈ l -> x <> k -> P' x = P x) ->
  cnt P' l = cnt P l - (if P k then 1 else 0) + (if P' k then 1 else 0).
Proof.
  intros Hnd Hk H. induction Hnd as [|x l Hx Hnd IH]; [by apply elem_of_nil in Hk|].
  cbn. destruct (decide (x = k)) as [->|Hxk].
  - rewrite (cnt_ext P' P l); [lia|]. intros y Hy. apply H; [by right|]. naive_solver.
  - rewrite (H x) by (done || left). apply elem_of_cons in Hk as [->|Hk]; [done|].
    rewrite IH; [lia|done|]. intros y Hy. apply H. by right.
Qed.

(** All the user virtual pages of the address spaces [D]. *)
Definition user_vpns : list Z := seqZ 0 UVPNS.
Definition vkeys (D : gset Z) : list (Z * Z) :=
  elements D ≫= fun d => (fun v => (d, v)) <$> user_vpns.

Lemma elem_of_vkeys D d v : (d, v) ∈ vkeys D <-> d ∈ D /\ 0 <= v < UVPNS.
Proof.
  unfold vkeys, user_vpns. rewrite list_elem_of_bind. split.
  - intros (d' & Hin & Hd'). apply list_elem_of_fmap in Hin as (v' & [= <- <-] & Hv).
    apply elem_of_elements in Hd'. apply elem_of_seqZ in Hv. split; [done|lia].
  - intros [Hd Hv]. exists d. split; [|by apply elem_of_elements].
    apply list_elem_of_fmap. exists v. split; [done|]. apply elem_of_seqZ. lia.
Qed.

Lemma NoDup_vkeys D : NoDup (vkeys D).
Proof.
  unfold vkeys. apply NoDup_bind.
  - intros d1 d2 [d v] _ _ (v1 & [= -> ->] & _)%list_elem_of_fmap (v2 & [= -> ->] & _)%list_elem_of_fmap.
    done.
  - intros d _. apply NoDup_fmap_2; [by intros ? ? [= ->]|]. apply NoDup_seqZ.
  - apply NoDup_elements.
Qed.

Definition maps_to (m : physmem) (p : Z) (k : Z * Z) : bool :=
  bool_decide (maps m k.1 k.2 = Some p).

(** How many user virtual pages of the address spaces [D] map frame [p]. *)
Definition nmaps (m : physmem) (D : gset Z) (p : Z) : Z := cnt (maps_to m p) (vkeys D).

Lemma nmaps_nonneg m D p : 0 <= nmaps m D p.
Proof. apply cnt_nonneg. Qed.

Lemma nmaps_ext m m' D p :
  (forall d v, d ∈ D -> 0 <= v < UVPNS -> maps m' d v = maps m d v) ->
  nmaps m' D p = nmaps m D p.
Proof.
  intros H. apply cnt_ext. intros [d v] [Hd Hv]%elem_of_vkeys. unfold maps_to. cbn.
  by rewrite H.
Qed.

Lemma nmaps_zero m D p :
  nmaps m D p = 0 -> forall d v, d ∈ D -> 0 <= v < UVPNS -> maps m d v <> Some p.
Proof.
  intros H d v Hd Hv Hm.
  assert (0 < nmaps m D p); [|lia].
  apply (cnt_pos _ _ (d, v)); [by apply elem_of_vkeys|]. by apply bool_decide_eq_true.
Qed.

#[export] Instance cnt_permutation {A} (P : A -> bool) : Proper ((≡ₚ) ==> (=)) (cnt P).
Proof. intros l l' H. induction H; cbn; lia. Qed.

Lemma cnt_app {A} (P : A -> bool) l l' : cnt P (l ++ l') = cnt P l + cnt P l'.
Proof. induction l; cbn; lia. Qed.

(** The mappings of one more address space. *)
Lemma nmaps_add m D p d :
  d ∉ D -> nmaps m ({[d]} ∪ D) p = nmaps m {[d]} p + nmaps m D p.
Proof.
  intros Hd. unfold nmaps, vkeys.
  rewrite elements_union_singleton by done. rewrite elements_singleton. cbn [mbind list_bind].
  rewrite app_nil_r. by rewrite cnt_app.
Qed.

Lemma nmaps_none m D p :
  (forall d v, d ∈ D -> 0 <= v < UVPNS -> maps m d v <> Some p) -> nmaps m D p = 0.
Proof.
  intros H. unfold nmaps.
  assert (forall l, (forall k, k ∈ l -> maps_to m p k = false) -> cnt (maps_to m p) l = 0) as Hc.
  { induction l as [|k l IH]; intros Hl; cbn; [done|]. rewrite (Hl k) by left.
    rewrite IH; [done|]. intros k' Hk'. apply Hl. by right. }
  apply Hc. intros [d v] [Hd Hv]%elem_of_vkeys. unfold maps_to. cbn. apply bool_decide_eq_false.
  by apply H.
Qed.

(** One entry changes: the count of the frame it left drops by one, the count
    of the frame it now maps rises by one. *)
Lemma nmaps_change m m' D p d v :
  d ∈ D -> 0 <= v < UVPNS ->
  (forall d' v', d' ∈ D -> 0 <= v' < UVPNS -> (d', v') <> (d, v) -> maps m' d' v' = maps m d' v') ->
  nmaps m' D p = nmaps m D p - (if decide (maps m d v = Some p) then 1 else 0)
                 + (if decide (maps m' d v = Some p) then 1 else 0).
Proof.
  intros Hd Hv H. unfold nmaps.
  rewrite (cnt_change (maps_to m p) (maps_to m' p) (vkeys D) (d, v)).
  - unfold maps_to, bool_decide. cbn. by repeat case_decide.
  - apply NoDup_vkeys.
  - by apply elem_of_vkeys.
  - intros [d' v'] [Hd' Hv']%elem_of_vkeys Hne. unfold maps_to. cbn. by rewrite H.
Qed.

#[global] Opaque vkeys user_vpns.
