(* ===== verification/VmInv.v ===== *)
(** * The memory invariant and the primitive steps that keep it

    [vm_inv base s fl D O]: the free list of [s] is [fl], memory has the shape
    [vm_ok] for the directories [D] and page tables [O], and every page's
    [pp_ref] is the number of user mappings of it, plus one if it is a page
    table, plus one if it is a page directory, plus [base p], the references
    that are none of these (the boot-time pages).

    [base] is also the ledger of an operation in progress: a store to a page
    table moves a reference from the count of mappings to [base] or back, a
    change of [pp_ref] adds to [base], and an operation is correct when the
    ledger balances at its end. *)

From Stdlib Require Import Lia ZArith ZifyClasses ZifyInst ZifyBool.
From stdpp Require Import base gmap list strings numbers.
From S2P Require Import Prelude Cmonad Mmu State Pmap PageList Vm.

(** ** What changes *)

(** [s'] differs from [s] only in memory, the [pages] array, the free list and
    the trace. *)
Record vm_frame (s s' : kstate) : Prop := {
  vf_npages : npages s' = npages s;
  vf_npages_basemem : npages_basemem s' = npages_basemem s;
  vf_kern_pgdir : kern_pgdir s' = kern_pgdir s;
  vf_pages_va : pages_va s' = pages_va s;
  vf_nextfree : nextfree s' = nextfree s;
  vf_mmio_base : mmio_base s' = mmio_base s;
  vf_user_mem_check_addr : user_mem_check_addr s' = user_mem_check_addr s;
  vf_envs : envs s' = envs s;
  vf_envs_va : envs_va s' = envs_va s;
  vf_env_free_list : env_free_list s' = env_free_list s;
  vf_cpus : cpus s' = cpus s;
  vf_cpunum : cpunum s' = cpunum s;
  vf_kernel_lock : kernel_lock s' = kernel_lock s;
  vf_panicstr : panicstr s' = panicstr s;
  vf_cr3 : cr3 s' = cr3 s;
  vf_gdt : gdt s' = gdt s;
  vf_idt : idt s' = idt s;
  vf_last_tf : last_tf s' = last_tf s;
  vf_ncpu : ncpu s' = ncpu s;
  vf_bootcpu : bootcpu s' = bootcpu s;
  vf_ismp : ismp s' = ismp s;
  vf_lapicaddr : lapicaddr s' = lapicaddr s;
  vf_lapic : lapic s' = lapic s;
  vf_mpentry_kstack : mpentry_kstack s' = mpentry_kstack s;
  vf_cons : cons s' = cons s
}.

#[export] Instance vm_frame_preorder : PreOrder vm_frame.
Proof.
  split; [by constructor|].
  intros s1 s2 s3 [] []. constructor; etrans; eassumption.
Qed.

Create HintDb vm.
#[export] Hint Extern 1 (vm_frame _ _) => solve [constructor; reflexivity] : vm.

(** This CPU and the environment it runs exist, so [curenv] can be read. *)
Definition cpu_ok (s : kstate) : Prop :=
  exists c, cpus s !! cpunum s = Some c /\
    match cpu_env c with Some e => is_Some (envs s !! e) | None => True end.

Lemma cpu_ok_frame s s' : vm_frame s s' -> cpu_ok s -> cpu_ok s'.
Proof.
  intros Hf. unfold cpu_ok. by rewrite (vf_envs _ _ Hf), (vf_cpus _ _ Hf), (vf_cpunum _ _ Hf).
Qed.

(** ** The invariant *)

Definition b2z (b : bool) : Z := if b then 1 else 0.

(** [pp_ref] of a page. *)
Definition ref (s : kstate) (p : Z) : Z := from_option pp_ref 0 (pages s !! p).

Record vm_inv (base : Z -> Z) (s : kstate) (fl : list Z) (D : gset Z) (O : gmap Z (Z * Z)) : Prop := {
  vi_alloc : free_list s fl;
  vi_vm : vm_ok (pmem s) (npages s) D O;
  vi_ref p : 0 <= p < npages s ->
    ref s p = base p + nmaps (pmem s) D p + b2z (bool_decide (is_Some (O !! p)))
              + b2z (bool_decide (p ∈ D))
}.

Lemma vm_inv_base base base' s fl D O :
  (forall p, base p = base' p) -> vm_inv base s fl D O -> vm_inv base' s fl D O.
Proof. intros Hb [Ha Hv Hr]. constructor; [done..|]. intros p Hp. by rewrite <- Hb, Hr. Qed.

(** The invariant reads four fields of the state. *)
Lemma vm_inv_proj base s s' fl D O :
  pmem s' = pmem s -> pages s' = pages s -> page_free_list s' = page_free_list s ->
  npages s' = npages s -> vm_inv base s fl D O -> vm_inv base s' fl D O.
Proof.
  intros Hm Hp Hf Hn [Ha Hv Hr]. constructor; unfold free_list, ref in *;
    by rewrite ?Hm, ?Hp, ?Hf, ?Hn.
Qed.

Lemma ref_lookup s p pi : pages s !! p = Some pi -> ref s p = pp_ref pi.
Proof. unfold ref. by intros ->. Qed.

Section Facts.
Context {base : Z -> Z} {s : kstate} {fl : list Z} {D : gset Z} {O : gmap Z (Z * Z)}.
Hypothesis INV : vm_inv base s fl D O.

Lemma vi_np : 0 < npages s <= 65536.
Proof. eapply ao_np, vi_alloc, INV. Qed.

Lemma vi_page p : 0 <= p < npages s -> exists pi, pages s !! p = Some pi.
Proof. intros. by apply (ao_dom _ _ _ _ (vi_alloc _ _ _ _ _ INV)). Qed.

(** A free page with no boot-time reference is used nowhere. *)
Lemma free_unused p :
  p ∈ fl -> 0 <= base p ->
  0 <= p < npages s /\ ref s p = 0 /\ (p ∉ D) /\ O !! p = None /\
  (forall d v, d ∈ D -> 0 <= v < UVPNS -> maps (pmem s) d v <> Some p).
Proof.
  intros Hp Hb. pose proof (ao_bound (vi_alloc _ _ _ _ _ INV) _ Hp) as Hr.
  destruct (vi_page _ Hr) as [pi Hpi].
  pose proof (ao_free _ _ _ _ (vi_alloc _ _ _ _ _ INV) _ _ Hpi Hp) as H0.
  rewrite <- (ref_lookup s p) in H0 by done.
  pose proof (vi_ref _ _ _ _ _ INV p Hr) as Href. rewrite H0 in Href.
  pose proof (nmaps_nonneg (pmem s) D p). unfold b2z in Href.
  destruct (bool_decide_reflect (is_Some (O !! p))) as [|HnO]; [|
  destruct (bool_decide_reflect (p ∈ D)) as [|HnD]].
  1, 2: destruct (bool_decide (p ∈ D)); lia.
  split; [done|]. split; [done|]. split; [done|]. split.
  - by apply eq_None_not_Some.
  - apply nmaps_zero. lia.
Qed.

(** A mapped page is not free. *)
Lemma mapped_not_free p d v :
  d ∈ D -> 0 <= v < UVPNS -> maps (pmem s) d v = Some p -> 0 <= base p -> p ∉ fl.
Proof.
  intros Hd Hv Hm Hb Hp. destruct (free_unused p Hp Hb) as (_ & _ & _ & _ & Hn).
  by eapply Hn.
Qed.

Lemma mapped_ref_pos p d v :
  d ∈ D -> 0 <= v < UVPNS -> maps (pmem s) d v = Some p -> 0 <= base p -> 1 <= ref s p.
Proof.
  intros Hd Hv Hm Hb.
  destruct (vo_map _ _ _ _ (vi_vm _ _ _ _ _ INV) _ _ _ Hd Hv Hm) as (Hp & _).
  rewrite (vi_ref _ _ _ _ _ INV _ Hp).
  assert (0 < nmaps (pmem s) D p).
  { apply (cnt_pos _ _ (d, v)); [by apply elem_of_vkeys|]. by apply bool_decide_eq_true. }
  unfold b2z. destruct (bool_decide _), (bool_decide _); lia.
Qed.
End Facts.

(** ** The ledger steps *)

Section Ledger.
Context {base : Z -> Z} {s : kstate} {fl : list Z} {D : gset Z} {O : gmap Z (Z * Z)}.
Hypothesis INV : vm_inv base s fl D O.

(** The count moves by [delta]. *)
Lemma vm_inv_ref p pi delta :
  pages s !! p = Some pi -> p ∉ fl -> 0 <= pp_ref pi + delta < 2 ^ 16 ->
  vm_inv (fun q => base q + (if decide (q = p) then delta else 0))
    (upd pages (fun a => <[p := put pp_ref (pp_ref pi + delta) pi]> a) s) fl D O.
Proof.
  intros Hp Hfl Hr. destruct INV as [Ha Hv Href]. constructor.
  - unfold free_list. kred.
    change (put pp_ref (pp_ref pi + delta) pi) with (mkPageInfo (pp_link pi) (pp_ref pi + delta)).
    by apply (alloc_ok_ref Ha).
  - done.
  - intros q Hq. kred. specialize (Href q Hq).
    unfold ref in *. kred. destruct (decide (q = p)) as [->|].
    + rewrite lookup_insert_eq. rewrite Hp in Href. cbn in *. lia.
    + rewrite lookup_insert_ne by done. lia.
Qed.

(** A store to a page table entry moves references to and from the ledger. *)
Lemma vm_inv_set_pt f d i j e :
  O !! f = Some (d, i) -> 0 <= j < 1024 -> legal_entry (npages s) D O e ->
  vm_inv (fun q => base q
            + (if decide (maps (pmem s) d (i * 1024 + j) = Some q) then 1 else 0)
            - (if decide (present e = true /\ fr e = q) then 1 else 0))
    (upd pmem (set_word f j e) s) fl D O.
Proof.
  intros Hf Hj Hleg. destruct INV as [Ha Hv Href].
  pose proof (vo_own _ _ _ _ Hv _ _ _ Hf) as (_ & Hd & Hi & _).
  constructor; [done| |].
  - kred. by apply (vm_ok_set_pt Hv f d i).
  - intros q Hq. kred. specialize (Href q Hq). unfold ref in *. kred.
    rewrite Href, (nmaps_change (pmem s) (set_word f j e (pmem s)) D q d (i * 1024 + j)).
    + assert (maps (set_word f j e (pmem s)) d (i * 1024 + j)
              = if present e then Some (fr e) else None) as ->.
      { unfold maps. rewrite (pte_set_pt Hv f d i) by (done || lia).
        by rewrite decide_True. }
      destruct (decide (present e = true /\ fr e = q)) as [[-> ->]|Hne].
      * rewrite (decide_True (P := Some q = Some q)) by done. lia.
      * rewrite (decide_False (P := (if present e then _ else _) = _)); [lia|].
        destruct (present e); naive_solver.
    + done.
    + lia.
    + intros d' v' Hd' Hv' Hne. apply maps_pte.
      rewrite (pte_set_pt Hv f d i) by done. rewrite decide_False; [done|]. naive_solver.
Qed.

Lemma vm_inv_pde_flags d i flags :
  d ∈ D -> 0 <= i < UPDES -> present (word (pmem s) d i) = true -> 0 <= flags < 4096 ->
  vm_inv base (upd pmem (fun m => set_word d i (Z.lor (word m d i) flags) m) s) fl D O.
Proof.
  intros Hd Hi Hp Hfl. destruct INV as [Ha Hv Href]. constructor; [done| |].
  - kred. by apply vm_ok_pde_flags.
  - intros q Hq. kred. specialize (Href q Hq). unfold ref in *. kred.
    rewrite Href. f_equal. f_equal. f_equal. symmetry. apply nmaps_ext.
    intros d' v' Hd' Hv'. apply maps_pte. by apply (pte_pde_flags Hv).
Qed.

(** A free page becomes the page table of an absent entry. *)
Lemma vm_inv_new_pt f pi fl' d i flags :
  fl = f :: fl' -> 0 <= base f -> pages s !! f = Some pi ->
  d ∈ D -> 0 <= i < UPDES -> present (word (pmem s) d i) = false ->
  0 <= flags < 4096 -> present flags = true ->
  vm_inv base
    (put pmem (set_word d i (Z.lor (f * 4096) flags) (<[f := ∅]> (pmem s)))
      (put pages (<[f := mkPageInfo None 1]> (pages s))
        (put page_free_list (pp_link pi) s))) fl' D (<[f := (d, i)]> O).
Proof.
  intros -> Hb Hpi Hd Hi Hp Hflg Hflp.
  destruct (free_unused INV f) as (Hf & Hr0 & HfD & HfO & Hnm); [by left|done|].
  pose proof (vi_np INV) as Hnp. destruct INV as [Ha Hv Href].
  rewrite (ref_lookup s f pi Hpi) in Hr0.
  constructor.
  - unfold free_list in *. kred.
    pose proof (ao_NoDup Ha) as [Hnin _]%list.NoDup_cons.
    destruct (ao_chain _ _ _ _ Ha) as [Hhead _]. rewrite Hhead in Ha.
    pose proof (alloc_ok_pop _ _ _ _ _ Ha Hpi) as Ha'.
    pose proof (alloc_ok_ref Ha' f (mkPageInfo None (pp_ref pi)) 1
      (lookup_insert_eq _ _ _) Hnin) as Ha''.
    rewrite insert_insert_eq in Ha''. apply Ha''. lia.
  - kred. apply vm_ok_new_pt; done || lia.
  - intros q Hq. kred. specialize (Href q Hq). unfold ref in *. kred.
    rewrite (nmaps_ext (pmem s)).
    2:{ intros d' v' Hd' Hv'. apply maps_pte. by apply (pte_new_pt Hv). }
    destruct (decide (f = q)) as [<-|Hne].
    + rewrite !lookup_insert_eq. rewrite Hpi in Href. cbn in Href |- *.
      rewrite HfO in Href. cbn in Href. lia.
    + by rewrite !lookup_insert_ne.
Qed.

(** A page without references goes on the free list. *)
Lemma vm_inv_push p pi :
  pages s !! p = Some pi -> pp_ref pi = 0 -> p ∉ fl ->
  vm_inv base
    (put page_free_list (Some p)
      (upd pages (fun a => <[p := put pp_link (page_free_list s) pi]> a) s)) (p :: fl) D O.
Proof.
  intros Hp Hr Hnin. destruct INV as [Ha Hv Href]. constructor; [|done|].
  - unfold free_list in *. kred.
    replace (put pp_link (page_free_list s) pi) with (mkPageInfo (page_free_list s) 0)
      by (rewrite <- Hr; done).
    eapply alloc_ok_push; eauto.
  - intros q Hq. kred. specialize (Href q Hq). unfold ref in *. kred.
    destruct (decide (p = q)) as [<-|Hne].
    + rewrite lookup_insert_eq. rewrite Hp in Href. done.
    + by rewrite lookup_insert_ne.
Qed.

(** A trace event changes nothing. *)
Lemma vm_inv_trace l : vm_inv base (put trace l s) fl D O.
Proof. destruct INV as [Ha Hv Href]. by constructor. Qed.
End Ledger.
