(* ===== verification/PmapLem.v ===== *)
(** * Running the operations of [kern/pmap.c]

    Each operation of [Pmap] as an equation or a [wp] rule over [vm_inv]: the
    lemmas the properties of the page tables and of the system calls apply. *)

From Stdlib Require Import Lia ZArith ZifyClasses ZifyInst ZifyBool.
From stdpp Require Import base gmap list strings numbers.
From S2P Require Import Prelude Cmonad Mmu State Pmap PageList Vm VmInv.

(** The kernel virtual address of a frame. *)
Definition kva (f : Z) : Z := KERNBASE + f * PGSIZE.

(** ** Addresses *)

Section Addresses.
Context {s : kstate} {f : Z}.
Hypothesis Hf : 0 <= f < npages s.
Hypothesis Hnp : npages s <= 65536.

Lemma in_linear_frame i : 0 <= i < 1024 -> in_linear s (kva f + 4 * i) = true.
Proof. intros. unfold in_linear, kva. apply andb_true_iff. lia. Qed.

Lemma in_linear_page : in_linear s (kva f) = true.
Proof. unfold in_linear, kva. apply andb_true_iff. lia. Qed.

Lemma kva_frame i : 0 <= i < 1024 ->
  (kva f + 4 * i - KERNBASE) / PGSIZE = f /\ (kva f + 4 * i - KERNBASE) mod PGSIZE / 4 = i.
Proof. intros. unfold kva. zlia. Qed.

Lemma kload_frame i : 0 <= i < 1024 ->
  kload (kva f + 4 * i) s = Ret (word (pmem s) f i) s.
Proof.
  intros Hi. unfold kload. rewrite in_linear_frame by done.
  by destruct (kva_frame i Hi) as [-> ->].
Qed.

Lemma kstore_frame i v : 0 <= i < 1024 ->
  kstore (kva f + 4 * i) v s = Ret tt (upd pmem (set_word f i (u32 v)) s).
Proof.
  intros Hi. unfold kstore. rewrite in_linear_frame by done.
  by destruct (kva_frame i Hi) as [-> ->].
Qed.

Lemma kzero_frame : kzero_page (kva f) s = Ret tt (upd pmem (fun m => <[f := ∅]> m) s).
Proof.
  unfold kzero_page. rewrite in_linear_page.
  destruct (kva_frame 0) as [H _]; [lia|].
  replace (kva f - KERNBASE) with (kva f + 4 * 0 - KERNBASE) by lia. by rewrite H.
Qed.

Lemma PGNUM_frame : PGNUM (f * 4096) = f.
Proof. rewrite PGNUM_div by lia. zlia. Qed.

Lemma KADDR_frame : KADDR (f * 4096) s = Ret (kva f) s.
Proof.
  unfold KADDR, mbind, M_bind, gets. rewrite PGNUM_frame.
  destruct (Z.leb_spec (npages s) f); [lia|].
  unfold mret, M_ret, kva. rewrite u32_id by lia. f_equal. lia.
Qed.

Lemma pa2page_frame : pa2page (f * 4096) s = Ret f s.
Proof.
  unfold pa2page, mbind, M_bind, gets. rewrite PGNUM_frame.
  destruct (Z.leb_spec (npages s) f); [lia|done].
Qed.

Lemma page2pa_frame : page2pa f = f * 4096.
Proof.
  unfold page2pa, PGSHIFT. rewrite Z.shiftl_mul_pow2, u32_id by lia. done.
Qed.
End Addresses.

Lemma PTE_ADDR_fr e : 0 <= e < 2 ^ 32 -> PTE_ADDR e = fr e * 4096.
Proof. apply PTE_ADDR_div. Qed.

Lemma PDX_vpn va : 0 <= va < UTOP ->
  PDX va = PGNUM va / 1024 /\ PTX va = PGNUM va mod 1024 /\ 0 <= PGNUM va < UVPNS /\
  0 <= PDX va < UPDES /\ 0 <= PTX va < 1024.
Proof. intros. rewrite PDX_div, PTX_div, PGNUM_div by lia. zlia. Qed.

(** ** Array elements *)

Lemma get_page_eq p pi s : pages s !! p = Some pi -> get_page p s = Ret pi s.
Proof. unfold get_page. by intros ->. Qed.

Lemma upd_page_eq p pi g s : pages s !! p = Some pi ->
  upd_page p g s = Ret tt (upd pages (fun a => <[p := g pi]> a) s).
Proof.
  intros H. unfold upd_page. rewrite (bind_Ret _ _ _ _ _ (get_page_eq _ _ _ H)). done.
Qed.

(** ** The allocator *)

Lemma page_alloc_nil flags s :
  page_free_list s = None -> page_alloc flags s = Ret None s.
Proof. intros H. unfold page_alloc, mbind, M_bind, gets. by rewrite H. Qed.

Lemma page_alloc_cons flags s p pi :
  page_free_list s = Some p -> pages s !! p = Some pi ->
  0 <= p < npages s -> npages s <= 65536 ->
  page_alloc flags s =
    Ret (Some p)
      (put pmem (if tst flags ALLOC_ZERO then <[p := ∅]> (pmem s) else pmem s)
        (put pages (<[p := put pp_link None pi]> (pages s))
          (put page_free_list (pp_link pi) s))).
Proof.
  intros Hh Hp Hr Hnp. unfold page_alloc, mbind at 1, M_bind at 1, gets. rewrite Hh.
  rewrite (bind_Ret _ _ _ _ _ (get_page_eq _ _ _ Hp)).
  unfold mbind at 1, M_bind at 1, modify.
  erewrite bind_Ret by (apply upd_page_eq; kred; exact Hp).
  unfold when. destruct (tst flags ALLOC_ZERO); [|by destruct s].
  erewrite bind_Ret; [reflexivity|].
  unfold page2kva. rewrite (page2pa_frame (s := s)) by done.
  erewrite bind_Ret by (apply KADDR_frame; kred; done).
  rewrite kzero_frame by (kred; done). by destruct s.
Qed.

(** [page_free] on an unreferenced page that is not free. *)
Lemma page_free_eq p pi s :
  pages s !! p = Some pi -> pp_ref pi = 0 -> pp_link pi = None ->
  page_free p s =
    Ret tt (put page_free_list (Some p)
             (upd pages (fun a => <[p := put pp_link (page_free_list s) pi]> a) s)).
Proof.
  intros Hp Hr Hl. unfold page_free.
  erewrite bind_Ret by (by apply get_page_eq). rewrite Hr, Hl. cbn [Z.eqb].
  rewrite bool_decide_eq_true_2 by done.
  unfold assert, mbind at 1 2 3, M_bind at 1 2 3, mret, M_ret, gets.
  by erewrite bind_Ret by (by apply upd_page_eq).
Qed.

(** ** Dropping a reference *)

Lemma page_decref_wp base s fl D O p :
  vm_inv base s fl D O -> 0 <= p < npages s -> p ∉ fl -> 1 <= ref s p ->
  wp (page_decref p) (fun _ s' =>
    pmem s' = pmem s /\ vm_frame s s' /\ trace s' = trace s /\
    (forall q, ref s' q = ref s q - (if decide (q = p) then 1 else 0)) /\
    vm_inv (fun q => base q + (if decide (q = p) then -1 else 0)) s'
      (if ref s p =? 1 then p :: fl else fl) D O) s.
Proof.
  intros INV Hp Hnin Hr. destruct (vi_page INV p Hp) as [pi Hpi].
  rewrite (ref_lookup _ _ _ Hpi) in Hr |- *.
  pose proof (ao_ref _ _ _ _ (vi_alloc _ _ _ _ _ INV) _ _ Hpi) as Hb.
  pose proof (ao_link _ _ _ _ (vi_alloc _ _ _ _ _ INV) _ _ Hpi Hnin) as Hl.
  unfold page_decref. apply wp_bind. eapply wp_Ret; [by apply upd_page_eq|].
  set (pi' := mkPageInfo None (pp_ref pi - 1)).
  assert (upd pp_ref (fun r => u16 (r - 1)) pi = put pp_ref (pp_ref pi + -1) pi) as Heq.
  { unfold upd, put. cbn [pp_link pp_ref]. rewrite u16_id by lia. by f_equal; lia. }
  rewrite Heq. pose proof (vm_inv_ref INV p pi (-1) Hpi Hnin ltac:(lia)) as INV1.
  assert (pages (upd pages (fun a => <[p := put pp_ref (pp_ref pi + -1) pi]> a) s) !! p
          = Some (put pp_ref (pp_ref pi + -1) pi)) as Hp1 by (kred; by rewrite lookup_insert_eq).
  apply wp_bind. eapply wp_Ret; [by apply get_page_eq|].
  cbn [pp_ref put upd]. unfold when.
  destruct (Z.eqb_spec (pp_ref pi + -1) 0) as [H0|H0];
    destruct (Z.eqb_spec (pp_ref pi) 1); try lia.
  - eapply wp_Ret; [by apply (page_free_eq _ _ _ Hp1)|].
    split_and!; [done|auto with vm|done| |by eapply (vm_inv_push INV1)].
    intros q. unfold ref. kred. destruct (decide (q = p)) as [->|].
    + rewrite insert_insert_eq, lookup_insert_eq, Hpi. cbn. lia.
    + rewrite !lookup_insert_ne by done. lia.
  - apply wp_ret. split_and!; [done|auto with vm|done| |done].
    intros q. unfold ref. kred. destruct (decide (q = p)) as [->|].
    + rewrite lookup_insert_eq, Hpi. cbn. lia.
    + rewrite !lookup_insert_ne by done. lia.
Qed.

(** ** The TLB *)

(** Is [pgdir] the directory this CPU may hold translations of? *)
Definition tlb_live (s : kstate) (pgdir : Z) : bool :=
  match (cpus s !! cpunum s) ≫= cpu_env with
  | Some e => from_option (fun v => env_pgdir v =? pgdir) true (envs s !! e)
  | None => true
  end.

Lemma tlb_live_frame s s' pgdir : vm_frame s s' -> tlb_live s' pgdir = tlb_live s pgdir.
Proof.
  intros Hf. unfold tlb_live. by rewrite (vf_envs _ _ Hf), (vf_cpus _ _ Hf), (vf_cpunum _ _ Hf).
Qed.

(** The trace after an entry of [pgdir] at [va] went stale. *)
Definition flushed (s : kstate) (pgdir va : Z) (tr : list event) : list event :=
  if tlb_live s pgdir then EvInvlpg va :: tr else tr.

Lemma flushed_frame s s' pgdir va tr :
  vm_frame s s' -> flushed s' pgdir va tr = flushed s pgdir va tr.
Proof. intros Hf. unfold flushed. by rewrite (tlb_live_frame s s'). Qed.

Lemma tlb_invalidate_eq pgdir va s : cpu_ok s ->
  tlb_invalidate pgdir va s = Ret tt (put trace (flushed s pgdir va (trace s)) s).
Proof.
  intros (c & Hc & He). unfold tlb_invalidate, curenv, flushed, tlb_live.
  erewrite bind_Ret; cycle 1.
  { erewrite bind_Ret by (unfold get_thiscpu; by rewrite Hc). reflexivity. }
  rewrite Hc. cbn [mbind option_bind].
  destruct (cpu_env c) as [e|]; cbn [mbind option_bind]; [|by destruct s].
  destruct He as [v Hv]. erewrite bind_Ret by (unfold get_env; by rewrite Hv).
  rewrite Hv. unfold when. cbn [from_option]. destruct (env_pgdir v =? pgdir); by destruct s.
Qed.
