(* ===== verification/VmLem.v ===== *)
(** * Walking and changing page tables

    [pgdir_walk], [page_remove] and [page_insert] over [vm_inv].  An operation's
    effect on the address spaces is stated with [pte]: which translations it
    changes, and that it changes no other. *)

From Stdlib Require Import Lia ZArith ZifyClasses ZifyInst ZifyBool.
From stdpp Require Import base gmap list strings numbers.
From S2P Require Import Prelude Cmonad Mmu State Pmap PageList Vm VmInv PmapLem.

(** The user translations of the address spaces [D] are the same. *)
Definition same_ptes (D : gset Z) (m m' : physmem) : Prop :=
  forall d v, d ∈ D -> 0 <= v < UVPNS -> pte m' d v = pte m d v.

(** ... except that page [v] of directory [d] has entry [e]. *)
Definition one_pte (D : gset Z) (m m' : physmem) (d v e : Z) : Prop :=
  pte m' d v = e /\
  forall d' v', d' ∈ D -> 0 <= v' < UVPNS -> (d', v') <> (d, v) -> pte m' d' v' = pte m d' v'.

#[export] Instance same_ptes_preorder D : PreOrder (same_ptes D).
Proof. split; [by intros ????|]. intros m1 m2 m3 H1 H2 d v Hd Hv. by rewrite H2, H1. Qed.

Lemma one_pte_same D m m' m'' d v e :
  d ∈ D -> 0 <= v < UVPNS -> one_pte D m m' d v e -> same_ptes D m' m'' -> one_pte D m m'' d v e.
Proof.
  intros Hd Hv [H1 H2] Hs. split; [by rewrite Hs|].
  intros d' v' Hd' Hv' Hne. by rewrite Hs, H2.
Qed.

Lemma same_one_pte D m m' m'' d v e :
  same_ptes D m m' -> one_pte D m' m'' d v e -> one_pte D m m'' d v e.
Proof.
  intros Hs [H1 H2]. split; [done|]. intros d' v' Hd' Hv' Hne. by rewrite H2, Hs.
Qed.

Lemma one_one_pte D m m' m'' d v e e' :
  one_pte D m m' d v e -> one_pte D m' m'' d v e' -> one_pte D m m'' d v e'.
Proof.
  intros [_ H1] [H2 H3]. split; [done|]. intros d' v' Hd' Hv' Hne. by rewrite H3, H1.
Qed.

(** What allocating a page table may do to pages: only free ones change. *)
Definition only_free (fl fl' : list Z) (O O' : gmap Z (Z * Z)) (s s' : kstate) : Prop :=
  forall q, q ∉ fl -> (q ∉ fl') /\ O' !! q = O !! q /\ ref s' q = ref s q.

(** The contents of pages that are in use and are not tables are the same. *)
Definition data_same (fl : list Z) (D : gset Z) (O : gmap Z (Z * Z)) (m m' : physmem) : Prop :=
  forall q i, q ∉ fl -> q ∉ D -> O !! q = None -> word m' q i = word m q i.

Lemma data_set fl D O m f i e :
  f ∈ D \/ is_Some (O !! f) -> data_same fl D O m (set_word f i e m).
Proof.
  intros Hf q j _ HD HO. apply word_set_ne. left. intros ->. destruct Hf as [?|[? ?]]; [done|congruence].
Qed.

#[export] Instance data_same_preorder fl D O : PreOrder (data_same fl D O).
Proof. split; [by intros ????|]. intros m1 m2 m3 H1 H2 q i Hq HD HO. by rewrite H2, H1. Qed.

(** An entry of a directory that leaves the protection to the page table. *)
Definition open_pde (e : Z) : Prop := tst e PTE_U = true /\ tst e PTE_W = true.

Lemma open_pde_lor e x : open_pde e -> open_pde (Z.lor e x).
Proof. intros [H1 H2]. unfold open_pde. by rewrite !tst_lor, H1, H2. Qed.

(** The directories keep their entries above [UTOP]; and if their entries below
    were open to the program, they still are. *)
(** Only pages of the free list have become page tables. *)
Definition tables_kept (fl : list Z) (O O' : gmap Z (Z * Z)) : Prop := forall q, q ∉ fl -> O' !! q = O !! q.

Definition pdes_user (D : gset Z) (m : physmem) : Prop :=
  forall d i, d ∈ D -> 0 <= i < UPDES -> present (word m d i) = true -> open_pde (word m d i).

Definition dirs_kept (D : gset Z) (m m' : physmem) : Prop :=
  (forall d i, d ∈ D -> ~ 0 <= i < UPDES -> word m' d i = word m d i) /\ (pdes_user D m -> pdes_user D m').

#[export] Instance dirs_kept_preorder D : PreOrder (dirs_kept D).
Proof.
  split; [by split|]. intros m1 m2 m3 [H1 H2] [H3 H4]. split; [|auto].
  intros d i Hd Hi. by rewrite H3, H1.
Qed.

Lemma dirs_kept_other D m m' : (forall d i, d ∈ D -> word m' d i = word m d i) -> dirs_kept D m m'.
Proof.
  intros H. split; [by intros; apply H|]. intros Hu d i Hd Hi. rewrite H by done. by apply Hu.
Qed.

Lemma dirs_kept_pde D m d i e :
  0 <= i < UPDES -> (pdes_user D m -> open_pde e) -> dirs_kept D m (set_word d i e m).
Proof.
  intros Hi He. split.
  - intros d' i' _ Hi'. apply word_set_ne. right. by intros ->.
  - intros Hu d' i' Hd' Hi'. rewrite word_set. case_decide; [auto|]. by apply Hu.
Qed.

Section Walk.
Context {base : Z -> Z} {s : kstate} {fl : list Z} {D : gset Z} {O : gmap Z (Z * Z)}.
Hypothesis INV : vm_inv base s fl D O.
Hypothesis base_nonneg : forall p, 0 <= base p.
Context {d va : Z}.
Hypothesis Hd : d ∈ D.
Hypothesis Hva : 0 <= va < UTOP.

Lemma pd_bound : 0 <= d < npages s.
Proof. by apply (vo_pd _ _ _ _ (vi_vm _ _ _ _ _ INV)). Qed.

Lemma kload_pde : kload (kva d + 4 * PDX va) s = Ret (word (pmem s) d (PDX va)) s.
Proof.
  pose proof (vi_np INV). pose proof pd_bound. pose proof (PDX_vpn va Hva).
  apply kload_frame; lia.
Qed.

Lemma walk_present create :
  present (word (pmem s) d (PDX va)) = true ->
  pgdir_walk (kva d) va create s =
    Ret (kva (fr (word (pmem s) d (PDX va))) + 4 * PTX va) s.
Proof.
  intros Hp. pose proof (vi_vm _ _ _ _ _ INV) as Hv. pose proof (PDX_vpn va Hva) as (_&_&_&Hi&_).
  unfold pgdir_walk. erewrite bind_Ret by apply kload_pde.
  unfold present in Hp. rewrite Hp. fold (present (word (pmem s) d (PDX va))) in Hp.
  pose proof (vo_own _ _ _ _ Hv _ _ _ (vo_pde _ _ _ _ Hv _ _ Hd Hi Hp)) as (Hf & _).
  rewrite PTE_ADDR_fr by apply (vo_word _ _ _ _ Hv).
  erewrite bind_Ret; [done|]. apply KADDR_frame; [done|]. apply (vi_np INV).
Qed.

Lemma walk_absent :
  present (word (pmem s) d (PDX va)) = false -> pgdir_walk (kva d) va false s = Ret NULL s.
Proof.
  intros Hp. unfold pgdir_walk. erewrite bind_Ret by apply kload_pde.
  unfold present in Hp. by rewrite Hp.
Qed.

Lemma pte_word :
  present (word (pmem s) d (PDX va)) = true ->
  pte (pmem s) d (PGNUM va) = word (pmem s) (fr (word (pmem s) d (PDX va))) (PTX va).
Proof.
  intros Hp. pose proof (PDX_vpn va Hva) as (HD & HT & _).
  unfold pte. rewrite <- HD, <- HT. by rewrite Hp.
Qed.

(** Creating a page table: the memory left behind. *)
Lemma walk_create f fl' pi :
  present (word (pmem s) d (PDX va)) = false -> fl = f :: fl' -> pages s !! f = Some pi ->
  exists s', pgdir_walk (kva d) va true s = Ret (kva f + 4 * PTX va) s' /\
    pmem s' = set_word d (PDX va) (Z.lor (f * 4096) 7) (<[f := ∅]> (pmem s)) /\
    pages s' = <[f := mkPageInfo None 1]> (pages s) /\
    page_free_list s' = pp_link pi /\ trace s' = trace s /\ vm_frame s s'.
Proof.
  intros Hp Hfl Hpi. pose proof (vi_np INV) as Hnp. pose proof pd_bound as Hdb.
  pose proof (PDX_vpn va Hva) as (_&_&_&Hi&_).
  destruct (free_unused INV f) as (Hf & Hr0 & HfD & HfO & Hnm); [by rewrite Hfl; left|done|].
  rewrite (ref_lookup s f pi Hpi) in Hr0.
  pose proof (vi_alloc _ _ _ _ _ INV) as Ha. unfold free_list in Ha. rewrite Hfl in Ha.
  destruct (ao_chain _ _ _ _ Ha) as [Hhead _].
  eexists. split; [|cycle 1].
  { unfold pgdir_walk. erewrite bind_Ret by apply kload_pde.
  unfold present in Hp. rewrite Hp.
  erewrite bind_Ret by (apply (page_alloc_cons ALLOC_ZERO s f pi); done || lia).
  change (tst ALLOC_ZERO ALLOC_ZERO) with true. cbv iota beta.
  erewrite bind_Ret by (apply upd_page_eq; kred; by rewrite lookup_insert_eq).
  rewrite (page2pa_frame (s := s)) by lia.
  erewrite bind_Ret by (apply kstore_frame; kred; lia).
  erewrite bind_Ret by (apply kload_frame; kred; lia).
  kred. rewrite word_set_eq, <- !Z.lor_assoc. change (Z.lor PTE_U (Z.lor PTE_W PTE_P)) with 7.
  rewrite lor_page, u32_id by lia.
  rewrite PTE_ADDR_fr by lia. replace (fr (f * 4096 + 7)) with f by (unfold fr; zlia).
  erewrite bind_Ret by (apply KADDR_frame; kred; lia).
  reflexivity. }
  kred. rewrite insert_insert_eq, lor_page by lia.
  assert (upd pp_ref (fun r => u16 (r + 1)) (put pp_link None pi) = mkPageInfo None 1) as ->
    by (destruct pi; cbn in Hr0 |- *; by subst).
  repeat split; auto with vm.
Qed.

(** Creating it for good: out of memory, or the table is there. *)
Lemma walk_create_wp :
  wp (pgdir_walk (kva d) va true) (fun r s' =>
    (r = NULL /\ s' = s /\ fl = [] /\ present (word (pmem s) d (PDX va)) = false) \/
    exists f fl' O',
      r = kva f + 4 * PTX va /\ O' !! f = Some (d, PDX va) /\
      fr (word (pmem s') d (PDX va)) = f /\ present (word (pmem s') d (PDX va)) = true /\
      vm_inv base s' fl' D O' /\ vm_frame s s' /\ trace s' = trace s /\
      same_ptes D (pmem s) (pmem s') /\ only_free fl fl' O O' s s' /\
      data_same fl D O (pmem s) (pmem s') /\ dirs_kept D (pmem s) (pmem s')) s.
Proof.
  pose proof (vi_vm _ _ _ _ _ INV) as Hv. pose proof (PDX_vpn va Hva) as (_&_&_&Hi&_).
  destruct (present (word (pmem s) d (PDX va))) eqn:Hp.
  { eapply wp_Ret; [by apply walk_present|]. right.
    exists (fr (word (pmem s) d (PDX va))), fl, O.
    split_and!; try done. by apply (vo_pde _ _ _ _ Hv). }
  assert (fl = [] \/ exists f fl', fl = f :: fl') as [Hfl|(f & fl' & Hfl)]
    by (destruct fl; eauto).
  { pose proof (ao_chain _ _ _ _ (vi_alloc _ _ _ _ _ INV)) as Hch. rewrite Hfl in Hch.
    eapply wp_Ret; [|by left]. unfold pgdir_walk. erewrite bind_Ret by apply kload_pde.
    unfold present in Hp. rewrite Hp. by erewrite bind_Ret by (by apply page_alloc_nil). }
  destruct (free_unused INV f) as (Hf & Hr0 & HfD & HfO & Hnm); [rewrite Hfl; by left|done|].
  destruct (vi_page INV f Hf) as [pi Hpi].
  destruct (walk_create f fl' pi Hp Hfl Hpi) as (s' & Hs' & Hm & Hpg & Hh & Ht & Hfr).
  eapply wp_Ret; [exact Hs'|]. right. exists f, fl', (<[f := (d, PDX va)]> O).
  pose proof (vm_inv_new_pt INV f pi fl' d (PDX va) 7 Hfl ltac:(done) Hpi Hd Hi Hp
    ltac:(lia) eq_refl) as INV'.
  rewrite Hm. split; [done|]. split; [by rewrite lookup_insert_eq|].
  rewrite word_set_eq. split; [by apply fr_lor_flags|].
  split; [unfold present; rewrite tst_lor; apply orb_true_r|].
  split.
  { eapply vm_inv_proj; [..|exact INV']; try done. by rewrite (vf_npages _ _ Hfr). }
  split; [done|]. split; [done|]. split.
  { intros d' v' Hd' Hv'. by apply (pte_new_pt Hv). }
  split.
  - intros q Hq. rewrite Hfl in Hq. apply not_elem_of_cons in Hq as [Hqf Hq].
    split; [done|]. rewrite lookup_insert_ne by done. split; [done|].
    unfold ref. by rewrite Hpg, lookup_insert_ne.
  - split.
    + intros q i Hq HqD _. rewrite word_set_ne by (left; intros ->; done).
      rewrite word_zero_page, decide_False; [done|]. intros ->. apply Hq. rewrite Hfl. by left.
    + etrans; [|apply dirs_kept_pde; [done|intros _; split; by rewrite !tst_lor, ?orb_true_r]].
      apply dirs_kept_other. intros d' i' Hd'. rewrite word_zero_page, decide_False; [done|]. by intros ->.
Qed.

Lemma maps_pte_eq p :
  maps (pmem s) d (PGNUM va) = Some p ->
  let pde := word (pmem s) d (PDX va) in let e := word (pmem s) (fr pde) (PTX va) in
  present pde = true /\ present e = true /\ fr e = p /\ 0 <= e < 2 ^ 32 /\
  O !! fr pde = Some (d, PDX va) /\ 0 <= fr pde < npages s /\
  0 <= p < npages s /\ (p ∉ D) /\ O !! p = None.
Proof.
  pose proof (vi_vm _ _ _ _ _ INV) as Hv. pose proof (PDX_vpn va Hva) as (HD&HT&Hg&Hi&_).
  intros Hm pde e. pose proof (vo_map _ _ _ _ Hv _ _ _ Hd Hg Hm) as Hp.
  destruct (present pde) eqn:Hpde.
  - pose proof (pte_word Hpde) as He. unfold maps in Hm. rewrite He in Hm. fold pde e in Hm.
    destruct (present e) eqn:Hpe; [|done]. injection Hm as Hm.
    pose proof (vo_pde _ _ _ _ Hv _ _ Hd Hi Hpde) as Ho.
    pose proof (vo_own _ _ _ _ Hv _ _ _ Ho) as (Hf & _).
    pose proof (vo_word _ _ _ _ Hv (fr pde) (PTX va)). split_and!; try done; tauto.
  - unfold maps, pte in Hm. rewrite <- HD in Hm. fold pde in Hm. by rewrite Hpde in Hm.
Qed.

Lemma page_lookup_eq p :
  maps (pmem s) d (PGNUM va) = Some p ->
  page_lookup (kva d) va s =
    Ret (Some (p, kva (fr (word (pmem s) d (PDX va))) + 4 * PTX va)) s.
Proof.
  intros Hm. destruct (maps_pte_eq p Hm) as (Hpde & Hpe & Hfe & He & _ & Hf & Hp & _).
  pose proof (vi_np INV) as Hnp. pose proof (PDX_vpn va Hva) as (_&_&_&_&Ht).
  unfold page_lookup. erewrite bind_Ret by (by apply walk_present).
  destruct (Z.eqb_spec (kva (fr (word (pmem s) d (PDX va))) + 4 * PTX va) NULL) as [H|_];
    [unfold kva, NULL in H; lia|].
  erewrite bind_Ret by (apply kload_frame; lia).
  rewrite PTE_ADDR_fr, Hfe by done. by erewrite bind_Ret by (apply pa2page_frame; lia).
Qed.

(** [page_remove] of a mapped page. *)
Lemma page_remove_wp p :
  cpu_ok s -> maps (pmem s) d (PGNUM va) = Some p ->
  wp (page_remove (kva d) va) (fun _ s' =>
    vm_inv base s' (if ref s p =? 1 then p :: fl else fl) D O /\ vm_frame s s' /\
    trace s' = flushed s (kva d) va (trace s) /\
    (forall q, ref s' q = ref s q - (if decide (q = p) then 1 else 0)) /\
    pmem s' = set_word (fr (word (pmem s) d (PDX va))) (PTX va) 0 (pmem s)) s.
Proof.
  intros Hc Hm. destruct (maps_pte_eq p Hm) as (Hpde & Hpe & Hfe & He & Ho & Hf & Hp & HpD & HpO).
  pose proof (vi_np INV) as Hnp. pose proof (PDX_vpn va Hva) as (HD&HT&Hg&Hi&Ht).
  pose proof (mapped_ref_pos INV _ _ _ Hd Hg Hm (base_nonneg _)) as Hr.
  pose proof (mapped_not_free INV _ _ _ Hd Hg Hm (base_nonneg _)) as Hnf.
  unfold page_remove. apply wp_bind. eapply wp_Ret; [by apply page_lookup_eq|].
  apply wp_bind. eapply wp_mono; [by apply (page_decref_wp _ _ _ _ _ _ INV)|].
  intros [] s1 (Hm1 & Hf1 & Ht1 & Hr1 & INV1).
  pose proof (vf_npages _ _ Hf1) as Hn1.
  apply wp_bind. eapply wp_Ret; [apply kstore_frame; lia|].
  change (u32 0) with 0.
  eapply wp_Ret.
  { apply tlb_invalidate_eq. eapply (cpu_ok_frame s); [|done]. etrans; [done|]. auto with vm. }
  cbn beta. kred. rewrite Hm1. split_and!.
  - apply vm_inv_trace.
    pose proof (vm_inv_set_pt INV1 _ _ _ (PTX va) 0 Ho Ht ltac:(split; [lia|done])) as INV2.
    eapply vm_inv_base; [|exact INV2]. intros q. cbn beta. rewrite Hm1.
    replace (PDX va * 1024 + PTX va) with (PGNUM va) by (rewrite HD, HT; zlia).
    rewrite Hm. rewrite (decide_False (P := present 0 = true /\ _)) by (by intros [? _]).
    destruct (decide (q = p)), (decide (Some p = Some q)); naive_solver lia.
  - etrans; [done|]. auto with vm.
  - rewrite Ht1. erewrite <- (flushed_frame s); [done|]. etrans; [done|]. auto with vm.
  - intros q. by rewrite <- Hr1.
  - done.
Qed.

Lemma PGNUM_index : PDX va * 1024 + PTX va = PGNUM va.
Proof. destruct (PDX_vpn va Hva) as (HD & HT & _). rewrite HD, HT. zlia. Qed.

(** Storing an entry: one translation changes. *)
Lemma one_pte_set f e :
  O !! f = Some (d, PDX va) ->
  one_pte D (pmem s) (set_word f (PTX va) e (pmem s)) d (PGNUM va) e.
Proof.
  intros Ho. destruct (PDX_vpn va Hva) as (_&_&Hg&_&Ht).
  split; [|intros d' v' Hd' Hv' Hne];
    rewrite (pte_set_pt (vi_vm _ _ _ _ _ INV) f d (PDX va)) by done; rewrite PGNUM_index.
  - by rewrite decide_True.
  - rewrite decide_False; [done|]. naive_solver.
Qed.

(** The part of [page_insert] that clears a previous mapping: what is left is
    either unmapped or maps [p] without counting it. *)
Definition unmap_for (p pte e : Z) : K unit :=
  when (tst e PTE_P)
    (if PTE_ADDR e =? page2pa p then
       tlb_invalidate (kva d) va ;;
       upd_page p (upd pp_ref (fun r => u16 (r - 1)))
     else page_remove (kva d) va).

Lemma unmap_for_wp p :
  cpu_ok s -> present (word (pmem s) d (PDX va)) = true ->
  0 <= p < npages s -> p ∉ fl ->
  let f := fr (word (pmem s) d (PDX va)) in
  let old := maps (pmem s) d (PGNUM va) in
  wp (unmap_for p (kva f + 4 * PTX va) (word (pmem s) f (PTX va))) (fun _ s' => exists fl',
    vm_inv (fun q => base q - (if decide (maps (pmem s') d (PGNUM va) = Some q) then 1 else 0))
      s' fl' D O /\
    (forall q, q ∉ fl -> old <> Some q \/ q = p -> q ∉ fl') /\ vm_frame s s' /\
    trace s' = (if old is Some _ then flushed s (kva d) va (trace s) else trace s) /\
    (forall q, ref s' q = ref s q - (if decide (old = Some q) then 1 else 0)) /\
    (pmem s' = pmem s \/ pmem s' = set_word f (PTX va) 0 (pmem s))) s.
Proof.
  intros Hc Hpde Hp Hpf f old. pose proof (vi_np INV) as Hnp.
  pose proof (PDX_vpn va Hva) as (_&_&Hg&_&_).
  pose proof (pte_word Hpde) as He. fold f in He. set (e := word (pmem s) f (PTX va)) in *.
  pose proof (vo_word _ _ _ _ (vi_vm _ _ _ _ _ INV) f (PTX va)) as Her. fold e in Her.
  unfold unmap_for, when. fold (present e).
  assert (old = if present e then Some (fr e) else None) as Hold
    by (unfold old, maps; by rewrite He).
  destruct (present e) eqn:Hpe.
  2:{ apply wp_ret. exists fl. fold old. rewrite Hold. split_and!; try done; auto.
      - eapply vm_inv_base; [|exact INV]. intros q. cbn beta. rewrite decide_False by done. lia.
      - intros q. rewrite decide_False by done. lia. }
  rewrite PTE_ADDR_fr, (page2pa_frame (s := s)) by lia.
  destruct (Z.eqb_spec (fr e * 4096) (p * 4096)) as [Hsame|Hdiff].
  - assert (fr e = p) as Hfe by lia. rewrite Hfe in Hold.
    destruct (maps_pte_eq p Hold) as (_&_&_&_&_&_&_).
    destruct (vi_page INV p Hp) as [pi Hpi].
    pose proof (mapped_ref_pos INV p d (PGNUM va) Hd Hg Hold (base_nonneg _)) as Hr.
    rewrite (ref_lookup _ _ _ Hpi) in Hr.
    pose proof (ao_ref _ _ _ _ (vi_alloc _ _ _ _ _ INV) _ _ Hpi) as Hrb.
    apply wp_bind. eapply wp_Ret; [by apply tlb_invalidate_eq|].
    eapply wp_Ret; [by apply upd_page_eq|]. exists fl.
    assert (upd pp_ref (fun r => u16 (r - 1)) pi = put pp_ref (pp_ref pi + -1) pi) as ->.
    { unfold upd, put. cbn. rewrite u16_id by lia. f_equal; lia. }
    kred. fold old. rewrite Hold. split_and!; try done; auto.
    + pose proof (vm_inv_ref INV p pi (-1) Hpi Hpf ltac:(lia)) as INV1.
      eapply vm_inv_proj; [..|eapply vm_inv_base; [|exact INV1]]; try done.
      intros q. cbn beta. destruct (decide (q = p)), (decide (Some p = Some q)); naive_solver lia.
    + intros q. unfold ref. kred. destruct (decide (p = q)) as [<-|].
      * rewrite lookup_insert_eq, Hpi. rewrite decide_True by done. cbn. lia.
      * rewrite lookup_insert_ne by done. rewrite decide_False by naive_solver. lia.
  - destruct (maps_pte_eq (fr e) Hold) as (_&_&_&_&Ho&_).
    eapply wp_mono; [by apply page_remove_wp|].
    intros [] s' (INV' & Hf & Ht & Hr & Hm). exists (if ref s (fr e) =? 1 then fr e :: fl else fl).
    rewrite Hold. split_and!; auto.
    + eapply vm_inv_base; [|exact INV']. intros q. cbn beta.
      destruct (one_pte_set _ 0 Ho) as [H0 _]. unfold maps. rewrite Hm, H0.
      rewrite present_0, decide_False by done. lia.
    + intros q Hq Hor. destruct (ref s (fr e) =? 1); [|done]. apply not_elem_of_cons. naive_solver lia.
    + intros q. rewrite Hr. destruct (decide (q = fr e)), (decide (Some (fr e) = Some q)); naive_solver lia.
Qed.
End Walk.

(** The entry [page_insert] stores. *)
Definition new_entry (p perm : Z) : Z := Z.lor (Z.lor (p * 4096) perm) PTE_P.

Lemma new_entry_eq p perm : 0 <= perm < 4096 ->
  new_entry p perm = p * 4096 + Z.lor perm PTE_P.
Proof.
  intros Hperm. unfold new_entry. rewrite <- Z.lor_assoc. apply lor_page.
  apply (lor_small _ _ 12); unfold PTE_P; lia.
Qed.

Lemma new_entry_ok p perm : 0 <= perm < 4096 ->
  present (new_entry p perm) = true /\ fr (new_entry p perm) = p.
Proof.
  intros Hperm. split.
  - unfold present, new_entry. rewrite tst_lor. apply orb_true_r.
  - rewrite new_entry_eq by done. pose proof (lor_small perm PTE_P 12) as H.
    unfold fr. unfold PTE_P in *. zlia.
Qed.

(** The part of [page_insert] after the previous mapping is gone. *)
Section Fill.
Context {base : Z -> Z} {s : kstate} {fl : list Z} {D : gset Z} {O : gmap Z (Z * Z)}.
Context {d va p perm : Z}.
Let mapped (q : Z) : Z := if decide (maps (pmem s) d (PGNUM va) = Some q) then 1 else 0.
Hypothesis INV : vm_inv (fun q => base q - mapped q) s fl D O.
Hypothesis Hd : d ∈ D.
Hypothesis Hva : 0 <= va < UTOP.
Hypothesis Hperm : 0 <= perm < 4096.
Hypothesis Hp : 0 <= p < npages s.
Hypothesis Hpf : p ∉ fl.
Hypothesis HpD : p ∉ D.
Hypothesis HpO : O !! p = None.
Hypothesis Hr : ref s p < 65535.
Hypothesis Hpde : present (word (pmem s) d (PDX va)) = true.

Definition fill_for : K Z :=
  kstore (kva (fr (word (pmem s) d (PDX va))) + 4 * PTX va)
    (Z.lor (Z.lor (page2pa p) perm) PTE_P) ;;
  upd_page p (upd pp_ref (fun r => u16 (r + 1))) ;;
  pde ← kload (kva d + 4 * PDX va);
  kstore (kva d + 4 * PDX va) (Z.lor pde perm) ;;
  mret 0.

Lemma fill_for_wp :
  wp fill_for (fun r s' =>
    r = 0 /\ vm_inv base s' fl D O /\ vm_frame s s' /\ trace s' = trace s /\
    one_pte D (pmem s) (pmem s') d (PGNUM va) (new_entry p perm) /\
    (forall q, ref s' q = ref s q + (if decide (q = p) then 1 else 0)) /\
    Z.land (word (pmem s') d (PDX va)) perm = perm /\
    data_same [] D O (pmem s) (pmem s') /\ dirs_kept D (pmem s) (pmem s')) s.
Proof.
  pose proof (vi_np INV) as Hnp. pose proof (PDX_vpn va Hva) as (_&_&Hg&Hi&Ht).
  pose proof (vi_vm _ _ _ _ _ INV) as Hv. destruct (vo_pd _ _ _ _ Hv _ Hd) as [Hdb _].
  pose proof (vo_pde _ _ _ _ Hv _ _ Hd Hi Hpde) as Ho.
  destruct (vo_own _ _ _ _ Hv _ _ _ Ho) as (Hf & _).
  set (f := fr (word (pmem s) d (PDX va))) in *.
  assert (d <> f) as Hdf by by eapply (vo_pt_ne Hv).
  destruct (new_entry_ok p perm Hperm) as [Hep Hef]. pose proof (new_entry_eq p perm Hperm) as Hee.
  assert (0 <= new_entry p perm < 2 ^ 32) as Her.
  { pose proof (lor_small perm PTE_P 12). unfold PTE_P in *. lia. }
  pose proof (vm_inv_set_pt INV f d (PDX va) (PTX va) (new_entry p perm) Ho Ht) as INV1.
  specialize (INV1 ltac:(split; [done|by rewrite Hef])).
  destruct (vi_page INV p Hp) as [pi Hpi]. rewrite (ref_lookup _ _ _ Hpi) in Hr.
  pose proof (ao_ref _ _ _ _ (vi_alloc _ _ _ _ _ INV) _ _ Hpi) as Hrb.
  pose proof (vm_inv_ref INV1 p pi 1 Hpi Hpf ltac:(lia)) as INV2.
  pose proof (vm_inv_pde_flags INV2 d (PDX va) perm Hd Hi) as INV3.
  unfold fill_for. rewrite (page2pa_frame (s := s)) by lia. fold (new_entry p perm). fold f.
  apply wp_bind. eapply wp_Ret; [apply kstore_frame; lia|].
  apply wp_bind. eapply wp_Ret; [by apply upd_page_eq|].
  apply wp_bind. eapply wp_Ret; [apply kload_frame; kred; lia|].
  apply wp_bind. eapply wp_Ret; [apply kstore_frame; kred; lia|]. apply wp_ret.
  kred. rewrite (u32_id (new_entry p perm)) by done.
  rewrite word_set_ne by auto. rewrite (u32_id (Z.lor _ _)).
  2:{ apply (lor_small _ _ 32); [lia|apply (vo_word _ _ _ _ Hv)|lia]. }
  assert (upd pp_ref (fun r => u16 (r + 1)) pi = put pp_ref (pp_ref pi + 1) pi) as ->.
  { unfold upd, put. cbn. rewrite u16_id by lia. f_equal; lia. }
  split; [done|]. split.
  { eapply vm_inv_proj; [..|eapply vm_inv_base; [|apply INV3]]; try done.
    - kred. by rewrite word_set_ne by auto.
    - intros q. cbn beta. unfold mapped. rewrite PGNUM_index by done. rewrite Hef, Hep.
      destruct (decide (q = p)), (decide (true = true /\ p = q)); naive_solver lia.
    - kred. by rewrite word_set_ne by auto. }
  split; [auto with vm|]. split; [done|]. split.
  { pose proof (one_pte_set INV Hd Hva f (new_entry p perm) Ho) as H1.
    eapply one_pte_same; [done..|]. intros d' v' Hd' Hv'.
    pose proof (pte_pde_flags (vi_vm _ _ _ _ _ INV1) d (PDX va) perm d' v' Hd Hi) as H2.
    revert H2. kred. rewrite word_set_ne by auto. auto. }
  split.
  { intros q. unfold ref. kred. destruct (decide (q = p)) as [->|].
    - rewrite lookup_insert_eq, Hpi. cbn. lia.
    - rewrite lookup_insert_ne by done. lia. }
  rewrite word_set_eq. split.
  - apply Z.bits_inj'. intros n Hn.
    rewrite Z.land_spec, Z.lor_spec. by destruct (Z.testbit _ n), (Z.testbit perm n).
  - split; [etrans; apply data_set; [right; by eexists|by left]|]. etrans.
    + apply dirs_kept_other. intros d' i' Hd'. apply word_set_ne. left. apply not_eq_sym. by eapply (vo_pt_ne Hv).
    + apply dirs_kept_pde; [done|]. intros Hu. apply open_pde_lor.
      specialize (Hu d (PDX va) Hd Hi). rewrite word_set_ne in Hu by auto. auto.
Qed.
End Fill.

(** ** [page_insert] *)

Section Insert.
Context {base : Z -> Z} {s : kstate} {fl : list Z} {D : gset Z} {O : gmap Z (Z * Z)}.
Hypothesis INV : vm_inv base s fl D O.
Hypothesis base_nonneg : forall p, 0 <= base p.
Context {d va p perm : Z}.
Hypothesis Hd : d ∈ D.
Hypothesis Hva : 0 <= va < UTOP.
Hypothesis Hperm : 0 <= perm < 4096.

(** [p] can take one more mapping. *)
Record mappable (s : kstate) (fl : list Z) (D : gset Z) (O : gmap Z (Z * Z)) (p : Z) : Prop := {
  mp_page : 0 <= p < npages s;
  mp_alloc : p ∉ fl;
  mp_pd : p ∉ D;
  mp_pt : O !! p = None;
  mp_ref : ref s p < 65535
}.

Lemma page_insert_full :
  cpu_ok s -> mappable s fl D O p ->
  wp (page_insert (kva d) p va perm) (fun r s' =>
    (r = - E_NO_MEM /\ s' = s /\ fl = [] /\ present (word (pmem s) d (PDX va)) = false) \/
    exists fl' O',
      r = 0 /\ vm_inv base s' fl' D O' /\ vm_frame s s' /\
      one_pte D (pmem s) (pmem s') d (PGNUM va) (new_entry p perm) /\
      Z.land (word (pmem s') d (PDX va)) perm = perm /\
      (let old := maps (pmem s) d (PGNUM va) in
       trace s' = (if old is Some _ then flushed s (kva d) va (trace s) else trace s) /\
       (forall q, q ∉ fl -> O' !! q = O !! q /\
          ref s' q = ref s q - (if decide (old = Some q) then 1 else 0)
                     + (if decide (q = p) then 1 else 0) /\
          (old <> Some q \/ q = p -> q ∉ fl'))) /\
      data_same fl D O (pmem s) (pmem s') /\ dirs_kept D (pmem s) (pmem s')) s.
Proof.
  intros Hc [Hp Hpf HpD HpO Hr].
  destruct (PDX_vpn va Hva) as (_&_&Hg&_&Ht).
  unfold page_insert. apply wp_bind.
  eapply wp_mono; [by apply (walk_create_wp INV base_nonneg)|].
  intros r s1 [(-> & -> & Hfl & Hpd)|(f & fl1 & O1 & -> & Ho & Hfr & Hpd & INV1 & Hf1 & Ht1 & Hs1 & Hof & Hd1 & Hk1)].
  { left. auto. }
  pose proof (vi_np INV1) as Hnp. pose proof (vf_npages _ _ Hf1) as Hn1.
  destruct (vo_own _ _ _ _ (vi_vm _ _ _ _ _ INV1) _ _ _ Ho) as (Hfb & _).
  destruct (Hof p Hpf) as (Hpf1 & HO1 & Hr1).
  assert (maps (pmem s1) d (PGNUM va) = maps (pmem s) d (PGNUM va)) as Hold
    by (apply maps_pte, Hs1; done).
  destruct (Z.eqb_spec (kva f + 4 * PTX va) NULL) as [H|_]; [unfold kva, NULL in H; lia|].
  apply wp_bind. eapply wp_Ret; [apply kload_frame; lia|].
  apply wp_bind. rewrite <- Hfr. fold (unmap_for (d := d) (va := va) p
    (kva (fr (word (pmem s1) d (PDX va))) + 4 * PTX va)
    (word (pmem s1) (fr (word (pmem s1) d (PDX va))) (PTX va))).
  eapply wp_mono.
  { apply (unmap_for_wp INV1 base_nonneg Hd Hva p); try done; [by eapply cpu_ok_frame|lia]. }
  rewrite Hfr, Hold. intros [] s2 (fl2 & INV2 & Hfl2 & Hf2 & Ht2 & Hr2 & Hm2).
  assert (word (pmem s2) d (PDX va) = word (pmem s1) d (PDX va)) as Hw2.
  { destruct Hm2 as [->| ->]; [done|]. rewrite word_set_ne; [done|]. left.
    apply not_eq_sym. by eapply (vo_pt_ne (vi_vm _ _ _ _ _ INV1)). }
  pose proof (vf_npages _ _ Hf2) as Hn2.
  rewrite <- Hfr, <- Hw2. eapply wp_mono.
  { apply (fill_for_wp (p := p) INV2 Hd Hva Hperm); try done; [lia| | | |].
    - by apply Hfl2; auto.
    - by rewrite HO1.
    - rewrite Hr2, Hr1. case_decide; lia.
    - by rewrite Hw2. }
  intros r s3 (-> & INV3 & Hf3 & Ht3 & Hone & Hr3 & Hpe & Hd3 & Hk3). right.
  exists fl2, O1. split; [done|]. split; [done|].
  split; [by etrans; [|etrans]|]. split.
  { eapply same_one_pte; [done|]. destruct Hm2 as [Hm2|Hm2]; rewrite Hm2 in Hone; [done|].
    eapply one_one_pte; [|done]. by eapply (one_pte_set INV1). }
  split; [done|]. split; [split|].
  { rewrite Ht3, Ht2, Ht1. destruct (maps (pmem s) d (PGNUM va)); [|done].
    by apply flushed_frame. }
  - intros q Hq. destruct (Hof q Hq) as (Hq1 & HOq & Hrq).
    split; [done|]. split; [by rewrite Hr3, Hr2, Hrq|]. auto.
  - split.
    + intros q i Hq HqD HqO. destruct (Hof q Hq) as (Hq1 & HOq & _). rewrite HqO in HOq.
      etrans; [apply Hd3; try done|].
      * by intros ?%elem_of_nil.
      * etrans; [|by apply Hd1]. destruct Hm2 as [->| ->]; [done|].
        apply (data_set fl1 D O1); [right; by eexists|done..].
    + etrans; [exact Hk1|]. etrans; [|exact Hk3]. destruct Hm2 as [->| ->]; [done|].
      apply dirs_kept_other. intros d' i' Hd'. apply word_set_ne. left. apply not_eq_sym.
      by eapply (vo_pt_ne (vi_vm _ _ _ _ _ INV1)).
Qed.

Lemma page_insert_wp :
  cpu_ok s -> mappable s fl D O p ->
  wp (page_insert (kva d) p va perm) (fun r s' =>
    (r = - E_NO_MEM /\ s' = s /\ fl = [] /\ present (word (pmem s) d (PDX va)) = false) \/
    exists fl' O',
      r = 0 /\ vm_inv base s' fl' D O' /\ vm_frame s s' /\
      one_pte D (pmem s) (pmem s') d (PGNUM va) (new_entry p perm) /\
      Z.land (word (pmem s') d (PDX va)) perm = perm /\
      (let old := maps (pmem s) d (PGNUM va) in
       trace s' = (if old is Some _ then flushed s (kva d) va (trace s) else trace s) /\
       (forall q, q ∉ fl -> O' !! q = O !! q /\
          ref s' q = ref s q - (if decide (old = Some q) then 1 else 0)
                     + (if decide (q = p) then 1 else 0) /\
          (old <> Some q \/ q = p -> q ∉ fl'))) /\
      data_same fl D O (pmem s) (pmem s')) s.
Proof.
  intros Hc Hp. eapply wp_mono; [by apply page_insert_full|].
  intros r s' [?|(fl' & O' & H1 & H2 & H3 & H4 & H5 & H6 & H7 & _)]; [by left|right]. by exists fl', O'.
Qed.
End Insert.
