(* ===== verification/PmapSpec.v ===== *)
(** * What the operations of [kern/pmap.c] do

    The properties of the page allocator, of [page_init], [page_insert],
    [page_remove] and [user_mem_check], with states on which they apply. *)

From Stdlib Require Import Lia ZArith ZifyClasses ZifyInst ZifyBool.
From stdpp Require Import base gmap list strings numbers.
From S2P Require Import Prelude Cmonad Mmu Console State Pmap PageList Vm VmInv PmapLem VmLem.

(** ** The free list *)

(** [page_alloc] takes the first page off the free list, zeroes it when
    asked, and leaves the list well formed; it returns null, changing nothing,
    exactly when the list is empty. *)
Theorem page_alloc_correct flags s fl :
  free_list s fl ->
  wp (page_alloc flags) (fun r s' =>
    match fl with
    | [] => r = None /\ s' = s
    | p :: fl' => r = Some p /\ free_list s' fl' /\ (p ∉ fl') /\ ref s' p = 0 /\
        vm_frame s s' /\ trace s' = trace s /\
        (forall f i, word (pmem s') f i =
           if decide (f = p /\ tst flags ALLOC_ZERO = true) then 0 else word (pmem s) f i)
    end) s.
Proof.
  intros H. pose proof (ao_chain _ _ _ _ H) as Hch. pose proof (ao_np _ _ _ _ H) as Hnp.
  destruct fl as [|p fl'].
  { eapply wp_Ret; [by apply page_alloc_nil|]. done. }
  pose proof (ao_bound H p ltac:(left)) as Hp. destruct Hch as [Hh (pi & Hpi & Hch)].
  eapply wp_Ret; [apply (page_alloc_cons flags s p pi); done || lia|].
  unfold free_list in H. rewrite Hh in H. pose proof (alloc_ok_pop _ _ _ _ _ H Hpi) as H'.
  pose proof (ao_NoDup H) as [Hnin _]%list.NoDup_cons.
  split_and!; [done| |done| |auto with vm|done|].
  - unfold free_list. kred. apply H'.
  - unfold ref. kred. rewrite lookup_insert_eq. apply (ao_free _ _ _ _ H p pi Hpi). by left.
  - intros f i. kred. destruct (tst flags ALLOC_ZERO).
    + rewrite word_zero_page. repeat case_decide; naive_solver.
    + rewrite decide_False by naive_solver. done.
Qed.

(** [page_free] of an allocated page: it panics when the page still has
    references, and otherwise puts the page first on the free list. *)
Theorem page_free_correct s fl p :
  free_list s fl -> 0 <= p < npages s -> p ∉ fl ->
  match page_free p s with
  | Ret _ s' => ref s p = 0 /\ free_list s' (p :: fl) /\ pmem s' = pmem s /\ vm_frame s s'
  | Panic _ s' => ref s p <> 0 /\ s' = s
  | _ => False
  end.
Proof.
  intros H Hp Hnin. destruct (proj2 (ao_dom _ _ _ _ H p) Hp) as [pi Hpi].
  pose proof (ao_link _ _ _ _ H _ _ Hpi Hnin) as Hl. rewrite (ref_lookup _ _ _ Hpi).
  destruct (decide (pp_ref pi = 0)) as [Hr|Hr].
  - rewrite (page_free_eq p pi s) by done. split_and!; [done| |done|auto with vm].
    pose proof (alloc_ok_push _ _ _ _ _ _ H Hpi Hr Hnin) as H'. unfold free_list. kred.
    by replace (put pp_link (page_free_list s) pi) with (mkPageInfo (page_free_list s) 0)
      by (rewrite <- Hr; by destruct pi).
  - unfold page_free. erewrite bind_Ret by (by apply get_page_eq).
    destruct (Z.eqb_spec (pp_ref pi) 0); [done|]. done.
Qed.

(** A path through the links from [h] to page [p], not passing [p]. *)
Fixpoint path (pgs : gmap Z PageInfo) (h : option Z) (l : list Z) (p : Z) : Prop :=
  match l with
  | [] => h = Some p
  | q :: l' => h = Some q /\ q <> p /\ exists qi, pgs !! q = Some qi /\ path pgs (pp_link qi) l' p
  end.

Lemma chain_path pgs h l p :
  chain pgs h (l ++ [p]) -> path pgs h l p.
Proof.
  intros H. pose proof (chain_NoDup _ _ _ H) as Hnd. revert h H Hnd.
  induction l as [|q l IH]; intros h; cbn; [by intros [-> _]|].
  intros [-> (qi & Hq & H)] [Hnin Hnd]%list.NoDup_cons. split; [done|]. split; [set_solver|].
  eauto.
Qed.

Lemma path_insert pgs h l p pi : path pgs h l p -> path (<[p := pi]> pgs) h l p.
Proof.
  revert h. induction l as [|q l IH]; intros h; [done|].
  cbn. intros (-> & Hne & qi & Hq & H). split_and!; [done..|].
  exists qi. rewrite lookup_insert_ne by done. auto.
Qed.

Lemma path_chain pgs h l p l' :
  path pgs h l p -> chain pgs h l' -> p ∈ l'.
Proof.
  revert h l'. induction l as [|q l IH]; intros h [|q' l']; cbn.
  - intros -> [=].
  - intros -> [[= ->] _]. by left.
  - intros (-> & _) [=].
  - intros (-> & _ & qi & Hq & H) [[= <-] (qj & Hq' & H')].
    rewrite Hq in Hq'. injection Hq' as <-. right. eauto.
Qed.

(** The double-free check does not see the last page of the free list,
    whose link is null: freeing that page again succeeds and closes the list
    into a cycle, so that no list of pages describes it any more. *)
Theorem page_free_last_again s l p :
  free_list s (l ++ [p]) ->
  wp (page_free p) (fun _ s' => forall fl, ~ chain (pages s') (page_free_list s') fl) s.
Proof.
  intros H. pose proof (ao_chain _ _ _ _ H) as Hch.
  destruct (chain_lookup _ _ _ p Hch ltac:(set_solver)) as [pi Hpi].
  pose proof (ao_free _ _ _ _ H _ _ Hpi ltac:(set_solver)) as Hr.
  destruct (chain_suffix _ _ _ _ _ Hch) as [_ (pj & Hpj & Hl)].
  rewrite Hpi in Hpj. injection Hpj as <-. cbn in Hl.
  eapply wp_Ret; [by apply page_free_eq|]. kred. intros fl Hfl.
  pose proof (chain_NoDup _ _ _ Hfl) as Hnd.
  destruct fl as [|q fl]; [done|]. destruct Hfl as [[= <-] (pk & Hpk & Hfl)].
  rewrite lookup_insert_eq in Hpk. injection Hpk as <-. cbn in Hfl.
  apply list.NoDup_cons in Hnd as [Hnin _]. apply Hnin.
  eapply path_chain; [|exact Hfl]. by apply path_insert, chain_path.
Qed.

(** ** [page_init] *)

(** The pages [page_init] puts on the free list, as its conditions say. *)
Definition init_free (base nf i : Z) : bool :=
  negb (i =? 0) && negb (i =? MPENTRY_PADDR / PGSIZE) &&
  ((i <? base) || negb (IOPHYSMEM / PGSIZE <=? i) ||
   negb (i <? EXTPHYSMEM / PGSIZE) && negb (i <? u32 (nf - KERNBASE) / PGSIZE)).

Definition init_free_list (base nf n : Z) : list Z :=
  reverse (filter (fun i => init_free base nf i = true) (seqZ 0 n)).

Lemma elem_of_init_free_list base nf n i :
  i ∈ init_free_list base nf n <-> 0 <= i < n /\ init_free base nf i = true.
Proof.
  unfold init_free_list. rewrite elem_of_reverse, list_elem_of_filter, elem_of_seqZ.
  split; intros []; split; auto; lia.
Qed.

Lemma init_free_list_S base nf n : 0 <= n ->
  init_free_list base nf (n + 1) =
    if init_free base nf n then n :: init_free_list base nf n else init_free_list base nf n.
Proof.
  intros Hn. unfold init_free_list. rewrite seqZ_app by lia. rewrite list.filter_app, reverse_app.
  change (seqZ (0 + n) 1) with [0 + n]. replace (0 + n) with n by lia.
  cbn [filter]. unfold filter, list_filter. destruct (init_free base nf n) eqn:E.
  - by rewrite decide_True.
  - by rewrite decide_False by congruence.
Qed.

(** After [i] iterations. *)
Record init_upto (nf : Z) (s0 : kstate) (i : Z) (s : kstate) : Prop := {
  iu_i : 0 <= i;
  iu_frame : vm_frame s0 s;
  iu_mem : pmem s = pmem s0;
  iu_alloc : free_list s (init_free_list (npages_basemem s0) nf i);
  iu_rest q : i <= q < npages s0 -> pages s !! q = Some (mkPageInfo None 0);
  iu_ref q : 0 <= q < i -> ref s q =
    b2z (negb (init_free (npages_basemem s0) nf q) && negb (q =? MPENTRY_PADDR / PGSIZE))
}.

Lemma page_init_at_step nf s0 s i :
  init_upto nf s0 i s -> i < npages s0 ->
  wp (page_init_at nf i) (fun _ s' => init_upto nf s0 (i + 1) s') s.
Proof.
  intros [Hi Hf Hm Ha Hrest Href] Hlt.
  pose proof (vf_npages _ _ Hf) as Hn. pose proof (vf_npages_basemem _ _ Hf) as Hb.
  pose proof (Hrest i ltac:(lia)) as Hpi.
  assert (i ∉ init_free_list (npages_basemem s0) nf i) as Hnin
    by (rewrite elem_of_init_free_list; lia).
  assert (forall s' pi, pages s' = <[i := pi]> (pages s) -> pmem s' = pmem s -> vm_frame s s' ->
    free_list s' (init_free_list (npages_basemem s0) nf (i + 1)) ->
    pp_ref pi = b2z (negb (init_free (npages_basemem s0) nf i) && negb (i =? MPENTRY_PADDR / PGSIZE)) ->
    init_upto nf s0 (i + 1) s') as Hdone.
  { intros s' pi Hpg Hm' Hf' Ha' Hr. constructor; [lia|by etrans|by rewrite Hm'|done| |].
    - intros q Hq. rewrite Hpg, lookup_insert_ne by lia. apply Hrest. lia.
    - intros q Hq. unfold ref. rewrite Hpg. destruct (decide (q = i)) as [->|].
      + by rewrite lookup_insert_eq.
      + rewrite lookup_insert_ne by lia. apply Href. lia. }
  assert (init_free (npages_basemem s0) nf i = false ->
    wp (upd_page i (fun _ => mkPageInfo None 1)) (fun _ s' => i <> MPENTRY_PADDR / PGSIZE ->
      init_upto nf s0 (i + 1) s') s) as Hres.
  { intros E. eapply wp_Ret; [by apply upd_page_eq|]. intros H7.
    eapply Hdone; [reflexivity|done|auto with vm| |].
    - rewrite init_free_list_S, E by done. unfold free_list. kred.
      by apply (alloc_ok_ref Ha i (mkPageInfo None 0) 1).
    - rewrite E. destruct (Z.eqb_spec i (MPENTRY_PADDR / PGSIZE)); done. }
  assert (init_free (npages_basemem s0) nf i = true ->
    wp (upd_page i (fun _ => mkPageInfo (page_free_list s) 0) ;;
        modify (put page_free_list (Some i))) (fun _ s' => init_upto nf s0 (i + 1) s') s) as Hfree.
  { intros E. apply wp_bind. eapply wp_Ret; [by apply upd_page_eq|]. apply wp_modify.
    eapply Hdone; [reflexivity|done|auto with vm| |by rewrite E].
    rewrite init_free_list_S, E by done. unfold free_list. kred.
    by eapply alloc_ok_push. }
  unfold page_init_at. wp_steps. rewrite Hb. unfold init_free in Hres, Hfree, Hdone.
  destruct (Z.eqb_spec i 0) as [->|H0].
  { eapply wp_mono; [by apply Hres|]. by intros [] s' H; apply H. }
  destruct (Z.eqb_spec i (MPENTRY_PADDR / PGSIZE)) as [H7|H7].
  { apply wp_ret. eapply Hdone; [symmetry; by apply insert_id|done|auto with vm| |].
    - rewrite init_free_list_S by done. unfold init_free.
      rewrite (proj2 (Z.eqb_eq i (MPENTRY_PADDR / PGSIZE)) H7), andb_false_r. exact Ha.
    - done. }
  destruct (i <? npages_basemem s0) eqn:E1; [by apply Hfree|].
  destruct (IOPHYSMEM / PGSIZE <=? i) eqn:E2; [|by apply Hfree].
  destruct (i <? EXTPHYSMEM / PGSIZE) eqn:E3; cbn [andb].
  { eapply wp_ext.
    - by rewrite (upd_page_eq _ _ _ _ Hpi : _ = _ (upd pages (fun a => <[i := mkPageInfo None 1]> a) s)),
        <- (upd_page_eq i _ (fun _ => mkPageInfo None 1) _ Hpi).
    - eapply wp_mono; [by apply Hres|]. by intros [] s' H; apply H. }
  destruct (i <? u32 (nf - KERNBASE) / PGSIZE) eqn:E4; [|by apply Hfree].
  eapply wp_mono; [by apply Hres|]. by intros [] s' H; apply H.
Qed.

(** C28: [page_init], run on a zeroed [pages] array, frees exactly the pages its
    conditions select, highest first: not page 0, not the AP boot page, not the
    I/O hole and not the kernel image and its boot-time allocations.  The others
    get one reference (the AP boot page none), and the allocator is well formed. *)
Theorem page_init_correct end_sym s :
  0 < npages s <= 65536 -> page_free_list s = None ->
  (forall p, is_Some (pages s !! p) <-> 0 <= p < npages s) ->
  (forall p, 0 <= p < npages s -> pages s !! p = Some (mkPageInfo None 0)) ->
  let nf := if nextfree s =? 0 then ROUNDUP end_sym PGSIZE else nextfree s in
  wp (page_init end_sym) (fun _ s' =>
    free_list s' (init_free_list (npages_basemem s) nf (npages s)) /\
    (forall p, 0 <= p < npages s -> ref s' p =
      b2z (negb (init_free (npages_basemem s) nf p) && negb (p =? MPENTRY_PADDR / PGSIZE))) /\
    nextfree s' = nf /\ pmem s' = pmem s) s.
Proof.
  intros Hnp Hh Hdom Hz nf.
  assert (boot_alloc end_sym 0 s = Ret nf (put nextfree nf s)) as Hba.
  { unfold boot_alloc, mbind, M_bind, gets, when, nf. destruct (nextfree s =? 0); by destruct s. }
  unfold page_init. apply wp_bind. eapply wp_Ret; [exact Hba|].
  apply wp_bind, wp_gets. kred. set (s0 := put nextfree nf s).
  eapply (wp_for_loop _ 0 1 _ (init_upto nf s0)).
  - constructor; [lia|reflexivity|done| |by intros; apply Hz|lia].
    unfold free_list, s0. kred. rewrite Hh. constructor; try done; intros p pi Hp; kred.
    + intros Hin%elem_of_nil. done.
    + intros _. rewrite Hz in Hp by (by apply Hdom). by injection Hp as <-.
    + rewrite Hz in Hp by (by apply Hdom). injection Hp as <-. done.
  - intros k s' Hk HI. apply page_init_at_step; [done|]. unfold s0. kred. lia.
  - intros s' [Hi Hf Hm Ha Hrest Href]. rewrite Z.mul_1_l, Z.add_0_l, Z2Nat.id in * by lia.
    split_and!; [done|done|by rewrite (vf_nextfree _ _ Hf)|done].
Qed.

(** ** Mapping and unmapping *)

(** A machine with four pages: page 0 is reserved, page 1 an empty page
    directory, page 2 allocated, page 3 free. *)
Definition four_pages : kstate :=
  put page_free_list (Some 3)
    (put pages {[ 0 := mkPageInfo None 1; 1 := mkPageInfo None 1;
                  2 := mkPageInfo None 0; 3 := mkPageInfo None 0 ]} (blank 4)).

Definition boot_refs (p : Z) : Z := if p =? 0 then 1 else 0.

Lemma boot_refs_nonneg p : 0 <= boot_refs p.
Proof. unfold boot_refs. destruct (p =? 0); lia. Qed.

Lemma four_cases (P : Z -> Prop) p : P 0 -> P 1 -> P 2 -> P 3 -> 0 <= p < 4 -> P p.
Proof.
  intros. assert (p = 0 \/ p = 1 \/ p = 2 \/ p = 3) as [->|[->|[->| ->]]] by lia; done.
Qed.

Lemma four_pages_inv : vm_inv boot_refs four_pages [3] {[1]} ∅.
Proof.
  constructor.
  - unfold free_list. constructor.
    + done.
    + intros p. split.
      * intros [pi Hpi]. cbn in Hpi. rewrite !lookup_insert_Some, lookup_singleton_Some in Hpi.
        kred. cbn. lia.
      * intros Hp. pattern p. apply four_cases; [eexists; reflexivity..|done].
    + cbn. split; [done|]. eexists. split; [reflexivity|done].
    + intros p pi Hp Hin. apply list_elem_of_singleton in Hin as ->. by injection Hp as <-.
    + intros p pi Hpi _. cbn in Hpi. rewrite !lookup_insert_Some, lookup_singleton_Some in Hpi.
      naive_solver.
    + intros p pi Hpi. cbn in Hpi. rewrite !lookup_insert_Some, lookup_singleton_Some in Hpi.
      naive_solver lia.
  - constructor.
    + intros f i. cbn. unfold word. rewrite lookup_empty. cbn. lia.
    + intros d Hd. assert (d = 1) as -> by set_solver. split; [cbn; lia|apply lookup_empty].
    + intros d i _ _. unfold word, four_pages. kred. by rewrite lookup_empty.
    + intros f d i. by rewrite lookup_empty.
    + intros d v p _ _. unfold maps, pte, word. cbn. by rewrite lookup_empty.
  - intros p Hp. rewrite nmaps_none.
    2:{ intros d v _ _. unfold maps, pte, word. cbn. by rewrite lookup_empty. }
    pattern p. apply four_cases; [reflexivity..|exact Hp].
Qed.

Lemma four_pages_cpu : cpu_ok four_pages.
Proof. by exists (mkCpuInfo 0 CPU_STARTED None 0 0). Qed.

Lemma four_pages_mappable : mappable four_pages [3] {[1]} ∅ 2.
Proof. constructor; [cbn; lia|set_solver|set_solver|done|reflexivity]. Qed.

Lemma page_alloc_correct_witness :
  exists s', page_alloc ALLOC_ZERO four_pages = Ret (Some 3) s' /\ free_list s' [].
Proof.
  pose proof (page_alloc_correct ALLOC_ZERO four_pages [3] (vi_alloc _ _ _ _ _ four_pages_inv)) as H.
  apply wp_inv in H as (r & s' & Hs & -> & Hfl & _). by exists s'.
Defined.

Lemma page_free_correct_witness :
  exists s', page_free 2 four_pages = Ret tt s' /\ free_list s' [2; 3].
Proof.
  pose proof (page_free_correct four_pages [3] 2 (vi_alloc _ _ _ _ _ four_pages_inv)
    ltac:(cbn; lia) ltac:(by rewrite list_elem_of_singleton)) as H.
  eexists. split; [reflexivity|]. apply H.
Defined.

Lemma page_free_last_again_witness :
  exists s', page_free 3 four_pages = Ret tt s' /\ ~ chain (pages s') (page_free_list s') [3].
Proof.
  pose proof (page_free_last_again four_pages [] 3 (vi_alloc _ _ _ _ _ four_pages_inv)) as H.
  apply wp_inv in H as ([] & s' & Hs & H). exists s'. split; [exact Hs|apply H].
Defined.

(** What the hardware finds for virtual page [v] of directory [d]: the frame
    and the flag bits. *)
Definition xlate (s : kstate) (d v : Z) : option (Z * Z) :=
  let e := pte (pmem s) d v in if present e then Some (fr e, e mod 4096) else None.

(** [s'] translates as [s] except at page [v] of directory [d]. *)
Definition xlate_update (D : gset Z) (s s' : kstate) (d v : Z) (t : option (Z * Z)) : Prop :=
  forall d' v', d' ∈ D -> 0 <= v' < UVPNS ->
    xlate s' d' v' = if decide ((d', v') = (d, v)) then t else xlate s d' v'.

Lemma one_pte_xlate D s s' d v e :
  one_pte D (pmem s) (pmem s') d v e ->
  xlate_update D s s' d v (if present e then Some (fr e, e mod 4096) else None).
Proof.
  intros [H1 H2] d' v' Hd' Hv'. unfold xlate. case_decide as Hk.
  - injection Hk as -> ->. by rewrite H1.
  - by rewrite H2.
Qed.

Lemma new_entry_xlate p perm : 0 <= perm < 4096 ->
  (if present (new_entry p perm) then Some (fr (new_entry p perm), new_entry p perm mod 4096)
   else None) = Some (p, Z.lor perm PTE_P).
Proof.
  intros H. destruct (new_entry_ok p perm H) as [-> ->].
  rewrite (new_entry_eq p perm H). do 2 f_equal.
  pose proof (lor_small perm PTE_P 12 ltac:(lia) ltac:(lia) ltac:(unfold PTE_P; lia)) as Hl.
  change (2 ^ 12) with 4096 in Hl. rewrite Z.add_comm, Z.mod_add by lia. by apply Z.mod_small.
Qed.

(** C1: [page_insert] either fails with [-E_NO_MEM], having changed nothing,
    and only when no page is free; or it returns 0, virtual page [va] maps
    [pp] with permissions [perm|PTE_P] and no other translation of any address
    space changes, the page directory entry allows [perm], the reference
    counts follow the mappings (so a page replaced for the last time goes back
    to the free list, and re-inserting the same page is counted once), and a
    replaced translation is flushed from the TLB.  The contents of no page in
    use change. *)
Theorem page_insert_correct base s fl D O d p va perm :
  vm_inv base s fl D O -> (forall q, 0 <= base q) -> cpu_ok s ->
  d ∈ D -> 0 <= va < UTOP -> 0 <= perm < 4096 -> mappable s fl D O p ->
  wp (page_insert (kva d) p va perm) (fun r s' =>
    (r = - E_NO_MEM /\ s' = s /\ fl = []) \/
    (r = 0 /\
     (exists fl' O', vm_inv base s' fl' D O') /\
     xlate_update D s s' d (PGNUM va) (Some (p, Z.lor perm PTE_P)) /\
     Z.land (word (pmem s') d (PDX va)) perm = perm /\
     (let old := maps (pmem s) d (PGNUM va) in
      trace s' = (if old is Some _ then flushed s (kva d) va (trace s) else trace s) /\
      (forall q, q ∉ fl -> ref s' q = ref s q - (if decide (old = Some q) then 1 else 0)
                                     + (if decide (q = p) then 1 else 0))) /\
     data_same fl D O (pmem s) (pmem s'))) s.
Proof.
  intros INV Hb Hc Hd Hva Hperm Hp.
  eapply wp_mono; [by apply (page_insert_wp INV Hb Hd Hva Hperm Hc Hp)|].
  intros r s' [(-> & -> & Hfl & _)|(fl' & O' & -> & INV' & Hf & Hone & Hpde & Ht & Hds)]; [by left|].
  right. split; [done|]. split; [by eauto|]. split; [|split; [done|split; [split; [apply Ht|]|done]]].
  - rewrite <- (new_entry_xlate p perm Hperm). by apply one_pte_xlate.
  - intros q Hqf. by apply Ht.
Qed.

Lemma page_insert_correct_witness :
  exists s', page_insert (kva 1) 2 0x801000 6 four_pages = Ret 0 s' /\
    xlate s' 1 2049 = Some (2, 7) /\ ref s' 2 = 1.
Proof.
  pose proof (page_insert_correct boot_refs four_pages [3] {[1]} ∅ 1 2 0x801000 6
    four_pages_inv boot_refs_nonneg four_pages_cpu ltac:(set_solver) ltac:(lia)
    ltac:(lia) four_pages_mappable) as H.
  apply wp_inv in H as (r & s' & Hs & [(_ & _ & [=])|(-> & _ & Hx & _ & (_ & Hr) & _)]).
  exists s'. split; [exact Hs|]. split.
  - rewrite (Hx 1 2049) by (lia || set_solver). by rewrite decide_True.
  - rewrite Hr by (by rewrite list_elem_of_singleton). reflexivity.
Defined.

(** C2: [page_remove] of a mapped page unmaps it and nothing else, drops one
    reference of the page it mapped, frees that page exactly when this was the
    last reference, and flushes the TLB entry. *)
Theorem page_remove_correct base s fl D O d va p :
  vm_inv base s fl D O -> (forall q, 0 <= base q) -> cpu_ok s ->
  d ∈ D -> 0 <= va < UTOP -> maps (pmem s) d (PGNUM va) = Some p ->
  wp (page_remove (kva d) va) (fun _ s' =>
    vm_inv base s' (if ref s p =? 1 then p :: fl else fl) D O /\
    xlate_update D s s' d (PGNUM va) None /\
    trace s' = flushed s (kva d) va (trace s) /\
    (forall q, ref s' q = ref s q - (if decide (q = p) then 1 else 0))) s.
Proof.
  intros INV Hb Hc Hd Hva Hm.
  eapply wp_mono; [by apply (page_remove_wp INV Hb Hd Hva p Hc Hm)|].
  intros [] s' (INV' & Hf & Ht & Hr & Hpm). split_and!; try done.
  destruct (maps_pte_eq INV Hd Hva p Hm) as (_&_&_&_&Ho&_).
  apply (one_pte_xlate _ _ _ _ _ 0). rewrite Hpm. by apply (one_pte_set INV).
Qed.

Lemma page_remove_correct_witness :
  exists s1 s2, page_insert (kva 1) 2 0x801000 7 four_pages = Ret 0 s1 /\
    maps (pmem s1) 1 2049 = Some 2 /\
    page_remove (kva 1) 0x801000 s1 = Ret tt s2 /\ xlate s2 1 2049 = None /\ ref s2 2 = 0.
Proof.
  pose proof (page_insert_wp four_pages_inv boot_refs_nonneg (d := 1) (va := 0x801000) (p := 2)
    (perm := 7) ltac:(set_solver) ltac:(lia) ltac:(lia) four_pages_cpu four_pages_mappable) as H.
  apply wp_inv in H as (r & s1 & Hs1 & [(_&_&[=]&_)|(fl' & O' & -> & INV1 & Hf & Hone & _ & (_ & Hq) & _)]).
  assert (maps (pmem s1) 1 2049 = Some 2) as Hm.
  { change 2049 with (PGNUM 0x801000). unfold maps. destruct Hone as [-> _]. by destruct (new_entry_ok 2 7) as [-> ->]. }
  pose proof (page_remove_correct boot_refs s1 fl' {[1]} O' 1 0x801000 2 INV1 boot_refs_nonneg
    (cpu_ok_frame _ _ Hf four_pages_cpu) ltac:(set_solver) ltac:(lia) Hm) as H2.
  apply wp_inv in H2 as ([] & s2 & Hs2 & _ & Hx & _ & Hr).
  exists s1, s2. split_and!; [done..| |].
  - rewrite (Hx 1 2049) by (lia || set_solver). by rewrite decide_True.
  - rewrite Hr, decide_True by done. destruct (Hq 2) as (_ & Hr2 & _); [by rewrite list_elem_of_singleton|]. rewrite Hr2. reflexivity.
Defined.

(** A machine as [mem_init] hands it to [page_init], with three pages. *)
Definition three_pages : kstate :=
  put npages_basemem 2
    (put pages {[ 0 := mkPageInfo None 0; 1 := mkPageInfo None 0; 2 := mkPageInfo None 0 ]} (blank 3)).

Lemma page_init_correct_witness :
  exists s', page_init 0xf0200000 three_pages = Ret tt s' /\ free_list s' [2; 1] /\ ref s' 0 = 1.
Proof.
  pose proof (page_init_correct 0xf0200000 three_pages) as H.
  assert (forall p, 0 <= p < 3 -> pages three_pages !! p = Some (mkPageInfo None 0)) as Hz.
  { intros p Hp. assert (p = 0 \/ p = 1 \/ p = 2) as [->|[->| ->]] by lia; reflexivity. }
  specialize (H ltac:(done) ltac:(done)). apply wp_inv in H; [|intros p; split|exact Hz].
  2:{ intros [pi Hpi]. cbn in Hpi. rewrite !lookup_insert_Some, lookup_singleton_Some in Hpi.
      cbn. lia. }
  2:{ intros Hp. rewrite (Hz p Hp). by eexists. }
  destruct H as ([] & s' & Hs & Hfl & Hr & _). exists s'. split; [done|].
  split; [exact Hfl|]. by rewrite Hr.
Defined.

(** ** [user_mem_check] *)

(** The page directory entries of the kernel part point into RAM. *)
Definition kernel_pdes_ok (m : physmem) (np d : Z) : Prop :=
  forall i, UPDES <= i < 1024 -> present (word m d i) = true -> fr (word m d i) < np.

(** May the user access virtual page [v] with [perm]? *)
Definition user_page_ok (m : physmem) (d perm v : Z) : bool :=
  (v * 4096 <? ULIM) && present (pte m d v) && (Z.land (pte m d v) perm =? perm).

(** The first page of [vs] that is not. *)
Definition first_bad (m : physmem) (d perm : Z) (vs : list Z) : option Z :=
  List.find (fun v => negb (user_page_ok m d perm v)) vs.

Section UserMem.
Context {base : Z -> Z} {s : kstate} {fl : list Z} {D : gset Z} {O : gmap Z (Z * Z)}.
Hypothesis INV : vm_inv base s fl D O.
Context {d : Z}.
Hypothesis Hd : d ∈ D.
Hypothesis Hk : kernel_pdes_ok (pmem s) (npages s) d.

(** Reading the entry of any page, user or kernel. *)
Lemma walk_read v :
  0 <= v < 2 ^ 20 ->
  (exists a, pgdir_walk (kva d) (v * 4096) false s = Ret a s /\ a <> NULL /\
     kload a s = Ret (pte (pmem s) d v) s) \/
  (pgdir_walk (kva d) (v * 4096) false s = Ret NULL s /\ pte (pmem s) d v = 0).
Proof.
  intros Hv. pose proof (vi_vm _ _ _ _ _ INV) as Hok. pose proof (vi_np INV) as Hnp.
  destruct (vo_pd _ _ _ _ Hok _ Hd) as [Hdb _].
  assert (PDX (v * 4096) = v / 1024) as HD by (rewrite PDX_div; zlia).
  assert (PTX (v * 4096) = v mod 1024) as HT by (rewrite PTX_div; zlia).
  assert (0 <= v / 1024 < 1024 /\ 0 <= v mod 1024 < 1024) as [Hi Hj] by zlia.
  unfold pgdir_walk. rewrite HD, HT. unfold pte.
  pose proof (vo_word _ _ _ _ Hok d (v / 1024)) as Hw.
  destruct (present (word (pmem s) d (v / 1024))) eqn:Hp.
  - left. assert (0 <= fr (word (pmem s) d (v / 1024)) < npages s) as Hf.
    { destruct (Z_lt_dec (v / 1024) UPDES).
      - pose proof (vo_pde _ _ _ _ Hok d (v / 1024) Hd ltac:(lia) Hp) as Ho.
        apply (vo_own _ _ _ _ Hok _ _ _ Ho).
      - split; [unfold fr; zlia|]. apply Hk; [lia|done]. }
    exists (kva (fr (word (pmem s) d (v / 1024))) + 4 * (v mod 1024)). split; [|split].
    + erewrite bind_Ret by (apply kload_frame; lia). unfold present in Hp. rewrite Hp.
      rewrite PTE_ADDR_fr by done. by erewrite bind_Ret by (apply KADDR_frame; lia).
    + unfold kva, NULL. lia.
    + apply kload_frame; lia.
  - right. split; [|done]. erewrite bind_Ret by (apply kload_frame; lia).
    unfold present in Hp. by rewrite Hp.
Qed.

Lemma user_mem_check_loop_eq n b va perm :
  0 <= b -> b + Z.of_nat n <= 2 ^ 20 ->
  user_mem_check_loop n (kva d) va (b * 4096) perm s =
    match first_bad (pmem s) d perm (seqZ b (Z.of_nat n)) with
    | None => Ret 0 s
    | Some v => Ret (- E_FAULT) (put user_mem_check_addr (if v * 4096 <? va then va else v * 4096) s)
    end.
Proof.
  revert b. induction n as [|n IH]; intros b Hb Hn; [done|].
  rewrite (seqZ_cons b (Z.of_nat (S n))) by lia.
  replace (Z.pred (Z.of_nat (S n))) with (Z.of_nat n) by lia. cbn [first_bad List.find].
  unfold user_page_ok. cbn [user_mem_check_loop].
  destruct (walk_read b ltac:(lia)) as [(a & Hw & Ha & Hl)|[Hw He]]; erewrite bind_Ret by exact Hw.
  - destruct (Z.eqb_spec a NULL); [done|]. cbn [orb].
    destruct (Z.leb_spec ULIM (b * 4096)), (Z.ltb_spec (b * 4096) ULIM); try lia; [done|].
    cbn [andb]. erewrite bind_Ret by exact Hl. fold (present (pte (pmem s) d b)).
    destruct (present (pte (pmem s) d b)); [|done]. cbn [andb negb orb].
    destruct (Z.land (pte (pmem s) d b) perm =? perm); [|done]. cbn [negb].
    change PGSIZE with 4096. replace (b * 4096 + 4096) with ((b + 1) * 4096) by lia.
    rewrite IH by lia. by rewrite Z.add_1_r.
  - rewrite Z.eqb_refl. cbn [orb]. rewrite He, present_0, andb_false_r. done.
Qed.
End UserMem.

Lemma user_mem_check_eq base s fl D O e v d va len perm :
  vm_inv base s fl D O -> d ∈ D -> kernel_pdes_ok (pmem s) (npages s) d ->
  envs s !! e = Some v -> env_pgdir v = kva d ->
  0 <= va -> 0 <= len -> va + len <= 2 ^ 32 - 4096 ->
  user_mem_check e va len perm s =
    let first := va / 4096 in
    let last := (va + len + 4095) / 4096 in
    match first_bad (pmem s) d perm (seqZ first (last - first)) with
    | None => Ret 0 s
    | Some bad => Ret (- E_FAULT) (put user_mem_check_addr (MAX va (bad * 4096)) s)
    end.
Proof.
  intros INV Hd Hk He Hpg Hva Hlen Hsum. unfold user_mem_check.
  erewrite bind_Ret by (unfold get_env; by rewrite He). rewrite Hpg.
  rewrite ROUNDDOWN_spec, u32_id, ROUNDUP_spec by lia.
  destruct (Z.leb_spec (va + len) (2 ^ 32 - 4096)); [|lia]. cbn zeta.
  change PGSIZE with 4096. rewrite <- Z.mul_sub_distr_r, Z.div_mul by lia.
  rewrite (user_mem_check_loop_eq INV Hd Hk) by zlia.
  rewrite Z2Nat.id by zlia.
  destruct (first_bad _ _ _ _) as [bad|]; [|done]. do 2 f_equal. unfold MAX.
  destruct (Z.ltb_spec (bad * 4096) va), (Z.geb_spec va (bad * 4096)); lia.
Qed.

(** C27: when the range does not reach the last page of the address space,
    [user_mem_check] returns 0 exactly when every page of the range is below
    [ULIM], present, and carries all of [perm]; otherwise it returns [-E_FAULT]
    and records the first erroneous address.  It changes nothing else. *)
Theorem user_mem_check_correct base s fl D O e v d va len perm :
  vm_inv base s fl D O -> d ∈ D -> kernel_pdes_ok (pmem s) (npages s) d ->
  envs s !! e = Some v -> env_pgdir v = kva d ->
  0 <= va -> 0 <= len -> va + len <= 2 ^ 32 - 4096 ->
  user_mem_check e va len perm s =
    let first := va / 4096 in
    let last := (va + len + 4095) / 4096 in
    match first_bad (pmem s) d perm (seqZ first (last - first)) with
    | None => Ret 0 s
    | Some bad => Ret (- E_FAULT) (put user_mem_check_addr (MAX va (bad * 4096)) s)
    end.
Proof. apply user_mem_check_eq. Qed.

(** [four_pages] with one environment, whose directory is in page 1. *)
Definition blank_env : Env :=
  mkEnv blank_tf None 0x1000 0 ENV_TYPE_USER ENV_RUNNABLE 0 0 (kva 1) 0 false 0 0 0 0.

Definition four_pages_env : kstate := put envs {[ 0 := blank_env ]} four_pages.

Lemma four_pages_env_inv : vm_inv boot_refs four_pages_env [3] {[1]} ∅.
Proof. by apply (vm_inv_proj boot_refs four_pages); [..|apply four_pages_inv]. Qed.

Lemma four_pages_kernel : kernel_pdes_ok (pmem four_pages_env) 4 1.
Proof. intros i _. unfold word. cbn. by rewrite lookup_empty. Qed.

Lemma user_mem_check_correct_witness :
  user_mem_check 0 0x801004 8 PTE_U four_pages_env =
    Ret (- E_FAULT) (put user_mem_check_addr 0x801004 four_pages_env).
Proof.
  rewrite (user_mem_check_correct boot_refs four_pages_env [3] {[1]} ∅ 0 blank_env 1 0x801004 8 PTE_U
    four_pages_env_inv ltac:(set_solver) four_pages_kernel eq_refl eq_refl
    ltac:(lia) ltac:(lia) ltac:(lia)).
  reflexivity.
Defined.

(** When [va + len] is in the last page of the address space, or just past
    its end, the end of the range rounds up to 0 and the loop does not run:
    [user_mem_check] accepts the range without looking at a single page, even
    when it is kernel memory. *)
Theorem user_mem_check_wraps e v va len perm s :
  envs s !! e = Some v -> 0 <= va -> 2 ^ 32 - 4096 < va + len <= 2 ^ 32 ->
  user_mem_check e va len perm s = Ret 0 s.
Proof.
  intros He Hva Hsum. unfold user_mem_check.
  erewrite bind_Ret by (unfold get_env; by rewrite He).
  assert (ROUNDUP (u32 (va + len)) PGSIZE = 0) as ->.
  { destruct (decide (va + len = 2 ^ 32)) as [->|]; [reflexivity|].
    rewrite u32_id, ROUNDUP_spec by lia. destruct (Z.leb_spec (va + len) (2 ^ 32 - 4096)); lia. }
  assert (0 <= ROUNDDOWN va PGSIZE) as Hb.
  { unfold ROUNDDOWN. change (u32 PGSIZE) with 4096. pose proof (u32_range va). zlia. }
  assert (Z.to_nat ((0 - ROUNDDOWN va PGSIZE) / PGSIZE) = O) as ->; [|done].
  change PGSIZE with 4096 in *. zlia.
Qed.

Lemma user_mem_check_wraps_witness :
  user_mem_check 0 KERNBASE 0x10000000 (Z.lor PTE_U PTE_W) four_pages_env = Ret 0 four_pages_env.
Proof.
  apply (user_mem_check_wraps 0 blank_env); [reflexivity|lia|lia].
Defined.

(** [page_remove] of a page that is not mapped, in a part of the address
    space that has a page table, does not do nothing: it drops a reference of
    physical page 0, and puts page 0 on the free list if that was its last. *)
Theorem page_remove_unmapped base s fl D O d va :
  vm_inv base s fl D O -> cpu_ok s -> d ∈ D -> 0 <= va < UTOP ->
  present (word (pmem s) d (PDX va)) = true ->
  word (pmem s) (fr (word (pmem s) d (PDX va))) (PTX va) = 0 ->
  0 ∉ fl -> 1 <= ref s 0 ->
  wp (page_remove (kva d) va) (fun _ s' =>
    ref s' 0 = ref s 0 - 1 /\ free_list s' (if ref s 0 =? 1 then 0 :: fl else fl)) s.
Proof.
  intros INV Hc Hd Hva Hpde Hz H0 Hr. pose proof (vi_np INV) as Hnp.
  pose proof (PDX_vpn va Hva) as (_&_&_&Hi&Ht). pose proof (vi_vm _ _ _ _ _ INV) as Hok.
  destruct (vo_own _ _ _ _ Hok _ _ _ (vo_pde _ _ _ _ Hok _ _ Hd Hi Hpde)) as (Hf & _).
  set (f := fr (word (pmem s) d (PDX va))) in *.
  assert (page_lookup (kva d) va s = Ret (Some (0, kva f + 4 * PTX va)) s) as Hl.
  { unfold page_lookup. erewrite bind_Ret by (by apply (walk_present INV Hd Hva)). fold f.
    destruct (Z.eqb_spec (kva f + 4 * PTX va) NULL) as [H|_]; [unfold kva, NULL in H; lia|].
    erewrite bind_Ret by (apply kload_frame; lia). rewrite Hz. change (PTE_ADDR 0) with (0 * 4096).
    by erewrite bind_Ret by (apply pa2page_frame; lia). }
  unfold page_remove. apply wp_bind. eapply wp_Ret; [exact Hl|].
  apply wp_bind. eapply wp_mono; [apply (page_decref_wp _ _ _ _ _ 0 INV); done || lia|].
  intros [] s1 (Hm1 & Hf1 & _ & Hr1 & INV1). pose proof (vf_npages _ _ Hf1) as Hn1.
  apply wp_bind. eapply wp_Ret; [apply kstore_frame; lia|].
  eapply wp_Ret.
  { apply tlb_invalidate_eq. eapply (cpu_ok_frame s); [|done]. etrans; [done|]. auto with vm. }
  split.
  - change (ref s1 0 = ref s 0 - 1). by rewrite Hr1, decide_True.
  - exact (vi_alloc _ _ _ _ _ INV1).
Qed.

Lemma page_remove_unmapped_witness :
  exists s1 s2, pgdir_walk (kva 1) 0x801000 true four_pages = Ret (kva 3 + 4) s1 /\
    xlate s1 1 2049 = None /\
    page_remove (kva 1) 0x801000 s1 = Ret tt s2 /\ free_list s2 [0].
Proof.
  destruct (walk_create four_pages_inv boot_refs_nonneg (d := 1) (va := 0x801000)
    ltac:(set_solver) ltac:(lia) 3 [] (mkPageInfo None 0) eq_refl eq_refl eq_refl)
    as (s1 & Hs1 & Hm & Hpg & Hh & Ht & Hf).
  pose proof (vm_inv_new_pt four_pages_inv 3 (mkPageInfo None 0) [] 1 2 7 eq_refl
    ltac:(done) eq_refl ltac:(set_solver) ltac:(lia) eq_refl ltac:(lia) eq_refl) as INV.
  assert (vm_inv boot_refs s1 [] {[1]} (<[3 := (1, 2)]> ∅)) as INV1.
  { eapply vm_inv_proj; [..|exact INV]; [exact Hm|exact Hpg|exact Hh|apply (vf_npages _ _ Hf)]. }
  pose proof (page_remove_unmapped boot_refs s1 [] {[1]} (<[3 := (1, 2)]> ∅) 1 0x801000 INV1
    (cpu_ok_frame _ _ Hf four_pages_cpu) ltac:(set_solver) ltac:(lia)) as H.
  unfold ref in H. rewrite Hm, Hpg in H.
  specialize (H eq_refl eq_refl ltac:(by intros ?%elem_of_nil) ltac:(vm_compute; discriminate)).
  apply wp_inv in H as ([] & s2 & Hs2 & _ & Hfl). exists s1, s2.
  split; [exact Hs1|]. split; [|split; [exact Hs2|exact Hfl]].
  unfold xlate. by rewrite Hm.
Defined.
