(* ===== verification/VmDir.v ===== *)
(** * Page directories and page tables that come and go

    The ledger steps of [VmInv] for whole tables: a free page becomes a page
    directory ([env_setup_vm]), an emptied page table leaves its directory, and
    an emptied directory leaves the address spaces ([env_free]). *)

From Stdlib Require Import Lia ZArith ZifyClasses ZifyInst ZifyBool.
From stdpp Require Import base gmap list strings numbers.
From S2P Require Import Prelude Cmonad Mmu Console State Pmap PageList Vm VmInv PmapLem VmLem.

(** ** Memory with a new directory *)

(** The user part of the directory in frame [f] is empty. *)
Definition user_empty (m : physmem) (f : Z) : Prop :=
  forall i, 0 <= i < UPDES -> present (word m f i) = false.

Lemma user_empty_pte m d v : user_empty m d -> 0 <= v < UVPNS -> pte m d v = 0.
Proof. intros H Hv. unfold pte. rewrite H; [done|]. by apply vpn_split. Qed.

Lemma user_empty_maps m d v : user_empty m d -> 0 <= v < UVPNS -> maps m d v = None.
Proof. intros H Hv. unfold maps. by rewrite user_empty_pte. Qed.

Lemma user_empty_nmaps m d p : user_empty m d -> nmaps m {[d]} p = 0.
Proof.
  intros H. apply nmaps_none. intros d' v Hd Hv. apply elem_of_singleton in Hd as ->.
  by rewrite user_empty_maps.
Qed.

(** Words that differ only in frame [f]. *)
Definition outside (f : Z) (m m' : physmem) : Prop :=
  forall f' i, f' <> f -> word m' f' i = word m f' i.

Section NewDir.
Context {m m' : physmem} {np : Z} {D : gset Z} {O : gmap Z (Z * Z)} {f : Z}.
Hypothesis OK : vm_ok m np D O.
Hypothesis Hf : 0 <= f < np.
Hypothesis HfD : f ∉ D.
Hypothesis HfO : O !! f = None.
Hypothesis Hout : outside f m m'.

Lemma pte_outside d v : d ∈ D -> 0 <= v < UVPNS -> pte m' d v = pte m d v.
Proof.
  intros Hd Hv. destruct (vpn_split _ Hv) as [Hi _]. unfold pte.
  assert (d <> f) by (intros ->; done). rewrite Hout by done.
  destruct (present (word m d (v / 1024))) eqn:Hp; [|done].
  pose proof (vo_pde _ _ _ _ OK _ _ Hd Hi Hp) as Ho. apply Hout. congruence.
Qed.

Hypothesis Hnm : forall d v, d ∈ D -> 0 <= v < UVPNS -> maps m d v <> Some f.
Hypothesis Hempty : user_empty m' f.
Hypothesis Hrange : forall i, 0 <= word m' f i < 2 ^ 32.

Lemma vm_ok_new_dir : vm_ok m' np ({[f]} ∪ D) O.
Proof.
  pose proof OK as [Hw Hpd Hpde Hown Hmap]. constructor.
  - intros f' i. destruct (decide (f' = f)) as [->|]; [done|]. rewrite Hout by done. apply Hw.
  - intros d [->%elem_of_singleton|Hd]%elem_of_union; auto.
  - intros d i [->%elem_of_singleton|Hd]%elem_of_union Hi Hp.
    + by rewrite Hempty in Hp.
    + rewrite Hout in Hp |- * by (intros ->; done). by apply Hpde.
  - intros f' d i Hf'. destruct (Hown _ _ _ Hf') as (H1 & H2 & H3 & H4 & H5).
    rewrite Hout by (intros ->; done). split_and!; try done; try lia. by apply elem_of_union_r.
  - intros d v p [->%elem_of_singleton|Hd]%elem_of_union Hv.
    + by rewrite user_empty_maps.
    + rewrite (maps_pte m m') by (by apply pte_outside). intros Hm.
      destruct (Hmap _ _ _ Hd Hv Hm) as (H1 & H2 & H3). split_and!; try done; try lia.
      apply not_elem_of_union. split; [|done]. intros ->%elem_of_singleton. by eapply Hnm.
Qed.

Lemma nmaps_new_dir p : nmaps m' ({[f]} ∪ D) p = nmaps m D p.
Proof.
  rewrite nmaps_add, user_empty_nmaps by done. rewrite Z.add_0_l. apply nmaps_ext.
  intros d v Hd Hv. apply maps_pte. by apply pte_outside.
Qed.
End NewDir.

Lemma vm_inv_new_dir base s fl fl' D O f pi m' :
  vm_inv base s fl D O -> fl = f :: fl' -> 0 <= base f -> pages s !! f = Some pi ->
  outside f (pmem s) m' -> user_empty m' f -> (forall i, 0 <= word m' f i < 2 ^ 32) ->
  vm_inv base
    (put pmem m' (put pages (<[f := mkPageInfo None 1]> (pages s))
      (put page_free_list (pp_link pi) s))) fl' ({[f]} ∪ D) O.
Proof.
  intros INV -> Hb Hpi Hout Hempty Hrange.
  destruct (free_unused INV f) as (Hf & Hr0 & HfD & HfO & Hnm); [by left|done|].
  pose proof (ao_NoDup (vi_alloc _ _ _ _ _ INV)) as [Hnin _]%list.NoDup_cons.
  destruct INV as [Ha Hv Href]. constructor.
  - unfold free_list in *. kred.
    destruct (ao_chain _ _ _ _ Ha) as [Hhead _]. rewrite Hhead in Ha.
    pose proof (alloc_ok_pop _ _ _ _ _ Ha Hpi) as Ha'.
    pose proof (alloc_ok_ref Ha' f (mkPageInfo None (pp_ref pi)) 1 (lookup_insert_eq _ _ _) Hnin) as Ha''.
    rewrite insert_insert_eq in Ha''. apply Ha''. lia.
  - kred. by eapply vm_ok_new_dir.
  - intros p Hp. kred. specialize (Href p Hp).
    rewrite (nmaps_new_dir (m := pmem s)) by done. unfold ref in *. kred.
    destruct (decide (p = f)) as [->|Hne].
    + rewrite lookup_insert_eq. cbn [from_option pp_ref].
      rewrite (bool_decide_eq_true_2 (f ∈ {[f]} ∪ D)) by set_solver.
      rewrite (bool_decide_eq_false_2 (f ∈ D)) in Href by done.
      rewrite Hr0 in Href. cbn [b2z] in *. lia.
    + rewrite lookup_insert_ne by done. rewrite Href. f_equal. f_equal.
      apply bool_decide_ext. set_solver.
Qed.

(** ** A page table leaves its directory *)

Section ClearPde.
Context {m : physmem} {np : Z} {D : gset Z} {O : gmap Z (Z * Z)} {f d i : Z}.
Hypothesis OK : vm_ok m np D O.
Hypothesis Ho : O !! f = Some (d, i).
Hypothesis Hempty : forall j, 0 <= j < 1024 -> present (word m f j) = false.

Lemma clear_pde_word d' x :
  word (set_word d i 0 m) d' x = if decide (d = d' /\ i = x) then 0 else word m d' x.
Proof. apply word_set. Qed.

Lemma clear_pde_maps d' v :
  d' ∈ D -> 0 <= v < UVPNS -> maps (set_word d i 0 m) d' v = maps m d' v.
Proof.
  intros Hd' Hv. destruct (vpn_split _ Hv) as [Hi Hj]. unfold maps, pte.
  destruct (vo_own _ _ _ _ OK _ _ _ Ho) as (_ & Hd & _ & Hp & Hfr).
  rewrite clear_pde_word. case_decide as Hk.
  - destruct Hk as [<- <-]. rewrite Hp, Hfr, Hempty by done. by rewrite present_0.
  - destruct (present (word m d' (v / 1024))) eqn:Hp'; [|done].
    pose proof (vo_pde _ _ _ _ OK _ _ Hd' Hi Hp') as Ho'.
    rewrite clear_pde_word, decide_False; [done|]. intros [-> _].
    destruct (vo_pd _ _ _ _ OK _ Hd) as [_ HO]. congruence.
Qed.

Lemma vm_ok_clear_pde : vm_ok (set_word d i 0 m) np D (delete f O).
Proof.
  pose proof OK as [Hw Hpd Hpde Hown Hmap].
  destruct (Hown _ _ _ Ho) as (Hf & Hd & Hi & Hp & Hfr). constructor.
  - by apply set_word_range.
  - intros d' Hd'. destruct (Hpd _ Hd') as [? HO]. split; [done|].
    rewrite lookup_delete_ne; [done|]. congruence.
  - intros d' x Hd' Hx. rewrite clear_pde_word. case_decide as Hk; [by rewrite present_0|].
    intros Hpx. pose proof (Hpde _ _ Hd' Hx Hpx) as Ho'. rewrite lookup_delete_ne; [done|].
    intros He. rewrite <- He, Ho in Ho'. naive_solver.
  - intros f' d' x [Hne Hf']%lookup_delete_Some. pose proof (Hown _ _ _ Hf') as H.
    rewrite clear_pde_word, decide_False; [done|]. intros [-> ->].
    destruct H as (_&_&_&_&H). congruence.
  - intros d' v p Hd' Hv. rewrite clear_pde_maps by done. intros Hm.
    destruct (Hmap _ _ _ Hd' Hv Hm) as (? & ? & ?). split_and!; try done; try lia.
    rewrite lookup_delete_None. auto.
Qed.
End ClearPde.

Lemma vm_inv_clear_pde base s fl D O f d i :
  vm_inv base s fl D O -> O !! f = Some (d, i) ->
  (forall j, 0 <= j < 1024 -> present (word (pmem s) f j) = false) ->
  vm_inv (fun q => base q + (if decide (q = f) then 1 else 0))
    (upd pmem (set_word d i 0) s) fl D (delete f O).
Proof.
  intros [Ha Hv Href] Ho Hempty. constructor; [done| |].
  - kred. by apply (vm_ok_clear_pde Hv Ho).
  - intros q Hq. kred. specialize (Href q Hq). unfold ref in *. kred.
    rewrite Href, (nmaps_ext (pmem s) (set_word d i 0 (pmem s))) by (intros; by apply (clear_pde_maps Hv Ho)).
    destruct (decide (q = f)) as [->|Hne].
    + rewrite Ho, lookup_delete_eq. cbn. lia.
    + rewrite lookup_delete_ne by done. lia.
Qed.

(** ** A directory leaves *)

Lemma vm_ok_drop_dir m np D O d :
  vm_ok m np D O -> user_empty m d -> vm_ok m np (D ∖ {[d]}) O.
Proof.
  intros [Hw Hpd Hpde Hown Hmap] Hempty. constructor.
  - done.
  - intros d' [Hd' _]%elem_of_difference. by apply Hpd.
  - intros d' i [Hd' _]%elem_of_difference. by apply Hpde.
  - intros f d' i Hf. destruct (Hown _ _ _ Hf) as (H1 & H2 & H3 & H4 & H5).
    split_and!; try done; try lia. apply elem_of_difference. split; [done|].
    intros ->%elem_of_singleton. by rewrite Hempty in H4.
  - intros d' v p [Hd' _]%elem_of_difference Hv Hm.
    destruct (Hmap _ _ _ Hd' Hv Hm) as (H1 & H2 & H3). split_and!; try done; try lia.
    by intros [? _]%elem_of_difference.
Qed.

Lemma vm_inv_drop_dir base s fl D O d :
  vm_inv base s fl D O -> d ∈ D -> user_empty (pmem s) d ->
  vm_inv (fun q => base q + (if decide (q = d) then 1 else 0)) s fl (D ∖ {[d]}) O.
Proof.
  intros [Ha Hv Href] Hd Hempty. constructor; [done|by apply vm_ok_drop_dir|].
  intros q Hq. rewrite (Href q Hq).
  assert (nmaps (pmem s) D q = nmaps (pmem s) (D ∖ {[d]}) q) as ->.
  { replace D with ({[d]} ∪ D ∖ {[d]}) at 1.
    2:{ apply leibniz_equiv. intros x. destruct (decide (x = d)); set_solver. }
    rewrite nmaps_add, user_empty_nmaps by (done || set_solver). lia. }
  destruct (decide (q = d)) as [->|Hne].
  - rewrite (bool_decide_eq_true_2 (d ∈ D)) by done.
    rewrite (bool_decide_eq_false_2 (d ∈ D ∖ {[d]})) by set_solver. cbn [b2z]. lia.
  - rewrite (bool_decide_ext (q ∈ D ∖ {[d]}) (q ∈ D)) by set_solver. lia.
Qed.

(** ** Data *)

(** Writing into a page that is no table keeps the invariant, whether or not it
    is mapped. *)
Lemma vm_inv_data base s fl D O f m' :
  vm_inv base s fl D O -> f ∉ D -> O !! f = None -> outside f (pmem s) m' ->
  (forall i, 0 <= word m' f i < 2 ^ 32) -> vm_inv base (put pmem m' s) fl D O.
Proof.
  intros [Ha Hv Hr] HfD HfO Hout Hw. pose proof Hv as [Hw0 Hpd Hpde Hown Hmap].
  assert (same_ptes D (pmem s) m') as Hs by (intros d v Hd Hv'; by apply (pte_outside Hv HfD HfO)).
  constructor; [done| |].
  - kred. constructor; [| done | | | ].
    + intros f' i. destruct (decide (f' = f)) as [->|]; [done|]. rewrite Hout by done. apply Hw0.
    + intros d i Hd Hi. rewrite Hout by (intros ->; done). by apply Hpde.
    + intros f' d i Hf'. destruct (Hown _ _ _ Hf') as (H1 & H2 & H3 & H4 & H5).
      rewrite Hout by (intros ->; done). split_and!; done || lia.
    + intros d v p Hd Hv'. rewrite (maps_pte (pmem s) m') by (by apply Hs). by apply Hmap.
  - intros p Hp. kred. rewrite (nmaps_ext (pmem s) m').
    + unfold ref in *. kred. by apply Hr.
    + intros d v Hd Hv'. apply maps_pte. by apply Hs.
Qed.

(** [page_alloc] over the invariant: the page is not in use anywhere. *)
Lemma page_alloc_wp base s fl D O flags :
  vm_inv base s fl D O -> (forall q, 0 <= base q) ->
  wp (page_alloc flags) (fun r s' =>
    match fl with
    | [] => r = None /\ s' = s
    | p :: fl' => r = Some p /\ vm_inv base s' fl' D O /\ mappable s' fl' D O p /\ ref s' p = 0 /\
        vm_frame s s' /\ trace s' = trace s /\
        pmem s' = (if tst flags ALLOC_ZERO then <[p := ∅]> (pmem s) else pmem s) /\
        (forall q, q <> p -> ref s' q = ref s q) /\ same_ptes D (pmem s) (pmem s') /\
        (forall d v, d ∈ D -> 0 <= v < UVPNS -> maps (pmem s) d v <> Some p)
    end) s.
Proof.
  intros INV Hb. pose proof (vi_np INV) as Hnp. pose proof (vi_alloc _ _ _ _ _ INV) as Ha.
  pose proof (ao_chain _ _ _ _ Ha) as Hch. destruct fl as [|p fl'].
  { eapply wp_Ret; [by apply page_alloc_nil|]. done. }
  destruct (free_unused INV p) as (Hp & Hr0 & HpD & HpO & Hnm); [by left|done|].
  destruct Hch as [Hh (pi & Hpi & Hch)]. rewrite (ref_lookup s p pi Hpi) in Hr0.
  eapply wp_Ret; [apply (page_alloc_cons flags s p pi); done || lia|].
  pose proof (ao_NoDup Ha) as [Hnin _]%list.NoDup_cons.
  set (m' := if tst flags ALLOC_ZERO then <[p := ∅]> (pmem s) else pmem s).
  assert (outside p (pmem s) m') as Hout.
  { intros f i Hf. unfold m'. destruct (tst flags ALLOC_ZERO); [|done].
    by rewrite word_zero_page, decide_False. }
  assert (forall q, ref (put pmem m' (put pages (<[p:=put pp_link None pi]> (pages s))
     (put page_free_list (pp_link pi) s))) q = ref s q) as Href.
  { intros q. unfold ref. kred. destruct (decide (q = p)) as [->|].
    - rewrite lookup_insert_eq, Hpi. done.
    - by rewrite lookup_insert_ne. }
  assert (vm_inv base (put pages (<[p:=put pp_link None pi]> (pages s))
     (put page_free_list (pp_link pi) s)) fl' D O) as INV1.
  { pose proof INV as [_ Hv Hr]. constructor; [|done|].
    - unfold free_list in *. kred. rewrite Hh in Ha. by apply (alloc_ok_pop _ _ _ _ _ Ha).
    - intros q Hq. rewrite <- Hr by done. rewrite <- Href. done. }
  split; [done|]. split.
  { apply (vm_inv_data _ _ _ _ _ p _ INV1); kred; try done. intros i. unfold m'.
    destruct (tst flags ALLOC_ZERO).
    - rewrite word_zero_page, decide_True by done. lia.
    - apply (vo_word _ _ _ _ (vi_vm _ _ _ _ _ INV)). }
  assert (ref s p = 0) as Hr0' by (by rewrite (ref_lookup s p pi)).
  split; [constructor; kred; rewrite ?Href; done || lia|].
  rewrite Href. split_and!; try done; auto with vm.
  intros d v Hd Hv. kred. by apply (pte_outside (vi_vm _ _ _ _ _ INV) HpD HpO).
Qed.
