(* ===== verification/MemInit.v ===== *)
(** * Bringing memory up: [mem_init] of [kern/pmap.c] and its self-checks

    [mem_init] builds the kernel's page directory, the [pages] and [envs] arrays
    and the kernel's mappings, and runs checks on the way that panic when the
    allocator or the page tables misbehave.  Each [assert] is the panic with the
    text of its condition, without its casts. *)

From Stdlib Require Import Lia ZArith ZifyClasses ZifyInst ZifyBool.
From stdpp Require Import base gmap list strings numbers.
From S2P Require Import Prelude Cmonad Mmu Printfmt Console State Spinlock Umem Pmap.

(** ** Helpers

    [memset(va, b, n)] on word-aligned kernel memory whose size is a multiple of
    four; the physical address of a [PageInfo] index is [page2pa]. *)
Definition kmemset (va b n : Z) : K unit :=
  for_loop (Z.to_nat (n / 4)) va 4 (fun a => kstore a (b * 0x01010101)).

(** [for (pp = head; pp; pp = pp->pp_link) body]: a list without a cycle in an
    array of [npages] elements ends within [npages] rounds. *)
Fixpoint for_pages {A} (n : nat) (pp : option Z) (acc : A) (body : A -> Z -> K A) : K A :=
  match pp with
  | None => mret acc
  | Some p =>
      match n with
      | O => undef "the free list has a cycle"
      | S n' =>
          acc ← body acc p;
          pi ← get_page p;
          for_pages n' (pp_link pi) acc body
      end
  end.

Definition for_free {A} (acc : A) (body : A -> Z -> K A) : K A :=
  np ← gets npages; head ← gets page_free_list;
  for_pages (Z.to_nat np) head acc body.

(** [assert((pp = page_alloc(0)))]. *)
Definition must_alloc (flags : Z) (msg : string) : K Z :=
  r ← page_alloc flags;
  match r with Some p => mret p | None => panic msg end.

(** [assert(!page_alloc(0))]. *)
Definition must_not_alloc : K unit :=
  r ← page_alloc 0; assert (bool_decide (r = None)) "assertion failed: !page_alloc(0)".

(** [assert(pp0)] to [assert(pp2 && pp2 != pp1 && pp2 != pp0)] for pages that
    are not null. *)
Definition distinct3 (pp0 pp1 pp2 : Z) : K unit :=
  assert (negb (pp1 =? pp0)) "assertion failed: pp1 && pp1 != pp0" ;;
  assert (negb (pp2 =? pp1) && negb (pp2 =? pp0)) "assertion failed: pp2 && pp2 != pp1 && pp2 != pp0".

Definition page_ref (p : Z) : K Z := pi ← get_page p; mret (pp_ref pi).

Definition assert_eq (x y : Z) (msg : string) : K unit := assert (x =? y) ("assertion failed: " +:+ msg).

(** ** [check_page_free_list] *)

(** [*tp = v], where [tp] points to the local variable [hd] or to a page's link;
    the result is [hd] afterwards. *)
Definition tail_store (tp : option Z) (v hd : option Z) : K (option Z) :=
  match tp with
  | None => mret v
  | Some p => upd_page p (put pp_link v) ;; mret hd
  end.

(** The locals [pp1], [pp2], [tp[0]] and [tp[1]]. *)
Record split := mkSplit {
  sp_pp1 : option Z; sp_pp2 : option Z; sp_tp0 : option Z; sp_tp1 : option Z
}.

Definition split_page (pdx_limit : Z) (l : split) (pp : Z) : K split :=
  if pdx_limit <=? PDX (page2pa pp) then
    hd ← tail_store (sp_tp1 l) (Some pp) (sp_pp2 l);
    mret (mkSplit (sp_pp1 l) hd (sp_tp0 l) (Some pp))
  else
    hd ← tail_store (sp_tp0 l) (Some pp) (sp_pp1 l);
    mret (mkSplit hd (sp_pp2 l) (Some pp) (sp_tp1 l)).

(** Moves the low pages to the front of the list. *)
Definition low_pages_first (pdx_limit : Z) : K unit :=
  l ← for_free (mkSplit None None None None) (split_page pdx_limit);
  pp2 ← tail_store (sp_tp1 l) None (sp_pp2 l);
  pp1 ← tail_store (sp_tp0 l) pp2 (sp_pp1 l);
  modify (put page_free_list pp1).

Section Checks.
Context {machine : Machine}.

Definition check_free_page (first_free_page : Z) (n : Z * Z) (pp : Z) : K (Z * Z) :=
  np ← gets npages;
  assert (0 <=? pp) "assertion failed: pp >= pages" ;;
  assert (pp <? np) "assertion failed: pp < pages + npages" ;;
  assert_eq (pp * sizeof_PageInfo mod sizeof_PageInfo) 0 "(pp - pages) % sizeof(*pp) == 0" ;;
  assert (negb (page2pa pp =? 0)) "assertion failed: page2pa(pp) != 0" ;;
  assert (negb (page2pa pp =? IOPHYSMEM)) "assertion failed: page2pa(pp) != IOPHYSMEM" ;;
  assert (negb (page2pa pp =? EXTPHYSMEM - PGSIZE)) "assertion failed: page2pa(pp) != EXTPHYSMEM - PGSIZE" ;;
  assert (negb (page2pa pp =? EXTPHYSMEM)) "assertion failed: page2pa(pp) != EXTPHYSMEM" ;;
  (if page2pa pp <? EXTPHYSMEM then mret tt
   else kva ← page2kva pp;
     assert (first_free_page <=? kva)
       "assertion failed: page2pa(pp) < EXTPHYSMEM || page2kva(pp) >= first_free_page") ;;
  assert (negb (page2pa pp =? MPENTRY_PADDR)) "assertion failed: page2pa(pp) != MPENTRY_PADDR" ;;
  let '(nfree_basemem, nfree_extmem) := n in
  mret (if page2pa pp <? EXTPHYSMEM then (nfree_basemem + 1, nfree_extmem)
        else (nfree_basemem, nfree_extmem + 1)).

Definition check_page_free_list (only_low_memory : bool) : K unit :=
  let pdx_limit := if only_low_memory then 1 else 1024 in
  head ← gets page_free_list;
  when (bool_decide (head = None)) (panic "'page_free_list' is a null pointer!") ;;
  when only_low_memory (low_pages_first pdx_limit) ;;
  for_free tt (fun _ pp =>
    when (PDX (page2pa pp) <? pdx_limit) (kva ← page2kva pp; kmemset kva 0x97 128)) ;;
  first_free_page ← boot_alloc end_sym 0;
  n ← for_free (0, 0) (check_free_page first_free_page);
  assert (0 <? n.1) "assertion failed: nfree_basemem > 0" ;;
  assert (0 <? n.2) "assertion failed: nfree_extmem > 0".
End Checks.

(** ** [check_page_alloc] *)

Definition assert_zero_bytes (c : Z) : K unit :=
  for_loop (Z.to_nat PGSIZE) c 1 (fun a => b ← kload_byte a; assert_eq b 0 "c[i] == 0").

Definition alloc3 : K (Z * Z * Z) :=
  pp0 ← must_alloc 0 "assertion failed: (pp0 = page_alloc(0))";
  pp1 ← must_alloc 0 "assertion failed: (pp1 = page_alloc(0))";
  pp2 ← must_alloc 0 "assertion failed: (pp2 = page_alloc(0))";
  mret (pp0, pp1, pp2).

Definition check_page_alloc : K unit :=
  pgs ← gets pages_va;
  when (pgs =? NULL) (panic "'pages' is a null pointer!") ;;
  nfree ← for_free 0 (fun n _ => mret (n + 1));
  '(pp0, pp1, pp2) ← alloc3;
  distinct3 pp0 pp1 pp2 ;;
  np ← gets npages;
  assert (page2pa pp0 <? u32 (np * PGSIZE)) "assertion failed: page2pa(pp0) < npages*PGSIZE" ;;
  assert (page2pa pp1 <? u32 (np * PGSIZE)) "assertion failed: page2pa(pp1) < npages*PGSIZE" ;;
  assert (page2pa pp2 <? u32 (np * PGSIZE)) "assertion failed: page2pa(pp2) < npages*PGSIZE" ;;
  fl ← gets page_free_list;
  modify (put page_free_list None) ;;
  must_not_alloc ;;
  page_free pp0 ;;
  page_free pp1 ;;
  page_free pp2 ;;
  '(pp0, pp1, pp2) ← alloc3;
  distinct3 pp0 pp1 pp2 ;;
  must_not_alloc ;;
  kva ← page2kva pp0;
  kmemset kva 1 PGSIZE ;;
  page_free pp0 ;;
  pp ← must_alloc ALLOC_ZERO "assertion failed: (pp = page_alloc(ALLOC_ZERO))";
  assert_eq pp0 pp "pp && pp0 == pp" ;;
  c ← page2kva pp;
  assert_zero_bytes c ;;
  modify (put page_free_list fl) ;;
  page_free pp0 ;;
  page_free pp1 ;;
  page_free pp2 ;;
  nfree ← for_free nfree (fun n _ => mret (n - 1));
  assert_eq nfree 0 "nfree == 0" ;;
  cprintln "check_page_alloc() succeeded!" [].

(** ** [check_page]

    Its locals are passed from part to part.  [none32] is [~0]. *)

Definition none32 : Z := 2 ^ 32 - 1.

Definition assert_va2pa (pgdir va pa : Z) (msg : string) : K unit :=
  r ← check_va2pa pgdir va; assert_eq r pa msg.

Definition assert_ref (p r : Z) (msg : string) : K unit := x ← page_ref p; assert_eq x r msg.

Definition assert_insert (pgdir pp va perm : Z) (ok : bool) (msg : string) : K unit :=
  r ← page_insert pgdir pp va perm;
  assert (if ok then r =? 0 else r <? 0) ("assertion failed: " +:+ msg).

(** The entry [pgdir_walk(pgdir, va, 0)] points to has one of the bits, or none. *)
Definition assert_pte (pgdir va bits : Z) (set : bool) (msg : string) : K unit :=
  p ← pgdir_walk pgdir va false;
  e ← kload p;
  assert (eqb (tst e bits) set) ("assertion failed: " +:+ msg).

(** [kern_pgdir[i] = 0; pp0->pp_ref = 0]. *)
Definition drop_table (pgdir i pp0 : Z) : K unit :=
  kstore (pgdir + 4 * i) 0 ;; upd_page pp0 (put pp_ref 0).

(** From the first insertions to those that change permissions. *)
Definition check_page_insert (pgdir pp0 pp1 pp2 : Z) : K unit :=
  r ← page_lookup pgdir 0;
  assert (bool_decide (r = None)) "assertion failed: page_lookup(kern_pgdir, 0x0, &ptep) == NULL" ;;
  assert_insert pgdir pp1 0 PTE_W false "page_insert(kern_pgdir, pp1, 0x0, PTE_W) < 0" ;;
  page_free pp0 ;;
  assert_insert pgdir pp1 0 PTE_W true "page_insert(kern_pgdir, pp1, 0x0, PTE_W) == 0" ;;
  pde ← kload pgdir;
  assert_eq (PTE_ADDR pde) (page2pa pp0) "PTE_ADDR(kern_pgdir[0]) == page2pa(pp0)" ;;
  assert_va2pa pgdir 0 (page2pa pp1) "check_va2pa(kern_pgdir, 0x0) == page2pa(pp1)" ;;
  assert_ref pp1 1 "pp1->pp_ref == 1" ;;
  assert_ref pp0 1 "pp0->pp_ref == 1" ;;
  assert_insert pgdir pp2 PGSIZE PTE_W true "page_insert(kern_pgdir, pp2, PGSIZE, PTE_W) == 0" ;;
  assert_va2pa pgdir PGSIZE (page2pa pp2) "check_va2pa(kern_pgdir, PGSIZE) == page2pa(pp2)" ;;
  assert_ref pp2 1 "pp2->pp_ref == 1" ;;
  must_not_alloc ;;
  assert_insert pgdir pp2 PGSIZE PTE_W true "page_insert(kern_pgdir, pp2, PGSIZE, PTE_W) == 0" ;;
  assert_va2pa pgdir PGSIZE (page2pa pp2) "check_va2pa(kern_pgdir, PGSIZE) == page2pa(pp2)" ;;
  assert_ref pp2 1 "pp2->pp_ref == 1" ;;
  must_not_alloc ;;
  pde ← kload (pgdir + 4 * PDX PGSIZE);
  ptep ← KADDR (PTE_ADDR pde);
  p ← pgdir_walk pgdir PGSIZE false;
  assert_eq p (ptep + 4 * PTX PGSIZE) "pgdir_walk(kern_pgdir, PGSIZE, 0) == ptep+PTX(PGSIZE)" ;;
  assert_insert pgdir pp2 PGSIZE (Z.lor PTE_W PTE_U) true "page_insert(kern_pgdir, pp2, PGSIZE, PTE_W|PTE_U) == 0" ;;
  assert_va2pa pgdir PGSIZE (page2pa pp2) "check_va2pa(kern_pgdir, PGSIZE) == page2pa(pp2)" ;;
  assert_ref pp2 1 "pp2->pp_ref == 1" ;;
  assert_pte pgdir PGSIZE PTE_U true "pgdir_walk(kern_pgdir, PGSIZE, 0)[0] & PTE_U" ;;
  pde ← kload pgdir;
  assert (tst pde PTE_U) "assertion failed: kern_pgdir[0] & PTE_U" ;;
  assert_insert pgdir pp2 PGSIZE PTE_W true "page_insert(kern_pgdir, pp2, PGSIZE, PTE_W) == 0" ;;
  assert_pte pgdir PGSIZE PTE_W true "pgdir_walk(kern_pgdir, PGSIZE, 0)[0] & PTE_W" ;;
  assert_pte pgdir PGSIZE PTE_U false "!(pgdir_walk(kern_pgdir, PGSIZE, 0)[0] & PTE_U)".

(** From the replacement of one page by another to the unmapping of both. *)
Definition check_page_replace (pgdir pp0 pp1 pp2 : Z) : K unit :=
  assert_insert pgdir pp0 PTSIZE PTE_W false "page_insert(kern_pgdir, pp0, PTSIZE, PTE_W) < 0" ;;
  assert_insert pgdir pp1 PGSIZE PTE_W true "page_insert(kern_pgdir, pp1, PGSIZE, PTE_W) == 0" ;;
  assert_pte pgdir PGSIZE PTE_U false "!(pgdir_walk(kern_pgdir, PGSIZE, 0)[0] & PTE_U)" ;;
  assert_va2pa pgdir 0 (page2pa pp1) "check_va2pa(kern_pgdir, 0) == page2pa(pp1)" ;;
  assert_va2pa pgdir PGSIZE (page2pa pp1) "check_va2pa(kern_pgdir, PGSIZE) == page2pa(pp1)" ;;
  assert_ref pp1 2 "pp1->pp_ref == 2" ;;
  assert_ref pp2 0 "pp2->pp_ref == 0" ;;
  r ← page_alloc 0;
  assert (bool_decide (r = Some pp2)) "assertion failed: (pp = page_alloc(0)) && pp == pp2" ;;
  page_remove pgdir 0 ;;
  assert_va2pa pgdir 0 none32 "check_va2pa(kern_pgdir, 0x0) == ~0" ;;
  assert_va2pa pgdir PGSIZE (page2pa pp1) "check_va2pa(kern_pgdir, PGSIZE) == page2pa(pp1)" ;;
  assert_ref pp1 1 "pp1->pp_ref == 1" ;;
  assert_ref pp2 0 "pp2->pp_ref == 0" ;;
  assert_insert pgdir pp1 PGSIZE 0 true "page_insert(kern_pgdir, pp1, PGSIZE, 0) == 0" ;;
  ref ← page_ref pp1;
  assert (negb (ref =? 0)) "assertion failed: pp1->pp_ref" ;;
  pi ← get_page pp1;
  assert (bool_decide (pp_link pi = None)) "assertion failed: pp1->pp_link == NULL" ;;
  page_remove pgdir PGSIZE ;;
  assert_va2pa pgdir 0 none32 "check_va2pa(kern_pgdir, 0x0) == ~0" ;;
  assert_va2pa pgdir PGSIZE none32 "check_va2pa(kern_pgdir, PGSIZE) == ~0" ;;
  assert_ref pp1 0 "pp1->pp_ref == 0" ;;
  assert_ref pp2 0 "pp2->pp_ref == 0" ;;
  r ← page_alloc 0;
  assert (bool_decide (r = Some pp1)) "assertion failed: (pp = page_alloc(0)) && pp == pp1" ;;
  must_not_alloc.

(** Page tables taken back by hand: the address [pgdir_walk] returns, and that
    new page tables are cleared. *)
Definition check_page_tables (pgdir pp0 : Z) : K unit :=
  pde ← kload pgdir;
  assert_eq (PTE_ADDR pde) (page2pa pp0) "PTE_ADDR(kern_pgdir[0]) == page2pa(pp0)" ;;
  kstore pgdir 0 ;;
  assert_ref pp0 1 "pp0->pp_ref == 1" ;;
  upd_page pp0 (put pp_ref 0) ;;
  page_free pp0 ;;
  let va := PGSIZE * 1024 + PGSIZE in
  ptep ← pgdir_walk pgdir va true;
  pde ← kload (pgdir + 4 * PDX va);
  ptep1 ← KADDR (PTE_ADDR pde);
  assert_eq ptep (ptep1 + 4 * PTX va) "ptep == ptep1 + PTX(va)" ;;
  drop_table pgdir (PDX va) pp0 ;;
  kva ← page2kva pp0;
  kmemset kva 0xFF PGSIZE ;;
  page_free pp0 ;;
  pgdir_walk pgdir 0 true ;;
  ptep ← page2kva pp0;
  for_loop 1024 0 1 (fun i =>
    e ← kload (ptep + 4 * i); assert (negb (tst e PTE_P)) "assertion failed: (ptep[i] & PTE_P) == 0") ;;
  drop_table pgdir 0 pp0.

Definition check_page_mmio (pgdir : Z) : K unit :=
  mm1 ← mmio_map_region 0 4097;
  mm2 ← mmio_map_region 0 4096;
  assert ((MMIOBASE <=? mm1) && (u32 (mm1 + 8096) <? MMIOLIM)) "assertion failed: mm1 >= MMIOBASE && mm1 + 8096 < MMIOLIM" ;;
  assert ((MMIOBASE <=? mm2) && (u32 (mm2 + 8096) <? MMIOLIM)) "assertion failed: mm2 >= MMIOBASE && mm2 + 8096 < MMIOLIM" ;;
  assert ((mm1 mod PGSIZE =? 0) && (mm2 mod PGSIZE =? 0)) "assertion failed: mm1 % PGSIZE == 0 && mm2 % PGSIZE == 0" ;;
  assert (u32 (mm1 + 8096) <=? mm2) "assertion failed: mm1 + 8096 <= mm2" ;;
  assert_va2pa pgdir mm1 0 "check_va2pa(kern_pgdir, mm1) == 0" ;;
  assert_va2pa pgdir (mm1 + PGSIZE) PGSIZE "check_va2pa(kern_pgdir, mm1+PGSIZE) == PGSIZE" ;;
  assert_va2pa pgdir mm2 0 "check_va2pa(kern_pgdir, mm2) == 0" ;;
  assert_va2pa pgdir (mm2 + PGSIZE) none32 "check_va2pa(kern_pgdir, mm2+PGSIZE) == ~0" ;;
  assert_pte pgdir mm1 (Z.lor PTE_W (Z.lor PTE_PWT PTE_PCD)) true
    "pgdir_walk(kern_pgdir, mm1, 0)[0] & (PTE_W|PTE_PWT|PTE_PCD)" ;;
  assert_pte pgdir mm1 PTE_U false "!(pgdir_walk(kern_pgdir, mm1, 0)[0] & PTE_U)" ;;
  p ← pgdir_walk pgdir mm1 false; kstore p 0 ;;
  p ← pgdir_walk pgdir (mm1 + PGSIZE) false; kstore p 0 ;;
  p ← pgdir_walk pgdir mm2 false; kstore p 0.

Definition check_page : K unit :=
  pgdir ← gets kern_pgdir;
  '(pp0, pp1, pp2) ← alloc3;
  distinct3 pp0 pp1 pp2 ;;
  fl ← gets page_free_list;
  modify (put page_free_list None) ;;
  must_not_alloc ;;
  check_page_insert pgdir pp0 pp1 pp2 ;;
  check_page_replace pgdir pp0 pp1 pp2 ;;
  check_page_tables pgdir pp0 ;;
  modify (put page_free_list fl) ;;
  page_free pp0 ;;
  page_free pp1 ;;
  page_free pp2 ;;
  check_page_mmio pgdir ;;
  cprintln "check_page() succeeded!" [].

(** ** [check_kern_pgdir] *)

Section Checks2.
Context {machine : Machine}.

(** [for (i = 0; i < n; i += PGSIZE) assert(check_va2pa(pgdir, va + i) == pa + i)]. *)
Definition check_region (pgdir va pa n : Z) (msg : string) : K unit :=
  for_loop (Z.to_nat ((n + PGSIZE - 1) / PGSIZE)) 0 PGSIZE (fun i =>
    assert_va2pa pgdir (u32 (va + i)) (u32 (pa + i)) msg).

Definition check_kstack (pgdir n : Z) : K unit :=
  let base := KSTACKTOP - (KSTKSIZE + KSTKGAP) * (n + 1) in
  pa ← PADDR (percpu_kstacks n);
  check_region pgdir (base + KSTKGAP) pa KSTKSIZE
    "check_va2pa(pgdir, base + KSTKGAP + i) == PADDR(percpu_kstacks[n]) + i" ;;
  for_loop (Z.to_nat (KSTKGAP / PGSIZE)) 0 PGSIZE (fun i =>
    assert_va2pa pgdir (base + i) none32 "check_va2pa(pgdir, base + i) == ~0").

Definition check_pde (pgdir i : Z) : K unit :=
  e ← kload (pgdir + 4 * i);
  if existsb (Z.eqb i) [PDX UVPT; PDX (KSTACKTOP - 1); PDX UPAGES; PDX UENVS; PDX MMIOBASE] then
    assert (tst e PTE_P) "assertion failed: pgdir[i] & PTE_P"
  else if PDX KERNBASE <=? i then
    assert (tst e PTE_P) "assertion failed: pgdir[i] & PTE_P" ;;
    assert (tst e PTE_W) "assertion failed: pgdir[i] & PTE_W"
  else assert_eq e 0 "pgdir[i] == 0".

Definition check_kern_pgdir : K unit :=
  pgdir ← gets kern_pgdir;
  np ← gets npages;
  pgs ← gets pages_va;
  pa ← PADDR pgs;
  check_region pgdir UPAGES pa (ROUNDUP (u32 (np * sizeof_PageInfo)) PGSIZE)
    "check_va2pa(pgdir, UPAGES + i) == PADDR(pages) + i" ;;
  es ← gets envs_va;
  pa ← PADDR es;
  check_region pgdir UENVS pa (ROUNDUP (u32 (NENV * sizeof_Env)) PGSIZE)
    "check_va2pa(pgdir, UENVS + i) == PADDR(envs) + i" ;;
  check_region pgdir KERNBASE 0 (u32 (np * PGSIZE)) "check_va2pa(pgdir, KERNBASE + i) == i" ;;
  for_loop (Z.to_nat NCPU) 0 1 (check_kstack pgdir) ;;
  for_loop 1024 0 1 (check_pde pgdir) ;;
  cprintln "check_kern_pgdir() succeeded!" [].

(** ** [check_page_installed_pgdir] *)

Definition uread32 (va : Z) : K Z := read_le uload_byte 4 va.

Definition check_page_installed_pgdir : K unit :=
  pgdir ← gets kern_pgdir;
  '(pp0, pp1, pp2) ← alloc3;
  page_free pp0 ;;
  kva ← page2kva pp1; kmemset kva 1 PGSIZE ;;
  kva ← page2kva pp2; kmemset kva 2 PGSIZE ;;
  page_insert pgdir pp1 PGSIZE PTE_W ;;
  assert_ref pp1 1 "pp1->pp_ref == 1" ;;
  w ← uread32 PGSIZE;
  assert_eq w 0x01010101 "(uint32_t *)PGSIZE[0] == 0x01010101U" ;;
  page_insert pgdir pp2 PGSIZE PTE_W ;;
  w ← uread32 PGSIZE;
  assert_eq w 0x02020202 "(uint32_t *)PGSIZE[0] == 0x02020202U" ;;
  assert_ref pp2 1 "pp2->pp_ref == 1" ;;
  assert_ref pp1 0 "pp1->pp_ref == 0" ;;
  uwrite32 PGSIZE 0x03030303 ;;
  kva ← page2kva pp2;
  w ← kload kva;
  assert_eq w 0x03030303 "(uint32_t *)page2kva(pp2)[0] == 0x03030303U" ;;
  page_remove pgdir PGSIZE ;;
  assert_ref pp2 0 "pp2->pp_ref == 0" ;;
  pde ← kload pgdir;
  assert_eq (PTE_ADDR pde) (page2pa pp0) "PTE_ADDR(kern_pgdir[0]) == page2pa(pp0)" ;;
  kstore pgdir 0 ;;
  assert_ref pp0 1 "pp0->pp_ref == 1" ;;
  upd_page pp0 (put pp_ref 0) ;;
  page_free pp0 ;;
  cprintln "check_page_installed_pgdir() succeeded!" [].

(** ** [mem_init] *)

(** Flags of [%cr0] in [inc/mmu.h]. *)
Definition CR0_PE : Z := 0x00000001.
Definition CR0_MP : Z := 0x00000002.
Definition CR0_EM : Z := 0x00000004.
Definition CR0_TS : Z := 0x00000008.
Definition CR0_NE : Z := 0x00000020.
Definition CR0_WP : Z := 0x00010000.
Definition CR0_AM : Z := 0x00040000.
Definition CR0_PG : Z := 0x80000000.

Definition init_cr0 (cr0 : Z) : Z :=
  let cr0 := Z.lor cr0 (Z.lor CR0_PE (Z.lor CR0_PG (Z.lor CR0_AM (Z.lor CR0_WP (Z.lor CR0_NE CR0_MP))))) in
  u32 (Z.land cr0 (Z.lnot (Z.lor CR0_TS CR0_EM))).

(** [memset(pages, 0, n)] and [memset(envs, 0, n)] on the whole arrays. *)
Definition zero_pages (np : Z) : gmap Z PageInfo :=
  list_to_map ((fun p => (p, mkPageInfo None 0)) <$> seqZ 0 np).

Definition zero_env : Env :=
  mkEnv blank_tf None 0 0 ENV_TYPE_USER ENV_FREE 0 0 0 0 false 0 0 0 0.

Definition zero_envs : gmap Z Env := list_to_map ((fun e => (e, zero_env)) <$> seqZ 0 NENV).

(** The page directory and the two arrays. *)
Definition mem_init_arrays : K unit :=
  pgdir ← boot_alloc end_sym PGSIZE;
  modify (put kern_pgdir pgdir) ;;
  kzero_page pgdir ;;
  pa ← PADDR pgdir;
  kstore (pgdir + 4 * PDX UVPT) (Z.lor (Z.lor pa PTE_U) PTE_P) ;;
  np ← gets npages;
  pgs ← boot_alloc end_sym (u32 (sizeof_PageInfo * np));
  modify (put pages_va pgs) ;;
  modify (put pages (zero_pages np)) ;;
  es ← boot_alloc end_sym (u32 (sizeof_Env * NENV));
  modify (put envs_va es) ;;
  modify (put envs zero_envs).

(** The kernel's mappings, above [UTOP]. *)
Definition mem_init_maps : K unit :=
  pgdir ← gets kern_pgdir;
  np ← gets npages;
  pgs ← gets pages_va;
  pa ← PADDR pgs;
  boot_map_region pgdir UPAGES (u32 (sizeof_PageInfo * np)) pa (Z.lor PTE_U PTE_P) ;;
  es ← gets envs_va;
  pa ← PADDR es;
  boot_map_region pgdir UENVS PTSIZE pa PTE_U ;;
  pa ← PADDR bootstack;
  boot_map_region pgdir (KSTACKTOP - KSTKSIZE) KSTKSIZE pa (Z.lor PTE_W PTE_P) ;;
  boot_map_region pgdir KERNBASE (0xffffffff - KERNBASE) 0 (Z.lor PTE_W PTE_P) ;;
  mem_init_mp.

Definition mem_init : K unit :=
  i386_detect_memory ;;
  mem_init_arrays ;;
  page_init end_sym ;;
  check_page_free_list true ;;
  check_page_alloc ;;
  check_page ;;
  mem_init_maps ;;
  check_kern_pgdir ;;
  pgdir ← gets kern_pgdir;
  pa ← PADDR pgdir;
  lcr3 pa ;;
  check_page_free_list false ;;
  emit (EvLoad "cr0" (init_cr0 rcr0)) ;;
  check_page_installed_pgdir.
End Checks2.
