(* ===== verification/MemSpec.v ===== *)
(** * Properties of bringing memory up

    The boot-time mappings of the kernel part of a directory, and the
    rearrangement of the free list that [check_page_free_list] makes. *)

From Stdlib Require Import Lia ZArith ZifyClasses ZifyInst ZifyBool.
From stdpp Require Import base gmap list strings numbers.
From S2P Require Import Prelude Cmonad Mmu Console State Umem Pmap PageList Vm VmInv PmapLem PmapSpec MemInit.

(** ** Walking the free list *)

(** [I h l acc s] holds when the walk is at [h], with the pages [l] ahead. *)
Lemma wp_for_pages {A} (I : option Z -> list Z -> A -> kstate -> Prop) (body : A -> Z -> K A) n h l acc Q s :
  (length l <= n)%nat -> I h l acc s ->
  (forall h acc s, I h [] acc s -> h = None /\ Q acc s) ->
  (forall h p l' acc s, I h (p :: l') acc s -> h = Some p /\
     wp (body acc p) (fun acc' s' => exists pi, pages s' !! p = Some pi /\ I (pp_link pi) l' acc' s') s) ->
  wp (for_pages n h acc body) Q s.
Proof.
  intros Hn HI H0 Hs. revert n h acc s Hn HI. induction l as [|p l IH]; intros n h acc s Hn HI.
  { destruct (H0 _ _ _ HI) as [-> HQ]. destruct n; by apply wp_ret. }
  destruct (Hs _ _ _ _ _ HI) as [-> Hb]. destruct n as [|n]; [cbn in Hn; lia|]. cbn [for_pages].
  apply wp_bind. eapply wp_mono; [exact Hb|]. intros acc' s' (pi & Hpi & HI').
  apply wp_bind. eapply wp_Ret; [by apply get_page_eq|]. apply IH; [cbn in Hn; lia|done].
Qed.

Lemma free_list_length s fl : free_list s fl -> (length fl <= Z.to_nat (npages s))%nat.
Proof.
  intros H. rewrite <- (length_seqZ 0 (npages s)). apply submseteq_length, NoDup_submseteq.
  - apply (ao_NoDup H).
  - intros p Hp. apply elem_of_seqZ. pose proof (ao_bound H p Hp). lia.
Qed.

Lemma wp_for_free {A} (I : option Z -> list Z -> A -> kstate -> Prop) (body : A -> Z -> K A) fl acc Q s :
  free_list s fl -> I (page_free_list s) fl acc s ->
  (forall h acc s, I h [] acc s -> h = None /\ Q acc s) ->
  (forall h p l' acc s, I h (p :: l') acc s -> h = Some p /\
     wp (body acc p) (fun acc' s' => exists pi, pages s' !! p = Some pi /\ I (pp_link pi) l' acc' s') s) ->
  wp (for_free acc body) Q s.
Proof.
  intros Hfl HI H0 Hs. unfold for_free. apply wp_bind, wp_gets, wp_bind, wp_gets.
  by apply (wp_for_pages I _ _ _ fl); [apply free_list_length|..].
Qed.

(** ** List segments *)

(** The links from [h] run through [l] and then to [e]. *)
Fixpoint lseg (pgs : gmap Z PageInfo) (h : option Z) (l : list Z) (e : option Z) : Prop :=
  match l with
  | [] => h = e
  | p :: l' => h = Some p /\ exists pi, pgs !! p = Some pi /\ lseg pgs (pp_link pi) l' e
  end.

Lemma lseg_chain pgs h l : chain pgs h l <-> lseg pgs h l None.
Proof.
  revert h. induction l as [|p l IH]; intros h; [done|]. cbn.
  split; (intros [-> (pi & Hp & H)]; split; [done|]; exists pi; split; [done|]; by apply IH).
Qed.

Lemma lseg_app pgs h l1 l2 m e : lseg pgs h l1 m -> lseg pgs m l2 e -> lseg pgs h (l1 ++ l2) e.
Proof.
  revert h. induction l1 as [|p l1 IH]; intros h; cbn; [by intros ->|].
  intros [-> (pi & Hp & H1)] H2. split; [done|]. exists pi. auto.
Qed.

Lemma lseg_insert_ne pgs h l e q pi : q ∉ l -> lseg pgs h l e -> lseg (<[q := pi]> pgs) h l e.
Proof.
  revert h. induction l as [|p l IH]; intros h Hq; [done|].
  apply not_elem_of_cons in Hq as [Hqp Hq]. cbn. intros [-> (pj & Hp & H)]. split; [done|].
  exists pj. rewrite lookup_insert_ne by done. auto.
Qed.

(** The list [l] hangs on the variable [hd], to be continued through [tl]. *)
Definition open_list (pgs : gmap Z PageInfo) (hd tl : option Z) (l : list Z) : Prop :=
  match tl with
  | None => l = []
  | Some t => exists l0, l = l0 ++ [t] /\ lseg pgs hd l0 (Some t)
  end.

Lemma open_list_insert_ne pgs hd tl l q pi :
  q ∉ l -> open_list pgs hd tl l -> open_list (<[q := pi]> pgs) hd tl l.
Proof.
  intros Hq. destruct tl as [t|]; [|done]. intros (l0 & -> & H). exists l0. split; [done|].
  apply lseg_insert_ne; [set_solver|done].
Qed.

(** Only the link of the page [tl] points into changes. *)
Definition relinked (tl v : option Z) (s s' : kstate) : Prop :=
  match tl with
  | None => s' = s
  | Some t => exists pi, pages s !! t = Some pi /\ s' = put pages (<[t := put pp_link v pi]> (pages s)) s
  end.

Lemma tail_store_wp tl v hd l s :
  NoDup l -> (forall t, t ∈ l -> is_Some (pages s !! t)) -> open_list (pages s) hd tl l ->
  wp (tail_store tl v hd) (fun hd' s' => relinked tl v s s' /\ lseg (pages s') hd' l v) s.
Proof.
  intros Hnd Hin H. destruct tl as [t|]; cbn [tail_store relinked open_list] in *; [|by subst; apply wp_ret].
  destruct H as (l0 & -> & Hseg). apply list.NoDup_app in Hnd as (_ & Hdis & _).
  assert (t ∉ l0) as Hnt by (intros Ht; apply (Hdis _ Ht); by left).
  destruct (Hin t) as [pi Hpi]; [set_solver|].
  apply wp_bind. eapply wp_Ret; [by apply upd_page_eq|]. apply wp_ret. kred. split; [by exists pi|].
  apply (lseg_app _ _ _ _ (Some t)); [by apply lseg_insert_ne|]. cbn. split; [done|].
  exists (put pp_link v pi). by rewrite lookup_insert_eq.
Qed.

(** ** Low pages first *)

(** What the rearrangement leaves alone. *)
Record same_pages (fl : list Z) (s0 s : kstate) : Prop := {
  sg_only : s = put pages (pages s) s0;
  sg_ref q : pp_ref <$> pages s !! q = pp_ref <$> pages s0 !! q;
  sg_other q : q ∉ fl -> pages s !! q = pages s0 !! q
}.

Lemma same_pages_relinked fl s0 s s' t v :
  same_pages fl s0 s -> relinked t v s s' -> (forall p, t = Some p -> p ∈ fl) -> same_pages fl s0 s'.
Proof.
  intros [Ho Hr Hq] Hrel Ht. destruct t as [t|]; cbn in Hrel; [|by subst; constructor].
  destruct Hrel as (pi & Hpi & ->). constructor; kred.
  - rewrite Ho at 2. reflexivity.
  - intros q. destruct (decide (t = q)) as [<-|]; [|rewrite lookup_insert_ne by done; apply Hr].
    by rewrite lookup_insert_eq, <- Hr, Hpi.
  - intros q Hqf. rewrite lookup_insert_ne; [by apply Hq|]. intros ->. by apply Hqf, Ht.
Qed.

Lemma same_pages_some fl s0 s p :
  same_pages fl s0 s -> is_Some (pages s !! p) <-> is_Some (pages s0 !! p).
Proof.
  intros H. pose proof (sg_ref _ _ _ H p) as Hr.
  destruct (pages s !! p), (pages s0 !! p); cbn in Hr; split; (done || by intros [? [=]]).
Qed.

Lemma same_pages_ref fl s0 s p pi :
  same_pages fl s0 s -> pages s !! p = Some pi -> exists pj, pages s0 !! p = Some pj /\ pp_ref pj = pp_ref pi.
Proof.
  intros H Hp. pose proof (sg_ref _ _ _ H p) as Hr. rewrite Hp in Hr.
  destruct (pages s0 !! p) as [pj|]; [|done]. injection Hr as Hr. by exists pj.
Qed.

Lemma same_pages_in fl s0 s p : free_list s0 fl -> same_pages fl s0 s -> p ∈ fl -> is_Some (pages s !! p).
Proof.
  intros Hfl H Hp. apply (same_pages_some _ _ _ _ H). by apply (chain_lookup _ _ _ _ (ao_chain _ _ _ _ Hfl)).
Qed.

Lemma open_tail_in pgs hd t l : open_list pgs hd (Some t) l -> t ∈ l.
Proof. intros (l0 & -> & _). apply elem_of_app. right. by left. Qed.

(** A new order of the same pages is a free list. *)
Lemma same_pages_free_list fl s0 s h l :
  free_list s0 fl -> same_pages fl s0 s -> l ≡ₚ fl -> chain (pages s) h l ->
  free_list (put page_free_list h s) l.
Proof.
  intros [Hnp Hdom Hch Hfree Hlink Hrf] Hsg Hperm Hl.
  assert (npages s = npages s0) as Hn by (by rewrite (sg_only _ _ _ Hsg)).
  unfold free_list. kred. rewrite Hn. constructor; try done.
  - intros q. by rewrite (same_pages_some _ _ _ _ Hsg).
  - intros p pi Hp Hin. rewrite Hperm in Hin.
    destruct (same_pages_ref _ _ _ _ _ Hsg Hp) as (pj & Hpj & <-). by eapply Hfree.
  - intros p pi Hp Hin. rewrite Hperm in Hin. rewrite (sg_other _ _ _ Hsg) in Hp by done. by eapply Hlink.
  - intros p pi Hp. destruct (same_pages_ref _ _ _ _ _ Hsg Hp) as (pj & Hpj & <-). by eapply Hrf.
Qed.

(** One page [p] moves from the rest of the list to the end of [l]; [m] is the
    other list. *)
Lemma split_step fl s0 s hd tl hd2 tl2 l m p pi l2 :
  same_pages fl s0 s -> NoDup (l ++ m ++ p :: l2) -> (forall q, q ∈ l ++ m ++ p :: l2 -> q ∈ fl) ->
  (forall q, q ∈ fl -> is_Some (pages s !! q)) ->
  open_list (pages s) hd tl l -> open_list (pages s) hd2 tl2 m ->
  pages s !! p = Some pi -> chain (pages s) (pp_link pi) l2 ->
  wp (tail_store tl (Some p) hd) (fun hd' s' => same_pages fl s0 s' /\
    open_list (pages s') hd' (Some p) (l ++ [p]) /\ open_list (pages s') hd2 tl2 m /\
    pages s' !! p = Some pi /\ chain (pages s') (pp_link pi) l2) s.
Proof.
  intros Hsg Hnd Hin Hsome Hl Hm Hp Hch.
  pose proof Hnd as (Hndl & Hdis & _)%list.NoDup_app.
  eapply wp_mono; [apply (tail_store_wp _ _ _ l); [done|set_solver|done]|].
  intros hd' s' [Hrel Hseg].
  assert (forall t, tl = Some t -> t ∈ l) as Ht.
  { intros t ->. destruct Hl as (l0 & -> & _). set_solver. }
  split; [by eapply same_pages_relinked; [done|done|set_solver]|]. split; [by exists l|].
  destruct tl as [t|]; cbn in Hrel; [|by subst].
  destruct Hrel as (pt & Hpt & ->). kred. specialize (Hdis t (Ht t eq_refl)). rewrite elem_of_app, elem_of_cons in Hdis.
  split_and!; [apply open_list_insert_ne; tauto|rewrite lookup_insert_ne by (intros ->; tauto); done|].
  apply chain_insert_ne; [tauto|done].
Qed.

Definition is_low (k p : Z) : Prop := PDX (page2pa p) < k.
#[export] Instance is_low_dec k p : Decision (is_low k p).
Proof. unfold is_low. apply _. Defined.

Abbreviation lows k := (filter (is_low k)).
Abbreviation highs k := (filter (fun p => ~ is_low k p)).

Lemma split_perm k l : lows k l ++ highs k l ≡ₚ l.
Proof.
  induction l as [|p l IH]; [done|]. destruct (decide (is_low k p)) as [H|H].
  - rewrite filter_cons_True, filter_cons_False by (done || tauto). cbn. by rewrite IH.
  - rewrite filter_cons_False, filter_cons_True by (done || tauto).
    by rewrite <- Permutation_middle, IH.
Qed.

Record splitting (k : Z) (fl : list Z) (s0 : kstate) (h : option Z) (l2 : list Z) (a : split) (s : kstate) : Prop := {
  sl_same : same_pages fl s0 s;
  sl_l : exists l1, fl = l1 ++ l2 /\ open_list (pages s) (sp_pp1 a) (sp_tp0 a) (lows k l1) /\
    open_list (pages s) (sp_pp2 a) (sp_tp1 a) (highs k l1);
  sl_rest : chain (pages s) h l2
}.

Lemma split_page_wp k fl s0 h p l2 a s :
  free_list s0 fl -> splitting k fl s0 h (p :: l2) a s ->
  h = Some p /\ wp (split_page k a p) (fun a' s' => exists pi, pages s' !! p = Some pi /\
    splitting k fl s0 (pp_link pi) l2 a' s') s.
Proof.
  intros Hfl [Hsg (l1 & Hl & HL & HH) [-> (pi & Hpi & Hch)]]. split; [done|].
  assert (forall q, q ∈ fl -> is_Some (pages s !! q)) as Hsome by (by intros q; apply (same_pages_in _ s0)).
  pose proof (ao_NoDup Hfl) as Hnd. rewrite Hl in Hnd.
  assert (lows k l1 ++ highs k l1 ++ p :: l2 ≡ₚ fl) as Hperm by (by rewrite app_assoc, split_perm, Hl).
  assert (highs k l1 ++ lows k l1 ++ p :: l2 ≡ₚ fl) as Hperm2.
  { rewrite app_assoc, (Permutation_app_comm (highs k l1)), split_perm, Hl. done. }
  rewrite Hl in Hperm, Hperm2. unfold split_page. destruct (Z.leb_spec k (PDX (page2pa p))) as [Hk|Hk].
  - apply wp_bind. eapply wp_mono.
    { apply (split_step fl s0 s (sp_pp2 a) (sp_tp1 a) (sp_pp1 a) (sp_tp0 a) (highs k l1) (lows k l1) p pi l2); try done.
      - by rewrite Hperm2.
      - intros q. by rewrite Hperm2, Hl. }
    intros hd' s' (Hsg' & HH' & HL' & Hpi' & Hch'). apply wp_ret. exists pi. split; [done|].
    constructor; [done| |done]. exists (l1 ++ [p]). split; [by rewrite <- app_assoc|].
    rewrite !list.filter_app, (filter_cons_False _ p), (filter_cons_True _ p) by (unfold is_low; lia).
    by rewrite !list.filter_nil, app_nil_r.
  - apply wp_bind. eapply wp_mono.
    { apply (split_step fl s0 s (sp_pp1 a) (sp_tp0 a) (sp_pp2 a) (sp_tp1 a) (lows k l1) (highs k l1) p pi l2); try done.
      - by rewrite Hperm.
      - intros q. by rewrite Hperm, Hl. }
    intros hd' s' (Hsg' & HL' & HH' & Hpi' & Hch'). apply wp_ret. exists pi. split; [done|].
    constructor; [done| |done]. exists (l1 ++ [p]). split; [by rewrite <- app_assoc|].
    rewrite !list.filter_app, (filter_cons_True _ p), (filter_cons_False _ p) by (unfold is_low; lia).
    by rewrite !list.filter_nil, app_nil_r.
Qed.

(** [check_page_free_list] first sorts the free list so that the pages below
    the limit come first, each part in its old order: the list stays a
    well-formed free list of the same pages, and nothing else changes. *)
Theorem low_pages_first_correct k s fl :
  free_list s fl ->
  wp (low_pages_first k) (fun _ s' =>
    free_list s' (lows k fl ++ highs k fl) /\ lows k fl ++ highs k fl ≡ₚ fl /\
    (forall q, ref s' q = ref s q) /\ vm_frame s s' /\ pmem s' = pmem s /\ trace s' = trace s) s.
Proof.
  intros Hfl. pose proof (split_perm k fl) as Hperm. pose proof (ao_NoDup Hfl) as Hnd. unfold low_pages_first.
  apply wp_bind. eapply (wp_for_free (splitting k fl s)); [done| |clear -Hfl Hperm Hnd|].
  - constructor; [constructor; [by destruct s|done..]|by exists []|apply Hfl].
  - intros h a s1 [Hsg (l1 & Hl & HL & HH) Hh]. split; [done|]. rewrite app_nil_r in Hl. subst l1.
    rewrite <- Hperm in Hnd. pose proof Hnd as (HndL & Hdis & HndH)%list.NoDup_app.
    assert (forall t, sp_tp1 a = Some t -> t ∈ highs k fl) as Ht1
      by (intros t Ht; rewrite Ht in HH; by eapply open_tail_in).
    assert (forall t, sp_tp0 a = Some t -> t ∈ lows k fl) as Ht0
      by (intros t Ht; rewrite Ht in HL; by eapply open_tail_in).
    apply wp_bind. eapply wp_mono; [apply (tail_store_wp _ _ _ (highs k fl)); [done| |done]|].
    { intros t (_ & Ht)%list_elem_of_filter. by eapply same_pages_in. }
    intros pp2 s2 [Hr2 Hs2].
    assert (same_pages fl s s2) as Hsg2.
    { eapply same_pages_relinked; [done|done|]. intros p Hp. apply Ht1 in Hp. by apply list_elem_of_filter in Hp as []. }
    assert (open_list (pages s2) (sp_pp1 a) (sp_tp0 a) (lows k fl)) as HL2.
    { destruct (sp_tp1 a) as [t|] eqn:Et; cbn in Hr2; [|by subst].
      destruct Hr2 as (pt & _ & ->). apply open_list_insert_ne; [|done]. intros Hin. by apply (Hdis t Hin), Ht1. }
    apply wp_bind. eapply wp_mono; [apply (tail_store_wp _ _ _ (lows k fl)); [done| |done]|].
    { intros t (_ & Ht)%list_elem_of_filter. by eapply same_pages_in. }
    intros pp1 s3 [Hr3 Hs3].
    assert (same_pages fl s s3) as Hsg3.
    { eapply same_pages_relinked; [done|done|]. intros p Hp. apply Ht0 in Hp. by apply list_elem_of_filter in Hp as []. }
    assert (lseg (pages s3) pp2 (highs k fl) None) as Hs2'.
    { destruct (sp_tp0 a) as [t|] eqn:Et; cbn in Hr3; [|by subst].
      destruct Hr3 as (pt & _ & ->). apply lseg_insert_ne; [|done]. by apply Hdis, Ht0. }
    apply wp_modify. split; [|split; [done|split]].
    + eapply same_pages_free_list; [done..|]. apply lseg_chain. by eapply lseg_app.
    + intros q. unfold ref. kred. pose proof (sg_ref _ _ _ Hsg3 q) as Hq.
      destruct (pages s3 !! q), (pages s !! q); cbn in *; congruence.
    + rewrite (sg_only _ _ _ Hsg3). split_and!; [auto with vm|done|done].
  - intros h p l' a s1. by apply split_page_wp.
Qed.

Lemma low_pages_first_correct_witness :
  exists s', low_pages_first 1 four_pages = Ret tt s' /\ free_list s' [3] /\ ref s' 1 = 1.
Proof.
  assert (free_list four_pages [3]) as Hfl by apply four_pages_inv.
  pose proof (low_pages_first_correct 1 four_pages [3] Hfl) as H.
  apply wp_inv in H as ([] & s' & Hs & Hf & _ & Hr & _). exists s'. split; [exact Hs|]. split; [exact Hf|].
  rewrite Hr. reflexivity.
Defined.
