(* ===== verification/KernMap.v ===== *)
(** * The kernel's own mappings

    [boot_map_region] and [mmio_map_region] of [kern/pmap.c] fill the part of a
    page directory above [UTOP].  [kdir_ok] is the shape of that part: every
    present entry, but for the one at [UVPT] that points to the directory
    itself, has a page table of its own, which is RAM and not free. *)

From Stdlib Require Import Lia ZArith ZifyClasses ZifyInst ZifyBool.
From stdpp Require Import base gmap list strings numbers.
From S2P Require Import Prelude Cmonad Mmu Console State Umem Pmap PageList Vm VmInv PmapLem VmLem PmapSpec.

(** The directory entry of [UVPT], and the number of virtual pages. *)
Definition UVPTX : Z := 957.
Definition VPNS : Z := 1048576.
Lemma UVPTX_eq : UVPTX = PDX UVPT. Proof. reflexivity. Qed.

(** Entry [i] of the directory in frame [d] has a page table. *)
Definition has_table (m : physmem) (d i : Z) : Prop :=
  0 <= i < 1024 /\ i <> UVPTX /\ present (word m d i) = true.

Record kdir_ok (m : physmem) (np : Z) (fl : list Z) (d : Z) : Prop := {
  kd_word f i : 0 <= word m f i < 2 ^ 32;
  kd_dir : 0 <= d < np /\ d ∉ fl;
  kd_table i : has_table m d i -> 0 <= fr (word m d i) < np /\ (fr (word m d i) ∉ fl) /\ fr (word m d i) <> d;
  kd_inj i j : has_table m d i -> has_table m d j -> fr (word m d i) = fr (word m d j) -> i = j
}.

(** Memory outside the directory, its tables and the free pages is the same. *)
Definition kernel_only (m m' : physmem) (fl : list Z) (d : Z) : Prop :=
  forall f i, f <> d -> f ∉ fl -> (forall j, has_table m d j -> fr (word m d j) <> f) ->
    word m' f i = word m f i.

Section Kdir.
Context {m : physmem} {np : Z} {fl : list Z} {d : Z}.
Hypothesis OK : kdir_ok m np fl d.

(** Storing an entry into a table. *)
Lemma kdir_set i j e v :
  has_table m d i -> 0 <= j < 1024 -> 0 <= e < 2 ^ 32 -> 0 <= v < VPNS -> v / 1024 <> UVPTX ->
  let m' := set_word (fr (word m d i)) j e m in
  kdir_ok m' np fl d /\ (forall k, word m' d k = word m d k) /\
  pte m' d v = if decide (v = i * 1024 + j) then e else pte m d v.
Proof.
  intros Hi Hj He Hv Hu m'. destruct (kd_table _ _ _ _ OK i Hi) as (Hf & Hfl & Hfd).
  assert (forall k, word m' d k = word m d k) as Hd by (intros k; apply word_set_ne; by left).
  split; [|split; [done|]].
  - destruct OK as [Hw Hdir Ht Hinj]. constructor; try done.
    + intros f k. apply set_word_range; [|done]. apply Hw.
    + intros k. unfold has_table. rewrite !Hd. apply Ht.
    + intros k l. unfold has_table. rewrite !Hd. apply Hinj.
  - unfold pte. rewrite Hd. unfold VPNS in Hv. destruct (present (word m d (v / 1024))) eqn:Hp.
    + unfold m'. rewrite word_set.
      assert (has_table m d (v / 1024)) as Hv' by (split; [zlia|done]).
      case_decide as H1; case_decide as H2; try done.
      * destruct H1 as [Hff Hjj]. contradict H2. apply (kd_inj _ _ _ _ OK) in Hff; [|done..]. zlia.
      * contradict H1. subst v. replace ((i * 1024 + j) / 1024) with i by zlia. split; [done|zlia].
    + case_decide as H2; [|done]. subst v. replace ((i * 1024 + j) / 1024) with i in Hp by zlia.
      destruct Hi as (_ & _ & Hi). congruence.
Qed.
End Kdir.

(** Installing an empty table from the free list. *)
Lemma kdir_new m np f fl d i :
  kdir_ok m np (f :: fl) d -> 0 <= f < np -> np <= 65536 -> f ∉ fl -> 0 <= i < 1024 -> i <> UVPTX ->
  present (word m d i) = false ->
  let m' := set_word d i (f * 4096 + 7) (<[f := ∅]> m) in
  kdir_ok m' np fl d /\ has_table m' d i /\ fr (word m' d i) = f /\
  (forall j, j <> i -> word m' d j = word m d j) /\
  (forall v, 0 <= v < VPNS -> v / 1024 <> UVPTX -> pte m' d v = pte m d v).
Proof.
  intros OK Hf Hnp Hnin Hi Hu Hp m'. pose proof OK as [Hw [Hd Hdf] Ht Hinj].
  apply not_elem_of_cons in Hdf as [Hdf Hdfl].
  assert (word m' d i = f * 4096 + 7) as Hwi by apply word_set_eq.
  assert (forall j, j <> i -> word m' d j = word m d j) as Hwj.
  { intros j Hj. unfold m'. rewrite word_set_ne by auto. by rewrite word_zero_page, decide_False. }
  assert (fr (word m' d i) = f) as Hfi by (rewrite Hwi; unfold fr; zlia).
  assert (present (word m' d i) = true) as Hpi.
  { rewrite Hwi. rewrite <- lor_page by lia. unfold present. rewrite tst_lor. apply orb_true_r. }
  assert (forall j, has_table m' d j -> j = i \/ j <> i /\ has_table m d j) as Htab.
  { intros j (Hj & Hju & Hjp). destruct (decide (j = i)) as [|Hne]; [by left|right].
    rewrite Hwj in Hjp by done. done. }
  assert (forall j, has_table m d j -> fr (word m d j) <> f) as Hne.
  { intros j Hj Hjf. apply Ht in Hj as (_ & Hj & _). rewrite Hjf in Hj. apply Hj. by left. }
  split; [|split; [done|split; [done|split; [done|]]]].
  - constructor; [|done| |].
    + intros g k. unfold m'. apply set_word_range; [|lia]. intros g' k'. rewrite word_zero_page.
      case_decide; [lia|apply Hw].
    + intros j [->|[Hji Hj]]%Htab; [by rewrite Hfi|]. rewrite Hwj by done.
      destruct (Ht j Hj) as (H1 & H2 & H3). apply not_elem_of_cons in H2 as [? ?]. done.
    + intros j k [->|[Hji Hj]]%Htab [->|[Hki Hk]]%Htab; [done|..].
      * rewrite Hfi, Hwj by done. intros Heq. symmetry in Heq. by apply Hne in Heq.
      * rewrite Hfi, Hwj by done. intros Heq. by apply Hne in Heq.
      * rewrite !Hwj by done. by apply Hinj.
  - intros v Hv Hvu. unfold VPNS in Hv. unfold pte. destruct (decide (v / 1024 = i)) as [->|Hvi].
    + rewrite Hpi, Hp, Hfi. unfold m'. rewrite word_set_ne by (left; done).
      by rewrite word_zero_page, decide_True.
    + rewrite Hwj by done. destruct (present (word m d (v / 1024))) eqn:Hpv; [|done].
      assert (has_table m d (v / 1024)) as Hv' by (split; [zlia|done]).
      destruct (Ht _ Hv') as (_ & _ & Hfd). unfold m'. rewrite word_set_ne by (left; done).
      rewrite word_zero_page, decide_False; [done|]. intros Heq. symmetry in Heq. by apply Hne in Heq.
Qed.

(** ** How an operation on the kernel's mappings changes the state *)

Record kgrow (d : Z) (fl fl' : list Z) (s s' : kstate) : Prop := {
  kg_free : free_list s' fl';
  kg_ok : kdir_ok (pmem s') (npages s') fl' d;
  kg_frame : vm_frame s s';
  kg_trace : trace s' = trace s;
  kg_sub f : f ∈ fl' -> f ∈ fl;
  kg_keep j : has_table (pmem s) d j -> has_table (pmem s') d j /\ fr (word (pmem s') d j) = fr (word (pmem s) d j);
  kg_new j : has_table (pmem s') d j -> has_table (pmem s) d j \/ fr (word (pmem s') d j) ∈ fl;
  kg_only : kernel_only (pmem s) (pmem s') fl d
}.

Lemma kgrow_refl d fl s : free_list s fl -> kdir_ok (pmem s) (npages s) fl d -> kgrow d fl fl s s.
Proof. intros Hf Hk. constructor; auto with vm; by intros f i ???. Qed.

Lemma kgrow_trans d fl fl1 fl2 s s1 s2 : kgrow d fl fl1 s s1 -> kgrow d fl1 fl2 s1 s2 -> kgrow d fl fl2 s s2.
Proof.
  intros [_ _ Hf1 Ht1 Hs1 Hk1 Hn1 Ho1] [Hfr Hok Hf2 Ht2 Hs2 Hk2 Hn2 Ho2].
  constructor; [done|done|by etrans|by rewrite Ht2|auto| | |].
  - intros j Hj. destruct (Hk1 j Hj) as [Hj1 He1], (Hk2 j (proj1 (Hk1 j Hj))) as [Hj2 He2]. by rewrite He2.
  - intros j [Hj|Hj]%Hn2; [|right; by apply Hs1]. destruct (Hk2 j Hj) as [_ ->]. by apply Hn1.
  - intros f i Hfd Hff Hft. rewrite (Ho2 f i); [by apply Ho1|done|by intros ?%Hs1|].
    intros j Hj Hjf. destruct (Hn1 j Hj) as [Hj0|Hj0]; [|congruence].
    destruct (Hk1 j Hj0) as [_ He]. apply (Hft j Hj0). congruence.
Qed.

(** The walk that makes a missing page table. *)
Lemma kwalk_wp d s fl va :
  free_list s fl -> kdir_ok (pmem s) (npages s) fl d -> 0 <= va < 2 ^ 32 -> PDX va <> UVPTX ->
  has_table (pmem s) d (PDX va) \/ fl <> [] ->
  wp (pgdir_walk (kva d) va true) (fun r s' => exists fl', kgrow d fl fl' s s' /\
    r = kva (fr (word (pmem s') d (PDX va))) + 4 * PTX va /\ has_table (pmem s') d (PDX va) /\
    (has_table (pmem s) d (PDX va) /\ fl' = fl \/ ~ has_table (pmem s) d (PDX va) /\ length fl = S (length fl')) /\
    (forall j, has_table (pmem s') d j <-> has_table (pmem s) d j \/ j = PDX va) /\
    (forall v, 0 <= v < VPNS -> v / 1024 <> UVPTX -> pte (pmem s') d v = pte (pmem s) d v)) s.
Proof.
  intros Hfl OK Hva Hu Hor. pose proof (ao_np _ _ _ _ Hfl) as Hnp.
  assert (0 <= PDX va < 1024) as Hi by (rewrite PDX_div by lia; zlia).
  destruct (kd_dir _ _ _ _ OK) as [Hd Hdf]. set (w := word (pmem s) d (PDX va)).
  assert (kload (kva d + 4 * PDX va) s = Ret w s) as Hld by (apply kload_frame; lia).
  destruct (present w) eqn:Hp.
  { assert (has_table (pmem s) d (PDX va)) as Ht by done.
    destruct (kd_table _ _ _ _ OK _ Ht) as (Hf & _).
    eapply wp_Ret.
    { unfold pgdir_walk. erewrite bind_Ret by exact Hld. unfold present in Hp. rewrite Hp.
      rewrite PTE_ADDR_fr by apply (kd_word _ _ _ _ OK).
      erewrite bind_Ret by (apply KADDR_frame; [exact Hf|lia]). reflexivity. }
    exists fl. split; [by apply kgrow_refl|]. split; [done|]. split; [done|]. split; [by left|].
    split; [|done]. intros j. split; [by left|]. by intros [| ->]. }
  destruct Hor as [(_ & _ & Ht)|Hne]; [fold w in Ht; congruence|]. destruct fl as [|f fl']; [done|].
  pose proof (ao_bound Hfl f ltac:(left)) as Hf. pose proof (ao_NoDup Hfl) as [Hnin _]%list.NoDup_cons.
  destruct (ao_chain _ _ _ _ Hfl) as [Hh (pi & Hpi & _)].
  pose proof (ao_free _ _ _ _ Hfl f pi Hpi ltac:(left)) as Hr0.
  assert (upd pp_ref (fun r => u16 (r + 1)) (put pp_link None pi) = mkPageInfo None 1) as Hpp
    by (clear -Hr0; destruct pi; cbn in *; by subst).
  set (m' := set_word d (PDX va) (f * 4096 + 7) (<[f := ∅]> (pmem s))).
  destruct (kdir_new (pmem s) (npages s) f fl' d (PDX va) OK Hf ltac:(lia) Hnin Hi Hu Hp)
    as (OK' & Ht & Hft & Hwj & Hpte). fold m' in OK', Ht, Hft, Hwj, Hpte.
  set (s' := put pmem m' (put pages (<[f := mkPageInfo None 1]> (<[f := put pp_link None pi]> (pages s)))
    (put page_free_list (pp_link pi) s))).
  assert (free_list s' fl') as Hfl'.
  { unfold s', free_list in *. kred. rewrite Hh in Hfl. pose proof (alloc_ok_pop _ _ _ _ _ Hfl Hpi) as H1.
    apply (alloc_ok_ref H1 f _ 1 (lookup_insert_eq _ _ _) Hnin). lia. }
  eapply (wp_Ret _ _ _ (kva f + 4 * PTX va) s').
  { unfold pgdir_walk. erewrite bind_Ret by exact Hld. unfold present in Hp. rewrite Hp.
    erewrite bind_Ret by (apply (page_alloc_cons ALLOC_ZERO s f pi); done || lia).
    change (tst ALLOC_ZERO ALLOC_ZERO) with true. cbv iota beta.
    erewrite bind_Ret by (apply upd_page_eq; kred; by rewrite lookup_insert_eq).
    rewrite (page2pa_frame (s := s)) by lia.
    erewrite bind_Ret by (apply kstore_frame; kred; lia).
    erewrite bind_Ret by (apply kload_frame; kred; lia).
    kred. rewrite word_set_eq, <- !Z.lor_assoc. change (Z.lor PTE_U (Z.lor PTE_W PTE_P)) with 7.
    rewrite lor_page, u32_id by lia.
    rewrite PTE_ADDR_fr by lia. replace (fr (f * 4096 + 7)) with f by (unfold fr; zlia).
    erewrite bind_Ret by (apply KADDR_frame; kred; lia).
    rewrite Hpp. reflexivity. }
  assert (forall j, has_table m' d j <-> has_table (pmem s) d j \/ j = PDX va) as Hiff.
  { intros j. destruct (decide (j = PDX va)) as [->|Hj]; [by split; [right|]|].
    unfold has_table. rewrite Hwj by done. naive_solver. }
  exists fl'. change (pmem s') with m'. rewrite Hft. 
  assert (~ has_table (pmem s) d (PDX va)) as Hno by (intros (_ & _ & Hj); fold w in Hj; congruence).
  split; [|by split_and!; auto].
  constructor; try done; change (pmem s') with m'.
  - intros g Hg. by right.
  - intros j Hj. split; [apply Hiff; by left|]. rewrite Hwj; [done|]. by intros ->.
  - intros j [Hj| ->]%Hiff; [by left|right]. rewrite Hft. by left.
  - intros g i Hgd [Hgf _]%not_elem_of_cons _. unfold m'. rewrite word_set_ne by auto.
    by rewrite word_zero_page, decide_False.
Qed.

(** ** [boot_map_region] *)

(** The memory after the first [k] of the pages from [v] on are mapped to the
    frames from [p] on. *)
Definition mapped_upto (m m' : physmem) (d v p perm k : Z) : Prop :=
  forall u, 0 <= u < VPNS -> u / 1024 <> UVPTX ->
    pte m' d u = if decide (v <= u < v + k) then new_entry (p + (u - v)) perm else pte m d u.

(** Tables that mapping [n] pages from [v] on can need. *)
Definition tables_for (v n : Z) : Z := (v + n - 1) / 1024 - v / 1024 + 1.

Section Region.
Context {s : kstate} {fl : list Z} {d va pa n perm : Z}.
Let v := va / 4096.
Let p := pa / 4096.
Hypothesis Hfl : free_list s fl.
Hypothesis OK : kdir_ok (pmem s) (npages s) fl d.
Hypothesis Hva : 0 <= va /\ va mod 4096 = 0.
Hypothesis Hpa : 0 <= pa /\ pa mod 4096 = 0.
Hypothesis Hn : 0 < n /\ va + n * 4096 <= 2 ^ 32 /\ pa + n * 4096 <= 2 ^ 32.
Hypothesis Hu : v + n <= UVPTX * 1024 \/ (UVPTX + 1) * 1024 <= v.
Hypothesis Hperm : 0 <= perm < 4096.
Hypothesis Hroom : tables_for v n <= Z.of_nat (length fl).

Record region_upto (k : Z) (s' : kstate) : Prop := {
  ru_grow : exists fl', kgrow d fl fl' s s' /\
    (k = 0 /\ fl' = fl \/ 0 < k /\ has_table (pmem s') d ((v + k - 1) / 1024) /\
       tables_for v n <= Z.of_nat (length fl') + tables_for v k);
  ru_map : mapped_upto (pmem s) (pmem s') d v p perm k
}.

Lemma region_index k : 0 <= k < n ->
  u32 (va + k * PGSIZE) = (v + k) * 4096 /\ u32 (pa + k * PGSIZE) = (p + k) * 4096 /\
  0 <= v + k < VPNS /\ (v + k) / 1024 <> UVPTX /\
  PDX ((v + k) * 4096) = (v + k) / 1024 /\ PTX ((v + k) * 4096) = (v + k) mod 1024.
Proof.
  intros Hk. change PGSIZE with 4096. unfold v, p, UVPTX, VPNS in *.
  rewrite !u32_id, PDX_div, PTX_div by zlia. split_and!; zlia.
Qed.

Lemma region_step k s1 : 0 <= k < n -> region_upto k s1 ->
  wp (pte ← pgdir_walk (kva d) (u32 (va + k * PGSIZE)) true;
      kstore pte (Z.lor (Z.lor (u32 (pa + k * PGSIZE)) perm) PTE_P))
    (fun _ s' => region_upto (k + 1) s') s1.
Proof.
  intros Hk [(fl1 & Hg & Hcase) Hm]. destruct (region_index k Hk) as (-> & -> & Hv & Hvu & HD & HT).
  pose proof (kg_ok _ _ _ _ _ Hg) as OK1. pose proof (ao_np _ _ _ _ (kg_free _ _ _ _ _ Hg)) as Hnp.
  assert (has_table (pmem s1) d ((v + k) / 1024) \/ fl1 <> []) as Hor.
  { destruct Hcase as [[-> ->]|(Hk0 & Ht & Hlen)].
    - right. intros ->. cbn in Hroom. unfold tables_for in Hroom. zlia.
    - destruct (decide ((v + k) / 1024 = (v + k - 1) / 1024)) as [->|Hne]; [by left|right].
      intros ->. cbn in Hlen. unfold tables_for in Hlen. zlia. }
  apply wp_bind. eapply wp_mono; [apply (kwalk_wp d s1 fl1); try done; [apply Hg|unfold VPNS in Hv; lia|by rewrite HD..]|].
  rewrite HD, HT. intros r s2 (fl2 & Hg2 & -> & Ht2 & Hl2 & Hiff & Hpte).
  pose proof (kg_ok _ _ _ _ _ Hg2) as OK2. pose proof (ao_np _ _ _ _ (kg_free _ _ _ _ _ Hg2)) as Hnp2.
  destruct (kd_table _ _ _ _ OK2 _ Ht2) as (Hf & Hff & Hfd).
  pose proof (kgrow_trans _ _ _ _ _ _ _ Hg Hg2) as Hg3.
  set (f := fr (word (pmem s2) d ((v + k) / 1024))) in *.
  assert (0 <= (v + k) mod 1024 < 1024) as Hj by zlia.
  eapply wp_Ret; [apply kstore_frame; lia|]. fold (new_entry (p + k) perm).
  assert (0 <= new_entry (p + k) perm < 2 ^ 32) as He.
  { rewrite new_entry_eq by done. pose proof (lor_small perm PTE_P 12 ltac:(lia) Hperm ltac:(unfold PTE_P; lia)).
    unfold p. zlia. }
  rewrite u32_id by done. unfold f.
  assert (forall u, 0 <= u < VPNS -> u / 1024 <> UVPTX -> _) as Hset
    by exact (fun u => kdir_set OK2 ((v + k) / 1024) ((v + k) mod 1024) (new_entry (p + k) perm) u Ht2 Hj He).
  cbv zeta in Hset. fold f in Hset |- *. set (m3 := set_word f _ _ (pmem s2)) in *.
  destruct (Hset (v + k) Hv Hvu) as (OK3 & Hd3 & _).
  assert (forall j, has_table m3 d j <-> has_table (pmem s2) d j) as Ht3
    by (intros j; unfold has_table; by rewrite Hd3).
  constructor; kred; fold m3.
  - exists fl2. split.
    + destruct Hg3 as [H1 H2 H3 H4 H5 H6 H7 H8]. constructor; try done; kred; fold m3.
      * destruct H3. by constructor.
      * intros j Hj0. rewrite Ht3, Hd3. by apply H6.
      * intros j Hj0. rewrite Hd3. by apply H7, Ht3.
      * intros g i Hgd Hgf Hgt. unfold m3. rewrite word_set_ne; [by apply H8|]. left. intros <-.
        destruct (H7 _ Ht2) as [H9|H9]; [|done]. destruct (H6 _ H9) as [_ H10]. apply (Hgt _ H9). by rewrite <- H10.
    + right. replace (v + (k + 1) - 1) with (v + k) by lia. split; [lia|]. split; [by apply Ht3|].
      unfold tables_for in *. destruct Hcase as [[-> ->]|(Hk0 & Ht & Hlen)], Hl2 as [[Ht1 ->]|[Ht1 Hl2]]; [zlia..|].
      assert ((v + k) / 1024 <> (v + k - 1) / 1024) by (intros Heq; by rewrite Heq in Ht1). zlia.
  - intros u Hur Huu. destruct (Hset u Hur Huu) as (_ & _ & ->). rewrite Hpte, Hm by done.
    replace ((v + k) / 1024 * 1024 + (v + k) mod 1024) with (v + k) by zlia.
    destruct (decide (u = v + k)) as [->|].
    + rewrite decide_True by lia. f_equal. lia.
    + case_decide; case_decide; (done || lia).
Qed.
End Region.

Lemma region_pages size : 0 < size <= 2 ^ 32 - 4096 -> PGNUM (ROUNDUP size PGSIZE) = (size + 4095) / 4096.
Proof.
  intros H. rewrite ROUNDUP_spec by lia. destruct (Z.leb_spec size (2 ^ 32 - 4096)); [|lia].
  rewrite PGNUM_div by zlia. zlia.
Qed.

Lemma boot_map_region_wp s fl d va size pa perm :
  let n := (size + 4095) / 4096 in let v := va / 4096 in
  free_list s fl -> kdir_ok (pmem s) (npages s) fl d -> 0 < size <= 2 ^ 32 - 4096 ->
  0 <= va /\ va mod 4096 = 0 -> 0 <= pa /\ pa mod 4096 = 0 ->
  va + n * 4096 <= 2 ^ 32 /\ pa + n * 4096 <= 2 ^ 32 ->
  v + n <= UVPTX * 1024 \/ (UVPTX + 1) * 1024 <= v -> 0 <= perm < 4096 ->
  tables_for v n <= Z.of_nat (length fl) ->
  wp (boot_map_region (kva d) va size pa perm) (fun _ s' =>
    (exists fl', kgrow d fl fl' s s') /\ mapped_upto (pmem s) (pmem s') d v (pa / 4096) perm n) s.
Proof.
  intros n v Hfl OK Hs Hva Hpa Hle Hu Hperm Hroom. unfold boot_map_region. rewrite region_pages by done. fold n.
  assert (0 < n) as Hn by (unfold n; zlia).
  eapply (wp_for_loop _ 0 1 _ (region_upto (s := s) (fl := fl) (d := d) (va := va) (pa := pa) (n := n) (perm := perm))).
  - constructor; [exists fl; split; [by apply kgrow_refl|by left]|]. intros u _ _. by rewrite decide_False by lia.
  - intros k s1 Hk HI. rewrite Z.mul_1_l, Z.add_0_l in *. apply region_step; (done || lia || (split_and!; lia)).
  - intros s' [(fl' & Hg & _) Hm]. rewrite Z.mul_1_l, Z.add_0_l, Z2Nat.id in * by lia. split; [by exists fl'|exact Hm].
Qed.

(** [boot_map_region] maps exactly the pages of its range, each to the frame
    at the same distance from [pa] with [perm] and [PTE_P], and no other page
    of the directory changes.  It takes page tables off the free list where
    there are none, gives each its own entry, and touches no other memory. *)
Theorem boot_map_region_correct s fl d va size pa perm :
  let n := (size + 4095) / 4096 in let v := va / 4096 in
  free_list s fl -> kdir_ok (pmem s) (npages s) fl d -> 0 < size <= 2 ^ 32 - 4096 ->
  0 <= va /\ va mod 4096 = 0 -> 0 <= pa /\ pa mod 4096 = 0 ->
  va + n * 4096 <= 2 ^ 32 /\ pa + n * 4096 <= 2 ^ 32 ->
  v + n <= UVPTX * 1024 \/ (UVPTX + 1) * 1024 <= v -> 0 <= perm < 4096 ->
  tables_for v n <= Z.of_nat (length fl) ->
  wp (boot_map_region (kva d) va size pa perm) (fun _ s' => exists fl',
    free_list s' fl' /\ kdir_ok (pmem s') (npages s') fl' d /\ vm_frame s s' /\
    kernel_only (pmem s) (pmem s') fl d /\
    (forall k, 0 <= k < n -> pte (pmem s') d (v + k) = new_entry (pa / 4096 + k) perm) /\
    (forall u, 0 <= u < VPNS -> u / 1024 <> UVPTX -> ~ v <= u < v + n ->
       pte (pmem s') d u = pte (pmem s) d u)) s.
Proof.
  intros n v Hfl OK Hs Hva Hpa Hle Hu Hperm Hroom.
  eapply wp_mono; [by apply (boot_map_region_wp s fl d va size pa perm)|].
  fold n v. intros [] s' [(fl' & Hg) Hm]. exists fl'. destruct Hg. split_and!; try done.
  - intros k Hk. rewrite Hm by (unfold v, VPNS, UVPTX in *; zlia). rewrite decide_True by lia. f_equal. lia.
  - intros u Hu1 Hu2 Hu3. by rewrite Hm, decide_False.
Qed.

(** ** [mmio_map_region] *)

(** [mmio_map_region] reserves the next pages of the device area: it returns
    the old end of the area, maps there exactly the pages of the device,
    uncached and for the kernel alone, and moves the end past them; when they
    do not fit below [MMIOLIM] it panics and changes nothing. *)
Theorem mmio_map_region_correct s fl d pa size :
  let n := (size + 4095) / 4096 in let v := mmio_base s / 4096 in
  free_list s fl -> kdir_ok (pmem s) (npages s) fl d -> kern_pgdir s = kva d ->
  0 < size <= 0x10000000 -> 0 <= pa /\ pa mod 4096 = 0 -> pa + n * 4096 <= 2 ^ 32 ->
  MMIOBASE <= mmio_base s <= MMIOLIM -> mmio_base s mod 4096 = 0 -> tables_for v n <= Z.of_nat (length fl) ->
  if MMIOLIM <? mmio_base s + n * 4096
  then mmio_map_region pa size s = Panic "no enough memory for MMIO map" s
  else wp (mmio_map_region pa size) (fun r s' => exists fl',
    r = mmio_base s /\ mmio_base s' = mmio_base s + n * 4096 /\
    free_list s' fl' /\ kdir_ok (pmem s') (npages s') fl' d /\ kernel_only (pmem s) (pmem s') fl d /\
    (forall k, 0 <= k < n -> pte (pmem s') d (v + k) = (pa / 4096 + k) * 4096 + 0x1b) /\
    (forall u, 0 <= u < VPNS -> u / 1024 <> UVPTX -> ~ v <= u < v + n ->
       pte (pmem s') d u = pte (pmem s) d u)) s.
Proof.
  intros n v Hfl OK Hkp Hs Hpa Hle Hb Hal Hroom.
  assert (ROUNDUP size PGSIZE = n * 4096) as Hr.
  { rewrite ROUNDUP_spec by lia. destruct (Z.leb_spec size (2 ^ 32 - 4096)); [done|lia]. }
  assert (0 <= n * 4096 < 0x10001000) as Hn by (unfold n; zlia).
  unfold mmio_map_region. rewrite Hr. cbv zeta.
  destruct (Z.ltb_spec MMIOLIM (mmio_base s + n * 4096)) as [Hbig|Hfit].
  { erewrite bind_Ret by reflexivity. cbv beta. rewrite u32_id by lia.
    destruct (Z.ltb_spec MMIOLIM (mmio_base s + n * 4096)); [done|lia]. }
  apply wp_bind, wp_gets. rewrite u32_id by lia.
  destruct (Z.ltb_spec MMIOLIM (mmio_base s + n * 4096)); [lia|].
  apply wp_bind, wp_gets. rewrite Hkp.
  assert ((n * 4096 + 4095) / 4096 = n) as Hnn by zlia.
  apply wp_bind. eapply wp_mono.
  { apply (boot_map_region_wp s fl d (mmio_base s) (n * 4096) pa); rewrite ?Hnn; try done;
      clear -Hn Hs Hle Hb Hal Hpa Hfit; unfold UVPTX, n in *; zlia. }
  rewrite Hnn. intros [] s' [(fl' & Hg) Hm]. wp_steps. exists fl'. kred. split; [done|]. split; [done|].
  destruct Hg. split_and!; try done.
  - intros k Hk. fold v in Hm. rewrite Hm by (unfold v, VPNS, UVPTX in *; zlia). rewrite decide_True by lia.
    rewrite new_entry_eq by done. cbn. f_equal. f_equal. lia.
  - intros u Hu1 Hu2 Hu3. fold v in Hm. by rewrite Hm, decide_False.
Qed.

(** [four_pages] with the directory in page 1 as the kernel's. *)
Definition kdir_demo : kstate := put kern_pgdir (kva 1) four_pages.

Lemma kdir_demo_free : free_list kdir_demo [3].
Proof. exact (vi_alloc _ _ _ _ _ four_pages_inv). Qed.

Lemma kdir_demo_ok : kdir_ok (pmem kdir_demo) (npages kdir_demo) [3] 1.
Proof.
  assert (forall f i, word (pmem kdir_demo) f i = 0) as Hw by (intros f i; change (pmem kdir_demo) with (∅ : physmem); unfold word; by rewrite lookup_empty).
  constructor; unfold has_table.
  - intros f i. rewrite Hw. lia.
  - split; [cbn; lia|set_solver].
  - intros i (_ & _ & H). by rewrite Hw in H.
  - intros i j (_ & _ & H). by rewrite Hw in H.
Qed.

Lemma boot_map_region_correct_witness :
  exists s', boot_map_region (kva 1) (KSTACKTOP - PGSIZE) PGSIZE 0x2000 PTE_W kdir_demo = Ret tt s' /\
    pte (pmem s') 1 (PGNUM (KSTACKTOP - PGSIZE)) = 0x2003.
Proof.
  pose proof (boot_map_region_correct kdir_demo [3] 1 (KSTACKTOP - PGSIZE) PGSIZE 0x2000 PTE_W
    kdir_demo_free kdir_demo_ok ltac:(done) ltac:(done) ltac:(done) ltac:(done)
    ltac:(right; done) ltac:(done) ltac:(done)) as H.
  apply wp_inv in H as ([] & s' & Hs & fl' & _ & _ & _ & _ & Hm & _). exists s'. split; [exact Hs|].
  change (PGNUM (KSTACKTOP - PGSIZE)) with ((KSTACKTOP - PGSIZE) / 4096 + 0). rewrite (Hm 0) by (split; [done|reflexivity]). reflexivity.
Defined.

Lemma mmio_map_region_correct_witness :
  exists s', mmio_map_region 0xfee00000 4096 kdir_demo = Ret MMIOBASE s' /\
    pte (pmem s') 1 (PGNUM MMIOBASE) = 0xfee0001b.
Proof.
  pose proof (mmio_map_region_correct kdir_demo [3] 1 0xfee00000 4096
    kdir_demo_free kdir_demo_ok eq_refl ltac:(done) ltac:(done) ltac:(done) ltac:(done) ltac:(done) ltac:(done)) as H.
  cbv zeta in H. change (MMIOLIM <? mmio_base kdir_demo + (4096 + 4095) / 4096 * 4096) with false in H. cbv iota in H.
  apply wp_inv in H as (r & s' & Hs & fl' & -> & _ & _ & _ & _ & Hm & _). exists s'. split; [exact Hs|].
  change (PGNUM MMIOBASE) with (mmio_base kdir_demo / 4096 + 0). rewrite (Hm 0) by (split; [done|reflexivity]). reflexivity.
Defined.
