(* ===== verification/Lapic.v ===== *)
(** * The local APIC ([kern/lapic.c])

    A store to a register of the device is an event of the trace; a load is the
    parameter [lapic_read]; the identifier [cpunum()] reads from it is the field
    [cpunum] of the state.  A wait until the device has delivered an interrupt
    is an event too.  [microdelay] does nothing. *)

From Stdlib Require Import Lia ZArith ZifyClasses ZifyInst ZifyBool.
From stdpp Require Import base gmap list strings numbers.
From S2P Require Import Prelude Cmonad Mmu Printfmt Console State Spinlock Umem Pmap.

(** Interrupt numbers of [inc/trap.h]. *)
Definition IRQ_OFFSET : Z := 32.
Definition IRQ_TIMER : Z := 0.
Definition IRQ_SPURIOUS : Z := 7.
Definition IRQ_ERROR : Z := 19.

(** Registers, as indices of 32-bit words, and their bits. *)
Definition ID : Z := 0x0020 / 4.
Definition VER : Z := 0x0030 / 4.
Definition TPR : Z := 0x0080 / 4.
Definition EOI : Z := 0x00B0 / 4.
Definition SVR : Z := 0x00F0 / 4.
Definition ENABLE : Z := 0x00000100.
Definition ESR : Z := 0x0280 / 4.
Definition ICRLO : Z := 0x0300 / 4.
Definition INIT : Z := 0x00000500.
Definition STARTUP : Z := 0x00000600.
Definition DELIVS : Z := 0x00001000.
Definition ASSERT : Z := 0x00004000.
Definition LEVEL : Z := 0x00008000.
Definition BCAST : Z := 0x00080000.
Definition OTHERS : Z := 0x000C0000.
Definition FIXED : Z := 0x00000000.
Definition ICRHI : Z := 0x0310 / 4.
Definition TIMER : Z := 0x0320 / 4.
Definition X1 : Z := 0x0000000B.
Definition PERIODIC : Z := 0x00020000.
Definition PCINT : Z := 0x0340 / 4.
Definition LINT0 : Z := 0x0350 / 4.
Definition LINT1 : Z := 0x0360 / 4.
Definition ERROR : Z := 0x0370 / 4.
Definition MASKED : Z := 0x00010000.
Definition TICR : Z := 0x0380 / 4.
Definition TDCR : Z := 0x03E0 / 4.

Section Lapic.
Context {machine : Machine}.

Definition lapicw (index value : Z) : K unit := emit (EvLapicw index (u32 value)).

Definition lapic_wait : K unit := emit (EvLapicWait ICRLO DELIVS).

Definition lapic_init : K unit :=
  pa ← gets lapicaddr;
  if pa =? 0 then mret tt
  else
    l ← mmio_map_region pa 4096;
    modify (put lapic l) ;;
    lapicw SVR (Z.lor ENABLE (IRQ_OFFSET + IRQ_SPURIOUS)) ;;
    lapicw TDCR X1 ;;
    lapicw TIMER (Z.lor PERIODIC (IRQ_OFFSET + IRQ_TIMER)) ;;
    lapicw TICR 10000000 ;;
    me ← gets cpunum;
    boot ← gets bootcpu;
    when (negb (me =? boot)) (lapicw LINT0 MASKED) ;;
    lapicw LINT1 MASKED ;;
    when (4 <=? Z.land (Z.shiftr (lapic_read VER) 16) 0xFF) (lapicw PCINT MASKED) ;;
    lapicw ERROR (IRQ_OFFSET + IRQ_ERROR) ;;
    lapicw ESR 0 ;;
    lapicw ESR 0 ;;
    lapicw EOI 0 ;;
    lapicw ICRHI 0 ;;
    lapicw ICRLO (Z.lor (Z.lor BCAST INIT) LEVEL) ;;
    lapic_wait ;;
    lapicw TPR 0.

Definition lapic_eoi : K unit :=
  l ← gets lapic; when (negb (l =? NULL)) (lapicw EOI 0).

Definition IO_RTC : Z := 0x70.

(** A 16-bit store at the kernel address [va]. *)
Definition kstore16 (va v : Z) : K unit := write_le kstore_byte 2 va (u16 v).

Definition lapic_startap (apicid addr : Z) : K unit :=
  with_cons (outb IO_RTC 0xF) ;;
  with_cons (outb (IO_RTC + 1) 0x0A) ;;
  wrv ← KADDR (Z.lor (Z.shiftl 0x40 4) 0x67);
  kstore16 wrv 0 ;;
  kstore16 (wrv + 2) (Z.shiftr addr 4) ;;
  lapicw ICRHI (Z.shiftl apicid 24) ;;
  lapicw ICRLO (Z.lor (Z.lor INIT LEVEL) ASSERT) ;;
  lapicw ICRLO (Z.lor INIT LEVEL) ;;
  for_loop 2 0 1 (fun _ =>
    lapicw ICRHI (Z.shiftl apicid 24) ;;
    lapicw ICRLO (Z.lor STARTUP (Z.shiftr addr 12))).

Definition lapic_ipi (vector : Z) : K unit :=
  lapicw ICRLO (Z.lor (Z.lor OTHERS FIXED) vector) ;;
  lapic_wait.
End Lapic.
