(* ===== verification/Mpconfig.v ===== *)
(** * The multiprocessor configuration tables ([kern/mpconfig.c])

    The BIOS leaves the tables in low memory; their fields are read at their
    offsets in the packed structs.  A [struct mp *] and a [struct mpconf *] are
    the kernel addresses they hold. *)

From Stdlib Require Import Lia ZArith ZifyClasses ZifyInst ZifyBool.
From stdpp Require Import base gmap list strings numbers.
From S2P Require Import Prelude Cmonad Mmu Printfmt Console State Umem Pmap.

(** [struct mp]. *)
Definition sizeof_mp : Z := 16.
Definition mp_physaddr (mp : Z) : K Z := kread32 (mp + 4).
Definition mp_type (mp : Z) : K Z := kload_byte (mp + 11).
Definition mp_imcrp (mp : Z) : K Z := kload_byte (mp + 12).

(** [struct mpconf]. *)
Definition conf_length (conf : Z) : K Z := kread16 (conf + 4).
Definition conf_version (conf : Z) : K Z := kload_byte (conf + 6).
Definition conf_entry (conf : Z) : K Z := kread16 (conf + 34).
Definition conf_lapicaddr (conf : Z) : K Z := kread32 (conf + 36).
Definition conf_xlength (conf : Z) : K Z := kread16 (conf + 40).
Definition conf_xchecksum (conf : Z) : K Z := kload_byte (conf + 42).
Definition conf_entries (conf : Z) : Z := conf + 44.

(** [struct mpproc]. *)
Definition sizeof_mpproc : Z := 20.
Definition proc_apicid (proc : Z) : K Z := kload_byte (proc + 1).
Definition proc_flags (proc : Z) : K Z := kload_byte (proc + 3).

Definition MPPROC_BOOT : Z := 0x02.
Definition MPPROC : Z := 0x00.
Definition MPBUS : Z := 0x01.
Definition MPIOAPIC : Z := 0x02.
Definition MPIOINTR : Z := 0x03.
Definition MPLINTR : Z := 0x04.

Fixpoint sum_loop (n : nat) (addr acc : Z) : K Z :=
  match n with
  | O => mret acc
  | S n' => b ← kload_byte addr; sum_loop n' (addr + 1) (acc + b)
  end.

Definition sum (addr len : Z) : K Z := acc ← sum_loop (Z.to_nat len) addr 0; mret (u8 acc).

(** [memcmp(addr, sig, n) == 0]; the loop stops at the first difference. *)
Fixpoint memcmp_eq (addr : Z) (sig : list Z) : K bool :=
  match sig with
  | [] => mret true
  | c :: sig' => b ← kload_byte addr; if b =? c then memcmp_eq (addr + 1) sig' else mret false
  end.

(** [n] structures from [mp] on. *)
Fixpoint mpsearch_loop (n : nat) (mp : Z) : K (option Z) :=
  match n with
  | O => mret None
  | S n' =>
      sig ← memcmp_eq mp (chars "_MP_");
      found ← (if (sig : bool) then c ← sum mp sizeof_mp; mret (c =? 0) else mret false);
      if (found : bool) then mret (Some mp) else mpsearch_loop n' (mp + sizeof_mp)
  end.

(** The loop [for (; mp < end; mp++)] makes [(end - mp) / 16] rounds, rounded up. *)
Definition mpsearch1 (a len : Z) : K (option Z) :=
  mp ← KADDR a;
  end_ ← KADDR (u32 (a + len));
  mpsearch_loop (Z.to_nat ((end_ - mp + 15) / 16)) mp.

Definition mpsearch : K (option Z) :=
  bda ← KADDR (Z.shiftl 0x40 4);
  p ← kread16 (bda + 0x0E);
  r ← (if negb (p =? 0) then mpsearch1 (Z.shiftl p 4) 1024
       else p ← kread16 (bda + 0x13); mpsearch1 (u32 (p * 1024 - 1024)) 1024);
  match r with
  | Some mp => mret (Some mp)
  | None => mpsearch1 0xF0000 0x10000
  end.

(** The result is the pair of [*pmp] and the table. *)
Definition mpconfig : K (option (Z * Z)) :=
  r ← mpsearch;
  match r with
  | None => mret None
  | Some mp =>
      pa ← mp_physaddr mp;
      bad ← (if pa =? 0 then mret true else t ← mp_type mp; mret (negb (t =? 0)));
      if (bad : bool) then cprintln "SMP: Default configurations not implemented" [] ;; mret None
      else
        conf ← KADDR pa;
        sig ← memcmp_eq conf (chars "PCMP");
        if negb (sig : bool) then
          cprintln "SMP: Incorrect MP configuration table signature" [] ;; mret None
        else
          len ← conf_length conf;
          c ← sum conf len;
          if negb (c =? 0) then cprintln "SMP: Bad MP configuration checksum" [] ;; mret None
          else
            v ← conf_version conf;
            if negb (v =? 1) && negb (v =? 4) then
              cprintln "SMP: Unsupported MP version %d" [AInt v] ;; mret None
            else
              xlen ← conf_xlength conf;
              c ← sum (conf + len) xlen;
              x ← conf_xchecksum conf;
              if negb (Z.land (c + x) 0xff =? 0) then
                cprintln "SMP: Bad MP configuration extended checksum" [] ;; mret None
              else mret (Some (mp, conf))
  end.

(** [cpus[i]] for writing. *)
Definition upd_cpu (i : Z) (g : CpuInfo -> CpuInfo) : K unit := fun s =>
  match cpus s !! i with
  | Some c => Ret tt (upd cpus (fun a => <[i := g c]> a) s)
  | None => Undef "outside the cpus array"
  end.

(** The case [MPPROC] of the switch. *)
Definition mp_proc (p : Z) : K unit :=
  fl ← proc_flags p;
  n ← gets ncpu;
  when (tst fl MPPROC_BOOT) (modify (put bootcpu n)) ;;
  if n <? NCPU then
    upd_cpu n (put cpu_id n) ;;
    modify (put ncpu (n + 1))
  else
    apicid ← proc_apicid p;
    cprintln "SMP: too many CPUs, CPU %d disabled" [AInt apicid].

(** The loop over the table: [n] entries are left.  The default case ends it,
    by setting [i]. *)
Fixpoint mp_entries (n : nat) (p : Z) : K unit :=
  match n with
  | O => mret tt
  | S n' =>
      t ← kload_byte p;
      if t =? MPPROC then mp_proc p ;; mp_entries n' (p + sizeof_mpproc)
      else if (t =? MPBUS) || (t =? MPIOAPIC) || (t =? MPIOINTR) || (t =? MPLINTR) then
        mp_entries n' (p + 8)
      else
        cprintln "mpinit: unknown config type %x" [AInt t] ;;
        modify (put ismp false)
  end.

(** [imcr] is what the port 0x23 reads as. *)
Definition mp_init (imcr : Z) : K unit :=
  modify (put bootcpu 0) ;;
  r ← mpconfig;
  match r with
  | None => mret tt
  | Some (mp, conf) =>
      modify (put ismp true) ;;
      l ← conf_lapicaddr conf;
      modify (put lapicaddr l) ;;
      n ← conf_entry conf;
      mp_entries (Z.to_nat n) (conf_entries conf) ;;
      b ← gets bootcpu;
      upd_cpu b (put cpu_status CPU_STARTED) ;;
      ok ← gets ismp;
      if negb ok then
        modify (put ncpu 1) ;;
        modify (put lapicaddr 0) ;;
        cprintln "SMP: configuration not found, SMP disabled" []
      else
        cs ← gets cpus;
        n ← gets ncpu;
        cprintln "SMP: CPU %d found %d CPU(s)" [AInt (default 0 (cpu_id <$> cs !! b)); AInt n] ;;
        m ← mp_imcrp mp;
        when (negb (m =? 0))
          (cprintln "SMP: Setting IMCR to switch from PIC mode to symmetric I/O mode" [] ;;
           with_cons (outb 0x22 0x70 ;; outb 0x23 (Z.lor imcr 1)))
  end.
