(* ===== verification/MpSpec.v ===== *)
(** * Properties of the multiprocessor configuration *)

From Stdlib Require Import Lia ZArith ZifyClasses ZifyInst ZifyBool.
From stdpp Require Import base gmap list strings numbers.
From S2P Require Import Prelude Cmonad Mmu Printfmt Console State Umem Pmap Mpconfig.

(** ** Reading low memory *)

Definition ram (s : kstate) (va n : Z) : Prop := KERNBASE <= va /\ va + n <= KERNBASE + npages s * PGSIZE.

Definition kbyte (s : kstate) (va : Z) : Z := get_byte (pmem s) (va - KERNBASE).

Lemma kload_byte_eq s va : ram s va 1 -> kload_byte va s = Ret (kbyte s va) s.
Proof.
  intros [H1 H2]. unfold kload_byte, in_linear, pload_byte.
  destruct (Z.leb_spec KERNBASE va); [|lia]. destruct (Z.ltb_spec (va - KERNBASE) (npages s * PGSIZE)); [|lia]. cbn [andb].
  change PGSIZE with 4096 in *.
  destruct (Z.ltb_spec ((va - KERNBASE) / 4096) (npages s)); [done|Z.div_mod_to_equations; lia].
Qed.

(** The little-endian number in [n] bytes. *)
Fixpoint kle (s : kstate) (n : nat) (va : Z) : Z :=
  match n with O => 0 | S n' => kbyte s va + 256 * kle s n' (va + 1) end.

Lemma read_le_eq s n va : ram s va (Z.of_nat n) -> read_le kload_byte n va s = Ret (kle s n va) s.
Proof.
  revert va. induction n as [|n IH]; intros va [H1 H2]; cbn [read_le kle]; [done|].
  erewrite bind_Ret by (apply kload_byte_eq; split; lia). by erewrite bind_Ret by (apply IH; split; lia).
Qed.

Fixpoint byte_sum (s : kstate) (va : Z) (n : nat) : Z :=
  match n with O => 0 | S n' => kbyte s va + byte_sum s (va + 1) n' end.

Lemma sum_loop_eq s n va acc : ram s va (Z.of_nat n) -> sum_loop n va acc s = Ret (acc + byte_sum s va n) s.
Proof.
  revert va acc. induction n as [|n IH]; intros va acc H; cbn [sum_loop byte_sum]; [by rewrite Z.add_0_r|].
  destruct H as [H1 H2]. erewrite bind_Ret by (apply kload_byte_eq; split; lia).
  rewrite IH by (split; lia). by rewrite Z.add_assoc.
Qed.

Lemma memcmp_eq_spec s va sig : ram s va (Z.of_nat (length sig)) -> exists b, memcmp_eq va sig s = Ret b s /\
  (b = true <-> forall i c, sig !! i = Some c -> kbyte s (va + Z.of_nat i) = c).
Proof.
  revert va. induction sig as [|c sig IH]; intros va H; cbn [memcmp_eq].
  - by exists true.
  - destruct H as [H1 H2]. cbn [length] in H2. erewrite bind_Ret by (apply kload_byte_eq; split; lia).
    destruct (Z.eqb_spec (kbyte s va) c) as [Hc|Hc].
    + destruct (IH (va + 1)) as (b & Hb & Heq); [split; lia|]. exists b. split; [done|]. rewrite Heq. split; intros Hi.
      * intros [|i] c'; cbn; [intros [= <-]; by rewrite Z.add_0_r|]. intros Hl.
        replace (va + Z.of_nat (S i)) with (va + 1 + Z.of_nat i) by lia. by apply Hi.
      * intros i c' Hl. replace (va + 1 + Z.of_nat i) with (va + Z.of_nat (S i)) by lia. by apply Hi.
    + exists false. split; [done|]. split; [done|]. intros Hi. exfalso. apply Hc. pose proof (Hi 0%nat c eq_refl) as Hi0. by rewrite Z.add_0_r in Hi0.
Qed.

(** A floating pointer structure. *)
Definition mp_at (s : kstate) (va : Z) : Prop :=
  (forall i c, chars "_MP_" !! i = Some c -> kbyte s (va + Z.of_nat i) = c) /\ byte_sum s va 16 mod 256 = 0.

Lemma mpsearch_loop_eq s n va : ram s va (16 * Z.of_nat n) -> exists r, mpsearch_loop n va s = Ret r s /\
  match r with
  | Some mp => exists k, (k < n)%nat /\ mp = va + 16 * Z.of_nat k /\ mp_at s mp /\ forall j, (j < k)%nat -> ~ mp_at s (va + 16 * Z.of_nat j)
  | None => forall j, (j < n)%nat -> ~ mp_at s (va + 16 * Z.of_nat j)
  end.
Proof.
  revert va. induction n as [|n IH]; intros va [H1 H2]; cbn [mpsearch_loop].
  { exists None. split; [done|]. intros; lia. }
  destruct (memcmp_eq_spec s va (chars "_MP_")) as (b & Hb & Hsig); [split; cbn; lia|].
  erewrite bind_Ret by exact Hb.
  assert (exists f, (if b then c ← sum va sizeof_mp; mret (c =? 0) else mret false) s = Ret f s /\ (f = true <-> mp_at s va)) as (f & Hf & Hmp).
  { destruct b.
    - exists (u8 (byte_sum s va 16) =? 0). split.
      + erewrite bind_Ret; [done|]. unfold sum. change (Z.to_nat sizeof_mp) with 16%nat.
        erewrite bind_Ret by (apply sum_loop_eq; split; lia). done.
      + rewrite Z.eqb_eq. unfold mp_at, u8. split; [|by intros [_ ?]]. intros ?. split; [by apply Hsig|done].
    - exists false. split; [done|]. split; [done|]. intros [? _]. by apply Hsig. }
  erewrite bind_Ret by exact Hf. destruct f.
  - exists (Some va). split; [done|]. exists 0%nat. split_and!; [lia|lia|by apply Hmp|intros; lia].
  - assert (~ mp_at s va) as Hno by (intros ?%Hmp; done).
    assert (forall j, (forall i, (i < j)%nat -> ~ mp_at s (va + sizeof_mp + 16 * Z.of_nat i)) -> forall i, (i < S j)%nat -> ~ mp_at s (va + 16 * Z.of_nat i)) as Hext.
    { intros j Hj [|i] Hi; [by rewrite Z.mul_0_r, Z.add_0_r|].
      replace (va + 16 * Z.of_nat (S i)) with (va + sizeof_mp + 16 * Z.of_nat i) by (unfold sizeof_mp; lia). apply Hj. lia. }
    destruct (IH (va + sizeof_mp)) as ([mp|] & Hr & Hs); [split; unfold sizeof_mp; lia| |].
    + destruct Hs as (k & Hk & -> & Hat & Hbefore). exists (Some (va + sizeof_mp + 16 * Z.of_nat k)). split; [done|]. exists (S k).
      split_and!; [lia|unfold sizeof_mp; lia|done|by apply Hext].
    + exists None. split; [done|]. by apply Hext.
Qed.

(** [mpsearch1] looks at the [len] bytes at [a] in steps of a structure and
    finds the first floating pointer structure there, one with the signature and
    bytes that add up to 0 modulo 256, or says that there is none. *)
Theorem mpsearch1_correct s a len :
  0 <= a -> 0 <= len -> a mod 16 = 0 -> len mod 16 = 0 -> a + len < npages s * PGSIZE -> npages s * PGSIZE <= 2 ^ 28 ->
  exists r, mpsearch1 a len s = Ret r s /\
  match r with
  | Some mp => exists k, 0 <= k < len / 16 /\ mp = KERNBASE + a + 16 * k /\ mp_at s mp /\
      forall j, 0 <= j < k -> ~ mp_at s (KERNBASE + a + 16 * j)
  | None => forall j, 0 <= j < len / 16 -> ~ mp_at s (KERNBASE + a + 16 * j)
  end.
Proof.
  intros Ha Hl Ham Hlm Hram Hsz. change PGSIZE with 4096 in *.
  assert (forall x, 0 <= x < npages s * 4096 -> KADDR x s = Ret (KERNBASE + x) s) as HK.
  { intros x Hx. unfold KADDR, gets, mbind, M_bind. rewrite PGNUM_div by lia.
    destruct (Z.leb_spec (npages s) (x / 4096)) as [Hle|_]; [Z.div_mod_to_equations; lia|].
    unfold mret, M_ret. rewrite u32_id by lia. f_equal. lia. }
  unfold mpsearch1. erewrite bind_Ret by (apply HK; lia). rewrite u32_id by lia. erewrite bind_Ret by (apply HK; lia).
  replace (KERNBASE + (a + len) - (KERNBASE + a) + 15) with (15 + len) by lia.
  assert ((15 + len) / 16 = len / 16) as -> by (Z.div_mod_to_equations; lia).
  set (n := Z.to_nat (len / 16)). assert (Z.of_nat n = len / 16) as Hn by (unfold n; Z.div_mod_to_equations; lia).
  destruct (mpsearch_loop_eq s n (KERNBASE + a)) as (r & Hr & Hs).
  { split; change PGSIZE with 4096; Z.div_mod_to_equations; lia. }
  exists r. split; [done|]. destruct r as [mp|].
  - destruct Hs as (k & Hk & -> & Hat & Hb). exists (Z.of_nat k). split_and!; [lia|lia|done|done|].
    intros j Hj. replace j with (Z.of_nat (Z.to_nat j)) by lia. apply Hb. lia.
  - intros j Hj. replace j with (Z.of_nat (Z.to_nat j)) by lia. apply Hs. lia.
Qed.

(** ** The table *)

Inductive entry : Type :=
  | Proc (flags apicid : Z)
  | OtherEntry (t : Z).

(** The entries [l] are in memory from [p] on. *)
Fixpoint table (s : kstate) (p : Z) (l : list entry) : Prop :=
  match l with
  | [] => True
  | Proc fl id :: l' =>
      ram s p 4 /\ kbyte s p = MPPROC /\ kbyte s (p + 1) = id /\ kbyte s (p + 3) = fl /\
      table s (p + sizeof_mpproc) l'
  | OtherEntry t :: l' => ram s p 1 /\ kbyte s p = t /\ MPBUS <= t <= MPLINTR /\ table s (p + 8) l'
  end.

(** The flags of the processors, in order. *)
Fixpoint procs (l : list entry) : list Z :=
  match l with
  | [] => []
  | Proc fl _ :: l' => fl :: procs l'
  | OtherEntry _ :: l' => procs l'
  end.

(** The last processor with the boot flag; [n] were there before, and [b] is the
    one so far.  Those there is no room for all count as number [NCPU]. *)
Fixpoint boot_index (n b : Z) (fls : list Z) : Z :=
  match fls with
  | [] => b
  | fl :: fls' => boot_index (n + 1) (if tst fl MPPROC_BOOT then Z.min n NCPU else b) fls'
  end.

Definition same_memory (s s' : kstate) : Prop :=
  pmem s' = pmem s /\ npages s' = npages s /\ cons s' = cons s /\ ismp s' = ismp s /\ lapicaddr s' = lapicaddr s.

Lemma kle_same s s' k va : pmem s' = pmem s -> kle s' k va = kle s k va.
Proof. intros Hm. revert va. induction k as [|k IH]; intros va; [done|]. cbn [kle]. rewrite IH. unfold kbyte. by rewrite Hm. Qed.

Lemma table_same s s' p l : pmem s' = pmem s -> npages s' = npages s -> table s p l -> table s' p l.
Proof.
  intros Hm Hn. revert p. assert (forall va, kbyte s' va = kbyte s va) as Hk by (intros; unfold kbyte; by rewrite Hm).
  assert (forall va n, ram s va n -> ram s' va n) as Hr by (unfold ram; by rewrite Hn).
  induction l as [|[fl id|t] l IH]; intros p; cbn [table]; [done|..]; rewrite !Hk; naive_solver.
Qed.

(** The entries of [cpus] from [lo] below [hi] have their number in them. *)
Definition numbered (lo hi : Z) (a a' : gmap Z CpuInfo) : Prop :=
  forall i, a' !! i = (if decide (lo <= i < hi) then put cpu_id i else id) <$> a !! i.

Lemma mp_proc_eq s p n fl id :
  ram s p 4 -> kbyte s (p + 1) = id -> kbyte s (p + 3) = fl -> ncpu s = Z.min n NCPU -> 0 <= n ->
  (forall i, 0 <= i < NCPU -> is_Some (cpus s !! i)) ->
  exists s', mp_proc p s = Ret tt s' /\ same_memory s s' /\ ncpu s' = Z.min (n + 1) NCPU /\
    bootcpu s' = (if tst fl MPPROC_BOOT then Z.min n NCPU else bootcpu s) /\
    numbered (Z.min n NCPU) (Z.min (n + 1) NCPU) (cpus s) (cpus s').
Proof.
  intros [H1 H2] Hid Hfl Hn Hn0 Hc. unfold mp_proc, proc_flags.
  erewrite bind_Ret by (apply kload_byte_eq; split; lia). rewrite Hfl. erewrite bind_Ret by reflexivity. rewrite Hn.
  set (s1 := if tst fl MPPROC_BOOT then put bootcpu (Z.min n NCPU) s else s).
  assert ((when (tst fl MPPROC_BOOT) (modify (put bootcpu (Z.min n NCPU))) : K unit) s = Ret tt s1) as Hw
    by (unfold s1; by destruct (tst fl MPPROC_BOOT)).
  erewrite bind_Ret by exact Hw.
  assert (same_memory s s1 /\ ncpu s1 = ncpu s /\ cpus s1 = cpus s /\
    bootcpu s1 = (if tst fl MPPROC_BOOT then Z.min n NCPU else bootcpu s)) as (Hs1 & Hn1 & Hc1 & Hb1)
    by (unfold s1; by destruct (tst fl MPPROC_BOOT)).
  unfold NCPU in *. destruct (Z.ltb_spec (Z.min n 8) 8) as [Hlt|Hge].
  - destruct (Hc (Z.min n 8)) as [c Hcc]; [lia|]. erewrite bind_Ret; [|unfold upd_cpu; rewrite Hc1, Hcc; reflexivity].
    eexists. split; [reflexivity|]. split; [exact Hs1|]. split; [cbn; lia|]. split; [exact Hb1|].
    intros i. kred. rewrite Hc1. replace (Z.min n 8) with n in * by lia. case_decide.
    + assert (i = n) as -> by lia. by rewrite lookup_insert_eq, Hcc.
    + rewrite lookup_insert_ne by lia. by rewrite option_fmap_id.
  - unfold proc_apicid. destruct Hs1 as (Hm & Hp & Hs1). erewrite bind_Ret by (apply kload_byte_eq; split; rewrite ?Hp; lia).
    eexists. split; [reflexivity|]. split; [done|]. split; [cbn; rewrite Hn1; lia|]. split; [done|].
    intros i. kred. cbn. rewrite Hc1. case_decide; [lia|]. by rewrite option_fmap_id.
Qed.

Lemma mp_entries_eq s p n l :
  table s p l -> ncpu s = Z.min n NCPU -> 0 <= n -> (forall i, 0 <= i < NCPU -> is_Some (cpus s !! i)) ->
  let n' := n + Z.of_nat (length (procs l)) in
  exists s', mp_entries (length l) p s = Ret tt s' /\ same_memory s s' /\ ncpu s' = Z.min n' NCPU /\
    bootcpu s' = boot_index n (bootcpu s) (procs l) /\ numbered (Z.min n NCPU) (Z.min n' NCPU) (cpus s) (cpus s').
Proof.
  revert s p n. induction l as [|[fl id|t] l IH]; intros s p n Ht Hn Hn0 Hc; cbn [mp_entries length procs boot_index].
  - exists s. split; [done|]. split; [done|]. split; [lia|]. split; [done|].
    intros i. case_decide; [lia|]. by rewrite option_fmap_id.
  - destruct Ht as ([H1 H2] & Hty & Hid & Hfl & Ht). erewrite bind_Ret by (apply kload_byte_eq; split; lia).
    rewrite Hty. change (MPPROC =? MPPROC) with true. cbv iota.
    destruct (mp_proc_eq s p n fl id) as (s1 & Hp & Hs1 & Hn1 & Hb1 & Hc1); try done.
    erewrite bind_Ret by exact Hp.
    destruct (IH s1 (p + sizeof_mpproc) (n + 1)) as (s2 & He & Hs2 & Hn2 & Hb2 & Hc2); [by eapply table_same; [apply Hs1..|]|done|lia| |].
    { intros i Hi. rewrite Hc1. destruct (Hc i Hi) as [c ->]. by eexists. }
    cbv zeta in *. exists s2. split; [exact He|].
    split; [destruct Hs1 as (? & ? & ? & ? & ?), Hs2 as (? & ? & ? & ? & ?); split_and!; congruence|].
    split; [rewrite Hn2; lia|]. split; [by rewrite Hb2, Hb1|]. intros i. rewrite Hc2, Hc1, <- option_fmap_compose.
    destruct (cpus s !! i) as [c|]; [|done]. cbn. f_equal. unfold NCPU. repeat case_decide; try lia; done.
  - destruct Ht as ([H1 H2] & Hty & Htr & Ht). erewrite bind_Ret by (apply kload_byte_eq; split; lia). rewrite Hty.
    unfold MPBUS, MPLINTR, MPPROC, MPIOAPIC, MPIOINTR in *.
    destruct (Z.eqb_spec t 0); [lia|].
    assert ((t =? 1) || (t =? 2) || (t =? 3) || (t =? 4) = true) as -> by lia. by apply IH.
Qed.

Lemma boot_index_range n b fls : 0 <= n -> 0 <= b <= NCPU -> 0 <= boot_index n b fls <= NCPU.
Proof.
  revert n b. induction fls as [|fl fls IH]; intros n b Hn Hb; cbn [boot_index]; [done|].
  apply IH; [lia|]. unfold NCPU in *. destruct (tst fl MPPROC_BOOT); lia.
Qed.

Lemma upd_cpu_eq s i c g : cpus s !! i = Some c -> upd_cpu i g s = Ret tt (upd cpus (fun a => <[i := g c]> a) s).
Proof. unfold upd_cpu. by intros ->. Qed.

(** C39: with a configuration table that passes its checks, [mp_init] numbers the
    processors the table lists, eight at most, counts them, records the address
    of the local APIC and marks the processor with the boot flag as started.  If
    the boot flag is on a processor there is no room for, it writes to an
    element past the end of [cpus]. *)
Theorem mp_init_correct imcr s mp conf l :
  let s0 := put bootcpu 0 s in
  let b := boot_index 0 0 (procs l) in
  let n := Z.min (Z.of_nat (length (procs l))) NCPU in
  mpconfig s0 = Ret (Some (mp, conf)) s0 -> ram s mp 16 -> ram s conf 44 ->
  kle s 2 (conf + 34) = Z.of_nat (length l) -> table s (conf_entries conf) l ->
  ncpu s = 0 -> (forall i, is_Some (cpus s !! i) <-> 0 <= i < NCPU) ->
  if b <? NCPU then
    exists s', mp_init imcr s = Ret tt s' /\ ismp s' = true /\ lapicaddr s' = kle s 4 (conf + 36) /\
      bootcpu s' = b /\ ncpu s' = n /\
      forall i, cpus s' !! i =
        (fun c => (if decide (i = b) then put cpu_status CPU_STARTED else id)
                    ((if decide (0 <= i < n) then put cpu_id i else id) c)) <$> cpus s !! i
  else mp_init imcr s = Undef "outside the cpus array".
Proof.
  intros s0 b n Hmp Hrm Hrc Hlen Ht Hn0 Hc. unfold mp_init.
  erewrite bind_Ret by reflexivity. fold s0. erewrite bind_Ret by exact Hmp. cbv iota beta.
  erewrite bind_Ret by reflexivity. set (s1 := put ismp true s0).
  assert (forall k s', (pmem s' = pmem s /\ npages s' = npages s) -> 0 <= k -> k + 4 <= 44 -> ram s' (conf + k) 4) as Hram
    by (intros k s' [_ Hp] Hk1 Hk2; destruct Hrc as [H1 H2]; split; rewrite ?Hp; lia).
  assert (ram s1 (conf + 36) (Z.of_nat 4)) as Hr1 by (by apply Hram).
  erewrite bind_Ret by (by apply read_le_eq). rewrite (kle_same s) by done. erewrite bind_Ret by reflexivity.
  set (s2 := put lapicaddr _ s1).
  assert (ram s2 (conf + 34) (Z.of_nat 2)) as Hr2 by (destruct (Hram 34 s2) as [? ?]; (done || split; lia)).
  erewrite bind_Ret by (by apply read_le_eq). rewrite (kle_same s) by done. rewrite Hlen, Nat2Z.id.
  destruct (mp_entries_eq s2 (conf_entries conf) 0 l) as (s3 & He & (Hm3 & Hp3 & Hcons3 & Hi3 & Hla3) & Hn3 & Hb3 & Hc3).
  { by apply (table_same s). }
  { exact Hn0. }
  { done. }
  { intros i Hi. by apply Hc. }
  erewrite bind_Ret by exact He. change (bootcpu s2) with 0 in Hb3. fold b in Hb3.
  change (cpus s2) with (cpus s) in Hc3. cbv zeta in Hn3, Hc3. rewrite Z.add_0_l in Hn3, Hc3. fold n in Hn3, Hc3.
  erewrite bind_Ret by reflexivity. rewrite Hb3.
  assert (0 <= b <= NCPU) as Hbr by (apply boot_index_range; unfold NCPU; lia).
  destruct (Z.ltb_spec b NCPU) as [Hlt|Hge].
  - destruct (proj2 (Hc b) ltac:(lia)) as [c Hcb].
    pose proof (Hc3 b) as Hcb3. rewrite Hcb in Hcb3.
    erewrite bind_Ret by (eapply upd_cpu_eq; exact Hcb3).
    set (s4 := upd cpus _ s3). erewrite bind_Ret by reflexivity. change (ismp s4) with (ismp s3). rewrite Hi3.
    change (ismp s2) with true. cbn [negb].
    do 2 erewrite bind_Ret by reflexivity. erewrite bind_Ret by reflexivity.
    erewrite bind_Ret.
    2:{ unfold mp_imcrp. apply kload_byte_eq. destruct Hrm as [H1 H2]. split; [lia|].
        change (mp + 12 + 1 <= KERNBASE + npages s3 * PGSIZE). rewrite Hp3. change (npages s2) with (npages s). lia. }
    set (m := kbyte _ _). set (s5 := upd trace _ s4).
    assert (cpus s5 = <[b := put cpu_status CPU_STARTED ((if decide (Z.min 0 NCPU <= b < n) then put cpu_id b else id) c)]> (cpus s3)) as H5 by done.
    assert (exists s', (when (negb (m =? 0))
          (cprintln "SMP: Setting IMCR to switch from PIC mode to symmetric I/O mode" [] ;;
           with_cons (outb 0x22 0x70 ;; outb 0x23 (Z.lor imcr 1))) : K unit) s5 = Ret tt s' /\
        ismp s' = true /\ lapicaddr s' = lapicaddr s3 /\ bootcpu s' = bootcpu s3 /\ ncpu s' = ncpu s3 /\ cpus s' = cpus s5)
      as (s' & Hw & H1 & H2 & H3 & H4 & H6).
    { destruct (m =? 0); eexists; (split; [reflexivity|]); by split_and!. }
    exists s'. rewrite H1, H2, H3, H4, H6, H5. split_and!; [exact Hw|done|done|done|done|].
    intros i. change (Z.min 0 NCPU) with 0 in *. destruct (decide (i = b)) as [->|Hne].
    + by rewrite lookup_insert_eq, Hcb.
    + rewrite lookup_insert_ne by done. by rewrite Hc3.
  - unfold mbind at 1, M_bind at 1. unfold upd_cpu. rewrite Hc3.
    destruct (cpus s !! b) eqn:Hcb; [|done]. destruct (proj1 (Hc b) ltac:(by eexists)). lia.
Qed.

(** A machine with two processors, the second the boot processor. *)
Definition le_bytes (v : Z) (n : nat) : list Z := (fun i => v / 256 ^ i mod 256) <$> seqZ 0 (Z.of_nat n).

Definition with_checksum (at_ : nat) (l : list Z) : list Z := <[at_ := (- foldr Z.add 0 l) mod 256]> l.

Definition demo_mp : list Z :=
  with_checksum 10 (chars "_MP_" ++ le_bytes 0x9000 4 ++ [1; 4; 0; 0; 0; 0; 0; 0]).

Definition demo_conf : list Z :=
  with_checksum 7 (chars "PCMP" ++ le_bytes 84 2 ++ [4; 0] ++ replicate 20 32 ++ le_bytes 0 4 ++ le_bytes 0 2 ++
    le_bytes 2 2 ++ le_bytes 0xfee00000 4 ++ le_bytes 0 2 ++ [0; 0] ++
    ([0; 0; 20; 1] ++ replicate 16 0) ++ ([0; 1; 20; 3] ++ replicate 16 0)).

Fixpoint store_bytes (pa : Z) (l : list Z) (m : gmap Z (gmap Z Z)) : gmap Z (gmap Z Z) :=
  match l with [] => m | b :: l' => store_bytes (pa + 1) l' (set_byte pa b m) end.

Definition mp_demo : kstate :=
  put cpus (list_to_map ((fun i => (i, mkCpuInfo 0 CPU_UNUSED None 0 0)) <$> seqZ 0 NCPU))
    (put pmem (store_bytes 0x40E (le_bytes 0x0800 2) (store_bytes 0x8000 demo_mp (store_bytes 0x9000 demo_conf ∅)))
      (blank 512)).

Lemma mp_demo_cpus i : is_Some (cpus mp_demo !! i) <-> 0 <= i < NCPU.
Proof.
  unfold mp_demo. kred. set (l := (fun i => (i, mkCpuInfo 0 CPU_UNUSED None 0 0)) <$> seqZ 0 NCPU).
  assert (l.*1 = seqZ 0 NCPU) as Hl by (unfold l; by vm_compute).
  split.
  - intros [c Hc]. apply elem_of_list_to_map_2 in Hc.
    assert (i ∈ l.*1) as Hin by (apply list_elem_of_fmap; by exists (i, c)).
    rewrite Hl, elem_of_seqZ in Hin. lia.
  - intros Hi. destruct (list_to_map l !! i : option CpuInfo) eqn:E; [by eexists|].
    apply not_elem_of_list_to_map_2 in E. rewrite Hl in E. exfalso. apply E, elem_of_seqZ. lia.
Qed.

Lemma mp_init_correct_witness :
  exists s', mp_init 0 mp_demo = Ret tt s' /\ ncpu s' = 2 /\ bootcpu s' = 1 /\ lapicaddr s' = 0xfee00000.
Proof.
  pose proof (mp_init_correct 0 mp_demo (KERNBASE + 0x8000) (KERNBASE + 0x9000) [Proc 1 0; Proc 3 1]) as H.
  specialize (H ltac:(vm_compute; reflexivity) ltac:(split; vm_compute; discriminate) ltac:(split; vm_compute; discriminate)
    ltac:(vm_compute; reflexivity) ltac:(vm_compute; repeat split; discriminate) ltac:(reflexivity) mp_demo_cpus).
  destruct H as (s' & H1 & _ & H2 & H3 & H4 & _). exists s'. split; [exact H1|]. split; [exact H4|]. split; [exact H3|].
  rewrite H2. vm_compute. reflexivity.
Defined.

Lemma mpsearch1_correct_witness :
  exists r, mpsearch1 0x8000 1024 mp_demo = Ret r mp_demo /\ (r = None -> ~ mp_at mp_demo (KERNBASE + 0x8000)).
Proof.
  destruct (mpsearch1_correct mp_demo 0x8000 1024) as (r & Hr & Hs);
    [lia|lia|reflexivity|reflexivity|vm_compute; reflexivity|vm_compute; discriminate|].
  exists r. split; [exact Hr|]. intros ->. exact (Hs 0 ltac:(vm_compute; split; [discriminate|reflexivity])).
Defined.
