(* ===== verification/UserLem.v ===== *)
(** * User memory as the kernel sees it

    Loads and stores at user addresses in terms of [maps]: a byte of a mapped
    page is a byte of the frame it is mapped to, and storing into the page
    changes no translation. *)

From Stdlib Require Import Lia ZArith ZifyClasses ZifyInst ZifyBool.
From stdpp Require Import base gmap list strings numbers.
From S2P Require Import Prelude Cmonad Mmu Console State Umem Pmap PageList Vm VmInv PmapLem VmLem VmDir.

(** The tables let the kernel write to page [v] (it runs with [CR0_WP]). *)
Definition writable (m : physmem) (d v : Z) : Prop :=
  tst (word m d (v / 1024)) PTE_W = true /\ tst (pte m d v) PTE_W = true.

(** Page [v] of the directory in force, [d], is frame [p]. *)
Record user_page (s : kstate) (fl : list Z) (D : gset Z) (O : gmap Z (Z * Z)) (base : Z -> Z)
    (d v p : Z) : Prop := {
  us_inv : vm_inv base s fl D O;
  us_dir : d ∈ D;
  us_cr3 : cr3 s = d * 4096;
  us_v : 0 <= v < UVPNS;
  us_maps : maps (pmem s) d v = Some p
}.

Section UserPage.
Context {base : Z -> Z} {s : kstate} {fl : list Z} {D : gset Z} {O : gmap Z (Z * Z)} {d v p : Z}.
Hypothesis UP : user_page s fl D O base d v p.

Lemma user_page_frame : 0 <= p < npages s /\ (p ∉ D) /\ O !! p = None /\ p <> d.
Proof.
  destruct UP as [INV Hd _ Hv Hm].
  destruct (vo_map _ _ _ _ (vi_vm _ _ _ _ _ INV) _ _ _ Hd Hv Hm) as (H1 & H2 & H3).
  split_and!; try done; try lia. by intros ->.
Qed.

Lemma translate_user o write :
  0 <= o < 4096 -> (write = true -> writable (pmem s) d v) ->
  mmu_translate s (v * 4096 + o) write = Some (p * 4096 + o).
Proof.
  intros Ho Hw. destruct UP as [INV Hd Hcr Hv Hm].
  assert (0 <= v * 4096 + o < UTOP) as Hva by lia.
  destruct (PDX_vpn _ Hva) as (HD & HT & _).
  assert (PGNUM (v * 4096 + o) = v) as Hg by (rewrite PGNUM_div by lia; zlia).
  rewrite Hg in HD, HT. rewrite <- Hg in Hm.
  destruct (maps_pte_eq INV Hd Hva p Hm) as (H1 & H2 & H3 & H4 & _).
  unfold mmu_translate. rewrite Hcr. change PGSIZE with 4096. rewrite Z.div_mul by lia.
  pose proof (vo_word _ _ _ _ (vi_vm _ _ _ _ _ INV) d (PDX (v * 4096 + o))) as Hpw.
  rewrite PTE_ADDR_fr by done. rewrite Z.div_mul by lia.
  unfold present in H1, H2. rewrite H1, H2. cbn [andb].
  assert (negb write || tst (word (pmem s) d (PDX (v * 4096 + o))) PTE_W
     && tst (word (pmem s) (fr (word (pmem s) d (PDX (v * 4096 + o)))) (PTX (v * 4096 + o))) PTE_W = true) as ->.
  { destruct write; [|done]. destruct (Hw eq_refl) as [Hw1 Hw2]. rewrite HD, Hw1. cbn [negb orb andb].
    rewrite <- Hg in Hw2. rewrite (pte_word Hva) in Hw2 by done. by rewrite <- HD. }
  rewrite PTE_ADDR_fr, H3, PGOFF_mod by (done || lia). f_equal. zlia.
Qed.

Lemma uload_byte_eq o : 0 <= o < 4096 ->
  uload_byte (v * 4096 + o) s = Ret (get_byte (pmem s) (p * 4096 + o)) s.
Proof.
  intros Ho. unfold uload_byte. pose proof (us_v _ _ _ _ _ _ _ _ UP) as Hv. rewrite u32_id by lia.
  rewrite translate_user by done. unfold pload_byte. destruct user_page_frame as (Hp & _).
  change PGSIZE with 4096. replace ((p * 4096 + o) / 4096) with p by zlia.
  destruct (Z.ltb_spec p (npages s)); [done|lia].
Qed.

Lemma ustore_byte_eq o b : 0 <= o < 4096 -> writable (pmem s) d v ->
  ustore_byte (v * 4096 + o) b s = Ret tt (put pmem (set_byte (p * 4096 + o) b (pmem s)) s).
Proof.
  intros Ho Hw. unfold ustore_byte. pose proof (us_v _ _ _ _ _ _ _ _ UP) as Hv. rewrite u32_id by lia.
  rewrite translate_user by done. unfold pstore_byte. destruct user_page_frame as (Hp & _).
  change PGSIZE with 4096. replace ((p * 4096 + o) / 4096) with p by zlia.
  destruct (Z.ltb_spec p (npages s)); [done|lia].
Qed.

(** Writing to frame [p] leaves the page where it is. *)
Lemma user_page_data m' :
  outside p (pmem s) m' -> (forall i, 0 <= word m' p i < 2 ^ 32) ->
  user_page (put pmem m' s) fl D O base d v p /\
  (writable (pmem s) d v -> writable m' d v) /\ same_ptes D (pmem s) m'.
Proof.
  intros Hout Hr. pose proof user_page_frame as (Hp & HpD & HpO & Hpd). destruct UP as [INV Hd Hcr Hv Hm].
  assert (same_ptes D (pmem s) m') as Hs
    by (intros d' v' Hd' Hv'; by apply (pte_outside (vi_vm _ _ _ _ _ INV) HpD HpO)).
  split; [|split; [|done]].
  - constructor; try done; [by apply (vm_inv_data _ _ _ _ _ p)|]. kred.
    rewrite (maps_pte (pmem s) m'); [done|]. by apply Hs.
  - unfold writable. rewrite (Hout d) by auto. by rewrite Hs.
Qed.
End UserPage.

(** A run of bytes within one page. *)
Lemma ustore_bytes_wp s fl D O base d v p o l :
  user_page s fl D O base d v p -> writable (pmem s) d v ->
  0 <= o -> o + Z.of_nat (length l) <= 4096 ->
  wp (ustore_bytes (v * 4096 + o) l) (fun _ s' => exists m', s' = put pmem m' s /\
    user_page s' fl D O base d v p /\ outside p (pmem s) m' /\
    (forall i b, l !! i = Some b -> get_byte m' (p * 4096 + o + Z.of_nat i) = u8 b) /\
    (forall pa, 0 <= pa -> ~ (p * 4096 + o <= pa < p * 4096 + o + Z.of_nat (length l)) ->
       get_byte m' pa = get_byte (pmem s) pa)) s.
Proof.
  revert s o. induction l as [|b l IH]; intros s o UP Hw Ho Hlen.
  { apply wp_ret. exists (pmem s). split; [by destruct s|]. split; [done|]. split; [by intros ???|]. done. }
  cbn [length] in Hlen. destruct (user_page_frame UP) as (Hp & _ & _ & Hpd).
  set (m1 := set_byte (p * 4096 + o) b (pmem s)).
  assert ((p * 4096 + o) / PGSIZE = p) as Hdiv by (change PGSIZE with 4096; zlia).
  assert (outside p (pmem s) m1) as Hout1 by (intros f i Hf; apply set_byte_outside; by rewrite Hdiv).
  destruct (user_page_data UP m1 Hout1) as (UP1 & Hw1 & _).
  { intros i. apply set_byte_word; [lia|]. apply (vo_word _ _ _ _ (vi_vm _ _ _ _ _ (us_inv _ _ _ _ _ _ _ _ UP))). }
  cbn [ustore_bytes]. apply wp_bind. eapply wp_Ret; [by apply (ustore_byte_eq UP); [lia|]|].
  replace (v * 4096 + o + 1) with (v * 4096 + (o + 1)) by lia.
  eapply wp_mono; [apply (IH (put pmem m1 s) (o + 1) UP1 (Hw1 Hw)); lia|].
  intros [] s' (m' & -> & UP' & Hout & Hin & Hoff). exists m'. split; [done|]. split; [done|].
  kred. split; [intros f i Hf; rewrite (Hout f i Hf); by apply Hout1|]. split.
  - intros [|i] b' Hi; cbn in Hi.
    + injection Hi as <-. rewrite Hoff by lia. kred. unfold m1.
      rewrite <- (get_set_byte (pmem s) (p * 4096 + o) (u8 b)) by (try lia; unfold u8; apply Z.mod_pos_bound; lia).
      replace (p * 4096 + o + Z.of_nat 0) with (p * 4096 + o) by lia.
      unfold set_byte. by rewrite (u8_id (u8 b)) by (unfold u8; apply Z.mod_pos_bound; lia).
    + rewrite <- (Hin i b' Hi). f_equal. lia.
  - intros pa Hpa Hn. cbn [length] in Hn. rewrite Hoff by lia. apply get_set_byte_ne; lia.
Qed.
