(* ===== verification/Env.v ===== *)
(** * Environments and the scheduler: [kern/env.c], [kern/sched.c]

    The two files call each other, so they are one file here: the environment
    table and its free list, creating and destroying environments, switching to
    one, and the round-robin scheduler.  [user_mem_assert] of [kern/pmap.c] is
    here too, since it destroys an environment.

    A call that does not return ([env_run], [sched_halt], and [sched_yield],
    which ends in one of them) is a [Stop]. *)

From Stdlib Require Import Lia ZArith ZifyClasses ZifyInst ZifyBool.
From stdpp Require Import base gmap list strings numbers.
From S2P Require Import Prelude Cmonad Mmu Printfmt Console State Spinlock Umem Pmap.

Definition ENVGENSHIFT : Z := 12.

(** ** The global descriptor table *)

Definition gdt_init : gmap Z Segdesc :=
  <[GD_UD / 8 := SEG STA_W 0 0xffffffff 3]>
  (<[GD_UT / 8 := SEG (Z.lor STA_X STA_R) 0 0xffffffff 3]>
  (<[GD_KD / 8 := SEG STA_W 0 0xffffffff 0]>
  (<[GD_KT / 8 := SEG (Z.lor STA_X STA_R) 0 0xffffffff 0]>
  (foldr (fun i m => <[i := SEG_NULL]> m) ∅ (seqZ 0 (NCPU + 5)))))).

Definition env_init_percpu : K unit :=
  emit (EvLoad "gdt" ((NCPU + 5) * 8 - 1)) ;;
  emit (EvLoad "gs" (Z.lor GD_UD 3)) ;;
  emit (EvLoad "fs" (Z.lor GD_UD 3)) ;;
  emit (EvLoad "es" GD_KD) ;;
  emit (EvLoad "ds" GD_KD) ;;
  emit (EvLoad "ss" GD_KD) ;;
  emit (EvLoad "cs" GD_KT) ;;
  emit (EvLoad "ldt" 0).

(** ** The table *)

(** [envs] zeroed, with every entry on the free list in order. *)
Definition env_init : K unit :=
  modify (put env_free_list None) ;;
  for_loop (Z.to_nat NENV) (NENV - 1) (-1) (fun i =>
    upd_env i (put env_id 0) ;;
    head ← gets env_free_list;
    upd_env i (put env_link head) ;;
    upd_env i (put env_status ENV_FREE) ;;
    modify (put env_free_list (Some i))) ;;
  env_init_percpu.

(** The result and what is stored in [*env_store]. *)
Definition envid2env (envid : Z) (checkperm : bool) : K (Z * option Z) :=
  if envid =? 0 then cur ← curenv; mret (0, cur)
  else
    let i := ENVX envid in
    e ← get_env i;
    if bool_decide (env_status e = ENV_FREE) || negb (env_id e =? envid) then mret (- E_BAD_ENV, None)
    else
      cur ← curenv;
      if checkperm && negb (bool_decide (cur = Some i)) then
        match cur with
        | None => undef "null curenv"
        | Some c =>
            ce ← get_env c;
            if negb (env_parent_id e =? env_id ce) then mret (- E_BAD_ENV, None)
            else mret (0, Some i)
        end
      else mret (0, Some i).

(** ** Creating *)

Definition env_setup_vm (e : Z) : K Z :=
  p ← page_alloc ALLOC_ZERO;
  match p with
  | None => mret (- E_NO_MEM)
  | Some p =>
      upd_page p (upd pp_ref (fun r => u16 (r + 1))) ;;
      pgdir ← page2kva p;
      upd_env e (put env_pgdir pgdir) ;;
      kpd ← gets kern_pgdir;
      kcopy_page pgdir kpd ;;
      pa ← PADDR pgdir;
      kstore (pgdir + 4 * PDX UVPT) (Z.lor (Z.lor pa PTE_P) PTE_U) ;;
      mret 0
  end.

(** The id of the environment in slot [e], whose previous id is [old]. *)
Definition next_id (old e : Z) : Z :=
  let generation := Z.land (s32 (old + Z.shiftl 1 ENVGENSHIFT)) (Z.lnot (NENV - 1)) in
  let generation := if generation <=? 0 then Z.shiftl 1 ENVGENSHIFT else generation in
  Z.lor generation e.

(** The registers a new environment starts with, except for [%eip]. *)
Definition tf_init : Trapframe :=
  mkTrapframe (mkPushRegs 0 0 0 0 0 0 0 0) (Z.lor GD_UD 3) (Z.lor GD_UD 3) 0 0 0
    (Z.lor GD_UT 3) (Z.lor 0 FL_IF) USTACKTOP (Z.lor GD_UD 3).

Definition curenv_id : K Z :=
  cur ← curenv;
  match cur with None => mret 0 | Some c => ce ← get_env c; mret (env_id ce) end.

(** An error code, or the new environment. *)
Definition env_alloc (parent_id : Z) : K (Z + Z) :=
  head ← gets env_free_list;
  match head with
  | None => mret (inl (- E_NO_FREE_ENV))
  | Some e =>
      r ← env_setup_vm e;
      if r <? 0 then mret (inl r)
      else
        upd_env e (fun v => put env_id (next_id (env_id v) e) v) ;;
        upd_env e (put env_parent_id parent_id) ;;
        upd_env e (put env_type ENV_TYPE_USER) ;;
        upd_env e (put env_status ENV_RUNNABLE) ;;
        upd_env e (put env_runs 0) ;;
        upd_env e (put env_tf tf_init) ;;
        upd_env e (put env_pgfault_upcall 0) ;;
        upd_env e (put env_ipc_recving false) ;;
        v ← get_env e;
        modify (put env_free_list (env_link v)) ;;
        cid ← curenv_id;
        cprintln "[%08x] new env %08x" [AInt cid; AInt (env_id v)] ;;
        mret (inr e)
  end.

Definition region_alloc (e va len : Z) : K unit :=
  let begin := ROUNDDOWN va PGSIZE in
  let end_ := ROUNDUP (u32 (va + len)) PGSIZE in
  for_loop (Z.to_nat ((end_ - begin) / PGSIZE)) begin PGSIZE (fun begin =>
    pg ← page_alloc 0;
    match pg with
    | None => panic "can't allocate a new page"
    | Some pg =>
        v ← get_env e;
        flag ← page_insert (env_pgdir v) pg begin (Z.lor PTE_W PTE_U);
        when (negb (flag =? 0)) (panic "map creation failed")
    end).

Definition ELF_MAGIC : Z := 0x464C457F.
Definition ELF_PROG_LOAD : Z := 1.

(** One program header, at [ph]. *)
Definition load_segment (e binary ph : Z) : K unit :=
  p_type ← kread32 ph;
  when (p_type =? ELF_PROG_LOAD)
    (p_offset ← kread32 (ph + 4);
     p_va ← kread32 (ph + 8);
     p_filesz ← kread32 (ph + 16);
     p_memsz ← kread32 (ph + 20);
     region_alloc e p_va p_memsz ;;
     copy_to_user (Z.to_nat p_filesz) p_va (binary + p_offset) ;;
     zero_user (Z.to_nat (u32 (p_memsz - p_filesz))) (u32 (p_va + p_filesz))).

Definition load_icode (e binary : Z) : K unit :=
  magic ← kread32 binary;
  if negb (magic =? ELF_MAGIC) then panic "binary is not a elf file"
  else
    phoff ← kread32 (binary + 28);
    phnum ← kread16 (binary + 44);
    v ← get_env e;
    pa ← PADDR (env_pgdir v);
    lcr3 pa ;;
    for_loop (Z.to_nat phnum) (binary + phoff) 32 (load_segment e binary) ;;
    entry ← kread32 (binary + 24);
    upd_env e (upd env_tf (put tf_eip entry)) ;;
    kpd ← gets kern_pgdir;
    pa ← PADDR kpd;
    lcr3 pa ;;
    region_alloc e (USTACKTOP - PGSIZE) PGSIZE.

Definition env_create (binary : Z) (type : EnvType) : K unit :=
  r ← env_alloc 0;
  match r with
  | inl _ => panic "create new env failed!"
  | inr e => load_icode e binary ;; upd_env e (put env_type type)
  end.

(** ** Running *)

Definition env_pop_tf : K unit :=
  cur ← curenv;
  match cur with
  | None => undef "null curenv"
  | Some c =>
      cpu ← gets cpunum;
      upd_env c (put env_cpunum cpu) ;;
      v ← get_env c;
      stop (ToUser c (env_tf v))
  end.

Definition env_run (e : Z) : K unit :=
  cur ← curenv;
  match cur with
  | Some c =>
      v ← get_env c;
      when (bool_decide (env_status v = ENV_RUNNING)) (upd_env c (put env_status ENV_RUNNABLE))
  | None => mret tt
  end ;;
  set_curenv (Some e) ;;
  upd_env e (put env_status ENV_RUNNING) ;;
  upd_env e (upd env_runs (fun r => u32 (r + 1))) ;;
  v ← get_env e;
  pa ← PADDR (env_pgdir v);
  lcr3 pa ;;
  unlock_kernel ;;
  env_pop_tf.

(** ** The scheduler *)

(** Does some environment have a status that keeps the machine going? *)
Definition busy (st : EnvStatus) : bool :=
  match st with ENV_RUNNABLE | ENV_RUNNING | ENV_DYING => true | _ => false end.

Fixpoint sched_halt_scan (n : nat) (i : Z) : K bool :=
  match n with
  | O => mret false
  | S n' => v ← get_env i; if busy (env_status v) then mret true else sched_halt_scan n' (i + 1)
  end.

(** How [monitor] of [kern/monitor.c] starts; its loop does not end. *)
Definition monitor_banner : K unit :=
  cprintln "Welcome to the JOS kernel monitor!" [] ;;
  cprintln "Type 'help' for a list of commands." [].

Definition sched_halt : K unit :=
  found ← sched_halt_scan (Z.to_nat NENV) 0;
  if negb (found : bool) then
    cprintln "No runnable environments in the system!" [] ;; monitor_banner ;; stop InMonitor
  else
    set_curenv None ;;
    kpd ← gets kern_pgdir;
    pa ← PADDR kpd;
    lcr3 pa ;;
    upd_thiscpu (put cpu_status CPU_HALTED) ;;
    unlock_kernel ;;
    stop CpuHalt.

Definition sched_yield : K unit :=
  e ← curenv;
  env_i ← match e with
          | None => mret 0
          | Some c => v ← get_env c; mret (ENVX (env_id v) + 1)
          end;
  for_loop (Z.to_nat NENV) 0 1 (fun i =>
    let index := (env_i + i) mod NENV in
    v ← get_env index;
    when (bool_decide (env_status v = ENV_RUNNABLE)) (env_run index)) ;;
  match e with
  | Some c =>
      v ← get_env c;
      when (bool_decide (env_status v = ENV_RUNNING)) (env_run c)
  | None => mret tt
  end ;;
  sched_halt.

(** ** Destroying *)

(** One page directory entry of [env_free]. *)
Definition free_pde (pgdir pdeno : Z) : K unit :=
  pde ← kload (pgdir + 4 * pdeno);
  when (tst pde PTE_P)
    (let pa := PTE_ADDR pde in
     pt ← KADDR pa;
     for_loop (Z.to_nat (PTX (2 ^ 32 - 1) + 1)) 0 1 (fun pteno =>
       pte ← kload (pt + 4 * pteno);
       when (tst pte PTE_P) (page_remove pgdir (PGADDR pdeno pteno 0))) ;;
     kstore (pgdir + 4 * pdeno) 0 ;;
     pg ← pa2page pa;
     page_decref pg).

Definition env_free (e : Z) : K unit :=
  cur ← curenv;
  when (bool_decide (cur = Some e)) (kpd ← gets kern_pgdir; pa ← PADDR kpd; lcr3 pa) ;;
  cid ← curenv_id;
  v ← get_env e;
  cprintln "[%08x] free env %08x" [AInt cid; AInt (env_id v)] ;;
  for_loop (Z.to_nat (PDX UTOP)) 0 1 (free_pde (env_pgdir v)) ;;
  pa ← PADDR (env_pgdir v);
  upd_env e (put env_pgdir 0) ;;
  pg ← pa2page pa;
  page_decref pg ;;
  upd_env e (put env_status ENV_FREE) ;;
  head ← gets env_free_list;
  upd_env e (put env_link head) ;;
  modify (put env_free_list (Some e)).

Definition env_destroy (e : Z) : K unit :=
  v ← get_env e;
  cur ← curenv;
  if bool_decide (env_status v = ENV_RUNNING) && negb (bool_decide (cur = Some e)) then
    upd_env e (put env_status ENV_DYING)
  else
    env_free e ;;
    cur ← curenv;
    when (bool_decide (cur = Some e)) (set_curenv None ;; sched_yield).

(** [user_mem_assert] of [kern/pmap.c]. *)
Definition user_mem_assert (e va len perm : Z) : K unit :=
  r ← user_mem_check e va len (Z.lor perm PTE_U);
  when (r <? 0)
    (v ← get_env e;
     bad ← gets user_mem_check_addr;
     cprintln "[%08x] user_mem_check assertion failure for va %08x" [AInt (env_id v); AInt bad] ;;
     env_destroy e).
