(* ===== verification/EnvLem.v ===== *)
(** * Running the operations of [kern/env.c]

    Lemmas that run [env_setup_vm], [env_alloc] and [env_free] over the memory
    invariant, and [env_run] and [sched_halt] over the lock. *)

From Stdlib Require Import Lia ZArith ZifyClasses ZifyInst ZifyBool.
From stdpp Require Import base gmap list strings numbers.
From S2P Require Import Prelude Cmonad Mmu Printfmt Console State Spinlock Umem Pmap.
From S2P Require Import PageList Vm VmInv PmapLem VmLem VmDir Env.

(** ** Array elements and the running CPU *)

Lemma get_env_eq e v s : envs s !! e = Some v -> get_env e s = Ret v s.
Proof. unfold get_env. by intros ->. Qed.

Lemma upd_env_eq e v g s : envs s !! e = Some v ->
  upd_env e g s = Ret tt (upd envs (fun a => <[e := g v]> a) s).
Proof. intros H. unfold upd_env. by erewrite bind_Ret by (by apply get_env_eq). Qed.

Lemma get_thiscpu_eq c s : cpus s !! cpunum s = Some c -> get_thiscpu s = Ret c s.
Proof. unfold get_thiscpu. by intros ->. Qed.

Lemma curenv_eq c s : cpus s !! cpunum s = Some c -> curenv s = Ret (cpu_env c) s.
Proof. intros H. unfold curenv. by erewrite bind_Ret by (by apply get_thiscpu_eq). Qed.

Lemma upd_thiscpu_eq c g s : cpus s !! cpunum s = Some c ->
  upd_thiscpu g s = Ret tt (upd cpus (fun a => <[cpunum s := g c]> a) s).
Proof. intros H. unfold upd_thiscpu. by erewrite bind_Ret by (by apply get_thiscpu_eq). Qed.

Lemma PADDR_eq a s : KERNBASE <= a < 2 ^ 32 -> PADDR a s = Ret (a - KERNBASE) s.
Proof.
  intros H. unfold PADDR. destruct (Z.ltb_spec a KERNBASE); [lia|]. unfold mret, M_ret.
  rewrite u32_id; [done|lia].
Qed.

Lemma PADDR_kva f s : 0 <= f < 65536 -> PADDR (kva f) s = Ret (f * 4096) s.
Proof. intros H. rewrite PADDR_eq by (unfold kva; lia). f_equal. unfold kva. lia. Qed.

(** What operations on environments leave alone besides memory, the environment
    table, the free lists and the trace. *)
Record env_frame (s s' : kstate) : Prop := {
  ef_npages : npages s' = npages s;
  ef_kern_pgdir : kern_pgdir s' = kern_pgdir s;
  ef_cpus : cpus s' = cpus s;
  ef_cpunum : cpunum s' = cpunum s;
  ef_kernel_lock : kernel_lock s' = kernel_lock s;
  ef_panicstr : panicstr s' = panicstr s
}.

#[export] Instance env_frame_preorder : PreOrder env_frame.
Proof. split; [by constructor|]. intros s1 s2 s3 [] []. constructor; etrans; eassumption. Qed.

Lemma vm_env_frame s s' : vm_frame s s' -> env_frame s s'.
Proof. intros []. by constructor. Qed.

#[export] Hint Extern 1 (env_frame _ _) => solve [constructor; reflexivity] : vm.

(** ** [env_setup_vm] *)

(** The kernel's own directory: in RAM, not free, empty below [UTOP]. *)
Record kern_pgdir_ok (s : kstate) (fl : list Z) (kf : Z) : Prop := {
  kp_va : kern_pgdir s = kva kf;
  kp_ram : 0 <= kf < npages s;
  kp_used : kf ∉ fl;
  kp_empty : user_empty (pmem s) kf
}.

(** The memory of a new directory in frame [f]. *)
Definition dir_mem (m : physmem) (kf f : Z) : physmem :=
  set_word f (PDX UVPT) (Z.lor (Z.lor (f * 4096) PTE_P) PTE_U)
    (<[f := default ∅ (<[f := ∅]> m !! kf)]> m).

Lemma PDX_UVPT : PDX UVPT = 957.
Proof. reflexivity. Qed.

Lemma dir_mem_word m kf f i :
  kf <> f ->
  word (dir_mem m kf f) f i =
    if decide (i = 957) then Z.lor (Z.lor (f * 4096) PTE_P) PTE_U else word m kf i.
Proof.
  intros Hne. unfold dir_mem. rewrite PDX_UVPT. case_decide as Hi.
  - subst. by rewrite word_set_eq.
  - rewrite word_set_ne by auto. unfold word. rewrite lookup_insert_eq. cbn.
    rewrite lookup_insert_ne by done. by destruct (m !! kf).
Qed.

Lemma dir_mem_outside m kf f : outside f m (dir_mem m kf f).
Proof.
  intros f' i Hne. unfold dir_mem. rewrite word_set_ne by auto.
  unfold word. by rewrite !lookup_insert_ne.
Qed.

Lemma dir_entry_range f : 0 <= f < 65536 -> 0 <= Z.lor (Z.lor (f * 4096) PTE_P) PTE_U < 2 ^ 32.
Proof.
  intros Hf. rewrite <- Z.lor_assoc. change (Z.lor PTE_P PTE_U) with 5.
  rewrite lor_page by lia. lia.
Qed.

Lemma env_setup_vm_wp base s fl D O e v kf :
  vm_inv base s fl D O -> (forall q, 0 <= base q) ->
  envs s !! e = Some v -> kern_pgdir_ok s fl kf ->
  wp (env_setup_vm e) (fun r s' =>
    match fl with
    | [] => r = - E_NO_MEM /\ s' = s
    | f :: fl' =>
        r = 0 /\ vm_inv base s' fl' ({[f]} ∪ D) O /\ pmem s' = dir_mem (pmem s) kf f /\
        envs s' = <[e := put env_pgdir (kva f) v]> (envs s) /\
        env_free_list s' = env_free_list s /\ trace s' = trace s /\ env_frame s s' /\ cr3 s' = cr3 s
    end) s.
Proof.
  intros INV Hb He [Hk Hkr Hkf Hke]. pose proof (vi_np INV) as Hnp.
  pose proof (ao_chain _ _ _ _ (vi_alloc _ _ _ _ _ INV)) as Hch.
  unfold env_setup_vm. destruct fl as [|f fl'].
  { apply wp_bind. eapply wp_Ret; [by apply page_alloc_nil|]. by apply wp_ret. }
  destruct (free_unused INV f) as (Hf & Hr0 & HfD & HfO & Hnm); [by left|done|].
  assert (kf <> f) as Hne by (intros ->; apply Hkf; left).
  destruct (vi_page INV f Hf) as [pi Hpi]. rewrite (ref_lookup _ _ _ Hpi) in Hr0.
  destruct Hch as [Hhead _].
  pose proof (vm_inv_new_dir base s (f :: fl') fl' D O f pi (dir_mem (pmem s) kf f) INV eq_refl
    (Hb _) Hpi (dir_mem_outside _ _ _)) as INV'.
  apply wp_bind. eapply wp_Ret; [apply (page_alloc_cons ALLOC_ZERO s f pi); done || lia|].
  change (tst ALLOC_ZERO ALLOC_ZERO) with true. cbv iota.
  apply wp_bind. eapply wp_Ret; [apply upd_page_eq; kred; by rewrite lookup_insert_eq|].
  apply wp_bind. eapply wp_Ret.
  { unfold page2kva. rewrite (page2pa_frame (s := s)) by lia. apply KADDR_frame; kred; lia. }
  apply wp_bind. eapply wp_Ret; [by apply upd_env_eq|].
  apply wp_bind. apply wp_gets. kred. rewrite Hk.
  apply wp_bind. eapply wp_Ret.
  { unfold kcopy_page. rewrite !in_linear_page by (kred; lia). cbn [andb]. reflexivity. }
  apply wp_bind. eapply wp_Ret; [apply PADDR_kva; lia|].
  apply wp_bind. eapply wp_Ret; [apply kstore_frame; kred; rewrite ?PDX_UVPT; lia|].
  apply wp_ret. kred. rewrite u32_id by (apply dir_entry_range; lia).
  replace ((kva f - KERNBASE) / PGSIZE) with f by (unfold kva; zlia).
  replace ((kva kf - KERNBASE) / PGSIZE) with kf by (unfold kva; zlia).
  rewrite insert_insert_eq.
  assert (upd pp_ref (fun r => u16 (r + 1)) (put pp_link None pi) = mkPageInfo None 1) as ->
    by (destruct pi; cbn in Hr0 |- *; by subst).
  split; [done|]. split; [|split; [done|split_and!; [done..|auto with vm]]].
  eapply vm_inv_proj; [..|apply INV']; try done; kred.
  - by rewrite insert_insert_eq.
  - by rewrite insert_insert_eq.
  - intros i Hi. rewrite dir_mem_word by done. rewrite decide_False by lia. by apply Hke.
  - intros i. rewrite dir_mem_word by done. case_decide; [apply dir_entry_range; lia|].
    apply (vo_word _ _ _ _ (vi_vm _ _ _ _ _ INV)).
Qed.

(** ** [env_alloc] *)

(** One update of an element that was just updated. *)
Ltac upd_env_step :=
  apply wp_bind; eapply wp_Ret;
  [apply upd_env_eq; kred; first [eassumption | by rewrite lookup_insert_eq]|].

Lemma curenv_id_eq s : cpu_ok s -> exists id, curenv_id s = Ret id s.
Proof.
  intros (c & Hc & He). unfold curenv_id. erewrite bind_Ret by (by apply curenv_eq).
  destruct (cpu_env c) as [e|]; [|by eexists]. destruct He as [v Hv].
  erewrite bind_Ret by (by apply get_env_eq). by eexists.
Qed.

Lemma cpu_ok_proj s s' :
  cpus s' = cpus s -> cpunum s' = cpunum s -> (forall e, is_Some (envs s !! e) -> is_Some (envs s' !! e)) ->
  cpu_ok s -> cpu_ok s'.
Proof.
  intros Hc Hn He (c & Hl & Hce). exists c. rewrite Hc, Hn. split; [done|].
  destruct (cpu_env c); auto.
Qed.

Definition new_env (v : Env) (e parent f : Z) : Env :=
  mkEnv tf_init (env_link v) (next_id (env_id v) e) parent ENV_TYPE_USER ENV_RUNNABLE 0
    (env_cpunum v) (kva f) 0 false (env_ipc_dstva v) (env_ipc_value v) (env_ipc_from v)
    (env_ipc_perm v).

Lemma is_Some_insert (m : gmap Z Env) e v k : is_Some (m !! k) -> is_Some (<[e := v]> m !! k).
Proof. intros H. destruct (decide (e = k)) as [->|]; [rewrite lookup_insert_eq|rewrite lookup_insert_ne by done]; eauto. Qed.

Lemma env_alloc_wp base s fl D O kf parent :
  vm_inv base s fl D O -> (forall q, 0 <= base q) -> kern_pgdir_ok s fl kf -> cpu_ok s ->
  (forall e, env_free_list s = Some e -> is_Some (envs s !! e)) ->
  wp (env_alloc parent) (fun r s' =>
    match env_free_list s, fl with
    | None, _ => r = inl (- E_NO_FREE_ENV) /\ s' = s
    | Some _, [] => r = inl (- E_NO_MEM) /\ s' = s
    | Some e, f :: fl' =>
        r = inr e /\ vm_inv base s' fl' ({[f]} ∪ D) O /\ pmem s' = dir_mem (pmem s) kf f /\
        (env_frame s s' /\ cr3 s' = cr3 s) /\
        exists v, envs s !! e = Some v /\ env_free_list s' = env_link v /\
          envs s' = <[e := new_env v e parent f]> (envs s)
    end) s.
Proof.
  intros INV Hb Hk Hc Hh. unfold env_alloc. apply wp_bind, wp_gets.
  destruct (env_free_list s) as [e|] eqn:Eh; [|by apply wp_ret].
  destruct (Hh e eq_refl) as [v Hv]. apply wp_bind.
  eapply wp_mono; [by eapply (env_setup_vm_wp base s fl D O e v kf)|]. intros r s1 H.
  destruct fl as [|f fl']; [destruct H as [-> ->]; by apply wp_ret|].
  destruct H as (-> & INV1 & Hm1 & He1 & Hl1 & Ht1 & Hf1 & Hcr1). cbn [Z.ltb Z.compare].
  assert (envs s1 !! e = Some (put env_pgdir (kva f) v)) as Hv1 by (by rewrite He1, lookup_insert_eq).
  do 8 upd_env_step.
  apply wp_bind. eapply wp_Ret; [apply get_env_eq; kred; by rewrite lookup_insert_eq|].
  apply wp_bind, wp_modify.
  assert (forall x, is_Some (envs s !! x) -> is_Some (envs s1 !! x)) as Hs1
    by (intros x Hx; rewrite He1; by apply is_Some_insert).
  apply wp_bind. edestruct (curenv_id_eq) as [cid Hcid]; [|eapply wp_Ret; [exact Hcid|]].
  { eapply cpu_ok_proj; [..|exact Hc]; kred; [apply Hf1|apply Hf1|].
    intros x Hx. by repeat apply is_Some_insert; apply Hs1. }
  apply wp_bind, wp_modify, wp_ret.
  split; [done|]. split; [by eapply vm_inv_proj; [..|exact INV1]|]. split; [done|].
  split; [split; [etrans; [exact Hf1|auto with vm]|exact Hcr1]|].
  exists v. split; [done|]. split; [done|]. kred. rewrite He1, !insert_insert_eq. done.
Qed.

(** ** [env_free] *)

(** From [s] with the free list [fl] to [s'] with [fl']: references were only
    given up, and the pages that gave up their last one, and no others, have joined
    the free list. *)
Definition gives_back (fl : list Z) (s : kstate) (fl' : list Z) (s' : kstate) : Prop :=
  (forall p, 0 <= ref s' p <= ref s p) /\ (forall p, p ∈ fl' <-> p ∈ fl \/ 0 < ref s p /\ ref s' p = 0).

Lemma inv_ref_nonneg base s fl D O p : vm_inv base s fl D O -> 0 <= ref s p.
Proof.
  intros INV. unfold ref. destruct (pages s !! p) as [pi|] eqn:E; [|done].
  apply (ao_ref _ _ _ _ (vi_alloc _ _ _ _ _ INV) _ _ E).
Qed.

Lemma gives_back_same base fl s s' D O : vm_inv base s fl D O -> pages s' = pages s -> gives_back fl s fl s'.
Proof.
  intros INV Hp. unfold gives_back, ref. rewrite Hp. pose proof (fun p => inv_ref_nonneg _ _ _ _ _ p INV) as H.
  unfold ref in H. split; [intros p; specialize (H p); lia|]. intros p. split; [by left|]. intros [?|?]; [done|lia].
Qed.

Lemma gives_back_trans fl fl1 fl2 s s1 s2 : gives_back fl s fl1 s1 -> gives_back fl1 s1 fl2 s2 -> gives_back fl s fl2 s2.
Proof.
  intros [Hr1 Hf1] [Hr2 Hf2]. split.
  - intros p. specialize (Hr1 p). specialize (Hr2 p). lia.
  - intros p. rewrite Hf2, Hf1. specialize (Hr1 p). specialize (Hr2 p). split.
    + intros [[?|?]|?]; [by left|right; lia|right; lia].
    + intros [?|?]; [by left; left|]. destruct (decide (ref s1 p = 0)); [left; right; lia|right; lia].
Qed.

(** One reference given up. *)
Lemma gives_back_one base fl s s' D O q : vm_inv base s fl D O -> 1 <= ref s q ->
  (forall p, ref s' p = ref s p - (if decide (p = q) then 1 else 0)) ->
  gives_back fl s (if ref s q =? 1 then q :: fl else fl) s'.
Proof.
  intros INV Hq Hr. split.
  - intros p. rewrite Hr. pose proof (inv_ref_nonneg _ _ _ _ _ p INV). case_decide; [subst|]; lia.
  - intros p. rewrite Hr. destruct (Z.eqb_spec (ref s q) 1) as [E|E]; rewrite ?elem_of_cons; case_decide as Hpq; subst;
      intuition lia.
Qed.

(** The page tables, those of the first [k] entries of directory [d] gone. *)
Definition tables_freed (d k : Z) (O O' : gmap Z (Z * Z)) : Prop :=
  forall p, O' !! p = match O !! p with
                      | Some (d', i) => if decide (d' = d /\ i < k) then None else Some (d', i)
                      | None => None
                      end.

Section FreePde.
Context {base : Z -> Z} {D : gset Z} {d i : Z}.
Hypothesis base_nonneg : forall q, 0 <= base q.
Hypothesis Hd : d ∈ D.
Hypothesis Hi : 0 <= i < UPDES.

Lemma PGADDR_user j : 0 <= j < 1024 ->
  0 <= PGADDR i j 0 < UTOP /\ PDX (PGADDR i j 0) = i /\ PTX (PGADDR i j 0) = j /\
  PGNUM (PGADDR i j 0) = i * 1024 + j.
Proof.
  intros Hj. rewrite PGADDR_sum by lia.
  rewrite PDX_div, PTX_div, PGNUM_div by lia. zlia.
Qed.

(** The state after the first [k] entries of page table [f] are gone. *)
Record emptied (s : kstate) (fl : list Z) (O : gmap Z (Z * Z)) (f k : Z) (s' : kstate) : Prop := {
  em_inv : exists fl', vm_inv base s' fl' D O /\ gives_back fl s fl' s';
  em_frame : vm_frame s s';
  em_outside : outside f (pmem s) (pmem s');
  em_gone j : 0 <= j < k -> present (word (pmem s') f j) = false
}.

Lemma empty_pte_step s fl O f k s' :
  cpu_ok s -> O !! f = Some (d, i) -> fr (word (pmem s) d i) = f -> f <> d ->
  present (word (pmem s) d i) = true -> 0 <= k < 1024 -> emptied s fl O f k s' ->
  wp (pte ← kload (kva f + 4 * k); when (tst pte PTE_P) (page_remove (kva d) (PGADDR i k 0)))
    (fun _ s'' => emptied s fl O f (k + 1) s'') s'.
Proof.
  intros Hc Ho Hfr Hfd Hp Hk [(fl' & INV & Hgb) Hf Hout Hgone].
  destruct (PGADDR_user k Hk) as (Hva & HD & HT & HN).
  pose proof (vi_np INV) as Hnp. destruct (vo_own _ _ _ _ (vi_vm _ _ _ _ _ INV) _ _ _ Ho) as (Hfb & _).
  assert (word (pmem s') d i = word (pmem s) d i) as Hw by (apply Hout; auto).
  apply wp_bind. eapply wp_Ret; [apply kload_frame; lia|].
  unfold when. fold (present (word (pmem s') f k)).
  destruct (present (word (pmem s') f k)) eqn:Hpk.
  - assert (maps (pmem s') d (PGNUM (PGADDR i k 0)) = Some (fr (word (pmem s') f k))) as Hm.
    { unfold maps. rewrite (pte_word (s := s') Hva); rewrite HD, ?HT, Hw; [|done].
      by rewrite Hfr, Hpk. }
    eapply wp_mono.
    { apply (page_remove_wp INV base_nonneg Hd Hva _ (cpu_ok_frame _ _ Hf Hc) Hm). }
    intros [] s2 (INV2 & Hf2 & _ & Hr2 & Hm2). rewrite HD, HT, Hw, Hfr in Hm2.
    assert (0 <= i * 1024 + k < UVPNS) as Hg by lia. rewrite HN in Hm.
    pose proof (mapped_ref_pos INV _ _ _ Hd Hg Hm (base_nonneg _)) as Hr1.
    constructor; [|by etrans| |].
    { eexists. split; [exact INV2|]. eapply gives_back_trans; [exact Hgb|]. by eapply gives_back_one. }
    + intros f' x Hne. rewrite Hm2, word_set_ne by auto. by apply Hout.
    + intros j Hj. rewrite Hm2. destruct (decide (j = k)) as [->|].
      * by rewrite word_set_eq.
      * rewrite word_set_ne by auto. apply Hgone. lia.
  - apply wp_ret. constructor; [by exists fl'|done|done|].
    intros j Hj. destruct (decide (j = k)) as [->|]; [done|]. apply Hgone. lia.
Qed.

Lemma free_pde_wp s fl O :
  vm_inv base s fl D O -> cpu_ok s ->
  wp (free_pde (kva d) i) (fun _ s' => exists fl' O',
    vm_inv base s' fl' D O' /\ vm_frame s s' /\ gives_back fl s fl' s' /\
    (forall p, O' !! p = if decide (O !! p = Some (d, i)) then None else O !! p) /\
    (forall p x, p <> d -> O !! p <> Some (d, i) -> word (pmem s') p x = word (pmem s) p x) /\
    present (word (pmem s') d i) = false /\
    (forall x, x <> i -> word (pmem s') d x = word (pmem s) d x) /\
    (forall d' v, d' ∈ D -> d' <> d -> 0 <= v < UVPNS -> pte (pmem s') d' v = pte (pmem s) d' v)) s.
Proof.
  intros INV Hc. pose proof (vi_np INV) as Hnp. pose proof (vi_vm _ _ _ _ _ INV) as Hok.
  destruct (vo_pd _ _ _ _ Hok _ Hd) as [Hdb HdO].
  unfold free_pde. apply wp_bind. eapply wp_Ret; [apply kload_frame; lia|].
  unfold when. fold (present (word (pmem s) d i)).
  destruct (present (word (pmem s) d i)) eqn:Hp.
  2:{ apply wp_ret. exists fl, O. split_and!; try done; [by eapply gives_back_same|]. intros p. rewrite decide_False; [done|].
      intros Ho. destruct (vo_own _ _ _ _ Hok _ _ _ Ho) as (_ & _ & _ & Hp' & _). congruence. }
  set (f := fr (word (pmem s) d i)).
  pose proof (vo_pde _ _ _ _ Hok _ _ Hd Hi Hp) as Ho. fold f in Ho.
  destruct (vo_own _ _ _ _ Hok _ _ _ Ho) as (Hfb & _).
  assert (f <> d) as Hfd by congruence.
  rewrite PTE_ADDR_fr by apply (vo_word _ _ _ _ Hok). fold f.
  apply wp_bind. eapply wp_Ret; [apply KADDR_frame; lia|]. apply wp_bind.
  eapply (wp_for_loop _ 0 1 _ (emptied s fl O f)).
  { constructor; [by exists fl; split; [|eapply gives_back_same]|done|by intros ???|lia]. }
  { intros k s' Hk Hem. rewrite Z.mul_1_l, Z.add_0_l in *. change (PTX (2 ^ 32 - 1)) with 1023 in Hk.
    by apply empty_pte_step; try done; lia. }
  intros s1 [(fl1 & INV1 & Hgb1) Hf1 Hout Hgone]. change (0 + 1 * Z.of_nat (Z.to_nat (PTX (2 ^ 32 - 1) + 1))) with 1024 in Hgone.
  pose proof (vf_npages _ _ Hf1) as Hn1.
  assert (f ∉ fl1) as Hff.
  { intros Hin. destruct (free_unused INV1 f Hin (base_nonneg _)) as (_&_&_&HO&_). congruence. }
  assert (1 <= ref s1 f) as Hr1.
  { rewrite (vi_ref _ _ _ _ _ INV1 f) by lia. rewrite Ho.
    pose proof (nmaps_nonneg (pmem s1) D f). pose proof (base_nonneg f). cbn [b2z].
    unfold b2z. destruct (bool_decide (f ∈ D)); cbn; lia. }
  apply wp_bind. eapply wp_Ret; [apply kstore_frame; lia|].
  apply wp_bind. eapply wp_Ret; [apply pa2page_frame; kred; lia|].
  pose proof (vm_inv_clear_pde base s1 fl1 D O f d i INV1 Ho Hgone) as INV2.
  eapply wp_mono; [apply (page_decref_wp _ _ _ _ _ f INV2); [kred; lia|done|exact Hr1]|].
  intros [] s2 (Hm2 & Hf2 & _ & Hr2 & INV3). change (u32 0) with 0 in *. revert Hm2 Hr2. kred. intros Hm2 Hr2.
  eexists _, (delete f O). split.
  { eapply vm_inv_base; [|exact INV3]. intros q. cbn beta. case_decide; lia. }
  split; [etrans; [exact Hf1|etrans; [|exact Hf2]]; auto with vm|].
  split; [eapply gives_back_trans; [exact Hgb1|]; by eapply (gives_back_one _ fl1 s1)|]. rewrite Hm2.
  split.
  { intros p. destruct (decide (p = f)) as [->|Hpf]; [by rewrite lookup_delete_eq, decide_True|].
    rewrite lookup_delete_ne by done. rewrite decide_False; [done|]. intros Hop.
    destruct (vo_own _ _ _ _ Hok _ _ _ Hop) as (_ & _ & _ & _ & Hpf'). by rewrite <- Hpf' in Hpf. }
  split.
  { intros p x Hpd Hpo. rewrite word_set_ne by auto. apply Hout. intros ->. by apply Hpo. }
  split; [by rewrite word_set_eq|]. split.
  { intros x Hx. rewrite word_set_ne by auto. by apply Hout. }
  intros d' v Hd' Hne Hv. unfold pte. destruct (vpn_split _ Hv) as [Hv1 _].
  assert (d' <> f) by (intros ->; destruct (vo_pd _ _ _ _ Hok _ Hd'); congruence).
  rewrite word_set_ne, Hout by auto. destruct (present (word (pmem s) d' (v / 1024))) eqn:Hp'; [|done].
  pose proof (vo_pde _ _ _ _ Hok _ _ Hd' Hv1 Hp') as Ho'.
  rewrite word_set_ne by (left; congruence). apply Hout. congruence.
Qed.
End FreePde.

Section EnvFree.
Context {base : Z -> Z} {D : gset Z} {d : Z}.
Hypothesis base_nonneg : forall q, 0 <= base q.
Hypothesis Hd : d ∈ D.

(** The translations of the other address spaces. *)
Definition others_same (s s' : kstate) : Prop :=
  forall d' v, d' ∈ D -> d' <> d -> 0 <= v < UVPNS -> pte (pmem s') d' v = pte (pmem s) d' v.

(** The pages that are neither [d] nor one of its tables keep their contents. *)
Definition rest_kept (O : gmap Z (Z * Z)) (s s' : kstate) : Prop :=
  forall p x, p <> d -> (forall i, O !! p <> Some (d, i)) -> word (pmem s') p x = word (pmem s) p x.

Record freed_upto (fl : list Z) (O : gmap Z (Z * Z)) (s : kstate) (k : Z) (s' : kstate) : Prop := {
  fu_inv : exists fl' O', vm_inv base s' fl' D O' /\ gives_back fl s fl' s' /\ tables_freed d k O O';
  fu_rest : rest_kept O s s';
  fu_frame : vm_frame s s';
  fu_gone x : 0 <= x < k -> present (word (pmem s') d x) = false;
  fu_others : others_same s s'
}.

Lemma free_pdes_wp s fl O :
  vm_inv base s fl D O -> cpu_ok s ->
  wp (for_loop (Z.to_nat (PDX UTOP)) 0 1 (free_pde (kva d))) (fun _ s' =>
    freed_upto fl O s UPDES s') s.
Proof.
  intros INV Hc. eapply (wp_for_loop _ 0 1 _ (freed_upto fl O s)).
  - constructor; [|done|done|lia|done]. exists fl, O. split; [done|]. split; [by eapply gives_back_same|].
    intros p. destruct (O !! p) as [[d' i]|] eqn:E; [|done]. rewrite decide_False; [done|].
    destruct (vo_own _ _ _ _ (vi_vm _ _ _ _ _ INV) _ _ _ E). lia.
  - intros k s' Hk [(fl' & O' & INV' & Hgb & Htf) Hrest Hf Hgone Hoth]. rewrite Z.mul_1_l, Z.add_0_l in *.
    change (PDX UTOP) with UPDES in Hk.
    eapply wp_mono; [apply (free_pde_wp base_nonneg Hd (i := Z.of_nat k) ltac:(lia) s' fl' O' INV');
      by eapply cpu_ok_frame|].
    intros [] s2 (fl2 & O2 & INV2 & Hf2 & Hgb2 & Ho2 & Hw2 & Hp2 & Hrow & Hoth2).
    constructor; [| |by etrans| |].
    { exists fl2, O2. split; [done|]. split; [by eapply gives_back_trans|]. intros p. rewrite Ho2, Htf.
      destruct (O !! p) as [[d' i]|]; [|by rewrite decide_False].
      destruct (decide (d' = d /\ i < Z.of_nat k)); [rewrite decide_False by done; by rewrite decide_True by lia|].
      destruct (decide (Some (d', i) = Some (d, Z.of_nat k))) as [[= -> ->]|Hne]; [by rewrite decide_True by lia|].
      rewrite decide_False; [done|]. intros [-> Hi]. apply Hne. do 2 f_equal. lia. }
    { intros p x Hp Hpo. rewrite Hw2; [by apply Hrest|done|]. rewrite Htf. intros E. specialize (Hpo (Z.of_nat k)).
      destruct (O !! p) as [[d' i]|]; [|done]. case_decide; [done|]. congruence. }
    + intros x Hx. destruct (decide (x = Z.of_nat k)) as [->|]; [done|].
      rewrite Hrow by done. apply Hgone. lia.
    + intros d' v Hd' Hne Hv. rewrite Hoth2 by done. by apply Hoth.
  - intros s' H. exact H.
Qed.

Lemma env_free_wp s fl O e v kf :
  vm_inv base s fl D O -> cpu_ok s -> envs s !! e = Some v -> env_pgdir v = kva d ->
  kern_pgdir s = kva kf -> 0 <= kf < 65536 ->
  wp (env_free e) (fun _ s' =>
    (exists fl' O', vm_inv base s' fl' (D ∖ {[d]}) O' /\ gives_back fl s fl' s' /\ tables_freed d UPDES O O') /\
    rest_kept O s s' /\ others_same s s' /\ env_frame s s' /\
    env_free_list s' = Some e /\
    envs s' = <[e := put env_link (env_free_list s) (put env_status ENV_FREE (put env_pgdir 0 v))]>
                (envs s)) s.
Proof.
  intros INV Hc He Hpg Hk Hkf. pose proof Hc as (c & Hcpu & _).
  unfold env_free. apply wp_bind. eapply wp_Ret; [by apply curenv_eq|].
  apply wp_bind. eapply wp_mono with (Q := fun _ s1 => exists r l, s1 = put cr3 r (put trace l s)).
  { unfold when. case_match; [|apply wp_ret; exists (cr3 s), (trace s); by destruct s].
    apply wp_bind, wp_gets. rewrite Hk. apply wp_bind. eapply wp_Ret; [by apply PADDR_kva|].
    apply wp_modify. by eexists _, _. }
  intros [] s1 (r & l & ->). set (s1 := put cr3 r (put trace l s)).
  apply wp_bind. destruct (curenv_id_eq s1 Hc) as [cid Hcid]. eapply wp_Ret; [exact Hcid|].
  apply wp_bind. eapply wp_Ret; [by apply get_env_eq|].
  apply wp_bind, wp_modify. rewrite Hpg.
  set (s2 := upd trace (fun tr => EvPrint ("[%08x] free env %08x" +:+ nl) [AInt cid; AInt (env_id v)] :: tr) s1).
  assert (vm_inv base s2 fl D O) as INV2 by (by apply (vm_inv_proj base s)).
  apply wp_bind. eapply wp_mono; [by apply (free_pdes_wp s2 fl O)|].
  intros [] s3 [(fl3 & O3 & INV3 & Hgb3 & Htf3) Hrest3 Hf3 Hgone3 Hoth3]. pose proof (vi_np INV3) as Hnp.
  destruct (vo_pd _ _ _ _ (vi_vm _ _ _ _ _ INV3) _ Hd) as [Hdb HdO].
  apply wp_bind. eapply wp_Ret; [apply PADDR_kva; lia|].
  assert (envs s3 = envs s) as He3 by apply Hf3.
  apply wp_bind. eapply wp_Ret; [apply upd_env_eq; by rewrite He3|].
  apply wp_bind. eapply wp_Ret; [apply pa2page_frame; kred; lia|].
  pose proof (vm_inv_drop_dir base s3 fl3 D O3 d INV3 Hd Hgone3) as INV4.
  assert (d ∉ fl3) as Hdf.
  { intros Hin. by destruct (free_unused INV3 d Hin (base_nonneg _)) as (_&_&HdD&_). }
  assert (1 <= ref s3 d) as Hr3.
  { rewrite (vi_ref _ _ _ _ _ INV3 d) by lia. rewrite (bool_decide_eq_true_2 (d ∈ D)) by done.
    pose proof (nmaps_nonneg (pmem s3) D d). pose proof (base_nonneg d). unfold b2z.
    destruct (bool_decide (is_Some (O3 !! d))); lia. }
  set (s4 := upd envs (fun a => <[e := put env_pgdir 0 v]> a) s3).
  assert (vm_inv (fun q => base q + (if decide (q = d) then 1 else 0)) s4 fl3 (D ∖ {[d]}) O3)
    as INV4' by (by apply (vm_inv_proj _ s3)).
  apply wp_bind. eapply wp_mono; [apply (page_decref_wp _ _ _ _ _ d INV4'); [exact Hdb|done|exact Hr3]|].
  intros [] s5 (Hm5 & Hf5 & _ & Hr5 & INV5).
  assert (envs s5 !! e = Some (put env_pgdir 0 v)) as He5
    by (rewrite (vf_envs _ _ Hf5); unfold s4; kred; by rewrite lookup_insert_eq).
  upd_env_step. apply wp_bind, wp_gets. kred. upd_env_step. apply wp_modify. split.
  { eexists _, O3. split; [|split; [|exact Htf3]].
    - eapply vm_inv_base; [|eapply vm_inv_proj; [..|exact INV5]]; try done. intros q. cbn beta. case_decide; lia.
    - eapply gives_back_trans; [exact Hgb3|]. by eapply (gives_back_one _ fl3 s3). }
  split.
  { intros p x Hp Hpo. kred. rewrite Hm5. by apply Hrest3. }
  split.
  { intros d' x Hd' Hne Hx. kred. rewrite Hm5. by apply Hoth3. }
  split.
  { transitivity s2; [auto with vm|]. etrans; [exact (vm_env_frame _ _ Hf3)|].
    transitivity s4; [auto with vm|]. etrans; [exact (vm_env_frame _ _ Hf5)|]. auto with vm. }
  split; [done|]. kred. rewrite (vf_envs _ _ Hf5), (vf_env_free_list _ _ Hf5). unfold s4. kred.
  rewrite He3, !insert_insert_eq, (vf_env_free_list _ _ Hf3). done.
Qed.
End EnvFree.
