(* ===== verification/Sched.v ===== *)
(** * Scheduling: [env_run], [sched_halt], [sched_yield]

    What a CPU that holds the kernel lock does when it picks the next
    environment, and that round-robin makes every runnable environment's turn
    come. *)

From Stdlib Require Import Lia ZArith ZifyClasses ZifyInst ZifyBool.
From stdpp Require Import base gmap list strings numbers.
From S2P Require Import Prelude Cmonad Mmu Printfmt Console State Spinlock Umem Pmap.
From S2P Require Import PageList Vm VmInv PmapLem VmLem VmDir Env EnvLem.

Definition status_of (s : kstate) (i : Z) : EnvStatus :=
  from_option env_status ENV_FREE (envs s !! i).

(** What the scheduler needs of the tables: a full environment table, a CPU
    whose current environment is in it, page directories of live environments
    at kernel addresses, and the lock. *)
Record sched_ok (s : kstate) (c : CpuInfo) : Prop := {
  so_envs i : 0 <= i < NENV -> is_Some (envs s !! i);
  so_pgdir i v : envs s !! i = Some v -> env_status v = ENV_RUNNABLE \/ env_status v = ENV_RUNNING ->
    KERNBASE <= env_pgdir v < 2 ^ 32;
  so_kpd : KERNBASE <= kern_pgdir s < 2 ^ 32;
  so_cpu : cpus s !! cpunum s = Some c;
  so_cur e : cpu_env c = Some e -> 0 <= e < NENV;
  so_lock : lock_mine s
}.

(** What running an environment changes of it. *)
Definition same_env (v v' : Env) : Prop :=
  exists st runs cpu, v' = put env_cpunum cpu (put env_runs runs (put env_status st v)).

Lemma same_env_refl v : same_env v v.
Proof. exists (env_status v), (env_runs v), (env_cpunum v). by destruct v. Qed.

(** [s'] is [s] after switching to environment [e]. *)
Record switched (s : kstate) (c : CpuInfo) (e : Z) (s' : kstate) : Prop := {
  sw_cpus : cpus s' = <[cpunum s := put cpu_env (Some e) c]> (cpus s);
  sw_running : status_of s' e = ENV_RUNNING;
  sw_others i : i <> e -> status_of s' i =
    if decide (cpu_env c = Some i /\ status_of s i = ENV_RUNNING) then ENV_RUNNABLE else status_of s i;
  sw_env i v : envs s !! i = Some v -> exists v', envs s' !! i = Some v' /\ same_env v v';
  sw_runs : env_runs <$> envs s' !! e = (fun v => u32 (env_runs v + 1)) <$> envs s !! e;
  sw_cr3 : Some (cr3 s') = (fun v => env_pgdir v - KERNBASE) <$> envs s !! e;
  sw_lock : lock_free s' /\ lk_cpu (kernel_lock s') = None;
  sw_mem : pmem s' = pmem s /\ pages s' = pages s /\ page_free_list s' = page_free_list s
}.

Lemma status_of_eq s i v : envs s !! i = Some v -> status_of s i = env_status v.
Proof. unfold status_of. by intros ->. Qed.

(** [env_run] enters the environment with its saved registers. *)
Lemma env_run_eq s c e v :
  sched_ok s c -> envs s !! e = Some v -> KERNBASE <= env_pgdir v < 2 ^ 32 ->
  exists s', env_run e s = Stop (ToUser e (env_tf v)) s' /\ switched s c e s'.
Proof.
  intros Hok He Hpg. pose proof Hok as [Hen Hpgd Hkpd Hcpu Hcur Hlk].
  (* the status of the environment that was running *)
  assert (exists es, (match cpu_env c with
      | Some c0 => v0 ← get_env c0;
          when (bool_decide (env_status v0 = ENV_RUNNING)) (upd_env c0 (put env_status ENV_RUNNABLE))
      | None => mret tt end) s = Ret tt (put envs es s) /\
    (forall i, es !! i = if decide (cpu_env c = Some i /\ status_of s i = ENV_RUNNING)
                         then put env_status ENV_RUNNABLE <$> envs s !! i else envs s !! i))
    as (es & Hes & Hlook).
  { destruct (cpu_env c) as [c0|] eqn:Ec.
    - destruct (Hen c0 (Hcur _ eq_refl)) as [v0 Hv0].
      erewrite bind_Ret by (by apply get_env_eq). unfold when.
      destruct (bool_decide_reflect (env_status v0 = ENV_RUNNING)) as [Hr|Hr].
      + rewrite (upd_env_eq _ _ _ _ Hv0). eexists. split; [unfold upd, put; reflexivity|].
        intros i. cbn beta. destruct (decide (c0 = i)) as [<-|].
        * rewrite lookup_insert_eq, decide_True by (by rewrite (status_of_eq _ _ _ Hv0)). by rewrite Hv0.
        * rewrite lookup_insert_ne, decide_False by naive_solver. done.
      + exists (envs s). split; [by destruct s|]. intros i. rewrite decide_False; [done|].
        intros [[= <-] Hst]. by rewrite (status_of_eq _ _ _ Hv0) in Hst.
    - exists (envs s). split; [by destruct s|]. intros i. rewrite decide_False; [done|]. naive_solver. }
  assert (forall i w, envs s !! i = Some w -> exists st, es !! i = Some (put env_status st w)) as Hst.
  { intros i w Hw. rewrite Hlook, Hw. case_decide; [by eexists|]. exists (env_status w). by destruct w. }
  destruct (Hst e v He) as [st Hv']. set (v' := put env_status st v) in *.
  unfold env_run. erewrite bind_Ret by (by apply curenv_eq).
  erewrite bind_Ret by exact Hes.
  erewrite bind_Ret by (apply (upd_thiscpu_eq c); kred; exact Hcpu).
  erewrite bind_Ret by (apply upd_env_eq; kred; exact Hv').
  erewrite bind_Ret by (apply upd_env_eq; kred; by rewrite lookup_insert_eq).
  erewrite bind_Ret by (apply get_env_eq; kred; by rewrite lookup_insert_eq).
  cbn [env_pgdir upd put]. change (env_pgdir v') with (env_pgdir v). erewrite bind_Ret by (by apply PADDR_eq).
  erewrite bind_Ret by reflexivity.
  erewrite bind_Ret by (apply unlock_kernel_eq; destruct Hlk; split; kred; done).
  unfold env_pop_tf.
  erewrite bind_Ret by (apply (curenv_eq (put cpu_env (Some e) c)); kred; by rewrite lookup_insert_eq).
  cbn [cpu_env put upd]. erewrite bind_Ret by reflexivity.
  erewrite bind_Ret by (apply upd_env_eq; kred; by rewrite lookup_insert_eq).
  erewrite bind_Ret by (apply get_env_eq; kred; by rewrite lookup_insert_eq).
  eexists. split; [reflexivity|].
  constructor; kred.
  - done.
  - unfold status_of. kred. by rewrite lookup_insert_eq.
  - intros i Hi. unfold status_of at 1. kred. rewrite !lookup_insert_ne by done. rewrite Hlook.
    case_decide as Hd; [|done]. destruct Hd as [_ Hrun]. unfold status_of in Hrun.
    by destruct (envs s !! i).
  - intros i w Hw. destruct (decide (e = i)) as [<-|].
    + rewrite He in Hw. injection Hw as <-. rewrite lookup_insert_eq. eexists. split; [reflexivity|].
      by exists ENV_RUNNING, (u32 (env_runs v + 1)), (cpunum s).
    + rewrite !lookup_insert_ne by done. destruct (Hst i w Hw) as [st' ->]. eexists. split; [reflexivity|].
      exists st', (env_runs w), (env_cpunum w). by destruct w.
  - rewrite lookup_insert_eq, He. done.
  - by rewrite He.
  - done.
  - done.
Qed.

(** ** Halting *)

Definition any_busy (s : kstate) : bool := existsb (fun i => busy (status_of s i)) (seqZ 0 NENV).

Lemma sched_halt_scan_eq n i s :
  (forall k, i <= k < i + Z.of_nat n -> is_Some (envs s !! k)) ->
  sched_halt_scan n i s = Ret (existsb (fun k => busy (status_of s k)) (seqZ i (Z.of_nat n))) s.
Proof.
  revert i. induction n as [|n IH]; intros i H; [done|].
  rewrite seqZ_cons by lia. replace (Z.pred (Z.of_nat (S n))) with (Z.of_nat n) by lia.
  cbn [sched_halt_scan existsb]. destruct (H i ltac:(lia)) as [v Hv].
  erewrite bind_Ret by (by apply get_env_eq). rewrite (status_of_eq _ _ _ Hv).
  destruct (busy (env_status v)); [done|]. rewrite IH by (intros; apply H; lia).
  by rewrite Z.add_1_r.
Qed.

(** [s'] is [s] with this CPU halted, the lock free. *)
Record halted (s : kstate) (c : CpuInfo) (s' : kstate) : Prop := {
  ha_cpus : cpus s' = <[cpunum s := put cpu_status CPU_HALTED (put cpu_env None c)]> (cpus s);
  ha_envs : envs s' = envs s;
  ha_cr3 : cr3 s' = kern_pgdir s - KERNBASE;
  ha_lock : lock_free s' /\ lk_cpu (kernel_lock s') = None
}.

Lemma sched_halt_eq s c :
  sched_ok s c ->
  if any_busy s then exists s', sched_halt s = Stop CpuHalt s' /\ halted s c s'
  else exists s', sched_halt s = Stop InMonitor s' /\ envs s' = envs s /\ cpus s' = cpus s.
Proof.
  intros [Hen Hpgd Hkpd Hcpu Hcur Hlk]. unfold sched_halt.
  erewrite bind_Ret by (apply sched_halt_scan_eq; intros; apply Hen; lia).
  change (Z.of_nat (Z.to_nat NENV)) with NENV. fold (any_busy s).
  destruct (any_busy s); cbn [negb]; [|by eexists].
  erewrite bind_Ret by (by apply (upd_thiscpu_eq c)).
  erewrite bind_Ret by reflexivity. kred.
  erewrite bind_Ret by (by apply PADDR_eq).
  erewrite bind_Ret by reflexivity.
  erewrite bind_Ret by (apply upd_thiscpu_eq; kred; by rewrite lookup_insert_eq).
  erewrite bind_Ret by (apply unlock_kernel_eq; destruct Hlk; split; kred; done).
  eexists. split; [reflexivity|]. constructor; kred; try done. by rewrite insert_insert_eq.
Qed.

(** ** Choosing *)

(** The order [sched_yield] looks at the table in, and the one it takes. *)
Definition scan_order (start : Z) : list Z := (fun k => (start + k) mod NENV) <$> seqZ 0 NENV.

Definition pick (s : kstate) (start : Z) : option Z :=
  snd <$> list_find (fun i => status_of s i = ENV_RUNNABLE) (scan_order start).

Definition scan_start (s : kstate) (c : CpuInfo) : Z :=
  match cpu_env c with
  | Some e => from_option (fun v => ENVX (env_id v) + 1) 0 (envs s !! e)
  | None => 0
  end.

Lemma scan_order_lookup start k i :
  scan_order start !! k = Some i -> (k < Z.to_nat NENV)%nat /\ i = (start + Z.of_nat k) mod NENV.
Proof.
  unfold scan_order. rewrite list_lookup_fmap, fmap_Some. intros (x & Hx & ->).
  apply lookup_seqZ in Hx as [-> Hk]. split; [lia|]. done.
Qed.

Lemma scan_order_index start k :
  (k < Z.to_nat NENV)%nat -> scan_order start !! k = Some ((start + Z.of_nat k) mod NENV).
Proof.
  intros Hk. unfold scan_order. rewrite list_lookup_fmap, lookup_seqZ_lt by lia. done.
Qed.

Lemma sched_yield_cases s c :
  sched_ok s c ->
  match pick s (scan_start s c) with
  | Some e => exists v s', envs s !! e = Some v /\
      sched_yield s = Stop (ToUser e (env_tf v)) s' /\ switched s c e s'
  | None =>
      match cpu_env c with
      | Some e =>
          if decide (status_of s e = ENV_RUNNING) then
            exists v s', envs s !! e = Some v /\
              sched_yield s = Stop (ToUser e (env_tf v)) s' /\ switched s c e s'
          else sched_yield s = sched_halt s
      | None => sched_yield s = sched_halt s
      end
  end.
Proof.
  intros Hok. pose proof Hok as [Hen Hpgd Hkpd Hcpu Hcur Hlk].
  assert (forall k, 0 <= (scan_start s c + k) mod NENV < NENV) as Hmod
    by (intros k; apply Z.mod_pos_bound; lia).
  assert (sched_yield s = (for_loop (Z.to_nat NENV) 0 1 (fun i =>
      let index := (scan_start s c + i) mod NENV in
      v ← get_env index;
      when (bool_decide (env_status v = ENV_RUNNABLE)) (env_run index)) ;;
      match cpu_env c with
      | Some c0 => v ← get_env c0; when (bool_decide (env_status v = ENV_RUNNING)) (env_run c0)
      | None => mret tt
      end ;; sched_halt) s) as Hy.
  { unfold sched_yield. erewrite bind_Ret by (by apply curenv_eq). unfold scan_start.
    destruct (cpu_env c) as [e|] eqn:Ec; [|by erewrite bind_Ret by reflexivity].
    destruct (Hen e (Hcur _ eq_refl)) as [v Hv]. rewrite Hv. cbn [from_option].
    erewrite bind_Ret; [reflexivity|]. by erewrite bind_Ret by (by apply get_env_eq). }
  assert (forall k, status_of s ((scan_start s c + k) mod NENV) <> ENV_RUNNABLE ->
    (v ← get_env ((scan_start s c + k) mod NENV);
     when (bool_decide (env_status v = ENV_RUNNABLE)) (env_run ((scan_start s c + k) mod NENV))) s
    = Ret tt s) as Hskip.
  { intros k Hk. destruct (Hen _ (Hmod k)) as [v Hv]. erewrite bind_Ret by (by apply get_env_eq).
    rewrite bool_decide_eq_false_2; [done|]. by rewrite <- (status_of_eq _ _ _ Hv). }
  unfold pick. destruct (list_find _ _) as [[k e]|] eqn:Ef; cbn [fmap option_fmap option_map snd].
  - apply list_find_Some in Ef as (Hk & Hrun & Hbefore).
    destruct (scan_order_lookup _ _ _ Hk) as [Hkn ->]. set (e := (scan_start s c + Z.of_nat k) mod NENV) in *.
    destruct (Hen e (Hmod _)) as [v Hv]. rewrite (status_of_eq _ _ _ Hv) in Hrun.
    destruct (env_run_eq s c e v Hok Hv ltac:(eauto)) as (s' & Hs' & Hsw).
    exists v, s'. split; [done|]. split; [|done]. rewrite Hy. apply bind_Stop.
    apply (for_loop_stop _ _ _ _ _ k); [done| |].
    + intros j Hj. rewrite Z.mul_1_l, Z.add_0_l. apply Hskip.
      apply (Hbefore j); [|done]. apply scan_order_index. lia.
    + rewrite Z.mul_1_l, Z.add_0_l. erewrite bind_Ret by (by apply get_env_eq).
      by rewrite bool_decide_eq_true_2.
  - apply list_find_None in Ef. rewrite Hy.
    erewrite bind_Ret.
    2:{ apply for_loop_skip. intros k Hk. rewrite Z.mul_1_l, Z.add_0_l. apply Hskip.
        rewrite Forall_forall in Ef. apply Ef. apply list_elem_of_In, list_elem_of_lookup. exists k.
        by apply scan_order_index. }
    destruct (cpu_env c) as [e|] eqn:Ec; [|by erewrite bind_Ret by reflexivity].
    destruct (Hen e (Hcur _ eq_refl)) as [v Hv]. rewrite (status_of_eq _ _ _ Hv).
    destruct (decide (env_status v = ENV_RUNNING)) as [Hr|Hr].
    + destruct (env_run_eq s c e v Hok Hv ltac:(eauto)) as (s' & Hs' & Hsw).
      exists v, s'. split; [done|]. split; [|done]. apply bind_Stop.
      erewrite bind_Ret by (by apply get_env_eq). by rewrite bool_decide_eq_true_2.
    + erewrite bind_Ret; [done|]. erewrite bind_Ret by (by apply get_env_eq).
      by rewrite bool_decide_eq_false_2.
Qed.

(** ** Properties *)

(** C17: [sched_yield] never returns and never runs into an undefined state.  It
    enters, with its saved registers, the first runnable environment after the
    one this CPU ran last, in circular order; else the one this CPU was
    running, if it still may; else it halts the CPU, or enters the monitor when
    no environment can ever run again.  When it enters an environment, that
    environment alone becomes running, the one that ran before becomes runnable
    again, and the kernel lock is free. *)
Theorem sched_yield_correct s c :
  sched_ok s c ->
  ends sched_yield (fun _ _ => False) (fun x s' =>
    let enters e := exists v, envs s !! e = Some v /\ x = ToUser e (env_tf v) /\ switched s c e s' in
    let halts := if any_busy s then x = CpuHalt /\ halted s c s' else x = InMonitor in
    match pick s (scan_start s c), cpu_env c with
    | Some e, _ => enters e
    | None, Some e => if decide (status_of s e = ENV_RUNNING) then enters e else halts
    | None, None => halts
    end) s.
Proof.
  intros Hok. pose proof (sched_yield_cases s c Hok) as H. pose proof (sched_halt_eq s c Hok) as Hh.
  assert (sched_yield s = sched_halt s -> ends sched_yield (fun _ _ => False) (fun x s' =>
    if any_busy s then x = CpuHalt /\ halted s c s' else x = InMonitor) s) as Hhalt.
  { intros He. destruct (any_busy s).
    - destruct Hh as (s' & Hs & Hha). eapply ends_Stop; [by rewrite He|done].
    - destruct Hh as (s' & Hs & _). eapply ends_Stop; [by rewrite He|done]. }
  cbn zeta. destruct (pick s (scan_start s c)) as [e|].
  - destruct H as (v & s' & Hv & Hs & Hsw). eapply ends_Stop; [exact Hs|]. eauto.
  - destruct (cpu_env c) as [e|]; [|by apply Hhalt].
    destruct (decide (status_of s e = ENV_RUNNING)); [|by apply Hhalt].
    destruct H as (v & s' & Hv & Hs & Hsw). eapply ends_Stop; [exact Hs|]. eauto.
Qed.

(** ** Fairness *)

(** A runnable environment is found, and each time another one is found first, the number
    of slots before its turn decreases (the next search starts after that one). *)
Lemma pick_some s start e : 0 <= e < NENV -> status_of s e = ENV_RUNNABLE -> exists x, pick s start = Some x.
Proof.
  intros He Hrun. unfold pick. destruct (list_find _ _) as [[k x]|] eqn:Ef; [by exists x|]. exfalso.
  apply list_find_None in Ef. rewrite Forall_forall in Ef. apply (Ef e); [|done].
  change NENV with 1024 in *. apply list_elem_of_In, list_elem_of_lookup. exists (Z.to_nat ((e - start) mod 1024)).
  assert (0 <= (e - start) mod 1024 < 1024) by (apply Z.mod_pos_bound; lia).
  rewrite scan_order_index by lia. rewrite Z2Nat.id by lia. rewrite Zplus_mod_idemp_r.
  replace (start + (e - start)) with e by lia. by rewrite Z.mod_small.
Qed.

Lemma pick_closer s start e e' :
  0 <= e < NENV -> status_of s e = ENV_RUNNABLE -> pick s start = Some e' -> e' <> e ->
  (e - (e' + 1)) mod NENV < (e - start) mod NENV.
Proof.
  intros He Hrun Hp Hne. unfold pick in Hp.
  apply fmap_Some in Hp as ([k x] & Hp & ->). cbn [snd] in *.
  apply list_find_Some in Hp as (Hk & Hr & Hbefore).
  destruct (scan_order_lookup _ _ _ Hk) as [Hkn ->]. change NENV with 1024 in *.
  set (j := (e - start) mod 1024). assert (0 <= j < 1024) by (apply Z.mod_pos_bound; lia).
  assert ((start + j) mod 1024 = e) as Hj.
  { unfold j. rewrite Zplus_mod_idemp_r. replace (start + (e - start)) with e by lia.
    by apply Z.mod_small. }
  assert (Z.of_nat k < j) as Hlt.
  { destruct (Z.lt_trichotomy (Z.of_nat k) j) as [|[Heq|Hgt]]; [done| |].
    - by rewrite Heq, Hj in Hne.
    - exfalso. apply (Hbefore (Z.to_nat j) e); [|lia|done].
      rewrite scan_order_index by lia. rewrite Z2Nat.id by lia. change NENV with 1024. by rewrite Hj. }
  replace ((e - ((start + Z.of_nat k) mod 1024 + 1)) mod 1024) with (j - Z.of_nat k - 1); [lia|].
  symmetry. rewrite <- Hj. Z.div_mod_to_equations. lia.
Qed.

(** In the state [s] this CPU calls [sched_yield], with environment [e] runnable; [n]
    times before, it did so too and another environment was entered, which came back
    into the kernel as this CPU's current one.  What it and the other CPUs did meanwhile
    is not restricted. *)
Inductive passed (e : Z) : nat -> kstate -> Prop :=
  | passed_first s c : sched_ok s c -> status_of s e = ENV_RUNNABLE -> passed e 0 s
  | passed_again n s x tf s1 s2 c2 : passed e n s -> sched_yield s = Stop (ToUser x tf) s1 -> x <> e ->
      sched_ok s2 c2 -> cpu_env c2 = Some x -> (forall v, envs s2 !! x = Some v -> ENVX (env_id v) = x) ->
      status_of s2 e = ENV_RUNNABLE -> passed e (S n) s2.

(** With [e] runnable, the scheduler enters the environment [pick] finds. *)
Lemma sched_yield_enters s c e : 0 <= e < NENV -> sched_ok s c -> status_of s e = ENV_RUNNABLE ->
  exists x v s', pick s (scan_start s c) = Some x /\ sched_yield s = Stop (ToUser x (env_tf v)) s'.
Proof.
  intros He Hok Hrun. destruct (pick_some s (scan_start s c) e He Hrun) as [x Hx].
  pose proof (sched_yield_cases s c Hok) as H. rewrite Hx in H. destruct H as (v & s' & _ & Hs & _). by exists x, v, s'.
Qed.

Lemma passed_distance e n s : 0 <= e < NENV -> passed e n s ->
  exists c, sched_ok s c /\ status_of s e = ENV_RUNNABLE /\ Z.of_nat n + (e - scan_start s c) mod NENV < NENV.
Proof.
  intros He. induction 1 as [s c Hok Hrun|n s x tf s1 s2 c2 _ (c & Hok & Hrun & Hn) Hy Hne Hok2 Hc2 Hid Hrun2].
  - exists c. split; [done|]. split; [done|]. pose proof (Z.mod_pos_bound (e - scan_start s c) NENV ltac:(lia)). lia.
  - exists c2. split; [done|]. split; [done|].
    destruct (sched_yield_enters s c e He Hok Hrun) as (y & v & s' & Hp & Hy'). rewrite Hy in Hy'. injection Hy' as -> _ _.
    destruct (so_envs _ _ Hok2 y) as [w Hw]; [by apply (so_cur _ _ Hok2)|].
    assert (scan_start s2 c2 = y + 1) as ->. { unfold scan_start. rewrite Hc2, Hw. cbn. by rewrite (Hid w Hw). }
    pose proof (pick_closer s _ e y He Hrun Hp Hne). lia.
Qed.


(** ** A machine with all its environments *)

(** 1024 environments, of which those in [live] are runnable. *)
Definition table_env (live : list Z) (i : Z) : Env :=
  mkEnv blank_tf None (Z.lor 0x1000 i) 0 ENV_TYPE_USER
    (if bool_decide (i ∈ live) then ENV_RUNNABLE else ENV_FREE) 0 0 KERNBASE 0 false 0 0 0 0.

Definition env_table (live : list Z) : gmap Z Env :=
  list_to_map ((fun i => (i, table_env live i)) <$> seqZ 0 NENV).

Lemma env_table_lookup live i : 0 <= i < NENV -> env_table live !! i = Some (table_env live i).
Proof.
  intros Hi. unfold env_table. apply elem_of_list_to_map_1.
  - rewrite <- list_fmap_compose. rewrite (list_fmap_ext _ id) by done. rewrite list_fmap_id. apply NoDup_seqZ.
  - apply list_elem_of_fmap. exists i. split; [done|]. apply elem_of_seqZ. lia.
Qed.

Lemma env_table_Some live i v : env_table live !! i = Some v -> v = table_env live i.
Proof.
  intros H. apply elem_of_list_to_map_2 in H. by apply list_elem_of_fmap in H as (j & [= -> ->] & _).
Qed.

Lemma env_table_dom live i v : env_table live !! i = Some v -> 0 <= i < NENV.
Proof.
  intros H. apply elem_of_list_to_map_2 in H. apply list_elem_of_fmap in H as (j & [= -> ->] & Hj).
  apply elem_of_seqZ in Hj. lia.
Qed.

Definition sched_demo (live : list Z) : kstate :=
  put kernel_lock (mkSpinlock 1 (Some 0) (replicate 10 0))
    (put kern_pgdir KERNBASE (put envs (env_table live) (blank 4))).

Lemma sched_demo_ok live : sched_ok (sched_demo live) (mkCpuInfo 0 CPU_STARTED None 0 0).
Proof.
  constructor; unfold sched_demo; kred.
  - intros i Hi. rewrite env_table_lookup by done. by eexists.
  - intros i v Hv _. apply env_table_Some in Hv as ->. cbn [env_pgdir table_env]. lia.
  - lia.
  - reflexivity.
  - by intros e [=].
  - by split.
Qed.

#[global] Opaque env_table.

Lemma sched_demo_env live i v : envs (sched_demo live) !! i = Some v -> v = table_env live i.
Proof. unfold sched_demo. kred. apply env_table_Some. Qed.

Lemma sched_demo_status live i :
  0 <= i < NENV -> status_of (sched_demo live) i = if bool_decide (i ∈ live) then ENV_RUNNABLE else ENV_FREE.
Proof.
  intros Hi. unfold status_of, sched_demo. kred. by rewrite env_table_lookup.
Qed.

Lemma sched_demo_pick : pick (sched_demo [5; 3]) 0 = Some 3.
Proof.
  unfold pick. assert (list_find (fun i => status_of (sched_demo [5; 3]) i = ENV_RUNNABLE) (scan_order 0)
    = Some (3%nat, 3)) as ->; [|done].
  apply list_find_Some. split; [by apply scan_order_index; lia|]. split.
  { by rewrite sched_demo_status by lia. }
  intros j y Hy Hj. apply scan_order_lookup in Hy as [_ ->].
  rewrite Z.mod_small, sched_demo_status by lia.
  rewrite bool_decide_eq_false_2; [done|]. rewrite !elem_of_cons. intros [?|[?|[]%elem_of_nil]]; lia.
Qed.

Lemma sched_yield_correct_witness :
  exists s', sched_yield (sched_demo [5; 3]) = Stop (ToUser 3 blank_tf) s' /\
    status_of s' 3 = ENV_RUNNING /\ lock_free s'.
Proof.
  pose proof (sched_yield_correct (sched_demo [5; 3]) _ (sched_demo_ok _)) as H.
  apply ends_inv in H as [(? & ? & _ & [])|(x & s' & Hs & H)].
  change (scan_start _ _) with 0 in H. rewrite sched_demo_pick in H.
  destruct H as (v & Hv & -> & Hsw). exists s'. apply sched_demo_env in Hv as ->.
  split; [exact Hs|]. split; [apply (sw_running _ _ _ _ Hsw)|apply (sw_lock _ _ _ _ Hsw)].
Defined.

Lemma sched_ok_cpus s c m c' :
  sched_ok s c -> m !! cpunum s = Some c' -> (forall e, cpu_env c' = Some e -> 0 <= e < NENV) ->
  sched_ok (put cpus m s) c'.
Proof. intros [Hen Hpg Hk Hcpu Hcur Hl] Hc Hc'. by constructor. Qed.

(** [sched_demo] once environment 3 has run. *)
Definition sched_next : kstate :=
  put cpus {[ 0 := mkCpuInfo 0 CPU_STARTED (Some 3) 0 0 ]} (sched_demo [5; 3]).

Lemma sched_next_ok : sched_ok sched_next (mkCpuInfo 0 CPU_STARTED (Some 3) 0 0).
Proof. eapply sched_ok_cpus; [apply sched_demo_ok|reflexivity|]. intros e [= <-]. lia. Qed.

Lemma sched_next_env i v : envs sched_next !! i = Some v -> v = table_env [5; 3] i.
Proof. unfold sched_next. kred. apply sched_demo_env. Qed.

Lemma sched_next_status i : status_of sched_next i = status_of (sched_demo [5; 3]) i.
Proof. unfold status_of, sched_next. kred. done. Qed.

