(* ===== verification/EnvSpec.v ===== *)
(** * What the operations of [kern/env.c] do

    Environment identifiers, the environment table and its free list, and the
    memory of an environment from [env_alloc] to [env_free]. *)

From Stdlib Require Import Lia ZArith ZifyClasses ZifyInst ZifyBool.
From stdpp Require Import base gmap list strings numbers.
From S2P Require Import Prelude Cmonad Mmu Printfmt Console State Spinlock Umem Pmap.
From S2P Require Import PageList Vm VmInv PmapLem VmLem PmapSpec VmDir Env EnvLem Sched.

(** ** Identifiers *)

Lemma ENVX_mod id : ENVX id = id mod 1024.
Proof. unfold ENVX. change (NENV - 1) with (Z.ones 10). by rewrite Z.land_ones by lia. Qed.

Lemma next_id_value old e :
  0 <= e < NENV -> - 2 ^ 31 <= old < 2 ^ 31 ->
  let g := s32 (old + 4096) / 1024 * 1024 in
  next_id old e = (if g <=? 0 then 4096 else g) + e.
Proof.
  intros He Hold. unfold next_id. change (Z.shiftl 1 ENVGENSHIFT) with 4096.
  change (NENV - 1) with (Z.ones 10). rewrite land_lnot_ones by lia. change (2 ^ 10) with 1024.
  cbn zeta. set (g := s32 (old + 4096) / 1024 * 1024).
  assert (forall x, Z.lor (x * 1024) e = x * 1024 + e) as Hlor
    by (intros x; apply (lor_shift_add x e 10); lia).
  destruct (g <=? 0); [exact (Hlor 4)|apply Hlor].
Qed.

Lemma next_id_lt old e :
  0 <= e < NENV -> - 2 ^ 31 <= old < 2 ^ 31 -> next_id old e < 2 ^ 31.
Proof.
  intros He Hold. rewrite next_id_value by done. cbn zeta. unfold s32.
  change (2 ^ 31) with 2147483648 in *. change (2 ^ 32) with 4294967296.
  destruct (Z.leb_spec (((old + 4096 + 2147483648) mod 4294967296 - 2147483648) / 1024 * 1024) 0);
    Z.div_mod_to_equations; lia.
Qed.

Lemma next_id_pos old e :
  0 <= e < NENV -> - 2 ^ 31 <= old < 2 ^ 31 -> 0 < next_id old e.
Proof.
  intros He Hold. rewrite next_id_value by done. cbn zeta.
  destruct (Z.leb_spec (s32 (old + 4096) / 1024 * 1024) 0); lia.
Qed.

Lemma next_id_slot old e :
  0 <= e < NENV -> - 2 ^ 31 <= old < 2 ^ 31 -> ENVX (next_id old e) = e.
Proof.
  intros He Hold. rewrite next_id_value by done. rewrite ENVX_mod. cbn zeta.
  destruct (Z.leb_spec (s32 (old + 4096) / 1024 * 1024) 0).
  - change 4096 with (4 * 1024) at 1. rewrite Z.add_comm, Z.mod_add by lia. apply Z.mod_small. lia.
  - rewrite Z.add_comm, Z.mod_add by lia. apply Z.mod_small. lia.
Qed.

(** A new identifier is positive, carries its slot in its low bits, and
    differs from the one the slot had before, so a stale identifier does not
    name the environment that now uses the slot. *)
Theorem next_id_fresh old e :
  0 <= e < NENV -> - 2 ^ 31 <= old < 2 ^ 31 ->
  0 < next_id old e < 2 ^ 31 /\ ENVX (next_id old e) = e /\ next_id old e <> old.
Proof.
  intros He Hold. rewrite next_id_value by done. rewrite ENVX_mod. unfold s32.
  change (2 ^ 31) with 2147483648 in *. change (2 ^ 32) with 4294967296.
  destruct (Z.leb_spec (((old + 4096 + 2147483648) mod 4294967296 - 2147483648) / 1024 * 1024) 0);
    Z.div_mod_to_equations; lia.
Qed.

Lemma next_id_fresh_witness : 0 < next_id 0x7fffff05 5 < 2 ^ 31 /\ ENVX (next_id 0x7fffff05 5) = 5.
Proof.
  destruct (next_id_fresh 0x7fffff05 5) as (H1 & H2 & _); [lia|lia|]. exact (conj H1 H2).
Defined.

(** ** [envid2env] *)

(** Environment [i] is allocated and has identifier [id]. *)
Definition live (s : kstate) (i id : Z) : Prop :=
  exists v, envs s !! i = Some v /\ env_status v <> ENV_FREE /\ env_id v = id.

(** The environment in slot [k] may operate on the one in slot [i]. *)
Definition may_control (s : kstate) (k i : Z) : Prop :=
  i = k \/ exists v vk, envs s !! i = Some v /\ envs s !! k = Some vk /\ env_parent_id v = env_id vk.

(** The table is complete and identifiers carry their slots. *)
Record ids_ok (s : kstate) : Prop := {
  io_full i : 0 <= i < NENV -> is_Some (envs s !! i);
  io_slot i v : envs s !! i = Some v -> env_status v <> ENV_FREE -> ENVX (env_id v) = i
}.

Lemma envid2env_cases s c k envid checkperm :
  ids_ok s -> cpus s !! cpunum s = Some c -> cpu_env c = Some k -> is_Some (envs s !! k) ->
  exists r, envid2env envid checkperm s = Ret r s /\
    ((r = (- E_BAD_ENV, None) /\ envid <> 0 /\
      forall i, live s i envid -> checkperm = true /\ ~ may_control s k i) \/
     (exists i, r = (0, Some i) /\
       (envid = 0 -> i = k) /\ (envid <> 0 -> live s i envid) /\
       (checkperm = true -> may_control s k i))).
Proof.
  intros [Hfull Hslot] Hc Hk [vk Hvk]. unfold envid2env.
  destruct (Z.eqb_spec envid 0) as [->|H0].
  { eexists. split; [by erewrite bind_Ret by (by apply curenv_eq)|]. rewrite Hk. right.
    exists k. split_and!; try done. by left. }
  assert (0 <= ENVX envid < NENV) as Hx by (rewrite ENVX_mod; apply Z.mod_pos_bound; lia).
  destruct (Hfull _ Hx) as [v Hv]. erewrite bind_Ret by (by apply get_env_eq).
  assert (forall i, live s i envid -> i = ENVX envid) as Huniq.
  { intros i (w & Hw & Hst & Hid). rewrite <- Hid. symmetry. by apply (Hslot i w). }
  destruct (bool_decide_reflect (env_status v = ENV_FREE)) as [Hfree|Hlive]; cbn [orb].
  { eexists. split; [reflexivity|]. left. split_and!; try done.
    intros i Hi. pose proof (Huniq i Hi) as ->. destruct Hi as (w & Hw & ? & _). congruence. }
  destruct (Z.eqb_spec (env_id v) envid) as [Hid|Hid]; cbn [negb].
  2:{ eexists. split; [reflexivity|]. left. split_and!; try done.
      intros i Hi. pose proof (Huniq i Hi) as ->. destruct Hi as (w & Hw & _ & ?). congruence. }
  assert (live s (ENVX envid) envid) as Hl by (by exists v).
  erewrite bind_Ret by (by apply curenv_eq). rewrite Hk.
  destruct checkperm; cbn [andb].
  - destruct (bool_decide_reflect (Some k = Some (ENVX envid))) as [[= ->]|Hne]; cbn [negb].
    + eexists. split; [reflexivity|]. right. eexists. split_and!; try done. by left.
    + erewrite bind_Ret by (by apply get_env_eq).
      destruct (Z.eqb_spec (env_parent_id v) (env_id vk)) as [Hpar|Hpar]; cbn [negb].
      * eexists. split; [reflexivity|]. right. eexists. split_and!; try done.
        intros _. right. by exists v, vk.
      * eexists. split; [reflexivity|]. left. split_and!; try done. intros i Hi.
        pose proof (Huniq i Hi) as ->. split; [done|].
        intros [He|(w & wk & Hw & Hwk & Hp)]; [by rewrite He in Hne|].
        rewrite Hv in Hw. rewrite Hvk in Hwk. congruence.
  - eexists. split; [reflexivity|]. right. by eexists.
Qed.

(** [envid] names the environment in slot [i], for the caller in slot [k]. *)
Definition names (s : kstate) (k envid : Z) (checkperm : bool) (i : Z) : Prop :=
  (envid = 0 -> i = k) /\ (envid <> 0 -> live s i envid) /\ (checkperm = true -> may_control s k i).

Lemma envid2env_names s c k envid checkperm :
  ids_ok s -> cpus s !! cpunum s = Some c -> cpu_env c = Some k -> is_Some (envs s !! k) ->
  (envid2env envid checkperm s = Ret (- E_BAD_ENV, None) s /\ forall i, ~ names s k envid checkperm i) \/
  (exists i, envid2env envid checkperm s = Ret (0, Some i) s /\ names s k envid checkperm i).
Proof.
  intros Hi Hc Hk Hs. destruct (envid2env_cases s c k envid checkperm Hi Hc Hk Hs)
    as (r & Hr & [(-> & Hne & H)|(i & -> & H)]); [left|right; by exists i].
  split; [done|]. intros i (_ & Hl & Hm). destruct (H i (Hl Hne)) as [-> Hn]. by apply Hn, Hm.
Qed.

(** For a running environment in slot [k], [envid2env] finds the allocated
    environment with the given identifier, 0 standing for the caller itself;
    it refuses, with [-E_BAD_ENV] and nothing stored, exactly when there is no
    such environment, or when permission is asked for and it is neither the
    caller nor a child of the caller.  It changes nothing. *)
Theorem envid2env_correct s c k envid checkperm :
  ids_ok s -> cpus s !! cpunum s = Some c -> cpu_env c = Some k -> is_Some (envs s !! k) ->
  exists r, envid2env envid checkperm s = Ret r s /\
    ((r = (- E_BAD_ENV, None) /\ envid <> 0 /\
      forall i, live s i envid -> checkperm = true /\ ~ may_control s k i) \/
     (exists i, r = (0, Some i) /\
       (envid = 0 -> i = k) /\ (envid <> 0 -> live s i envid) /\
       (checkperm = true -> may_control s k i))).
Proof. apply envid2env_cases. Qed.

(** ** [env_init] *)

(** The list of environments from a head pointer. *)
Fixpoint echain (es : gmap Z Env) (head : option Z) (l : list Z) : Prop :=
  match l with
  | [] => head = None
  | e :: l' => head = Some e /\ exists v, es !! e = Some v /\ echain es (env_link v) l'
  end.

Lemma echain_insert es h l e v : e ∉ l -> echain es h l -> echain (<[e := v]> es) h l.
Proof.
  revert h. induction l as [|x l IH]; intros h Hin; [done|].
  apply not_elem_of_cons in Hin as [Hne Hin]. cbn. intros [-> (w & Hw & H)].
  split; [done|]. exists w. rewrite lookup_insert_ne by done. auto.
Qed.

Record env_init_upto (s0 : kstate) (i : Z) (s : kstate) : Prop := {
  ei_range : -1 <= i < NENV;
  ei_chain : echain (envs s) (env_free_list s) (seqZ (i + 1) (NENV - 1 - i));
  ei_done k : i < k < NENV -> exists v, envs s !! k = Some v /\ env_status v = ENV_FREE /\ env_id v = 0;
  ei_full k : 0 <= k < NENV -> is_Some (envs s !! k);
  ei_mem : pmem s = pmem s0 /\ pages s = pages s0
}.

(** [env_init] frees every environment, clears its identifier, and threads
    all 1024 of them on the free list in table order, so that the first
    [env_alloc] takes [envs[0]]. *)
Theorem env_init_correct s :
  (forall k, 0 <= k < NENV -> is_Some (envs s !! k)) ->
  wp env_init (fun _ s' =>
    echain (envs s') (env_free_list s') (seqZ 0 NENV) /\
    (forall k, 0 <= k < NENV -> exists v, envs s' !! k = Some v /\ env_status v = ENV_FREE /\ env_id v = 0) /\
    pmem s' = pmem s /\ pages s' = pages s) s.
Proof.
  intros Hfull. unfold env_init. apply wp_bind, wp_modify. apply wp_bind.
  eapply (wp_for_loop _ (NENV - 1) (-1) _ (env_init_upto s)).
  - constructor; kred; [lia|by replace (NENV - 1 - (NENV - 1)) with 0 by lia|lia|done|done].
  - intros k s1 Hk [Hr Hch Hdone Hf1 Hm1]. set (i := NENV - 1 + -1 * Z.of_nat k) in *.
    assert (0 <= i) by (unfold i; lia). destruct (Hf1 i ltac:(lia)) as [v Hv].
    upd_env_step. apply wp_bind, wp_gets. kred. upd_env_step. upd_env_step. apply wp_modify.
    assert (i ∉ seqZ (i + 1) (NENV - 1 - i)) as Hnin by (rewrite elem_of_seqZ; lia).
    constructor; kred; rewrite ?insert_insert_eq.
    + lia.
    + replace (i + -1 + 1) with i by lia. replace (NENV - 1 - (i + -1)) with (NENV - i) by lia.
      rewrite seqZ_cons by lia. cbn [echain]. split; [done|]. eexists.
      rewrite lookup_insert_eq. split; [reflexivity|]. cbn [env_link put upd].
      replace (Z.succ i) with (i + 1) by lia. replace (Z.pred (NENV - i)) with (NENV - 1 - i) by lia.
      by apply echain_insert.
    + intros j Hj. destruct (decide (j = i)) as [->|].
      * rewrite lookup_insert_eq. by eexists.
      * rewrite lookup_insert_ne by done. apply Hdone. lia.
    + intros j Hj. by apply is_Some_insert, Hf1.
    + done.
  - intros s1 [Hr Hch Hdone Hf1 Hm1]. change (NENV - 1 + -1 * Z.of_nat (Z.to_nat NENV)) with (-1) in *.
    unfold env_init_percpu, emit. wp_steps. kred. split; [exact Hch|]. split; [|done].
    intros k Hk. apply Hdone. lia.
Qed.

Lemma env_init_correct_witness :
  exists s', env_init (sched_demo []) = Ret tt s' /\ env_free_list s' = Some 0.
Proof.
  pose proof (env_init_correct (sched_demo []) (so_envs _ _ (sched_demo_ok []))) as H.
  apply wp_inv in H as ([] & s' & Hs & Hch & _). exists s'. split; [exact Hs|].
  rewrite seqZ_cons in Hch by lia. destruct Hch as [Hh _]. exact Hh.
Defined.

(** The machine of [Sched] with environment 3 on this CPU. *)
Definition run_demo (live : list Z) : kstate :=
  put cpus {[ 0 := mkCpuInfo 0 CPU_STARTED (Some 3) 0 0 ]} (sched_demo live).

Lemma run_demo_envs live i v : envs (run_demo live) !! i = Some v -> v = table_env live i.
Proof. unfold run_demo. kred. apply sched_demo_env. Qed.

Lemma run_demo_ids live : ids_ok (run_demo live).
Proof.
  constructor.
  - unfold run_demo. kred. apply (so_envs _ _ (sched_demo_ok live)).
  - intros i v Hv Hst.
    assert (0 <= i < NENV) as Hi.
    { unfold run_demo, sched_demo in Hv. kred. by apply env_table_dom in Hv. }
    apply run_demo_envs in Hv as ->. cbn [env_id table_env]. rewrite ENVX_mod.
    change 0x1000 with (4 * 2 ^ 10). rewrite lor_shift_add by lia.
    change (2 ^ 10) with 1024. zlia.
Qed.

Lemma envid2env_correct_witness :
  exists r, envid2env 0x1005 true (run_demo [5; 3]) = Ret r (run_demo [5; 3]) /\
    r = (- E_BAD_ENV, None).
Proof.
  assert (is_Some (envs (run_demo [5; 3]) !! 3)) as H3.
  { unfold run_demo. kred. apply (so_envs _ _ (sched_demo_ok [5; 3])). lia. }
  destruct (envid2env_correct (run_demo [5; 3]) (mkCpuInfo 0 CPU_STARTED (Some 3) 0 0) 3 0x1005 true
    (run_demo_ids _) eq_refl eq_refl H3) as (r & Hr & H).
  exists r. split; [exact Hr|]. destruct H as [(-> & _)|(i & -> & _ & Hl & Hm)]; [done|].
  destruct (Hl ltac:(lia)) as (v & Hv & _ & Hid). specialize (Hm eq_refl).
  apply run_demo_envs in Hv as ->. destruct Hm as [->|(w & wk & Hw & Hwk & Hp)].
  - by vm_compute in Hid.
  - apply run_demo_envs in Hw as ->. apply run_demo_envs in Hwk as ->. by vm_compute in Hp.
Defined.

(** ** The memory of an environment *)

(** C4: [env_alloc] fails without a change when no environment or no page is
    free.  Otherwise it takes the first free environment and the first free
    page, and the list of free environments goes on with the next one: the
    environment is runnable, with a fresh positive identifier, user
    segments, an empty user stack and interrupts on; its address space maps
    nothing below [UTOP], agrees with the kernel's above it except that [UVPT]
    maps its own directory, and no other address space changes. *)
Theorem env_alloc_correct base s fl D O kf parent :
  vm_inv base s fl D O -> (forall q, 0 <= base q) -> kern_pgdir_ok s fl kf -> cpu_ok s ->
  (forall e, env_free_list s = Some e -> 0 <= e < NENV /\
     exists v, envs s !! e = Some v /\ - 2 ^ 31 <= env_id v < 2 ^ 31) ->
  wp (env_alloc parent) (fun r s' =>
    match env_free_list s, fl with
    | None, _ => r = inl (- E_NO_FREE_ENV) /\ s' = s
    | Some _, [] => r = inl (- E_NO_MEM) /\ s' = s
    | Some e, f :: fl' =>
        r = inr e /\ vm_inv base s' fl' ({[f]} ∪ D) O /\
        (exists v, envs s' = <[e := v]> (envs s) /\ env_status v = ENV_RUNNABLE /\
           env_parent_id v = parent /\ env_tf v = tf_init /\ env_pgdir v = kva f /\
           0 < env_id v /\ ENVX (env_id v) = e /\
           env_pgfault_upcall v = 0 /\ env_ipc_recving v = false) /\
        (exists v0, envs s !! e = Some v0 /\ env_free_list s' = env_link v0) /\
        (forall i, 0 <= i < 1024 -> word (pmem s') f i =
           if i =? PDX UVPT then Z.lor (Z.lor (f * 4096) PTE_P) PTE_U else word (pmem s) kf i) /\
        (forall v, 0 <= v < UVPNS -> pte (pmem s') f v = 0) /\
        same_ptes D (pmem s) (pmem s')
    end) s.
Proof.
  intros INV Hb Hk Hc Hh.
  eapply wp_mono; [apply (env_alloc_wp base s fl D O kf parent INV Hb Hk Hc)|].
  { intros e He. destruct (Hh e He) as (_ & v & Hv & _). by exists v. }
  intros r s' H. destruct (env_free_list s) as [e|]; [|done]. destruct fl as [|f fl']; [done|].
  destruct H as (-> & INV' & Hm & _ & v & Hv & Hlk & Hes).
  destruct (Hh e eq_refl) as (He & v' & Hv' & Hid). rewrite Hv in Hv'. injection Hv' as <-.
  destruct (free_unused INV f ltac:(left) (Hb _)) as (Hf & _ & HfD & HfO & _).
  assert (kf <> f) as Hne by (intros ->; apply (kp_used _ _ _ Hk); left).
  split; [done|]. split; [done|]. split; [|split; [|split; [|split]]].
  - eexists. split; [exact Hes|].
    cbn [new_env env_status env_parent_id env_tf env_pgdir env_id env_pgfault_upcall env_ipc_recving].
    split_and!; try done; [by apply next_id_pos|by apply next_id_slot].
  - by exists v.
  - intros i Hi. rewrite Hm, dir_mem_word by done. rewrite PDX_UVPT.
    destruct (Z.eqb_spec i 957), (decide (i = 957)); done.
  - intros x Hx. apply user_empty_pte; [|done]. intros i Hi. rewrite Hm, dir_mem_word by done.
    rewrite decide_False by lia. by apply (kp_empty _ _ _ Hk).
  - intros d x Hd Hx. rewrite Hm.
    by apply (pte_outside (vi_vm _ _ _ _ _ INV) HfD HfO (dir_mem_outside _ _ _)).
Qed.

(** [four_pages] with page 0 for the kernel's directory and one free environment. *)
Definition alloc_demo : kstate := put env_free_list (Some 0) (put kern_pgdir (kva 0) four_pages_env).

Lemma alloc_demo_inv : vm_inv boot_refs alloc_demo [3] {[1]} ∅.
Proof. by apply (vm_inv_proj boot_refs four_pages); [..|apply four_pages_inv]. Qed.

Lemma alloc_demo_kern : kern_pgdir_ok alloc_demo [3] 0.
Proof.
  constructor; [done|cbn; lia|by rewrite list_elem_of_singleton|].
  intros i _. unfold word. cbn. by rewrite lookup_empty.
Qed.

Lemma alloc_demo_cpu : cpu_ok alloc_demo.
Proof. by exists (mkCpuInfo 0 CPU_STARTED None 0 0). Qed.

Lemma alloc_demo_head e : env_free_list alloc_demo = Some e ->
  0 <= e < NENV /\ exists v, envs alloc_demo !! e = Some v /\ - 2 ^ 31 <= env_id v < 2 ^ 31.
Proof. intros [= <-]. split; [lia|]. exists blank_env. split; [done|]. cbn. lia. Qed.

Lemma env_alloc_correct_witness :
  exists s', env_alloc 7 alloc_demo = Ret (inr 0) s' /\ vm_inv boot_refs s' [] {[3; 1]} ∅.
Proof.
  pose proof (env_alloc_correct boot_refs alloc_demo [3] {[1]} ∅ 0 7 alloc_demo_inv boot_refs_nonneg
    alloc_demo_kern alloc_demo_cpu alloc_demo_head) as H.
  apply wp_inv in H as (r & s' & Hs & -> & INV & _). exists s'. split; [exact Hs|exact INV].
Defined.

(** What only the address space [d] holds: its directory, its page tables, and the
    pages it maps and no other address space does. *)
Definition only_of (D : gset Z) (O : gmap Z (Z * Z)) (m : physmem) (d p : Z) : Prop :=
  p = d \/ (exists i, O !! p = Some (d, i)) \/
  ((exists v, 0 <= v < UVPNS /\ maps m d v = Some p) /\
   forall d' v, d' ∈ D -> d' <> d -> 0 <= v < UVPNS -> maps m d' v <> Some p).

(** All of it is free again once the references are given back. *)
Lemma only_of_freed base s s' fl fl' D O O' d p : vm_inv base s fl D O -> (forall q, 0 <= base q) -> d ∈ D ->
  vm_inv base s' fl' (D ∖ {[d]}) O' -> gives_back fl s fl' s' -> tables_freed d UPDES O O' ->
  same_ptes (D ∖ {[d]}) (pmem s) (pmem s') -> npages s' = npages s ->
  base p = 0 -> only_of D O (pmem s) d p -> p ∈ fl'.
Proof.
  intros INV Hb Hd INV' [_ Hgb] Htf Hs Hnp Hp0 Hp. pose proof (vi_vm _ _ _ _ _ INV) as Hok. apply Hgb. right.
  assert (forall d' v, d' ∈ D ∖ {[d]} -> 0 <= v < UVPNS -> maps (pmem s') d' v <> Some p) as Hno.
  { intros d' v [Hd' Hne]%elem_of_difference Hv. rewrite (maps_pte (pmem s)) by (by apply Hs; [apply elem_of_difference|]).
    intros Hm. destruct (vo_map _ _ _ _ Hok _ _ _ Hd' Hv Hm) as (_ & HpD & HpO).
    destruct Hp as [->|[[i Hi]|[_ Hp]]]; [done|congruence|].
    apply (Hp d' v Hd'); [|done|done]. intros ->. by apply Hne, elem_of_singleton. }
  pose proof (nmaps_nonneg (pmem s) D p) as Hn.
  assert (0 <= p < npages s /\ 0 < ref s p /\ O' !! p = None /\ p ∉ D ∖ {[d]}) as (Hr & Hpos & HO' & HD').
  { destruct Hp as [->|[[i Hi]|[(v & Hv & Hm) _]]].
    - destruct (vo_pd _ _ _ _ Hok d Hd) as [Hr HO]. split; [done|]. rewrite (vi_ref _ _ _ _ _ INV) by done.
      rewrite Htf, HO, (bool_decide_eq_true_2 (d ∈ D)) by done. specialize (Hb d).
      rewrite bool_decide_eq_false_2 by (by intros [? ?]). split; [cbn [b2z]; lia|]. split; [done|].
      intros [_ Hx]%elem_of_difference. by apply Hx, elem_of_singleton.
    - destruct (vo_own _ _ _ _ Hok _ _ _ Hi) as (Hr & _ & Hii & _). split; [done|]. rewrite (vi_ref _ _ _ _ _ INV) by done.
      assert (bool_decide (is_Some (O !! p)) = true) as -> by (apply bool_decide_eq_true_2; rewrite Hi; by eexists).
      rewrite Htf, Hi, decide_True by (split; [done|lia]). specialize (Hb p).
      split; [destruct (bool_decide (p ∈ D)); cbn [b2z]; lia|]. split; [done|]. intros [HpD _]%elem_of_difference.
      destruct (vo_pd _ _ _ _ Hok p HpD). congruence.
    - destruct (vo_map _ _ _ _ Hok _ _ _ Hd Hv Hm) as (Hr & HpD & HpO). split; [done|].
      pose proof (mapped_ref_pos INV _ _ _ Hd Hv Hm (Hb p)). split; [lia|]. rewrite Htf, HpO. split; [done|].
      by intros [HpD' _]%elem_of_difference. }
  split; [done|]. rewrite (vi_ref _ _ _ _ _ INV') by (by rewrite Hnp). rewrite HO', (bool_decide_eq_false_2 (p ∈ _)) by done.
  rewrite Hp0, (nmaps_none (pmem s')) by exact Hno. done.
Qed.

(** C3: [env_free] gives back everything the environment holds.  Its directory is
    no longer an address space; the reference count of every page is again the
    number of its mappings in the remaining address spaces, plus one for each of
    their directories and tables, plus the references the kernel holds for itself
    ([base]); and the pages that have lost their last reference,
    and only they, have joined the free list, among them its directory, its page
    tables and every page mapped nowhere else, unless the kernel holds it.  The other address spaces
    translate as before, all pages but its directory and tables have the same
    contents, and the environment is free and first on the list of free ones. *)
Theorem env_free_correct base s fl D O d e v kf :
  vm_inv base s fl D O -> (forall q, 0 <= base q) -> d ∈ D -> cpu_ok s ->
  envs s !! e = Some v -> env_pgdir v = kva d -> kern_pgdir s = kva kf -> 0 <= kf < 65536 ->
  wp (env_free e) (fun _ s' =>
    (exists fl' O', vm_inv base s' fl' (D ∖ {[d]}) O' /\
       (forall p, p ∈ fl' <-> p ∈ fl \/ 0 < ref s p /\ ref s' p = 0) /\
       (forall p, base p = 0 -> only_of D O (pmem s) d p -> p ∈ fl')) /\
    same_ptes (D ∖ {[d]}) (pmem s) (pmem s') /\
    (forall p x, p <> d -> (forall i, O !! p <> Some (d, i)) -> word (pmem s') p x = word (pmem s) p x) /\
    env_free_list s' = Some e /\
    exists v', envs s' = <[e := v']> (envs s) /\ env_status v' = ENV_FREE /\
      env_link v' = env_free_list s /\ env_pgdir v' = 0 /\ env_id v' = env_id v) s.
Proof.
  intros INV Hb Hd Hc He Hpg Hk Hkf.
  eapply wp_mono; [by apply (env_free_wp Hb Hd s fl O e v kf)|].
  intros [] s' ((fl' & O' & INV' & Hgb & Htf) & Hrest & Hoth & Hf & Hh & Hes).
  assert (same_ptes (D ∖ {[d]}) (pmem s) (pmem s')) as Hs.
  { intros d' x [Hd' Hne]%elem_of_difference Hx. apply Hoth; [done| |done].
    intros ->. apply Hne. by apply elem_of_singleton. }
  split.
  { exists fl', O'. split; [done|]. split; [apply Hgb|]. intros p Hp0 Hp.
    by eapply (only_of_freed base s s' fl fl' D O O' d p); [..|apply (ef_npages _ _ Hf)| |]. }
  split; [done|]. split; [exact Hrest|]. split; [done|]. eexists. split; [exact Hes|]. done.
Qed.

Lemma env_free_correct_witness :
  exists s1 s2 fl O, env_alloc 7 alloc_demo = Ret (inr 0) s1 /\ env_free 0 s1 = Ret tt s2 /\
    vm_inv boot_refs s2 fl {[1]} O /\ 3 ∈ fl.
Proof.
  pose proof (env_alloc_wp boot_refs alloc_demo [3] {[1]} ∅ 0 7 alloc_demo_inv boot_refs_nonneg
    alloc_demo_kern alloc_demo_cpu) as H.
  assert (forall e, env_free_list alloc_demo = Some e -> is_Some (envs alloc_demo !! e)) as Hh
    by (intros e [= <-]; by eexists).
  specialize (H Hh). apply wp_inv in H as (r & s1 & Hs1 & -> & INV1 & _ & [Hf _] & v & _ & _ & Hes).
  pose proof (env_free_correct boot_refs s1 [] ({[3]} ∪ {[1]}) ∅ 3 0 (new_env v 0 7 3) 0 INV1
    boot_refs_nonneg ltac:(set_solver)) as H2.
  assert (envs s1 !! 0 = Some (new_env v 0 7 3)) as Hl by (by rewrite Hes, lookup_insert_eq).
  assert (cpu_ok s1) as Hc1.
  { exists (mkCpuInfo 0 CPU_STARTED None 0 0). by rewrite (ef_cpus _ _ Hf), (ef_cpunum _ _ Hf). }
  specialize (H2 Hc1 Hl eq_refl (ef_kern_pgdir _ _ Hf) ltac:(lia)).
  apply wp_inv in H2 as ([] & s2 & Hs2 & (fl' & O' & INV2 & _ & H3) & _).
  exists s1, s2, fl', O'. split; [exact Hs1|]. split; [exact Hs2|].
  split; [|apply H3; [done|by left]].
  by replace ({[1]} : gset Z) with (({[3]} ∪ {[1]}) ∖ {[3]} : gset Z) by set_solver.
Defined.
