(* ===== verification/Syscall.v ===== *)
(** * System calls: [kern/syscall.c]

    Every system call and the dispatcher.  The arguments are the five words of
    [syscall], cast as the C code casts them.  A call that gives up the CPU
    ([sys_yield], [sys_ipc_recv], destroying the caller) is a [Stop].

    [sys_page_map] reads [*page_table1] also when [page_lookup] found no page
    table and left the pointer uninitialised; that is [Undef]. *)

From Stdlib Require Import Lia ZArith ZifyClasses ZifyInst ZifyBool.
From stdpp Require Import base gmap list strings numbers.
From S2P Require Import Prelude Cmonad Mmu Printfmt Console State Spinlock Umem Pmap Env.

(** [curenv] where the code dereferences it. *)
Definition the_curenv : K Z :=
  cur ← curenv;
  match cur with Some c => mret c | None => undef "null curenv" end.

(** The environment [envid2env] stored, where the code uses it. *)
Definition stored (e : option Z) : K Z :=
  match e with Some e => mret e | None => undef "null environment" end.

(** ** Console *)

Definition sys_cputs (a len : Z) : K unit :=
  c ← the_curenv;
  user_mem_assert c a len PTE_U ;;
  if a =? NULL then cprintf "%.*s" [AInt len; AStr None]
  else bs ← user_string (s32 len) a; cprintf "%.*s" [AInt len; AStr (Some bs)].

Definition sys_cgetc : K Z := with_cons cons_getc.

(** ** Environments *)

Definition sys_getenvid : K Z :=
  c ← the_curenv; v ← get_env c; mret (env_id v).

Definition sys_env_destroy (envid : Z) : K Z :=
  r ← envid2env envid true;
  if r.1 <? 0 then mret r.1
  else
    e ← stored r.2;
    cur ← curenv;
    c ← the_curenv;
    vc ← get_env c;
    ve ← get_env e;
    (if bool_decide (cur = Some e) then cprintln "[%08x] exiting gracefully" [AInt (env_id vc)]
     else cprintln "[%08x] destroying %08x" [AInt (env_id vc); AInt (env_id ve)]) ;;
    env_destroy e ;;
    mret 0.

Definition sys_yield : K unit := sched_yield.

Definition sys_exofork : K Z :=
  c ← the_curenv;
  v ← get_env c;
  flag ← env_alloc (env_id v);
  match flag with
  | inl err => mret err
  | inr e =>
      upd_env e (put env_status ENV_NOT_RUNNABLE) ;;
      vc ← get_env c;
      upd_env e (put env_tf (env_tf vc)) ;;
      upd_env e (upd env_tf (upd tf_regs (put reg_eax 0))) ;;
      ve ← get_env e;
      mret (env_id ve)
  end.

Definition sys_env_set_status (envid status : Z) : K Z :=
  if negb (status =? status_code ENV_RUNNABLE) && negb (status =? status_code ENV_NOT_RUNNABLE)
  then mret (- E_INVAL)
  else
    r ← envid2env envid true;
    if negb (r.1 =? 0) then mret r.1
    else
      e ← stored r.2;
      upd_env e (put env_status
        (if status =? status_code ENV_RUNNABLE then ENV_RUNNABLE else ENV_NOT_RUNNABLE)) ;;
      mret 0.

Definition sys_env_set_pgfault_upcall (envid func : Z) : K Z :=
  r ← envid2env envid true;
  if negb (r.1 =? 0) then mret r.1
  else
    e ← stored r.2;
    upd_env e (put env_pgfault_upcall func) ;;
    mret 0.

(** ** Memory *)

(** The tests of [sys_page_alloc] and [sys_page_map] on an address and on
    permissions: true when the call fails with [-E_INVAL]. *)
Definition bad_va (va : Z) : bool := (UTOP <=? va) || negb (PGOFF va =? 0).

Definition bad_perm (perm : Z) : bool :=
  let p := Z.lor PTE_U PTE_P in
  negb (Z.land p perm =? p) ||
  negb (Z.land perm (Z.lnot (Z.lor (Z.lor (Z.lor PTE_U PTE_P) PTE_AVAIL) PTE_W)) =? 0).

Definition sys_page_alloc (envid va perm : Z) : K Z :=
  r ← envid2env envid true;
  if negb (r.1 =? 0) then mret r.1
  else if bad_va va then mret (- E_INVAL)
  else if bad_perm perm then mret (- E_INVAL)
  else
    page ← page_alloc ALLOC_ZERO;
    match page with
    | None => mret (- E_NO_MEM)
    | Some page =>
        e ← stored r.2;
        v ← get_env e;
        flag ← page_insert (env_pgdir v) page va perm;
        if negb (flag =? 0) then page_free page ;; mret flag else mret 0
    end.

Definition sys_page_map (srcenvid srcva dstenvid dstva perm : Z) : K Z :=
  r1 ← envid2env srcenvid true;
  r2 ← envid2env dstenvid true;
  if negb (r1.1 =? 0) || negb (r2.1 =? 0) then mret (- E_BAD_ENV)
  else if bad_va srcva then mret (- E_INVAL)
  else if bad_va dstva then mret (- E_INVAL)
  else if bad_perm perm then mret (- E_INVAL)
  else
    e1 ← stored r1.2;
    v1 ← get_env e1;
    page ← page_lookup (env_pgdir v1) srcva;
    match page with
    | None => undef "page_table1 is uninitialised"
    | Some (page, page_table1) =>
        pte ← kload page_table1;
        if negb (tst pte PTE_W) && (Z.land perm PTE_W =? 1) then mret (- E_INVAL)
        else
          e2 ← stored r2.2;
          v2 ← get_env e2;
          flag ← page_insert (env_pgdir v2) page dstva perm;
          if negb (flag =? 0) then mret (- E_NO_MEM) else mret 0
    end.

Definition sys_page_unmap (envid va : Z) : K Z :=
  r ← envid2env envid true;
  if r.1 <? 0 then mret (- E_BAD_ENV)
  else if bad_va va then mret (- E_INVAL)
  else
    e ← stored r.2;
    v ← get_env e;
    page_remove (env_pgdir v) va ;;
    mret 0.

(** ** Messages *)

(** The page part of a send: an error code, or 0. *)
Definition ipc_send_page (e srcva perm : Z) : K Z :=
  c ← the_curenv;
  vc ← get_env c;
  pg ← page_lookup (env_pgdir vc) srcva;
  match pg with
  | None => mret (- E_INVAL)
  | Some (pg, pte) =>
      if negb (Z.land perm (Z.lnot PTE_SYSCALL) =? 0) || negb (tst perm PTE_U) || negb (tst perm PTE_P)
      then mret (- E_INVAL)
      else
        w ← kload pte;
        if tst perm PTE_W && negb (tst w PTE_W) then mret (- E_INVAL)
        else if negb (PGOFF srcva =? 0) then mret (- E_INVAL)
        else
          v ← get_env e;
          if env_ipc_dstva v <? UTOP then
            flag ← page_insert (env_pgdir v) pg (env_ipc_dstva v) perm;
            if negb (flag =? 0) then mret flag
            else upd_env e (put env_ipc_perm (s32 perm)) ;; mret 0
          else mret 0
  end.

Definition sys_ipc_try_send (envid value srcva perm : Z) : K Z :=
  r ← envid2env envid false;
  if negb (r.1 =? 0) then mret r.1
  else
    e ← stored r.2;
    v ← get_env e;
    if negb (env_ipc_recving v) then mret (- E_IPC_NOT_RECV)
    else
      flag ← (if srcva <? UTOP then ipc_send_page e srcva perm else mret 0);
      if negb (flag =? 0) then mret flag
      else
        upd_env e (put env_ipc_recving false) ;;
        c ← the_curenv;
        vc ← get_env c;
        upd_env e (put env_ipc_from (env_id vc)) ;;
        upd_env e (put env_ipc_value value) ;;
        upd_env e (put env_status ENV_RUNNABLE) ;;
        upd_env e (upd env_tf (upd tf_regs (put reg_eax 0))) ;;
        mret 0.

Definition sys_ipc_recv (dstva : Z) : K Z :=
  if (dstva <? UTOP) && negb (PGOFF dstva =? 0) then mret (- E_INVAL)
  else
    c ← the_curenv;
    upd_env c (put env_ipc_recving true) ;;
    upd_env c (put env_status ENV_NOT_RUNNABLE) ;;
    upd_env c (put env_ipc_dstva dstva) ;;
    sys_yield ;;
    mret 0.

(** ** The dispatcher *)

Inductive sysno : Set :=
  | SYS_cputs | SYS_cgetc | SYS_getenvid | SYS_env_destroy | SYS_page_alloc
  | SYS_page_map | SYS_page_unmap | SYS_exofork | SYS_env_set_status
  | SYS_env_set_pgfault_upcall | SYS_yield | SYS_ipc_try_send | SYS_ipc_recv.

Definition sysno_of (n : Z) : option sysno :=
  (if n <? 0 then None else
   [SYS_cputs; SYS_cgetc; SYS_getenvid; SYS_env_destroy; SYS_page_alloc;
    SYS_page_map; SYS_page_unmap; SYS_exofork; SYS_env_set_status;
    SYS_env_set_pgfault_upcall; SYS_yield; SYS_ipc_try_send; SYS_ipc_recv] !! Z.to_nat n)%Z.

Definition syscall (syscallno a1 a2 a3 a4 a5 : Z) : K Z :=
  match sysno_of syscallno with
  | Some SYS_cputs => sys_cputs a1 a2 ;; mret 0
  | Some SYS_cgetc => sys_cgetc
  | Some SYS_env_destroy => sys_env_destroy (s32 a1)
  | Some SYS_getenvid => sys_getenvid
  | Some SYS_yield => sys_yield ;; mret 0
  | Some SYS_exofork => sys_exofork
  | Some SYS_env_set_status => sys_env_set_status (s32 a1) (s32 a2)
  | Some SYS_page_alloc => sys_page_alloc (s32 a1) a2 (s32 a3)
  | Some SYS_page_map => sys_page_map (s32 a1) a2 (s32 a3) a4 (s32 a5)
  | Some SYS_page_unmap => sys_page_unmap (s32 a1) a2
  | Some SYS_env_set_pgfault_upcall => sys_env_set_pgfault_upcall (s32 a1) a2
  | Some SYS_ipc_recv => sys_ipc_recv a1
  | Some SYS_ipc_try_send => sys_ipc_try_send (s32 a1) a2 a3 a4
  | None => mret (- E_NO_SYS)
  end.
