(* ===== verification/Kdebug.v ===== *)
(** * Debugging information ([kern/kdebug.c])

    The stabs table, of the kernel or of a user program, is read where it is in
    memory; an index out of the table reads whatever is there.  A pointer into
    a string table is its address, and the constant ["<unknown>"] is [None]. *)

From Stdlib Require Import Lia ZArith ZifyClasses ZifyInst ZifyBool.
From stdpp Require Import base gmap list strings numbers.
From S2P Require Import Prelude Cmonad Mmu Printfmt Console State Spinlock Umem Pmap Env Syscall.

(** ** Stabs ([inc/stab.h]) *)

Definition N_FUN : Z := 0x24.
Definition N_SLINE : Z := 0x44.
Definition N_SO : Z := 0x64.
Definition N_SOL : Z := 0x84.
Definition N_PSYM : Z := 0xa0.

Definition sizeof_Stab : Z := 12.

(** A load at a virtual address, of the kernel or of the current user program. *)
Definition vload_byte (va : Z) : K Z :=
  if ULIM <=? va then kload_byte va else uload_byte va.

Definition n_strx (stabs i : Z) : K Z := read_le vload_byte 4 (stabs + sizeof_Stab * i).
Definition n_type (stabs i : Z) : K Z := vload_byte (stabs + sizeof_Stab * i + 4).
Definition n_value (stabs i : Z) : K Z := read_le vload_byte 4 (stabs + sizeof_Stab * i + 8).

(** ** [stab_binsearch] *)

(** [while (m >= l && stabs[m].n_type != type) m--]. *)
Fixpoint scan_down (fuel : nat) (stabs l m type : Z) : K Z :=
  match fuel with
  | O => mret m
  | S fuel' =>
      if l <=? m then
        t ← n_type stabs m;
        if negb (t =? type) then scan_down fuel' stabs l (m - 1) type else mret m
      else mret m
  end.

(** The locals of [stab_binsearch] and what its pointers point to. *)
Record search := mkSearch {
  bs_l : Z; bs_r : Z; bs_left : Z; bs_right : Z; bs_any : bool; bs_addr : Z
}.

(** One round of [while (l <= r)]. *)
Definition binsearch_round (stabs type : Z) (b : search) : K search :=
  let true_m := Z.quot (bs_l b + bs_r b) 2 in
  m ← scan_down (Z.to_nat (true_m - bs_l b + 1)) stabs (bs_l b) true_m type;
  if m <? bs_l b then
    mret (mkSearch (true_m + 1) (bs_r b) (bs_left b) (bs_right b) (bs_any b) (bs_addr b))
  else
    v ← n_value stabs m;
    if v <? bs_addr b then mret (mkSearch (true_m + 1) (bs_r b) m (bs_right b) true (bs_addr b))
    else if bs_addr b <? v then mret (mkSearch (bs_l b) (m - 1) (bs_left b) (m - 1) true (bs_addr b))
    else mret (mkSearch m (bs_r b) m (bs_right b) true (u32 (bs_addr b + 1))).

Fixpoint binsearch_loop (fuel : nat) (stabs type : Z) (b : search) : K search :=
  if bs_l b <=? bs_r b then
    match fuel with
    | O => undef "the search does not end"
    | S fuel' => b ← binsearch_round stabs type b; binsearch_loop fuel' stabs type b
    end
  else mret b.

(** Two rounds at least halve the open range or shorten it by one. *)
Definition binsearch_fuel (l r : Z) : nat := Z.to_nat (2 * (r - l + 1)).

Definition stab_binsearch (stabs region_left region_right type addr : Z) : K (Z * Z) :=
  b ← binsearch_loop (binsearch_fuel region_left region_right) stabs type
        (mkSearch region_left region_right region_left region_right false addr);
  if negb (bs_any b) then mret (bs_left b, bs_left b - 1)
  else
    l ← scan_down (Z.to_nat (bs_right b - bs_left b)) stabs (bs_left b + 1) (bs_right b) type;
    mret (l, bs_right b).

(** ** [debuginfo_eip] *)

Record Eipdebuginfo := mkEip {
  eip_file : option Z; eip_line : Z; eip_fn_name : option Z; eip_fn_namelen : Z;
  eip_fn_addr : Z; eip_fn_narg : Z
}.
#[export] Instance eta_Eipdebuginfo : Eta Eipdebuginfo := fun r =>
  mkEip (eip_file r) (eip_line r) (eip_fn_name r) (eip_fn_namelen r) (eip_fn_addr r) (eip_fn_narg r).

(** [strfind(s, c) - s] of [lib/string.c] on a string in memory; no string is
    longer than the address space. *)
Fixpoint strfind_at (fuel : nat) (s c n : Z) : K Z :=
  match fuel with
  | O => undef "a string without end"
  | S fuel' =>
      b ← vload_byte (u32 (s + n));
      if b =? 0 then mret n else if b =? c then mret n else strfind_at fuel' s c (n + 1)
  end.

(** The loop back to the file's stab, and the loop that counts parameters. *)
Fixpoint find_file (fuel : nat) (stabs lfile lline : Z) : K Z :=
  match fuel with
  | O => mret lline
  | S fuel' =>
      if lfile <=? lline then
        t ← n_type stabs lline;
        if t =? N_SOL then mret lline
        else
          v ← (if t =? N_SO then n_value stabs lline else mret 0);
          if (t =? N_SO) && negb (v =? 0) then mret lline
          else find_file fuel' stabs lfile (lline - 1)
      else mret lline
  end.

Fixpoint count_args (fuel : nat) (stabs lline rfun n : Z) : K Z :=
  match fuel with
  | O => mret n
  | S fuel' =>
      if lline <? rfun then
        t ← n_type stabs lline;
        if t =? N_PSYM then count_args fuel' stabs (lline + 1) rfun (n + 1) else mret n
      else mret n
  end.

Section Debuginfo.
(** [__STAB_BEGIN__] to [__STABSTR_END__]. *)
Context (STAB_BEGIN STAB_END STABSTR_BEGIN STABSTR_END : Z).

Definition uread32_at (va : Z) : K Z := read_le uload_byte 4 va.

(** The tables to search, or null when the user's are not accessible. *)
Definition find_tables (addr : Z) : K (option (Z * Z * Z * Z)) :=
  if ULIM <=? addr then mret (Some (STAB_BEGIN, STAB_END, STABSTR_BEGIN, STABSTR_END))
  else
    c ← the_curenv;
    r ← user_mem_check c USTABDATA 16 PTE_U;
    if negb (r =? 0) then mret None
    else
      stabs ← uread32_at USTABDATA;
      stab_end ← uread32_at (USTABDATA + 4);
      stabstr ← uread32_at (USTABDATA + 8);
      stabstr_end ← uread32_at (USTABDATA + 12);
      c ← the_curenv;
      r ← user_mem_check c stabs (u32 (Z.quot (s32 (stab_end - stabs)) sizeof_Stab)) PTE_U;
      if negb (r =? 0) then mret None
      else
        c ← the_curenv;
        r ← user_mem_check c stabstr (u32 (stabstr_end - stabstr)) PTE_U;
        if negb (r =? 0) then mret None
        else mret (Some (stabs, stab_end, stabstr, stabstr_end)).

(** From the search for the function on. *)
Definition debuginfo_function (stabs stabstr stabstr_end lfile rfile addr : Z) (info : Eipdebuginfo) :
    K (Z * Eipdebuginfo) :=
  '(lfun, rfun) ← stab_binsearch stabs lfile rfile N_FUN addr;
  '(info, lline) ←
    (if lfun <=? rfun then
       x ← n_strx stabs lfun;
       let info := if x <? u32 (stabstr_end - stabstr)
                   then put eip_fn_name (Some (u32 (stabstr + x))) info else info in
       v ← n_value stabs lfun;
       mret (put eip_fn_addr v info, lfun)
     else mret (put eip_fn_addr addr info, lfile));
  len ← match eip_fn_name info with
        | None => mret 9
        | Some s => strfind_at (Z.to_nat (2 ^ 32)) s (ch ":") 0
        end;
  let info := put eip_fn_namelen len info in
  lline ← find_file (Z.to_nat (lline - lfile + 1)) stabs lfile lline;
  info ←
    (if lfile <=? lline then
       x ← n_strx stabs lline;
       mret (if x <? u32 (stabstr_end - stabstr) then put eip_file (Some (u32 (stabstr + x))) info else info)
     else mret info);
  n ← (if lfun <? rfun then count_args (Z.to_nat (rfun - lfun)) stabs (lfun + 1) rfun 0 else mret 0);
  mret (0, upd eip_fn_narg (Z.add n) info).

Definition debuginfo_eip (addr : Z) : K (Z * Eipdebuginfo) :=
  let info := mkEip None 0 None 9 addr 0 in
  tables ← find_tables addr;
  match tables with
  | None => mret (-1, info)
  | Some (stabs, stab_end, stabstr, stabstr_end) =>
      if stabstr_end <=? stabstr then mret (-1, info)
      else
        last ← vload_byte (stabstr_end - 1);
        if negb (last =? 0) then mret (-1, info)
        else
          '(lfile, rfile) ← stab_binsearch stabs 0
              (Z.quot (s32 (stab_end - stabs)) sizeof_Stab - 1) N_SO addr;
          if lfile =? 0 then mret (-1, info)
          else debuginfo_function stabs stabstr stabstr_end lfile rfile addr info
  end.
End Debuginfo.
