(* ===== verification/KdebugSpec.v ===== *)
(** * Properties of the search in the stabs table *)

From Stdlib Require Import Lia ZArith ZifyClasses ZifyInst ZifyBool.
From stdpp Require Import base gmap list strings numbers.
From S2P Require Import Prelude Cmonad Mmu Printfmt Console State Spinlock Umem Pmap Vm Env Syscall Kdebug.

Section Search.
Context {s : kstate} {stabs type L R : Z} {ty val : Z -> Z}.

(** The entries of the region can be read: [ty i] and [val i] are the type and
    the value of entry [i]. *)
Definition readable : Prop := forall i, L <= i <= R ->
  n_type stabs i s = Ret (ty i) s /\ n_value stabs i s = Ret (val i) s /\ 0 <= val i < 2 ^ 32.

Hypothesis Hread : readable.
Hypothesis Hregion : 0 <= L.

Definition is_match (i : Z) : Prop := L <= i <= R /\ ty i = type.

(** [scan_down] finds the last match in [l, m], or [l - 1]. *)
Lemma scan_down_eq k l m :
  L <= l -> m <= R -> m - l + 1 <= Z.of_nat k ->
  exists x, scan_down k stabs l m type s = Ret x s /\ x <= m /\
    (x < l /\ x = Z.min m (l - 1) \/ l <= x /\ is_match x) /\ (forall i, x < i <= m -> l <= i -> ~ is_match i).
Proof.
  revert m. induction k as [|k IH]; intros m Hl Hm Hk; cbn [scan_down].
  { exists m. split; [done|]. split; [lia|]. split; [left; lia|]. intros; lia. }
  destruct (Z.leb_spec l m) as [Hlm|Hlm].
  2:{ exists m. split; [done|]. split; [lia|]. split; [left; lia|]. intros; lia. }
  destruct (Hread m) as (Ht & _); [lia|]. erewrite bind_Ret by exact Ht.
  destruct (Z.eqb_spec (ty m) type) as [Heq|Hne]; cbn [negb].
  { exists m. split; [done|]. split; [lia|]. split; [right; split; [lia|split; [lia|done]]|]. intros; lia. }
  destruct (IH (m - 1)) as (x & Hx & Hxm & Hor & Hno); [lia..|]. exists x. split; [exact Hx|]. split; [lia|].
  split; [destruct Hor as [[? ->]|?]; [left; lia|by right]|].
  intros i Hi Hli. destruct (decide (i = m)) as [->|]; [by intros [_ ?]|apply Hno; lia].
Qed.

(** The entry a round looks at. *)
Definition looks_at (b : search) (m : Z) : Prop :=
  let true_m := Z.quot (bs_l b + bs_r b) 2 in
  m <= true_m /\ (m = bs_l b - 1 \/ bs_l b <= m /\ is_match m) /\
  (forall i, m < i <= true_m -> ~ (bs_l b <= i /\ is_match i)).

Definition round_result (b : search) (m : Z) : search :=
  let true_m := Z.quot (bs_l b + bs_r b) 2 in
  if m <? bs_l b then mkSearch (true_m + 1) (bs_r b) (bs_left b) (bs_right b) (bs_any b) (bs_addr b)
  else if val m <? bs_addr b then mkSearch (true_m + 1) (bs_r b) m (bs_right b) true (bs_addr b)
  else if bs_addr b <? val m then mkSearch (bs_l b) (m - 1) (bs_left b) (m - 1) true (bs_addr b)
  else mkSearch m (bs_r b) m (bs_right b) true (u32 (bs_addr b + 1)).

Lemma binsearch_round_eq b :
  L <= bs_l b -> bs_l b <= bs_r b -> bs_r b <= R ->
  exists m, looks_at b m /\ binsearch_round stabs type b s = Ret (round_result b m) s.
Proof.
  intros Hl Hlr Hr. assert (bs_l b <= Z.quot (bs_l b + bs_r b) 2 <= bs_r b) as Hm
    by (rewrite Z.quot_div_nonneg by lia; zlia).
  unfold binsearch_round. set (true_m := Z.quot (bs_l b + bs_r b) 2) in *.
  destruct (scan_down_eq (Z.to_nat (true_m - bs_l b + 1)) (bs_l b) true_m) as (m & Hs & Hmm & Hor & Hno); [lia..|].
  exists m. split.
  - split; [exact Hmm|]. split; [destruct Hor as [?|?]; [left; lia|by right]|]. intros i Hi [Hli Hi2]. by apply (Hno i).
  - erewrite bind_Ret by exact Hs. unfold round_result. fold true_m.
    destruct (Z.ltb_spec m (bs_l b)) as [|Hge]; [done|].
    destruct Hor as [[? _]|[_ [HmR _]]]; [lia|]. destruct (Hread m HmR) as (_ & Hv & _).
    erewrite bind_Ret by exact Hv. by destruct (val m <? bs_addr b), (bs_addr b <? val m).
Qed.

(** ** Termination *)

(** An exact match at the left end, which the next round cannot be again. *)
Definition at_match (b : search) : bool :=
  bool_decide (u32 (val (bs_l b) + 1) = bs_addr b).

Definition measure (b : search) : Z := 2 * (bs_r b - bs_l b + 1) + (if at_match b then 0 else 1).

Record in_region (b : search) : Prop := { ir_l : L <= bs_l b; ir_r : bs_r b <= R }.

Lemma round_measure b m :
  in_region b -> bs_l b <= bs_r b -> looks_at b m ->
  in_region (round_result b m) /\ measure (round_result b m) < measure b.
Proof.
  intros [Hl Hr] Hlr (Hmt & Hor & _). unfold round_result, measure.
  assert (bs_l b <= Z.quot (bs_l b + bs_r b) 2 <= bs_r b) as Hq by (rewrite Z.quot_div_nonneg by lia; zlia).
  destruct (Z.ltb_spec m (bs_l b)) as [Hlt|Hge].
  { split; [constructor; cbn; lia|]. cbn. repeat case_match; lia. }
  destruct Hor as [?|[_ [HmR _]]]; [lia|]. destruct (Hread m HmR) as (_ & _ & Hv).
  destruct (Z.ltb_spec (val m) (bs_addr b)).
  { split; [constructor; cbn; lia|]. cbn. repeat case_match; lia. }
  destruct (Z.ltb_spec (bs_addr b) (val m)).
  { split; [constructor; cbn; lia|]. cbn. repeat case_match; lia. }
  assert (val m = bs_addr b) as Heq by lia. split; [constructor; cbn; lia|].
  unfold at_match at 1. cbn [bs_l bs_r bs_addr]. rewrite Heq, bool_decide_eq_true_2 by done.
  destruct (decide (m = bs_l b)) as [->|]; [|destruct (at_match b); lia].
  unfold at_match. rewrite Heq, bool_decide_eq_false_2; [lia|]. rewrite <- Heq. intros Hu. unfold u32 in Hu. zlia.
Qed.

(** A property that every round keeps holds at the end of the loop. *)
Lemma binsearch_loop_eq (I : search -> Prop) k b :
  in_region b -> I b ->
  (forall b m, in_region b -> bs_l b <= bs_r b -> looks_at b m -> I b -> I (round_result b m)) ->
  measure b <= Z.of_nat k + 1 ->
  exists b', binsearch_loop k stabs type b s = Ret b' s /\ in_region b' /\ I b' /\ bs_r b' < bs_l b'.
Proof.
  intros Hb HI Hstep. revert b Hb HI. induction k as [|k IH]; intros b Hb HI Hk.
  - assert (bs_r b < bs_l b) as Hend by (unfold measure in Hk; destruct (at_match b); lia).
    exists b. cbn [binsearch_loop]. destruct (Z.leb_spec (bs_l b) (bs_r b)); [lia|done].
  - cbn [binsearch_loop]. destruct (Z.leb_spec (bs_l b) (bs_r b)) as [Hlr|Hlr]; [|by exists b].
    destruct (binsearch_round_eq b) as (m & Hm & Hround); [apply Hb|done|apply Hb|].
    destruct (round_measure b m Hb Hlr Hm) as [Hb' Hlt].
    erewrite bind_Ret by exact Hround. apply IH; [done|by apply Hstep|lia].
Qed.

Lemma measure_fuel left right any addr :
  measure (mkSearch L R left right any addr) <= Z.of_nat (binsearch_fuel L R) + 1.
Proof.
  unfold measure, binsearch_fuel. cbn [bs_l bs_r]. destruct (at_match _); lia.
Qed.
End Search.

Arguments readable : clear implicits.

(** [stab_binsearch] terminates on every table, in order or not, and for
    every address: each pair of rounds shortens the open range. *)
Theorem stab_binsearch_terminates s stabs type L R ty val addr :
  readable s stabs L R ty val -> 0 <= L ->
  exists left right, stab_binsearch stabs L R type addr s = Ret (left, right) s.
Proof.
  intros Hread HL. unfold stab_binsearch.
  destruct (binsearch_loop_eq (type := type) Hread HL (fun b => L <= bs_left b /\ bs_right b <= R)
    (binsearch_fuel L R) (mkSearch L R L R false addr)) as (b' & Hb & [Hl Hr] & [Hleft Hright] & _).
  - by constructor.
  - cbn. lia.
  - intros b m [Hl Hr] Hlr (Hmt & Hor & _) [HIl HIr]. unfold round_result.
    assert (bs_l b <= Z.quot (bs_l b + bs_r b) 2 <= bs_r b) as Hq by (rewrite Z.quot_div_nonneg by lia; zlia).
    repeat case_match; cbn; lia.
  - apply measure_fuel.
  - erewrite bind_Ret by exact Hb. destruct (bs_any b'); cbn [negb]; [|by eexists _, _].
    destruct (scan_down_eq (type := type) Hread (Z.to_nat (bs_right b' - bs_left b')) (bs_left b' + 1) (bs_right b'))
      as (x & Hx & _); [lia..|].
    erewrite bind_Ret by exact Hx. by eexists _, _.
Qed.

(** ** What the search finds *)

Section Found.
Context {s : kstate} {stabs type L R addr : Z} {ty val : Z -> Z}.
Hypothesis Hread : readable s stabs L R ty val.
Hypothesis Hregion : 0 <= L <= R.
Hypothesis Haddr : 0 <= addr < 2 ^ 32 - 1.

Let found (i : Z) : Prop := is_match (type := type) (L := L) (R := R) (ty := ty) i.

Hypothesis Hsorted : forall i j, found i -> found j -> i <= j -> val i <= val j.
Hypothesis Hgap : forall i, found i -> val i <> addr + 1.

(** What the code keeps: the entries below [l] are not past the address, those
    above [r] are, and [*region_left] is the last entry seen that is not. *)
Record search_ok (b : search) : Prop := {
  so_right : bs_right b = bs_r b;
  so_end : bs_l b <= bs_r b + 1;
  so_lo i : found i -> i < bs_l b -> val i <= addr;
  so_hi i : found i -> bs_r b < i -> addr < val i;
  so_edge : bs_r b = R \/ found (bs_r b + 1);
  so_left : bs_left b = L \/ found (bs_left b) /\ val (bs_left b) <= addr;
  so_none : bs_any b = false -> bs_left b = L /\ bs_r b = R /\ forall i, found i -> bs_l b <= i;
  so_some : bs_any b = true -> bs_r b < R \/ exists i, found i /\ val i <= addr;
  so_addr : bs_addr b = addr \/ bs_addr b = addr + 1
}.

Lemma search_ok_round b m :
  in_region (L := L) (R := R) b -> bs_l b <= bs_r b ->
  looks_at (type := type) (L := L) (R := R) (ty := ty) b m -> search_ok b ->
  search_ok (round_result (val := val) b m).
Proof.
  intros [Hl Hr] Hlr (Hmt & Hor & Hno) [Hri He Hlo Hhi Hed Hle Hn Hs Ha].
  assert (bs_l b <= Z.quot (bs_l b + bs_r b) 2 <= bs_r b) as Hq by (rewrite Z.quot_div_nonneg by lia; zlia).
  unfold round_result. set (t := Z.quot (bs_l b + bs_r b) 2) in *.
  assert (forall i, found i -> i <= t -> m < i -> i < bs_l b) as Hskip.
  { intros i Hi Hit Hmi. destruct (decide (i < bs_l b)); [done|]. destruct (Hno i ltac:(lia)). split; [lia|done]. }
  assert (forall i, found i -> i <= t -> i <= m \/ i < bs_l b) as Hle2
    by (intros i Hi Hit; destruct (decide (i <= m)); [by left|right; apply Hskip; [done|lia..]]).
  destruct (Z.ltb_spec m (bs_l b)) as [Hm|Hm].
  { constructor; cbn; auto; [lia| |].
    - intros i Hi Hit. apply Hlo; [done|]. destruct (Hle2 i Hi); lia.
    - intros Hf. destruct (Hn Hf) as (H1 & H2 & H3). split; [done|split; [done|]]. intros i Hi.
      destruct (decide (t + 1 <= i)); [done|]. specialize (H3 i Hi). destruct (Hle2 i Hi); lia. }
  destruct Hor as [?|[_ Hfm]]; [lia|].
  destruct (Z.ltb_spec (val m) (bs_addr b)) as [Hv|Hv]; [|destruct (Z.ltb_spec (bs_addr b) (val m)) as [Hv2|Hv2]].
  - assert (val m <= addr) as Hva by (destruct Ha; lia).
    constructor; cbn; auto; [lia| |by intros|right; by exists m].
    intros i Hi Hit. destruct (Hle2 i Hi ltac:(lia)) as [Him|Him]; [|by apply Hlo].
    etrans; [by apply (Hsorted i m)|done].
  - assert (addr < val m) as Hva by (destruct Ha; lia).
    constructor; cbn; auto; [lia| |right; by replace (m - 1 + 1) with m by lia|by intros|].
    + intros i Hi Him. pose proof (Hsorted m i Hfm Hi). lia.
    + left. destruct Hfm as [? _]. lia.
  - assert (val m = addr) as Hva by (destruct Ha; [lia|destruct (Hgap m Hfm); lia]).
    constructor; cbn; auto; [lia| |right; split; [done|lia]|by intros|right; exists m; split; [done|lia]|].
    + intros i Hi Him. pose proof (Hsorted i m Hi Hfm). lia.
    + right. destruct Ha as [Ha|Ha]; [|lia]. rewrite Ha. apply u32_id. lia.
Qed.

(** C37: [stab_binsearch] on a region in order by address, whose entries of the
    type do not start one byte after [addr].  When one of them starts at or
    before [addr], the last such entry is [*region_left] and the next entry of
    the type follows [*region_right].  Otherwise [*region_right] is just before
    the first entry of the type, or before the region when there is none; but
    [*region_left] is past it only when there is none, although the comment
    says so of every address that is not contained in an entry. *)
Theorem stab_binsearch_correct :
  exists left right, stab_binsearch stabs L R type addr s = Ret (left, right) s /\
    ((exists i, found i /\ val i <= addr) ->
       found left /\ val left <= addr /\ left <= right /\ (forall i, found i -> left < i -> right < i /\ addr < val i) /\
       (right = R \/ found (right + 1))) /\
    ((forall i, found i -> addr < val i) ->
       (left = L /\ right = L - 1 /\ (forall i, ~ found i)) \/
       (found (right + 1) /\ (forall i, found i -> right < i) /\ left = Z.min L right)).
Proof.
  unfold stab_binsearch.
  destruct (binsearch_loop_eq (type := type) Hread (proj1 Hregion) search_ok
    (binsearch_fuel L R) (mkSearch L R L R false addr)) as (b & Hb & [HL HR] & [Hri He Hlo Hhi Hed Hle Hn Hs Ha] & Hend).
  - by constructor.
  - constructor; cbn; auto; [lia|intros i [[? ?] _]; lia|intros i [[? ?] _]; lia| |done].
    intros _. split_and!; [done..|]. by intros i [[? ?] _].
  - intros b m. apply search_ok_round.
  - apply measure_fuel.
  - erewrite bind_Ret by exact Hb. destruct (bs_any b) eqn:Eany; cbn [negb].
    2:{ destruct (Hn eq_refl) as (-> & HrR & H3).
        assert (forall i, ~ found i) as Hnone by (intros i Hi; specialize (H3 i Hi); destruct Hi; lia).
        eexists _, _. split; [reflexivity|]. split; [|by left]. intros (i & Hi & _). by destruct (Hnone i). }
    destruct (scan_down_eq (type := type) Hread (Z.to_nat (bs_right b - bs_left b)) (bs_left b + 1) (bs_right b))
      as (x & Hx & Hxr & Hxor & Hxno); [destruct Hle as [->|[[? _] _]]; lia|lia|lia|].
    erewrite bind_Ret by exact Hx. rewrite Hri in *. eexists _, _. split; [reflexivity|].
    assert (forall i, found i -> val i <= addr -> i <= bs_r b) as Hle2.
    { intros i Hi Hv. destruct (decide (i <= bs_r b)); [done|]. pose proof (Hhi i Hi). lia. }
    split.
    + intros (i & Hi & Hv). specialize (Hle2 i Hi Hv).
      assert (found x /\ val x <= addr /\ forall j, found j -> x < j -> bs_r b < j) as (Hfx & Hvx & Hjx).
      { destruct Hxor as [[Hlt Hxe]|[Hge Hfx]].
        - assert (bs_left b <= bs_r b) as Hlr.
          { destruct Hle as [->|[Hf Hv2]]; [destruct Hi; lia|].
            destruct (decide (bs_left b <= bs_r b)); [done|]. pose proof (Hhi _ Hf). lia. }
          assert (x = bs_left b) as -> by lia.
          assert (found (bs_left b) /\ val (bs_left b) <= addr) as [Hf Hv2].
          { destruct Hle as [HeL|Hf]; [|done]. destruct (decide (i = bs_left b)) as [<-|Hne]; [done|].
            destruct (Hxno i); [destruct Hi; lia..|done]. }
          split; [done|]. split; [done|]. intros j Hj Hjl. destruct (decide (bs_r b < j)); [done|].
          destruct (Hxno j); [lia..|done].
        - split; [done|]. split; [apply Hlo; [done|lia]|]. intros j Hj Hjl. destruct (decide (bs_r b < j)); [done|].
          destruct (Hxno j); [lia..|done]. }
      split_and!; try done.
      * intros j Hj Hlt. split; [by apply Hjx|]. apply Hhi; [done|by apply Hjx].
    + intros Hall. right.
      assert (forall i, found i -> bs_r b < i) as Hgt.
      { intros i Hi. destruct (decide (bs_r b < i)); [done|]. pose proof (Hall i Hi). pose proof (Hlo i Hi). lia. }
      assert (bs_left b = L) as HeL by (destruct Hle as [|[Hf Hv]]; [done|pose proof (Hall _ Hf); lia]).
      split; [|split; [done|]].
      * destruct Hed as [HrR|]; [|done]. destruct (Hs eq_refl) as [?|(i & Hi & Hv)]; [lia|]. pose proof (Hall i Hi). lia.
      * destruct Hxor as [[Hlt Hxe]|[Hge Hfx]]; [lia|]. specialize (Hgt x Hfx). lia.
Qed.
End Found.

(** ** A small table

    A table of types and values in page 1. *)

Fixpoint stab_words (i : Z) (l : list (Z * Z)) (m : physmem) : physmem :=
  match l with
  | [] => m
  | (t, v) :: l' => stab_words (i + 1) l' (set_word 1 (3 * i + 1) t (set_word 1 (3 * i + 2) v m))
  end.

Definition stab_demo (l : list (Z * Z)) : kstate := put pmem (stab_words 0 l ∅) (blank 4).

Definition stab_table : list (Z * Z) :=
  [(N_SO, 0xf0100000); (N_FUN, 0xf0100040); (N_SLINE, 0); (N_FUN, 0xf0100076); (N_FUN, 0xf0100080)].

Lemma stab_demo_readable :
  readable (stab_demo stab_table) (KERNBASE + PGSIZE) 0 4
    (fun i => default 0 (fst <$> stab_table !! Z.to_nat i)) (fun i => default 0 (snd <$> stab_table !! Z.to_nat i)).
Proof.
  intros i Hi. assert (i = 0 \/ i = 1 \/ i = 2 \/ i = 3 \/ i = 4) as H by lia.
  by destruct H as [-> | [-> | [-> | [-> | ->]]]].
Qed.

Lemma stab_binsearch_terminates_witness :
  exists left right, stab_binsearch (KERNBASE + PGSIZE) 0 4 N_FUN 0xf0100079 (stab_demo stab_table)
    = Ret (left, right) (stab_demo stab_table).
Proof. apply (stab_binsearch_terminates _ _ _ _ _ _ _ _ stab_demo_readable). lia. Defined.

Lemma stab_binsearch_correct_witness :
  exists left right, stab_binsearch (KERNBASE + PGSIZE) 0 4 N_FUN 0xf0100079 (stab_demo stab_table)
    = Ret (left, right) (stab_demo stab_table) /\ left <= right.
Proof.
  assert (forall i, is_match (type := N_FUN) (L := 0) (R := 4)
    (ty := fun i => default 0 (fst <$> stab_table !! Z.to_nat i)) i -> i = 1 \/ i = 3 \/ i = 4) as Hm.
  { intros i [Hi Ht]. assert (i = 0 \/ i = 1 \/ i = 2 \/ i = 3 \/ i = 4) as H by lia.
    destruct H as [-> | [-> | [-> | [-> | ->]]]]; auto; discriminate. }
  destruct (stab_binsearch_correct (type := N_FUN) (addr := 0xf0100079) stab_demo_readable) as (l & r & Hs & Hf & _).
  - lia.
  - lia.
  - intros i j [-> | [-> | ->]]%Hm [-> | [-> | ->]]%Hm Hij; (done || lia).
  - intros i [-> | [-> | ->]]%Hm; done.
  - exists l, r. split; [exact Hs|]. apply Hf. exists 3. split; [split; [lia|reflexivity]|done].
Defined.

(** Two functions one byte apart: the search for the first finds the second. *)
Example adjacent_entries :
  stab_binsearch (KERNBASE + PGSIZE) 0 1 N_FUN 0xf0100040
    (stab_demo [(N_FUN, 0xf0100040); (N_FUN, 0xf0100041)])
  = Ret (1, 1) (stab_demo [(N_FUN, 0xf0100040); (N_FUN, 0xf0100041)]).
Proof. vm_compute. reflexivity. Qed.
