(* ===== verification/SyscallSpec.v ===== *)
(** * What the system calls do

    The state in which an environment makes a system call, and the calls that
    change address spaces, environments and messages, on every branch. *)

From Stdlib Require Import Lia ZArith ZifyClasses ZifyInst ZifyBool.
From stdpp Require Import base gmap list strings numbers.
From S2P Require Import Prelude Cmonad Mmu Printfmt Console State Spinlock Umem Pmap.
From S2P Require Import PageList Vm VmInv PmapLem VmLem PmapSpec VmDir Env EnvLem Sched EnvSpec Syscall.

(** ** The calling state *)

(** Environment [k] runs on this CPU; the environment table is in order, and
    every environment in use has an address space of its own. *)
Record calling (base : Z -> Z) (s : kstate) (fl : list Z) (D : gset Z) (O : gmap Z (Z * Z))
    (k : Z) : Prop := {
  ca_inv : vm_inv base s fl D O;
  ca_base q : 0 <= base q;
  ca_ids : ids_ok s;
  ca_cpu : exists c, cpus s !! cpunum s = Some c /\ cpu_env c = Some k;
  ca_live : exists v, envs s !! k = Some v /\ env_status v <> ENV_FREE;
  ca_dirs i v : envs s !! i = Some v -> env_status v <> ENV_FREE ->
    exists d, d ∈ D /\ env_pgdir v = kva d;
  ca_inj i j v w : envs s !! i = Some v -> envs s !! j = Some w ->
    env_status v <> ENV_FREE -> env_status w <> ENV_FREE -> env_pgdir v = env_pgdir w -> i = j
}.

(** The address space [d] of the environment [envid] names for the caller. *)
Definition space (s : kstate) (k envid d : Z) : Prop :=
  exists i v, names s k envid true i /\ envs s !! i = Some v /\ env_status v <> ENV_FREE /\
    env_pgdir v = kva d.

Lemma calling_cpu_ok base s fl D O k : calling base s fl D O k -> cpu_ok s.
Proof.
  intros H. destruct (ca_cpu _ _ _ _ _ _ H) as (c & Hc & Hk). destruct (ca_live _ _ _ _ _ _ H) as (v & Hv & _).
  exists c. split; [done|]. rewrite Hk. by eexists.
Qed.

(** A call that changes memory only leaves the caller calling. *)
Lemma calling_frame base s s' fl fl' D O O' k :
  calling base s fl D O k -> vm_frame s s' -> vm_inv base s' fl' D O' -> calling base s' fl' D O' k.
Proof.
  intros [Hi Hb [Hid1 Hid2] Hc Hl Hd Hj] Hf INV'. pose proof (vf_envs _ _ Hf) as He.
  constructor; [done|done| |..].
  - constructor; rewrite He; [apply Hid1|apply Hid2].
  - by rewrite (vf_cpus _ _ Hf), (vf_cpunum _ _ Hf).
  - by rewrite He.
  - rewrite He. apply Hd.
  - rewrite He. apply Hj.
Qed.

(** [envid2env] for a caller. *)
Lemma calling_envid base s fl D O k envid cp :
  calling base s fl D O k ->
  (envid2env envid cp s = Ret (- E_BAD_ENV, None) s /\ forall i, ~ names s k envid cp i) \/
  (exists i v d, envid2env envid cp s = Ret (0, Some i) s /\ names s k envid cp i /\
     envs s !! i = Some v /\ env_status v <> ENV_FREE /\ d ∈ D /\ env_pgdir v = kva d).
Proof.
  intros [Hi Hb Hid (c & Hc & Hk) (vk & Hvk & Hst) Hd Hj].
  destruct (envid2env_names s c k envid cp Hid Hc Hk) as [?|(i & He & Hn)];
    [by eexists|by left|right].
  assert (exists v, envs s !! i = Some v /\ env_status v <> ENV_FREE) as (v & Hv & Hs).
  { destruct (decide (envid = 0)) as [H0|H0].
    - destruct Hn as (H & _). rewrite H by done. eauto.
    - destruct Hn as (_ & H & _). destruct (H H0) as (v & ? & ? & _). eauto. }
  destruct (Hd i v Hv Hs) as (d & HdD & Hpg). by exists i, v, d.
Qed.

Lemma bad_va_spec va : 0 <= va < 2 ^ 32 -> bad_va va = false <-> va < UTOP /\ va mod 4096 = 0.
Proof.
  intros H. unfold bad_va. rewrite PGOFF_mod by done.
  destruct (Z.leb_spec UTOP va), (Z.eqb_spec (va mod 4096) 0); cbn; naive_solver lia.
Qed.

(** Permissions a caller may ask for: [PTE_U] and [PTE_P], and besides these
    only [PTE_W] and the bits left to software. *)
Definition perm_ok (perm : Z) : Prop :=
  Z.land perm 5 = 5 /\ Z.land perm (Z.lnot PTE_SYSCALL) = 0.

Lemma bad_perm_spec perm : bad_perm perm = false <-> perm_ok perm.
Proof.
  unfold bad_perm, perm_ok. change (Z.lor PTE_U PTE_P) with 5.
  change (Z.lor (Z.lor 5 PTE_AVAIL) PTE_W) with PTE_SYSCALL. rewrite (Z.land_comm 5).
  destruct (Z.eqb_spec (Z.land perm 5) 5), (Z.eqb_spec (Z.land perm (Z.lnot PTE_SYSCALL)) 0); naive_solver.
Qed.

Lemma perm_ok_range perm : perm_ok perm -> 0 <= perm < 4096.
Proof.
  intros [_ H]. assert (perm = Z.land perm (Z.ones 12)) as ->.
  { apply Z.bits_inj'. intros n Hn. rewrite Z.land_spec.
    apply (f_equal (fun z => Z.testbit z n)) in H.
    rewrite Z.land_spec, Z.lnot_spec, Z.testbit_0_l in H by done.
    destruct (decide (n < 12)); [by rewrite Z.ones_spec_low, andb_true_r by lia|].
    rewrite (testbit_small PTE_SYSCALL 12) in H by (done || lia).
    by destruct (Z.testbit perm n). }
  rewrite land_ones_mod by lia. apply Z.mod_pos_bound. lia.
Qed.

(** ** [sys_page_alloc] *)

(** What the three memory calls ask of an address. *)
Definition va_ok (va : Z) : Prop := va < UTOP /\ va mod 4096 = 0.

Lemma bad_va_true va : 0 <= va < 2 ^ 32 -> bad_va va = true -> ~ va_ok va.
Proof. intros H Hb Hv. apply bad_va_spec in Hv; congruence. Qed.

Lemma bad_perm_true perm : bad_perm perm = true -> ~ perm_ok perm.
Proof. intros Hb Hv. apply bad_perm_spec in Hv; congruence. Qed.

(** Once the arguments have been checked: a fresh page mapped, or nothing. *)
Definition alloc_at (pgdir va perm : Z) : K Z :=
  page ← page_alloc ALLOC_ZERO;
  match page with
  | None => mret (- E_NO_MEM)
  | Some page =>
      flag ← page_insert pgdir page va perm;
      if negb (flag =? 0) then page_free page ;; mret flag else mret 0
  end.

Lemma alloc_at_wp base s fl D O d va perm :
  vm_inv base s fl D O -> (forall q, 0 <= base q) -> cpu_ok s -> d ∈ D ->
  0 <= va < UTOP -> 0 <= perm < 4096 ->
  wp (alloc_at (kva d) va perm) (fun r s' =>
    vm_frame s s' /\ data_same fl D O (pmem s) (pmem s') /\
    ((r = - E_NO_MEM /\ (length fl <= 1)%nat /\ vm_inv base s' fl D O /\
      same_ptes D (pmem s) (pmem s')) \/
     (r = 0 /\ exists p fl0 fl' O', fl = p :: fl0 /\ vm_inv base s' fl' D O' /\
      one_pte D (pmem s) (pmem s') d (PGNUM va) (new_entry p perm) /\
      (forall j, word (pmem s') p j = 0) /\ dirs_kept D (pmem s) (pmem s') /\ tables_kept fl O O'))) s.
Proof.
  intros INV Hb Hc Hd Hva Hperm. unfold alloc_at. apply wp_bind.
  eapply wp_mono; [by apply (page_alloc_wp _ _ _ _ _ ALLOC_ZERO INV)|].
  destruct fl as [|p fl0].
  { intros r s' [-> ->]. apply wp_ret. split_and!; try done. left. split_and!; try done. cbn. lia. }
  intros r s1 (-> & INV1 & Hp & Hr & Hf1 & Ht1 & Hm1 & _ & Hs1 & Hn1). cbn in Hm1.
  change (tst ALLOC_ZERO ALLOC_ZERO) with true in Hm1. cbv iota in Hm1.
  assert (data_same (p :: fl0) D O (pmem s) (pmem s1)) as Hd1.
  { intros q i Hq _ _. rewrite Hm1, word_zero_page, decide_False; [done|]. intros ->. apply Hq. by left. }
  apply wp_bind. eapply wp_mono.
  { apply (page_insert_full INV1 Hb Hd Hva Hperm); [by eapply cpu_ok_frame|exact Hp]. }
  intros r s2 [(-> & -> & -> & _)|(fl' & O' & -> & INV2 & Hf2 & Hone & _ & (_ & Ho2) & Hd2 & Hk2)].
  - change (negb (- E_NO_MEM =? 0)) with true. cbv iota.
    destruct (vi_page INV1 p (mp_page _ _ _ _ _ Hp)) as [pi Hpi].
    assert (pp_ref pi = 0) as Hr0 by (by rewrite <- (ref_lookup s1 p pi)).
    pose proof (mp_alloc _ _ _ _ _ Hp) as Hnin.
    apply wp_bind. eapply wp_Ret.
    { apply (page_free_eq p pi); try done. by apply (ao_link _ _ _ _ (vi_alloc _ _ _ _ _ INV1) p pi). }
    apply wp_ret. split; [etrans; [exact Hf1|auto with vm]|]. split; [done|].
    left. split; [done|]. split; [cbn; lia|]. split; [by apply vm_inv_push|done].
  - cbn [negb Z.eqb]. apply wp_ret. split; [by etrans|]. split.
    { intros q i Hq HD HO. rewrite Hd2, Hd1; try done. set_solver. }
    right. split; [done|]. exists p, fl0, fl', O'. split; [done|]. split; [done|].
    split; [by eapply same_one_pte|]. split.
    + intros j. rewrite Hd2 by apply Hp. by rewrite Hm1, word_zero_page, decide_True.
    + split; [|intros q Hq; apply Ho2; set_solver].
      etrans; [|exact Hk2]. apply dirs_kept_other. intros d' i Hd'. rewrite Hm1, word_zero_page, decide_False; [done|].
      intros ->. by destruct (mp_pd _ _ _ _ _ Hp).
Qed.

Lemma page_alloc_envs base s fl D O flags :
  vm_inv base s fl D O -> (forall q, 0 <= base q) ->
  exists r s1, page_alloc flags s = Ret r s1 /\ envs s1 = envs s.
Proof.
  intros INV Hb. destruct (wp_inv _ _ _ (page_alloc_wp _ _ _ _ _ flags INV Hb)) as (r & s1 & Hs1 & H).
  exists r, s1. split; [done|]. destruct fl; [by destruct H as [_ ->]|]. by apply vf_envs, H.
Qed.

Lemma sys_page_alloc_wp base s fl D O k envid va perm :
  calling base s fl D O k -> 0 <= va < 2 ^ 32 ->
  wp (sys_page_alloc envid va perm) (fun r s' =>
    (r = - E_BAD_ENV /\ s' = s /\ forall i, ~ names s k envid true i) \/
    (exists d, space s k envid d /\
      ((r = - E_INVAL /\ s' = s /\ ~ (va_ok va /\ perm_ok perm)) \/
       (va_ok va /\ perm_ok perm /\ data_same fl D O (pmem s) (pmem s') /\
        ((r = - E_NO_MEM /\ (length fl <= 1)%nat /\ calling base s' fl D O k /\
          same_ptes D (pmem s) (pmem s') /\ vm_frame s s') \/
         (r = 0 /\ exists p fl0 fl' O', fl = p :: fl0 /\ calling base s' fl' D O' k /\
          xlate_update D s s' d (PGNUM va) (Some (p, Z.lor perm PTE_P)) /\
          (forall j, word (pmem s') p j = 0) /\ vm_frame s s' /\ dirs_kept D (pmem s) (pmem s') /\
          tables_kept fl O O')))))) s.
Proof.
  intros H Hva. pose proof (calling_cpu_ok _ _ _ _ _ _ H) as Hc.
  destruct (calling_envid _ _ _ _ _ _ envid true H) as [[He Hn]|(i & v & d & He & Hn & Hv & Hst & Hd & Hpg)];
    unfold sys_page_alloc; (eapply wp_ext; [by erewrite bind_Ret|]); cbn [fst snd].
  { apply wp_ret. by left. }
  assert (space s k envid d) as Hsp by (by exists i, v). cbn [negb Z.eqb].
  destruct (bad_va va) eqn:Hbv.
  { apply wp_ret. right. exists d. split; [done|]. left. split_and!; try done. intros [? _]. by eapply bad_va_true. }
  destruct (bad_perm perm) eqn:Hbp.
  { apply wp_ret. right. exists d. split; [done|]. left. split_and!; try done. intros [_ ?]. by eapply bad_perm_true. }
  apply bad_va_spec in Hbv; [|done]. apply bad_perm_spec in Hbp.
  pose proof (perm_ok_range _ Hbp) as Hpr. pose proof (ca_inv _ _ _ _ _ _ H) as INV.
  pose proof (ca_base _ _ _ _ _ _ H) as Hb.
  eapply (wp_ext _ (alloc_at (kva d) va perm)).
  { unfold alloc_at. destruct (page_alloc_envs _ _ _ _ _ ALLOC_ZERO INV Hb) as (r & s1 & Hs1 & Hes).
    erewrite !bind_Ret by exact Hs1. destruct r; [|done]. cbn [stored].
    erewrite bind_Ret by reflexivity. erewrite bind_Ret by (apply get_env_eq; by rewrite Hes).
    by rewrite Hpg. }
  eapply wp_mono; [by apply (alloc_at_wp base s fl D O d va perm INV Hb Hc Hd); [destruct Hbv; lia|]|].
  intros r s' (Hf & Hds & Hcase). right. exists d. split; [done|]. right. split_and!; try done.
  destruct Hcase as [(-> & Hl & INV' & Hs)|(-> & p & fl0 & fl' & O' & -> & INV' & Hone & Hz & Hk)]; [left|right].
  - split_and!; try done. by eapply calling_frame.
  - split; [done|]. exists p, fl0, fl', O'. split; [done|]. split; [by eapply calling_frame|].
    split; [|done]. rewrite <- (new_entry_xlate p perm Hpr). by apply one_pte_xlate.
Qed.

(** [sys_page_alloc] on every branch.  It fails with [-E_BAD_ENV] when the
    caller names no environment it may change, with [-E_INVAL] for an address
    that is not a page below [UTOP] or for permissions it may not ask for, both
    without a change; with [-E_NO_MEM], only when at most one page is free, and
    then every translation is as before and the page it took is free again;
    otherwise the first free page is mapped at [va], zeroed, with exactly the
    permissions asked for, and no other translation and no page in use changes. *)
Theorem sys_page_alloc_correct base s fl D O k envid va perm :
  calling base s fl D O k -> 0 <= va < 2 ^ 32 ->
  wp (sys_page_alloc envid va perm) (fun r s' =>
    (r = - E_BAD_ENV /\ s' = s /\ forall i, ~ names s k envid true i) \/
    (exists d, space s k envid d /\
      ((r = - E_INVAL /\ s' = s /\ ~ (va_ok va /\ perm_ok perm)) \/
       (va_ok va /\ perm_ok perm /\ data_same fl D O (pmem s) (pmem s') /\
        ((r = - E_NO_MEM /\ (length fl <= 1)%nat /\ calling base s' fl D O k /\
          same_ptes D (pmem s) (pmem s')) \/
         (r = 0 /\ exists p fl0 fl' O', fl = p :: fl0 /\ calling base s' fl' D O' k /\
          xlate_update D s s' d (PGNUM va) (Some (p, Z.lor perm PTE_P)) /\
          (forall j, word (pmem s') p j = 0))))))) s.
Proof.
  intros H Hva. eapply wp_mono; [by apply sys_page_alloc_wp|]. intros r s' [?|(d & Hd & Hr)]; [by left|right].
  exists d. split; [done|]. destruct Hr as [?|(H1 & H2 & H3 & [?|(H4 & p & fl0 & fl' & O' & H5 & H6 & H7 & H8 & _)])];
    [by left|right|right]; split_and!; try done; [left; naive_solver|]. right. split; [done|]. by exists p, fl0, fl', O'.
Qed.

(** ** [sys_page_map] *)

(** A mapped page can be mapped once more, unless its counter is full. *)
Lemma mapped_mappable base s fl D O d v p :
  vm_inv base s fl D O -> (forall q, 0 <= base q) -> d ∈ D -> 0 <= v < UVPNS ->
  maps (pmem s) d v = Some p -> ref s p < 65535 -> mappable s fl D O p.
Proof.
  intros INV Hb Hd Hv Hm Hr.
  destruct (vo_map _ _ _ _ (vi_vm _ _ _ _ _ INV) _ _ _ Hd Hv Hm) as (H1 & H2 & H3).
  constructor; try done. by eapply (mapped_not_free INV).
Qed.

(** An identifier names one environment. *)
Lemma names_unique base s fl D O k envid cp i i' :
  calling base s fl D O k -> names s k envid cp i -> names s k envid cp i' -> i = i'.
Proof.
  intros H Hn Hn'. destruct (decide (envid = 0)) as [H0|H0].
  - destruct Hn as (Hi & _), Hn' as (Hi' & _). rewrite Hi, Hi' by done. done.
  - destruct Hn as (_ & Hi & _), Hn' as (_ & Hi' & _).
    destruct (Hi H0) as (w & Hw & Hws & Hwi), (Hi' H0) as (w' & Hw' & Hws' & Hwi').
    rewrite <- (io_slot _ (ca_ids _ _ _ _ _ _ H) i w), <- (io_slot _ (ca_ids _ _ _ _ _ _ H) i' w') by done.
    congruence.
Qed.

(** A call about an address space [d] the caller may change. *)
Lemma space_unique base s fl D O k envid d d' :
  calling base s fl D O k -> space s k envid d -> space s k envid d' -> d = d'.
Proof.
  intros H (i & v & Hn & Hv & Hst & Hpg) (i' & v' & Hn' & Hv' & Hst' & Hpg').
  rewrite <- (names_unique _ _ _ _ _ _ _ _ _ _ H Hn Hn') in *.
  rewrite Hv in Hv'. injection Hv' as <-. rewrite Hpg in Hpg'. unfold kva in Hpg'. lia.
Qed.

(** The test for a read-only source compares [perm & PTE_W], which is 0 or 2, with 1. *)
Lemma never_read_only perm : (Z.land perm PTE_W =? 1) = false.
Proof.
  apply Z.eqb_neq. intros H. apply (f_equal (fun z => Z.testbit z 0)) in H.
  rewrite Z.land_spec in H. by destruct (Z.testbit perm 0).
Qed.

Lemma sys_page_map_wp base s fl D O k src srcva dst dstva perm :
  calling base s fl D O k -> 0 <= srcva < 2 ^ 32 -> 0 <= dstva < 2 ^ 32 ->
  (forall d, space s k src d -> va_ok srcva ->
     exists p, maps (pmem s) d (PGNUM srcva) = Some p /\ ref s p < 65535) ->
  wp (sys_page_map src srcva dst dstva perm) (fun r s' =>
    (r = - E_BAD_ENV /\ s' = s /\
      ~ ((exists i, names s k src true i) /\ (exists i, names s k dst true i))) \/
    (exists d1 d2, space s k src d1 /\ space s k dst d2 /\
      ((r = - E_INVAL /\ s' = s /\ ~ (va_ok srcva /\ va_ok dstva /\ perm_ok perm)) \/
       (va_ok srcva /\ va_ok dstva /\ perm_ok perm /\
        ((r = - E_NO_MEM /\ s' = s /\ fl = [] /\ present (word (pmem s) d2 (PDX dstva)) = false) \/
         (r = 0 /\ exists p fl' O', maps (pmem s) d1 (PGNUM srcva) = Some p /\
          calling base s' fl' D O' k /\ data_same fl D O (pmem s) (pmem s') /\
          xlate_update D s s' d2 (PGNUM dstva) (Some (p, Z.lor perm PTE_P)) /\
          vm_frame s s' /\ dirs_kept D (pmem s) (pmem s') /\
          tables_kept fl O O')))))) s.
Proof.
  intros H Hsv Hdv Hmap. pose proof (calling_cpu_ok _ _ _ _ _ _ H) as Hc.
  pose proof (ca_inv _ _ _ _ _ _ H) as INV. pose proof (ca_base _ _ _ _ _ _ H) as Hb.
  unfold sys_page_map.
  destruct (calling_envid _ _ _ _ _ _ src true H) as [[He1 Hn1]|(i1 & v1 & d1 & He1 & Hn1 & Hv1 & Hst1 & Hd1 & Hpg1)];
  destruct (calling_envid _ _ _ _ _ _ dst true H) as [[He2 Hn2]|(i2 & v2 & d2 & He2 & Hn2 & Hv2 & Hst2 & Hd2 & Hpg2)];
    (eapply wp_ext; [by erewrite bind_Ret; [erewrite bind_Ret|]|]); cbn [fst snd]; cbn [Z.eqb negb orb].
  1-3: apply wp_ret; left; split_and!; try done; intros [[? ?] [? ?]]; naive_solver.
  assert (space s k src d1) as Hs1 by (by exists i1, v1).
  assert (space s k dst d2) as Hs2 by (by exists i2, v2).
  destruct (bad_va srcva) eqn:Hb1.
  { apply wp_ret. right. exists d1, d2. split_and!; try done. left. split_and!; try done.
    intros (? & _). by apply (bad_va_true srcva). }
  destruct (bad_va dstva) eqn:Hb2.
  { apply wp_ret. right. exists d1, d2. split_and!; try done. left. split_and!; try done.
    intros (_ & ? & _). by apply (bad_va_true dstva). }
  destruct (bad_perm perm) eqn:Hb3.
  { apply wp_ret. right. exists d1, d2. split_and!; try done. left. split_and!; try done.
    intros (_ & _ & ?). by eapply bad_perm_true. }
  apply bad_va_spec in Hb1, Hb2; [|done..]. apply bad_perm_spec in Hb3.
  destruct (Hmap d1 Hs1 Hb1) as (p & Hm & Hr). pose proof (perm_ok_range _ Hb3) as Hpr.
  assert (0 <= srcva < UTOP) as Hu1 by (destruct Hb1; lia).
  assert (0 <= dstva < UTOP) as Hu2 by (destruct Hb2; lia).
  pose proof (PDX_vpn srcva Hu1) as (_ & _ & Hg1 & _ & Ht1). pose proof (vi_np INV) as Hnp.
  destruct (maps_pte_eq INV Hd1 Hu1 p Hm) as (_ & _ & _ & _ & _ & Hf1 & _).
  eapply (wp_ext _ (flag ← page_insert (kva d2) p dstva perm;
            if negb (flag =? 0) then mret (- E_NO_MEM) else mret 0)).
  { cbn [stored]. erewrite bind_Ret by reflexivity. erewrite bind_Ret by (by apply get_env_eq).
    rewrite Hpg1. erewrite bind_Ret by (by apply (page_lookup_eq INV Hd1 Hu1)).
    cbv iota beta. erewrite bind_Ret by (apply kload_frame; lia).
    rewrite never_read_only, andb_false_r.
    erewrite bind_Ret by reflexivity. erewrite bind_Ret by (by apply get_env_eq). by rewrite Hpg2. }
  apply wp_bind. eapply wp_mono.
  { apply (page_insert_full INV Hb Hd2 Hu2 Hpr Hc (p := p)).
    exact (mapped_mappable _ _ _ _ _ d1 _ p INV Hb Hd1 Hg1 Hm Hr). }
  intros r s' Hcase; destruct Hcase as [(-> & -> & -> & Hpd)|(fl' & O' & -> & INV' & Hf & Hone & _ & (_ & Ho) & Hds & Hdk)];
    cbn [negb Z.eqb]; apply wp_ret; right; exists d1, d2; split_and!; try done; right; split_and!; try done.
  - by left.
  - right. split; [done|]. exists p, fl', O'. split_and!; try done; [by eapply calling_frame| |intros q Hq; by apply Ho].
    rewrite <- (new_entry_xlate p perm Hpr). by apply one_pte_xlate.
Qed.

(** C22: [sys_page_map] on every branch, for a source page that is mapped.  It
    fails with [-E_BAD_ENV] when either environment is not one the caller may
    change, with [-E_INVAL] when an address or the permissions are not allowed,
    with [-E_NO_MEM] when a page table is needed and no page is free, each without a
    change; otherwise the page mapped at [srcva] in the first address space is
    mapped at [dstva] in the second with the permissions asked for, whatever
    the source mapping allows, and no other translation and no page changes. *)
Theorem sys_page_map_correct base s fl D O k src srcva dst dstva perm :
  calling base s fl D O k -> 0 <= srcva < 2 ^ 32 -> 0 <= dstva < 2 ^ 32 ->
  (forall d, space s k src d -> va_ok srcva ->
     exists p, maps (pmem s) d (PGNUM srcva) = Some p /\ ref s p < 65535) ->
  wp (sys_page_map src srcva dst dstva perm) (fun r s' =>
    (r = - E_BAD_ENV /\ s' = s /\
      ~ ((exists i, names s k src true i) /\ (exists i, names s k dst true i))) \/
    (exists d1 d2, space s k src d1 /\ space s k dst d2 /\
      ((r = - E_INVAL /\ s' = s /\ ~ (va_ok srcva /\ va_ok dstva /\ perm_ok perm)) \/
       (va_ok srcva /\ va_ok dstva /\ perm_ok perm /\
        ((r = - E_NO_MEM /\ s' = s /\ fl = [] /\ present (word (pmem s) d2 (PDX dstva)) = false) \/
         (r = 0 /\ exists p fl' O', maps (pmem s) d1 (PGNUM srcva) = Some p /\
          calling base s' fl' D O' k /\ data_same fl D O (pmem s) (pmem s') /\
          xlate_update D s s' d2 (PGNUM dstva) (Some (p, Z.lor perm PTE_P)))))))) s.
Proof.
  intros H Hsv Hdv Hmap. eapply wp_mono; [by apply sys_page_map_wp|].
  intros r s' [?|(d1 & d2 & H1 & H2 & Hr)]; [by left|right]. exists d1, d2. split; [done|]. split; [done|].
  destruct Hr as [?|(H3 & H4 & H5 & [?|(H6 & p & fl' & O' & H7 & H8 & H9 & H10 & _)])];
    [by left|right; by auto|right]. split_and!; try done. right. split; [done|]. by exists p, fl', O'.
Qed.

Lemma page_lookup_absent base s fl D O d va :
  vm_inv base s fl D O -> d ∈ D -> 0 <= va < UTOP -> present (word (pmem s) d (PDX va)) = false ->
  page_lookup (kva d) va s = Ret None s.
Proof.
  intros INV Hd Hu Hp. unfold page_lookup. by erewrite bind_Ret by (by apply (walk_absent INV Hd Hu)).
Qed.

(** The address of the entry is only set when there is a page table: without
    one, [sys_page_map] follows an uninitialised pointer, where its comment
    promises [-E_INVAL]. *)
Theorem sys_page_map_uninitialised base s fl D O k src d srcva dst dstva perm :
  calling base s fl D O k -> 0 <= srcva < 2 ^ 32 -> 0 <= dstva < 2 ^ 32 ->
  va_ok srcva -> va_ok dstva -> perm_ok perm ->
  space s k src d -> present (word (pmem s) d (PDX srcva)) = false ->
  (exists i, names s k dst true i) ->
  exists why, sys_page_map src srcva dst dstva perm s = Undef why.
Proof.
  intros H Hsv Hdv Hs Hd Hp Hsp Hpde Hdst. pose proof (ca_inv _ _ _ _ _ _ H) as INV.
  assert (exists i v, names s k src true i /\ envs s !! i = Some v) as (i0 & v0 & Hn0 & _)
    by (destruct Hsp as (i & v & ? & ? & _); eauto).
  destruct (calling_envid _ _ _ _ _ _ src true H) as [[_ Hn]|(i1 & v1 & d1 & He1 & Hn1 & Hv1 & Hst1 & Hd1 & Hpg1)];
    [by destruct (Hn i0)|].
  destruct (calling_envid _ _ _ _ _ _ dst true H) as [[_ Hn]|(i2 & v2 & d2 & He2 & Hn2 & _)];
    [by destruct Hdst as [i ?]; destruct (Hn i)|].
  assert (d1 = d) as ->
    by (eapply (space_unique _ _ _ _ _ _ src); [done| |done]; by exists i1, v1).
  unfold sys_page_map. erewrite bind_Ret by exact He1. erewrite bind_Ret by exact He2.
  cbn [fst snd Z.eqb negb orb].
  rewrite (proj2 (bad_va_spec srcva Hsv) Hs), (proj2 (bad_va_spec dstva Hdv) Hd), (proj2 (bad_perm_spec perm) Hp).
  cbn [stored]. erewrite bind_Ret by reflexivity. erewrite bind_Ret by (by apply get_env_eq).
  rewrite Hpg1. erewrite bind_Ret.
  2:{ apply (page_lookup_absent _ _ _ _ _ _ _ INV Hd1); [destruct Hs; lia|done]. }
  by eexists.
Qed.

(** ** [sys_page_unmap] *)

(** What [sys_page_unmap] does on every branch, and what it leaves alone. *)
Lemma sys_page_unmap_wp base s fl D O k envid va :
  calling base s fl D O k -> 0 <= va < 2 ^ 32 ->
  (forall d, space s k envid d -> va_ok va -> present (word (pmem s) d (PDX va)) = true ->
     is_Some (maps (pmem s) d (PGNUM va))) ->
  wp (sys_page_unmap envid va) (fun r s' =>
    (r = - E_BAD_ENV /\ s' = s /\ forall i, ~ names s k envid true i) \/
    (exists d, space s k envid d /\
      ((r = - E_INVAL /\ s' = s /\ ~ va_ok va) \/
       (r = 0 /\ va_ok va /\ xlate_update D s s' d (PGNUM va) None /\
        match maps (pmem s) d (PGNUM va) with
        | None => s' = s
        | Some p => calling base s' (if ref s p =? 1 then p :: fl else fl) D O k /\
                    ref s' p = ref s p - 1 /\ data_same [] D O (pmem s) (pmem s') /\
                    vm_frame s s' /\ dirs_kept D (pmem s) (pmem s')
        end)))) s.
Proof.
  intros H Hva Hmap. pose proof (calling_cpu_ok _ _ _ _ _ _ H) as Hc.
  pose proof (ca_inv _ _ _ _ _ _ H) as INV. pose proof (ca_base _ _ _ _ _ _ H) as Hb.
  destruct (calling_envid _ _ _ _ _ _ envid true H) as [[He Hn]|(i & v & d & He & Hn & Hv & Hst & Hd & Hpg)];
    unfold sys_page_unmap; (eapply wp_ext; [by erewrite bind_Ret|]); cbn [fst snd].
  { apply wp_ret. by left. }
  assert (space s k envid d) as Hsp by (by exists i, v). change (0 <? 0) with false. cbv iota.
  destruct (bad_va va) eqn:Hbv.
  { apply wp_ret. right. exists d. split; [done|]. left. split_and!; try done. by apply bad_va_true. }
  apply bad_va_spec in Hbv; [|done]. assert (0 <= va < UTOP) as Hu by (destruct Hbv; lia).
  cbn [stored]. apply wp_bind, wp_ret. apply wp_bind. eapply wp_Ret; [by apply get_env_eq|].
  rewrite Hpg. pose proof (PDX_vpn va Hu) as (HD & HT & Hg & Hi & Ht).
  destruct (present (word (pmem s) d (PDX va))) eqn:Hpde.
  - destruct (Hmap d Hsp Hbv Hpde) as [p Hm]. apply wp_bind.
    eapply wp_mono; [by apply (page_remove_wp INV Hb Hd Hu p Hc Hm)|].
    intros [] s' (INV' & Hf & Ht' & Hr & Hpm). apply wp_ret. right. exists d. split; [done|]. right.
    split; [done|]. split; [done|]. split.
    + destruct (maps_pte_eq INV Hd Hu p Hm) as (_&_&_&_&Ho&_).
      apply (one_pte_xlate _ _ _ _ _ 0). rewrite Hpm. by apply (one_pte_set INV).
    + rewrite Hm. split; [by eapply calling_frame|]. split; [by rewrite Hr, decide_True|].
      destruct (maps_pte_eq INV Hd Hu p Hm) as (_&_&_&_&Ho&_).
      rewrite Hpm. split; [apply data_set; right; by eexists|]. split; [done|].
      apply dirs_kept_other. intros d' i' Hd'. apply word_set_ne. left. apply not_eq_sym.
      by eapply (vo_pt_ne (vi_vm _ _ _ _ _ INV)).
  - assert (pte (pmem s) d (PGNUM va) = 0) as Hz by (unfold pte; rewrite <- HD, Hpde; done).
    apply wp_bind. eapply wp_Ret.
    { unfold page_remove. by erewrite bind_Ret by (by apply (page_lookup_absent _ _ _ _ _ _ _ INV)). }
    apply wp_ret. right. exists d. split; [done|]. right. split; [done|]. split; [done|]. split.
    + intros d' v' Hd' Hv'. case_decide as Hk; [|done]. injection Hk as -> ->. unfold xlate. by rewrite Hz.
    + unfold maps. by rewrite Hz.
Qed.

(** [sys_page_unmap] on every branch, when the part of the address space
    around [va] has no page table or [va] is mapped: it fails with [-E_BAD_ENV]
    or [-E_INVAL] like [sys_page_alloc]; otherwise it returns 0 and the page at
    [va] is not mapped, no other translation has changed, and the page is free
    exactly when this was its last reference. *)
Theorem sys_page_unmap_correct base s fl D O k envid va :
  calling base s fl D O k -> 0 <= va < 2 ^ 32 ->
  (forall d, space s k envid d -> va_ok va -> present (word (pmem s) d (PDX va)) = true ->
     is_Some (maps (pmem s) d (PGNUM va))) ->
  wp (sys_page_unmap envid va) (fun r s' =>
    (r = - E_BAD_ENV /\ s' = s /\ forall i, ~ names s k envid true i) \/
    (exists d, space s k envid d /\
      ((r = - E_INVAL /\ s' = s /\ ~ va_ok va) \/
       (r = 0 /\ va_ok va /\ xlate_update D s s' d (PGNUM va) None /\
        match maps (pmem s) d (PGNUM va) with
        | None => s' = s
        | Some p => calling base s' (if ref s p =? 1 then p :: fl else fl) D O k /\
                    ref s' p = ref s p - 1
        end)))) s.
Proof.
  intros H Hva Hmap. eapply wp_mono; [by apply (sys_page_unmap_wp base s fl D O k envid va)|].
  intros r s' [?|(d & Hd & [?|(-> & Hv & Hx & Hm)])]; [by left|right; exists d; auto..].
  split; [done|]. right. split_and!; try done. destruct (maps (pmem s) d (PGNUM va)); [|done]. naive_solver.
Qed.

(** ** A concrete caller

    Six pages: page 1 is the directory of environment 0, which runs on this CPU,
    page 2 is in use but not mapped, and pages 3 to 5 are free. *)

Definition six_pages : kstate :=
  put page_free_list (Some 3)
    (put pages
      {[ 0 := mkPageInfo None 1; 1 := mkPageInfo None 1; 2 := mkPageInfo None 0;
         3 := mkPageInfo (Some 4) 0; 4 := mkPageInfo (Some 5) 0; 5 := mkPageInfo None 0 ]} (blank 6)).

Lemma six_cases (P : Z -> Prop) p : P 0 -> P 1 -> P 2 -> P 3 -> P 4 -> P 5 -> 0 <= p < 6 -> P p.
Proof.
  intros. assert (p = 0 \/ p = 1 \/ p = 2 \/ p = 3 \/ p = 4 \/ p = 5)
    as [->|[->|[->|[->|[->| ->]]]]] by lia; done.
Qed.

Lemma six_pages_inv : vm_inv boot_refs six_pages [3; 4; 5] {[1]} ∅.
Proof.
  constructor.
  - unfold free_list. constructor.
    + done.
    + intros p. split.
      * intros [pi Hpi]. cbn in Hpi. rewrite !lookup_insert_Some, lookup_singleton_Some in Hpi.
        kred. cbn. lia.
      * intros Hp. pattern p. apply six_cases; [eexists; reflexivity..|done].
    + cbn. split; [done|]. eexists. split; [reflexivity|]. split; [done|].
      eexists. split; [reflexivity|]. split; [done|]. eexists. split; [reflexivity|done].
    + intros p pi Hp Hin. assert (p = 3 \/ p = 4 \/ p = 5) as [->|[->| ->]] by set_solver;
        cbn in Hp; by injection Hp as <-.
    + intros p pi Hpi Hin. cbn in Hpi. rewrite !lookup_insert_Some, lookup_singleton_Some in Hpi.
      assert (p <> 3 /\ p <> 4 /\ p <> 5) as (? & ? & ?) by set_solver. naive_solver.
    + intros p pi Hpi. cbn in Hpi. rewrite !lookup_insert_Some, lookup_singleton_Some in Hpi.
      naive_solver lia.
  - constructor.
    + intros f i. cbn. unfold word. rewrite lookup_empty. cbn. lia.
    + intros d Hd. assert (d = 1) as -> by set_solver. split; [cbn; lia|apply lookup_empty].
    + intros d i _ _. unfold word, six_pages. kred. by rewrite lookup_empty.
    + intros f d i. by rewrite lookup_empty.
    + intros d v p _ _. unfold maps, pte, word. cbn. by rewrite lookup_empty.
  - intros p Hp. rewrite nmaps_none.
    2:{ intros d v _ _. unfold maps, pte, word. cbn. by rewrite lookup_empty. }
    pattern p. apply six_cases; [reflexivity..|exact Hp].
Qed.

Definition call_env : Env :=
  mkEnv blank_tf None 0x1000 0 ENV_TYPE_USER ENV_RUNNING 0 0 (kva 1) 0 false 0 0 0 0.

(** [s] with environment 0 running on CPU 0 in the directory in page 1. *)
Definition with_caller (s : kstate) : kstate :=
  put envs (<[0 := call_env]> (env_table []))
    (put cpus {[ 0 := mkCpuInfo 0 CPU_STARTED (Some 0) 0 0 ]} (put cpunum 0 s)).

Lemma with_caller_env s i v : envs (with_caller s) !! i = Some v ->
  (i = 0 /\ v = call_env) \/ (i <> 0 /\ env_status v = ENV_FREE).
Proof.
  unfold with_caller. kred. intros [[<- <-]|[Hne Hv]]%lookup_insert_Some; [by left|right].
  apply env_table_Some in Hv as ->. done.
Qed.

Lemma with_caller_cur s : envs (with_caller s) !! 0 = Some call_env.
Proof. unfold with_caller. kred. apply lookup_insert_eq. Qed.

Lemma with_caller_calling base s fl O :
  vm_inv base s fl {[1]} O -> (forall q, 0 <= base q) -> calling base (with_caller s) fl {[1]} O 0.
Proof.
  intros INV Hb. constructor.
  - by apply (vm_inv_proj base s).
  - done.
  - constructor.
    + intros i Hi. unfold with_caller. kred. apply is_Some_insert. rewrite env_table_lookup by done. by eexists.
    + intros i v [[-> ->]|[_ ?]]%with_caller_env Hs; done.
  - by exists (mkCpuInfo 0 CPU_STARTED (Some 0) 0 0).
  - exists call_env. split; [apply with_caller_cur|done].
  - intros i v [[-> ->]|[_ ?]]%with_caller_env Hs; [|done]. exists 1. split; [set_solver|done].
  - intros i j v w [[-> ->]|[_ ?]]%with_caller_env [[-> ->]|[_ ?]]%with_caller_env Hs Ht _; done.
Qed.

Definition call_demo : kstate := with_caller six_pages.

Lemma call_demo_cur : envs call_demo !! 0 = Some call_env.
Proof. apply with_caller_cur. Qed.

Lemma call_demo_calling : calling boot_refs call_demo [3; 4; 5] {[1]} ∅ 0.
Proof. apply with_caller_calling; [apply six_pages_inv|apply boot_refs_nonneg]. Qed.

(** In a call with identifier 0 the caller means itself. *)
Lemma names_self s k cp : names s k 0 cp k.
Proof. split; [done|]. split; [done|]. intros _. by left. Qed.

Lemma call_demo_space s : envs s !! 0 = Some call_env -> space s 0 0 1.
Proof. intros H. exists 0, call_env. split_and!; try done. by apply names_self. Qed.

Lemma sys_page_alloc_correct_witness :
  exists s', sys_page_alloc 0 0x801000 7 call_demo = Ret 0 s' /\ xlate s' 1 2049 = Some (3, 7).
Proof.
  pose proof (sys_page_alloc_correct boot_refs call_demo [3; 4; 5] {[1]} ∅ 0 0 0x801000 7
    call_demo_calling ltac:(lia)) as H.
  apply wp_inv in H as (r & s' & Hs & [(_ & _ & Hno)|(d & Hsp & Hc)]).
  { destruct (Hno 0). apply names_self. }
  assert (d = 1) as -> by exact (space_unique _ _ _ _ _ _ _ _ _ call_demo_calling Hsp
    (call_demo_space _ call_demo_cur)).
  destruct Hc as [(_ & _ & Hno)|(_ & _ & _ & [(_ & Hl & _)|(-> & p & fl0 & fl' & O' & Hfl & _ & Hx & _)])].
  - destruct Hno. split; [split; [lia|reflexivity]|split; reflexivity].
  - cbn in Hl. lia.
  - exists s'. split; [exact Hs|]. injection Hfl as <- _. rewrite (Hx 1 2049) by (lia || set_solver).
    by rewrite decide_True.
Defined.

(** [call_demo] after page 2 has been mapped read-only at [0x801000]. *)
Lemma map_demo : exists s fl O,
  calling boot_refs s fl {[1]} O 0 /\ maps (pmem s) 1 2049 = Some 2 /\
  xlate s 1 2049 = Some (2, 5) /\ ref s 2 = 1 /\ envs s = envs call_demo.
Proof.
  pose proof call_demo_calling as H. pose proof (ca_inv _ _ _ _ _ _ H) as INV.
  assert (mappable call_demo [3; 4; 5] {[1]} ∅ 2) as Hmp.
  { constructor; [cbn; lia|set_solver|set_solver|done|reflexivity]. }
  pose proof (page_insert_wp INV boot_refs_nonneg (d := 1) (va := 0x801000) (p := 2) (perm := 5)
    ltac:(set_solver) ltac:(lia) ltac:(lia) (calling_cpu_ok _ _ _ _ _ _ H) Hmp) as Hi.
  apply wp_inv in Hi as (r & s & _ & [(_ & _ & Hfl & _)|(fl' & O' & _ & INV' & Hf & Hone & _ & (_ & Hq) & _)]);
    [done|].
  change (PGNUM 0x801000) with 2049 in Hone, Hq.
  exists s, fl', O'. split; [by eapply calling_frame|].
  pose proof (new_entry_ok 2 5 ltac:(lia)) as [He1 He2]. destruct Hone as [Hp _].
  split; [by unfold maps; rewrite Hp, He1, He2|]. split; [by unfold xlate; rewrite Hp, He1|].
  split; [|apply (vf_envs _ _ Hf)].
  destruct (Hq 2 ltac:(set_solver)) as (_ & Hr & _). rewrite Hr. reflexivity.
Qed.

(** The read-only page mapped once more, now writable. *)
Lemma sys_page_map_correct_witness :
  exists s s', xlate s 1 2049 = Some (2, 5) /\ sys_page_map 0 0x801000 0 0x802000 7 s = Ret 0 s' /\
    xlate s' 1 2050 = Some (2, 7).
Proof.
  destruct map_demo as (s & fl & O & H & Hm & Hx & Hr & He).
  assert (space s 0 0 1) as Hsp by (apply call_demo_space; rewrite He; apply call_demo_cur).
  assert (forall d, space s 0 0 d -> d = 1) as Hu by (intros d Hd; by eapply space_unique).
  pose proof (sys_page_map_correct boot_refs s fl {[1]} O 0 0 0x801000 0 0x802000 7 H ltac:(lia) ltac:(lia)) as Hc.
  assert (forall d, space s 0 0 d -> va_ok 0x801000 ->
    exists p, maps (pmem s) d (PGNUM 0x801000) = Some p /\ ref s p < 65535) as Hmap.
  { intros d Hd _. rewrite (Hu d Hd). exists 2. split; [exact Hm|]. rewrite Hr. lia. }
  destruct (maps_pte_eq (ca_inv _ _ _ _ _ _ H) (d := 1) (va := 0x801000) ltac:(set_solver) ltac:(lia) 2 Hm)
    as (Hpde & _).
  specialize (Hc Hmap). apply wp_inv in Hc as (r & s' & Hs & Hc).
  destruct Hc as [(_ & _ & Hno)|(d1 & d2 & H1 & H2 & [(_ & _ & Hno)|(_ & _ & _ & [(_ & _ & _ & Hno)|
    (-> & p & fl' & O' & Hp & _ & _ & Hx')])])].
  { destruct Hno. split; exists 0; apply names_self. }
  { destruct Hno. split; [split; [lia|reflexivity]|]. split; [split; [lia|reflexivity]|]. split; reflexivity. }
  { rewrite (Hu d2 H2) in Hno. change (PDX 0x802000) with (PDX 0x801000) in Hno. congruence. }
  exists s, s'. split; [exact Hx|]. split; [exact Hs|].
  rewrite (Hu d1 H1) in Hp. rewrite (Hu d2 H2) in Hx'. change (PGNUM 0x801000) with 2049 in Hp.
  rewrite Hm in Hp. injection Hp as <-. rewrite (Hx' 1 2050) by (lia || set_solver). by rewrite decide_True.
Defined.

Lemma sys_page_unmap_correct_witness :
  exists s s', xlate s 1 2049 = Some (2, 5) /\ sys_page_unmap 0 0x801000 s = Ret 0 s' /\
    xlate s' 1 2049 = None.
Proof.
  destruct map_demo as (s & fl & O & H & Hm & Hx & Hr & He).
  assert (space s 0 0 1) as Hsp by (apply call_demo_space; rewrite He; apply call_demo_cur).
  assert (forall d, space s 0 0 d -> d = 1) as Hu by (intros d Hd; by eapply space_unique).
  pose proof (sys_page_unmap_correct boot_refs s fl {[1]} O 0 0 0x801000 H ltac:(lia)) as Hc.
  assert (forall d, space s 0 0 d -> va_ok 0x801000 -> present (word (pmem s) d (PDX 0x801000)) = true ->
    is_Some (maps (pmem s) d (PGNUM 0x801000))) as Hmap.
  { intros d Hd _ _. rewrite (Hu d Hd). exists 2. exact Hm. }
  specialize (Hc Hmap). apply wp_inv in Hc as (r & s' & Hs & Hc).
  destruct Hc as [(_ & _ & Hno)|(d & Hd & [(_ & _ & Hno)|(-> & _ & Hx' & _)])].
  - destruct (Hno 0). apply names_self.
  - destruct Hno. split; [lia|reflexivity].
  - exists s, s'. split; [exact Hx|]. split; [exact Hs|]. rewrite (Hu d Hd) in Hx'.
    rewrite (Hx' 1 2049) by (lia || set_solver). by rewrite decide_True.
Defined.

Lemma sys_page_map_uninitialised_witness :
  exists why, sys_page_map 0 0x801000 0 0x802000 7 call_demo = Undef why.
Proof.
  apply (sys_page_map_uninitialised boot_refs call_demo [3; 4; 5] {[1]} ∅ 0 0 1 0x801000 0 0x802000 7
    call_demo_calling).
  - lia.
  - lia.
  - split; [lia|reflexivity].
  - split; [lia|reflexivity].
  - split; reflexivity.
  - apply call_demo_space, call_demo_cur.
  - reflexivity.
  - exists 0. apply names_self.
Defined.
