(* ===== verification/IpcSpec.v ===== *)
(** * What the calls on messages and environments do

    [sys_ipc_try_send] and [sys_ipc_recv], [sys_exofork] and
    [sys_env_set_status], on every branch. *)

From Stdlib Require Import Lia ZArith ZifyClasses ZifyInst ZifyBool.
From stdpp Require Import base gmap list strings numbers.
From S2P Require Import Prelude Cmonad Mmu Printfmt Console State Spinlock Umem Pmap.
From S2P Require Import PageList Vm VmInv PmapLem VmLem PmapSpec VmDir Env EnvLem Sched EnvSpec Syscall SyscallSpec.

(** ** Sending *)

(** A receiver that has been sent [value] by the environment [from]. *)
Definition woken (from value : Z) (v : Env) : Env :=
  upd env_tf (upd tf_regs (put reg_eax 0))
    (put env_status ENV_RUNNABLE (put env_ipc_value value (put env_ipc_from from
      (put env_ipc_recving false v)))).

(** What a sender may ask: an aligned page, allowed permissions, and to write
    only what it may write. *)
Definition send_ok (m : physmem) (d srcva perm : Z) : Prop :=
  srcva mod 4096 = 0 /\ perm_ok perm /\
  (tst perm PTE_W = true -> tst (pte m d (PGNUM srcva)) PTE_W = true).

Lemma tst_land5 perm : Z.land perm 5 = 5 <-> tst perm PTE_U = true /\ tst perm PTE_P = true.
Proof.
  change PTE_U with (2 ^ 2). change PTE_P with (2 ^ 0). rewrite !tst_pow2 by lia. split.
  - intros H. assert (forall i, Z.testbit 5 i = true -> Z.testbit perm i = true) as Hi; [|by split; apply Hi].
    intros i Hi. rewrite <- H, Z.land_spec in Hi. by apply andb_true_iff in Hi as [? _].
  - intros [H2 H0]. apply Z.bits_inj'. intros i Hi. rewrite Z.land_spec.
    destruct (decide (i = 0)) as [->|]; [by rewrite H0|].
    destruct (decide (i = 2)) as [->|]; [by rewrite H2|].
    assert (Z.testbit 5 i = false) as ->; [|apply andb_false_r].
    destruct (decide (i = 1)) as [->|]; [reflexivity|]. apply (testbit_small 5 3); lia.
Qed.

Lemma send_perm_test perm :
  negb (Z.land perm (Z.lnot PTE_SYSCALL) =? 0) || negb (tst perm PTE_U) || negb (tst perm PTE_P) = false
  <-> perm_ok perm.
Proof.
  unfold perm_ok. rewrite tst_land5.
  destruct (Z.eqb_spec (Z.land perm (Z.lnot PTE_SYSCALL)) 0), (tst perm PTE_U), (tst perm PTE_P); naive_solver.
Qed.

(** The caller's environment and its address space. *)
Record caller (s : kstate) (D : gset Z) (k : Z) (vk : Env) (dk : Z) : Prop := {
  cl_env : envs s !! k = Some vk;
  cl_live : env_status vk <> ENV_FREE;
  cl_dir : dk ∈ D;
  cl_pgdir : env_pgdir vk = kva dk
}.

Lemma calling_caller base s fl D O k :
  calling base s fl D O k -> exists vk dk, caller s D k vk dk.
Proof.
  intros H. destruct (ca_live _ _ _ _ _ _ H) as (vk & Hv & Hst).
  destruct (ca_dirs _ _ _ _ _ _ H k vk Hv Hst) as (dk & Hd & Hp). by exists vk, dk.
Qed.

Lemma the_curenv_eq base s fl D O k : calling base s fl D O k -> the_curenv s = Ret k s.
Proof.
  intros H. destruct (ca_cpu _ _ _ _ _ _ H) as (c & Hc & Hk). unfold the_curenv.
  erewrite bind_Ret by (by apply curenv_eq). by rewrite Hk.
Qed.

Lemma ipc_send_page_wp base s fl D O k vk dk e v d srcva perm p :
  calling base s fl D O k -> caller s D k vk dk ->
  envs s !! e = Some v -> env_pgdir v = kva d -> d ∈ D ->
  0 <= srcva < UTOP -> maps (pmem s) dk (PGNUM srcva) = Some p -> ref s p < 65535 ->
  0 <= env_ipc_dstva v ->
  wp (ipc_send_page e srcva perm) (fun r s' =>
    (r = - E_INVAL /\ s' = s /\ ~ send_ok (pmem s) dk srcva perm) \/
    (send_ok (pmem s) dk srcva perm /\
     ((r = - E_NO_MEM /\ s' = s /\ fl = [] /\ env_ipc_dstva v < UTOP) \/
      (r = 0 /\ UTOP <= env_ipc_dstva v /\ s' = s) \/
      (r = 0 /\ env_ipc_dstva v < UTOP /\ exists s1 fl' O',
        s' = put envs (<[e := put env_ipc_perm perm v]> (envs s1)) s1 /\
        vm_inv base s1 fl' D O' /\ vm_frame s s1 /\
        one_pte D (pmem s) (pmem s1) d (PGNUM (env_ipc_dstva v)) (new_entry p perm) /\
        data_same fl D O (pmem s) (pmem s1) /\ tables_kept fl O O')))) s.
Proof.
  intros H [Hvk Hlk Hdk Hpk] Hv Hpg Hd Hsv Hm Hr Hdst. pose proof (calling_cpu_ok _ _ _ _ _ _ H) as Hc.
  pose proof (ca_inv _ _ _ _ _ _ H) as INV. pose proof (ca_base _ _ _ _ _ _ H) as Hb.
  pose proof (vi_np INV) as Hnp. pose proof (PDX_vpn srcva Hsv) as (_ & _ & Hg & _ & Ht).
  destruct (maps_pte_eq INV Hdk Hsv p Hm) as (Hpde & _ & _ & _ & _ & Hf & _).
  pose proof (pte_word Hsv Hpde) as Hpte.
  set (w := word (pmem s) (fr (word (pmem s) dk (PDX srcva))) (PTX srcva)) in *.
  unfold ipc_send_page. apply wp_bind. eapply wp_Ret; [by eapply the_curenv_eq|].
  apply wp_bind. eapply wp_Ret; [by apply get_env_eq|]. rewrite Hpk.
  apply wp_bind. eapply wp_Ret; [by apply (page_lookup_eq INV Hdk Hsv p)|]. cbv beta iota.
  destruct (negb _ || _ || _) eqn:Hperm.
  { apply wp_ret. left. split_and!; try done. intros (_ & Hp & _). apply send_perm_test in Hp. congruence. }
  apply send_perm_test in Hperm. pose proof (perm_ok_range _ Hperm) as Hpr.
  apply wp_bind. eapply wp_Ret; [apply kload_frame; lia|]. fold w.
  destruct (tst perm PTE_W && negb (tst w PTE_W)) eqn:HW.
  { apply wp_ret. left. split_and!; try done. intros (_ & _ & Hw). rewrite Hpte in Hw.
    destruct (tst perm PTE_W); [|done]. rewrite Hw in HW; done. }
  rewrite PGOFF_mod by lia. destruct (Z.eqb_spec (srcva mod 4096) 0) as [Hal|Hal]; cbn [negb].
  2:{ apply wp_ret. left. split_and!; try done. by intros (? & _). }
  assert (send_ok (pmem s) dk srcva perm) as Hok.
  { split; [done|]. split; [done|]. rewrite Hpte. intros Hw. rewrite Hw in HW. by destruct (tst w PTE_W). }
  apply wp_bind. eapply wp_Ret; [by apply get_env_eq|].
  destruct (Z.ltb_spec (env_ipc_dstva v) UTOP) as [Hlt|]; [|apply wp_ret; right; split; auto].
  rewrite Hpg. apply wp_bind. eapply wp_mono.
  { apply (page_insert_wp INV Hb Hd (conj Hdst Hlt) Hpr Hc (p := p)).
    exact (mapped_mappable _ _ _ _ _ dk _ p INV Hb Hdk Hg Hm Hr). }
  intros r s1 Hcase; destruct Hcase as [(-> & -> & -> & _)|(fl' & O' & -> & INV' & Hfr & Hone & _ & (_ & Ho) & Hds)];
    cbn [negb Z.eqb].
  { apply wp_ret. right. split; [done|]. by left. }
  apply wp_bind. eapply wp_Ret; [apply upd_env_eq; by rewrite (vf_envs _ _ Hfr)|].
  apply wp_ret. right. split; [done|]. right. right. split; [done|]. split; [done|].
  exists s1, fl', O'. rewrite s32_id by lia. split_and!; try done. intros q Hq. by apply Ho.
Qed.

(** The tail of a successful send. *)
Lemma deliver_wp base s fl D O k vk e v value :
  calling base s fl D O k -> envs s !! k = Some vk -> envs s !! e = Some v ->
  wp (upd_env e (put env_ipc_recving false) ;;
      c ← the_curenv;
      vc ← get_env c;
      upd_env e (put env_ipc_from (env_id vc)) ;;
      upd_env e (put env_ipc_value value) ;;
      upd_env e (put env_status ENV_RUNNABLE) ;;
      upd_env e (upd env_tf (upd tf_regs (put reg_eax 0))) ;;
      mret 0)
    (fun r s' => r = 0 /\ s' = put envs (<[e := woken (env_id vk) value v]> (envs s)) s) s.
Proof.
  intros H Hk Hv. upd_env_step. apply wp_bind. eapply wp_Ret.
  { destruct (ca_cpu _ _ _ _ _ _ H) as (c & Hc & Hck). unfold the_curenv.
    erewrite bind_Ret by (apply curenv_eq; exact Hc). by rewrite Hck. }
  assert (exists w, (upd envs (fun a => <[e:=put env_ipc_recving false v]> a) s).(envs) !! k = Some w /\
     env_id w = env_id vk) as (w & Hw & <-).
  { kred. destruct (decide (k = e)) as [->|]; [rewrite lookup_insert_eq|rewrite lookup_insert_ne by done; by eexists].
    rewrite Hk in Hv. injection Hv as <-. by eexists. }
  apply wp_bind. eapply wp_Ret; [apply get_env_eq; exact Hw|].
  do 4 upd_env_step. apply wp_ret. split; [done|]. unfold upd at 1 2 3 4 5, put at 1. kred.
  by rewrite !insert_insert_eq.
Qed.

(** Changing an environment in use, but not its identity or address space. *)
Lemma calling_upd_env base s fl D O k e v v' :
  calling base s fl D O k -> envs s !! e = Some v -> env_status v <> ENV_FREE ->
  env_status v' <> ENV_FREE -> env_id v' = env_id v -> env_pgdir v' = env_pgdir v ->
  calling base (put envs (<[e := v']> (envs s)) s) fl D O k.
Proof.
  intros [Hi Hb [Hid1 Hid2] Hc (vk & Hvk & Hlk) Hd Hj] Hv Hl Hl' Hid Hpg.
  assert (forall i w, <[e := v']> (envs s) !! i = Some w ->
    exists w0, envs s !! i = Some w0 /\ env_id w = env_id w0 /\ env_pgdir w = env_pgdir w0 /\
      (env_status w <> ENV_FREE -> env_status w0 <> ENV_FREE)) as Hold.
  { intros i w. destruct (decide (e = i)) as [<-|].
    - rewrite lookup_insert_eq. intros [= <-]. by exists v.
    - rewrite lookup_insert_ne by done. intros Hw. by exists w. }
  constructor; kred; try done.
  - by apply (vm_inv_proj base s).
  - constructor; kred.
    + intros i Hr. by apply is_Some_insert, Hid1.
    + intros i w Hw Hs. destruct (Hold i w Hw) as (w0 & Hw0 & -> & _ & Hf). by apply (Hid2 i w0); auto.
  - destruct (decide (e = k)) as [->|].
    + rewrite lookup_insert_eq. eauto.
    + rewrite lookup_insert_ne by done. eauto.
  - intros i w Hw Hs. destruct (Hold i w Hw) as (w0 & Hw0 & _ & -> & Hf). eapply Hd; eauto.
  - intros i j w x Hw Hx Hs Hs' Hp.
    destruct (Hold i w Hw) as (w0 & Hw0 & _ & Hp0 & Hf), (Hold j x Hx) as (x0 & Hx0 & _ & Hp1 & Hf').
    eapply Hj; eauto. congruence.
Qed.

Lemma calling_kernel base s fl D O k h kpd :
  calling base s fl D O k -> calling base (put env_free_list h (put kern_pgdir kpd s)) fl D O k.
Proof.
  intros [Hi Hb [Hid1 Hid2] Hc Hl Hd Hj]. constructor; try done; by apply (vm_inv_proj base s).
Qed.

Lemma sys_ipc_try_send_wp base s fl D O k vk dk envid value srcva perm :
  calling base s fl D O k -> caller s D k vk dk -> 0 <= srcva ->
  (srcva < UTOP -> exists p, maps (pmem s) dk (PGNUM srcva) = Some p /\ ref s p < 65535) ->
  (forall i v, envs s !! i = Some v -> 0 <= env_ipc_dstva v) ->
  wp (sys_ipc_try_send envid value srcva perm) (fun r s' =>
    (r = - E_BAD_ENV /\ s' = s /\ forall i, ~ names s k envid false i) \/
    (exists e v d, names s k envid false e /\ envs s !! e = Some v /\ d ∈ D /\ env_pgdir v = kva d /\
      ((r = - E_IPC_NOT_RECV /\ s' = s /\ env_ipc_recving v = false) \/
       (env_ipc_recving v = true /\ r = - E_INVAL /\ s' = s /\ srcva < UTOP /\
        ~ send_ok (pmem s) dk srcva perm) \/
       (env_ipc_recving v = true /\ (srcva < UTOP -> send_ok (pmem s) dk srcva perm) /\
        ((r = - E_NO_MEM /\ s' = s /\ fl = [] /\ srcva < UTOP /\ env_ipc_dstva v < UTOP) \/
         (r = 0 /\ (UTOP <= srcva \/ UTOP <= env_ipc_dstva v) /\ calling base s' fl D O k /\
          envs s' = <[e := woken (env_id vk) value v]> (envs s) /\ pmem s' = pmem s /\
          vm_frame s (put envs (envs s) s')) \/
         (r = 0 /\ srcva < UTOP /\ env_ipc_dstva v < UTOP /\ exists p fl' O',
          maps (pmem s) dk (PGNUM srcva) = Some p /\ calling base s' fl' D O' k /\
          envs s' = <[e := woken (env_id vk) value (put env_ipc_perm perm v)]> (envs s) /\
          xlate_update D s s' d (PGNUM (env_ipc_dstva v)) (Some (p, Z.lor perm PTE_P)) /\
          data_same fl D O (pmem s) (pmem s') /\ vm_frame s (put envs (envs s) s') /\ tables_kept fl O O')))))) s.
Proof.
  intros H Hcl Hsv Hmap Hdst. pose proof Hcl as [Hvk _ _ _].
  destruct (calling_envid _ _ _ _ _ _ envid false H) as [[He Hn]|(e & v & d & He & Hn & Hv & Hst & Hd & Hpg)];
    unfold sys_ipc_try_send; (eapply wp_ext; [by erewrite bind_Ret|]); cbn [fst snd negb Z.eqb].
  { apply wp_ret. by left. }
  apply wp_bind, wp_ret. apply wp_bind. eapply wp_Ret; [by apply get_env_eq|].
  destruct (env_ipc_recving v) eqn:Hrecv; cbn [negb].
  2:{ apply wp_ret. right. exists e, v, d. split_and!; try done. by left. }
  destruct (Z.ltb_spec srcva UTOP) as [Hlt|Hge].
  - destruct (Hmap Hlt) as (p & Hm & Hr). apply wp_bind. eapply wp_mono.
    { by apply (ipc_send_page_wp base s fl D O k vk dk e v d srcva perm p); eauto. }
    intros r s1 Hcase.
    destruct Hcase as [(-> & -> & Hno)|(Hok & [(-> & -> & Hfl & Hdl)|[(-> & Hdl & ->)|
      (-> & Hdl & s2 & fl' & O' & -> & INV' & Hf & Hone & Hds & Ho)]])]; cbn [negb Z.eqb].
    + apply wp_ret. right. exists e, v, d. split_and!; try done. right. left. by split_and!.
    + apply wp_ret. right. exists e, v, d. split_and!; try done. right. right. split_and!; try done. by left.
    + eapply wp_mono; [by eapply deliver_wp|]. intros r s' [-> ->].
      right. exists e, v, d. split_and!; try done. right. right. split_and!; try done. right. left.
      split_and!; try done; [by right|by eapply calling_upd_env].
    + pose proof (calling_frame _ _ _ _ _ _ _ _ _ H Hf INV') as H2.
      pose proof (vf_envs _ _ Hf) as Hes.
      assert (envs s2 !! e = Some v) as Hv2 by (by rewrite Hes).
      assert (calling base (put envs (<[e := put env_ipc_perm perm v]> (envs s2)) s2) fl' D O' k) as H3
        by (by eapply calling_upd_env).
      assert (exists w, <[e := put env_ipc_perm perm v]> (envs s2) !! k = Some w /\ env_id w = env_id vk)
        as (w & Hw & Hwid).
      { rewrite Hes. destruct (decide (k = e)) as [->|].
        - rewrite lookup_insert_eq. rewrite Hvk in Hv. injection Hv as <-. by eexists.
        - rewrite lookup_insert_ne by done. by eexists. }
      pose proof (deliver_wp _ _ _ _ _ _ w e (put env_ipc_perm perm v) value H3) as Hdel.
      specialize (Hdel Hw (lookup_insert_eq _ _ _)). refine (wp_mono _ _ _ _ Hdel _).
      intros r s' [-> ->]. right. exists e, v, d. split_and!; try done. right. right. split_and!; try done.
      right. right. split_and!; try done. exists p, fl', O'. split; [done|]. split.
      { eapply calling_upd_env; [exact H3|kred; by rewrite lookup_insert_eq|done..]. }
      split; [kred; by rewrite insert_insert_eq, Hes, Hwid|]. split; [|split; [exact Hds|split; [|exact Ho]]].
      * rewrite <- (new_entry_xlate p perm) by (by apply perm_ok_range, Hok). by apply one_pte_xlate.
      * destruct Hf. by constructor.
  - apply wp_bind, wp_ret. cbn [negb Z.eqb].
    eapply wp_mono; [by eapply deliver_wp|]. intros r s' [-> ->].
    right. exists e, v, d. split_and!; try done. right. right. split_and!; [done|lia|]. right. left.
    split_and!; try done; [by left|by eapply calling_upd_env].
Qed.

(** C23: [sys_ipc_try_send] on every branch, when a page sent is mapped in the
    sender.  It fails with [-E_BAD_ENV] when there is no such environment, with
    [-E_IPC_NOT_RECV] when it is not waiting, with [-E_INVAL] for a page that
    the sender may not send, with [-E_NO_MEM] when there is no page for a page
    table, each without a change.  Otherwise the receiver gets the value and the
    sender's identifier, is runnable, will see 0, and waits no longer; a page is
    mapped at the place the receiver asked for with exactly the permissions
    sent, and the permissions recorded, when both sides want it, and otherwise
    memory and the recorded permissions stay as they were. *)
Theorem sys_ipc_try_send_correct base s fl D O k vk dk envid value srcva perm :
  calling base s fl D O k -> caller s D k vk dk -> 0 <= srcva ->
  (srcva < UTOP -> exists p, maps (pmem s) dk (PGNUM srcva) = Some p /\ ref s p < 65535) ->
  (forall i v, envs s !! i = Some v -> 0 <= env_ipc_dstva v) ->
  wp (sys_ipc_try_send envid value srcva perm) (fun r s' =>
    (r = - E_BAD_ENV /\ s' = s /\ forall i, ~ names s k envid false i) \/
    (exists e v d, names s k envid false e /\ envs s !! e = Some v /\ d ∈ D /\ env_pgdir v = kva d /\
      ((r = - E_IPC_NOT_RECV /\ s' = s /\ env_ipc_recving v = false) \/
       (env_ipc_recving v = true /\ r = - E_INVAL /\ s' = s /\ srcva < UTOP /\
        ~ send_ok (pmem s) dk srcva perm) \/
       (env_ipc_recving v = true /\ (srcva < UTOP -> send_ok (pmem s) dk srcva perm) /\
        ((r = - E_NO_MEM /\ s' = s /\ fl = [] /\ srcva < UTOP /\ env_ipc_dstva v < UTOP) \/
         (r = 0 /\ (UTOP <= srcva \/ UTOP <= env_ipc_dstva v) /\ calling base s' fl D O k /\
          envs s' = <[e := woken (env_id vk) value v]> (envs s) /\ pmem s' = pmem s) \/
         (r = 0 /\ srcva < UTOP /\ env_ipc_dstva v < UTOP /\ exists p fl' O',
          maps (pmem s) dk (PGNUM srcva) = Some p /\ calling base s' fl' D O' k /\
          envs s' = <[e := woken (env_id vk) value (put env_ipc_perm perm v)]> (envs s) /\
          xlate_update D s s' d (PGNUM (env_ipc_dstva v)) (Some (p, Z.lor perm PTE_P)) /\
          data_same fl D O (pmem s) (pmem s'))))))) s.
Proof.
  intros H Hcl Hs Hm Hd. eapply wp_mono; [by apply (sys_ipc_try_send_wp base s fl D O k vk dk)|].
  intros r s' [?|(e & v & d & H1 & H2 & H3 & H4 & [?|[?|(H5 & H6 & [?|[?|H7]])]])]; [by left|right; exists e, v, d; split_and!; try done..].
  - by left.
  - by right; left.
  - right; right. split_and!; try done. by left.
  - right; right. split_and!; try done. right; left. naive_solver.
  - right; right. split_and!; try done. right; right. destruct H7 as (-> & ? & ? & p & fl' & O' & H7).
    split_and!; try done. exists p, fl', O'. naive_solver.
Qed.

(** ** Receiving *)

(** A receiver waiting for a message. *)
Definition waiting (dstva : Z) (v : Env) : Env :=
  put env_ipc_dstva dstva (put env_status ENV_NOT_RUNNABLE (put env_ipc_recving true v)).

Lemma sched_ok_upd s c k v v' :
  sched_ok s c -> 0 <= k < NENV -> envs s !! k = Some v -> env_pgdir v' = env_pgdir v ->
  KERNBASE <= env_pgdir v < 2 ^ 32 ->
  sched_ok (put envs (<[k := v']> (envs s)) s) c.
Proof.
  intros [Hen Hpgd Hkpd Hcpu Hcur Hlk] Hk Hv Hpg Hr. constructor; kred; try done.
  - intros i Hi. by apply is_Some_insert, Hen.
  - intros i w. destruct (decide (k = i)) as [<-|].
    + rewrite lookup_insert_eq. intros [= <-] _. by rewrite Hpg.
    + rewrite lookup_insert_ne by done. apply Hpgd.
Qed.

Lemma sys_ipc_recv_stop s c k v dstva :
  sched_ok s c -> cpu_env c = Some k -> envs s !! k = Some v -> KERNBASE <= env_pgdir v < 2 ^ 32 ->
  0 <= dstva < 2 ^ 32 ->
  if decide (dstva < UTOP /\ dstva mod 4096 <> 0) then sys_ipc_recv dstva s = Ret (- E_INVAL) s
  else exists x s', sys_ipc_recv dstva s = Stop x s' /\ (forall tf, x <> ToUser k tf) /\
    (exists v', envs s' !! k = Some v' /\ same_env (waiting dstva v) v') /\
    status_of s' k = ENV_NOT_RUNNABLE.
Proof.
  intros Hok Hk Hv Hpg Hd. unfold sys_ipc_recv. rewrite PGOFF_mod by done.
  case_decide as Hdec.
  { destruct (Z.ltb_spec dstva UTOP), (Z.eqb_spec (dstva mod 4096) 0); cbn; done || lia. }
  assert ((dstva <? UTOP) && negb (dstva mod 4096 =? 0) = false) as ->.
  { destruct (Z.ltb_spec dstva UTOP), (Z.eqb_spec (dstva mod 4096) 0); cbn; done || lia. }
  assert (0 <= k < NENV) as Hkr by (by eapply so_cur).
  set (s1 := put envs (<[k := waiting dstva v]> (envs s)) s).
  assert (sched_ok s1 c) as Hok1 by (by eapply sched_ok_upd).
  assert (envs s1 !! k = Some (waiting dstva v)) as Hv1 by (unfold s1; kred; by rewrite lookup_insert_eq).
  assert (status_of s1 k = ENV_NOT_RUNNABLE) as Hst1 by (by rewrite (status_of_eq _ _ _ Hv1)).
  assert (exists x s', sched_yield s1 = Stop x s' /\ (forall tf, x <> ToUser k tf) /\
    (exists v', envs s' !! k = Some v' /\ same_env (waiting dstva v) v') /\
    status_of s' k = ENV_NOT_RUNNABLE) as (x & s' & Hy & Hx).
  { pose proof (sched_yield_cases s1 c Hok1) as H. pose proof (sched_halt_eq s1 c Hok1) as Hh.
    destruct (pick s1 (scan_start s1 c)) as [e|] eqn:Hp.
    - destruct H as (ve & s' & Hve & Hs & Hsw). exists (ToUser e (env_tf ve)), s'.
      assert (k <> e) as Hne.
      { intros <-. unfold pick in Hp. apply fmap_Some in Hp as ([n i] & Hf & ->).
        apply list_find_Some in Hf as (_ & Hrun & _). cbn [snd] in Hst1. congruence. }
      split; [done|]. split; [naive_solver|]. split; [by apply (sw_env _ _ _ _ Hsw)|].
      rewrite (sw_others _ _ _ _ Hsw) by done. rewrite decide_False; [done|]. rewrite Hst1. naive_solver.
    - rewrite Hk, decide_False in H by (by rewrite Hst1). destruct (any_busy s1).
      + destruct Hh as (s' & Hs & Hha). exists CpuHalt, s'. split; [by rewrite H|]. split; [done|].
        unfold status_of. rewrite (ha_envs _ _ _ Hha), Hv1. split; [|done].
        eexists. split; [done|apply same_env_refl].
      + destruct Hh as (s' & Hs & Hes & _). exists InMonitor, s'. split; [by rewrite H|]. split; [done|].
        unfold status_of. rewrite Hes, Hv1. split; [|done]. eexists. split; [done|apply same_env_refl]. }
  exists x, s'. split; [|done]. pose proof (so_cpu _ _ Hok) as Hc.
  unfold the_curenv. erewrite bind_Ret by (erewrite bind_Ret by (by apply curenv_eq); by rewrite Hk).
  erewrite bind_Ret by (by apply upd_env_eq).
  erewrite bind_Ret by (apply upd_env_eq; kred; by rewrite lookup_insert_eq).
  erewrite bind_Ret by (apply upd_env_eq; kred; by rewrite lookup_insert_eq).
  match goal with |- (_ ≫= _) ?st = _ => assert (st = s1) as -> end; [|by apply bind_Stop].
  unfold s1, upd, put. cbn. by rewrite !insert_insert_eq.
Qed.

(** [sys_ipc_recv] refuses, with [-E_INVAL] and without a change, an address
    below [UTOP] that is not page-aligned.  Otherwise it does not return: the
    caller is left waiting, with the address it gave, not runnable, and another
    environment runs or the CPU halts. *)
Theorem sys_ipc_recv_correct s c k v dstva :
  sched_ok s c -> cpu_env c = Some k -> envs s !! k = Some v -> KERNBASE <= env_pgdir v < 2 ^ 32 ->
  0 <= dstva < 2 ^ 32 ->
  if decide (dstva < UTOP /\ dstva mod 4096 <> 0) then sys_ipc_recv dstva s = Ret (- E_INVAL) s
  else exists x s', sys_ipc_recv dstva s = Stop x s' /\ (forall tf, x <> ToUser k tf) /\
    (exists v', envs s' !! k = Some v' /\ same_env (waiting dstva v) v') /\
    status_of s' k = ENV_NOT_RUNNABLE.
Proof. exact (sys_ipc_recv_stop s c k v dstva). Qed.

(** ** Environments *)

Lemma sys_env_set_status_wp base s fl D O k envid status :
  calling base s fl D O k ->
  wp (sys_env_set_status envid status) (fun r s' =>
    (r = - E_INVAL /\ s' = s /\ status <> 2 /\ status <> 4) \/
    (exists st, status = status_code st /\ (st = ENV_RUNNABLE \/ st = ENV_NOT_RUNNABLE) /\
      ((r = - E_BAD_ENV /\ s' = s /\ forall i, ~ names s k envid true i) \/
       (r = 0 /\ exists i v, names s k envid true i /\ envs s !! i = Some v /\
         s' = put envs (<[i := put env_status st v]> (envs s)) s /\ calling base s' fl D O k)))) s.
Proof.
  intros H. unfold sys_env_set_status. change (status_code ENV_RUNNABLE) with 2.
  change (status_code ENV_NOT_RUNNABLE) with 4.
  destruct (Z.eqb_spec status 2) as [H2|H2], (Z.eqb_spec status 4) as [H4|H4]; cbn [negb andb];
    [lia| | |by apply wp_ret; left].
  1, 2: set (st := if decide (status = 2) then ENV_RUNNABLE else ENV_NOT_RUNNABLE);
    assert (status = status_code st /\ (st = ENV_RUNNABLE \/ st = ENV_NOT_RUNNABLE) /\ st <> ENV_FREE)
      as (Hc & Hst & Hnf) by (unfold st; case_decide; subst; auto; done);
    destruct (calling_envid _ _ _ _ _ _ envid true H) as [[He Hn]|(i & v & d & He & Hn & Hv & Hs & _)];
    (eapply wp_ext; [by erewrite bind_Ret|]); cbn [fst snd negb Z.eqb].
  1, 3: apply wp_ret; right; exists st; split_and!; auto.
  all: apply wp_bind, wp_ret, wp_bind; (eapply wp_Ret; [by apply upd_env_eq|]); apply wp_ret;
    right; exists st; split; [done|]; split; [done|]; right; split; [done|]; exists i, v;
    split; [done|]; split; [done|].
  - assert (st = ENV_RUNNABLE) as -> by (unfold st; by rewrite decide_True).
    split; [done|]. by eapply calling_upd_env.
  - assert (st = ENV_NOT_RUNNABLE) as -> by (unfold st; rewrite decide_False by done; done).
    split; [done|]. by eapply calling_upd_env.
Qed.

(** [sys_env_set_status] on every branch: [-E_INVAL] for a status that is
    neither [ENV_RUNNABLE] nor [ENV_NOT_RUNNABLE], [-E_BAD_ENV] for an
    environment the caller may not change, both without a change; otherwise the
    status is the one asked for, whatever it was, and nothing else changes. *)
Theorem sys_env_set_status_correct base s fl D O k envid status :
  calling base s fl D O k ->
  wp (sys_env_set_status envid status) (fun r s' =>
    (r = - E_INVAL /\ s' = s /\ status <> 2 /\ status <> 4) \/
    (exists st, status = status_code st /\ (st = ENV_RUNNABLE \/ st = ENV_NOT_RUNNABLE) /\
      ((r = - E_BAD_ENV /\ s' = s /\ forall i, ~ names s k envid true i) \/
       (r = 0 /\ exists i v, names s k envid true i /\ envs s !! i = Some v /\
         s' = put envs (<[i := put env_status st v]> (envs s)) s /\ calling base s' fl D O k)))) s.
Proof. exact (sys_env_set_status_wp base s fl D O k envid status). Qed.

(** The state a call to [sys_exofork] needs besides: the kernel's directory and
    a free list that starts with a free environment. *)
Record can_fork (s : kstate) (fl : list Z) (kf : Z) : Prop := {
  cf_kern : kern_pgdir_ok s fl kf;
  cf_head e : env_free_list s = Some e -> 0 <= e < NENV /\
    exists v, envs s !! e = Some v /\ env_status v = ENV_FREE /\ - 2 ^ 31 <= env_id v < 2 ^ 31
}.

(** The environment [sys_exofork] makes in slot [e], from the free [v]. *)
Definition forked (v vk : Env) (e f : Z) : Env :=
  put env_tf (upd tf_regs (put reg_eax 0) (env_tf vk))
    (put env_status ENV_NOT_RUNNABLE (new_env v e (env_id vk) f)).

Lemma calling_forked base s s' fl fl' D O k v vk e f :
  calling base s fl D O k -> envs s !! e = Some v -> env_status v = ENV_FREE -> 0 <= e < NENV ->
  - 2 ^ 31 <= env_id v < 2 ^ 31 -> f ∉ D -> 0 <= f ->
  vm_inv base s' fl' ({[f]} ∪ D) O -> cpus s' = cpus s -> cpunum s' = cpunum s ->
  envs s' = <[e := forked v vk e f]> (envs s) -> calling base s' fl' ({[f]} ∪ D) O k.
Proof.
  intros [Hi Hb [Hid1 Hid2] Hc (vk' & Hvk & Hlk) Hd Hj] Hv Hfree He Hid Hf Hf0 INV' Hcp Hcn Hes.
  assert (e <> k) as Hek by (intros ->; congruence).
  assert (forall i w, envs s' !! i = Some w ->
     (i = e /\ w = forked v vk e f) \/ (i <> e /\ envs s !! i = Some w)) as Hcase.
  { intros i w. rewrite Hes. intros [[-> <-]|[Hne Hw]]%lookup_insert_Some; auto. }
  assert (forall i w, envs s !! i = Some w -> env_status w <> ENV_FREE -> env_pgdir w <> kva f) as Hnew.
  { intros i w Hw Hs Hp. destruct (Hd i w Hw Hs) as (d & HdD & Hpd). rewrite Hp in Hpd.
    unfold kva in Hpd. assert (f = d) by lia. by subst. }
  constructor; [done|done| | | | |].
  - constructor.
    + intros i Hr. rewrite Hes. by apply is_Some_insert, Hid1.
    + intros i w Hw Hs. destruct (Hcase i w Hw) as [[-> ->]|[_ Hw']]; [by apply next_id_slot|by apply Hid2].
  - by rewrite Hcp, Hcn.
  - exists vk'. rewrite Hes, lookup_insert_ne by done. done.
  - intros i w Hw Hs. destruct (Hcase i w Hw) as [[-> ->]|[_ Hw']].
    + exists f. split; [set_solver|done].
    + destruct (Hd i w Hw' Hs) as (d & ? & ?). exists d. split; [set_solver|done].
  - intros i j w x Hw Hx Hs Hs' Hp.
    destruct (Hcase i w Hw) as [[-> ->]|[? Hw']], (Hcase j x Hx) as [[-> ->]|[? Hx']]; [done| | |by eapply Hj].
    + destruct (Hnew j x Hx' Hs'). by rewrite <- Hp.
    + destruct (Hnew i w Hw' Hs). by rewrite Hp.
Qed.

Lemma sys_exofork_wp base s fl D O k vk kf :
  calling base s fl D O k -> can_fork s fl kf -> envs s !! k = Some vk -> env_status vk <> ENV_FREE ->
  wp sys_exofork (fun r s' =>
    match env_free_list s, fl with
    | None, _ => r = - E_NO_FREE_ENV /\ s' = s
    | Some _, [] => r = - E_NO_MEM /\ s' = s
    | Some e, f :: fl' => calling base s' fl' ({[f]} ∪ D) O k /\
        same_ptes D (pmem s) (pmem s') /\ (forall x, 0 <= x < UVPNS -> pte (pmem s') f x = 0) /\
        exists v', envs s' = <[e := v']> (envs s) /\ env_id v' = r /\ 0 < r < 2 ^ 31 /\ ENVX r = e /\
          env_parent_id v' = env_id vk /\ env_status v' = ENV_NOT_RUNNABLE /\
          env_tf v' = upd tf_regs (put reg_eax 0) (env_tf vk) /\ env_pgdir v' = kva f /\
          cr3 s' = cr3 s /\ (f ∉ D) /\ outside f (pmem s) (pmem s') /\
          (forall i, 0 <= i < UPDES -> present (word (pmem s') f i) = false) /\ env_frame s s' /\
          exists v0, envs s !! e = Some v0 /\ env_free_list s' = env_link v0 /\ env_ipc_dstva v' = env_ipc_dstva v0
    end) s.
Proof.
  intros H [Hk Hh] Hvk Hlk. pose proof (calling_cpu_ok _ _ _ _ _ _ H) as Hc.
  pose proof (ca_inv _ _ _ _ _ _ H) as INV. pose proof (ca_base _ _ _ _ _ _ H) as Hb.
  unfold sys_exofork. apply wp_bind. eapply wp_Ret; [by eapply the_curenv_eq|].
  apply wp_bind. eapply wp_Ret; [by apply get_env_eq|]. apply wp_bind.
  eapply wp_mono; [apply (env_alloc_wp base s fl D O kf _ INV Hb Hk Hc)|].
  { intros e He. destruct (Hh e He) as (_ & v & Hv & _). by exists v. }
  intros r s1 Hr. destruct (env_free_list s) as [e|]; [|by destruct Hr as [-> ->]; apply wp_ret].
  destruct fl as [|f fl']; [by destruct Hr as [-> ->]; apply wp_ret|].
  destruct Hr as (-> & INV1 & Hm & Hf & v & Hv & Hln & Hes).
  destruct (Hh e eq_refl) as (He & v0 & Hv0 & Hfree & Hid). rewrite Hv in Hv0. injection Hv0 as <-.
  destruct (free_unused INV f ltac:(left) (Hb _)) as (Hfr & _ & HfD & HfO & _).
  assert (e <> k) as Hek by (intros ->; congruence).
  assert (kf <> f) as Hne by (intros ->; apply (kp_used _ _ _ Hk); left).
  assert (envs s1 !! e = Some (new_env v e (env_id vk) f)) as Hv1 by (by rewrite Hes, lookup_insert_eq).
  assert (envs s1 !! k = Some vk) as Hk1 by (by rewrite Hes, lookup_insert_ne).
  upd_env_step. apply wp_bind. eapply wp_Ret; [apply get_env_eq; kred; by rewrite lookup_insert_ne|].
  do 2 upd_env_step. apply wp_bind. eapply wp_Ret; [apply get_env_eq; kred; by rewrite lookup_insert_eq|].
  apply wp_ret. split.
  { apply (calling_forked base s _ (f :: fl') fl' D O k v vk e f H); try done; kred; try lia; try apply Hf.
    - by eapply vm_inv_proj; [..|exact INV1].
    - rewrite Hes, !insert_insert_eq. done. }
  kred. rewrite Hm. split; [|split].
  - intros d x Hd Hx. apply (pte_outside (vi_vm _ _ _ _ _ INV) HfD HfO (dir_mem_outside _ _ _)); done.
  - intros x Hx. apply user_empty_pte; [|done]. intros i Hi. rewrite dir_mem_word by done.
    rewrite decide_False by lia. by apply (kp_empty _ _ _ Hk).
  - eexists. split; [rewrite Hes, !insert_insert_eq; reflexivity|].
    cbn [put upd env_id env_parent_id env_status env_tf env_pgdir new_env].
    split_and!; try done; [by apply next_id_pos|by apply next_id_lt|by apply next_id_slot|apply Hf|apply dir_mem_outside| | |].
    2: by destruct Hf as [[] _]. 2: by exists v.
    intros i Hi. rewrite dir_mem_word by done. rewrite decide_False by lia. by apply (kp_empty _ _ _ Hk).
Qed.

(** C26: [sys_exofork] fails with [-E_NO_FREE_ENV] or [-E_NO_MEM] without a
    change.  Otherwise it returns the fresh, positive identifier of a child of
    the caller that is not runnable, whose registers are the caller's except
    that it will see 0 returned, and whose address space maps nothing below
    [UTOP]; no other translation and no other environment changes. *)
Theorem sys_exofork_correct base s fl D O k vk kf :
  calling base s fl D O k -> can_fork s fl kf -> envs s !! k = Some vk -> env_status vk <> ENV_FREE ->
  wp sys_exofork (fun r s' =>
    match env_free_list s, fl with
    | None, _ => r = - E_NO_FREE_ENV /\ s' = s
    | Some _, [] => r = - E_NO_MEM /\ s' = s
    | Some e, f :: fl' => calling base s' fl' ({[f]} ∪ D) O k /\
        same_ptes D (pmem s) (pmem s') /\ (forall x, 0 <= x < UVPNS -> pte (pmem s') f x = 0) /\
        exists v', envs s' = <[e := v']> (envs s) /\ env_id v' = r /\ 0 < r /\ ENVX r = e /\
          env_parent_id v' = env_id vk /\ env_status v' = ENV_NOT_RUNNABLE /\
          env_tf v' = upd tf_regs (put reg_eax 0) (env_tf vk) /\ env_pgdir v' = kva f
    end) s.
Proof.
  intros H Hk Hvk Hlk. eapply wp_mono; [by eapply sys_exofork_wp|]. intros r s' Hr.
  destruct (env_free_list s) as [e|]; [|done]. destruct fl as [|f fl']; [done|].
  destruct Hr as (H1 & H2 & H3 & v' & H4 & H5 & H6 & H7 & H8 & H9 & H10 & H11 & _).
  split_and!; try done. exists v'. by destruct H6; split_and!.
Qed.

(** ** Concrete calls *)

(** [call_demo] with its environment waiting, to send itself a message. *)
Definition ipc_demo : kstate := put envs (<[0 := waiting UTOP call_env]> (envs call_demo)) call_demo.

Lemma ipc_demo_calling : calling boot_refs ipc_demo [3; 4; 5] {[1]} ∅ 0.
Proof. apply (calling_upd_env _ _ _ _ _ _ 0 call_env); [apply call_demo_calling|apply call_demo_cur|done..]. Qed.

Lemma ipc_demo_cur : envs ipc_demo !! 0 = Some (waiting UTOP call_env).
Proof. unfold ipc_demo. kred. apply lookup_insert_eq. Qed.

Lemma ipc_demo_dstva i v : envs ipc_demo !! i = Some v -> 0 <= env_ipc_dstva v.
Proof.
  unfold ipc_demo. kred. intros [[<- <-]|[Hne Hv]]%lookup_insert_Some; [cbn; lia|].
  unfold call_demo, with_caller in Hv. cbn [envs put upd] in Hv. rewrite lookup_insert_ne in Hv by done.
  apply env_table_Some in Hv as ->. cbn. lia.
Qed.

Lemma sys_ipc_try_send_correct_witness :
  exists s', sys_ipc_try_send 0 42 UTOP 0 ipc_demo = Ret 0 s' /\
    envs s' !! 0 = Some (woken 0x1000 42 (waiting UTOP call_env)).
Proof.
  assert (caller ipc_demo {[1]} 0 (waiting UTOP call_env) 1) as Hcl.
  { constructor; [apply ipc_demo_cur|done|set_solver|done]. }
  pose proof (sys_ipc_try_send_correct boot_refs ipc_demo [3; 4; 5] {[1]} ∅ 0 (waiting UTOP call_env) 1
    0 42 UTOP 0 ipc_demo_calling Hcl ltac:(lia) ltac:(lia) ipc_demo_dstva) as H.
  apply wp_inv in H as (r & s' & Hs & [(_ & _ & Hno)|(e & v & d & Hn & Hv & _ & _ & Hc)]).
  { destruct (Hno 0). apply names_self. }
  destruct Hn as (He & _). rewrite (He eq_refl) in *. rewrite ipc_demo_cur in Hv. injection Hv as <-.
  destruct Hc as [(_ & _ & Hno)|[(_ & _ & _ & Hno & _)|(_ & _ & [(_ & _ & _ & Hno & _)|
    [(-> & _ & _ & Hes & _)|(_ & Hno & _)]])]]; [done|lia|lia| |lia].
  exists s'. split; [exact Hs|]. rewrite Hes. apply lookup_insert_eq.
Defined.

Lemma run_demo_ok live : sched_ok (run_demo live) (mkCpuInfo 0 CPU_STARTED (Some 3) 0 0).
Proof. eapply sched_ok_cpus; [apply sched_demo_ok|reflexivity|]. intros e [= <-]. lia. Qed.

Lemma sys_ipc_recv_correct_witness :
  exists x s', sys_ipc_recv UTOP (run_demo [5; 3]) = Stop x s' /\ status_of s' 3 = ENV_NOT_RUNNABLE.
Proof.
  assert (envs (run_demo [5; 3]) !! 3 = Some (table_env [5; 3] 3)) as Hv.
  { unfold run_demo, sched_demo. kred. apply env_table_lookup. lia. }
  pose proof (sys_ipc_recv_correct (run_demo [5; 3]) _ 3 _ UTOP (run_demo_ok _) eq_refl Hv
    ltac:(cbn; lia) ltac:(lia)) as H.
  rewrite decide_False in H by lia. destruct H as (x & s' & Hs & _ & _ & Hst).
  exists x, s'. split; [exact Hs|exact Hst].
Defined.

Lemma sys_env_set_status_correct_witness :
  exists s', sys_env_set_status 0 4 call_demo = Ret 0 s' /\
    envs s' !! 0 = Some (put env_status ENV_NOT_RUNNABLE call_env).
Proof.
  pose proof (sys_env_set_status_correct boot_refs call_demo [3; 4; 5] {[1]} ∅ 0 0 4 call_demo_calling) as H.
  apply wp_inv in H as (r & s' & Hs & [(_ & _ & _ & Hno)|(st & Hst & Hor & [(_ & _ & Hno)|
    (-> & i & v & (Hi & _) & Hv & -> & _)])]).
  - by destruct Hno.
  - destruct (Hno 0). apply names_self.
  - rewrite (Hi eq_refl) in *. rewrite call_demo_cur in Hv. injection Hv as <-.
    assert (st = ENV_NOT_RUNNABLE) as -> by (clear -Hst Hor; destruct Hor as [->| ->]; done).
    eexists. split; [exact Hs|]. kred. apply lookup_insert_eq.
Defined.

(** [call_demo] with slot 1 first on the free list and page 0 for the kernel's directory. *)
Definition fork_demo : kstate := put env_free_list (Some 1) (put kern_pgdir (kva 0) call_demo).

Lemma fork_demo_calling : calling boot_refs fork_demo [3; 4; 5] {[1]} ∅ 0.
Proof. apply calling_kernel, call_demo_calling. Qed.

Lemma fork_demo_can : can_fork fork_demo [3; 4; 5] 0.
Proof.
  constructor.
  - constructor; [done|cbn; lia|set_solver|].
    intros i _. unfold word. cbn. by rewrite lookup_empty.
  - intros e [= <-]. split; [lia|]. exists (table_env [] 1). split; [|split; [done|split; [vm_compute; discriminate|reflexivity]]].
    unfold fork_demo, call_demo, with_caller. kred. rewrite lookup_insert_ne by done. apply env_table_lookup. lia.
Qed.

Lemma sys_exofork_correct_witness :
  exists r s', sys_exofork fork_demo = Ret r s' /\ 0 < r /\ ENVX r = 1 /\
    status_of s' 1 = ENV_NOT_RUNNABLE.
Proof.
  pose proof (sys_exofork_correct boot_refs fork_demo [3; 4; 5] {[1]} ∅ 0 call_env 0
    fork_demo_calling fork_demo_can call_demo_cur) as H.
  apply wp_inv in H as (r & s' & Hs & _ & _ & _ & v' & Hes & _ & Hr & Hx & _ & Hst & _); [|done].
  exists r, s'. split; [exact Hs|]. split; [exact Hr|]. split; [exact Hx|].
  unfold status_of. by rewrite Hes, lookup_insert_eq.
Defined.
