(* ===== verification/SyscallInv.v ===== *)
(** * The system calls keep the kernel's invariant

    One theorem for the dispatcher: what every call that returns leaves is again a
    state the next call can be made in. *)

From Stdlib Require Import Lia ZArith ZifyClasses ZifyInst ZifyBool.
From stdpp Require Import base gmap list strings numbers.
From S2P Require Import Prelude Cmonad Mmu Printfmt Console State Spinlock Umem Pmap.
From S2P Require Import PageList Vm VmInv PmapLem VmLem PmapSpec VmDir Env EnvLem Sched EnvSpec Syscall SyscallSpec IpcSpec.

Section Dispatch.
Context {base : Z -> Z} {k kf : Z}.

(** The state of the kernel between two calls of the environment in slot [k]: the
    memory, the environment table and the caller are in order ([calling]); the
    kernel's directory is in frame [kf], which is nobody's address space or page
    table, maps nothing below [UTOP], and is referenced by the kernel; [l] is the list
    of free environments, every free one on it once; the fields of the table are in
    range. *)
Record kernel_ok (s : kstate) (fl : list Z) (D : gset Z) (O : gmap Z (Z * Z)) (l : list Z) : Prop := {
  ko_calling : calling base s fl D O k;
  ko_kern : kern_pgdir_ok s fl kf;
  ko_dir : kf ∉ D;
  ko_table : O !! kf = None;
  ko_ref : 1 <= base kf;
  ko_chain : echain (envs s) (env_free_list s) l;
  ko_nodup : NoDup l;
  ko_free e : e ∈ l <-> 0 <= e < NENV /\ exists v, envs s !! e = Some v /\ env_status v = ENV_FREE;
  ko_vals i v : envs s !! i = Some v -> - 2 ^ 31 <= env_id v < 2 ^ 31 /\ 0 <= env_ipc_dstva v
}.

(** Page [va] is mapped in [d] and can be mapped once more. *)
Definition shareable (s : kstate) (d va : Z) : Prop := exists p, maps (pmem s) d (PGNUM va) = Some p /\ ref s p < 65535.

(** The arguments the theorem covers: [sys_page_map] and a message with a page name a
    page that is mapped and not mapped 65535 times, [sys_page_unmap] one that is mapped
    or has no page table (on the others the code follows an uninitialised pointer or
    drops a reference that is not there), [sys_env_destroy] another environment.
    [sys_cputs], [sys_cgetc], [sys_yield] and [sys_ipc_recv], which need not return to
    the caller, are not covered. *)
Definition call_ok (s : kstate) (D : gset Z) (n a1 a2 a3 : Z) : Prop :=
  match sysno_of n with
  | Some SYS_page_map => forall d, space s k (s32 a1) d -> va_ok a2 -> shareable s d a2
  | Some SYS_page_unmap => forall d, space s k (s32 a1) d -> va_ok a2 -> present (word (pmem s) d (PDX a2)) = true ->
      is_Some (maps (pmem s) d (PGNUM a2))
  | Some SYS_ipc_try_send => a3 < UTOP -> forall vk d, caller s D k vk d -> shareable s d a3
  | Some SYS_env_destroy => ~ names s k (s32 a1) true k
  | Some (SYS_cputs | SYS_cgetc | SYS_yield | SYS_ipc_recv) => False
  | _ => True
  end.

(** A result in range, and a state in which the next call can be made. *)
Definition goes_on (r : Z) (s' : kstate) : Prop :=
  - 2 ^ 31 <= r < 2 ^ 31 /\ exists fl' D' O' l', kernel_ok s' fl' D' O' l'.

Lemma goes_on_same s fl D O l r : kernel_ok s fl D O l -> - 2 ^ 31 <= r < 2 ^ 31 -> goes_on r s.
Proof. intros H Hr. split; [done|]. by exists fl, D, O, l. Qed.

Lemma goes_on_ok s fl D O l r : kernel_ok s fl D O l -> - 2 ^ 31 <= r <= 0 -> goes_on r s.
Proof. intros H Hr. apply (goes_on_same _ _ _ _ _ _ H). lia. Qed.

Lemma kernel_can_fork s fl D O l : kernel_ok s fl D O l -> can_fork s fl kf.
Proof.
  intros [_ Hk _ _ _ Hch _ Hfr Hv]. constructor; [done|]. intros e He. destruct l as [|e' l]; cbn in Hch; [congruence|].
  destruct Hch as [Hh _]. rewrite Hh in He. injection He as ->.
  destruct (proj1 (Hfr e)) as (Hr & v & Hl & Hs); [left|]. split; [done|]. exists v. by destruct (Hv e v Hl).
Qed.

(** What every step has to keep. *)
Lemma kernel_ok_step s s' fl fl' D D' O O' l l' : kernel_ok s fl D O l -> calling base s' fl' D' O' k ->
  kern_pgdir s' = kern_pgdir s -> npages s' = npages s -> kf ∉ D' -> O' !! kf = None ->
  (forall i, word (pmem s') kf i = word (pmem s) kf i) -> echain (envs s') (env_free_list s') l' -> NoDup l' ->
  (forall e, e ∈ l' <-> 0 <= e < NENV /\ exists v, envs s' !! e = Some v /\ env_status v = ENV_FREE) ->
  (forall i v, envs s' !! i = Some v -> - 2 ^ 31 <= env_id v < 2 ^ 31 /\ 0 <= env_ipc_dstva v) -> kernel_ok s' fl' D' O' l'.
Proof.
  intros [Hc [Hva Hram Hused Hemp] HD HO Hb _ _ _ _] H' Hk Hn HD' HO' Hw Hch Hnd Hfr Hv. constructor; try done. constructor.
  - by rewrite Hk.
  - by rewrite Hn.
  - intros Hin. destruct (free_unused (ca_inv _ _ _ _ _ _ H') kf Hin (ca_base _ _ _ _ _ _ H' _)) as (Hr & H0 & _).
    rewrite (vi_ref _ _ _ _ _ (ca_inv _ _ _ _ _ _ H')) in H0 by done.
    pose proof (nmaps_nonneg (pmem s') D' kf). destruct (bool_decide (is_Some _)), (bool_decide (kf ∈ D')); cbn [b2z] in H0; lia.
  - intros i Hi. rewrite Hw. by apply Hemp.
Qed.

(** A call that changes memory only. *)
Lemma kernel_ok_mem s s' fl fl' D O O' l : kernel_ok s fl D O l -> calling base s' fl' D O' k -> vm_frame s s' ->
  data_same fl D O (pmem s) (pmem s') -> tables_kept fl O O' -> kernel_ok s' fl' D O' l.
Proof.
  intros H H' Hf Hd Ho. pose proof H as [_ [_ _ Hused _] HD HO _ Hch Hnd Hfr Hv].
  apply (kernel_ok_step s s' fl fl' D D O O' l l H H'); try done; rewrite ?(vf_envs _ _ Hf), ?(vf_env_free_list _ _ Hf); try done.
  - apply (vf_kern_pgdir _ _ Hf).
  - apply (vf_npages _ _ Hf).
  - by rewrite Ho.
  - intros i. by apply Hd.
Qed.

(** A call that changes an environment in use, which stays in use, as well. *)
Lemma kernel_ok_env s s' fl fl' D O O' l e v v' : kernel_ok s fl D O l -> calling base s' fl' D O' k ->
  vm_frame s (put envs (envs s) s') -> data_same fl D O (pmem s) (pmem s') -> tables_kept fl O O' ->
  envs s !! e = Some v -> env_status v <> ENV_FREE -> envs s' = <[e := v']> (envs s) -> env_status v' <> ENV_FREE ->
  env_id v' = env_id v -> env_ipc_dstva v' = env_ipc_dstva v -> kernel_ok s' fl' D O' l.
Proof.
  intros H H' Hf Hd Ho He Hst Hes Hst' Hid Hdst. pose proof H as [_ [_ _ Hused _] HD HO _ Hch Hnd Hfr Hv].
  assert (e ∉ l) as Hel. { intros Hin. apply Hfr in Hin as (_ & w & Hw & Hs). congruence. }
  apply (kernel_ok_step s s' fl fl' D D O O' l l H H'); try done.
  - apply (vf_kern_pgdir _ _ Hf).
  - apply (vf_npages _ _ Hf).
  - by rewrite Ho.
  - intros i. by apply Hd.
  - rewrite Hes. replace (env_free_list s') with (env_free_list s) by (symmetry; apply (vf_env_free_list _ _ Hf)).
    by apply echain_insert.
  - intros x. rewrite Hfr, Hes. destruct (decide (x = e)) as [->|Hx]; [|by rewrite lookup_insert_ne].
    rewrite lookup_insert_eq. split; intros (_ & w & Hw & Hs); congruence.
  - intros i w. rewrite Hes. intros [[<- <-]|[_ Hw]]%lookup_insert_Some; [rewrite Hid, Hdst|]; by eapply Hv.
Qed.

(** The environment a call names is in use. *)
Lemma names_live s fl D O envid cp i : calling base s fl D O k -> names s k envid cp i ->
  0 <= i < NENV /\ exists v, envs s !! i = Some v /\ env_status v <> ENV_FREE.
Proof.
  intros H (H0 & Hl & _). assert (exists v, envs s !! i = Some v /\ env_status v <> ENV_FREE) as (v & Hv & Hs).
  { destruct (decide (envid = 0)) as [E|E]; [rewrite (H0 E); apply (ca_live _ _ _ _ _ _ H)|].
    destruct (Hl E) as (v & Hv & Hs & _). by exists v. }
  split; [|by exists v]. rewrite <- (io_slot _ (ca_ids _ _ _ _ _ _ H) i v Hv Hs), ENVX_mod. apply Z.mod_pos_bound. lia.
Qed.

Lemma error_range : - 2 ^ 31 <= - E_BAD_ENV <= 0 /\ - 2 ^ 31 <= - E_INVAL <= 0 /\ - 2 ^ 31 <= - E_NO_MEM <= 0 /\
  - 2 ^ 31 <= - E_NO_FREE_ENV <= 0 /\ - 2 ^ 31 <= - E_IPC_NOT_RECV <= 0 /\ - 2 ^ 31 <= - E_NO_SYS <= 0 /\ - 2 ^ 31 <= 0 <= 0.
Proof. vm_compute. by repeat split. Qed.

Ltac finish := match goal with
  | H : kernel_ok ?s _ _ _ _ |- goes_on _ ?s => apply (goes_on_ok _ _ _ _ _ _ H), error_range
  end.

Lemma page_alloc_goes_on s fl D O l envid va perm : kernel_ok s fl D O l -> 0 <= va < 2 ^ 32 ->
  wp (sys_page_alloc envid va perm) goes_on s.
Proof.
  intros H Hva. eapply wp_mono; [by apply (sys_page_alloc_wp base s fl D O k); [apply H|]|].
  intros r s' [(-> & -> & _)|(d & _ & [(-> & -> & _)|(_ & _ & Hd & [(-> & _ & H' & _ & Hf)|
    (-> & p & fl0 & fl' & O' & _ & H' & _ & _ & Hf & _ & Ho)])])]; [finish..| |].
  - assert (kernel_ok s' fl D O l) by (by eapply kernel_ok_mem). finish.
  - assert (kernel_ok s' fl' D O' l) by (by eapply kernel_ok_mem). finish.
Qed.

Lemma page_map_goes_on s fl D O l src srcva dst dstva perm : kernel_ok s fl D O l -> 0 <= srcva < 2 ^ 32 -> 0 <= dstva < 2 ^ 32 ->
  (forall d, space s k src d -> va_ok srcva -> shareable s d srcva) -> wp (sys_page_map src srcva dst dstva perm) goes_on s.
Proof.
  intros H Hs Hd Hm. eapply wp_mono; [by apply (sys_page_map_wp base s fl D O k); [apply H|..]|].
  intros r s' [(-> & -> & _)|(d1 & d2 & _ & _ & [(-> & -> & _)|(_ & _ & _ & [(-> & -> & _)|
    (-> & p & fl' & O' & _ & H' & Hds & _ & Hf & _ & Ho)])])]; [finish..|].
  assert (kernel_ok s' fl' D O' l) by (by eapply kernel_ok_mem). finish.
Qed.

Lemma page_unmap_goes_on s fl D O l envid va : kernel_ok s fl D O l -> 0 <= va < 2 ^ 32 ->
  (forall d, space s k envid d -> va_ok va -> present (word (pmem s) d (PDX va)) = true -> is_Some (maps (pmem s) d (PGNUM va))) ->
  wp (sys_page_unmap envid va) goes_on s.
Proof.
  intros H Hva Hm. eapply wp_mono; [by apply (sys_page_unmap_wp base s fl D O k); [apply H|..]|].
  intros r s' [(-> & -> & _)|(d & _ & [(-> & -> & _)|(-> & _ & _ & Hc)])]; [finish..|].
  destruct (maps (pmem s) d (PGNUM va)) as [p|]; [|subst s'; finish]. destruct Hc as (H' & _ & Hds & Hf & _).
  assert (kernel_ok s' (if ref s p =? 1 then p :: fl else fl) D O l); [|finish].
  eapply (kernel_ok_mem s s' fl); [done..| |done]. intros q i _. apply Hds. by intros ?%elem_of_nil.
Qed.

Lemma ipc_try_send_goes_on s fl D O l envid value srcva perm : kernel_ok s fl D O l -> 0 <= srcva ->
  (srcva < UTOP -> forall vk d, caller s D k vk d -> shareable s d srcva) -> wp (sys_ipc_try_send envid value srcva perm) goes_on s.
Proof.
  intros H Hs Hm. pose proof (ko_calling _ _ _ _ _ H) as Hca. destruct (calling_caller _ _ _ _ _ _ Hca) as (vk & dk & Hcl).
  eapply wp_mono; [apply (sys_ipc_try_send_wp base s fl D O k vk dk); try done; [intros Hlt; by eapply Hm|apply H]|].
  intros r s' [(-> & -> & _)|(e & v & d & Hn & Hv & _ & _ & [(-> & -> & _)|[(_ & -> & -> & _)|(_ & _ & [(-> & -> & _)|
    [(-> & _ & H' & Hes & Hpm & Hf)|(-> & _ & _ & p & fl' & O' & _ & H' & Hes & _ & Hds & Hf & Ho)]])]])]; [finish..| |];
    destruct (names_live _ _ _ _ _ _ _ Hca Hn) as (_ & w & Hw & Hst); rewrite Hv in Hw; injection Hw as <-.
  - assert (kernel_ok s' fl D O l); [|finish]. eapply kernel_ok_env; try done. by rewrite Hpm.
  - assert (kernel_ok s' fl' D O' l); [|finish]. by eapply kernel_ok_env.
Qed.

Lemma exofork_goes_on s fl D O l : kernel_ok s fl D O l -> wp sys_exofork goes_on s.
Proof.
  intros H. destruct (ca_live _ _ _ _ _ _ (ko_calling _ _ _ _ _ H)) as (vk & Hvk & Hlive).
  eapply wp_mono; [by apply (sys_exofork_wp base s fl D O k vk kf); [apply H|eapply kernel_can_fork|..]|]. intros r s' Hr.
  pose proof H as [_ [_ _ Hused _] HD HO _ Hch Hnd Hfr Hv].
  destruct (env_free_list s) as [e|] eqn:Eh; [|destruct Hr as [-> ->]; finish]. destruct fl as [|f fl']; [destruct Hr as [-> ->]; finish|].
  destruct Hr as (H' & _ & _ & v' & Hes & Hid & Hr & _ & _ & Hst & _ & _ & _ & _ & Hout & _ & Hef & v0 & Hv0 & Hlk & Hdst).
  destruct l as [|e' l]; cbn in Hch; [congruence|]. destruct Hch as (Hh & w & Hw & Hch). injection Hh as <-.
  rewrite Hv0 in Hw. injection Hw as <-. apply list.NoDup_cons in Hnd as [Hel Hnd].
  apply not_elem_of_cons in Hused as [Hne Hused]. split; [lia|]. exists fl', ({[f]} ∪ D), O, l.
  apply (kernel_ok_step s s' (f :: fl') fl' D _ O O (e :: l) l H H'); try done.
  - apply (ef_kern_pgdir _ _ Hef).
  - apply (ef_npages _ _ Hef).
  - by intros [->%elem_of_singleton|?]%elem_of_union.
  - intros i. by apply Hout.
  - rewrite Hes, Hlk. by apply echain_insert.
  - intros x. rewrite Hes. destruct (decide (x = e)) as [->|Hx].
    + rewrite lookup_insert_eq. split; [done|]. intros (_ & w & [= <-] & Hs). congruence.
    + rewrite lookup_insert_ne by done. rewrite <- Hfr, elem_of_cons. naive_solver.
  - intros i w. rewrite Hes. intros [[<- <-]|[_ Hw]]%lookup_insert_Some; [rewrite Hid, Hdst; split; [lia|]|]; by eapply Hv.
Qed.

Lemma set_status_goes_on s fl D O l envid status : kernel_ok s fl D O l -> wp (sys_env_set_status envid status) goes_on s.
Proof.
  intros H. pose proof (ko_calling _ _ _ _ _ H) as Hca. eapply wp_mono; [by apply (sys_env_set_status_wp base s fl D O k)|].
  intros r s' [(-> & -> & _)|(st & _ & Hnf & [(-> & -> & _)|(-> & i & v & Hn & Hv & -> & H')])]; [finish..|].
  destruct (names_live _ _ _ _ _ _ _ Hca Hn) as (_ & w & Hw & Hst). rewrite Hv in Hw. injection Hw as <-.
  match goal with |- goes_on _ ?s' => assert (kernel_ok s' fl D O l); [|finish] end.
  eapply kernel_ok_env; try done. destruct Hnf as [-> | ->]; done.
Qed.

Lemma set_upcall_goes_on s fl D O l envid func : kernel_ok s fl D O l -> wp (sys_env_set_pgfault_upcall envid func) goes_on s.
Proof.
  intros H. pose proof (ko_calling _ _ _ _ _ H) as Hca. unfold sys_env_set_pgfault_upcall.
  destruct (calling_envid _ _ _ _ _ _ envid true Hca) as [[He _]|(i & v & d & He & _ & Hv & Hst & _)];
    (eapply wp_ext; [by erewrite bind_Ret|]); cbn [fst snd negb Z.eqb].
  - apply wp_ret. finish.
  - apply wp_bind, wp_ret, wp_bind. eapply wp_Ret; [by apply upd_env_eq|]. apply wp_ret.
    assert (kernel_ok (put envs (<[i := put env_pgfault_upcall func v]> (envs s)) s) fl D O l) as H'.
    { eapply kernel_ok_env; try done. by eapply calling_upd_env. }
    exact (goes_on_ok _ _ _ _ _ 0 H' ltac:(lia)).
Qed.

Lemma getenvid_goes_on s fl D O l : kernel_ok s fl D O l -> wp sys_getenvid goes_on s.
Proof.
  intros H. destruct (ca_live _ _ _ _ _ _ (ko_calling _ _ _ _ _ H)) as (v & Hv & _).
  destruct (ca_cpu _ _ _ _ _ _ (ko_calling _ _ _ _ _ H)) as (c & Hc & Hk).
  unfold sys_getenvid, the_curenv. apply wp_bind. eapply wp_Ret; [erewrite bind_Ret by (by apply curenv_eq); by rewrite Hk|].
  apply wp_bind. eapply wp_Ret; [by apply get_env_eq|]. apply wp_ret.
  by apply (goes_on_same _ _ _ _ _ _ H), (ko_vals _ _ _ _ _ H _ _ Hv).
Qed.

(** The caller after another environment [e] has been freed. *)
Lemma calling_freed s s' fl fl' D O O' e d v v' : calling base s fl D O k -> e <> k -> envs s !! e = Some v ->
  env_status v <> ENV_FREE -> env_pgdir v = kva d -> env_status v' = ENV_FREE -> env_frame s s' ->
  envs s' = <[e := v']> (envs s) -> vm_inv base s' fl' (D ∖ {[d]}) O' -> calling base s' fl' (D ∖ {[d]}) O' k.
Proof.
  intros [Hi Hb [Hid1 Hid2] Hc (vk & Hvk & Hlk) Hd Hj] Hek Hv Hl Hpg Hf [_ _ Hcp Hcn _ _] He INV'.
  assert (forall i w, envs s' !! i = Some w -> env_status w <> ENV_FREE -> i <> e /\ envs s !! i = Some w) as Hold.
  { intros i w. rewrite He. intros [[<- <-]|[Hie Hw]]%lookup_insert_Some Hst; by auto. }
  constructor; [done|done| | | | |].
  - constructor.
    + intros i Hin. rewrite He. apply lookup_insert_is_Some'. right. by apply Hid1.
    + intros i w Hw Hst. destruct (Hold i w Hw Hst) as [_ Hw']. by apply Hid2.
  - by rewrite Hcp, Hcn.
  - exists vk. by rewrite He, lookup_insert_ne.
  - intros i w Hw Hst. destruct (Hold i w Hw Hst) as [Hie Hw']. destruct (Hd i w Hw' Hst) as (d' & Hd' & Hp').
    exists d'. split; [|done]. apply elem_of_difference. split; [done|]. intros ->%elem_of_singleton.
    apply Hie. apply (Hj i e w v); try done. congruence.
  - intros i j w w' Hw Hw' Hst Hst' Hp. destruct (Hold i w Hw Hst) as [_ Hi1], (Hold j w' Hw' Hst') as [_ Hj1]. by eapply Hj.
Qed.

(** [sys_env_destroy] of another environment: one that runs on another CPU is marked,
    any other one is freed. *)
Lemma sys_env_destroy_wp s fl D O envid :
  calling base s fl D O k -> ~ names s k envid true k -> kern_pgdir s = kva kf -> 0 <= kf < 65536 ->
  wp (sys_env_destroy envid) (fun r s' =>
    (r = - E_BAD_ENV /\ s' = s /\ forall i, ~ names s k envid true i) \/
    (r = 0 /\ exists e v d v', names s k envid true e /\ e <> k /\ envs s !! e = Some v /\ env_pgdir v = kva d /\
      envs s' = <[e := v']> (envs s) /\ env_id v' = env_id v /\ env_ipc_dstva v' = env_ipc_dstva v /\
      if bool_decide (env_status v = ENV_RUNNING)
      then env_status v' = ENV_DYING /\ vm_frame s (put envs (envs s) s') /\ pmem s' = pmem s /\ calling base s' fl D O k
      else env_status v' = ENV_FREE /\ env_link v' = env_free_list s /\ env_free_list s' = Some e /\ env_frame s s' /\
        d ∈ D /\ rest_kept (d := d) O s s' /\
        exists fl' O', calling base s' fl' (D ∖ {[d]}) O' k /\ tables_freed d UPDES O O')) s.
Proof.
  intros H Hself Hkf Hkr. destruct (ca_cpu _ _ _ _ _ _ H) as (c & Hc & Hk). destruct (ca_live _ _ _ _ _ _ H) as (vk & Hvk & _).
  unfold sys_env_destroy.
  destruct (calling_envid _ _ _ _ _ _ envid true H) as [[He Hno]|(e & v & d & He & Hn & Hv & Hst & HdD & Hpg)];
    (eapply wp_ext; [by erewrite bind_Ret|]); cbn [fst snd].
  { apply wp_ret. by left. }
  assert (e <> k) as Hek by (by intros ->).
  assert (forall s0, cpus s0 = cpus s -> cpunum s0 = cpunum s -> curenv s0 = Ret (Some k) s0) as Hcur.
  { intros s0 E1 E2. rewrite <- Hk. apply curenv_eq. by rewrite E1, E2. }
  change (0 <? 0) with false. cbv iota. apply wp_bind, wp_ret, wp_bind. eapply wp_Ret; [by apply Hcur|].
  apply wp_bind. eapply wp_Ret; [by eapply the_curenv_eq|]. apply wp_bind. eapply wp_Ret; [by apply get_env_eq|].
  apply wp_bind. eapply wp_Ret; [by apply get_env_eq|].
  rewrite (bool_decide_eq_false_2 (Some k = Some e)) by congruence. cbv iota. apply wp_bind.
  eapply wp_Ret; [reflexivity|]. match goal with |- wp _ _ ?s' => set (s1 := s') end.
  assert (calling base s1 fl D O k) as H1.
  { eapply calling_frame; [exact H|by constructor|by apply (vm_inv_proj base s); [..|apply H]]. }
  apply wp_bind. unfold env_destroy. apply wp_bind. eapply wp_Ret; [by apply get_env_eq|].
  apply wp_bind. eapply wp_Ret; [by apply Hcur|]. rewrite (bool_decide_eq_false_2 (Some k = Some e)) by congruence.
  cbn [negb]. rewrite andb_true_r. case_bool_decide as Hrun.
  - eapply wp_Ret; [by apply upd_env_eq|]. apply wp_ret. right. split; [done|].
    exists e, v, d, (put env_status ENV_DYING v). do 7 (split; [done|]).
    rewrite bool_decide_true by done. split; [done|]. split; [by constructor|]. split; [done|]. by eapply calling_upd_env.
  - apply wp_bind. eapply wp_mono; [by apply (env_free_wp (ca_base _ _ _ _ _ _ H) HdD s1 fl O e v kf); [apply H1|eapply calling_cpu_ok|..]|].
    intros [] s2 ((fl' & O' & HI' & _ & Htf) & Hrest & Hoth & Hf & Hfl & Hes). apply wp_bind.
    eapply wp_Ret; [apply Hcur; [by rewrite (ef_cpus _ _ Hf)|by rewrite (ef_cpunum _ _ Hf)]|].
    rewrite (bool_decide_eq_false_2 (Some k = Some e)) by congruence. apply wp_ret, wp_ret. right. split; [done|].
    eexists e, v, d, _. do 4 (split; [done|]). split; [exact Hes|]. do 2 (split; [done|]). rewrite bool_decide_false by done.
    do 2 (split; [done|]). split; [exact Hfl|]. split; [etrans; [|exact Hf]; by constructor|]. split; [done|]. split; [exact Hrest|].
    exists fl', O'. split; [|exact Htf].
    eapply (calling_freed s1 s2 fl fl' D O O' e d v _ H1 Hek Hv Hst Hpg); [|exact Hf|exact Hes|exact HI']. done.
Qed.

Lemma env_destroy_goes_on s fl D O l envid : kernel_ok s fl D O l -> ~ names s k envid true k -> wp (sys_env_destroy envid) goes_on s.
Proof.
  intros H Hn. pose proof H as [Hca [Hkv Hkr Hused Hemp] HD HO _ Hch Hnd Hfr Hv].
  pose proof (vi_np (ca_inv _ _ _ _ _ _ Hca)) as Hnp.
  eapply wp_mono; [by apply (sys_env_destroy_wp s fl D O envid); [..|lia]|].
  intros r s' [(-> & -> & _)|(-> & e & v & d & v' & Hn' & Hek & He & Hpg & Hes & Hid & Hdst & Hc)]; [finish|].
  destruct (names_live _ _ _ _ _ _ _ Hca Hn') as (Her & w & Hw & Hst). rewrite He in Hw. injection Hw as <-.
  assert (e ∉ l) as Hel. { intros Hin. apply Hfr in Hin as (_ & w & Hw & Hs). congruence. }
  case_bool_decide as Hrun.
  - destruct Hc as (Hst' & Hf & Hpm & H'). assert (kernel_ok s' fl D O l); [|finish].
    eapply kernel_ok_env; try done; [by rewrite Hpm|by rewrite Hst'].
  - destruct Hc as (Hst' & Hlk & Hh & Hef & HdD & Hrest & fl' & O' & H' & Htf).
    assert (kernel_ok s' fl' (D ∖ {[d]}) O' (e :: l)); [|finish].
    apply (kernel_ok_step s s' fl fl' D _ O O' l _ H H').
    + apply (ef_kern_pgdir _ _ Hef).
    + apply (ef_npages _ _ Hef).
    + by intros [? _]%elem_of_difference.
    + by rewrite Htf, HO.
    + intros i. apply Hrest; [by intros ->|]. intros j. by rewrite HO.
    + cbn. split; [done|]. exists v'. rewrite Hes, lookup_insert_eq, Hlk. split; [done|]. by apply echain_insert.
    + by constructor.
    + intros x. rewrite Hes, elem_of_cons. destruct (decide (x = e)) as [->|Hx].
      * rewrite lookup_insert_eq. split; [|by left]. intros _. split; [done|]. by exists v'.
      * rewrite lookup_insert_ne by done. rewrite <- Hfr. naive_solver.
    + intros i w. rewrite Hes. intros [[<- <-]|[_ Hw]]%lookup_insert_Some; [rewrite Hid, Hdst|]; by eapply Hv.
Qed.

(** C5: the system calls keep the invariant of the whole kernel.  From a state in
    order - reference counts exact, no page lost or doubly owned, every environment in
    use with an address space of its own, the kernel's directory untouched, every free
    environment on the free list once - a call that allocates, maps, unmaps, forks,
    sends, or sets up or destroys another environment returns a 32-bit result and leaves
    such a state again, so that what is asked of the next call is asked of its arguments
    only.  The arguments covered are those [call_ok] allows: the page mapped from
    or sent is mapped, and fewer than 65535 times; the page unmapped is mapped or has no
    page table; the environment destroyed is not the caller.  On the excluded
    ones the code itself goes wrong (see [sys_page_map_uninitialised] and
    [page_remove_unmapped]) or does not return. *)
Theorem syscall_keeps_invariant s fl D O l n a1 a2 a3 a4 a5 :
  kernel_ok s fl D O l -> 0 <= a1 < 2 ^ 32 -> 0 <= a2 < 2 ^ 32 -> 0 <= a3 < 2 ^ 32 -> 0 <= a4 < 2 ^ 32 ->
  call_ok s D n a1 a2 a3 -> wp (syscall n a1 a2 a3 a4 a5) goes_on s.
Proof.
  intros H H1 H2 H3 H4. unfold call_ok, syscall. destruct (sysno_of n) as [[]|]; try done; intros Hok.
  - by eapply getenvid_goes_on.
  - by eapply env_destroy_goes_on.
  - by eapply page_alloc_goes_on.
  - by eapply page_map_goes_on.
  - by eapply page_unmap_goes_on.
  - by eapply exofork_goes_on.
  - by eapply set_status_goes_on.
  - by eapply set_upcall_goes_on.
  - eapply ipc_try_send_goes_on; [done|lia|done..].
  - apply wp_ret. finish.
Qed.
End Dispatch.

(** Neither reads the environment table. *)
Lemma put_envs_inv base s fl D O m : vm_inv base s fl D O -> vm_inv base (put envs m s) fl D O.
Proof. intros H. by apply (vm_inv_proj base s). Qed.

Lemma put_envs_kern s fl f m : kern_pgdir_ok s fl f -> kern_pgdir_ok (put envs m s) fl f.
Proof. intros []. by constructor. Qed.

(** [fork_demo] with every slot but the caller's on the free list. *)
Definition linked_env (i : Z) : Env := put env_link (if i + 1 <? NENV then Some (i + 1) else None) (table_env [] i).
Definition linked_envs : gmap Z Env := map_imap (fun i _ => Some (linked_env i)) (env_table []).
Definition chain_demo : kstate := put envs (<[0 := call_env]> linked_envs) fork_demo.

Lemma chain_demo_env i v : envs chain_demo !! i = Some v ->
  0 <= i < NENV /\ v = if decide (i = 0) then call_env else linked_env i.
Proof.
  unfold chain_demo. kred. intros [[<- <-]|[Hne Hv]]%lookup_insert_Some; [by rewrite decide_True|].
  rewrite decide_False by done. unfold linked_envs in Hv. rewrite map_lookup_imap in Hv.
  destruct (env_table [] !! i) eqn:E; [|done]. cbn in Hv. injection Hv as <-. split; [by eapply env_table_dom|done].
Qed.

Lemma chain_demo_lookup i : 0 < i < NENV -> envs chain_demo !! i = Some (linked_env i).
Proof.
  intros Hi. unfold chain_demo. kred. rewrite lookup_insert_ne by lia. unfold linked_envs.
  by rewrite map_lookup_imap, env_table_lookup by lia.
Qed.

Lemma chain_demo_cur : envs chain_demo !! 0 = Some call_env.
Proof. unfold chain_demo. kred. apply lookup_insert_eq. Qed.

Lemma chain_demo_live i v : envs chain_demo !! i = Some v -> env_status v <> ENV_FREE -> i = 0 /\ v = call_env.
Proof. intros [_ ->]%chain_demo_env. case_decide; [done|by intros []]. Qed.

Lemma chain_demo_calling : calling boot_refs chain_demo [3; 4; 5] {[1]} ∅ 0.
Proof.
  pose proof fork_demo_calling as [Hi Hb _ Hc _ _ _]. constructor; [by apply put_envs_inv|exact Hb| |exact Hc|..].
  - constructor.
    + intros i Hr. destruct (decide (i = 0)) as [->|]; [rewrite chain_demo_cur|rewrite chain_demo_lookup by lia]; by eexists.
    + intros i v Hv Hs. by destruct (chain_demo_live i v Hv Hs) as [-> ->].
  - exists call_env. split; [apply chain_demo_cur|done].
  - intros i v Hv Hs. destruct (chain_demo_live i v Hv Hs) as [-> ->]. exists 1. split; [set_solver|done].
  - intros i j v w Hv Hw Hs Hs' _. by destruct (chain_demo_live i v Hv Hs) as [-> _], (chain_demo_live j w Hw Hs') as [-> _].
Qed.

Lemma chain_demo_chain n : (n < 1024)%nat ->
  echain (envs chain_demo) (if decide (n = 0)%nat then None else Some (1024 - Z.of_nat n)) (seqZ (1024 - Z.of_nat n) (Z.of_nat n)).
Proof.
  induction n as [|n IH]; intros Hn; [done|]. rewrite decide_False, seqZ_cons by lia. split; [done|].
  eexists. split; [apply chain_demo_lookup; lia|]. cbn [linked_env env_link put upd].
  replace (Z.succ (1024 - Z.of_nat (S n))) with (1024 - Z.of_nat n) by lia.
  replace (Z.pred (Z.of_nat (S n))) with (Z.of_nat n) by lia. specialize (IH ltac:(lia)).
  replace (1024 - Z.of_nat (S n) + 1) with (1024 - Z.of_nat n) by lia.
  destruct (Z.ltb_spec (1024 - Z.of_nat n) NENV); case_decide; try done; lia.
Qed.

Lemma chain_demo_list : echain (envs chain_demo) (env_free_list chain_demo) (seqZ 1 1023).
Proof.
  pose proof (chain_demo_chain (Z.to_nat 1023) ltac:(lia)) as H. rewrite Z2Nat.id, decide_False in H by lia. exact H.
Qed.

Lemma chain_demo_ok : kernel_ok (base := boot_refs) (k := 0) (kf := 0) chain_demo [3; 4; 5] {[1]} ∅ (seqZ 1 1023).
Proof.
  constructor.
  - exact chain_demo_calling.
  - apply put_envs_kern, (cf_kern _ _ _ fork_demo_can).
  - by intros ?%elem_of_singleton.
  - done.
  - done.
  - exact chain_demo_list.
  - apply NoDup_seqZ.
  - intros e. rewrite elem_of_seqZ. split.
    + intros He. split; [lia|]. eexists. by split; [apply chain_demo_lookup; lia|].
    + intros (He & v & [_ ->]%chain_demo_env & Hs). case_decide; [done|lia].
  - intros i v [Hi ->]%chain_demo_env. case_decide; cbn [env_id env_ipc_dstva call_env linked_env table_env put upd]; [lia|].
    change 0x1000 with (4 * 2 ^ 10). rewrite lor_shift_add by lia. lia.
Qed.

Lemma syscall_keeps_invariant_witness :
  exists r s', syscall 4 0 0x801000 7 0 0 chain_demo = Ret r s' /\ goes_on (base := boot_refs) (k := 0) (kf := 0) r s'.
Proof.
  apply wp_inv, (syscall_keeps_invariant chain_demo [3; 4; 5] {[1]} ∅ (seqZ 1 1023)); try lia.
  - exact chain_demo_ok.
  - exact I.
Defined.
