(* ===== verification/Trap.v ===== *)
(** * Traps: [kern/trap.c]

    The interrupt table, the entry [trap], dispatch, and the user page fault
    handler.  [trap] runs on the trap frame the processor pushed on the kernel
    stack; for a trap from user mode it copies it into the current environment
    and from then on uses that copy, so a pointer to a trap frame is one or the
    other ([tfptr]).  The start of [monitor] of [kern/monitor.c] is here as
    well, because a breakpoint enters it. *)

From Stdlib Require Import Lia ZArith ZifyClasses ZifyInst ZifyBool.
From stdpp Require Import base gmap list strings numbers.
From S2P Require Import Prelude Cmonad Mmu Printfmt Console State Spinlock Umem Pmap Lapic Env Syscall.

(** ** Trap numbers ([inc/trap.h]) *)

Definition T_DIVIDE : Z := 0.
Definition T_DEBUG : Z := 1.
Definition T_NMI : Z := 2.
Definition T_BRKPT : Z := 3.
Definition T_OFLOW : Z := 4.
Definition T_BOUND : Z := 5.
Definition T_ILLOP : Z := 6.
Definition T_DEVICE : Z := 7.
Definition T_DBLFLT : Z := 8.
Definition T_TSS : Z := 10.
Definition T_SEGNP : Z := 11.
Definition T_STACK : Z := 12.
Definition T_GPFLT : Z := 13.
Definition T_PGFLT : Z := 14.
Definition T_FPERR : Z := 16.
Definition T_ALIGN : Z := 17.
Definition T_MCHK : Z := 18.
Definition T_SIMDERR : Z := 19.
Definition T_SYSCALL : Z := 48.

Definition excnames : list string := [
  "Divide error"; "Debug"; "Non-Maskable Interrupt"; "Breakpoint"; "Overflow";
  "BOUND Range Exceeded"; "Invalid Opcode"; "Device Not Available"; "Double Fault";
  "Coprocessor Segment Overrun"; "Invalid TSS"; "Segment Not Present"; "Stack Fault";
  "General Protection"; "Page Fault"; "(unknown trap)"; "x87 FPU Floating-Point Error";
  "Alignment Check"; "Machine-Check"; "SIMD Floating-Point Exception" ]%string.

(** The comparison with [sizeof] is unsigned, the others are not. *)
Definition trapname (trapno : Z) : string :=
  match excnames !! Z.to_nat (u32 trapno) with
  | Some name => name
  | None =>
      if trapno =? T_SYSCALL then "System call"
      else if (IRQ_OFFSET <=? trapno) && (trapno <? IRQ_OFFSET + 16) then "Hardware Interrupt"
      else "(unknown trap)"
  end.

#[export] Instance eta_Segdesc : Eta Segdesc := fun r =>
  mkSegdesc (sd_lim_15_0 r) (sd_base_15_0 r) (sd_base_23_16 r) (sd_type r) (sd_s r) (sd_dpl r)
    (sd_p r) (sd_lim_19_16 r) (sd_avl r) (sd_rsv1 r) (sd_db r) (sd_g r) (sd_base_31_24 r).

Section Traps.
Context {machine : Machine}.

(** ** The interrupt table *)

Definition set_gate (n : Z) (istrap : bool) (dpl : Z) : K unit :=
  modify (upd idt (fun t => <[n := SETGATE istrap GD_KT (vector n) dpl]> t)).

(** Number, trap or interrupt gate, and privilege, in the order of the code. *)
Definition gates : list (Z * bool * Z) := [
  (T_DIVIDE, false, 0); (T_DEBUG, false, 0); (T_NMI, false, 0); (T_BRKPT, true, 3);
  (T_OFLOW, false, 0); (T_BOUND, false, 0); (T_ILLOP, false, 0); (T_DEVICE, false, 0);
  (T_DBLFLT, false, 0); (T_TSS, false, 0); (T_SEGNP, false, 0); (T_STACK, false, 0);
  (T_GPFLT, false, 0); (T_PGFLT, false, 0); (T_FPERR, false, 0); (T_ALIGN, false, 0);
  (T_MCHK, false, 0); (T_SIMDERR, false, 0); (T_SYSCALL, false, 3);
  (IRQ_OFFSET + 0, false, 0); (IRQ_OFFSET + 1, false, 0); (IRQ_OFFSET + 2, false, 0);
  (IRQ_OFFSET + 3, false, 0); (IRQ_OFFSET + 4, false, 0); (IRQ_OFFSET + 5, false, 0);
  (IRQ_OFFSET + 6, false, 0); (IRQ_OFFSET + 7, false, 0); (IRQ_OFFSET + 8, false, 0);
  (IRQ_OFFSET + 9, false, 0); (IRQ_OFFSET + 10, false, 0); (IRQ_OFFSET + 11, false, 0);
  (IRQ_OFFSET + 12, false, 0); (IRQ_OFFSET + 13, false, 0); (IRQ_OFFSET + 14, false, 0);
  (IRQ_OFFSET + 15, false, 0) ].

Fixpoint set_gates (l : list (Z * bool * Z)) : K unit :=
  match l with
  | [] => mret tt
  | (n, istrap, dpl) :: l' => set_gate n istrap dpl ;; set_gates l'
  end.

Definition sizeof_Taskstate : Z := 104.

Definition trap_init_percpu : K unit :=
  c ← get_thiscpu;
  let cpuid := cpu_id c in
  upd_thiscpu (put ts_esp0 (u32 (KSTACKTOP - cpuid * (KSTKSIZE + KSTKGAP)))) ;;
  upd_thiscpu (put ts_ss0 GD_KD) ;;
  cpu ← gets cpunum;
  if NCPU <=? cpuid then undef "outside the gdt array"
  else
    modify (upd gdt (fun t =>
      <[Z.shiftr GD_TSS0 3 + cpuid := SEG16 STS_T32A (cpu_ts_va cpu) (sizeof_Taskstate - 1) 0]> t)) ;;
    modify (upd gdt (fun t => alter (put sd_s 0) (Z.shiftr GD_TSS0 3 + cpuid) t)) ;;
    emit (EvLoad "tr" (GD_TSS0 + 8 * cpuid)) ;;
    emit (EvLoad "idt" (256 * 8 - 1)).

Definition trap_init : K unit := set_gates gates ;; trap_init_percpu.

(** ** Trap frames *)


Definition tf_addr (tf : tfptr) : K Z :=
  match tf with
  | TfStack _ => mret stack_tf_va
  | TfEnv e => base ← gets envs_va; mret (u32 (base + sizeof_Env * e))
  end.

Definition get_tf (tf : tfptr) : K Trapframe :=
  match tf with
  | TfStack v => mret v
  | TfEnv e => v ← get_env e; mret (env_tf v)
  end.

(** The frame on the stack is reached through [last_tf] only. *)
Definition upd_tf (tf : tfptr) (g : Trapframe -> Trapframe) : K unit :=
  match tf with
  | TfStack v => modify (put last_tf (Some (TfStack (g v))))
  | TfEnv e => upd_env e (upd env_tf g)
  end.

(** Is this the pointer [last_tf]?  There is one frame on the stack at a time. *)
Definition is_last (tf : tfptr) (last : option tfptr) : bool :=
  match tf, last with
  | TfEnv e, Some (TfEnv e') => e =? e'
  | TfStack _, Some (TfStack _) => true
  | _, _ => false
  end.

Definition print_regs (r : PushRegs) : K unit :=
  cprintln "  edi  0x%08x" [AInt (reg_edi r)] ;;
  cprintln "  esi  0x%08x" [AInt (reg_esi r)] ;;
  cprintln "  ebp  0x%08x" [AInt (reg_ebp r)] ;;
  cprintln "  oesp 0x%08x" [AInt (reg_oesp r)] ;;
  cprintln "  ebx  0x%08x" [AInt (reg_ebx r)] ;;
  cprintln "  edx  0x%08x" [AInt (reg_edx r)] ;;
  cprintln "  ecx  0x%08x" [AInt (reg_ecx r)] ;;
  cprintln "  eax  0x%08x" [AInt (reg_eax r)].

Definition print_trapframe (p : tfptr) : K unit :=
  addr ← tf_addr p;
  cpu ← gets cpunum;
  tf ← get_tf p;
  last ← gets last_tf;
  cprintln "TRAP frame at %p from CPU %d" [AInt addr; AInt cpu] ;;
  print_regs (tf_regs tf) ;;
  cprintln "  es   0x----%04x" [AInt (tf_es tf)] ;;
  cprintln "  ds   0x----%04x" [AInt (tf_ds tf)] ;;
  cprintln "  trap 0x%08x %s" [AInt (tf_trapno tf); pstr (trapname (s32 (tf_trapno tf)))] ;;
  when (is_last p last && (tf_trapno tf =? T_PGFLT)) (cprintln "  cr2  0x%08x" [AInt rcr2]) ;;
  cprintf "  err  0x%08x" [AInt (tf_err tf)] ;;
  (if tf_trapno tf =? T_PGFLT then
     cprintln " [%s, %s, %s]"
       [pstr (if tst (tf_err tf) 4 then "user" else "kernel");
        pstr (if tst (tf_err tf) 2 then "write" else "read");
        pstr (if tst (tf_err tf) 1 then "protection" else "not-present")]
   else cprintln "" []) ;;
  cprintln "  eip  0x%08x" [AInt (tf_eip tf)] ;;
  cprintln "  cs   0x----%04x" [AInt (tf_cs tf)] ;;
  cprintln "  flag 0x%08x" [AInt (tf_eflags tf)] ;;
  when (negb (Z.land (tf_cs tf) 3 =? 0))
    (cprintln "  esp  0x%08x" [AInt (tf_esp tf)] ;;
     cprintln "  ss   0x----%04x" [AInt (tf_ss tf)]).

(** The command loop of the monitor does not end: no command returns a
    negative number. *)
Definition monitor (tf : option tfptr) : K unit :=
  monitor_banner ;;
  match tf with Some tf => print_trapframe tf | None => mret tt end ;;
  stop InMonitor.

(** ** User page faults *)

Definition sizeof_UTrapframe : Z := 52.

(** Where the fault frame goes: below the frame of a fault in progress, with
    one free word between them, or at the top of the exception stack. *)
Definition utf_address (esp : Z) : Z :=
  if (UXSTACKTOP - PGSIZE <=? esp) && (esp <=? UXSTACKTOP - 1)
  then u32 (esp - sizeof_UTrapframe - 4)
  else UXSTACKTOP - sizeof_UTrapframe.

(** The words of [*utf], in the order of its fields. *)
Definition utf_words (u : UTrapframe) : list Z :=
  let r := utf_regs u in
  [utf_fault_va u; utf_err u;
   reg_edi r; reg_esi r; reg_ebp r; reg_oesp r; reg_ebx r; reg_edx r; reg_ecx r; reg_eax r;
   utf_eip u; utf_eflags u; utf_esp u].

Fixpoint uwrite_words (va : Z) (l : list Z) : K unit :=
  match l with
  | [] => mret tt
  | w :: l' => uwrite32 va w ;; uwrite_words (va + 4) l'
  end.

Definition page_fault_handler (p : tfptr) : K unit :=
  let fault_va := rcr2 in
  tf ← get_tf p;
  if Z.land (tf_cs tf) 3 =? 0 then panic "page fault happened in kernel"
  else
    c ← the_curenv;
    v ← get_env c;
    when (env_pgfault_upcall v =? NULL)
      (cprintln "[%08x] user fault va %08x ip %08x" [AInt (env_id v); AInt fault_va; AInt (tf_eip tf)] ;;
       print_trapframe p ;;
       env_destroy c) ;;
    let utf_addr := utf_address (tf_esp tf) in
    c ← the_curenv;
    user_mem_assert c utf_addr sizeof_UTrapframe PTE_W ;;
    uwrite_words utf_addr
      (utf_words (mkUTrapframe fault_va (tf_err tf) (tf_regs tf) (tf_eip tf) (tf_eflags tf) (tf_esp tf))) ;;
    c ← the_curenv;
    v ← get_env c;
    upd_tf p (put tf_eip (env_pgfault_upcall v)) ;;
    upd_tf p (put tf_esp utf_addr) ;;
    env_run c.

(** ** Dispatch *)

Definition trap_dispatch (p : tfptr) : K unit :=
  tf ← get_tf p;
  let n := tf_trapno tf in
  if n =? T_PGFLT then page_fault_handler p
  else if n =? T_BRKPT then monitor (Some p)
  else if n =? T_SYSCALL then
    let r := tf_regs tf in
    ret ← syscall (reg_eax r) (reg_edx r) (reg_ecx r) (reg_ebx r) (reg_edi r) (reg_esi r);
    upd_tf p (upd tf_regs (put reg_eax (u32 ret)))
  else if n =? IRQ_OFFSET + IRQ_SPURIOUS then
    cprintln "Spurious interrupt on irq 7" [] ;; print_trapframe p
  else if n =? IRQ_OFFSET + 0 then lapic_eoi ;; sched_yield
  else
    print_trapframe p ;;
    if tf_cs tf =? GD_KT then panic "unhandled trap in kernel"
    else c ← the_curenv; env_destroy c.

(** The frame pointer to go on with, after a trap from user mode. *)
Definition trap_from_user (tf : Trapframe) : K tfptr :=
  lock_kernel ;;
  cur ← curenv;
  assert (bool_decide (is_Some cur)) "assertion failed: curenv" ;;
  c ← the_curenv;
  v ← get_env c;
  when (bool_decide (env_status v = ENV_DYING)) (env_free c ;; set_curenv None ;; sched_yield) ;;
  c ← the_curenv;
  upd_env c (put env_tf tf) ;;
  mret (TfEnv c).

Definition trap (tf : Trapframe) : K unit :=
  panicked ← gets panicstr;
  when panicked (stop CpuHalt) ;;
  c ← get_thiscpu;
  upd_thiscpu (put cpu_status CPU_STARTED) ;;
  when (bool_decide (cpu_status c = CPU_HALTED)) lock_kernel ;;
  assert (negb (tst read_eflags FL_IF)) "assertion failed: !(read_eflags() & FL_IF)" ;;
  p ← (if Z.land (tf_cs tf) 3 =? 3 then trap_from_user tf else mret (TfStack tf));
  modify (put last_tf (Some p)) ;;
  trap_dispatch p ;;
  cur ← curenv;
  match cur with
  | Some c =>
      v ← get_env c;
      if bool_decide (env_status v = ENV_RUNNING) then env_run c else sched_yield
  | None => sched_yield
  end.
End Traps.
