(* ===== verification/Monitor.v ===== *)
(** * The kernel monitor ([kern/monitor.c])

    The command line is parsed in place in the buffer [readline] returns, a
    1024-byte memory of its own ([Str.mem], addresses from 0); an entry of
    [argv] is an address in it.  The literals, [WHITESPACE] and the names of the
    commands, are lists: [strchr] in the first is a test for membership, and
    [strcmp] with a name is [strcmp_name].

    A stack frame is read where the frame pointer says: on the kernel's stack
    ([kstack]), or below [ULIM] through the page tables, where a load of a page
    that is not mapped is a page fault in the kernel. *)

From Stdlib Require Import Lia ZArith ZifyClasses ZifyInst ZifyBool.
From stdpp Require Import base gmap list strings numbers.
From S2P Require Import Prelude Cmonad Mmu Printfmt Str Console Readline State Umem Env Trap.

(** ** Parsing *)

Definition WHITESPACE : list Z := [9; 13; 10; 32].
Definition MAXARGS : Z := 16.

Definition is_white (c : Z) : bool := negb (c =? 0) && existsb (Z.eqb c) WHITESPACE.

(** [while ( *buf && strchr(WHITESPACE, *buf)) *buf++ = 0]. *)
Fixpoint gobble (fuel : nat) (p : Z) : MM Z :=
  match fuel with
  | O => undef "no end"
  | S fuel' => c ← ld p; if is_white c then st p 0 ;; gobble fuel' (p + 1) else mret p
  end.

(** [while ( *buf && !strchr(WHITESPACE, *buf)) buf++]. *)
Fixpoint scan_arg (fuel : nat) (p : Z) : MM Z :=
  match fuel with
  | O => undef "no end"
  | S fuel' =>
      c ← ld p;
      if negb (c =? 0) && negb (existsb (Z.eqb c) WHITESPACE) then scan_arg fuel' (p + 1) else mret p
  end.

(** The parsing loop; [None] when there are too many arguments. *)
Fixpoint parse_loop (fuel : nat) (p : Z) (argv : list Z) : MM (option (list Z)) :=
  match fuel with
  | O => undef "no end"
  | S fuel' =>
      k ← rounds;
      p ← gobble k p;
      c ← ld p;
      if c =? 0 then mret (Some argv)
      else if Z.of_nat (length argv) =? MAXARGS - 1 then mret None
      else p' ← scan_arg k p; parse_loop fuel' p' (argv ++ [p])
  end.

Definition parse (buf : Z) : MM (option (list Z)) := k ← rounds; parse_loop k buf [].

(** [strcmp(p, name)]. *)
Fixpoint strcmp_name (p : Z) (name : list Z) : MM Z :=
  c ← ld p;
  match name with
  | [] => mret c
  | b :: name' =>
      if c =? 0 then mret (- b) else if c =? b then strcmp_name (p + 1) name' else mret (c - b)
  end.

(** What [%s] prints of the string at [p]. *)
Fixpoint read_string (fuel : nat) (p : Z) : MM (list Z) :=
  match fuel with
  | O => undef "no end"
  | S fuel' =>
      c ← ld p;
      if c =? 0 then mret [] else l ← read_string fuel' (p + 1); mret (c :: l)
  end.

(** The buffer is an object of its own beside the kernel's state. *)
Definition with_buf {A} (m : MM A) (buf : mem) : K (A * mem) :=
  match m buf with
  | Ret a buf' => mret (a, buf')
  | Stop x _ => match x with end
  | Panic msg _ => panic msg
  | Undef why => undef why
  end.

(** ** The commands *)

Section Monitor.
Context {machine : Machine}.
(** The most frames a chain has that [mon_backtrace] follows to its end; it
    does not return from a chain that has none. *)
Context (depth : nat).

Definition command_names : list (string * string) :=
  [("help", "Display this list of commands");
   ("kerninfo", "Display information about the kernel");
   ("backtrace", "print stack")]%string.

Fixpoint print_commands (l : list (string * string)) : K unit :=
  match l with
  | [] => mret tt
  | (name, desc) :: l' => cprintln "%s - %s" [pstr name; pstr desc] ;; print_commands l'
  end.

Definition mon_help : K Z := print_commands command_names ;; mret 0.

Definition mon_kerninfo : K Z :=
  cprintln "Special kernel symbols:" [] ;;
  cprintln "  _start                  %08x (phys)" [AInt start_sym] ;;
  cprintln "  entry  %08x (virt)  %08x (phys)" [AInt entry_sym; AInt (u32 (entry_sym - KERNBASE))] ;;
  cprintln "  etext  %08x (virt)  %08x (phys)" [AInt etext_sym; AInt (u32 (etext_sym - KERNBASE))] ;;
  cprintln "  edata  %08x (virt)  %08x (phys)" [AInt edata_sym; AInt (u32 (edata_sym - KERNBASE))] ;;
  cprintln "  end    %08x (virt)  %08x (phys)" [AInt end_sym; AInt (u32 (end_sym - KERNBASE))] ;;
  cprintln "Kernel executable memory footprint: %dKB"
    [AInt (Z.quot (s32 (ROUNDUP (end_sym - entry_sym) 1024)) 1024)] ;;
  mret 0.

Definition stack_word (va : Z) : K Z :=
  if ULIM <=? va then mret (kstack va) else read_le uload_byte 4 va.

Definition print_arg (ebp i : Z) : K unit :=
  v ← stack_word (u32 (ebp + 4 * (i + 2))); cprintf "%08x " [AInt v].

Fixpoint backtrace_loop (fuel : nat) (ebp eip : Z) : K unit :=
  if negb (ebp =? 0) then
    match fuel with
    | O => undef "the chain of frames has no end"
    | S fuel' =>
        cprintf "ebp %08x  eip %08x" [AInt ebp; AInt eip] ;;
        cprintf "    arg " [] ;;
        for_loop 5 0 1 (print_arg ebp) ;;
        cprintln "" [] ;;
        ebp ← stack_word ebp;
        eip ← stack_word (u32 (ebp + 4));
        backtrace_loop fuel' ebp eip
    end
  else mret tt.

Definition mon_backtrace : K Z :=
  eip ← stack_word (u32 (read_ebp + 4));
  cprintf "Stack backtrace:" [] ;;
  backtrace_loop depth read_ebp eip ;;
  mret 0.

(** [commands]; the functions ignore their arguments. *)
Definition commands : list (list Z * K Z) :=
  [(chars "help", mon_help); (chars "kerninfo", mon_kerninfo); (chars "backtrace", mon_backtrace)].

(** ** The interpreter *)

Fixpoint run_command (cmds : list (list Z * K Z)) (p : Z) (buf : mem) : K Z :=
  match cmds with
  | [] =>
      '(name, _) ← with_buf (read_string (S (size buf)) p) buf;
      cprintln "Unknown command '%s'" [AStr (Some name)] ;;
      mret 0
  | (name, func) :: cmds' =>
      '(r, _) ← with_buf (strcmp_name p name) buf;
      if r =? 0 then func else run_command cmds' p buf
  end.

Definition runcmd (buf : mem) : K (Z * mem) :=
  '(argv, buf) ← with_buf (parse 0) buf;
  r ← match argv with
      | None => cprintln "Too many arguments (max %d)" [AInt MAXARGS] ;; mret 0
      | Some [] => mret 0
      | Some (p :: _) => run_command commands p buf
      end;
  mret (r, buf).

(** The kernel's [getchar], [cputchar] and [cprintf]. *)
#[export] Instance kernel_io : CharIO kstate leave := {|
  getchar := with_cons (cons_getchar InMonitor);
  putchar := fun c => with_cons (cputchar c);
  Readline.cprintf := State.cprintf;
  iscons := true
|}.

(** Each round reads at least one character: [S k] rounds for [k] characters. *)
Fixpoint monitor_loop (fuel k : nat) (buf : mem) : K unit :=
  match fuel with
  | O => undef "out of fuel"
  | S fuel' =>
      '(ok, buf) ← (readline k (Some (chars "K> ")) buf : K (bool * gmap Z Z));
      if (ok : bool) then
        '(r, buf) ← runcmd buf;
        if r <? 0 then mret tt else monitor_loop fuel' k buf
      else monitor_loop fuel' k buf
  end.

Definition monitor (k : nat) (tf : option tfptr) (buf : mem) : K unit :=
  monitor_banner ;;
  match tf with Some tf => print_trapframe tf | None => mret tt end ;;
  monitor_loop (S k) k buf.
End Monitor.

(** [static char buf[BUFLEN]] before its first use. *)
Definition buf0 : mem := list_to_map ((fun i : Z => (i, 0)) <$> seqZ 0 BUFLEN).
