(* ===== verification/MonitorSpec.v ===== *)
(** * Properties of the kernel monitor *)

From Stdlib Require Import Lia ZArith ZifyClasses ZifyInst ZifyBool.
From stdpp Require Import base gmap list strings numbers.
From S2P Require Import Prelude Cmonad Mmu Printfmt Str StrSpec Console Readline State Umem Env Trap Monitor.

(** ** The words of a line *)

Definition white (c : Z) : bool := existsb (Z.eqb c) WHITESPACE.
#[local] Arguments white : simpl never.

(** [w] is the word being read, last character first. *)
Fixpoint words_from (w l : list Z) : list (list Z) :=
  match l with
  | [] => match w with [] => [] | _ => [rev w] end
  | c :: l' =>
      if white c then match w with [] => [] | _ => [rev w] end ++ words_from [] l'
      else words_from (c :: w) l'
  end.

Definition words (l : list Z) : list (list Z) := words_from [] l.

Fixpoint drop_white (l : list Z) : list Z :=
  match l with c :: l' => if white c then drop_white l' else l | [] => [] end.
Fixpoint word_of (l : list Z) : list Z :=
  match l with c :: l' => if white c then [] else c :: word_of l' | [] => [] end.
Fixpoint after_word (l : list Z) : list Z :=
  match l with c :: l' => if white c then l else after_word l' | [] => [] end.

Lemma words_from_word w l : w <> [] -> words_from w l = (rev w ++ word_of l) :: words (after_word l).
Proof.
  revert w. induction l as [|c l IH]; intros [|x w] Hw; try done; cbn [words_from word_of after_word].
  - by rewrite app_nil_r.
  - destruct (white c) eqn:Hc; [by rewrite app_nil_r; unfold words; cbn [words_from]; rewrite Hc|].
    rewrite IH by done. cbn [rev]. by rewrite <- !app_assoc.
Qed.

Lemma words_drop l : words l = words (drop_white l).
Proof.
  induction l as [|c l IH]; [done|]. cbn [drop_white]. destruct (white c) eqn:Hc; [|done].
  unfold words at 1. cbn [words_from]. by rewrite Hc.
Qed.

Lemma words_cons c l : white c = false -> words (c :: l) = (c :: word_of l) :: words (after_word l).
Proof. intros Hc. unfold words. cbn [words_from]. rewrite Hc. by rewrite words_from_word. Qed.

Lemma length_drop_white l : (length (drop_white l) <= length l)%nat.
Proof. induction l as [|c l IH]; cbn; [lia|]. destruct (white c); cbn; lia. Qed.

Lemma word_after l : l = word_of l ++ after_word l.
Proof. induction l as [|c l IH]; [done|]. cbn. destruct (white c); [done|]. cbn. by rewrite <- IH. Qed.

(** ** Parsing *)

Lemma is_white_eq c : is_white c = white c.
Proof. unfold is_white, white. destruct (Z.eqb_spec c 0) as [->|]; done. Qed.

Lemma cstr_ext m m' a l : (forall i, a <= i <= a + Z.of_nat (length l) -> m' !! i = m !! i) -> cstr m a l -> cstr m' a l.
Proof.
  revert a. induction l as [|b l IH]; intros a H; cbn [cstr length] in *.
  - by rewrite H by lia.
  - intros (Hb & Hr & Hl). split; [by rewrite H by lia|]. split; [done|]. apply IH; [|done]. intros i Hi. apply H. lia.
Qed.

Lemma cstr_head m a l : cstr m a l -> m !! a = Some (match l with [] => 0 | b :: _ => b end).
Proof. destruct l; [done|]. by intros [H _]. Qed.

Lemma gobble_eq m p l k : cstr m p l -> (length l < k)%nat ->
  let q := p + Z.of_nat (length l) - Z.of_nat (length (drop_white l)) in
  exists m', gobble k p m = Ret q m' /\ cstr m' q (drop_white l) /\
    (forall a, ~ p <= a < q -> m' !! a = m !! a) /\ (p < q -> m' !! p = Some 0).
Proof.
  revert p m k. induction l as [|c l IH]; intros p m k Hl Hk; (destruct k as [|k]; [cbn in Hk; lia|]); cbn [gobble drop_white length].
  - exists m. erewrite bind_Ret by (by apply ld_eq). rewrite Z.add_0_r, Z.sub_0_r. split_and!; [done|done|done|lia].
  - destruct Hl as (Hc & Hc0 & Hl). erewrite bind_Ret by (by apply ld_eq). rewrite is_white_eq. destruct (white c) eqn:Hw.
    + erewrite bind_Ret by (by apply st_eq). pose proof (length_drop_white l).
      destruct (IH (p + 1) (<[p := u8 0]> m) k) as (m' & Hm & Hs & Ho & _); [|cbn in Hk; lia|].
      { eapply cstr_ext; [|exact Hl]. intros i Hi. rewrite lookup_insert_ne by lia. done. }
      replace (p + Z.of_nat (S (length l)) - Z.of_nat (length (drop_white l)))
        with (p + 1 + Z.of_nat (length l) - Z.of_nat (length (drop_white l))) by lia.
      exists m'. split_and!; [done|done| |].
      * intros a Ha. rewrite Ho by lia. rewrite lookup_insert_ne by lia. done.
      * intros _. rewrite Ho by lia. apply lookup_insert_eq.
    + exists m. cbn [length]. rewrite Z.add_simpl_r. split_and!; [done|by cbn|done|lia].
Qed.

Lemma scan_arg_eq m p l k : cstr m p l -> (length l < k)%nat ->
  scan_arg k p m = Ret (p + Z.of_nat (length (word_of l))) m /\ cstr m (p + Z.of_nat (length (word_of l))) (after_word l).
Proof.
  revert p k. induction l as [|c l IH]; intros p k Hl Hk; (destruct k as [|k]; [cbn in Hk; lia|]); cbn [scan_arg word_of after_word].
  - erewrite bind_Ret by (by apply ld_eq). cbn [Z.eqb negb andb]. rewrite Z.add_0_r. done.
  - pose proof Hl as (Hc & Hc0 & Hl'). erewrite bind_Ret by (by apply ld_eq). fold (white c).
    destruct (Z.eqb_spec c 0); [lia|]. destruct (white c); cbn [negb andb length].
    + by rewrite Z.add_0_r.
    + destruct (IH (p + 1) k) as [-> H]; [done|cbn in Hk; lia|].
      by replace (p + Z.of_nat (S (length (word_of l)))) with (p + 1 + Z.of_nat (length (word_of l))) by lia.
Qed.

Definition parsed (m : mem) (argv : list Z) (ws : list (list Z)) (r : option (list Z)) : Prop :=
  match r with
  | Some argv' => (length argv + length ws <= 15)%nat /\ exists ps, argv' = argv ++ ps /\ Forall2 (cstr m) ps ws
  | None => (15 < length argv + length ws)%nat
  end.

Lemma after_word_head l b l' : after_word l = b :: l' -> white b = true.
Proof. induction l as [|c l IH]; [done|]. cbn. destruct (white c) eqn:Hc; [by intros [= <- _]|done]. Qed.

Lemma parse_loop_eq m p l k argv : cstr m p l -> (length l < k)%nat -> (length argv <= 15)%nat ->
  exists r m', parse_loop k p argv m = Ret r m' /\ parsed m' argv (words l) r /\
    (forall a, a < p -> m' !! a = m !! a) /\
    (r <> None -> match l with [] => True | b :: _ => white b = true end -> m' !! p = Some 0).
Proof.
  revert m p l argv. induction k as [|k IH]; intros m p l argv Hl Hk Hargv; [lia|]. cbn [parse_loop].
  erewrite bind_Ret by reflexivity.
  destruct (gobble_eq m p l (S (size m)) Hl) as (m1 & Hg & Hd & Ho & H0); [pose proof (cstr_rounds _ _ _ Hl); lia|].
  cbv zeta in Hg. erewrite bind_Ret by exact Hg. set (q := p + _ - _) in *. rewrite words_drop.
  pose proof (length_drop_white l) as Hlen. erewrite bind_Ret by (apply ld_eq, (cstr_head _ _ _ Hd)).
  assert (match l with [] => True | b :: _ => white b = true end -> m1 !! p = Some 0) as Hzero.
  { destruct l as [|b l0]; [intros _; rewrite Ho by (unfold q; cbn; lia); exact Hl|]. intros Hb. apply H0. unfold q. cbn [drop_white length].
    rewrite Hb. pose proof (length_drop_white l0). lia. }
  destruct (drop_white l) as [|c d] eqn:Hdw.
  { exists (Some argv), m1. split; [done|]. split; [split; [cbn; lia|exists []; by rewrite app_nil_r]|].
    split; [intros a Ha; apply Ho; lia|by intros _]. }
  assert (white c = false) as Hc.
  { clear -Hdw. induction l as [|b l IHl]; [done|]. cbn in Hdw. destruct (white b) eqn:Hb; [auto|congruence]. }
  assert (0 < c < 256) as Hc0 by apply Hd. destruct (Z.eqb_spec c 0); [lia|].
  rewrite words_cons by done. destruct (Z.eqb_spec (Z.of_nat (length argv)) (MAXARGS - 1)) as [Hmax|Hmax].
  { exists None, m1. split; [done|]. split; [unfold parsed, MAXARGS in *; cbn [length]; lia|].
    split; [intros a Ha; apply Ho; lia|done]. }
  destruct (scan_arg_eq m1 q (c :: d) (S (size m)) Hd) as [Hs Hrest].
  { pose proof (cstr_rounds _ _ _ Hl). cbn [length] in *. lia. }
  erewrite bind_Ret by exact Hs. cbn [word_of after_word] in *. rewrite Hc in *. set (q' := q + _) in *.
  assert (length d = length (word_of d) + length (after_word d))%nat as Hsum by (rewrite (word_after d) at 1; apply length_app).
  destruct (IH m1 q' (after_word d) (argv ++ [q]) Hrest) as (r & m2 & Hr & Hp & Hout & Hend).
  { cbn [length] in *. lia. }
  { rewrite length_app. unfold MAXARGS in Hmax. cbn [length]. lia. }
  assert (p <= q) as Hpq by (unfold q; lia). assert (q < q') as Hqq' by (unfold q'; cbn [length]; lia).
  exists r, m2. split; [exact Hr|]. split; [|split].
  - unfold parsed in *. rewrite !length_app in Hp. cbn [length] in *. destruct r as [argv'|]; [|lia].
    destruct Hp as (Hp & ps & -> & Hps). split; [lia|]. exists (q :: ps). rewrite <- app_assoc. split; [done|].
    constructor; [|done]. apply cstr_intro.
    + intros i b Hi. assert ((c :: d) !! i = Some b) as Hi' by (rewrite (word_after d); by apply (lookup_app_l_Some (c :: word_of d))).
      destruct (cstr_lookup _ _ _ _ _ Hd Hi') as [Hb Hb0]. split; [|done]. rewrite Hout; [done|].
      apply lookup_lt_Some in Hi. cbn [length] in Hi. unfold q'. lia.
    + change (m2 !! q' = Some 0). apply Hend; [done|]. destruct (after_word d) as [|b l'] eqn:Haw; [done|].
      by apply (after_word_head d b l').
  - intros a Ha. rewrite Hout by lia. apply Ho. lia.
  - intros Hne Hb. destruct (decide (p < q)) as [Hlt|Hge].
    + rewrite Hout by lia. auto.
    + exfalso. apply Hge. unfold q. destruct l as [|b l0]; [done|]. cbn [drop_white] in Hdw. rewrite Hb in Hdw.
      pose proof (length_drop_white l0) as H. rewrite Hdw in H. cbn [length] in *. lia.
Qed.

(** The command line at [p], parsed: [argv] has the words of the line as C
    strings, or there are more than fifteen. *)
Lemma parse_eq m p l : cstr m p l ->
  exists r m', parse p m = Ret r m' /\ parsed m' [] (words l) r /\ (forall a, a < p -> m' !! a = m !! a).
Proof.
  intros H. destruct (parse_loop_eq m p l (S (size m)) [] H) as (r & m' & Hr & Hp & Ho & _).
  - pose proof (cstr_rounds _ _ _ H). lia.
  - cbn. lia.
  - exists r, m'. by split.
Qed.

(** ** Running a command *)

Lemma strcmp_name_eq m p l name : cstr m p l -> Forall (fun b => b <> 0) name ->
  exists r, strcmp_name p name m = Ret r m /\ (r = 0 <-> l = name).
Proof.
  intros Hl Hn. revert p l Hl. induction Hn as [|b name Hb Hn IH]; intros p l Hl; cbn [strcmp_name];
    (erewrite bind_Ret by (apply ld_eq, (cstr_head _ _ _ Hl))).
  - eexists. split; [done|]. destruct l as [|c l]; [done|]. destruct Hl as (_ & Hc & _). split; [lia|done].
  - destruct l as [|c l].
    + exists (- b). split; [done|]. split; [lia|done].
    + destruct Hl as (_ & Hc & Hl). destruct (Z.eqb_spec c 0); [lia|]. destruct (Z.eqb_spec c b) as [->|Hne].
      * destruct (IH _ _ Hl) as (r & Hr & Heq). exists r. split; [done|]. rewrite Heq. split; [congruence|by intros [= ->]].
      * exists (c - b). split; [done|]. split; [lia|congruence].
Qed.

Lemma read_string_eq m p l k : cstr m p l -> (length l < k)%nat -> read_string k p m = Ret l m.
Proof.
  revert p k. induction l as [|c l IH]; intros p k Hl Hk; (destruct k as [|k]; [cbn in Hk; lia|]); cbn [read_string];
    (erewrite bind_Ret by (apply ld_eq, (cstr_head _ _ _ Hl))); [done|].
  destruct Hl as (_ & Hc & Hl). destruct (Z.eqb_spec c 0); [lia|].
  by erewrite bind_Ret by (apply IH; [done|cbn in Hk; lia]).
Qed.

Lemma with_buf_eq {A} (m : MM A) buf a buf' s : m buf = Ret a buf' -> with_buf m buf s = Ret (a, buf') s.
Proof. unfold with_buf. by intros ->. Qed.

Section Commands.
Context {machine : Machine} (depth : nat).

(** What a line does: the word that comes first selects the command. *)
Definition command_of (ws : list (list Z)) : K Z :=
  if bool_decide (15 < length ws)%nat then cprintln "Too many arguments (max %d)" [AInt MAXARGS] ;; mret 0
  else match ws with
  | [] => mret 0
  | w :: _ =>
      if bool_decide (w = chars "help") then mon_help
      else if bool_decide (w = chars "kerninfo") then mon_kerninfo
      else if bool_decide (w = chars "backtrace") then mon_backtrace depth
      else cprintln "Unknown command '%s'" [AStr (Some w)] ;; mret 0
  end.

Lemma run_command_eq m p w s : cstr m p w ->
  run_command (commands depth) p m s =
    (if bool_decide (w = chars "help") then mon_help
     else if bool_decide (w = chars "kerninfo") then mon_kerninfo
     else if bool_decide (w = chars "backtrace") then mon_backtrace depth
     else cprintln "Unknown command '%s'" [AStr (Some w)] ;; mret 0) s.
Proof.
  intros Hw. unfold commands.
  assert (forall name f cmds, Forall (fun b => b <> 0) name ->
    run_command ((name, f) :: cmds) p m s = (if bool_decide (w = name) then f else run_command cmds p m) s) as Hstep.
  { intros name f cmds Hn. destruct (strcmp_name_eq m p w name Hw Hn) as (r & Hr & Heq). cbn [run_command].
    erewrite bind_Ret by (by apply with_buf_eq). cbv iota beta. destruct (Z.eqb_spec r 0) as [->|Hne].
    - by rewrite bool_decide_eq_true_2 by (by apply Heq).
    - rewrite bool_decide_eq_false_2; [done|]. intros Hw2. apply Hne. by apply Heq. }
  rewrite Hstep by (repeat (constructor; [done|]); constructor). case_bool_decide; [done|].
  rewrite Hstep by (repeat (constructor; [done|]); constructor). case_bool_decide; [done|].
  rewrite Hstep by (repeat (constructor; [done|]); constructor). case_bool_decide; [done|]. cbn [run_command].
  pose proof (cstr_rounds _ _ _ Hw).
  by erewrite bind_Ret by (apply with_buf_eq, read_string_eq; [exact Hw|lia]).
Qed.

Lemma runcmd_eq buf line s : cstr buf 0 line ->
  exists buf', runcmd depth buf s = (r ← command_of (words line); mret (r, buf')) s.
Proof.
  intros Hl. destruct (parse_eq buf 0 line Hl) as (r & buf' & Hr & Hp & _). exists buf'. unfold runcmd.
  erewrite bind_Ret by (by apply with_buf_eq). unfold command_of, parsed in *. destruct r as [argv|].
  - destruct Hp as (Hlen & ps & -> & Hps). rewrite bool_decide_eq_false_2 by (cbn in Hlen; lia). cbn [app].
    destruct Hps as [|p w ps ws Hpw _]; [done|]. unfold mbind, M_bind. by rewrite (run_command_eq buf' p w s Hpw).
  - by rewrite bool_decide_eq_true_2 by exact Hp.
Qed.

(** Whatever the line in the buffer, [runcmd] splits it at white space into
    words in place, with no more than fifteen of them runs the command the first
    word names or says that there is none, and with more complains.  Nothing
    outside the buffer is written. *)
Theorem runcmd_correct buf line s : cstr buf 0 line ->
  exists buf', runcmd depth buf s = (r ← command_of (words line); mret (r, buf')) s.
Proof. apply runcmd_eq. Qed.
End Commands.

(** ** The end of the stack *)

(** The trace with [evs] more, newest first. *)
Definition say (evs : list event) (s : kstate) : kstate := upd trace (app evs) s.

Lemma say_say e1 e2 s : say e1 (say e2 s) = say (e1 ++ e2) s.
Proof. unfold say. destruct s. cbn. unfold upd. cbn. by rewrite app_assoc. Qed.

Lemma cprintf_say fmt args s : State.cprintf fmt args s = Ret tt (say [EvPrint fmt args] s).
Proof. done. Qed.

Section Backtrace.
Context {machine : Machine}.

(** A chain of [n] frames on the kernel's stack, the last with a null link. *)
Fixpoint frames (n : nat) (ebp : Z) : Prop :=
  match n with
  | O => ebp = 0
  | S n' => ULIM <= ebp /\ ebp + 28 < 2 ^ 32 /\ frames n' (kstack ebp)
  end.

(** What is printed for them, newest first. *)
Definition frame_lines (ebp : Z) : list event :=
  EvPrint nl [] ::
  rev ((fun k => EvPrint "%08x " [AInt (kstack (ebp + 4 * (Z.of_nat k + 2)))]) <$> seq 0 5) ++
  [EvPrint "    arg " []; EvPrint "ebp %08x  eip %08x" [AInt ebp; AInt (kstack (ebp + 4))]].

Fixpoint backtrace_lines (n : nat) (ebp : Z) : list event :=
  match n with O => [] | S n' => backtrace_lines n' (kstack ebp) ++ frame_lines ebp end.

Lemma stack_word_kernel va s : ULIM <= va -> stack_word va s = Ret (kstack va) s.
Proof. intros H. unfold stack_word. by destruct (Z.leb_spec ULIM va); [|lia]. Qed.

Lemma null_frame_faults evs s : mmu_translate s 4 false = None ->
  stack_word (u32 (0 + 4)) (say evs s) = Panic "page fault happened in kernel" (say evs s).
Proof.
  intros H. unfold stack_word. change (u32 (0 + 4)) with 4. cbn [Z.leb Z.compare].
  change (ULIM <=? 4) with false. cbv iota. unfold read_le, mbind, M_bind, uload_byte.
  change (u32 4) with 4. change (mmu_translate (say evs s) 4 false) with (mmu_translate s 4 false). by rewrite H.
Qed.

Lemma print_args_eq ebp s : ULIM <= ebp -> ebp + 28 < 2 ^ 32 ->
  for_loop 5 0 1 (print_arg ebp) s =
    Ret tt (say (rev ((fun k => EvPrint "%08x " [AInt (kstack (ebp + 4 * (Z.of_nat k + 2)))]) <$> seq 0 5)) s).
Proof.
  intros Hu He. pose proof (ltac:(vm_compute; done) : ULIM = 0xef800000) as HU. rewrite HU in Hu.
  assert (forall j s', 0 <= j < 5 -> print_arg ebp j s' =
      Ret tt (say [EvPrint "%08x " [AInt (kstack (ebp + 4 * (j + 2)))]] s')) as Hp.
  { intros j s' Hj. unfold print_arg. rewrite u32_id by lia.
    by erewrite bind_Ret by (apply stack_word_kernel; lia). }
  cbn [for_loop]. do 5 erewrite bind_Ret by (apply Hp; lia). unfold mret, M_ret. by rewrite !say_say.
Qed.

Lemma backtrace_loop_eq n ebp fuel s : frames (S n) ebp -> (n < fuel)%nat -> mmu_translate s 4 false = None ->
  backtrace_loop fuel ebp (kstack (ebp + 4)) s =
    Panic "page fault happened in kernel" (say (backtrace_lines (S n) ebp) s).
Proof.
  pose proof (ltac:(vm_compute; done) : ULIM = 0xef800000) as HU.
  revert ebp fuel s. induction n as [|n IH]; intros ebp fuel s Hf Hn Hm; (destruct fuel as [|fuel]; [lia|]);
    destruct Hf as (Hu & He & Hf); cbn [backtrace_loop];
    (destruct (Z.eqb_spec ebp 0); [lia|]); cbn [negb];
    do 2 erewrite bind_Ret by apply cprintf_say; (erewrite bind_Ret by (by apply print_args_eq));
    erewrite bind_Ret by apply cprintf_say; rewrite !say_say; erewrite bind_Ret by (by apply stack_word_kernel);
    change (([EvPrint (String.app "" nl) []] ++ _ ++ [EvPrint "    arg " []] ++ _)) with (frame_lines ebp).
  - cbn [frames] in Hf. rewrite Hf. unfold mbind at 1, M_bind at 1. rewrite null_frame_faults by done.
    cbn [backtrace_lines]. by rewrite app_nil_l.
  - pose proof Hf as (Hu' & He' & _). rewrite (u32_id (kstack ebp + 4)) by lia.
    erewrite bind_Ret by (apply stack_word_kernel; lia).
    rewrite (IH (kstack ebp) fuel) by (done || lia). by rewrite say_say.
Qed.

Lemma mon_backtrace_eq depth n s :
  frames (S n) read_ebp -> (n < depth)%nat -> mmu_translate s 4 false = None ->
  mon_backtrace depth s =
    Panic "page fault happened in kernel" (say (backtrace_lines (S n) read_ebp ++ [EvPrint "Stack backtrace:" []]) s).
Proof.
  intros Hf Hn Hm. pose proof Hf as (Hu & He & _). unfold mon_backtrace.
  pose proof (ltac:(vm_compute; done) : ULIM = 0xef800000) as HU. rewrite u32_id by lia.
  erewrite bind_Ret by (apply stack_word_kernel; lia). erewrite bind_Ret by apply cprintf_say.
  unfold mbind, M_bind. rewrite (backtrace_loop_eq n) by done. by rewrite say_say.
Qed.

(** [mon_backtrace] prints every frame of the kernel's stack with its five
    arguments, but having followed the null link of the last one it reads the
    return address of the frame it is not in, at address 4: unless the page at 0
    is mapped, the command ends in a page fault in the kernel, that is a panic. *)
Theorem mon_backtrace_faults depth n s :
  frames (S n) read_ebp -> (n < depth)%nat -> mmu_translate s 4 false = None ->
  mon_backtrace depth s =
    Panic "page fault happened in kernel" (say (backtrace_lines (S n) read_ebp ++ [EvPrint "Stack backtrace:" []]) s).
Proof. apply mon_backtrace_eq. Qed.
End Backtrace.

(** [small_machine] with two frames on the stack. *)
Definition two_frames : Machine := {|
  end_sym := 0xf0200000; percpu_kstacks := fun i => 0xf0100000 + i * KSTKSIZE;
  bootstack := 0xf0110000; cpu_ts_va := fun i => 0xf0180000 + i * 128;
  vector := fun n => u32 (0xf0103000 + n * 16); cmos := fun _ => 0;
  read_ebp := 0xf0117f00;
  kstack := fun va => if va =? 0xf0117f00 then 0xf0117f80 else if va =? 0xf0117f80 then 0 else va / 16;
  stack_tf_va := 0xefffffbc;
  rcr2 := 0xdeadb000; read_eflags := 0; rcr0 := 0x80010011; lapic_read := fun _ => 0;
  mpentry_code := []; edata_sym := 0xf0130000; etext_sym := 0xf0108000;
  entry_sym := 0xf010000c; start_sym := 0x0010000c
|}.

Lemma mon_backtrace_faults_witness :
  exists s', mon_backtrace (machine := two_frames) 10 (blank 16) = Panic "page fault happened in kernel" s' /\
    length (trace s') = 17%nat.
Proof.
  eexists. split.
  - apply (mon_backtrace_faults (machine := two_frames) 10 1 (blank 16)).
    + vm_compute. repeat split; discriminate.
    + lia.
    + vm_compute. reflexivity.
  - vm_compute. reflexivity.
Defined.

Lemma runcmd_correct_witness :
  let buf := list_to_map [(0, 32); (1, 104); (2, 105); (3, 9); (4, 120); (5, 0)] in
  exists buf', runcmd (machine := small_machine) 10 buf (blank 16) =
    (cprintln "Unknown command '%s'" [AStr (Some [104; 105])] ;; mret (0, buf')) (blank 16).
Proof.
  cbv zeta. destruct (runcmd_correct (machine := small_machine) 10
    (list_to_map [(0, 32); (1, 104); (2, 105); (3, 9); (4, 120); (5, 0)]) [32; 104; 105; 9; 120] (blank 16)) as [buf' H].
  - cbn [cstr]. split_and!; (reflexivity || lia).
  - exists buf'. rewrite H. reflexivity.
Defined.

(** ** The loop *)

Lemma wp_with_cons {A} (m : M console leave A) Q s :
  wp m (fun a c => Q a (put cons c s)) (cons s) -> wp (with_cons m) Q s.
Proof. unfold wp, with_cons. by destruct (m (cons s)). Qed.

(** [s] is [s0] but for the console. *)
Definition but_cons (s0 s : kstate) : Prop := put cons (cons s0) s = s0.

Lemma but_cons_put s0 s c : but_cons s0 s -> but_cons s0 (put cons c s).
Proof. unfold but_cons, put, upd. by destruct s. Qed.

Lemma but_cons_say s0 s e : but_cons s0 s -> but_cons (say e s0) (say e s).
Proof. unfold but_cons, say. intros <-. by destruct s. Qed.

Lemma but_cons_translate s0 s va w : but_cons s0 s -> mmu_translate s va w = mmu_translate s0 va w.
Proof. unfold but_cons. intros <-. by destruct s. Qed.

(** The kernel's console, as [readline] wants it: what is printed goes to the trace. *)
Definition printed (g : list (list Z)) : list event := (fun p => EvPrint "%s" [AStr (Some p)]) <$> g.

Definition kernel_has (s0 : kstate) (g : list (list Z)) (s : kstate) (l : list Z) : Prop :=
  typing (cons s) l /\ but_cons (say (printed g) s0) s.

Definition kernel_laws (s0 : kstate) : CharIOLaws kernel_io.
Proof.
  apply (Build_CharIOLaws _ _ _ (kernel_has s0) (fun g s => but_cons (say (printed g) s0) s) InMonitor).
  - intros g c l s [H Ho]. apply wp_with_cons.
    eapply wp_mono; [by apply (io_get (CharIOLaws := console_laws InMonitor) [] c l)|].
    intros r c' [-> H']. split; [done|]. split; [exact H'|by apply but_cons_put].
  - intros g s [H Ho]. destruct (io_wait (CharIOLaws := console_laws InMonitor) [] (cons s) H) as (c' & Hw & _).
    exists (put cons c' s). split; [|by apply but_cons_put]. cbn. unfold with_cons. cbn in Hw. by rewrite Hw.
  - intros g c l s [H Ho]. apply wp_with_cons.
    eapply wp_mono; [by apply (io_put (CharIOLaws := console_laws InMonitor) [] c l)|].
    intros [] c' H'. split; [exact H'|by apply but_cons_put].
  - intros g p l s [H Ho]. apply (wp_Ret _ _ _ tt (say [EvPrint "%s" [AStr (Some p)]] s)); [done|].
    split; [exact H|]. cbn [printed fmap list_fmap]. fold (printed g).
    change (EvPrint "%s" [AStr (Some p)] :: printed g) with ([EvPrint "%s" [AStr (Some p)]] ++ printed g).
    rewrite <- say_say. by apply but_cons_say.
Defined.

Section Loop.
Context {machine : Machine} (depth n : nat).
Context (Hframes : frames (S n) read_ebp) (Hdepth : (n < depth)%nat).

(** The ways a command may go: it returns, not negative, having only printed;
    or it is [backtrace], and panics. *)
Definition command_ok (m : K Z) : Prop :=
  (exists e r, 0 <= r /\ forall s, m s = Ret r (say e s)) \/
  (exists e, forall s, mmu_translate s 4 false = None -> m s = Panic "page fault happened in kernel" (say e s)).

Lemma command_say evs (m : K Z) r : 0 <= r -> (forall s, m s = Ret r (say evs s)) -> command_ok m.
Proof. intros Hr H. left. by exists evs, r. Qed.

Lemma command_of_ok ws : command_ok (command_of depth ws).
Proof.
  unfold command_of. case_bool_decide.
  { by eapply (command_say [_] _ 0). }
  destruct ws as [|w ws]; [left; exists [], 0; split; [lia|]; by intros []|].
  case_bool_decide; [by eapply (command_say [_; _; _] _ 0)|].
  case_bool_decide; [by eapply (command_say [_; _; _; _; _; _; _] _ 0)|].
  case_bool_decide; [|by eapply (command_say [_] _ 0)].
  right. eexists. intros s Hs. by apply (mon_backtrace_eq depth n).
Qed.

(** What [readline] leaves in the buffer is a C string. *)
Lemma edit_bytes line l text rest : Forall (fun c => 0 < c < 256) line -> Forall (fun c => 0 < c < 256) l ->
  edit line l = Some (text, rest) ->
  Forall (fun c => 0 < c < 256) text /\ Forall (fun c => 0 < c < 256) rest /\ (length rest < length l)%nat.
Proof.
  intros Hline Hl. revert line Hline. induction Hl as [|c l Hc Hl IH]; intros line Hline; [done|].
  assert (forall line', Forall (fun c => 0 < c < 256) line' -> edit line' l = Some (text, rest) ->
    Forall (fun c => 0 < c < 256) text /\ Forall (fun c => 0 < c < 256) rest /\ (length rest < length (c :: l))%nat) as Hgo.
  { intros line' Hl' He. destruct (IH line' Hl' He) as (H1 & H2 & H3). split_and!; [done|done|cbn; lia]. }
  assert (Some (rev line, l) = Some (text, rest) -> Forall (fun c => 0 < c < 256) text /\
    Forall (fun c => 0 < c < 256) rest /\ (length rest < length (c :: l))%nat) as Hend.
  { intros [= <- <-]. split_and!; [by apply Forall_rev|done|cbn; lia]. }
  assert (0 < u8 c < 256) as Hu by (by rewrite u8_id by lia).
  cbn [edit]. destruct line as [|y line]; repeat case_bool_decide; try exact Hend; apply Hgo;
    first [by constructor|by apply Forall_cons_1 in Hline as [_ ?]|done].
Qed.

(** The lines of the characters [l], as [readline] edits them, one after the other;
    what follows the last end of a line is not one. *)
Fixpoint lines_from (fuel : nat) (l : list Z) : list (list Z) :=
  match fuel with
  | O => []
  | S fuel' => match edit [] l with Some (text, rest) => text :: lines_from fuel' rest | None => [] end
  end.

Definition lines_of (l : list Z) : list (list Z) := lines_from (length l) l.

Lemma edit_shorter line l text rest : edit line l = Some (text, rest) -> (length rest < length l)%nat.
Proof.
  revert line. induction l as [|c l IH]; intros line; [done|]. cbn [edit length].
  destruct line as [|y line]; repeat case_bool_decide; intros E; first [apply IH in E; lia|injection E as E1 E2; subst; lia].
Qed.

Lemma lines_from_enough f l : (length l <= f)%nat -> lines_from f l = lines_of l.
Proof.
  unfold lines_of. remember (length l) as k eqn:Hk. assert (length l <= k)%nat as Hl by lia. clear Hk. revert f l Hl.
  induction k as [|k IH]; intros f l Hl Hf.
  - destruct l; [|cbn in Hl; lia]. by destruct f.
  - destruct f as [|f]; [lia|]. cbn [lines_from]. destruct (edit [] l) as [[text rest]|] eqn:He; [|done].
    apply edit_shorter in He. by rewrite (IH f) by lia.
Qed.

Lemma lines_of_eq l : lines_of l = match edit [] l with Some (text, rest) => text :: lines_of rest | None => [] end.
Proof.
  rewrite <- (lines_from_enough (S (length l))) by lia. cbn [lines_from]. destruct (edit [] l) as [[text rest]|] eqn:He; [|done].
  apply edit_shorter in He. by rewrite lines_from_enough by lia.
Qed.

(** What the monitor is to do with them: prompt, run the command each line names, and
    prompt again, until a line is still to be typed. *)
Fixpoint session (lines : list (list Z)) : K unit :=
  State.cprintf "%s" [AStr (Some (chars "K> "))] ;;
  match lines with
  | [] => stop InMonitor
  | line :: lines' => command_of depth (words line) ;; session lines'
  end.

(** The same end: waiting in the monitor or in the panic of [backtrace], in the same
    state but for the console. *)
Definition same_end (o o' : outcome kstate leave unit) : Prop :=
  match o, o' with
  | Stop x s, Stop x' s' => x = InMonitor /\ x' = InMonitor /\ but_cons s' s
  | Panic msg s, Panic msg' s' => msg = "page fault happened in kernel" /\ msg' = msg /\ but_cons s' s
  | _, _ => False
  end.

Lemma monitor_loop_session fuel k buf l s t : typing (cons s) l -> but_cons t s -> mmu_translate t 4 false = None ->
  (length l < k)%nat -> (length l < fuel)%nat ->
  same_end (monitor_loop depth fuel k buf s) (session (lines_of l) t).
Proof.
  revert l buf s t. induction fuel as [|fuel IH]; intros l buf s t Ht Hst Hnull Hk Hf; [lia|]. cbn [monitor_loop]. rewrite lines_of_eq.
  pose proof (ty_bytes _ _ Ht) as Hb. set (prompt := EvPrint "%s" [AStr (Some (chars "K> "))]).
  pose proof (readline_eq (laws := kernel_laws t) k [] (Some (chars "K> ")) buf l s) as Hr.
  specialize (Hr ltac:(split; [exact Ht|by destruct t]) ltac:(eapply List.Forall_impl; [|exact Hb]; cbv beta; lia) Hk).
  unfold line_read in Hr. cbn [from_option] in Hr.
  destruct (edit [] l) as [[text rest]|] eqn:He; cbn [session]; (erewrite (bind_Ret _ _ t) by apply (cprintf_say "%s" [AStr (Some (chars "K> "))])); fold prompt.
  2:{ destruct Hr as (s' & Hr & Hs'). unfold mbind, M_bind. rewrite Hr. split_and!; [done|done|exact Hs']. }
  destruct (edit_bytes [] l text rest ltac:(constructor) Hb He) as (Htext & _ & Hlen).
  apply wp_inv in Hr as ([ok buf1] & s1 & Hr & [Ht1 Ho1] & buf' & [= -> ->] & Hh & H0 & _).
  change (but_cons (say [prompt] t) s1) in Ho1. erewrite bind_Ret by exact Hr. cbv beta iota.
  destruct (runcmd_eq depth buf' text s1) as [buf2 Hrun].
  { apply cstr_intro; [|exact H0]. intros i b Hi. split; [by apply Hh|]. by apply (Forall_lookup_1 _ _ _ _ Htext Hi). }
  unfold mbind at 1, M_bind at 1. rewrite Hrun. unfold mbind at 1, M_bind at 1.
  assert (mmu_translate (say [prompt] t) 4 false = None) as Hn1 by (by destruct t).
  destruct (command_of_ok (words text)) as [(e & r & Hr0 & Hc)|[e Hc]].
  - rewrite Hc. erewrite (bind_Ret _ _ (say [prompt] t)) by apply Hc. unfold mret, M_ret. destruct (Z.ltb_spec r 0); [lia|].
    apply (IH rest); [exact Ht1|by apply but_cons_say|by destruct t|lia|lia].
  - rewrite Hc by (by rewrite (but_cons_translate (say [prompt] t))). unfold mbind, M_bind. rewrite Hc by exact Hn1.
    split_and!; [done|done|by apply but_cons_say].
Qed.
End Loop.

(** ** Code that only prints *)

Definition says {A} (m : K A) : Prop := forall s, exists a e, m s = Ret a (say e s).

Lemma says_ret {A} (a : A) : says (mret a).
Proof. intros s. exists a, []. by destruct s. Qed.

Lemma says_gets {A} (f : kstate -> A) : says (gets f).
Proof. intros s. exists (f s), []. by destruct s. Qed.

Lemma says_cprintf fmt args : says (State.cprintf fmt args).
Proof. intros s. by exists tt, [EvPrint fmt args]. Qed.

Lemma says_bind {A B} (m : K A) (f : A -> K B) : says m -> (forall a, says (f a)) -> says (m ≫= f).
Proof.
  intros Hm Hf s. destruct (Hm s) as (a & e1 & H1). destruct (Hf a (say e1 s)) as (b & e2 & H2).
  exists b, (e2 ++ e1). erewrite bind_Ret by exact H1. by rewrite H2, say_say.
Qed.

Lemma says_when b (m : K unit) : says m -> says (when b m).
Proof. intros H. destruct b; [done|apply says_ret]. Qed.

Ltac says_tac := repeat
  lazymatch goal with
  | |- says (_ ≫= _) => apply says_bind; [|intros ?]
  | |- says (when _ _) => apply says_when
  | |- says (gets _) => apply says_gets
  | |- says (mret _) => apply says_ret
  | |- says (State.cprintf _ _) => apply says_cprintf
  | |- says (if ?b then _ else _) => destruct b
  end.

Lemma print_trapframe_says {machine : Machine} tf : says (print_trapframe (TfStack tf)).
Proof. unfold print_trapframe, print_regs, cprintln. cbn [tf_addr get_tf]. says_tac. Qed.

(** C38: the monitor does what is typed.  It prints its banner and the trap frame, and
    then, for each line typed, in order, the prompt and whatever the command the line names
    prints ([session]: [help], [kerninfo], [backtrace], a complaint about any other
    word or about too many, nothing for an empty line), and nothing else; it changes
    nothing but the console.  It does not come back: it waits for the rest of a line, or
    [backtrace] panics.  So a trap the monitor is entered for, such as a
    breakpoint, is never returned from.  The characters are those that have arrived
    when it starts, 511 at most. *)
Theorem monitor_correct {machine : Machine} depth n k tf buf l s :
  frames (S n) read_ebp -> (n < depth)%nat -> mmu_translate s 4 false = None ->
  typing (cons s) l -> (length l < k)%nat ->
  same_end (monitor depth k (TfStack <$> tf) buf s)
    ((monitor_banner ;;
      match TfStack <$> tf with Some tf => print_trapframe tf | None => mret tt end ;;
      session depth (lines_of l)) s).
Proof.
  intros Hf Hd Hm Ht Hk. unfold monitor.
  assert (says monitor_banner) as Hb by (unfold monitor_banner, cprintln; says_tac).
  destruct (Hb s) as ([] & e & He). erewrite !(bind_Ret monitor_banner) by exact He.
  assert (says (match TfStack <$> tf with Some tf => print_trapframe tf | None => mret tt end)) as Hp
    by (destruct tf; [apply print_trapframe_says|apply says_ret]).
  destruct (Hp (say e s)) as ([] & e' & He'). erewrite !(bind_Ret (match TfStack <$> tf with Some _ => _ | None => _ end)) by exact He'.
  apply (monitor_loop_session depth n Hf Hd (S k) k buf l); [exact Ht|by destruct s|by destruct s|lia|lia].
Qed.

(** "hi" typed, with a correction. *)
Lemma monitor_correct_witness : exists s',
  monitor (machine := two_frames) 10 6 None buf0 (put cons line_demo (blank 16)) = Stop InMonitor s' /\
  trace s' = [EvPrint "%s" [AStr (Some (chars "K> "))];
              EvPrint ("Unknown command '%s'" +:+ nl) [AStr (Some [104; 105])];
              EvPrint "%s" [AStr (Some (chars "K> "))];
              EvPrint ("Type 'help' for a list of commands." +:+ nl) [];
              EvPrint ("Welcome to the JOS kernel monitor!" +:+ nl) []].
Proof.
  pose proof (monitor_correct (machine := two_frames) 10 1 6 None buf0 [104; 106; 8; 105; 13] (put cons line_demo (blank 16))) as H.
  assert (exists t, (monitor_banner ;; mret tt ;; session (machine := two_frames) 10 (lines_of [104; 106; 8; 105; 13]))
    (put cons line_demo (blank 16)) = Stop InMonitor t /\ trace t =
      [EvPrint "%s" [AStr (Some (chars "K> "))]; EvPrint ("Unknown command '%s'" +:+ nl) [AStr (Some [104; 105])];
       EvPrint "%s" [AStr (Some (chars "K> "))]; EvPrint ("Type 'help' for a list of commands." +:+ nl) [];
       EvPrint ("Welcome to the JOS kernel monitor!" +:+ nl) []]) as (t & Ht & Htr) by (eexists; split; reflexivity).
  cbn [fmap option_fmap option_map] in H. rewrite Ht in H.
  specialize (H ltac:(vm_compute; repeat split; discriminate) ltac:(lia) ltac:(vm_compute; reflexivity) line_demo_typing ltac:(cbn; lia)).
  destruct (monitor _ _ _ _ _) as [|x s'| |]; try done. destruct H as (-> & _ & Hb). exists s'. split; [done|].
  rewrite <- Htr, <- Hb. by destruct s'.
Defined.
