(* ===== verification/Ulib.v ===== *)
(** * The user library ([lib/fork.c], [lib/pgfault.c], [lib/ipc.c], [lib/syscall.c])

    A user program runs on top of the kernel: its state [uprog] has the kernel's
    state in it, a system call runs the kernel's [syscall], and a load or store
    goes through the page tables as the processor does it for user code
    ([user_translate]).  A call of [panic] is [Panic]; the ways control leaves
    the program otherwise are [ustop].

    No other environment and no interrupt runs between two steps of the program,
    except inside [sys_yield] and [sys_ipc_recv], which leave it: what the state
    is when it is scheduled again is the parameter [resume].  The program's own
    variables are fields of [uprog]; that they are in memory too, so that the
    program faults on its own stack while it forks, is not modelled. *)

From Stdlib Require Import Lia ZArith ZifyClasses ZifyInst ZifyBool.
From stdpp Require Import base gmap list strings numbers.
From S2P Require Import Prelude Cmonad Mmu Printfmt Console State Spinlock Umem Pmap Env Syscall.

Record uprog := mkUprog {
  kern : kstate;
  _pgfault_handler : Z;        (* the address of a function, or null *)
  thisenv : Z
}.
#[export] Instance eta_uprog : Eta uprog := fun r => mkUprog (kern r) (_pgfault_handler r) (thisenv r).

Inductive ustop : Type :=
  | KernelLeft (x : leave)       (* the kernel gave the CPU to something else *)
  | KernelPanic (msg : string)
  | PageFault (va : Z).          (* the access is not allowed *)

Abbreviation U := (M uprog ustop).

Definition in_kernel {A} (m : K A) : U A := fun u =>
  match m (kern u) with
  | Ret a s => Ret a (put kern s u)
  | Stop x s => Stop (KernelLeft x) (put kern s u)
  | Panic msg s => Stop (KernelPanic msg) (put kern s u)
  | Undef why => Undef why
  end.

(** ** Memory, as the program sees it *)

Definition user_translate (s : kstate) (va : Z) (write : bool) : option Z :=
  let pde := word (pmem s) (cr3 s / PGSIZE) (PDX va) in
  let e := word (pmem s) (PTE_ADDR pde / PGSIZE) (PTX va) in
  if tst pde PTE_P && tst pde PTE_U && (tst e PTE_P && tst e PTE_U) &&
     (negb write || tst pde PTE_W && tst e PTE_W)
  then Some (PTE_ADDR e + PGOFF va) else None.

(** An aligned word. *)
Definition user_load (va : Z) : U Z := fun u =>
  match user_translate (kern u) (u32 va) false with
  | Some pa => Ret (word (pmem (kern u)) (pa / PGSIZE) (pa mod PGSIZE / 4)) u
  | None => Stop (PageFault va) u
  end.

(** [memcpy(dst, src, PGSIZE)] on two pages. *)
Definition user_copy_page (dst src : Z) : U unit := fun u =>
  match user_translate (kern u) src false, user_translate (kern u) dst true with
  | Some ps, Some pd =>
      Ret tt (upd kern (upd pmem (fun m => <[pd / PGSIZE := default ∅ (m !! (ps / PGSIZE))]> m)) u)
  | None, _ => Stop (PageFault src) u
  | _, None => Stop (PageFault dst) u
  end.

(** The page tables, mapped at [UVPT], and the directory ([lib/entry.S]). *)
Definition UVPD : Z := UVPT + Z.shiftr UVPT 12 * 4.
Definition uvpt (pn : Z) : U Z := user_load (UVPT + 4 * pn).
Definition uvpd (i : Z) : U Z := user_load (UVPD + 4 * i).

Definition PTE_COW : Z := 0x800.

#[export] Instance EnvType_eq_dec : EqDecision EnvType.
Proof. solve_decision. Defined.

Section User.
Context {machine : Machine}.

(** ** System calls ([lib/syscall.c] and [sys_exofork] of [inc/lib.h]) *)

Definition sys_number (n : sysno) : Z :=
  match n with
  | SYS_cputs => 0 | SYS_cgetc => 1 | SYS_getenvid => 2 | SYS_env_destroy => 3 | SYS_page_alloc => 4
  | SYS_page_map => 5 | SYS_page_unmap => 6 | SYS_exofork => 7 | SYS_env_set_status => 8
  | SYS_env_set_pgfault_upcall => 9 | SYS_yield => 10 | SYS_ipc_try_send => 11 | SYS_ipc_recv => 12
  end.

Definition syscall (n : sysno) (check : bool) (a1 a2 a3 a4 a5 : Z) : U Z :=
  r ← in_kernel (Syscall.syscall (sys_number n) (u32 a1) (u32 a2) (u32 a3) (u32 a4) (u32 a5));
  let ret := s32 r in
  if check && (0 <? ret) then panic "syscall %d returned %d (> 0)" else mret ret.

Definition sys_cgetc : U Z := syscall SYS_cgetc false 0 0 0 0 0.
Definition sys_cputs (s len : Z) : U unit := syscall SYS_cputs false s len 0 0 0 ;; mret tt.
Definition sys_env_destroy (envid : Z) : U Z := syscall SYS_env_destroy true envid 0 0 0 0.
Definition sys_getenvid : U Z := syscall SYS_getenvid false 0 0 0 0 0.
Definition sys_yield : U unit := syscall SYS_yield false 0 0 0 0 0 ;; mret tt.
Definition sys_page_alloc (envid va perm : Z) : U Z := syscall SYS_page_alloc true envid va perm 0 0.
Definition sys_page_map (srcenv srcva dstenv dstva perm : Z) : U Z :=
  syscall SYS_page_map true srcenv srcva dstenv dstva perm.
Definition sys_page_unmap (envid va : Z) : U Z := syscall SYS_page_unmap true envid va 0 0 0.
Definition sys_env_set_status (envid status : Z) : U Z :=
  syscall SYS_env_set_status true envid status 0 0 0.
Definition sys_env_set_pgfault_upcall (envid upcall : Z) : U Z :=
  syscall SYS_env_set_pgfault_upcall true envid upcall 0 0 0.
Definition sys_ipc_try_send (envid value srcva perm : Z) : U Z :=
  syscall SYS_ipc_try_send false envid value srcva perm 0.
Definition sys_ipc_recv (dstva : Z) : U Z := syscall SYS_ipc_recv true dstva 0 0 0 0.
Definition sys_exofork : U Z := syscall SYS_exofork false 0 0 0 0 0.

(** [lib/exit.c]. *)
Definition exit : U unit := sys_env_destroy 0 ;; mret tt.

(** [thisenv = &envs[ENVX(sys_getenvid())]]. *)
Definition set_thisenv : U unit :=
  id ← sys_getenvid; modify (put thisenv (u32 (UENVS + sizeof_Env * ENVX id))).

(** [lib/libmain.c]; [umain] is the program. *)
Definition libmain (umain : U unit) : U unit := set_thisenv ;; umain ;; exit.

(** ** Page faults ([lib/pgfault.c]) *)

(** The addresses of [_pgfault_upcall] of [lib/pfentry.S] and of [pgfault]. *)
Context (pgfault_upcall pgfault_va : Z).

Definition set_pgfault_handler (handler : Z) : U unit :=
  h ← gets _pgfault_handler;
  when (h =? 0)
    (r ← sys_page_alloc 0 (UXSTACKTOP - PGSIZE) (Z.lor (Z.lor PTE_U PTE_W) PTE_P);
     when (negb (r =? 0)) (panic "sys_page_alloc failed") ;;
     r ← sys_env_set_pgfault_upcall 0 pgfault_upcall;
     when (negb (r =? 0)) (panic "sys_env_set_pgfault_upcall failed")) ;;
  modify (put _pgfault_handler handler).

(** ** Copy-on-write fork ([lib/fork.c]) *)

Definition pgfault (utf_fault_va utf_err : Z) : U unit :=
  bad ← (if Z.land utf_err FEC_WR =? 0 then mret true
         else
           pde ← uvpd (PDX utf_fault_va);
           if Z.land pde PTE_P =? 0 then mret true
           else
             e ← uvpt (PGNUM utf_fault_va);
             mret (negb (Z.land (Z.lnot e) (Z.lor PTE_COW PTE_P) =? 0)));
  when bad (panic "not copy-on-write") ;;
  let addr := ROUNDDOWN utf_fault_va PGSIZE in
  r ← sys_page_alloc 0 PFTEMP (Z.lor (Z.lor PTE_W PTE_U) PTE_P);
  when (r <? 0) (panic "sys_page_alloc failed") ;;
  user_copy_page PFTEMP addr ;;
  r ← sys_page_map 0 PFTEMP 0 addr (Z.lor (Z.lor PTE_W PTE_U) PTE_P);
  when (r <? 0) (panic "sys_page_map failed") ;;
  r ← sys_page_unmap 0 PFTEMP;
  when (r <? 0) (panic "sys_page_unmap failed").

Definition duppage (envid pn : Z) : U Z :=
  let addr := u32 (pn * PGSIZE) in
  e ← uvpt pn;
  cow ← (if tst e PTE_W then mret true else e ← uvpt pn; mret (tst e PTE_COW));
  (if (cow : bool) then
     r ← sys_page_map 0 addr envid addr (Z.lor (Z.lor PTE_COW PTE_U) PTE_P);
     when (r <? 0) (panic "sys_page_map envid failed") ;;
     r ← sys_page_map 0 addr 0 addr (Z.lor (Z.lor PTE_COW PTE_U) PTE_P);
     when (r <? 0) (panic "sys_page_map 0 failed")
   else
     r ← sys_page_map 0 addr envid addr (Z.lor PTE_U PTE_P);
     when (r <? 0) (panic "sys_page_map envid failed")) ;;
  mret 0.

(** One round of the loop over the address space. *)
Definition fork_page (envid addr : Z) : U unit :=
  pde ← uvpd (PDX addr);
  when (tst pde PTE_P)
    (e ← uvpt (PGNUM addr);
     when (tst e PTE_P)
       (e ← uvpt (PGNUM addr);
        when (tst e PTE_U) (duppage envid (PGNUM addr) ;; mret tt))).

(** After [sys_exofork] has returned: [envid] is 0 in the child. *)
Definition fork_rest (envid : Z) : U Z :=
  if envid <? 0 then panic "sys_exofork failed"
  else if envid =? 0 then set_thisenv ;; mret envid
  else
    for_loop (Z.to_nat (USTACKTOP / PGSIZE)) 0 PGSIZE (fork_page envid) ;;
    r ← sys_page_alloc envid (UXSTACKTOP - PGSIZE) (Z.lor (Z.lor PTE_U PTE_W) PTE_P);
    when (r <? 0) (panic "sys_page_alloc failed") ;;
    sys_env_set_pgfault_upcall envid pgfault_upcall ;;
    r ← sys_env_set_status envid (status_code ENV_RUNNABLE);
    when (r <? 0) (panic "sys_env_set_status failed") ;;
    mret envid.

Definition fork : U Z :=
  set_pgfault_handler pgfault_va ;;
  envid ← sys_exofork;
  fork_rest envid.

Definition sfork : U Z := panic "sfork not implemented".

(** ** Messages ([lib/ipc.c]) *)

(** The state when this environment is scheduled again. *)
Context (resume : kstate -> kstate).

(** A call that gives up the CPU comes back with 0 in [%eax]. *)
Definition rescheduled (m : U Z) : U Z := fun u =>
  match m u with
  | Stop (KernelLeft InMonitor) u' => Stop (KernelLeft InMonitor) u'
  | Stop (KernelLeft _) u' => Ret 0 (upd kern resume u')
  | o => o
  end.

Definition this_env : U Env := fun u =>
  in_kernel (get_env ((thisenv u - UENVS) / sizeof_Env)) u.

(** The result, and what is stored in [*from_env_store] and [*perm_store]. *)
Definition ipc_recv (pg : Z) : U (Z * Z * Z) :=
  let pg := if pg =? 0 then u32 (-1) else pg in
  flag ← rescheduled (sys_ipc_recv pg);
  if flag <? 0 then mret (flag, 0, 0)
  else v ← this_env; mret (s32 (env_ipc_value v), env_ipc_from v, env_ipc_perm v).

(** [fuel] is the number of attempts. *)
Fixpoint ipc_send_loop (fuel : nat) (to_env val pg perm : Z) : U unit :=
  match fuel with
  | O => undef "the receiver does not receive"
  | S fuel' =>
      flag ← sys_ipc_try_send to_env val pg perm;
      if flag =? 0 then mret tt
      else if negb (flag =? - E_IPC_NOT_RECV) then panic "ipc_send failed"
      else
        rescheduled (sys_yield ;; mret 0) ;;
        ipc_send_loop fuel' to_env val pg perm
  end.

Definition ipc_send (fuel : nat) (to_env val pg perm : Z) : U unit :=
  ipc_send_loop fuel to_env val (if pg =? 0 then u32 (-1) else pg) perm.

(** The loop of [ipc_find_env] from element [i] on. *)
Fixpoint ipc_find_loop (n : nat) (i : Z) (type : EnvType) : U Z :=
  match n with
  | O => mret 0
  | S n' =>
      v ← in_kernel (get_env i);
      if bool_decide (env_type v = type) then mret (env_id v) else ipc_find_loop n' (i + 1) type
  end.

Definition ipc_find_env (type : EnvType) : U Z := ipc_find_loop (Z.to_nat NENV) 0 type.
End User.
