(* ===== verification/UlibSpec.v ===== *)
(** * Properties of the user library: copy-on-write fork

    The program's view of its page tables, its system calls, and what [fork]
    makes of the two address spaces, on top of the kernel's theorems. *)

From Stdlib Require Import Lia ZArith ZifyClasses ZifyInst ZifyBool.
From stdpp Require Import base gmap list strings numbers.
From S2P Require Import Prelude Cmonad Mmu Printfmt Console State Spinlock Umem Pmap.
From S2P Require Import PageList Vm VmInv PmapLem VmLem PmapSpec VmDir Env EnvLem Sched EnvSpec Syscall SyscallSpec IpcSpec Ulib.

(** ** Reading the page tables *)

(** The running program's directory is [d]; it maps itself at [UVPT], and its
    page tables are open to the program. *)
Record own_tables (s : kstate) (D : gset Z) (d : Z) : Prop := {
  ot_cr3 : cr3 s = d * 4096;
  ot_self : word (pmem s) d 957 = Z.lor (d * 4096) 5;
  ot_user : pdes_user D (pmem s)
}.

Lemma own_tables_kept s s' D d :
  d ∈ D -> own_tables s D d -> cr3 s' = cr3 s -> dirs_kept D (pmem s) (pmem s') -> own_tables s' D d.
Proof.
  intros Hd [H1 H2 H3] Hc [Hk1 Hk2]. constructor; [congruence| |auto].
  rewrite Hk1; [done|done|lia].
Qed.

Section Tables.
Context {base : Z -> Z} {u : uprog} {fl : list Z} {D : gset Z} {O : gmap Z (Z * Z)} {d : Z}.
Let s : kstate := kern u.
Hypothesis INV : vm_inv base s fl D O.
Hypothesis Hd : d ∈ D.
Hypothesis OT : own_tables s D d.

Lemma self_entry : fr (word (pmem s) d 957) = d /\ present (word (pmem s) d 957) = true /\
  tst (word (pmem s) d 957) PTE_U = true /\ PTE_ADDR (word (pmem s) d 957) = d * 4096.
Proof.
  pose proof (ot_self _ _ _ OT) as Hs. pose proof (vo_word _ _ _ _ (vi_vm _ _ _ _ _ INV) d 957) as Hw.
  assert (fr (word (pmem s) d 957) = d) as Hfr by (rewrite Hs; by apply fr_lor_flags).
  split; [done|]. unfold present. rewrite PTE_ADDR_fr by done. rewrite Hfr. rewrite Hs.
  rewrite !tst_lor. split_and!; [|apply orb_true_iff; by right|done].
  apply orb_true_iff. by right.
Qed.

(** A load through the map of the page tables at [UVPT]. *)
Lemma uvpt_load i o : 0 <= i < 1024 -> 0 <= o < 1024 ->
  present (word (pmem s) d i) = true -> tst (word (pmem s) d i) PTE_U = true ->
  user_load (UVPT + i * 4096 + 4 * o) u = Ret (word (pmem s) (fr (word (pmem s) d i)) o) u.
Proof.
  intros Hi Ho Hp Hu. destruct self_entry as (Hfr & Hp0 & Hu0 & Ha).
  unfold user_load. rewrite u32_id by lia. unfold user_translate. fold s. rewrite (ot_cr3 _ _ _ OT).
  change PGSIZE with 4096. rewrite Z.div_mul by lia.
  assert (PDX (UVPT + i * 4096 + 4 * o) = 957) as -> by (rewrite PDX_div by lia; zlia).
  assert (PTX (UVPT + i * 4096 + 4 * o) = i) as -> by (rewrite PTX_div by lia; zlia).
  rewrite Ha, Z.div_mul by lia. unfold present in Hp, Hp0. rewrite Hp0, Hu0, Hp, Hu. cbn [andb negb orb].
  rewrite PTE_ADDR_fr by apply (vo_word _ _ _ _ (vi_vm _ _ _ _ _ INV)). rewrite PGOFF_mod by lia.
  do 2 f_equal; zlia.
Qed.

Lemma uvpd_eq i : 0 <= i < 1024 -> uvpd i u = Ret (word (pmem s) d i) u.
Proof.
  intros Hi. destruct self_entry as (Hfr & Hp0 & Hu0 & Ha). unfold uvpd.
  replace (UVPD + 4 * i) with (UVPT + 957 * 4096 + 4 * i) by (change UVPD with (UVPT + 957 * 4096); lia).
  rewrite uvpt_load by (done || lia). by rewrite Hfr.
Qed.

Lemma uvpt_eq pn : 0 <= pn < UVPNS -> present (word (pmem s) d (pn / 1024)) = true ->
  uvpt pn u = Ret (pte (pmem s) d pn) u.
Proof.
  intros Hpn Hp. destruct (vpn_split _ Hpn) as [Hi Ho]. unfold uvpt, pte. rewrite Hp.
  replace (UVPT + 4 * pn) with (UVPT + pn / 1024 * 4096 + 4 * (pn mod 1024)) by zlia.
  apply uvpt_load; [zlia|done|done|]. by eapply (ot_user _ _ _ OT).
Qed.
End Tables.

(** ** System calls *)

Section Calls.
Context {machine : Machine}.

Lemma syscall_tries n (check : bool) a1 a2 a3 a4 a5 (m : K Z) (Q : Z -> uprog -> Prop) E u :
  Syscall.syscall (sys_number n) (u32 a1) (u32 a2) (u32 a3) (u32 a4) (u32 a5) = m ->
  wp m (fun r s => - 2 ^ 31 <= r < 2 ^ 31 /\ (check = true -> r <= 0) /\ Q r (put kern s u)) (kern u) ->
  tries (Ulib.syscall n check a1 a2 a3 a4 a5) Q E u.
Proof.
  intros Hm (r & s & Hs & Hr & Hc & HQ)%wp_inv. unfold Ulib.syscall. rewrite Hm.
  apply tries_bind. eapply tries_Ret; [unfold in_kernel; by rewrite Hs|].
  rewrite s32_id by lia. destruct check; [|done]. cbn [andb].
  destruct (Z.ltb_spec 0 r); [by specialize (Hc eq_refl); lia|done].
Qed.

(** The caller, in slot [k], runs in directory [d]; [id] names a child of its
    own, in slot [e], whose directory is [f]. *)
Record parent_of (base : Z -> Z) (D : gset Z) (k d e f id : Z) (s : kstate) (fl : list Z)
    (O : gmap Z (Z * Z)) : Prop := {
  pa_call : calling base s fl D O k;
  pa_self : exists v, envs s !! k = Some v /\ env_status v <> ENV_FREE /\ env_pgdir v = kva d;
  pa_child : exists v, envs s !! e = Some v /\ env_status v <> ENV_FREE /\ env_pgdir v = kva f /\
    names s k id true e;
  pa_d : d ∈ D;
  pa_f : f ∈ D;
  pa_ne : d <> f;
  pa_id : 0 < id < 2 ^ 31;
  pa_tables : own_tables s D d
}.

Section Parent.
Context {base : Z -> Z} {D : gset Z} {k d e f id : Z}.

Lemma parent_self s fl O : parent_of base D k d e f id s fl O -> space s k 0 d.
Proof.
  intros H. destruct (pa_self _ _ _ _ _ _ _ _ _ _ H) as (v & Hv & Hst & Hp). exists k, v.
  split; [apply names_self|done].
Qed.

Lemma parent_child s fl O : parent_of base D k d e f id s fl O -> space s k id f.
Proof. intros H. destruct (pa_child _ _ _ _ _ _ _ _ _ _ H) as (v & Hv & Hst & Hp & Hn). by exists e, v. Qed.

Lemma parent_frame s s' fl fl' O O' :
  parent_of base D k d e f id s fl O -> vm_frame s s' -> dirs_kept D (pmem s) (pmem s') ->
  calling base s' fl' D O' k -> parent_of base D k d e f id s' fl' O'.
Proof.
  intros [Hc Hs Hch Hd Hf Hne Hid Ht] Hfr Hk Hc'. pose proof (vf_envs _ _ Hfr) as He.
  constructor; try done.
  - by rewrite He.
  - destruct Hch as (v & Hv & Hst & Hp & Hn1 & Hn2 & Hn3). exists v. rewrite He. split_and!; try done.
    split; [done|]. unfold live, may_control in *. by rewrite He.
  - by apply (own_tables_kept s); [..|apply (vf_cr3 _ _ Hfr)|].
Qed.

(** Memory has run out. *)
Definition out_of_memory (u : uprog) : Prop :=
  exists fl O, vm_inv base (kern u) fl D O /\ (length fl <= 1)%nat.

(** What a call that maps page [v] of [d2] changes. *)
Definition mapped_one (s s' : kstate) (fl : list Z) (O : gmap Z (Z * Z)) (d2 v : Z) (t : option (Z * Z)) : Prop :=
  xlate_update D s s' d2 v t /\ data_same fl D O (pmem s) (pmem s') /\ vm_frame s s'.

Lemma map_call x d2 v p perm s fl O :
  parent_of base D k d e f id s fl O -> space s k x d2 -> 0 <= x < 2 ^ 31 ->
  0 <= v < UVPNS -> maps (pmem s) d v = Some p -> ref s p < 65535 -> perm_ok perm ->
  wp (Syscall.sys_page_map 0 (v * 4096) x (v * 4096) perm) (fun r s' =>
    (r = - E_NO_MEM /\ s' = s /\ fl = []) \/
    (r = 0 /\ exists fl' O', parent_of base D k d e f id s' fl' O' /\
      mapped_one s s' fl O d2 v (Some (p, Z.lor perm PTE_P)))) s.
Proof.
  intros H Hx Hxr Hv Hm Hr Hp. pose proof (pa_call _ _ _ _ _ _ _ _ _ _ H) as Hc.
  pose proof (parent_self _ _ _ H) as Hs.
  assert (PGNUM (v * 4096) = v) as Hpn by (rewrite PGNUM_div by lia; by rewrite Z.div_mul by lia).
  assert (va_ok (v * 4096)) as Hva by (split; [lia|by rewrite Z.mod_mul by lia]).
  pose proof (sys_page_map_wp base s fl D O k 0 (v * 4096) x (v * 4096) perm Hc ltac:(lia) ltac:(lia)) as Hw.
  assert (forall d0, space s k 0 d0 -> va_ok (v * 4096) ->
    exists p, maps (pmem s) d0 (PGNUM (v * 4096)) = Some p /\ ref s p < 65535) as Hmap.
  { intros d0 Hd0 _. rewrite (space_unique _ _ _ _ _ _ _ _ _ Hc Hd0 Hs), Hpn. by exists p. }
  eapply wp_mono; [by apply Hw|].
  intros r s' [(_ & _ & Hno)|(d0 & d1 & H0 & H1 & Hcase)].
  { exfalso. apply Hno. destruct Hs as (i & w & Hn & _), Hx as (i' & w' & Hn' & _). split; by eexists. }
  rewrite (space_unique _ _ _ _ _ _ _ _ _ Hc H0 Hs), (space_unique _ _ _ _ _ _ _ _ _ Hc H1 Hx), Hpn in Hcase.
  destruct Hcase as [(_ & _ & Hno)|(_ & _ & _ & [(-> & -> & Hfl & _)|
    (-> & p' & fl' & O' & Hp' & Hc' & Hds & Hxl & Hfr & Hk & _)])]; [by destruct Hno|by left|right].
  rewrite Hm in Hp'. injection Hp' as <-. split; [done|]. exists fl', O'.
  split; [by eapply parent_frame|]. by split_and!.
Qed.

(** ** Translations *)

Lemma maps_xlate s d0 v : maps (pmem s) d0 v = fst <$> xlate s d0 v.
Proof. unfold maps, xlate. by destruct (present _). Qed.

Lemma tst_flags e0 n : 0 <= n < 12 -> tst (e0 mod 4096) (2 ^ n) = tst e0 (2 ^ n).
Proof. intros Hn. rewrite !tst_pow2 by lia. apply (Z.mod_pow2_bits_low _ 12). lia. Qed.

(** The pages a parent shares with its child copy-on-write: those it can write,
    or that were copy-on-write before. *)
Definition is_shared (flags : Z) : bool := tst flags PTE_W || tst flags PTE_COW.

(** What a page becomes in the child and in the parent. *)
Definition child_page (t : option (Z * Z)) : option (Z * Z) :=
  match t with
  | Some (p, flags) =>
      if tst flags PTE_U then Some (p, if is_shared flags then Z.lor PTE_COW 5 else 5) else None
  | None => None
  end.

Definition parent_page (t : option (Z * Z)) : option (Z * Z) :=
  match t with
  | Some (p, flags) => if tst flags PTE_U && is_shared flags then Some (p, Z.lor PTE_COW 5) else t
  | None => None
  end.

Lemma fst_parent_page t : fst <$> parent_page t = fst <$> t.
Proof. destruct t as [[p flags]|]; [|done]. cbn. by destruct (tst flags PTE_U && is_shared flags). Qed.

(** The contents of the pages any address space maps are the same. *)
Definition same_contents (s s' : kstate) : Prop :=
  forall d' v p j, d' ∈ D -> 0 <= v < UVPNS -> maps (pmem s) d' v = Some p -> word (pmem s') p j = word (pmem s) p j.

Lemma data_contents s s' fl O : parent_of base D k d e f id s fl O -> data_same fl D O (pmem s) (pmem s') ->
  same_contents s s'.
Proof.
  intros H Hds d' v p j Hd' Hv Hm. pose proof (pa_call _ _ _ _ _ _ _ _ _ _ H) as Hc. pose proof (ca_inv _ _ _ _ _ _ Hc) as INV.
  destruct (vo_map _ _ _ _ (vi_vm _ _ _ _ _ INV) _ _ _ Hd' Hv Hm) as (_ & HD & HO).
  apply Hds; [|done..]. apply (mapped_not_free INV p d' v); [done..|exact (ca_base _ _ _ _ _ _ Hc p)].
Qed.

(** References of a page that is mapped are mappings. *)
Lemma ref_nmaps s fl O d0 v p : vm_inv base s fl D O -> d0 ∈ D -> 0 <= v < UVPNS -> maps (pmem s) d0 v = Some p ->
  ref s p = base p + nmaps (pmem s) D p.
Proof.
  intros INV Hd0 Hv Hm. destruct (vo_map _ _ _ _ (vi_vm _ _ _ _ _ INV) _ _ _ Hd0 Hv Hm) as (Hp & HD & HO).
  rewrite (vi_ref _ _ _ _ _ INV p Hp), HO, (bool_decide_eq_false_2 (p ∈ D)) by done. cbn. lia.
Qed.

Lemma nmaps_update s s' d0 v t p : d0 ∈ D -> 0 <= v < UVPNS -> xlate_update D s s' d0 v t ->
  nmaps (pmem s') D p = nmaps (pmem s) D p - (if decide (fst <$> xlate s d0 v = Some p) then 1 else 0)
                        + (if decide (fst <$> t = Some p) then 1 else 0).
Proof.
  intros Hd0 Hv Hx. rewrite (nmaps_change (pmem s) (pmem s') D p d0 v Hd0 Hv).
  - rewrite !maps_xlate, (Hx d0 v) by done. by rewrite (decide_True (P := (d0, v) = (d0, v))).
  - intros d' v' Hd' Hv' Hne. rewrite !maps_xlate, (Hx d' v') by done. by rewrite (decide_False (P := (d', v') = (d0, v))).
Qed.

(** ** [duppage] *)

(** From [u] to [u']: page [v] of the child and of the parent as [fork] makes
    them, everything else as it was. *)
Record dupped (u u' : uprog) (v : Z) : Prop := {
  du_xlate d' v' : d' ∈ D -> 0 <= v' < UVPNS -> xlate (kern u') d' v' =
    if decide (v' = v /\ d' = f) then child_page (xlate (kern u) d v)
    else if decide (v' = v /\ d' = d) then parent_page (xlate (kern u) d v)
    else xlate (kern u) d' v';
  du_contents : same_contents (kern u) (kern u');
  du_frame : vm_frame (kern u) (kern u');
  du_prog : put kern (kern u) u' = u;
  du_nmaps p : nmaps (pmem (kern u')) D p = nmaps (pmem (kern u)) D p +
    (if decide (fst <$> child_page (xlate (kern u) d v) = Some p) then 1 else 0)
}.

Lemma umap_tries x d2 v p perm msg u fl O (Q : unit -> uprog -> Prop) :
  parent_of base D k d e f id (kern u) fl O -> space (kern u) k x d2 -> 0 <= x < 2 ^ 31 ->
  0 <= v < UVPNS -> maps (pmem (kern u)) d v = Some p -> base p + nmaps (pmem (kern u)) D p < 65535 ->
  perm_ok perm ->
  (forall u' fl' O', parent_of base D k d e f id (kern u') fl' O' ->
     mapped_one (kern u) (kern u') fl O d2 v (Some (p, Z.lor perm PTE_P)) -> put kern (kern u) u' = u -> Q tt u') ->
  tries (r ← Ulib.sys_page_map 0 (v * 4096) x (v * 4096) perm; when (r <? 0) (panic msg)) Q out_of_memory u.
Proof.
  intros H Hx Hxr Hv Hm Hr Hp HQ. pose proof (pa_call _ _ _ _ _ _ _ _ _ _ H) as Hc.
  pose proof (ca_inv _ _ _ _ _ _ Hc) as INV. pose proof (perm_ok_range _ Hp) as Hpr.
  apply tries_bind. eapply (syscall_tries SYS_page_map); [reflexivity|].
  rewrite !u32_id by lia. change (Syscall.syscall (sys_number SYS_page_map)) with
    (fun a1 a2 a3 a4 a5 => Syscall.sys_page_map (s32 a1) a2 (s32 a3) a4 (s32 a5)). cbv beta.
  rewrite !s32_id by lia.
  eapply wp_mono; [eapply map_call; try done|].
  { rewrite (ref_nmaps _ _ _ d v) by (done || exact (pa_d _ _ _ _ _ _ _ _ _ _ H)). done. }
  intros r s' [(-> & -> & ->)|(-> & fl' & O' & H' & Hmo)].
  - split; [unfold E_NO_MEM; lia|]. split; [unfold E_NO_MEM; lia|].
    change (- E_NO_MEM <? 0) with true. cbn [when]. apply tries_panic. exists [], O. split; [done|cbn; lia].
  - split; [lia|]. split; [lia|]. change (0 <? 0) with false. cbn [when]. apply tries_ret.
    apply (HQ (put kern s' u) fl' O'); [done|done|]. by destruct u.
Qed.

Lemma duppage_tries v u fl O p flags :
  parent_of base D k d e f id (kern u) fl O -> 0 <= v < UVPNS ->
  xlate (kern u) d v = Some (p, flags) -> tst flags PTE_U = true -> xlate (kern u) f v = None ->
  base p + nmaps (pmem (kern u)) D p < 65534 ->
  tries (duppage id v) (fun _ u' => exists fl' O', parent_of base D k d e f id (kern u') fl' O' /\ dupped u u' v)
    out_of_memory u.
Proof.
  intros H Hv Hx HU Hxf Hr. pose proof (pa_call _ _ _ _ _ _ _ _ _ _ H) as Hc. pose proof (ca_inv _ _ _ _ _ _ Hc) as INV.
  pose proof (pa_d _ _ _ _ _ _ _ _ _ _ H) as Hd. pose proof (pa_f _ _ _ _ _ _ _ _ _ _ H) as Hf.
  pose proof (pa_ne _ _ _ _ _ _ _ _ _ _ H) as Hne. pose proof (pa_id _ _ _ _ _ _ _ _ _ _ H) as Hid.
  assert (maps (pmem (kern u)) d v = Some p) as Hm by (by rewrite maps_xlate, Hx).
  pose proof Hx as Hx'. unfold xlate in Hx'.
  destruct (present (pte (pmem (kern u)) d v)) eqn:Hpp; [|done]. injection Hx' as Hfr Hfl.
  assert (present (word (pmem (kern u)) d (v / 1024)) = true) as Hpde.
  { unfold pte in Hpp. by destruct (present (word (pmem (kern u)) d (v / 1024))). }
  assert (forall n, 0 <= n < 12 -> tst (pte (pmem (kern u)) d v) (2 ^ n) = tst flags (2 ^ n)) as Hflag
    by (intros n Hn; rewrite <- Hfl; by rewrite tst_flags).
  pose proof (uvpt_eq INV Hd (pa_tables _ _ _ _ _ _ _ _ _ _ H) v Hv Hpde) as Huv.
  unfold duppage. rewrite u32_id by (change PGSIZE with 4096; lia). change PGSIZE with 4096.
  apply tries_bind. eapply tries_Ret; [exact Huv|]. apply tries_bind.
  apply (tries_mono _ (fun b u' => b = is_shared flags /\ u' = u)).
  { change PTE_W with (2 ^ 1). change PTE_COW with (2 ^ 11). unfold is_shared.
    change PTE_W with (2 ^ 1). change PTE_COW with (2 ^ 11). rewrite (Hflag 1) by lia. destruct (tst flags (2 ^ 1)); [by apply tries_ret|].
    apply tries_bind. eapply tries_Ret; [exact Huv|]. apply tries_ret. split; [|done]. apply Hflag. lia. }
  intros b u0 [-> ->]. apply tries_bind.
  assert (forall perm (Q : unit -> uprog -> Prop) msg, perm_ok perm ->
    (forall u' fl' O', parent_of base D k d e f id (kern u') fl' O' ->
      mapped_one (kern u) (kern u') fl O f v (Some (p, Z.lor perm PTE_P)) -> put kern (kern u) u' = u -> Q tt u') ->
    tries (r ← Ulib.sys_page_map 0 (v * 4096) id (v * 4096) perm; when (r <? 0) (panic msg)) Q out_of_memory u) as Hfirst.
  { intros perm Q msg Hperm HQ. apply (umap_tries id f v p perm msg u fl O Q); try done; [by eapply parent_child|lia|lia]. }
  assert (fst <$> xlate (kern u) f v = None) as Hfn by (by rewrite Hxf).
  destruct (is_shared flags) eqn:Hsh.
  - apply (tries_assoc _ (fun r => when (r <? 0) (panic "sys_page_map envid failed"))).
    apply tries_bind. apply Hfirst; [split; reflexivity|].
    intros u1 fl1 O1 H1 (Hx1 & Hd1 & Hf1) Hp1.
    assert (xlate (kern u1) d v = Some (p, flags)) as Hxd1
      by (rewrite (Hx1 d v) by done; rewrite decide_False by (intros [= ->]; done); done).
    assert (nmaps (pmem (kern u1)) D p = nmaps (pmem (kern u)) D p + 1) as Hn1.
    { rewrite (nmaps_update _ _ f v _ p Hf Hv Hx1), Hfn. rewrite decide_False by done. by rewrite decide_True by done; lia. }
    apply (umap_tries 0 d v p (Z.lor (Z.lor PTE_COW PTE_U) PTE_P) _ u1 fl1 O1); try done.
    { by eapply parent_self. }
    { by rewrite maps_xlate, Hxd1. }
    { lia. }
    intros u2 fl2 O2 H2 (Hx2 & Hd2 & Hf2) Hp2. apply tries_ret. exists fl2, O2. split; [done|].
    change (Z.lor (Z.lor (Z.lor PTE_COW PTE_U) PTE_P) PTE_P) with (Z.lor PTE_COW 5) in *.
    constructor.
    + intros d' v' Hd' Hv'. rewrite (Hx2 d' v'), (Hx1 d' v'), Hx by done. cbn. rewrite HU, Hsh.
      repeat case_decide; naive_solver.
    + intros d' v' q j Hd' Hv' Hq. rewrite (data_contents _ _ _ _ H1 Hd2 d' v' q j Hd' Hv').
      * by apply (data_contents _ _ _ _ H Hd1 d' v').
      * revert Hq. rewrite !maps_xlate, (Hx1 d' v') by done. case_decide as Heq; [|done].
        injection Heq as -> ->. by rewrite Hxf.
    + by etrans.
    + rewrite <- Hp1, <- Hp2. by destruct u2.
    + intros q. rewrite (nmaps_update _ _ d v _ q Hd Hv Hx2), (nmaps_update _ _ f v _ q Hf Hv Hx1), Hfn, Hxd1, Hx.
      cbn. rewrite HU, Hsh. cbn. rewrite (decide_False (P := None = Some q)) by done. destruct (decide (Some p = Some q)); lia.
  - apply Hfirst; [split; reflexivity|]. intros u1 fl1 O1 H1 (Hx1 & Hd1 & Hf1) Hp1. apply tries_ret.
    exists fl1, O1. split; [done|]. change (Z.lor (Z.lor PTE_U PTE_P) PTE_P) with 5 in *. constructor.
    + intros d' v' Hd' Hv'. rewrite (Hx1 d' v'), Hx by done. cbn. rewrite HU, Hsh. cbn.
      repeat case_decide; naive_solver.
    + by eapply data_contents.
    + done.
    + rewrite <- Hp1. by destruct u1.
    + intros q. rewrite (nmaps_update _ _ f v _ q Hf Hv Hx1), Hfn, Hx. cbn. rewrite HU, Hsh. cbn.
      rewrite (decide_False (P := None = Some q)) by done. lia.
Qed.

(** ** The loop of [fork] *)

Lemma dupped_same u v : child_page (xlate (kern u) d v) = None -> xlate (kern u) f v = None ->
  parent_page (xlate (kern u) d v) = xlate (kern u) d v -> dupped u u v.
Proof.
  intros Hc Hf Hp. constructor; [|done|done|by destruct u|].
  - intros d' v' _ _. rewrite Hc, Hp. repeat case_decide; naive_solver.
  - intros q. rewrite Hc. rewrite decide_False by done. lia.
Qed.

Lemma fork_page_tries v u fl O :
  parent_of base D k d e f id (kern u) fl O -> 0 <= v < UVPNS -> xlate (kern u) f v = None ->
  (forall p, maps (pmem (kern u)) d v = Some p -> base p + nmaps (pmem (kern u)) D p < 65534) ->
  tries (fork_page id (v * 4096)) (fun _ u' => exists fl' O', parent_of base D k d e f id (kern u') fl' O' /\ dupped u u' v)
    out_of_memory u.
Proof.
  intros H Hv Hxf Hr. pose proof (pa_call _ _ _ _ _ _ _ _ _ _ H) as Hc. pose proof (ca_inv _ _ _ _ _ _ Hc) as INV.
  pose proof (pa_d _ _ _ _ _ _ _ _ _ _ H) as Hd. pose proof (pa_tables _ _ _ _ _ _ _ _ _ _ H) as OT.
  assert (PDX (v * 4096) = v / 1024) as HD by (rewrite PDX_div by lia; zlia).
  assert (PGNUM (v * 4096) = v) as HN by (rewrite PGNUM_div by lia; zlia).
  assert (forall Hn : xlate (kern u) d v = None, exists fl' O',
    parent_of base D k d e f id (kern u) fl' O' /\ dupped u u v) as Hnone.
  { intros Hn. exists fl, O. split; [done|]. apply dupped_same; by rewrite ?Hn. }
  unfold fork_page. rewrite HD, HN.
  apply tries_bind. eapply tries_Ret; [apply (uvpd_eq INV OT); zlia|].
  apply tries_when; intros Hpde.
  2:{ apply Hnone. unfold xlate, pte. unfold present at 2. by rewrite Hpde. }
  pose proof (uvpt_eq INV Hd OT v Hv Hpde) as Huv.
  apply tries_bind. eapply tries_Ret; [exact Huv|]. apply tries_when; intros Hp.
  2:{ apply Hnone. unfold xlate. unfold present. by rewrite Hp. }
  apply tries_bind. eapply tries_Ret; [exact Huv|].
  set (w := pte (pmem (kern u)) d v) in *.
  assert (xlate (kern u) d v = Some (fr w, w mod 4096)) as Hx by (unfold xlate; fold w; unfold present; by rewrite Hp).
  assert (tst (w mod 4096) PTE_U = tst w PTE_U) as HU by (apply (tst_flags w 2); lia).
  apply tries_when; intros HUw.
  - apply tries_bind. eapply tries_mono; [apply (duppage_tries v u fl O (fr w) (w mod 4096)); try done; [by rewrite HU|]|].
    + apply Hr. by rewrite maps_xlate, Hx.
    + intros r u' Hu'. by apply tries_ret.
  - exists fl, O. split; [done|]. apply dupped_same; rewrite ?Hx; cbn; rewrite ?HU, ?HUw; done.
Qed.

(** How often the parent maps frame [p] in its first [n] pages. *)
Definition times_mapped (m : physmem) (n p : Z) : Z := cnt (fun v => bool_decide (maps m d v = Some p)) (seqZ 0 n).

Lemma cnt_submseteq {A} (P : A -> bool) l l' : l ⊆+ l' -> cnt P l <= cnt P l'.
Proof. intros (k' & ->)%submseteq_Permutation. rewrite cnt_app. pose proof (cnt_nonneg P k'). lia. Qed.

Lemma cnt_fmap {A B} (g : A -> B) (P : B -> bool) l : cnt P (g <$> l) = cnt (fun x => P (g x)) l.
Proof. induction l as [|x l IH]; [done|]. cbn. by rewrite <- IH. Qed.

Lemma times_mapped_le m n p : d ∈ D -> n <= UVPNS -> times_mapped m n p <= nmaps m D p.
Proof.
  intros Hd Hn. unfold nmaps. transitivity (cnt (maps_to m p) ((fun v => (d, v)) <$> seqZ 0 n)).
  - by rewrite cnt_fmap.
  - apply cnt_submseteq, NoDup_submseteq.
    + apply NoDup_fmap_2; [by intros ? ? [= ->]|apply NoDup_seqZ].
    + intros [d' v] (v' & [= -> ->] & Hv)%list_elem_of_fmap. apply elem_of_seqZ in Hv. apply elem_of_vkeys. split; [done|lia].
Qed.

Lemma times_mapped_step m n p : 0 <= n -> times_mapped m (n + 1) p =
  times_mapped m n p + (if decide (maps m d n = Some p) then 1 else 0).
Proof.
  intros Hn. unfold times_mapped. replace (n + 1) with (Z.of_nat (S (Z.to_nat n))) by lia. rewrite seqZ_S, cnt_app.
  rewrite !Z2Nat.id by lia. cbn [cnt]. rewrite Z.add_0_l.
  destruct (decide (maps m d n = Some p)) as [Hm|Hm]; [rewrite (bool_decide_eq_true_2 _ Hm)|rewrite (bool_decide_eq_false_2 _ Hm)]; lia.
Qed.

(** The first [n] pages of the address space [u0] had are done. *)
Record forked_upto (u0 : uprog) (n : Z) (u : uprog) : Prop := {
  fu_parent : exists fl O, parent_of base D k d e f id (kern u) fl O;
  fu_xlate d' v' : d' ∈ D -> 0 <= v' < UVPNS -> xlate (kern u) d' v' =
    if decide (v' < n /\ d' = f) then child_page (xlate (kern u0) d v')
    else if decide (v' < n /\ d' = d) then parent_page (xlate (kern u0) d v')
    else xlate (kern u0) d' v';
  fu_contents : same_contents (kern u0) (kern u);
  fu_frame : vm_frame (kern u0) (kern u);
  fu_prog : put kern (kern u0) u = u0;
  fu_nmaps p : nmaps (pmem (kern u)) D p <= nmaps (pmem (kern u0)) D p + times_mapped (pmem (kern u0)) n p
}.

Lemma fork_page_upto u0 n u :
  0 <= n < UVPNS -> d <> f -> d ∈ D -> f ∈ D -> (forall v, 0 <= v < UVPNS -> xlate (kern u0) f v = None) ->
  (forall p, base p + 2 * nmaps (pmem (kern u0)) D p < 65535) -> forked_upto u0 n u ->
  tries (fork_page id (n * 4096)) (fun _ u' => forked_upto u0 (n + 1) u') out_of_memory u.
Proof.
  intros Hn Hne Hd Hf Hempty Hb [(fl & O & H) Hx Hc Hfr Hp Hnm].
  assert (xlate (kern u) d n = xlate (kern u0) d n) as Hxn
    by (rewrite (Hx d n) by done; rewrite !decide_False by lia; done).
  assert (forall p, maps (pmem (kern u0)) d n = Some p -> base p + nmaps (pmem (kern u)) D p < 65534) as Hr.
  { intros p Hm. specialize (Hnm p). specialize (Hb p).
    pose proof (times_mapped_step (pmem (kern u0)) n p ltac:(lia)) as Ht. rewrite decide_True in Ht by done.
    pose proof (times_mapped_le (pmem (kern u0)) (n + 1) p Hd ltac:(lia)). lia. }
  eapply tries_mono; [eapply (fork_page_tries n u fl O); try done|].
  - rewrite (Hx f n) by done. rewrite !decide_False by lia. by apply Hempty.
  - intros p Hm. apply Hr. revert Hm. by rewrite !maps_xlate, Hxn.
  - intros [] u' (fl' & O' & H' & Hdu). constructor.
    + by exists fl', O'.
    + intros d' v' Hd' Hv'. rewrite (du_xlate _ _ _ Hdu) by done. rewrite Hxn, (Hx d' v') by done.
      repeat case_decide; try lia; naive_solver lia.
    + intros d' v p j Hd' Hv Hm. rewrite (du_contents _ _ _ Hdu d' v p j Hd' Hv).
      * by apply (Hc d' v).
      * revert Hm. rewrite !maps_xlate, (Hx d' v) by done.
        case_decide as Hf'; [destruct Hf' as [_ ->]; by rewrite Hempty|]. case_decide as Hd''; [|done].
        destruct Hd'' as [_ ->]. by rewrite fst_parent_page.
    + etrans; [exact Hfr|apply Hdu].
    + rewrite <- Hp, <- (du_prog _ _ _ Hdu). by destruct u'.
    + intros p. rewrite (du_nmaps _ _ _ Hdu), times_mapped_step, Hxn, maps_xlate by lia. specialize (Hnm p).
      destruct (xlate (kern u0) d n) as [[q flags]|]; cbn.
      * destruct (tst flags PTE_U); cbn; repeat case_decide; try lia; naive_solver.
      * repeat case_decide; try lia; done.
Qed.

(** ** The rest of [fork] *)

(** The first page below the top of the exception stack. *)
Definition xstack_page : Z := (UXSTACKTOP - PGSIZE) / PGSIZE.

Lemma alloc_call s fl O :
  parent_of base D k d e f id s fl O ->
  wp (Syscall.sys_page_alloc id (UXSTACKTOP - PGSIZE) (Z.lor (Z.lor PTE_U PTE_W) PTE_P)) (fun r s' =>
    (r = - E_NO_MEM /\ exists fl' O', vm_inv base s' fl' D O' /\ (length fl' <= 1)%nat) \/
    (r = 0 /\ exists fl' O' p, parent_of base D k d e f id s' fl' O' /\
      mapped_one s s' fl O f xstack_page (Some (p, 7)) /\ (forall j, word (pmem s') p j = 0))) s.
Proof.
  intros H. pose proof (pa_call _ _ _ _ _ _ _ _ _ _ H) as Hc. pose proof (parent_child _ _ _ H) as Hx.
  eapply wp_mono; [by apply (sys_page_alloc_wp base s fl D O k id _ _ Hc); vm_compute|].
  intros r s' [(_ & _ & Hno)|(d0 & H0 & Hcase)].
  { exfalso. destruct Hx as (i & w & Hn & _). by apply (Hno i). }
  rewrite (space_unique _ _ _ _ _ _ _ _ _ Hc H0 Hx) in Hcase.
  destruct Hcase as [(_ & _ & Hno)|(_ & _ & Hds & [(-> & Hl & Hc' & _)|
    (-> & p & fl0 & fl' & O' & _ & Hc' & Hxl & Hz & Hfr & Hk & _)])].
  - destruct Hno. split; [split; [vm_compute; reflexivity|reflexivity]|split; reflexivity].
  - left. split; [done|]. exists fl, O. split; [apply Hc'|done].
  - right. split; [done|]. exists fl', O', p. split; [by eapply parent_frame|]. by split_and!.
Qed.

(** A call that changes the child's entry of the table, but not its identity or
    address space. *)
Lemma child_call s fl O g :
  parent_of base D k d e f id s fl O ->
  (forall v, env_status v <> ENV_FREE -> env_status (g v) <> ENV_FREE) ->
  (forall v, env_id (g v) = env_id v /\ env_pgdir (g v) = env_pgdir v /\ env_parent_id (g v) = env_parent_id v) ->
  wp (r ← envid2env id true;
      if negb (r.1 =? 0) then mret r.1 else e ← stored r.2; upd_env e g ;; mret 0) (fun r s' =>
    r = 0 /\ parent_of base D k d e f id s' fl O /\
    exists v, envs s !! e = Some v /\ s' = put envs (<[e := g v]> (envs s)) s) s.
Proof.
  intros H Hst Hg. pose proof (pa_call _ _ _ _ _ _ _ _ _ _ H) as Hc.
  destruct (pa_child _ _ _ _ _ _ _ _ _ _ H) as (v & Hv & Hlv & Hpg & Hn).
  destruct (calling_envid _ _ _ _ _ _ id true Hc) as [[_ Hno]|(i & w & dw & He & Hi & _)]; [by destruct (Hno e)|].
  rewrite (names_unique _ _ _ _ _ _ _ _ _ _ Hc Hi Hn) in He.
  apply wp_bind. eapply wp_Ret; [exact He|]. cbn [fst snd Z.eqb negb].
  apply wp_bind, wp_ret. apply wp_bind. eapply wp_Ret; [by apply upd_env_eq|]. apply wp_ret.
  split; [done|]. split; [|by exists v]. destruct (Hg v) as (Hid & Hpd & Hpar).
  destruct (pa_self _ _ _ _ _ _ _ _ _ _ H) as (vk & Hvk & Hlk & Hpk).
  assert (e <> k) as Hek.
  { intros ->. rewrite Hvk in Hv. injection Hv as <-. rewrite Hpk in Hpg. unfold kva in Hpg.
    apply (pa_ne _ _ _ _ _ _ _ _ _ _ H). lia. }
  assert (envs (put envs (<[e := g v]> (envs s)) s) !! k = Some vk) as Hk by (kred; by rewrite lookup_insert_ne).
  constructor; try apply H.
  - by eapply calling_upd_env; [..|apply Hst|exact Hid|exact Hpd].
  - by exists vk.
  - exists (g v). kred. rewrite lookup_insert_eq. split_and!; [done|by apply Hst|congruence|].
    destruct Hn as (Hn1 & Hn2 & Hn3). split; [done|]. split.
    + intros H0. destruct (Hn2 H0) as (v0 & Hv0 & _ & Hid0). rewrite Hv in Hv0. injection Hv0 as <-.
      exists (g v). kred. rewrite lookup_insert_eq. split_and!; [done|by apply Hst|congruence].
    + intros _. destruct (Hn3 eq_refl) as [?|(v0 & vk0 & Hv0 & Hvk0 & Hp0)]; [by left|right].
      rewrite Hv in Hv0. injection Hv0 as <-. rewrite Hvk in Hvk0. injection Hvk0 as <-.
      exists (g v), vk. kred. rewrite lookup_insert_eq, lookup_insert_ne by done. split_and!; [done..|congruence].
  - destruct (pa_tables _ _ _ _ _ _ _ _ _ _ H). by constructor.
Qed.

(** The same calls from the program. *)
Lemma ualloc_tries msg u fl O (Q : unit -> uprog -> Prop) :
  parent_of base D k d e f id (kern u) fl O ->
  (forall u' fl' O' p, parent_of base D k d e f id (kern u') fl' O' ->
     mapped_one (kern u) (kern u') fl O f xstack_page (Some (p, 7)) -> (forall j, word (pmem (kern u')) p j = 0) ->
     put kern (kern u) u' = u -> Q tt u') ->
  tries (r ← Ulib.sys_page_alloc id (UXSTACKTOP - PGSIZE) (Z.lor (Z.lor PTE_U PTE_W) PTE_P);
         when (r <? 0) (panic msg)) Q out_of_memory u.
Proof.
  intros H HQ. pose proof (pa_id _ _ _ _ _ _ _ _ _ _ H) as Hid. apply tries_bind. unfold Ulib.sys_page_alloc.
  apply (syscall_tries SYS_page_alloc true id _ _ 0 0
    (Syscall.sys_page_alloc id (UXSTACKTOP - PGSIZE) (Z.lor (Z.lor PTE_U PTE_W) PTE_P))).
  { rewrite (u32_id id) by lia. transitivity (Syscall.sys_page_alloc (s32 id) (u32 (UXSTACKTOP - PGSIZE))
      (s32 (u32 (Z.lor (Z.lor PTE_U PTE_W) PTE_P)))); [reflexivity|]. by rewrite s32_id by lia. }
  eapply wp_mono; [by apply (alloc_call (kern u) fl O)|].
  intros r s' [(-> & fl' & O' & INV' & Hl)|(-> & fl' & O' & p & H' & Hmo & Hz)].
  - split; [unfold E_NO_MEM; lia|]. split; [unfold E_NO_MEM; lia|].
    change (- E_NO_MEM <? 0) with true. cbn [when]. apply tries_panic. by exists fl', O'.
  - split; [lia|]. split; [lia|]. change (0 <? 0) with false. cbn [when]. apply tries_ret.
    apply (HQ (put kern s' u) fl' O' p); try done. by destruct u.
Qed.

Lemma uchild_tries n a2 g u fl O (Q : Z -> uprog -> Prop) :
  parent_of base D k d e f id (kern u) fl O -> 
  (forall s, Syscall.syscall (sys_number n) id a2 0 0 0 s =
     (r ← envid2env id true; if negb (r.1 =? 0) then mret r.1 else e ← stored r.2; upd_env e g ;; mret 0) s) ->
  (forall v, env_status v <> ENV_FREE -> env_status (g v) <> ENV_FREE) ->
  (forall v, env_id (g v) = env_id v /\ env_pgdir (g v) = env_pgdir v /\ env_parent_id (g v) = env_parent_id v) ->
  0 <= a2 < 2 ^ 32 ->
  (forall u' v, parent_of base D k d e f id (kern u') fl O -> envs (kern u) !! e = Some v ->
     kern u' = put envs (<[e := g v]> (envs (kern u))) (kern u) -> put kern (kern u) u' = u -> Q 0 u') ->
  tries (Ulib.syscall n true id a2 0 0 0) Q out_of_memory u.
Proof.
  intros H Hcall Hst Hg Ha HQ. pose proof (pa_id _ _ _ _ _ _ _ _ _ _ H) as Hid.
  apply (syscall_tries n true id a2 0 0 0 (Syscall.syscall (sys_number n) id a2 0 0 0)).
  { change (u32 0) with 0. by rewrite !u32_id by lia. }
  eapply wp_ext; [apply Hcall|]. eapply wp_mono; [by apply (child_call (kern u) fl O g)|].
  intros r s' (-> & H' & v & Hv & Hs). split; [lia|]. split; [lia|].
  apply (HQ (put kern s' u) v); try done. by destruct u.
Qed.

(** The number of pages [fork] considers. *)
Definition fork_pages : Z := USTACKTOP / PGSIZE.

(** The two address spaces after [fork]. *)
Record fork_spaces (s0 s : kstate) : Prop := {
  fs_xlate d' v' : d' ∈ D -> 0 <= v' < UVPNS -> (d', v') <> (f, xstack_page) -> xlate s d' v' =
    if decide (v' < fork_pages /\ d' = f) then child_page (xlate s0 d v')
    else if decide (v' < fork_pages /\ d' = d) then parent_page (xlate s0 d v')
    else xlate s0 d' v';
  fs_stack : exists p, xlate s f xstack_page = Some (p, 7) /\ forall j, word (pmem s) p j = 0;
  fs_contents : same_contents s0 s
}.

Lemma fork_rest_tries upcall u fl O :
  parent_of base D k d e f id (kern u) fl O -> (forall v, 0 <= v < UVPNS -> xlate (kern u) f v = None) ->
  (forall p, base p + 2 * nmaps (pmem (kern u)) D p < 65535) -> 0 <= upcall < 2 ^ 32 ->
  tries (fork_rest upcall id) (fun r u' => r = id /\
    (exists fl' O', parent_of base D k d e f id (kern u') fl' O') /\ fork_spaces (kern u) (kern u') /\
    (exists v, envs (kern u) !! e = Some v /\
      envs (kern u') = <[e := put env_status ENV_RUNNABLE (put env_pgfault_upcall upcall v)]> (envs (kern u))) /\
    put kern (kern u) u' = u) out_of_memory u.
Proof.
  intros H Hempty Hb Hup. pose proof (pa_id _ _ _ _ _ _ _ _ _ _ H) as Hid.
  pose proof (pa_d _ _ _ _ _ _ _ _ _ _ H) as Hd. pose proof (pa_f _ _ _ _ _ _ _ _ _ _ H) as Hf.
  pose proof (pa_ne _ _ _ _ _ _ _ _ _ _ H) as Hne.
  unfold fork_rest. destruct (Z.ltb_spec id 0) as [|_]; [lia|]. destruct (Z.eqb_spec id 0) as [|_]; [lia|].
  apply tries_bind. apply (tries_for_loop _ _ _ _ (fun a u' => exists n, a = n * 4096 /\ 0 <= n /\ forked_upto u n u')).
  { exists 0. split; [done|]. split; [done|]. constructor; try done.
    - by exists fl, O.
    - intros d' v' _ Hv'. by rewrite !decide_False by lia.
    - by destruct u.
    - intros p. change (times_mapped (pmem (kern u)) 0 p) with 0. lia. }
  { intros j u' Hj (n & Hn & Hn0 & Hu). change (Z.to_nat (USTACKTOP / PGSIZE)) with (Z.to_nat 977918) in Hj.
    change PGSIZE with 4096 in *. rewrite Hn. eapply tries_mono; [apply (fork_page_upto u n u'); try done; lia|].
    intros [] u2 Hu2. exists (n + 1). split; [lia|]. split; [lia|done]. }
  intros u1 (n & Hn & Hn0 & [(fl1 & O1 & H1) Hx1 Hc1 Hf1 Hp1 _]).
  assert (n = fork_pages) as -> by (change fork_pages with 977918; change (Z.to_nat (USTACKTOP / PGSIZE)) with (Z.to_nat 977918) in Hn; change PGSIZE with 4096 in Hn; lia).
  clear Hn.
  apply (tries_assoc _ (fun r => when (r <? 0) (panic "sys_page_alloc failed"))). apply tries_bind.
  apply (ualloc_tries _ u1 fl1 O1); [done|]. intros u2 fl2 O2 p H2 (Hx2 & Hd2 & Hf2) Hz Hp2.
  apply tries_bind. apply (uchild_tries SYS_env_set_pgfault_upcall upcall (put env_pgfault_upcall upcall) u2 fl2 O2); try done.
  { intros s. transitivity (Syscall.sys_env_set_pgfault_upcall (s32 id) upcall s); [reflexivity|]. by rewrite s32_id by lia. }
  intros u3 v3 H3 Hv3 Hs3 Hp3. apply tries_bind.
  apply (uchild_tries SYS_env_set_status (status_code ENV_RUNNABLE) (put env_status ENV_RUNNABLE) u3 fl2 O2); try done.
  { intros s. transitivity (Syscall.sys_env_set_status (s32 id) 2 s); [reflexivity|]. by rewrite s32_id by lia. }
  intros u4 v4 H4 Hv4 Hs4 Hp4. change (0 <? 0) with false. cbn [when]. apply tries_bind, tries_ret, tries_ret.
  assert (pmem (kern u4) = pmem (kern u2)) as Hm4 by (by rewrite Hs4, Hs3).
  assert (forall d' v', xlate (kern u4) d' v' = xlate (kern u2) d' v') as Hx4 by (intros; unfold xlate; by rewrite Hm4).
  assert (0 <= xstack_page < UVPNS) as Hxs by (split; vm_compute; congruence || reflexivity).
  split; [done|]. split; [by exists fl2, O2|]. split; [|split].
  - constructor.
    + intros d' v' Hd' Hv' Hne'. rewrite Hx4, (Hx2 d' v'), decide_False by done. by apply Hx1.
    + exists p. rewrite Hx4, (Hx2 f xstack_page), decide_True by done. by rewrite Hm4.
    + intros d' v q j Hd' Hv Hq. rewrite Hm4. rewrite (data_contents _ _ _ _ H1 Hd2 d' v q j Hd' Hv); [by apply (Hc1 d' v)|].
      revert Hq. rewrite !maps_xlate, (Hx1 d' v) by done.
      case_decide as Hf'; [destruct Hf' as [_ ->]; by rewrite Hempty|]. case_decide as Hd''; [|done].
      destruct Hd'' as [_ ->]. by rewrite fst_parent_page.
  - assert (envs (kern u2) = envs (kern u)) as He2 by (by rewrite (vf_envs _ _ Hf2), (vf_envs _ _ Hf1)).
    rewrite He2 in *. exists v3. split; [done|]. rewrite Hs3 in Hs4, Hv4. cbn [envs put upd] in Hv4.
    rewrite lookup_insert_eq in Hv4. injection Hv4 as <-. rewrite Hs4. kred. by rewrite insert_insert_eq.
  - rewrite <- Hp1, <- Hp2, <- Hp3, <- Hp4. by destruct u4.
Qed.
End Parent.

(** ** [fork] *)

(** The parent right after [sys_exofork]. *)
Lemma exofork_parent base D k d vk e f v' s s' fl fl' O :
  calling base s fl D O k -> envs s !! k = Some vk -> env_status vk <> ENV_FREE -> env_pgdir vk = kva d ->
  d ∈ D -> own_tables s D d -> calling base s' fl' ({[f]} ∪ D) O k -> f ∉ D -> outside f (pmem s) (pmem s') ->
  (forall i, 0 <= i < UPDES -> present (word (pmem s') f i) = false) -> cr3 s' = cr3 s ->
  e <> k -> envs s' = <[e := v']> (envs s) -> 0 < env_id v' < 2 ^ 31 -> env_parent_id v' = env_id vk ->
  env_status v' <> ENV_FREE -> env_pgdir v' = kva f ->
  parent_of base ({[f]} ∪ D) k d e f (env_id v') s' fl' O.
Proof.
  intros H Hvk Hlk Hpk Hd [Ht1 Ht2 Ht3] H' Hf Hout Hemp Hcr Hek Hes Hid Hpar Hlv Hpv.
  assert (envs s' !! k = Some vk) as Hk by (by rewrite Hes, lookup_insert_ne).
  assert (envs s' !! e = Some v') as He by (by rewrite Hes, lookup_insert_eq).
  assert (forall d', d' ∈ D -> d' <> f) as Hne by (intros d' Hd' ->; done).
  constructor; try done.
  - by exists vk.
  - exists v'. split_and!; try done. split; [lia|]. split.
    + intros _. by exists v'.
    + intros _. right. by exists v', vk.
  - set_solver.
  - set_solver.
  - by apply Hne.
  - constructor; [by rewrite Hcr|rewrite Hout; [done|by apply Hne]|].
    intros d' i [->%elem_of_singleton|Hd']%elem_of_union Hi.
    + rewrite Hemp by done. done.
    + rewrite Hout by (by apply Hne). by apply Ht3.
Qed.

Lemma nmaps_fresh_dir m m' D f p : f ∉ D -> same_ptes D m m' ->
  (forall v, 0 <= v < UVPNS -> pte m' f v = 0) -> nmaps m' ({[f]} ∪ D) p = nmaps m D p.
Proof.
  intros Hf Hs Hz. rewrite nmaps_add by done. rewrite (nmaps_none m' {[f]}).
  - rewrite Z.add_0_l. apply nmaps_ext. intros d v Hd Hv. apply maps_pte. by apply Hs.
  - intros d v ->%elem_of_singleton Hv. unfold maps. by rewrite Hz.
Qed.

(** What [sys_exofork] has made of [s] when it returns [r] to the parent: a child in
    slot [e] with the empty directory [f]. *)
Record child_made (base : Z -> Z) (D : gset Z) (k d : Z) (vk : Env) (s : kstate) (r e f : Z) (v' : Env)
    (s1 : kstate) (fl1 : list Z) (O : gmap Z (Z * Z)) : Prop := {
  cm_slot : env_free_list s = Some e /\ ENVX r = e;
  cm_new : f ∉ D;
  cm_parent : parent_of base ({[f]} ∪ D) k d e f r s1 fl1 O;
  cm_envs : envs s1 = <[e := v']> (envs s);
  cm_env : env_id v' = r /\ env_parent_id v' = env_id vk /\ env_status v' = ENV_NOT_RUNNABLE /\
    env_tf v' = upd tf_regs (put reg_eax 0) (env_tf vk) /\ env_pgdir v' = kva f;
  cm_same d' v : d' ∈ D -> 0 <= v < UVPNS -> xlate s1 d' v = xlate s d' v;
  cm_empty v : 0 <= v < UVPNS -> xlate s1 f v = None;
  cm_nmaps p : nmaps (pmem s1) ({[f]} ∪ D) p = nmaps (pmem s) D p;
  cm_contents d' v p j : d' ∈ D -> 0 <= v < UVPNS -> maps (pmem s) d' v = Some p -> word (pmem s1) p j = word (pmem s) p j
}.

Lemma exofork_tries base u fl D O k vk d kf (Q : Z -> uprog -> Prop) E :
  let s := kern u in
  calling base s fl D O k -> can_fork s fl kf -> envs s !! k = Some vk -> env_status vk <> ENV_FREE ->
  env_pgdir vk = kva d -> d ∈ D -> own_tables s D d ->
  (forall r, r < 0 -> env_free_list s = None \/ fl = [] -> Q r u) ->
  (forall r e f v' s1 fl1, child_made base D k d vk s r e f v' s1 fl1 O -> Q r (put kern s1 u)) ->
  tries Ulib.sys_exofork Q E u.
Proof.
  intros s H Hcf Hvk Hlk Hpk Hd Hot HF HQ. pose proof (ca_inv _ _ _ _ _ _ H) as INV. unfold Ulib.sys_exofork.
  apply (syscall_tries SYS_exofork false 0 0 0 0 0 Syscall.sys_exofork); [reflexivity|].
  eapply wp_mono; [by eapply sys_exofork_wp|]. intros r s1 Hr. cbv beta in Hr. fold s in Hr.
  assert (put kern s u = u) as Hsu by (by destruct u).
  destruct (env_free_list s) as [e|] eqn:Efl.
  2:{ destruct Hr as [-> ->]. split; [vm_compute; split; congruence|]. split; [done|]. rewrite Hsu. apply HF; [done|by left]. }
  destruct fl as [|f fl1].
  { destruct Hr as [-> ->]. split; [vm_compute; split; congruence|]. split; [done|]. rewrite Hsu. apply HF; [done|by right]. }
  destruct Hr as (H1 & Hs1 & Hz1 & v' & Hes & Hid & Hr & Hx & Hpar & Hst & Htf & Hpg & Hcr & HfD & Hout & Hemp & _).
  split; [lia|]. split; [done|].
  assert (e <> k) as Hek.
  { destruct (cf_head _ _ _ Hcf e Efl) as (_ & v0 & Hv0 & Hfree & _). intros ->. unfold s in *. congruence. }
  apply (HQ r e f v' s1 fl1). constructor; try done.
  - subst r. eapply (exofork_parent base D k d vk e f v' s s1 (f :: fl1) fl1 O); try done. by rewrite Hst.
  - intros d' v Hd' Hv. unfold xlate. by rewrite Hs1.
  - intros v Hv. unfold xlate. by rewrite Hz1.
  - intros p. by apply nmaps_fresh_dir.
  - intros d' v p j Hd' Hv Hm. apply Hout. intros ->.
    apply (mapped_not_free INV f d' v Hd' Hv Hm (ca_base _ _ _ _ _ _ H _)). by left.
Qed.

(** The two address spaces, and the others, in terms of those before the child was
    made. *)
Lemma fork_views s s1 s' D d f :
  d <> f -> d ∈ D -> f ∉ D -> (forall d' v, d' ∈ D -> 0 <= v < UVPNS -> xlate s1 d' v = xlate s d' v) ->
  (forall v, 0 <= v < UVPNS -> xlate s1 f v = None) -> fork_spaces (D := {[f]} ∪ D) (d := d) (f := f) s1 s' ->
  (forall v, 0 <= v < UVPNS -> xlate s' d v =
     if decide (v < fork_pages) then parent_page (xlate s d v) else xlate s d v) /\
  (forall v, 0 <= v < UVPNS -> v <> xstack_page -> xlate s' f v =
     if decide (v < fork_pages) then child_page (xlate s d v) else None) /\
  (forall d' v, d' ∈ D -> d' <> d -> 0 <= v < UVPNS -> xlate s' d' v = xlate s d' v).
Proof.
  intros Hdf Hd HfD Hxs Hz [Hfx _ _].
  assert (forall d', d' ∈ D -> d' ∈ {[f]} ∪ D) as HD1 by (clear; set_solver).
  split; [|split].
  - intros v Hv. rewrite (Hfx d v), (Hxs d v) by (done || by apply HD1 || by intros [= ? _]).
    rewrite decide_False by (by intros [_ ?]).
    by destruct (decide (v < fork_pages)); [rewrite decide_True|rewrite decide_False by (by intros [? _])].
  - intros v Hv Hne. rewrite (Hfx f v), (Hxs d v) by (done || (clear; set_solver) || by intros [= ?]).
    destruct (decide (v < fork_pages)); [by rewrite decide_True|].
    rewrite !decide_False by (by intros [? _]). by apply Hz.
  - intros d' v Hd' Hne Hv. assert (d' <> f) as Hnf by (by intros ->).
    rewrite (Hfx d' v) by (done || by apply HD1 || by intros [= ? _]).
    rewrite !decide_False by (by intros [_ ?]). by apply Hxs.
Qed.

(** ** [set_pgfault_handler] *)

(** The kernel's directory is referenced by the kernel, and is nobody's address space
    or page table. *)
Record kernel_dir (base : Z -> Z) (D : gset Z) (O : gmap Z (Z * Z)) (kf : Z) : Prop := {
  kd_ref : 1 <= base kf;
  kd_dir : kf ∉ D;
  kd_table : O !! kf = None
}.

(** What [set_pgfault_handler] makes of [s] for the environment in slot [k], which runs
    in directory [d]: the first time, an exception stack of its own, zeroed, at the
    page below [UXSTACKTOP], and [upcall] as its entry point; afterwards, nothing. *)
Definition handler_set (D : gset Z) (fl : list Z) (O : gmap Z (Z * Z)) (k d upcall : Z) (first : bool) (s s1 : kstate) : Prop :=
  if first then
    (exists p, p ∈ fl /\ xlate_update D s s1 d xstack_page (Some (p, 7)) /\ forall j, word (pmem s1) p j = 0) /\
    data_same fl D O (pmem s) (pmem s1) /\
    exists vk, envs s !! k = Some vk /\ envs s1 = <[k := put env_pgfault_upcall upcall vk]> (envs s)
  else s1 = s.

(** What the rest of [fork] needs of that state. *)
Record handler_state (base : Z -> Z) (D : gset Z) (k d kf : Z) (vk : Env) (s s1 : kstate) (fl1 : list Z)
    (O1 : gmap Z (Z * Z)) : Prop := {
  hs_call : calling base s1 fl1 D O1 k;
  hs_can : can_fork s1 fl1 kf;
  hs_env : exists v1, envs s1 !! k = Some v1 /\ env_status v1 <> ENV_FREE /\ env_pgdir v1 = kva d /\
    env_id v1 = env_id vk /\ env_tf v1 = env_tf vk;
  hs_tables : own_tables s1 D d;
  hs_head : env_free_list s1 = env_free_list s;
  hs_nmaps p : nmaps (pmem s1) D p <= nmaps (pmem s) D p \/ (base p = 0 /\ nmaps (pmem s1) D p = 1)
}.

(** The exception stack page allocated for the caller. *)
Lemma own_stack_state base s s1 fl fl0 fl1 D O O1 k vk d kf p :
  calling base s fl D O k -> can_fork s fl kf -> kernel_dir base D O kf -> envs s !! k = Some vk ->
  env_status vk <> ENV_FREE -> env_pgdir vk = kva d -> d ∈ D -> own_tables s D d -> fl = p :: fl0 ->
  calling base s1 fl1 D O1 k -> xlate_update D s s1 d xstack_page (Some (p, 7)) -> data_same fl D O (pmem s) (pmem s1) ->
  vm_frame s s1 -> dirs_kept D (pmem s) (pmem s1) -> tables_kept fl O O1 -> handler_state base D k d kf vk s s1 fl1 O1.
Proof.
  intros H [[Hkv Hkr Hku Hke] Hh] [Hb1 HkD HkO] Hvk Hlk Hpk Hd Hot Hfl H' Hx Hds Hf Hk Ho. subst fl.
  pose proof (ca_inv _ _ _ _ _ _ H) as INV. pose proof (ca_inv _ _ _ _ _ _ H') as INV'.
  pose proof (ca_base _ _ _ _ _ _ H) as Hb. constructor; [done| | | | |].
  - constructor.
    + constructor; [by rewrite (vf_kern_pgdir _ _ Hf)|by rewrite (vf_npages _ _ Hf)| |].
      * intros Hin. destruct (free_unused INV' kf Hin (Hb _)) as (Hr & H0 & _). rewrite (vi_ref _ _ _ _ _ INV') in H0 by done.
        pose proof (nmaps_nonneg (pmem s1) D kf). destruct (bool_decide (is_Some _)), (bool_decide (kf ∈ D)); cbn [b2z] in H0; lia.
      * intros i Hi. rewrite Hds by done. by apply Hke.
    + intros e. rewrite (vf_env_free_list _ _ Hf), (vf_envs _ _ Hf). apply Hh.
  - exists vk. rewrite (vf_envs _ _ Hf). done.
  - by apply (own_tables_kept s); [..|apply (vf_cr3 _ _ Hf)|].
  - apply (vf_env_free_list _ _ Hf).
  - intros q. assert (0 <= xstack_page < UVPNS) as Hxs by (split; vm_compute; congruence || reflexivity).
    rewrite (nmaps_update (D := D) s s1 d xstack_page (Some (p, 7)) q Hd Hxs Hx). cbn [fmap option_fmap option_map fst].
    destruct (free_unused INV p ltac:(left) (Hb _)) as (Hr & H0 & HpD & HpO & Hn).
    rewrite (vi_ref _ _ _ _ _ INV) in H0 by done. rewrite (nmaps_none _ _ p Hn) in H0. specialize (Hb p).
    destruct (decide (Some p = Some q)) as [Hpq|]; [|left; repeat case_decide; first [lia|congruence]]. injection Hpq as <-. right.
    rewrite (nmaps_none _ _ p Hn). rewrite decide_False.
    + destruct (bool_decide (is_Some _)), (bool_decide (p ∈ D)); cbn [b2z] in H0; lia.
    + rewrite <- maps_xlate. by apply Hn.
Qed.

(** Its entry point recorded. *)
Lemma own_upcall_state base D k d kf vk s s1 fl1 O1 v1 upcall : handler_state base D k d kf vk s s1 fl1 O1 ->
  envs s1 !! k = Some v1 ->
  handler_state base D k d kf vk s (put envs (<[k := put env_pgfault_upcall upcall v1]> (envs s1)) s1) fl1 O1.
Proof.
  intros [Hc [Hk Hh] (w & Hw & Hl & Hp & Hi & Ht) [Ht1 Ht2 Ht3] Hfl Hn] Hv. rewrite Hv in Hw. injection Hw as <-.
  constructor; try done.
  - by eapply calling_upd_env.
  - constructor; [by destruct Hk; constructor|]. intros e He. destruct (Hh e He) as (Hr & v & Hv0 & Hst & Hid).
    split; [done|]. exists v. kred. rewrite lookup_insert_ne; [done|]. intros <-. congruence.
  - exists (put env_pgfault_upcall upcall v1). kred. by rewrite lookup_insert_eq.
Qed.

Lemma set_handler_tries base u fl D O k vk d kf upcall handler (Q : unit -> uprog -> Prop) (E : uprog -> Prop) :
  let s := kern u in
  calling base s fl D O k -> can_fork s fl kf -> envs s !! k = Some vk -> env_status vk <> ENV_FREE ->
  env_pgdir vk = kva d -> d ∈ D -> own_tables s D d -> 0 <= upcall < 2 ^ 32 ->
  (_pgfault_handler u = 0 -> kernel_dir base D O kf) ->
  (forall u', out_of_memory (base := base) (D := D) u' -> E u') ->
  (forall s1 fl1 O1, handler_set D fl O k d upcall (_pgfault_handler u =? 0) s s1 ->
     handler_state base D k d kf vk s s1 fl1 O1 -> Q tt (put _pgfault_handler handler (put kern s1 u))) ->
  tries (set_pgfault_handler upcall handler) Q E u.
Proof.
  intros s H Hcf Hvk Hlk Hpk Hd Hot Hup Hkd HE HQ. unfold set_pgfault_handler. apply tries_bind. eapply tries_Ret; [reflexivity|].
  apply tries_bind. destruct (Z.eqb_spec (_pgfault_handler u) 0) as [H0|H0]; cbn [when].
  2:{ apply tries_ret. eapply tries_Ret; [reflexivity|]. replace (put _pgfault_handler handler u) with
        (put _pgfault_handler handler (put kern s u)) by (by destruct u). apply (HQ s fl O); [done|].
      constructor; try done; [by exists vk|]. intros p. by left. }
  assert (space s k 0 d) as Hsp by (exists k, vk; split; [apply names_self|done]).
  assert (0 <= UXSTACKTOP - PGSIZE < 2 ^ 32) as Hxr by (split; vm_compute; congruence || reflexivity).
  apply tries_bind. unfold Ulib.sys_page_alloc.
  apply (syscall_tries SYS_page_alloc true 0 _ _ 0 0
    (Syscall.sys_page_alloc 0 (UXSTACKTOP - PGSIZE) (Z.lor (Z.lor PTE_U PTE_W) PTE_P))); [reflexivity|].
  eapply wp_mono; [by apply (sys_page_alloc_wp base s fl D O k 0 _ _ H)|].
  intros r s1 [(_ & _ & Hno)|(d0 & Hd0 & Hcase)]; [by destruct (Hno k (names_self _ _ _))|].
  rewrite (space_unique _ _ _ _ _ _ _ _ _ H Hd0 Hsp) in Hcase.
  destruct Hcase as [(_ & _ & Hno)|(_ & _ & Hds & [(-> & Hl & Hc' & _)|
    (-> & p & fl0 & fl1 & O1 & Hfl & Hc1 & Hx & Hz & Hf & Hk & Ho)])].
  - destruct Hno. split; [split; [vm_compute; reflexivity|reflexivity]|split; reflexivity].
  - split; [unfold E_NO_MEM; lia|]. split; [unfold E_NO_MEM; lia|]. change (- E_NO_MEM =? 0) with false. cbn [negb when].
    apply tries_bind, tries_panic, HE. exists fl, O. split; [apply Hc'|done].
  - split; [lia|]. split; [lia|]. cbn [Z.eqb negb when]. apply tries_bind, tries_ret.
    assert (handler_state base D k d kf vk s s1 fl1 O1) as Hs1.
    { eapply (own_stack_state base s s1 fl fl0 fl1 D O O1 k vk d kf p); eauto. }
    assert (envs s1 !! k = Some vk) as Hvk1 by (by rewrite (vf_envs _ _ Hf)).
    pose proof (own_upcall_state _ _ _ _ _ _ _ _ _ _ _ upcall Hs1 Hvk1) as Hs2.
    set (s2 := put envs (<[k := put env_pgfault_upcall upcall vk]> (envs s1)) s1) in *.
    apply tries_bind. unfold Ulib.sys_env_set_pgfault_upcall.
    apply (syscall_tries SYS_env_set_pgfault_upcall true 0 upcall 0 0 0 (Syscall.sys_env_set_pgfault_upcall 0 upcall)).
    { by rewrite (u32_id upcall) by lia. }
    unfold Syscall.sys_env_set_pgfault_upcall.
    destruct (calling_envid _ _ _ _ _ _ 0 true Hc1) as [[_ Hno]|(i & w & dw & He & Hi & _)]; [by destruct (Hno k (names_self _ _ _))|].
    destruct Hi as (Hi & _). rewrite (Hi eq_refl) in He. change (kern (put kern s1 u)) with s1.
    apply wp_bind. eapply wp_Ret; [exact He|]. cbn [fst snd Z.eqb negb]. apply wp_bind, wp_ret, wp_bind.
    eapply wp_Ret; [by apply upd_env_eq|]. apply wp_ret. fold s2. split; [lia|]. split; [lia|].
    cbn [Z.eqb negb when]. apply tries_ret. eapply tries_Ret; [reflexivity|].
    replace (put _pgfault_handler handler (put kern s2 (put kern s1 u))) with (put _pgfault_handler handler (put kern s2 u)) by (by destruct u).
    apply (HQ s2 fl1 O1); [|done]. split; [|split].
    + exists p. split; [rewrite Hfl; left|]. by split.
    + exact Hds.
    + exists vk. split; [done|]. unfold s2. kred. by rewrite (vf_envs _ _ Hf).
Qed.

(** C6: [fork].  Unless memory or environments run out, in which case it calls
    [panic], it sets the program's page fault handler - the first time this maps an
    exception stack, zeroed, in the caller and records its entry point
    ([handler_set]; [s1] is the state after it) - and returns the identifier of a
    new environment, runnable, with the caller's registers except that it will see 0
    returned, and the handler's entry point.  The pages below the stack's top the
    program can use are shared: those that could be written (or were shared already)
    are copy-on-write in both address spaces, the others read-only in the child and as
    they were in the parent; the child has an exception stack of its own, zeroed, and
    nothing else; no other address space has changed, and no page that any address
    space maps has changed contents.  It is assumed that no page is mapped so often
    that its 16-bit reference count could overflow: twice its mappings fit. *)
Theorem fork_correct base u fl D O k vk d kf upcall handler :
  let s := kern u in
  calling base s fl D O k -> can_fork s fl kf -> envs s !! k = Some vk -> env_status vk <> ENV_FREE ->
  env_pgdir vk = kva d -> d ∈ D -> own_tables s D d -> 0 <= upcall < 2 ^ 32 ->
  (_pgfault_handler u = 0 -> kernel_dir base D O kf) ->
  (forall p, base p + 2 * nmaps (pmem s) D p < 65535) ->
  tries (fork upcall handler) (fun r u' => let s' := kern u' in
    _pgfault_handler u' = handler /\ thisenv u' = thisenv u /\
    exists s1, handler_set D fl O k d upcall (_pgfault_handler u =? 0) s s1 /\
    exists e f fl' O' v', env_free_list s = Some e /\ ENVX r = e /\ 0 < r /\ (f ∉ D) /\
      calling base s' fl' ({[f]} ∪ D) O' k /\
      envs s' = <[e := v']> (envs s1) /\ env_id v' = r /\ env_parent_id v' = env_id vk /\
      env_status v' = ENV_RUNNABLE /\ env_tf v' = upd tf_regs (put reg_eax 0) (env_tf vk) /\
      env_pgdir v' = kva f /\ env_pgfault_upcall v' = upcall /\
      (forall v, 0 <= v < UVPNS -> xlate s' d v =
         if decide (v < fork_pages) then parent_page (xlate s1 d v) else xlate s1 d v) /\
      (forall v, 0 <= v < UVPNS -> v <> xstack_page -> xlate s' f v =
         if decide (v < fork_pages) then child_page (xlate s1 d v) else None) /\
      (exists p, xlate s' f xstack_page = Some (p, 7) /\ forall j, word (pmem s') p j = 0) /\
      (forall d' v, d' ∈ D -> d' <> d -> 0 <= v < UVPNS -> xlate s' d' v = xlate s1 d' v) /\
      (forall d' v p j, d' ∈ D -> 0 <= v < UVPNS -> maps (pmem s1) d' v = Some p -> word (pmem s') p j = word (pmem s1) p j))
    (fun u' => env_free_list s = None \/
       exists fl' D' O', vm_inv base (kern u') fl' D' O' /\ (length fl' <= 1)%nat) u.
Proof.
  intros s H Hcf Hvk Hlk Hpk Hd Hot Hup Hkd Hb. unfold fork. apply tries_bind.
  apply (set_handler_tries base u fl D O k vk d kf); try done.
  { intros u' (fl' & O' & INV' & Hl). right. by exists fl', D, O'. }
  intros s1 fl1 O1 Hset [H1 Hcf1 (v1 & Hv1 & Hl1 & Hp1 & Hid1 & Htf1) Hot1 Hfl1 Hn1].
  set (u0 := put _pgfault_handler handler (put kern s1 u)).
  apply tries_bind, (exofork_tries base u0 fl1 D O1 k v1 d kf); try done.
  { intros r Hr Hno. unfold fork_rest. destruct (Z.ltb_spec r 0) as [_|]; [|lia]. apply tries_panic.
    destruct Hno as [Hno| ->]; [left; etrans; [symmetry; exact Hfl1|exact Hno]|right]. exists [], D, O1. split; [apply H1|cbn; lia]. }
  intros r e f v' s2 fl2 [[Efl Hx] HfD Hpa Hes (Hid & Hpar & Hst & Htf & Hpg) Hxs Hz Hnm Hcs].
  change (kern u0) with s1 in *. pose proof (pa_id _ _ _ _ _ _ _ _ _ _ Hpa) as Hr.
  assert (kern (put kern s2 u0) = s2) as Hk2 by (by destruct u).
  eapply tries_weaken; [eapply tries_mono; [apply (fork_rest_tries (base := base) (D := {[f]} ∪ D) (k := k) (d := d) (e := e) (f := f) (id := r)
    upcall (put kern s2 u0) fl2 O1); [by rewrite Hk2|by rewrite Hk2|rewrite Hk2|exact Hup]|]|].
  - intros p. rewrite Hnm. specialize (Hb p). unfold s in Hb. destruct (Hn1 p) as [?|[? ?]]; lia.
  - intros r' u' (-> & (fl' & O' & Hp') & [Hfx Hfs Hfc] & (v0 & Hv0 & Hes') & Hprog). cbv zeta.
    rewrite Hk2 in *. rewrite Hes, lookup_insert_eq in Hv0. injection Hv0 as <-.
    assert (d <> f) as Hdf by (by intros ->).
    split; [exact (f_equal _pgfault_handler Hprog)|]. split; [exact (f_equal thisenv Hprog)|].
    exists s1. split; [exact Hset|].
    exists e, f, fl', O', (put env_status ENV_RUNNABLE (put env_pgfault_upcall upcall v')).
    split; [etrans; [symmetry; exact Hfl1|exact Efl]|]. split; [done|]. split; [lia|]. split; [done|]. split; [apply Hp'|].
    split; [by rewrite Hes', Hes, insert_insert_eq|].
    split; [done|]. split; [by rewrite <- Hid1|]. split; [done|]. split; [by rewrite <- Htf1|]. split; [done|]. split; [done|].
    destruct (fork_views s1 s2 (kern u') D d f) as (Hw1 & Hw2 & Hw3);
      [done|done|done|exact Hxs|exact Hz|by constructor|].
    split; [exact Hw1|]. split; [exact Hw2|]. split; [exact Hfs|]. split; [exact Hw3|].
    intros d' v p j Hd' Hv Hm. rewrite (Hfc d' v p j); [by apply (Hcs d' v)|set_solver|done|].
    revert Hm. rewrite !maps_xlate. by rewrite Hxs.
  - intros u' (fl' & O' & INV' & Hl). right. by exists fl', ({[f]} ∪ D), O'.
Qed.
End Calls.

(** ** A concrete parent *)

(** An entry of a directory above [UTOP] maps nothing for the user. *)
Lemma vm_inv_high_entry base s fl D O d i w :
  vm_inv base s fl D O -> d ∈ D -> ~ 0 <= i < UPDES -> 0 <= w < 2 ^ 32 ->
  vm_inv base (upd pmem (set_word d i w) s) fl D O.
Proof.
  intros [Ha [Hw Hpd Hpde Hown Hmap] Hr] Hd Hi Hwr.
  assert (forall d' i', 0 <= i' < UPDES -> word (set_word d i w (pmem s)) d' i' = word (pmem s) d' i') as Hlow
    by (intros d' i' Hi'; apply word_set_ne; right; by intros ->).
  assert (forall d' v, d' ∈ D -> 0 <= v < UVPNS -> pte (set_word d i w (pmem s)) d' v = pte (pmem s) d' v) as Hpte.
  { intros d' v Hd' Hv. destruct (vpn_split _ Hv) as [Hv1 _]. unfold pte. rewrite Hlow by done.
    destruct (present (word (pmem s) d' (v / 1024))) eqn:Hp; [|done]. apply word_set_ne. left. intros Heq.
    pose proof (Hpde _ _ Hd' Hv1 Hp) as Ho. destruct (Hpd _ Hd) as [_ Hn].
    rewrite <- Heq in Ho. by rewrite Hn in Ho. }
  constructor; [done| |].
  - constructor; try done.
    + by apply set_word_range.
    + intros d' i' Hd' Hi'. kred. rewrite Hlow by done. by apply Hpde.
    + intros f d' i' Ho. kred. pose proof (Hown _ _ _ Ho) as (? & ? & ? & ? & ?). by rewrite Hlow.
    + intros d' v p Hd' Hv. kred. unfold maps. rewrite Hpte by done. by apply Hmap.
  - intros p Hp. kred. rewrite (nmaps_ext (pmem s)).
    + by apply Hr.
    + intros d' v Hd' Hv. apply maps_pte. by apply Hpte.
Qed.

(** A directory that maps itself. *)
Definition mapped_self (d : Z) (s : kstate) : kstate :=
  put cr3 (d * 4096) (upd pmem (set_word d 957 (Z.lor (d * 4096) 5)) s).

Lemma calling_self base s fl D O k d : calling base s fl D O k -> d ∈ D -> 0 <= d < 2 ^ 20 ->
  calling base (mapped_self d s) fl D O k.
Proof.
  intros [Hi Hb [Hid1 Hid2] Hc Hl Hd Hj] Hdd Hr. constructor; [|exact Hb|by constructor|exact Hc|exact Hl|exact Hd|exact Hj].
  apply (vm_inv_proj _ (upd pmem (set_word d 957 (Z.lor (d * 4096) 5)) s)); [reflexivity..|].
  apply vm_inv_high_entry; [exact Hi|exact Hdd|lia|]. apply lor_small; lia.
Qed.

Lemma can_fork_self s fl kf d : can_fork s fl kf -> d <> kf -> can_fork (mapped_self d s) fl kf.
Proof.
  intros [[Hk1 Hk2 Hk3 Hk4] Hh] Hd. constructor; [|exact Hh]. constructor; [exact Hk1|exact Hk2|exact Hk3|].
  intros i Hi. unfold mapped_self. kred. rewrite word_set_ne by (by left). by apply Hk4.
Qed.

(** Mapping a page keeps what [fork] needs of the kernel's directory. *)
Lemma can_fork_kept s s' fl fl' kf : can_fork s fl kf -> vm_frame s s' -> kf ∉ fl' ->
  (forall i, word (pmem s') kf i = word (pmem s) kf i) -> can_fork s' fl' kf.
Proof.
  intros [[Hk1 Hk2 Hk3 Hk4] Hh] Hf Hkf Hw. constructor.
  - constructor; [by rewrite (vf_kern_pgdir _ _ Hf)|by rewrite (vf_npages _ _ Hf)|done|].
    intros i Hi. rewrite Hw. by apply Hk4.
  - intros e. rewrite (vf_env_free_list _ _ Hf), (vf_envs _ _ Hf). apply Hh.
Qed.

(** [fork_demo] running in its own directory. *)
Definition self_demo : kstate := mapped_self 1 fork_demo.

Lemma self_demo_calling : calling boot_refs self_demo [3; 4; 5] {[1]} ∅ 0.
Proof. apply calling_self; [apply fork_demo_calling|set_solver|lia]. Qed.

Lemma self_demo_can : can_fork self_demo [3; 4; 5] 0.
Proof. apply can_fork_self; [apply fork_demo_can|lia]. Qed.

Lemma self_demo_tables : own_tables self_demo {[1]} 1.
Proof.
  constructor; [done|vm_compute; done|]. intros d i ->%elem_of_singleton Hi.
  change (pmem self_demo) with (set_word 1 957 0x1005 (pmem fork_demo)). rewrite word_set_ne by lia.
  unfold word. cbn. by rewrite lookup_empty.
Qed.

Lemma self_demo_maps v : 0 <= v < UVPNS -> maps (pmem self_demo) 1 v = None.
Proof.
  intros Hv. unfold maps, pte.
  change (pmem self_demo) with (set_word 1 957 0x1005 (pmem fork_demo)). rewrite word_set_ne by zlia.
  unfold word. cbn. by rewrite lookup_empty.
Qed.

(** With frame 2 mapped at page [v]. *)
Lemma parent_demo v perm : 0 <= v < UVPNS -> 0 <= perm < 4096 -> exists s fl O,
  calling boot_refs s fl {[1]} O 0 /\ can_fork s fl 0 /\ own_tables s {[1]} 1 /\ envs s !! 0 = Some call_env /\
  xlate s 1 v = Some (2, Z.lor perm PTE_P) /\ env_free_list s = Some 1 /\
  (forall p, boot_refs p + 2 * nmaps (pmem s) {[1]} p < 65535) /\ kernel_dir boot_refs {[1]} O 0.
Proof.
  intros Hv Hperm. assert (PGNUM (v * 4096) = v) as Hpn by (rewrite PGNUM_div by lia; by rewrite Z.div_mul by lia).
  pose proof self_demo_calling as H. pose proof (ca_inv _ _ _ _ _ _ H) as INV.
  assert (mappable self_demo [3; 4; 5] {[1]} ∅ 2) as Hmp.
  { constructor; [cbn; lia|set_solver|set_solver|done|reflexivity]. }
  pose proof (page_insert_full INV boot_refs_nonneg (d := 1) (va := v * 4096) (p := 2) (perm := perm)
    ltac:(set_solver) ltac:(lia) Hperm (calling_cpu_ok _ _ _ _ _ _ H) Hmp) as Hi.
  apply wp_inv in Hi as (r & s & _ & [(_ & _ & Hfl & _)|(fl' & O' & _ & INV' & Hf & Hone & _ & (_ & Hq) & Hds & Hk)]);
    [done|].
  rewrite Hpn in *.
  assert (xlate_update {[1]} self_demo s 1 v (Some (2, Z.lor perm PTE_P))) as Hx.
  { rewrite <- (new_entry_xlate 2 perm) by lia. by apply one_pte_xlate. }
  exists s, fl', O'. split; [by eapply calling_frame|]. split; [|split; [|split; [|split; [|split; [|split]]]]].
  - apply (can_fork_kept self_demo s [3; 4; 5]); [apply self_demo_can|exact Hf| |].
    + destruct (Hq 0 ltac:(set_solver)) as (_ & _ & Hn). apply Hn. left. by rewrite self_demo_maps.
    + intros i. apply Hds; (set_solver || done).
  - apply (own_tables_kept self_demo); [set_solver|apply self_demo_tables|apply (vf_cr3 _ _ Hf)|done].
  - rewrite (vf_envs _ _ Hf). apply call_demo_cur.
  - rewrite (Hx 1 v) by (lia || set_solver). by rewrite decide_True.
  - by rewrite (vf_env_free_list _ _ Hf).
  - intros p. rewrite (nmaps_update (D := {[1]}) self_demo s 1 v (Some (2, Z.lor perm PTE_P))) by (lia || set_solver || done).
    rewrite nmaps_none.
    + unfold boot_refs. destruct (p =? 0); repeat case_decide; lia.
    + intros d v' ->%elem_of_singleton Hv'. by rewrite self_demo_maps.
  - constructor; [done|set_solver|]. destruct (Hq 0 ltac:(set_solver)) as [-> _]. done.
Qed.

Lemma fork_correct_witness : exists u, xlate (kern u) 1 2049 = Some (2, 7) /\ _pgfault_handler u = 0 /\
  tries (fork 0x800020 0x800040) (fun r u' => 0 < r /\ ENVX r = 1 /\ _pgfault_handler u' = 0x800040 /\
      xlate (kern u') 1 2049 = Some (2, 0x805))
    (fun u' => exists fl' D' O', vm_inv boot_refs (kern u') fl' D' O' /\ (length fl' <= 1)%nat) u.
Proof.
  destruct (parent_demo 2049 7 ltac:(lia) ltac:(lia)) as (s & fl & O & H & Hcf & Hot & He & Hx & Hl & Hb & Hkd).
  exists (mkUprog s 0 0). split; [exact Hx|]. split; [done|].
  pose proof (fork_correct boot_refs (mkUprog s 0 0) fl {[1]} O 0 call_env 1 0
    0x800020 0x800040 H Hcf He ltac:(discriminate) eq_refl ltac:(set_solver) Hot ltac:(lia) (fun _ => Hkd) Hb) as Hf.
  eapply tries_weaken; [eapply tries_mono; [exact Hf|]|].
  - intros r u' (Hh & _ & s1 & [(p & _ & Hx1 & _) _] & e & f & fl' & O' & v' & He' & Hr & Hr0 & _ & _ & _ & _ & _ & _ & _ & _ & _ & Hd & _).
    cbn [kern] in He', Hd, Hx1. rewrite Hl in He'. injection He' as <-. split; [exact Hr0|]. split; [exact Hr|].
    split; [exact Hh|]. rewrite (Hd 2049 ltac:(lia)), (Hx1 1 2049 ltac:(set_solver) ltac:(lia)).
    rewrite (decide_False (P := (1, 2049) = (1, xstack_page))), Hx by (clear; intros E; vm_compute in E; congruence). reflexivity.
  - intros u' [Hn|Hm]; [|exact Hm]. cbn [kern] in Hn. by rewrite Hl in Hn.
Defined.
