(* ===== verification/CowSpec.v ===== *)
(** * Properties of the user library: the copy-on-write fault

    What [pgfault], the handler [fork] installs, does to the address space of the
    program that faulted. *)

From Stdlib Require Import Lia ZArith ZifyClasses ZifyInst ZifyBool.
From stdpp Require Import base gmap list strings numbers.
From S2P Require Import Prelude Cmonad Mmu Printfmt Console State Spinlock Umem Pmap.
From S2P Require Import PageList Vm VmInv PmapLem VmLem PmapSpec VmDir Env EnvLem Sched EnvSpec Syscall SyscallSpec IpcSpec Ulib UlibSpec.

(** The program runs in slot [k] and directory [d]. *)
Record running (base : Z -> Z) (D : gset Z) (k d : Z) (s : kstate) (fl : list Z) (O : gmap Z (Z * Z)) : Prop := {
  ru_call : calling base s fl D O k;
  ru_self : exists v, envs s !! k = Some v /\ env_status v <> ENV_FREE /\ env_pgdir v = kva d;
  ru_d : d ∈ D;
  ru_tables : own_tables s D d
}.

Section Running.
Context {base : Z -> Z} {D : gset Z} {k d : Z}.

Lemma running_space s fl O : running base D k d s fl O -> space s k 0 d.
Proof.
  intros H. destruct (ru_self _ _ _ _ _ _ _ H) as (v & Hv & Hst & Hp). exists k, v.
  split; [apply names_self|done].
Qed.

Lemma running_inv s fl O : running base D k d s fl O -> vm_inv base s fl D O.
Proof. intros H. apply H. Qed.

Lemma running_frame s s' fl fl' O O' : running base D k d s fl O -> vm_frame s s' ->
  dirs_kept D (pmem s) (pmem s') -> calling base s' fl' D O' k -> running base D k d s' fl' O'.
Proof.
  intros [Hc Hs Hd Ht] Hf Hk Hc'. constructor; try done.
  - by rewrite (vf_envs _ _ Hf).
  - by apply (own_tables_kept s); [..|apply (vf_cr3 _ _ Hf)|].
Qed.

(** The processor's translation is the invariant's, when the entry of the
    directory is open. *)
Lemma user_translate_xlate s fl O v p flags (write : bool) :
  running base D k d s fl O -> 0 <= v < UVPNS -> xlate s d v = Some (p, flags) -> tst flags PTE_U = true ->
  (write = true -> tst flags PTE_W = true) -> user_translate s (v * 4096) write = Some (p * 4096).
Proof.
  intros H Hv Hx HU HW. pose proof (running_inv _ _ _ H) as INV. pose proof (vi_vm _ _ _ _ _ INV) as Hok.
  unfold xlate in Hx. destruct (present (pte (pmem s) d v)) eqn:Hp; [|done]. injection Hx as <- <-.
  change PTE_U with (2 ^ 2) in HU. change PTE_W with (2 ^ 1) in HW.
  rewrite tst_flags in HU by lia. rewrite tst_flags in HW by lia.
  unfold pte in *. destruct (present (word (pmem s) d (v / 1024))) eqn:Hpd; [|done].
  destruct (vpn_split _ Hv) as [Hi Ho].
  destruct (ot_user _ _ _ (ru_tables _ _ _ _ _ _ _ H) d _ (ru_d _ _ _ _ _ _ _ H) Hi Hpd) as [HUd HWd].
  unfold user_translate. rewrite (ot_cr3 _ _ _ (ru_tables _ _ _ _ _ _ _ H)). change PGSIZE with 4096.
  rewrite Z.div_mul by lia.
  assert (PDX (v * 4096) = v / 1024) as -> by (rewrite PDX_div by lia; zlia).
  assert (PTX (v * 4096) = v mod 1024) as -> by (rewrite PTX_div by lia; zlia).
  rewrite (PTE_ADDR_fr (word (pmem s) d _)) by apply (vo_word _ _ _ _ Hok). rewrite Z.div_mul by lia.
  unfold present in Hp, Hpd. change PTE_U with (2 ^ 2) in *. change PTE_W with (2 ^ 1) in *.
  rewrite Hpd, HUd, Hp, HU, HWd. cbn [andb].
  rewrite (PTE_ADDR_fr (word _ (fr _) _)) by apply (vo_word _ _ _ _ Hok).
  rewrite PGOFF_mod by lia. rewrite Z.mod_mul by lia.
  destruct write; cbn [negb orb]; [rewrite HW by done|]; f_equal; lia.
Qed.

(** A data page overwritten by another page's words. *)
Lemma running_copy s fl O p q : running base D k d s fl O -> q ∉ D -> O !! q = None ->
  running base D k d (upd pmem (fun m => <[q := default ∅ (m !! p)]> m) s) fl O /\
  (forall j, word (<[q := default ∅ (pmem s !! p)]> (pmem s)) q j = word (pmem s) p j) /\
  outside q (pmem s) (<[q := default ∅ (pmem s !! p)]> (pmem s)).
Proof.
  intros H HqD HqO. set (m' := <[q := default ∅ (pmem s !! p)]> (pmem s)).
  assert (forall j, word m' q j = word (pmem s) p j) as Hw.
  { intros j. unfold word, m'. rewrite lookup_insert_eq. by destruct (pmem s !! p). }
  assert (outside q (pmem s) m') as Hout.
  { intros f i Hf. unfold word, m'. by rewrite lookup_insert_ne. }
  split; [|done]. pose proof (running_inv _ _ _ H) as INV. destruct H as [[Hi Hb [Hid1 Hid2] Hc Hl Hdd Hj] Hs Hd [Ht1 Ht2 Ht3]].
  constructor; [|done|done|].
  - constructor; try done. apply (vm_inv_data base s fl D O q m'); try done.
    intros i. rewrite Hw. apply (vo_word _ _ _ _ (vi_vm _ _ _ _ _ INV)).
  - constructor; [done| |].
    + change (word m' d 957 = Z.lor (d * 4096) 5). rewrite Hout; [done|]. by intros <-.
    + intros d' i Hd' Hi'. change (present (word m' d' i) = true -> open_pde (word m' d' i)).
      rewrite Hout by (by intros ->). by apply Ht3.
Qed.

(** ** The calls that map pages, as the program makes them *)

Lemma page_va v : 0 <= v < UVPNS -> 0 <= v * 4096 < 2 ^ 32 /\ va_ok (v * 4096) /\ PGNUM (v * 4096) = v.
Proof.
  intros Hv. split; [lia|]. split; [split; [lia|by rewrite Z.mod_mul by lia]|].
  rewrite PGNUM_div by lia. by rewrite Z.div_mul by lia.
Qed.

(** [sys_page_alloc] in the address space of [x]: the program's own or a child's. *)
Lemma alloc_tries x d2 v perm msg u fl O (Q : unit -> uprog -> Prop) :
  running base D k d (kern u) fl O -> space (kern u) k x d2 -> 0 <= x < 2 ^ 31 -> 0 <= v < UVPNS -> perm_ok perm ->
  (forall u' p fl0 fl' O', fl = p :: fl0 -> running base D k d (kern u') fl' O' ->
     mapped_one (D := D) (kern u) (kern u') fl O d2 v (Some (p, Z.lor perm PTE_P)) ->
     (forall j, word (pmem (kern u')) p j = 0) -> put kern (kern u) u' = u -> Q tt u') ->
  tries (r ← Ulib.sys_page_alloc x (v * 4096) perm; when (r <? 0) (panic msg)) Q (out_of_memory (base := base) (D := D)) u.
Proof.
  intros H Hs Hx Hv Hp HQ. pose proof (perm_ok_range _ Hp) as Hpr. destruct (page_va v Hv) as (Hr & Hva & Hpn).
  pose proof (ru_call _ _ _ _ _ _ _ H) as Hc.
  apply tries_bind. unfold Ulib.sys_page_alloc.
  apply (syscall_tries SYS_page_alloc true x _ _ 0 0 (Syscall.sys_page_alloc x (v * 4096) perm)).
  { rewrite !u32_id by lia. transitivity (Syscall.sys_page_alloc (s32 x) (v * 4096) (s32 perm)); [reflexivity|].
    by rewrite !s32_id by lia. }
  eapply wp_mono; [exact (sys_page_alloc_wp base _ fl D O k x (v * 4096) perm Hc Hr)|].
  intros r s' [(_ & _ & Hno)|(d0 & H0 & Hcase)].
  { destruct Hs as (i & w & Hn & _). by destruct (Hno i). }
  rewrite (space_unique _ _ _ _ _ _ _ _ _ Hc H0 Hs), Hpn in Hcase.
  destruct Hcase as [(_ & _ & Hno)|(_ & _ & Hds & [(-> & Hl & Hc' & _)|
    (-> & p & fl0 & fl' & O' & Hfl & Hc' & Hxl & Hz & Hf & Hk & _)])]; [by destruct Hno| |].
  - split; [unfold E_NO_MEM; lia|]. split; [unfold E_NO_MEM; lia|].
    change (- E_NO_MEM <? 0) with true. cbn [when]. apply tries_panic. exists fl, O. split; [apply Hc'|done].
  - split; [lia|]. split; [lia|]. change (0 <? 0) with false. cbn [when]. apply tries_ret.
    apply (HQ (put kern s' u) p fl0 fl' O'); try done; [by eapply running_frame|by destruct u].
Qed.

(** [sys_page_map] from the address space of [x] into the program's own. *)
Lemma map_tries x d1 v v' p perm msg u fl O (Q : unit -> uprog -> Prop) (E : uprog -> Prop) :
  running base D k d (kern u) fl O -> space (kern u) k x d1 -> 0 <= x < 2 ^ 31 ->
  0 <= v < UVPNS -> 0 <= v' < UVPNS -> perm_ok perm ->
  maps (pmem (kern u)) d1 v = Some p -> ref (kern u) p < 65535 ->
  (fl = [] -> present (word (pmem (kern u)) d (v' / 1024)) = false -> E u) ->
  (forall u' fl' O', running base D k d (kern u') fl' O' ->
     mapped_one (D := D) (kern u) (kern u') fl O d v' (Some (p, Z.lor perm PTE_P)) ->
     put kern (kern u) u' = u -> Q tt u') ->
  tries (r ← Ulib.sys_page_map x (v * 4096) 0 (v' * 4096) perm; when (r <? 0) (panic msg)) Q E u.
Proof.
  intros H Hsx Hx Hv Hv' Hp Hm Hr HE HQ. pose proof (perm_ok_range _ Hp) as Hpr.
  destruct (page_va v Hv) as (Hr1 & Hva1 & Hpn1). destruct (page_va v' Hv') as (Hr2 & Hva2 & Hpn2).
  pose proof (running_space _ _ _ H) as Hs. pose proof (ru_call _ _ _ _ _ _ _ H) as Hc.
  apply tries_bind. unfold Ulib.sys_page_map.
  apply (syscall_tries SYS_page_map true x _ 0 _ _ (Syscall.sys_page_map x (v * 4096) 0 (v' * 4096) perm)).
  { rewrite !u32_id by lia.
    transitivity (Syscall.sys_page_map (s32 x) (v * 4096) (s32 0) (v' * 4096) (s32 perm)); [reflexivity|].
    by rewrite !s32_id by lia. }
  eapply wp_mono; [refine (sys_page_map_wp base _ fl D O k x (v * 4096) 0 (v' * 4096) perm Hc Hr1 Hr2 _)|].
  { intros d0 Hd0 _. rewrite (space_unique _ _ _ _ _ _ _ _ _ Hc Hd0 Hsx), Hpn1. by exists p. }
  intros r s' [(_ & _ & Hno)|(d0 & d2 & H0 & H2 & Hcase)].
  { destruct Hno. destruct Hsx as (i & w & Hn & _). split; [by exists i|exists k; apply names_self]. }
  rewrite (space_unique _ _ _ _ _ _ _ _ _ Hc H0 Hsx), (space_unique _ _ _ _ _ _ _ _ _ Hc H2 Hs), Hpn1, Hpn2 in Hcase.
  destruct Hcase as [(_ & _ & Hno)|(_ & _ & _ & [(-> & -> & Hfl & Hnp)|
    (-> & p' & fl' & O' & Hp' & Hc' & Hds & Hxl & Hfr & Hk & _)])]; [by destruct Hno| |].
  - split; [unfold E_NO_MEM; lia|]. split; [unfold E_NO_MEM; lia|].
    change (- E_NO_MEM <? 0) with true. cbn [when]. apply tries_panic.
    rewrite PDX_div in Hnp by lia. replace (v' * 4096 / 4194304) with (v' / 1024) in Hnp by zlia.
    replace (put kern (kern u) u) with u by (by destruct u). by apply HE.
  - rewrite Hm in Hp'. injection Hp' as <-. split; [lia|]. split; [lia|].
    change (0 <? 0) with false. cbn [when]. apply tries_ret.
    apply (HQ (put kern s' u) fl' O'); try done; [by eapply running_frame|by destruct u].
Qed.

Lemma self_unmap_tries v p msg u fl O (Q : unit -> uprog -> Prop) E :
  running base D k d (kern u) fl O -> 0 <= v < UVPNS -> maps (pmem (kern u)) d v = Some p ->
  (forall u' fl', running base D k d (kern u') fl' O ->
     mapped_one (D := D) (kern u) (kern u') [] O d v None -> put kern (kern u) u' = u -> Q tt u') ->
  tries (r ← Ulib.sys_page_unmap 0 (v * 4096); when (r <? 0) (panic msg)) Q E u.
Proof.
  intros H Hv Hm HQ. destruct (page_va v Hv) as (Hr & Hva & Hpn).
  pose proof (running_space _ _ _ H) as Hs. pose proof (ru_call _ _ _ _ _ _ _ H) as Hc.
  apply tries_bind. unfold Ulib.sys_page_unmap.
  apply (syscall_tries SYS_page_unmap true 0 _ 0 0 0 (Syscall.sys_page_unmap 0 (v * 4096))).
  { rewrite !u32_id by lia. transitivity (Syscall.sys_page_unmap (s32 0) (v * 4096)); [reflexivity|].
    by rewrite !s32_id by lia. }
  eapply wp_mono; [refine (sys_page_unmap_wp base _ fl D O k 0 (v * 4096) Hc Hr _)|].
  { intros d0 Hd0 _ _. rewrite (space_unique _ _ _ _ _ _ _ _ _ Hc Hd0 Hs), Hpn. by exists p. }
  intros r s' [(_ & _ & Hno)|(d0 & H0 & Hcase)].
  { destruct (Hno k). apply names_self. }
  rewrite (space_unique _ _ _ _ _ _ _ _ _ Hc H0 Hs), Hpn, Hm in Hcase.
  destruct Hcase as [(_ & _ & Hno)|(-> & _ & Hxl & Hc' & _ & Hds & Hf & Hk)]; [by destruct Hno|].
  split; [lia|]. split; [lia|]. change (0 <? 0) with false. cbn [when]. apply tries_ret.
  apply (HQ (put kern s' u) (if ref (kern u) p =? 1 then p :: fl else fl)); try done; [by eapply running_frame|by destruct u].
Qed.
(** One page of the program copied onto another one. *)
Lemma copy_page_tries v p flags v2 q u fl O (Q : unit -> uprog -> Prop) E :
  running base D k d (kern u) fl O -> 0 <= v < UVPNS -> xlate (kern u) d v = Some (p, flags) -> tst flags PTE_U = true ->
  0 <= v2 < UVPNS -> xlate (kern u) d v2 = Some (q, 7) ->
  (forall u', running base D k d (kern u') fl O ->
     (forall d' v', d' ∈ D -> 0 <= v' < UVPNS -> xlate (kern u') d' v' = xlate (kern u) d' v') ->
     outside q (pmem (kern u)) (pmem (kern u')) -> (forall j, word (pmem (kern u')) q j = word (pmem (kern u)) p j) ->
     vm_frame (kern u) (kern u') -> pages (kern u') = pages (kern u) -> put kern (kern u) u' = u -> Q tt u') ->
  tries (user_copy_page (v2 * 4096) (v * 4096)) Q E u.
Proof.
  intros H Hv Hx HU Hv2 Hx2 HQ. pose proof (vi_vm _ _ _ _ _ (running_inv _ _ _ H)) as Hok.
  assert (maps (pmem (kern u)) d v2 = Some q) as Hm2 by (by rewrite maps_xlate, Hx2).
  destruct (vo_map _ _ _ _ Hok _ _ _ (ru_d _ _ _ _ _ _ _ H) Hv2 Hm2) as (_ & HqD & HqO).
  destruct (running_copy _ _ _ p q H HqD HqO) as (H1 & Hw & Hout).
  eapply tries_Ret.
  { unfold user_copy_page. rewrite (user_translate_xlate _ _ _ _ _ _ false H Hv Hx HU) by done.
    rewrite (user_translate_xlate _ _ _ _ _ _ true H Hv2 Hx2) by done. reflexivity. }
  change PGSIZE with 4096. rewrite !Z.div_mul by lia.
  apply HQ; [exact H1| |exact Hout|exact Hw|by constructor|done|by destruct u].
  intros d' v' Hd' Hv'. unfold xlate. by rewrite (pte_outside Hok HqD HqO Hout) by done.
Qed.
End Running.

(** ** The test for a copy-on-write fault *)

Lemma tst_lnot_cow e : tst (Z.lnot e) (Z.lor PTE_COW PTE_P) = negb (tst e PTE_COW && tst e PTE_P).
Proof.
  assert (forall x a b, tst x (Z.lor a b) = tst x a || tst x b) as Hlor.
  { intros x a b. unfold tst. rewrite Z.land_lor_distr_r.
    destruct (Z.eqb_spec (Z.lor (Z.land x a) (Z.land x b)) 0) as [[-> ->]%Z.lor_eq_0_iff|Hn]; [done|].
    destruct (Z.eqb_spec (Z.land x a) 0) as [E1|]; [|done]. destruct (Z.eqb_spec (Z.land x b) 0) as [E2|]; [|done].
    by rewrite E1, E2 in Hn. }
  rewrite Hlor. change PTE_COW with (2 ^ 11). change PTE_P with (2 ^ 0). rewrite !tst_pow2, !Z.lnot_spec by lia.
  by rewrite negb_andb.
Qed.

(** A write to a page that is mapped copy-on-write. *)
Definition cow_fault (s : kstate) (d v err : Z) : bool :=
  tst err FEC_WR && match xlate s d v with Some (_, flags) => tst flags PTE_COW | None => false end.

(** The page [pgfault] copies through. *)
Definition temp_page : Z := PFTEMP / PGSIZE.

Lemma pgfault_test {base u fl D O k d va err} (Q : bool -> uprog -> Prop) E :
  running base D k d (kern u) fl O -> 0 <= va < UTOP -> Q (negb (cow_fault (kern u) d (PGNUM va) err)) u ->
  tries (if Z.land err FEC_WR =? 0 then mret true
         else
           pde ← uvpd (PDX va);
           if Z.land pde PTE_P =? 0 then mret true
           else
             e ← uvpt (PGNUM va);
             mret (negb (Z.land (Z.lnot e) (Z.lor PTE_COW PTE_P) =? 0))) Q E u.
Proof.
  intros H Hva HQ. pose proof (running_inv _ _ _ H) as INV. pose proof (ru_tables _ _ _ _ _ _ _ H) as OT.
  destruct (PDX_vpn va Hva) as (HD & _ & Hg & Hi & _).
  assert (forall x m, (Z.land x m =? 0) = negb (tst x m)) as Htst by (intros; unfold tst; by rewrite negb_involutive).
  rewrite Htst. revert HQ. unfold cow_fault. destruct (tst err FEC_WR); [|done]. cbn [negb andb]. intros HQ.
  apply tries_bind. eapply tries_Ret; [apply (uvpd_eq INV OT); lia|]. rewrite Htst.
  fold (present (word (pmem (kern u)) d (PDX va))).
  destruct (present (word (pmem (kern u)) d (PDX va))) eqn:Hp; cbn [negb].
  - apply tries_bind. eapply tries_Ret; [apply (uvpt_eq INV (ru_d _ _ _ _ _ _ _ H) OT _ Hg); by rewrite <- HD|].
    apply tries_ret. rewrite Htst, tst_lnot_cow, negb_involutive. revert HQ. unfold xlate.
    fold (present (pte (pmem (kern u)) d (PGNUM va))).
    destruct (present (pte (pmem (kern u)) d (PGNUM va))) eqn:Hpp.
    + change PTE_COW with (2 ^ 11). rewrite tst_flags by lia. by rewrite andb_true_r.
    + by rewrite andb_false_r.
  - apply tries_ret. revert HQ. unfold xlate, pte. rewrite <- HD, Hp. done.
Qed.

(** Mapping or unmapping one page leaves the contents of the pages that are
    mapped before and after alone. *)
Lemma mapped_one_word {base D k d} {s s' fl fl' O O' d0 v0 t d' v' p} j :
  running base D k d s fl O -> running base D k d s' fl' O' -> d' ∈ D -> 0 <= v' < UVPNS ->
  maps (pmem s) d' v' = Some p -> (d', v') <> (d0, v0) -> forall fl0 O0, mapped_one (D := D) s s' fl0 O0 d0 v0 t ->
  (fl0 = fl /\ O0 = O \/ fl0 = [] /\ O0 = O') -> word (pmem s') p j = word (pmem s) p j.
Proof.
  intros H H' Hd' Hv' Hm Hne fl0 O0 (Hx & Hds & Hf) Hfl. pose proof (running_inv _ _ _ H) as INV.
  destruct (vo_map _ _ _ _ (vi_vm _ _ _ _ _ INV) _ _ _ Hd' Hv' Hm) as (_ & HD & HO).
  assert (maps (pmem s') d' v' = Some p) as Hm'.
  { rewrite maps_xlate, (Hx d' v'), decide_False by done. by rewrite <- maps_xlate. }
  destruct (vo_map _ _ _ _ (vi_vm _ _ _ _ _ (running_inv _ _ _ H')) _ _ _ Hd' Hv' Hm') as (_ & _ & HO').
  destruct Hfl as [[-> ->]|[-> ->]]; apply Hds; try done; [|by apply not_elem_of_nil].
  apply (mapped_not_free INV p d' v' Hd' Hv' Hm). apply (ca_base _ _ _ _ _ _ (ru_call _ _ _ _ _ _ _ H)).
Qed.

(** From [s] to [s']: page [v] of [d] is frame [q], writable, with the contents
    [p] had; [temp_page] is not mapped; nothing else has changed. *)
Record cow_copied (D : gset Z) (d v p q : Z) (s s' : kstate) : Prop := {
  cc_xlate d' v' : d' ∈ D -> 0 <= v' < UVPNS -> xlate s' d' v' =
    if decide ((d', v') = (d, v)) then Some (q, 7)
    else if decide ((d', v') = (d, temp_page)) then None else xlate s d' v';
  cc_copy j : word (pmem s') q j = word (pmem s) p j;
  cc_contents d' v' p' j : d' ∈ D -> 0 <= v' < UVPNS -> (d', v') <> (d, v) -> (d', v') <> (d, temp_page) ->
    maps (pmem s) d' v' = Some p' -> word (pmem s') p' j = word (pmem s) p' j;
  cc_frame : vm_frame s s'
}.

(** The copy, and the remapping, from the state in which the page to copy through
    has been made: it is mapped nowhere else. *)
Lemma pgfault_rest {base u fl D O k d v p flags q} (Q : unit -> uprog -> Prop) E :
  running base D k d (kern u) fl O -> 0 <= v < UVPNS -> v <> temp_page ->
  xlate (kern u) d v = Some (p, flags) -> tst flags PTE_U = true ->
  xlate (kern u) d temp_page = Some (q, 7) -> ref (kern u) q < 65535 ->
  (forall d' v', d' ∈ D -> 0 <= v' < UVPNS -> (d', v') <> (d, temp_page) -> maps (pmem (kern u)) d' v' <> Some q) ->
  (forall u' fl' O', running base D k d (kern u') fl' O' -> cow_copied D d v p q (kern u) (kern u') ->
     put kern (kern u) u' = u -> Q tt u') ->
  tries (user_copy_page PFTEMP (v * 4096) ;;
    r ← Ulib.sys_page_map 0 PFTEMP 0 (v * 4096) (Z.lor (Z.lor PTE_W PTE_U) PTE_P);
    when (r <? 0) (panic "sys_page_map failed") ;;
    r ← Ulib.sys_page_unmap 0 PFTEMP;
    when (r <? 0) (panic "sys_page_unmap failed")) Q E u.
Proof.
  intros H Hv Hne Hx HU Hxt Hr Honly HQ. pose proof (vi_vm _ _ _ _ _ (running_inv _ _ _ H)) as Hok.
  assert (0 <= temp_page < UVPNS) as Ht by (split; vm_compute; congruence || reflexivity).
  pose proof (ru_d _ _ _ _ _ _ _ H) as Hd.
  assert (maps (pmem (kern u)) d temp_page = Some q) as Hmt by (by rewrite maps_xlate, Hxt).
  destruct (vo_map _ _ _ _ Hok _ _ _ Hd Ht Hmt) as (_ & HqD & _).
  change PFTEMP with (temp_page * 4096). change (Z.lor (Z.lor PTE_W PTE_U) PTE_P) with 7.
  apply tries_bind, (copy_page_tries (base := base) (D := D) (k := k) (d := d) v p flags temp_page q u fl O); try done.
  intros u1 H1 Hx1 Hout Hw Hf1 Hg1 Hp1.
  assert (present (word (pmem (kern u1)) d (v / 1024)) = true) as Hpd.
  { rewrite Hout by (by intros <-).
    revert Hx. unfold xlate, pte. by destruct (present (word (pmem (kern u)) d (v / 1024))). }
  assert ((d, temp_page) <> (d, v)) as Hne' by (intros [= ?]; by apply Hne).
  apply (tries_assoc _ (fun r => when (r <? 0) (panic "sys_page_map failed"))). apply tries_bind.
  apply (map_tries (base := base) (D := D) (k := k) (d := d) 0 d temp_page v q 7 _ u1 fl O); try done;
    [by eapply running_space|by rewrite maps_xlate, Hx1, Hxt|unfold ref; by rewrite Hg1|by rewrite Hpd|].
  intros u2 fl2 O2 H2 Hm2 Hp2. change (Z.lor 7 PTE_P) with 7 in Hm2. pose proof (proj1 Hm2) as Hx2.
  assert (xlate (kern u2) d temp_page = Some (q, 7)) as Hxt2 by (by rewrite (Hx2 d temp_page), decide_False, Hx1).
  apply (self_unmap_tries (base := base) (D := D) (k := k) (d := d) temp_page q _ u2 fl2 O2); try done; [by rewrite maps_xlate, Hxt2|].
  intros u3 fl3 H3 Hm3 Hp3. pose proof (proj1 Hm3) as Hx3.
  assert (forall d' v', d' ∈ D -> 0 <= v' < UVPNS -> maps (pmem (kern u1)) d' v' = maps (pmem (kern u)) d' v') as Hmm1
    by (intros; by rewrite !maps_xlate, Hx1).
  apply (HQ u3 fl3 O2); [done| |].
  - constructor.
    + intros d' v' Hd' Hv'. rewrite (Hx3 d' v'), (Hx2 d' v'), Hx1 by done. by repeat case_decide; try congruence.
    + intros j. assert (maps (pmem (kern u2)) d v = Some q) as Hmv
        by (by rewrite maps_xlate, (Hx2 d v), decide_True).
      rewrite (mapped_one_word j H2 H3 Hd Hv Hmv (not_eq_sym Hne') _ _ Hm3) by (right; done).
      rewrite (mapped_one_word (p := q) j H1 H2 Hd Ht ltac:(rewrite Hmm1 by done; exact Hmt) Hne' _ _ Hm2) by (left; done).
      apply Hw.
    + intros d' v' p' j Hd' Hv' Hn1 Hn2 Hm.
      assert (maps (pmem (kern u2)) d' v' = Some p') as Hmv
        by (rewrite maps_xlate, (Hx2 d' v'), decide_False, <- maps_xlate by done; by rewrite Hmm1).
      rewrite (mapped_one_word j H2 H3 Hd' Hv' Hmv Hn2 _ _ Hm3) by (right; done).
      rewrite (mapped_one_word (p := p') j H1 H2 Hd' Hv' ltac:(rewrite Hmm1 by done; exact Hm) Hn1 _ _ Hm2) by (left; done).
      apply Hout. intros ->. by apply (Honly d' v').
    + etrans; [exact Hf1|]. etrans; [apply Hm2|apply Hm3].
  - transitivity (put kern (kern u) (put kern (kern u2) u3)); [by destruct u3|]. rewrite Hp3.
    transitivity (put kern (kern u) (put kern (kern u1) u2)); [by destruct u2|]. by rewrite Hp2.
Qed.

(** A page fresh from the free list is referenced by its one mapping. *)
Lemma fresh_mapping {base D k d d2} {u u' : uprog} {fl fl' O O' q v perm} :
  running base D k d (kern u) fl O -> running base D k d (kern u') fl' O' -> q ∈ fl -> d2 ∈ D -> 0 <= v < UVPNS ->
  xlate_update D (kern u) (kern u') d2 v (Some (q, perm)) ->
  ref (kern u') q = 1 /\
  forall d' v', d' ∈ D -> 0 <= v' < UVPNS -> (d', v') <> (d2, v) -> maps (pmem (kern u')) d' v' <> Some q.
Proof.
  intros H H' Hq Hd Hv Hx. pose proof (running_inv _ _ _ H) as INV.
  pose proof (ca_base _ _ _ _ _ _ (ru_call _ _ _ _ _ _ _ H) q) as Hb.
  destruct (free_unused INV q Hq Hb) as (Hqr & Hr0 & HqD & HqO & Hno).
  rewrite (vi_ref _ _ _ _ _ INV q Hqr), HqO, (bool_decide_eq_false_2 (q ∈ D)) in Hr0 by done. cbn in Hr0.
  pose proof (nmaps_nonneg (pmem (kern u)) D q) as Hnn.
  assert (xlate (kern u') d2 v = Some (q, perm)) as Hxq by (by rewrite (Hx d2 v), decide_True).
  split.
  - rewrite (ref_nmaps _ _ _ d2 v q (running_inv _ _ _ H') Hd Hv) by (by rewrite maps_xlate, Hxq).
    rewrite (nmaps_update _ _ d2 v _ q Hd Hv Hx), <- maps_xlate.
    rewrite decide_False by (by apply Hno). rewrite decide_True by done. lia.
  - intros d' v' Hd' Hv' Hne. rewrite maps_xlate, (Hx d' v'), decide_False, <- maps_xlate by done. by apply Hno.
Qed.

(** C7: [pgfault] on a fault of the running program below [UTOP], away from the
    page it copies through.  If the fault is not a write, or the page is not mapped
    copy-on-write, it calls [panic] and has changed nothing.  Otherwise, unless
    memory runs out, in which case it calls [panic], it puts a page that was free in
    the place of the faulting one, writable, with the same contents; the page it
    copied through is unmapped again, every other translation of every address
    space is the same, and so are the contents of every other page mapped. *)
Theorem pgfault_correct base u fl D O k d va err :
  let s := kern u in let v := PGNUM va in
  running base D k d s fl O -> 0 <= va < UTOP -> v <> temp_page ->
  (forall p flags, xlate s d v = Some (p, flags) -> tst flags PTE_U = true) ->
  tries (pgfault va err)
    (fun _ u' => cow_fault s d v err = true /\ exists p flags q fl' O',
       xlate s d v = Some (p, flags) /\ q ∈ fl /\ running base D k d (kern u') fl' O' /\
       cow_copied D d v p q s (kern u') /\ put kern s u' = u)
    (fun u' => if cow_fault s d v err then out_of_memory (base := base) (D := D) u' else u' = u) u.
Proof.
  intros s v H Hva Hne Hu. destruct (PDX_vpn va Hva) as (_ & _ & Hg & _).
  unfold pgfault. apply tries_bind. apply (pgfault_test _ _ H Hva). fold s v.
  destruct (cow_fault s d v err) eqn:Hcow; cbn [negb].
  2:{ apply tries_bind, tries_when; [intros _; by apply tries_panic|done]. }
  apply tries_bind, tries_when; [done|intros _].
  assert (exists p flags, xlate s d v = Some (p, flags)) as (p & flags & Hx).
  { unfold cow_fault in Hcow. destruct (xlate s d v) as [[p flags]|]; [by exists p, flags|].
    by rewrite andb_false_r in Hcow. }
  rewrite ROUNDDOWN_spec by lia. rewrite <- PGNUM_div by lia. fold v.
  assert (0 <= temp_page < UVPNS) as Ht by (split; vm_compute; congruence || reflexivity).
  assert ((d, v) <> (d, temp_page)) as Hne' by (intros [= ?]; by apply Hne).
  change (Ulib.sys_page_alloc 0 PFTEMP (Z.lor (Z.lor PTE_W PTE_U) PTE_P))
    with (Ulib.sys_page_alloc 0 (temp_page * 4096) 7).
  apply (tries_assoc _ (fun r => when (r <? 0) (panic "sys_page_alloc failed"))). apply tries_bind.
  apply (alloc_tries (base := base) (D := D) (k := k) (d := d) 0 d temp_page 7 _ u fl O);
    [done|by eapply running_space|lia|done|split; reflexivity|].
  intros u1 q fl0 fl1 O1 Hfl H1 (Hx1 & Hd1 & Hf1) _ Hp1. change (Z.lor 7 PTE_P) with 7 in Hx1.
  assert (q ∈ fl) as Hq by (rewrite Hfl; by left).
  pose proof (ru_d _ _ _ _ _ _ _ H) as Hd.
  destruct (fresh_mapping H H1 Hq Hd Ht Hx1) as [Hr Honly].
  apply (pgfault_rest (base := base) (fl := fl1) (D := D) (O := O1) (k := k) (d := d) (p := p) (flags := flags) (q := q));
    try done; [by rewrite (Hx1 d v), decide_False|by eapply Hu|by rewrite (Hx1 d temp_page), decide_True|lia|].
  intros u2 fl2 O2 H2 [Hx2 Hc2 Hk2 Hf2] Hp2. split; [done|]. exists p, flags, q, fl2, O2.
  split; [done|]. split; [done|]. split; [done|]. split.
  - pose proof (running_inv _ _ _ H) as INV.
    assert (forall d' v' p' j, d' ∈ D -> 0 <= v' < UVPNS -> (d', v') <> (d, temp_page) ->
      maps (pmem s) d' v' = Some p' -> word (pmem (kern u1)) p' j = word (pmem s) p' j) as Hw1.
    { intros d' v' p' j Hd' Hv' Hn Hm. eapply (mapped_one_word j H H1 Hd' Hv' Hm Hn); [by split_and!|by left]. }
    constructor.
    + intros d' v' Hd' Hv'. rewrite Hx2, (Hx1 d' v') by done. by repeat case_decide.
    + intros j. rewrite Hc2. apply (Hw1 d v); [done..|]. by rewrite maps_xlate, Hx.
    + intros d' v' p' j Hd' Hv' Hn1 Hn2 Hm. rewrite (Hk2 d' v'); [by apply (Hw1 d' v')|done..|].
      by rewrite maps_xlate, (Hx1 d' v'), decide_False, <- maps_xlate by done.
    + by etrans.
  - rewrite <- Hp1, <- Hp2. by destruct u2.
Qed.

Lemma pgfault_correct_witness : exists u, xlate (kern u) 1 2049 = Some (2, 0x805) /\
  tries (pgfault 0x801234 FEC_WR) (fun _ u' => exists q, xlate (kern u') 1 2049 = Some (q, 7) /\ q <> 2)
    (fun u' => exists fl O, vm_inv boot_refs (kern u') fl {[1]} O /\ (length fl <= 1)%nat) u.
Proof.
  destruct (parent_demo 2049 0x805 ltac:(lia) ltac:(lia)) as (s & fl & O & H & Hcf & Hot & He & Hx & Hl & Hb & _).
  exists (mkUprog s 0x800040 0). split; [exact Hx|].
  assert (running boot_refs {[1]} 0 1 s fl O) as Hrun.
  { constructor; [exact H| |set_solver|exact Hot]. exists call_env. split; [exact He|]. split; [discriminate|reflexivity]. }
  assert (forall p flags, xlate s 1 2049 = Some (p, flags) -> tst flags PTE_U = true) as Hu.
  { intros p flags Hp. rewrite Hx in Hp. injection Hp as <- <-. reflexivity. }
  pose proof (pgfault_correct boot_refs (mkUprog s 0x800040 0) fl {[1]} O 0 1 0x801234 FEC_WR Hrun ltac:(lia)
    ltac:(discriminate) Hu) as Hf.
  change (PGNUM 0x801234) with 2049 in Hf. cbn [kern] in Hf.
  assert (cow_fault s 1 2049 FEC_WR = true) as Hcow by (unfold cow_fault; rewrite Hx; reflexivity).
  rewrite Hcow in Hf. eapply tries_weaken; [eapply tries_mono; [exact Hf|]|].
  - intros r u' (_ & p & flags & q & fl' & O' & Hp & Hq & _ & Hc & _). exists q.
    split; [by rewrite (cc_xlate _ _ _ _ _ _ _ Hc) by (lia || set_solver)|]. intros ->.
    assert (maps (pmem s) 1 2049 = Some 2) as Hm by (by rewrite maps_xlate, Hx).
    apply (mapped_not_free (ca_inv _ _ _ _ _ _ H) 2 1 2049 ltac:(set_solver) ltac:(lia) Hm); [|exact Hq].
    apply boot_refs_nonneg.
  - intros u' (fl' & O' & Hm). by exists fl', O'.
Defined.
