(* ===== verification/MsgSpec.v ===== *)
(** * Messages between programs ([lib/ipc.c])

    What [ipc_send] and [ipc_recv] do on top of the kernel: the facts that the
    interleaving of [Msgs] takes for the meaning of a message. *)

From Stdlib Require Import Lia ZArith ZifyClasses ZifyInst ZifyBool.
From stdpp Require Import base gmap list strings numbers.
From S2P Require Import Prelude Cmonad Mmu Printfmt Console State Spinlock Umem Pmap.
From S2P Require Import PageList Vm VmInv PmapLem VmLem PmapSpec VmDir Env EnvLem Sched EnvSpec Syscall SyscallSpec IpcSpec Ulib UlibSpec.

Section Messages.
Context (resume : kstate -> kstate).

Lemma in_kernel_Ret {A} (m : K A) a s u : m (kern u) = Ret a s -> in_kernel m u = Ret a (put kern s u).
Proof. intros H. unfold in_kernel. by rewrite H. Qed.

Lemma in_kernel_Stop {A} (m : K A) x s u : m (kern u) = Stop x s -> in_kernel m u = Stop (KernelLeft x) (put kern s u).
Proof. intros H. unfold in_kernel. by rewrite H. Qed.

(** One attempt to send a value without a page. *)
Lemma try_send_eq u to val perm : - 2 ^ 31 <= to < 2 ^ 31 -> 0 <= val < 2 ^ 32 ->
  Ulib.sys_ipc_try_send to val (u32 (-1)) perm u =
  (r ← in_kernel (Syscall.sys_ipc_try_send to val (2 ^ 32 - 1) (u32 perm)); mret (s32 r) : U Z) u.
Proof.
  intros Hto Hval. unfold Ulib.sys_ipc_try_send, Ulib.syscall. cbn [andb].
  transitivity ((r ← in_kernel (Syscall.sys_ipc_try_send (s32 (u32 to)) (u32 val) (u32 (u32 (-1))) (u32 perm));
                 mret (s32 r) : U Z) u); [reflexivity|].
  by rewrite s32_u32, (u32_id val).
Qed.

Lemma try_send_cases base s fl D O k vk dk e v to val perm :
  calling base s fl D O k -> caller s D k vk dk -> names s k to false e -> envs s !! e = Some v ->
  (forall i w, envs s !! i = Some w -> 0 <= env_ipc_dstva w) ->
  if env_ipc_recving v then exists s', Syscall.sys_ipc_try_send to val (2 ^ 32 - 1) perm s = Ret 0 s' /\
    calling base s' fl D O k /\ envs s' = <[e := woken (env_id vk) val v]> (envs s) /\ pmem s' = pmem s
  else Syscall.sys_ipc_try_send to val (2 ^ 32 - 1) perm s = Ret (- E_IPC_NOT_RECV) s.
Proof.
  intros H Hcl Hn Hv Hdst.
  destruct (wp_inv _ _ _ (sys_ipc_try_send_wp base s fl D O k vk dk to val (2 ^ 32 - 1) perm H Hcl ltac:(lia) ltac:(lia) Hdst))
    as (r & s' & Hs & [(_ & _ & Hno)|(e' & v' & d & Hn' & Hv' & _ & _ & Hc)]); [by destruct (Hno e)|].
  pose proof (names_unique _ _ _ _ _ _ _ _ _ _ H Hn Hn') as <-. rewrite Hv in Hv'. injection Hv' as <-.
  destruct Hc as [(-> & -> & ->)|[(-> & _ & _ & Hlt & _)|(-> & _ & [(_ & _ & _ & Hlt & _)|[(-> & _ & Hc)|(_ & Hlt & _)]])]];
    try (exfalso; clear - Hlt; lia); [done|]. exists s'. by destruct Hc as (? & ? & ? & _).
Qed.

(** C24: [ipc_send] of a value, to an environment that exists.  If the receiver
    waits, the first attempt delivers: the receiver gets the value and the
    sender's id, is runnable and waits no longer, and nothing else changes.  If it
    does not wait, the sender gives up the CPU and, when it runs again, tries
    again in the state it then finds. *)
Theorem ipc_send_correct base u fl D O k vk dk e v fuel to_env val perm :
  calling base (kern u) fl D O k -> caller (kern u) D k vk dk -> names (kern u) k to_env false e ->
  envs (kern u) !! e = Some v -> (forall i w, envs (kern u) !! i = Some w -> 0 <= env_ipc_dstva w) ->
  - 2 ^ 31 <= to_env < 2 ^ 31 -> 0 <= val < 2 ^ 32 ->
  if env_ipc_recving v then
    wp (ipc_send resume (S fuel) to_env val 0 perm) (fun _ u' =>
      calling base (kern u') fl D O k /\ put kern (kern u) u' = u /\ pmem (kern u') = pmem (kern u) /\
      envs (kern u') = <[e := woken (env_id vk) val v]> (envs (kern u))) u
  else forall x s, Syscall.sys_yield (kern u) = Stop x s -> x <> InMonitor ->
    ipc_send resume (S fuel) to_env val 0 perm u = ipc_send resume fuel to_env val 0 perm (put kern (resume s) u).
Proof.
  intros H Hcl Hn Hv Hdst Hto Hval.
  pose proof (try_send_cases base (kern u) fl D O k vk dk e v to_env val (u32 perm) H Hcl Hn Hv Hdst) as Hc.
  unfold ipc_send. change (0 =? 0) with true. cbv iota. cbn [ipc_send_loop]. destruct (env_ipc_recving v).
  - destruct Hc as (s' & Hs & H' & He & Hm). apply wp_bind. eapply wp_ext; [by apply try_send_eq|].
    apply wp_bind. eapply wp_Ret; [by apply in_kernel_Ret|]. apply wp_ret. change (s32 0 =? 0) with true. cbv iota.
    apply wp_ret. split_and!; [done| |done|done]. by destruct u.
  - intros x s Hy Hx. erewrite bind_Ret.
    2:{ rewrite try_send_eq by done. erewrite bind_Ret by (by apply in_kernel_Ret). reflexivity. }
    change (s32 (- E_IPC_NOT_RECV) =? 0) with false. cbv iota.
    change (negb (s32 (- E_IPC_NOT_RECV) =? - E_IPC_NOT_RECV)) with false. cbv iota.
    assert (rescheduled resume (Ulib.sys_yield ;; mret 0) (put kern (kern u) u) = Ret 0 (put kern (resume s) u)) as Hr.
    { unfold rescheduled, Ulib.sys_yield, Ulib.syscall. unfold mbind at 1 2 3, M_bind at 1 2 3.
      rewrite (in_kernel_Stop _ x s).
      - destruct x; try done; by destruct u.
      - change (sys_number SYS_yield) with 10. change (Syscall.syscall 10 (u32 0) (u32 0) (u32 0) (u32 0) (u32 0))
          with ((Syscall.sys_yield ;; mret 0) : K Z). destruct u. by apply bind_Stop. }
    by erewrite bind_Ret by exact Hr.
Qed.

(** C25: [ipc_recv] without a page leaves the CPU, with the environment waiting for
    any sender; when it runs again with a message from [from], it returns the value
    and the sender's id that the sender's [ipc_send] stored. *)
Theorem ipc_recv_correct u c k v :
  sched_ok (kern u) c -> cpu_env c = Some k -> envs (kern u) !! k = Some v -> KERNBASE <= env_pgdir v < 2 ^ 32 ->
  thisenv u = UENVS + sizeof_Env * k ->
  exists x s w, Ulib.sys_ipc_recv (u32 (-1)) u = Stop (KernelLeft x) (put kern s u) /\ (forall tf, x <> ToUser k tf) /\
    envs s !! k = Some w /\ same_env (waiting (2 ^ 32 - 1) v) w /\ status_of s k = ENV_NOT_RUNNABLE /\
    forall from val w', x <> InMonitor -> envs (resume s) !! k = Some (woken from val w') -> - 2 ^ 31 <= val < 2 ^ 31 ->
      ipc_recv resume 0 u = Ret (val, from, env_ipc_perm w') (put kern (resume s) u).
Proof.
  intros Hok Hk Hv Hpg Ht.
  pose proof (sys_ipc_recv_stop (kern u) c k v (2 ^ 32 - 1) Hok Hk Hv Hpg ltac:(lia)) as H.
  rewrite decide_False in H by (clear; unfold UTOP; lia). destruct H as (x & s & Hs & Hx & (w & Hw & Hsame) & Hst).
  assert (Ulib.sys_ipc_recv (u32 (-1)) u = Stop (KernelLeft x) (put kern s u)) as Hcall.
  { unfold Ulib.sys_ipc_recv, Ulib.syscall. apply bind_Stop, in_kernel_Stop. exact Hs. }
  exists x, s, w. split; [exact Hcall|]. split; [done|]. split; [done|]. split; [done|]. split; [done|].
  intros from val w' Hmon Hr Hval. unfold ipc_recv. change (0 =? 0) with true. cbv iota zeta.
  assert (rescheduled resume (Ulib.sys_ipc_recv (u32 (-1))) u = Ret 0 (put kern (resume s) u)) as Hres.
  { unfold rescheduled. rewrite Hcall. destruct x; try done; by destruct u. }
  erewrite bind_Ret by exact Hres. change (0 <? 0) with false. cbv iota.
  assert (this_env (put kern (resume s) u) = Ret (woken from val w') (put kern (resume s) u)) as Hthis.
  { unfold this_env. change (thisenv (put kern (resume s) u)) with (thisenv u). rewrite Ht.
    replace ((UENVS + sizeof_Env * k - UENVS) / sizeof_Env) with k
      by (rewrite Z.add_simpl_l, Z.mul_comm, Z.div_mul; [done|by vm_compute]).
    rewrite (in_kernel_Ret _ (woken from val w') (resume s)); [by destruct u|]. by apply get_env_eq. }
  erewrite bind_Ret by exact Hthis. cbn. by rewrite s32_id.
Qed.
End Messages.

Lemma ipc_send_correct_witness : exists u', ipc_send id 1 0 42 0 0 (mkUprog ipc_demo 0 0) = Ret tt u' /\
  envs (kern u') !! 0 = Some (woken 0x1000 42 (waiting UTOP call_env)).
Proof.
  assert (caller ipc_demo {[1]} 0 (waiting UTOP call_env) 1) as Hcl
    by (constructor; [apply ipc_demo_cur|done|set_solver|done]).
  pose proof (ipc_send_correct id boot_refs (mkUprog ipc_demo 0 0) [3; 4; 5] {[1]} ∅ 0
    (waiting UTOP call_env) 1 0 (waiting UTOP call_env) 0 0 42 0 ipc_demo_calling Hcl (names_self _ _ _)
    ipc_demo_cur ipc_demo_dstva ltac:(lia) ltac:(lia)) as H.
  apply wp_inv in H as ([] & u' & Hu & _ & _ & _ & He). exists u'. split; [exact Hu|]. rewrite He. apply lookup_insert_eq.
Defined.

(** Another environment sends 42 while this one waits. *)
Definition answered (s : kstate) : kstate := put envs (<[3 := woken 0x1005 42 (table_env [] 3)]> (envs s)) s.

Lemma ipc_recv_correct_witness : exists x s,
  Ulib.sys_ipc_recv (u32 (-1)) (mkUprog (run_demo [5; 3]) 0 (UENVS + sizeof_Env * 3)) =
    Stop (KernelLeft x) (put kern s (mkUprog (run_demo [5; 3]) 0 (UENVS + sizeof_Env * 3))) /\
  (x <> InMonitor -> exists u', ipc_recv answered 0
    (mkUprog (run_demo [5; 3]) 0 (UENVS + sizeof_Env * 3)) = Ret (42, 0x1005, 0) u').
Proof.
  assert (envs (run_demo [5; 3]) !! 3 = Some (table_env [5; 3] 3)) as Hv.
  { unfold run_demo, sched_demo. kred. apply env_table_lookup. lia. }
  destruct (ipc_recv_correct answered (mkUprog (run_demo [5; 3]) 0 (UENVS + sizeof_Env * 3)) _ 3 _
    (run_demo_ok _) eq_refl Hv ltac:(cbn; lia) eq_refl) as (x & s & w & Hs & _ & _ & _ & _ & Hr).
  exists x, s. split; [exact Hs|]. intros Hx. eexists.
  apply (Hr 0x1005 42 (table_env [] 3) Hx); [|lia]. unfold answered. kred. apply lookup_insert_eq.
Defined.
