(* ===== verification/Dumbfork.v ===== *)
(** * A fork that copies everything ([user/dumbfork.c])

    What the test program does in place of the library's [fork]: every page of the
    program is copied into the child at once, through a page mapped at [UTEMP]. *)

From Stdlib Require Import Lia ZArith ZifyClasses ZifyInst ZifyBool.
From stdpp Require Import base gmap list strings numbers.
From S2P Require Import Prelude Cmonad Mmu Printfmt Console State Spinlock Umem Pmap.
From S2P Require Import PageList Vm VmInv PmapLem VmLem PmapSpec VmDir Env EnvLem Sched EnvSpec Syscall SyscallSpec IpcSpec Ulib UlibSpec CowSpec.

(** ** The program *)

(** [memmove] of one page onto another one is [user_copy_page]. *)
Definition duppage (dstenv addr : Z) : U unit :=
  r ← Ulib.sys_page_alloc dstenv addr (Z.lor (Z.lor PTE_P PTE_U) PTE_W);
  when (r <? 0) (panic "sys_page_alloc: %e") ;;
  r ← Ulib.sys_page_map dstenv addr 0 UTEMP (Z.lor (Z.lor PTE_P PTE_U) PTE_W);
  when (r <? 0) (panic "sys_page_map: %e") ;;
  user_copy_page UTEMP addr ;;
  r ← Ulib.sys_page_unmap 0 UTEMP;
  when (r <? 0) (panic "sys_page_unmap: %e").

(** [end_] is the address the linker gives [end]; [addr_at] is [&addr], an address
    on the stack. *)
Definition dumbfork (end_ addr_at : Z) : U Z :=
  envid ← Ulib.sys_exofork;
  if envid <? 0 then panic "sys_exofork: %e"
  else if envid =? 0 then set_thisenv ;; mret 0
  else
    for_loop (Z.to_nat ((end_ - UTEXT + PGSIZE - 1) / PGSIZE)) UTEXT PGSIZE (duppage envid) ;;
    duppage envid (ROUNDDOWN addr_at PGSIZE) ;;
    r ← Ulib.sys_env_set_status envid (status_code ENV_RUNNABLE);
    when (r <? 0) (panic "sys_env_set_status: %e") ;;
    mret envid.

(** ** One page *)

(** The page [duppage] copies through. *)
Definition utemp_page : Z := UTEMP / PGSIZE.

(** From [s] to [s']: page [v] of the child's directory [f] is frame [q], mapped
    nowhere else, with the contents [p] had; the parent's [utemp_page] is not
    mapped; nothing else has changed. *)
Record copied_to (D : gset Z) (d f v p q : Z) (s s' : kstate) : Prop := {
  ct_xlate d' v' : d' ∈ D -> 0 <= v' < UVPNS -> xlate s' d' v' =
    if decide ((d', v') = (f, v)) then Some (q, 7)
    else if decide ((d', v') = (d, utemp_page)) then None else xlate s d' v';
  ct_private d' v' : d' ∈ D -> 0 <= v' < UVPNS -> (d', v') <> (f, v) -> maps (pmem s') d' v' <> Some q;
  ct_new d' v' : d' ∈ D -> 0 <= v' < UVPNS -> maps (pmem s) d' v' <> Some q;
  ct_copy j : word (pmem s') q j = word (pmem s) p j;
  ct_contents d' v' p' j : d' ∈ D -> 0 <= v' < UVPNS -> (d', v') <> (f, v) -> (d', v') <> (d, utemp_page) ->
    maps (pmem s) d' v' = Some p' -> word (pmem s') p' j = word (pmem s) p' j;
  ct_frame : vm_frame s s'
}.

(** The pages the program copies: those of its text and data, and that of its
    stack. *)
Definition copies (end_ addr_at v : Z) : bool :=
  (UTEXT <=? v * PGSIZE) && (v * PGSIZE <? end_) || (v =? PGNUM addr_at).

Lemma copies_spec end_ addr_at v :
  copies end_ addr_at v = true <-> (2048 <= v /\ v * 4096 < end_) \/ v = PGNUM addr_at.
Proof. unfold copies. change UTEXT with 8388608. change PGSIZE with 4096. lia. Qed.

Lemma copies_range end_ addr_at v : end_ <= UTOP -> 0 <= addr_at < UTOP -> copies end_ addr_at v = true -> 0 <= v < UVPNS.
Proof. intros He Ha [?| ->]%copies_spec; [zlia|]. rewrite PGNUM_div by lia. zlia. Qed.

Lemma utemp_range : 0 <= utemp_page < UVPNS.
Proof. split; vm_compute; congruence || reflexivity. Qed.

Section Parent.
Context {base : Z -> Z} {D : gset Z} {k d e f id : Z}.

Lemma parent_running s fl O : parent_of base D k d e f id s fl O -> running base D k d s fl O.
Proof. intros [Hc Hs _ Hd _ _ _ Ht]. by constructor. Qed.

(** The parent keeps its child while the table of environments stays. *)
Lemma running_parent s s' fl fl' O O' : parent_of base D k d e f id s fl O -> running base D k d s' fl' O' ->
  envs s' = envs s -> parent_of base D k d e f id s' fl' O'.
Proof.
  intros [Hc Hs (v & Hv & Hst & Hp & Hn1 & Hn2 & Hn3) Hd Hf Hne Hid Ht] [Hc' Hs' _ Ht'] He. constructor; try done.
  exists v. rewrite He. split_and!; try done. split; [done|]. unfold live, may_control in *. by rewrite He.
Qed.

(** Frame [q], mapped at page [v] of the child, filled through [utemp_page] with
    what the parent has at its page [v]. *)
Record filled (v p q : Z) (s s' : kstate) : Prop := {
  fi_xlate d' v' : d' ∈ D -> 0 <= v' < UVPNS ->
    xlate s' d' v' = if decide ((d', v') = (d, utemp_page)) then None else xlate s d' v';
  fi_copy j : word (pmem s') q j = word (pmem s) p j;
  fi_contents d' v' p' j : d' ∈ D -> 0 <= v' < UVPNS -> (d', v') <> (d, utemp_page) ->
    maps (pmem s) d' v' = Some p' -> p' <> q -> word (pmem s') p' j = word (pmem s) p' j;
  fi_frame : vm_frame s s'
}.

Lemma fill_tries v p q flags u fl O :
  parent_of base D k d e f id (kern u) fl O -> 0 <= v < UVPNS -> v <> utemp_page ->
  xlate (kern u) d v = Some (p, flags) -> tst flags PTE_U = true ->
  xlate (kern u) f v = Some (q, 7) -> ref (kern u) q < 65535 ->
  tries (r ← Ulib.sys_page_map id (v * 4096) 0 (utemp_page * 4096) 7;
    when (r <? 0) (panic "sys_page_map: %e") ;;
    user_copy_page (utemp_page * 4096) (v * 4096) ;;
    r ← Ulib.sys_page_unmap 0 (utemp_page * 4096);
    when (r <? 0) (panic "sys_page_unmap: %e"))
    (fun _ u' => (exists fl' O', parent_of base D k d e f id (kern u') fl' O') /\
      filled v p q (kern u) (kern u') /\ put kern (kern u) u' = u)
    (out_of_memory (base := base) (D := D)) u.
Proof.
  intros Hpa Hv Hne Hx HU Hxf Hr. pose proof (parent_running _ _ _ Hpa) as H. pose proof (pa_id _ _ _ _ _ _ _ _ _ _ Hpa) as Hid.
  pose proof (pa_d _ _ _ _ _ _ _ _ _ _ Hpa) as Hd. pose proof (pa_f _ _ _ _ _ _ _ _ _ _ Hpa) as Hf.
  pose proof (pa_ne _ _ _ _ _ _ _ _ _ _ Hpa) as Hdf. pose proof utemp_range as Ht.
  assert ((d, v) <> (d, utemp_page)) as Hn1 by (by intros [= ?]).
  assert ((f, v) <> (d, utemp_page)) as Hn3 by (intros [= ? _]; by apply Hdf).
  assert (maps (pmem (kern u)) f v = Some q) as Hmf by (by rewrite maps_xlate, Hxf).
  apply (tries_assoc _ (fun r => when (r <? 0) (panic "sys_page_map: %e"))). apply tries_bind.
  apply (map_tries (base := base) (D := D) (k := k) (d := d) id f v utemp_page q 7 _ u fl O);
    [done|by eapply parent_child|lia|done|done|split; reflexivity|done|done| |].
  { intros -> _. exists [], O. split; [apply H|cbn; lia]. }
  intros u2 fl2 O2 H2 Hm2 Hp2. change (Z.lor 7 PTE_P) with 7 in Hm2. pose proof Hm2 as (Hx2 & _ & Hf2).
  assert (xlate (kern u2) d utemp_page = Some (q, 7)) as Hxt2 by (by rewrite (Hx2 d utemp_page), decide_True).
  assert (xlate (kern u2) d v = Some (p, flags)) as Hxv2 by (by rewrite (Hx2 d v), decide_False).
  apply tries_bind, (copy_page_tries (base := base) (D := D) (k := k) (d := d) v p flags utemp_page q u2 fl2 O2); try done.
  intros u3 H3 Hx3 Hout Hw Hf3 _ Hp3.
  apply (self_unmap_tries (base := base) (D := D) (k := k) (d := d) utemp_page q _ u3 fl2 O2); try done;
    [by rewrite maps_xlate, Hx3, Hxt2|].
  intros u4 fl4 H4 Hm4 Hp4. pose proof Hm4 as (Hx4 & _ & Hf4).
  assert (vm_frame (kern u) (kern u4)) as Hf' by (etrans; [exact Hf2|]; etrans; [exact Hf3|exact Hf4]).
  split; [|split].
  - exists fl4, O2. eapply running_parent; [exact Hpa|exact H4|apply (vf_envs _ _ Hf')].
  - constructor; [| | |exact Hf'].
    + intros d' v' Hd' Hv'. rewrite (Hx4 d' v'), Hx3, (Hx2 d' v') by done. by repeat case_decide; try congruence.
    + intros j. assert (maps (pmem (kern u3)) f v = Some q) as Hmf3
        by (by rewrite maps_xlate, Hx3, (Hx2 f v), decide_False, Hxf).
      rewrite (mapped_one_word j H3 H4 Hf Hv Hmf3 Hn3 _ _ Hm4) by (by right).
      rewrite Hw. apply (mapped_one_word j H H2 Hd Hv ltac:(by rewrite maps_xlate, Hx) Hn1 _ _ Hm2). by left.
    + intros d' v' p' j Hd' Hv' Ht' Hm Hpq.
      assert (maps (pmem (kern u3)) d' v' = Some p') as Hm3' by (by rewrite maps_xlate, Hx3, (Hx2 d' v'), decide_False, <- maps_xlate).
      rewrite (mapped_one_word j H3 H4 Hd' Hv' Hm3' Ht' _ _ Hm4) by (by right).
      rewrite Hout by done. apply (mapped_one_word j H H2 Hd' Hv' Hm Ht' _ _ Hm2). by left.
  - rewrite <- Hp2, <- Hp3, <- Hp4. by destruct u4.
Qed.

Lemma dumb_page_tries v p flags u fl O :
  parent_of base D k d e f id (kern u) fl O -> 0 <= v < UVPNS -> v <> utemp_page ->
  xlate (kern u) d v = Some (p, flags) -> tst flags PTE_U = true ->
  tries (duppage id (v * 4096)) (fun _ u' => (exists fl' O', parent_of base D k d e f id (kern u') fl' O') /\
      (exists q, copied_to D d f v p q (kern u) (kern u')) /\ put kern (kern u) u' = u)
    (out_of_memory (base := base) (D := D)) u.
Proof.
  intros Hpa Hv Hne Hx HU. pose proof (parent_running _ _ _ Hpa) as H. pose proof (pa_id _ _ _ _ _ _ _ _ _ _ Hpa) as Hid.
  pose proof (pa_d _ _ _ _ _ _ _ _ _ _ Hpa) as Hd. pose proof (pa_f _ _ _ _ _ _ _ _ _ _ Hpa) as Hf.
  pose proof (pa_ne _ _ _ _ _ _ _ _ _ _ Hpa) as Hdf.
  assert ((d, v) <> (f, v)) as Hn2 by (by intros [= ?]).
  unfold duppage. change UTEMP with (utemp_page * 4096). change (Z.lor (Z.lor PTE_P PTE_U) PTE_W) with 7.
  apply (tries_assoc _ (fun r => when (r <? 0) (panic "sys_page_alloc: %e"))). apply tries_bind.
  apply (alloc_tries (base := base) (D := D) (k := k) (d := d) id f v 7 _ u fl O);
    [done|by eapply parent_child|lia|done|split; reflexivity|].
  intros u1 q fl0 fl1 O1 Hfl H1 Hm1 _ Hp1. change (Z.lor 7 PTE_P) with 7 in Hm1. pose proof Hm1 as (Hx1 & _ & Hf1).
  assert (q ∈ fl) as Hq by (rewrite Hfl; by left).
  destruct (fresh_mapping H H1 Hq Hf Hv Hx1) as [Hr1 _].
  destruct (free_unused (running_inv _ _ _ H) q Hq (ca_base _ _ _ _ _ _ (ru_call _ _ _ _ _ _ _ H) q)) as (_ & _ & _ & _ & Hunm).
  eapply tries_mono; [apply (fill_tries v p q flags u1 fl1 O1)|]; try done.
  { eapply running_parent; [exact Hpa|exact H1|apply (vf_envs _ _ Hf1)]. }
  { by rewrite (Hx1 d v), decide_False. }
  { by rewrite (Hx1 f v), decide_True. }
  { lia. }
  intros [] u4 (Hpa4 & [Hx4 Hc4 Hk4 Hf4] & Hp4).
  assert (forall d' v', d' ∈ D -> 0 <= v' < UVPNS -> xlate (kern u4) d' v' =
    if decide ((d', v') = (f, v)) then Some (q, 7)
    else if decide ((d', v') = (d, utemp_page)) then None else xlate (kern u) d' v') as Hx'.
  { intros d' v' Hd' Hv'. rewrite Hx4, (Hx1 d' v') by done. by repeat case_decide; try congruence. }
  split; [done|]. split; [|rewrite <- Hp1, <- Hp4; by destruct u1, u4].
  exists q. constructor; [exact Hx'| |exact Hunm| | |by etrans].
  - intros d' v' Hd' Hv' Hf'. rewrite maps_xlate, Hx', decide_False by done. case_decide; [done|].
    rewrite <- maps_xlate. by apply Hunm.
  - intros j. rewrite Hc4. apply (mapped_one_word j H H1 Hd Hv ltac:(by rewrite maps_xlate, Hx) Hn2 _ _ Hm1). by left.
  - intros d' v' p' j Hd' Hv' Hf' Ht' Hm. rewrite (Hk4 d' v'); [|done..| |].
    + apply (mapped_one_word j H H1 Hd' Hv' Hm Hf' _ _ Hm1). by left.
    + by rewrite maps_xlate, (Hx1 d' v'), decide_False, <- maps_xlate.
    + intros ->. by apply (Hunm d' v').
Qed.

(** ** All pages *)

(** The pages [c] of the program that ran in [u0] are in the child, each in a frame
    of its own. *)
Record copied_all (c : Z -> bool) (u0 u : uprog) : Prop := {
  al_parent : exists fl O, parent_of base D k d e f id (kern u) fl O;
  al_self v : 0 <= v < UVPNS -> v <> utemp_page -> xlate (kern u) d v = xlate (kern u0) d v;
  al_temp v : 0 <= v < UVPNS -> c v = true -> xlate (kern u) d utemp_page = None;
  al_child v : 0 <= v < UVPNS -> if c v then exists q, xlate (kern u) f v = Some (q, 7) /\
      (forall d' v', d' ∈ D -> 0 <= v' < UVPNS -> (d', v') <> (f, v) -> maps (pmem (kern u)) d' v' <> Some q) /\
      (forall p j, maps (pmem (kern u0)) d v = Some p -> word (pmem (kern u)) q j = word (pmem (kern u0)) p j)
    else xlate (kern u) f v = None;
  al_others d' v : d' ∈ D -> 0 <= v < UVPNS -> d' <> d -> d' <> f -> xlate (kern u) d' v = xlate (kern u0) d' v;
  al_contents d' v p j : d' ∈ D -> 0 <= v < UVPNS -> d' <> f -> (d', v) <> (d, utemp_page) ->
    maps (pmem (kern u0)) d' v = Some p -> word (pmem (kern u)) p j = word (pmem (kern u0)) p j;
  al_frame : vm_frame (kern u0) (kern u);
  al_prog : put kern (kern u0) u = u0
}.

Lemma copied_none u fl O : parent_of base D k d e f id (kern u) fl O ->
  (forall v, 0 <= v < UVPNS -> xlate (kern u) f v = None) -> copied_all (fun _ => false) u u.
Proof. intros H He. constructor; try done; [by exists fl, O|by destruct u]. Qed.

Lemma copied_ext c c' u0 u : (forall v, 0 <= v < UVPNS -> c v = c' v) -> copied_all c u0 u -> copied_all c' u0 u.
Proof.
  intros Hc [H1 H2 H3 H4 H5 H6 H7 H8]. constructor; try done.
  - intros v Hv. rewrite <- Hc by done. by apply H3.
  - intros v Hv. rewrite <- Hc by done. by apply H4.
Qed.

(** What is in the child stays when one more page is copied. *)
Lemma copied_child_kept v0 p0 q0 u0 u u' v q : d ∈ D -> f ∈ D -> d <> f -> copied_to D d f v0 p0 q0 (kern u) (kern u') ->
  0 <= v < UVPNS -> v <> v0 -> xlate (kern u) f v = Some (q, 7) ->
  (forall d' v', d' ∈ D -> 0 <= v' < UVPNS -> (d', v') <> (f, v) -> maps (pmem (kern u)) d' v' <> Some q) ->
  (forall p j, maps (pmem (kern u0)) d v = Some p -> word (pmem (kern u)) q j = word (pmem (kern u0)) p j) ->
  xlate (kern u') f v = Some (q, 7) /\
  (forall d' v', d' ∈ D -> 0 <= v' < UVPNS -> (d', v') <> (f, v) -> maps (pmem (kern u')) d' v' <> Some q) /\
  (forall p j, maps (pmem (kern u0)) d v = Some p -> word (pmem (kern u')) q j = word (pmem (kern u0)) p j).
Proof.
  intros Hd Hf Hdf [Hx _ Hnew _ Hc _] Hv Hne Hxq Hpriv Hcopy.
  assert ((f, v) <> (f, v0)) as N1 by (by intros [= ?]). assert ((f, v) <> (d, utemp_page)) as N2 by (intros [= ? _]; by apply Hdf).
  assert (maps (pmem (kern u)) f v = Some q) as Hm by (by rewrite maps_xlate, Hxq).
  split; [by rewrite Hx, !decide_False|]. split.
  - intros d' v' Hd' Hv' N. rewrite maps_xlate, Hx by done. case_decide.
    + intros [= ->]. by apply (Hnew f v).
    + case_decide; [done|]. rewrite <- maps_xlate. by apply Hpriv.
  - intros p j Hp. rewrite (Hc f v q j) by done. by apply Hcopy.
Qed.

Lemma copied_step c v p q u0 u u' : d ∈ D -> f ∈ D -> d <> f -> 0 <= v < UVPNS -> v <> utemp_page ->
  maps (pmem (kern u0)) d v = Some p -> copied_all c u0 u -> copied_to D d f v p q (kern u) (kern u') ->
  (exists fl O, parent_of base D k d e f id (kern u') fl O) -> put kern (kern u) u' = u ->
  copied_all (fun x => (x =? v) || c x) u0 u'.
Proof.
  intros Hd Hf Hdf Hv Hvt Hp Hall Hto Hpar Hprog. pose proof Hall as [_ Hs Ht Hch Ho Hc Hfr Hpr].
  pose proof Hto as [Hx Hpriv Hnew Hcopy Hcont Hfr']. pose proof utemp_range as Hur.
  assert (forall x, (d, x) <> (f, v)) as N1 by (by intros x [= ? _]).
  constructor; [done| | | | | |by etrans|].
  - intros x Hxr Hxt. rewrite Hx, !decide_False by (done || by intros [= ?]). by apply Hs.
  - intros x _ _. by rewrite Hx, decide_False, decide_True.
  - intros x Hxr. destruct (Z.eqb_spec x v) as [->|Hne]; cbn [orb].
    + exists q. split; [by rewrite Hx, decide_True|]. split; [done|]. intros p' j Hp'. rewrite Hp in Hp'. injection Hp' as <-.
      rewrite Hcopy. apply (Hc d v); try done. by intros [= ?].
    + specialize (Hch x Hxr). destruct (c x).
      * destruct Hch as (q' & H1 & H2 & H3). exists q'. by apply (copied_child_kept v p q u0 u).
      * rewrite Hx, !decide_False by (done || congruence). done.
  - intros d' x Hd' Hxr N2 N3. rewrite Hx, !decide_False by (done || congruence). by apply Ho.
  - intros d' x p' j Hd' Hxr N2 N3 Hm. rewrite (Hcont d' x p' j); try done.
    + by apply (Hc d' x).
    + by intros [= ->].
    + revert Hm. rewrite !maps_xlate. destruct (decide (d' = d)) as [->|]; [|by rewrite Ho].
      rewrite Hs; [done|done|]. by intros ->.
  - rewrite <- Hpr, <- Hprog. by destruct u'.
Qed.

(** [duppage] on a page of the program. *)
Lemma dumb_page_all c v flags p u0 u : 0 <= v < UVPNS -> v <> utemp_page -> d ∈ D -> f ∈ D -> d <> f ->
  xlate (kern u0) d v = Some (p, flags) -> tst flags PTE_U = true -> copied_all c u0 u ->
  tries (duppage id (v * 4096)) (fun _ u' => copied_all (fun x => (x =? v) || c x) u0 u')
    (out_of_memory (base := base) (D := D)) u.
Proof.
  intros Hv Hvt Hd Hf Hdf Hx HU Hall. destruct (al_parent _ _ _ Hall) as (fl & O & Hpa).
  eapply tries_mono; [apply (dumb_page_tries v p flags u fl O); try done; by rewrite (al_self _ _ _ Hall)|].
  intros [] u' (Hpar & (q & Hto) & Hprog). eapply (copied_step c v p q u0 u u'); try done. by rewrite maps_xlate, Hx.
Qed.

(** The loop, the stack and the start of the child. *)
Lemma dumbfork_rest end_ addr_at u fl O :
  parent_of base D k d e f id (kern u) fl O -> (forall v, 0 <= v < UVPNS -> xlate (kern u) f v = None) ->
  UTEXT <= end_ <= UTOP -> 0 <= addr_at < UTOP -> PGNUM addr_at <> utemp_page ->
  (forall v, copies end_ addr_at v = true -> exists p flags, xlate (kern u) d v = Some (p, flags) /\ tst flags PTE_U = true) ->
  tries (for_loop (Z.to_nat ((end_ - UTEXT + PGSIZE - 1) / PGSIZE)) UTEXT PGSIZE (duppage id) ;;
    duppage id (ROUNDDOWN addr_at PGSIZE) ;;
    r ← Ulib.sys_env_set_status id (status_code ENV_RUNNABLE);
    when (r <? 0) (panic "sys_env_set_status: %e") ;;
    mret id)
    (fun r u' => r = id /\ exists u1 v, copied_all (copies end_ addr_at) u u1 /\ envs (kern u) !! e = Some v /\
      kern u' = put envs (<[e := put env_status ENV_RUNNABLE v]> (envs (kern u))) (kern u1) /\
      exists fl' O', parent_of base D k d e f id (kern u') fl' O')
    (out_of_memory (base := base) (D := D)) u.
Proof.
  intros H Hempty Hend Ha Hat Hmapped. pose proof (pa_id _ _ _ _ _ _ _ _ _ _ H) as Hid.
  pose proof (pa_d _ _ _ _ _ _ _ _ _ _ H) as Hd. pose proof (pa_f _ _ _ _ _ _ _ _ _ _ H) as Hf.
  pose proof (pa_ne _ _ _ _ _ _ _ _ _ _ H) as Hdf.
  change PGSIZE with 4096 in *. change UTEXT with 8388608 in *.
  pose proof (copies_spec end_ addr_at) as Hcop.
  apply tries_bind. apply (tries_for_loop _ _ _ _ (fun a u' => exists n, a = 8388608 + n * 4096 /\ 0 <= n /\
    copied_all (fun v => (2048 <=? v) && (v <? 2048 + n)) u u')).
  { exists 0. split; [lia|]. split; [lia|]. apply (copied_ext (fun _ => false)); [lia|]. by eapply copied_none. }
  { intros j u' Hj (n & Hn & Hn0 & Hu). rewrite Hn. 
    assert (copies end_ addr_at (2048 + n) = true) as Hc by (apply Hcop; left; zlia).
    destruct (Hmapped _ Hc) as (p & flags & Hx & HU).
    replace (8388608 + n * 4096) with ((2048 + n) * 4096) by lia.
    eapply tries_mono; [apply (dumb_page_all (fun v => (2048 <=? v) && (v <? 2048 + n)) (2048 + n) flags p u u'); try done; [zlia|change utemp_page with 1024; lia]|].
    intros [] u2 Hu2. exists (n + 1). split; [lia|]. split; [lia|]. eapply copied_ext; [|exact Hu2]. intros v Hv. cbv beta. lia. }
  intros u1 (n & Hn & Hn0 & Hu1). apply tries_bind. rewrite ROUNDDOWN_spec by lia. rewrite <- PGNUM_div by lia.
  destruct (Hmapped (PGNUM addr_at)) as (p & flags & Hx & HU); [apply Hcop; by right|].
  assert (0 <= PGNUM addr_at < UVPNS) as Hpg by (rewrite PGNUM_div by lia; zlia).
  eapply tries_mono; [exact (dumb_page_all _ _ flags p u u1 Hpg Hat Hd Hf Hdf Hx HU Hu1)|]. intros [] u2 Hu2.
  destruct (al_parent _ _ _ Hu2) as (fl2 & O2 & H2). apply tries_bind.
  unfold Ulib.sys_env_set_status.
  apply (uchild_tries (base := base) (D := D) (k := k) (d := d) (e := e) (f := f) (id := id) SYS_env_set_status (status_code ENV_RUNNABLE) (put env_status ENV_RUNNABLE) u2 fl2 O2); [exact H2| |done|done|by vm_compute|].
  { intros s. transitivity (Syscall.sys_env_set_status (s32 id) 2 s); [reflexivity|]. by rewrite s32_id by lia. }
  intros u3 v3 H3 Hv3 Hs3 Hp3. change (0 <? 0) with false. cbn [when]. apply tries_bind, tries_ret, tries_ret.
  split; [done|]. exists u2, v3. rewrite (vf_envs _ _ (al_frame _ _ _ Hu2)) in *. split; [|split; [done|split; [done|by exists fl2, O2]]].
  eapply copied_ext; [|exact Hu2]. intros v Hv. cbv beta. pose proof (Hcop v) as Hcv.
  destruct (copies end_ addr_at v), (Z.eqb_spec v (PGNUM addr_at)); cbn [orb]; try done.
  - destruct (proj1 Hcv eq_refl) as [?|?]; [zlia|done].
  - discriminate (proj2 Hcv ltac:(by right)).
  - assert (~ (2048 <= v /\ v * 4096 < end_)) by (intros Hin; discriminate (proj2 Hcv (or_introl Hin))). zlia.
Qed.
End Parent.

(** The address spaces in terms of those before the child was made. *)
Lemma dumbfork_views base D k d vk u r e f v' s1 fl1 O (c : Z -> bool) u2 s' :
  child_made base D k d vk (kern u) r e f v' s1 fl1 O -> d ∈ D -> (forall v, c v = true -> 0 <= v < UVPNS) ->
  (exists v, c v = true) -> copied_all (base := base) (D := {[f]} ∪ D) (k := k) (d := d) (e := e) (f := f) (id := r) c (put kern s1 u) u2 ->
  pmem s' = pmem (kern u2) -> let s := kern u in
  (forall v, 0 <= v < UVPNS -> if c v then exists q, xlate s' f v = Some (q, 7) /\
       (forall d' v', d' ∈ {[f]} ∪ D -> 0 <= v' < UVPNS -> (d', v') <> (f, v) -> maps (pmem s') d' v' <> Some q) /\
       (forall p j, maps (pmem s) d v = Some p -> word (pmem s') q j = word (pmem s) p j)
     else xlate s' f v = None) /\
  (forall d' v, d' ∈ D -> 0 <= v < UVPNS ->
     xlate s' d' v = if decide ((d', v) = (d, utemp_page)) then None else xlate s d' v) /\
  (forall d' v p j, d' ∈ D -> 0 <= v < UVPNS -> (d', v) <> (d, utemp_page) -> maps (pmem s) d' v = Some p ->
     word (pmem s') p j = word (pmem s) p j).
Proof.
  intros [_ HfD _ _ _ Hxs _ _ Hcs] Hd Hcr [v0 Hv0] [_ Hself Htemp Hchild Hoth Hcont _ _] Hm'. cbv zeta.
  assert (forall d' v, xlate s' d' v = xlate (kern u2) d' v) as Hxu by (intros; unfold xlate; by rewrite Hm').
  rewrite Hm'.
  assert (kern (put kern s1 u) = s1) as Hk1 by (by destruct u). rewrite Hk1 in *.
  assert (forall d', d' ∈ D -> d' ∈ {[f]} ∪ D) as HD1 by (clear; set_solver).
  assert (forall d', d' ∈ D -> d' <> f) as Hnf by (by intros d' Hd' ->).
  assert (forall d' v, d' ∈ D -> 0 <= v < UVPNS -> maps (pmem s1) d' v = maps (pmem (kern u)) d' v) as Hms
    by (intros d' v Hd' Hv; by rewrite !maps_xlate, Hxs).
  split; [|split].
  - intros v Hv. specialize (Hchild v Hv). destruct (c v); [|by rewrite Hxu]. destruct Hchild as (q & H1 & H2 & H3).
    exists q. split; [by rewrite Hxu|]. split; [done|]. intros p j Hp. rewrite (H3 p j); [by apply (Hcs d v)|]. by rewrite Hms.
  - intros d' v Hd' Hv. rewrite Hxu. case_decide as Hut.
    + injection Hut as -> ->. by apply (Htemp v0), Hv0; apply Hcr.
    + rewrite <- Hxs by done. destruct (decide (d' = d)) as [->|Hne].
      * apply Hself; [done|]. by intros ->.
      * by apply Hoth; [apply HD1|..|apply Hnf].
  - intros d' v p j Hd' Hv Hut Hm. rewrite (Hcont d' v p j); [by apply (Hcs d' v)|by apply HD1|done|by apply Hnf|done|].
    by rewrite Hms.
Qed.

(** C8: [dumbfork] gives the child a copy of the program.  Unless memory or
    environments run out, in which case it calls [panic], it returns the identifier of
    a new environment, runnable, with the caller's registers except that it will see
    0 returned.  Every page of the program's text and data and the page of its stack
    is in the child, writable, in a frame that is mapped nowhere else and has the same
    contents; no other page is in the child.  The parent's own pages, and those of
    every other address space, are mapped as before and have the same contents, apart
    from the page at [UTEMP], which is not mapped any more. *)
Theorem dumbfork_correct base u fl D O k vk d kf end_ addr_at :
  let s := kern u in
  calling base s fl D O k -> can_fork s fl kf -> envs s !! k = Some vk -> env_status vk <> ENV_FREE ->
  env_pgdir vk = kva d -> d ∈ D -> own_tables s D d ->
  UTEXT <= end_ <= UTOP -> 0 <= addr_at < UTOP -> PGNUM addr_at <> utemp_page ->
  (forall v, copies end_ addr_at v = true -> exists p flags, xlate s d v = Some (p, flags) /\ tst flags PTE_U = true) ->
  tries (dumbfork end_ addr_at) (fun r u' => let s' := kern u' in
    exists e f fl' O' v', env_free_list s = Some e /\ ENVX r = e /\ 0 < r /\ (f ∉ D) /\
      calling base s' fl' ({[f]} ∪ D) O' k /\
      envs s' = <[e := v']> (envs s) /\ env_id v' = r /\ env_parent_id v' = env_id vk /\
      env_status v' = ENV_RUNNABLE /\ env_tf v' = upd tf_regs (put reg_eax 0) (env_tf vk) /\ env_pgdir v' = kva f /\
      (forall v, 0 <= v < UVPNS -> if copies end_ addr_at v then exists q, xlate s' f v = Some (q, 7) /\
           (forall d' v', d' ∈ {[f]} ∪ D -> 0 <= v' < UVPNS -> (d', v') <> (f, v) -> maps (pmem s') d' v' <> Some q) /\
           (forall p j, maps (pmem s) d v = Some p -> word (pmem s') q j = word (pmem s) p j)
         else xlate s' f v = None) /\
      (forall d' v, d' ∈ D -> 0 <= v < UVPNS ->
         xlate s' d' v = if decide ((d', v) = (d, utemp_page)) then None else xlate s d' v) /\
      (forall d' v p j, d' ∈ D -> 0 <= v < UVPNS -> (d', v) <> (d, utemp_page) -> maps (pmem s) d' v = Some p ->
         word (pmem s') p j = word (pmem s) p j))
    (fun u' => env_free_list s = None \/
       exists fl' D' O', vm_inv base (kern u') fl' D' O' /\ (length fl' <= 1)%nat) u.
Proof.
  intros s H Hcf Hvk Hlk Hpk Hd Hot Hend Ha Hat Hpages. pose proof (ca_inv _ _ _ _ _ _ H) as INV.
  unfold dumbfork. apply tries_bind, (exofork_tries base u fl D O k vk d kf); try done.
  { intros r Hr Hno. destruct (Z.ltb_spec r 0) as [_|]; [|lia]. apply tries_panic.
    destruct Hno as [?| ->]; [by left|right]. exists [], D, O. split; [exact INV|cbn; lia]. }
  intros r e f v' s1 fl1 [[Efl Hx] HfD Hpa Hes (Hid & Hpar & Hst & Htf & Hpg) Hxs Hz Hnm Hcs].
  pose proof (pa_id _ _ _ _ _ _ _ _ _ _ Hpa) as Hr. assert (d <> f) as Hdf by (by intros ->).
  destruct (Z.ltb_spec r 0) as [|_]; [lia|]. destruct (Z.eqb_spec r 0) as [|_]; [lia|].
  assert (kern (put kern s1 u) = s1) as Hk1 by (by destruct u).
  eapply tries_weaken; [eapply tries_mono; [apply (dumbfork_rest (base := base) (D := {[f]} ∪ D) (k := k) (d := d)
    (e := e) (f := f) (id := r) end_ addr_at (put kern s1 u) fl1 O); rewrite ?Hk1; try done|]|].
  - intros v Hv. destruct (Hpages v Hv) as (p & flags & Hp & HU). exists p, flags. split; [|done]. rewrite Hxs; [done|done|].
    by eapply copies_range; [apply Hend|..].
  - intros r' u' (-> & u2 & v2 & Hall & Hv2 & Hu' & fl' & O' & Hp'). cbv zeta. rewrite Hk1 in *.
    rewrite Hes, lookup_insert_eq in Hv2. injection Hv2 as <-. rewrite Hes, insert_insert_eq in Hu'.
    exists e, f, fl', O', (put env_status ENV_RUNNABLE v'). split; [done|]. split; [done|]. split; [lia|]. split; [done|].
    split; [apply Hp'|]. split; [by rewrite Hu'|]. do 5 (split; [done|]).
    eapply (dumbfork_views base D k d vk u r e f v' s1 fl1 O); [by constructor|done| | |exact Hall|by rewrite Hu'].
    + intros v Hv. by eapply copies_range; [apply Hend|..].
    + exists (PGNUM addr_at). apply copies_spec. by right.
  - intros u' (fl' & O' & INV' & Hl). right. by exists fl', ({[f]} ∪ D), O'.
Qed.

(** A program of one page, its stack at the end of it. *)
Lemma dumbfork_correct_witness : exists u, xlate (kern u) 1 2048 = Some (2, 7) /\
  tries (dumbfork 0x800800 0x800ff0) (fun r u' => 0 < r /\ exists f q, f <> 1 /\ q <> 2 /\
      xlate (kern u') f 2048 = Some (q, 7) /\ xlate (kern u') 1 2048 = Some (2, 7))
    (fun u' => exists fl' D' O', vm_inv boot_refs (kern u') fl' D' O' /\ (length fl' <= 1)%nat) u.
Proof.
  destruct (parent_demo 2048 7 ltac:(lia) ltac:(lia)) as (s & fl & O & H & Hcf & Hot & He & Hx & Hl & _).
  exists (mkUprog s 0 0). split; [exact Hx|]. assert (env_status call_env <> ENV_FREE) as Hst by discriminate.
  assert (forall v, copies 0x800800 0x800ff0 v = true ->
    exists p flags, xlate s 1 v = Some (p, flags) /\ tst flags PTE_U = true) as Hpages.
  { intros v Hc. assert (v = 2048) as -> by (change (PGNUM 0x800ff0) with 2048 in *; apply copies_spec in Hc;
      change (PGNUM 0x800ff0) with 2048 in Hc; lia). exists 2, 7. split; [exact Hx|reflexivity]. }
  pose proof (dumbfork_correct boot_refs (mkUprog s 0 0) fl {[1]} O 0 call_env 1 0 0x800800 0x800ff0
    H Hcf He Hst eq_refl ltac:(set_solver) Hot ltac:(vm_compute; split; discriminate) ltac:(lia) ltac:(intros E; vm_compute in E; discriminate E) Hpages) as Hf.
  eapply tries_weaken; [eapply tries_mono; [exact Hf|]|].
  - intros r u' (e & f & fl' & O' & v' & He' & _ & Hr0 & Hf1 & _ & _ & _ & _ & _ & _ & _ & Hch & Hself & _).
    split; [exact Hr0|]. specialize (Hch 2048 ltac:(lia)). rewrite (proj2 (copies_spec 0x800800 0x800ff0 2048)) in Hch by lia.
    destruct Hch as (q & Hq & Hpriv & _). assert (f <> 1) as Hne by (intros ->; apply Hf1; set_solver).
    assert (xlate (kern u') 1 2048 = Some (2, 7)) as Hx' by (rewrite (Hself 1 2048) by (lia || set_solver); exact Hx).
    exists f, q. split; [exact Hne|]. split; [|by split].
    intros ->. apply (Hpriv 1 2048); [set_solver|lia|by intros [= ?]|]. by rewrite maps_xlate, Hx'.
  - intros u' [Hn|Hm]; [|exact Hm]. cbn [kern] in Hn. by rewrite Hl in Hn.
Defined.
