(* ===== verification/LoadSpec.v ===== *)
(** * Loading a program ([load_icode] and [region_alloc] of [kern/env.c])

    An environment's memory as its bytes ([user_byte]), and what loading an ELF
    image does to them. *)

From Stdlib Require Import Lia ZArith ZifyClasses ZifyInst ZifyBool.
From stdpp Require Import base gmap list strings numbers.
From S2P Require Import Prelude Cmonad Mmu Printfmt Console State Spinlock Umem Pmap.
From S2P Require Import PageList Vm VmInv PmapLem VmLem PmapSpec VmDir Mpconfig MpSpec UserLem Env EnvLem.
From S2P Require Import Sched Syscall SyscallSpec.

(** The byte at [va] in the address space [d]. *)
Definition user_byte (s : kstate) (d va : Z) : option Z :=
  (fun p => get_byte (pmem s) (p * 4096 + va mod 4096)) <$> maps (pmem s) d (va / 4096).

Lemma maps_fst s d v : maps (pmem s) d v = fst <$> xlate s d v.
Proof. unfold maps, xlate. by destruct (present _). Qed.

Lemma get_byte_word m m' p o : 0 <= o < 4096 -> (forall i, word m' p i = word m p i) ->
  get_byte m' (p * 4096 + o) = get_byte m (p * 4096 + o).
Proof.
  intros Ho H. unfold get_byte. change PGSIZE with 4096.
  replace ((p * 4096 + o) / 4096) with p by zlia. by rewrite H.
Qed.

Lemma user_byte_same s s' d va :
  maps (pmem s') d (va / 4096) = maps (pmem s) d (va / 4096) ->
  (forall p i, maps (pmem s) d (va / 4096) = Some p -> word (pmem s') p i = word (pmem s) p i) ->
  user_byte s' d va = user_byte s d va.
Proof.
  intros Hm Hw. unfold user_byte. rewrite Hm. destruct (maps (pmem s) d (va / 4096)) as [p|]; [|done]. cbn. f_equal.
  apply get_byte_word; [apply Z.mod_pos_bound; lia|]. intros i. by apply Hw.
Qed.

(** The pages [region_alloc] maps for [len] bytes at [va]. *)
Definition in_region (va len v : Z) : Prop := va / 4096 <= v < (va + len + 4095) / 4096.

Lemma region_byte va n x : va <= x < va + n -> in_region va n (x / 4096).
Proof. intros H. unfold in_region. zlia. Qed.

Lemma va_page va : 0 <= va < UTOP -> 0 <= va / 4096 < UVPNS.
Proof. intros H. change UVPNS with (UTOP / 4096). zlia. Qed.

Section Load.
Context {base : Z -> Z} {D : gset Z} {d : Z}.
Context (image : Z -> Prop).      (* the frames the image is in *)
Hypothesis base_nonneg : forall q, 0 <= base q.
Hypothesis Hd : d ∈ D.

(** Page [v] of [d] is open to the program, and its frame is mapped nowhere else. *)
Definition sole (s : kstate) (v : Z) : Prop :=
  exists p, xlate s d v = Some (p, 7) /\
    forall d' v', d' ∈ D -> 0 <= v' < UVPNS -> maps (pmem s) d' v' = Some p -> (d', v') = (d, v).

(** Frame [q] is in use, but for none of what loading changes. *)
Definition idle (s : kstate) (fl : list Z) (O : gmap Z (Z * Z)) (q : Z) : Prop :=
  0 <= q < npages s /\ (q ∉ fl) /\ (q ∉ D) /\ O !! q = None /\
  forall d' v', d' ∈ D -> 0 <= v' < UVPNS -> maps (pmem s) d' v' <> Some q.

(** [s] is on the way from [s0], and the pages [A] of [d] have been allocated. *)
Record loading (s0 : kstate) (A : Z -> Prop) (s : kstate) (fl : list Z) (O : gmap Z (Z * Z)) : Prop := {
  lg_inv : vm_inv base s fl D O;
  lg_frame : vm_frame s0 s;
  lg_open : pdes_user D (pmem s);
  lg_idle q : image q -> idle s fl O q;
  lg_image q i : image q -> word (pmem s) q i = word (pmem s0) q i;
  lg_sole v : A v -> 0 <= v < UVPNS /\ sole s v;
  lg_xlate d' v : d' ∈ D -> 0 <= v < UVPNS -> ~ (d' = d /\ A v) -> xlate s d' v = xlate s0 d' v;
  lg_bytes d' va : d' ∈ D -> 0 <= va < UTOP -> ~ (d' = d /\ A (va / 4096)) -> user_byte s d' va = user_byte s0 d' va
}.

Definition no_memory (s : kstate) : Prop := exists O, vm_inv base s [] D O.

Lemma loading_ext s0 A A' s fl O : (forall v, A v <-> A' v) -> loading s0 A s fl O -> loading s0 A' s fl O.
Proof.
  intros H [H1 H2 H3 H4 H5 H6 H7 H8]. constructor; try done.
  - intros v Hv. by apply H6, H.
  - intros d' v Hd' Hv Hn. apply H7; [done..|]. by rewrite H.
  - intros d' va Hd' Hva Hn. apply H8; [done..|]. by rewrite H.
Qed.

(** ** One page *)

(** Inserting the fresh page [p] at [v], as far as loading is concerned. *)
Lemma loading_insert s0 A s fl O v p s' fl' O' :
  loading s0 A s fl O -> 0 <= v < UVPNS -> ~ A v -> p ∈ fl ->
  vm_inv base s' fl' D O' -> vm_frame s s' -> xlate_update D s s' d v (Some (p, 7)) ->
  pdes_user D (pmem s') ->
  (forall q i, q ∉ fl -> q ∉ D -> O !! q = None -> word (pmem s') q i = word (pmem s) q i) ->
  (forall q, q ∉ fl -> O' !! q = O !! q /\ (maps (pmem s) d v <> Some q -> q ∉ fl')) ->
  loading s0 (fun v' => A v' \/ v' = v) s' fl' O' /\
  forall va, 0 <= va < UTOP -> va / 4096 <> v -> user_byte s' d va = user_byte s d va.
Proof.
  intros [INV Hfr Hop Hid Him Hso Hxl Hby] Hv HA Hp INV' Hf Hx Hop' Hds Hq.
  destruct (free_unused INV p Hp (base_nonneg p)) as (_ & _ & _ & _ & Hpn).
  assert (forall d' v', d' ∈ D -> 0 <= v' < UVPNS -> (d', v') <> (d, v) ->
    maps (pmem s') d' v' = maps (pmem s) d' v') as Hm.
  { intros d' v' Hd' Hv' Hne. by rewrite !maps_fst, (Hx d' v'), decide_False. }
  assert (forall d' v' q i, d' ∈ D -> 0 <= v' < UVPNS -> maps (pmem s) d' v' = Some q ->
    word (pmem s') q i = word (pmem s) q i) as Hw.
  { intros d' v' q i Hd' Hv' Hmq. destruct (vo_map _ _ _ _ (vi_vm _ _ _ _ _ INV) _ _ _ Hd' Hv' Hmq) as (_ & HD & HO).
    apply Hds; [|done..]. by apply (mapped_not_free INV q d' v'). }
  assert (forall d' va, d' ∈ D -> 0 <= va < UTOP -> (d', va / 4096) <> (d, v) ->
    user_byte s' d' va = user_byte s d' va) as Hub.
  { intros d' va Hd' Hva Hne. pose proof (va_page va Hva). apply user_byte_same; [by apply Hm|].
    intros q i Hmq. by apply (Hw d' (va / 4096)). }
  assert (xlate s' d v = Some (p, 7)) as Hxv by (by rewrite (Hx d v), decide_True).
  split; [|intros va Hva Hne; apply Hub; [done..|congruence]]. constructor.
  - done.
  - by etrans.
  - done.
  - intros q Hqi. destruct (Hid q Hqi) as (H1 & H2 & H3 & H4 & H5). destruct (Hq q H2) as [Hq1 Hq2].
    split; [by rewrite (vf_npages _ _ Hf)|]. split; [by apply Hq2, H5|]. split; [done|]. split; [congruence|].
    intros d' v' Hd' Hv'. destruct (decide ((d', v') = (d, v))) as [[= -> ->]|Hne].
    + rewrite maps_fst, Hxv. intros [= ->]. done.
    + rewrite Hm by done. by apply H5.
  - intros q i Hqi. destruct (Hid q Hqi) as (H1 & H2 & H3 & H4 & H5). rewrite Hds by done. by apply Him.
  - intros v' [HAv| ->].
    + destruct (Hso v' HAv) as (Hv' & p' & Hxp & Hu). split; [done|]. assert (v' <> v) as Hne by (by intros ->).
      exists p'. split; [by rewrite (Hx d v'), decide_False by (done || by intros [= ?])|].
      intros d2 v2 Hd2 Hv2 Hm2. destruct (decide ((d2, v2) = (d, v))) as [[= -> ->]|Hne2].
      * rewrite maps_fst, Hxv in Hm2. injection Hm2 as ->. exfalso. apply (Hpn d v' Hd Hv'). by rewrite maps_fst, Hxp.
      * rewrite Hm in Hm2 by done. by apply Hu.
    + split; [done|]. exists p. split; [done|]. intros d2 v2 Hd2 Hv2 Hm2.
      destruct (decide ((d2, v2) = (d, v))) as [|Hne2]; [done|]. rewrite Hm in Hm2 by done. by destruct (Hpn d2 v2 Hd2 Hv2).
  - intros d' v' Hd' Hv' Hn. rewrite (Hx d' v'), decide_False by (done || (intros [= -> ->]; apply Hn; auto)).
    apply Hxl; [done..|]. intros [-> ?]. apply Hn. auto.
  - intros d' va Hd' Hva Hn. rewrite Hub by (done || (intros [= -> <-]; apply Hn; auto)).
    apply Hby; [done..|]. intros [-> ?]. apply Hn. auto.
Qed.

(** One round of [region_alloc]. *)
Lemma alloc_page_tries e w v s0 A s fl O (Q : unit -> kstate -> Prop) :
  cpu_ok s0 -> envs s0 !! e = Some w -> env_pgdir w = kva d -> 0 <= v < UVPNS -> ~ A v -> loading s0 A s fl O ->
  (forall s' fl' O', loading s0 (fun v' => A v' \/ v' = v) s' fl' O' ->
     (forall va, 0 <= va < UTOP -> va / 4096 <> v -> user_byte s' d va = user_byte s d va) -> Q tt s') ->
  tries (pg ← page_alloc 0;
    match pg with
    | None => panic "can't allocate a new page"
    | Some pg =>
        v0 ← get_env e;
        flag ← page_insert (env_pgdir v0) pg (v * 4096) (Z.lor PTE_W PTE_U);
        when (negb (flag =? 0)) (panic "map creation failed")
    end) Q no_memory s.
Proof.
  intros Hcpu He Hpg Hv HA H HQ. pose proof (lg_inv _ _ _ _ _ H) as INV. pose proof (lg_frame _ _ _ _ _ H) as Hfr.
  apply tries_bind, tries_of_wp. eapply wp_mono; [by apply (page_alloc_wp base s fl D O 0 INV base_nonneg)|].
  destruct fl as [|p fl1]; [intros r s1 [-> ->]; apply tries_panic; by exists O|].
  intros r s1 (-> & INV1 & Hmp & Hr0 & Hf1 & _ & Hm1 & _ & _ & Hpn). cbn in Hm1.
  apply tries_bind. eapply tries_Ret; [apply get_env_eq; rewrite (vf_envs _ _ Hf1), (vf_envs _ _ Hfr); exact He|].
  rewrite Hpg. apply tries_bind, tries_of_wp.
  assert (0 <= v * 4096 < UTOP) as Hva by lia.
  assert (PGNUM (v * 4096) = v) as Hpn' by (rewrite PGNUM_div by lia; by rewrite Z.div_mul by lia).
  eapply wp_mono; [apply (page_insert_full INV1 base_nonneg Hd Hva (perm := 6)); [lia| |exact Hmp]|].
  { eapply cpu_ok_frame; [|exact Hcpu]. by etrans. }
  intros r s2 [(-> & -> & -> & _)|(fl' & O' & -> & INV2 & Hf2 & Hone & _ & (_ & Hq) & Hds & Hk)].
  { change (negb (- E_NO_MEM =? 0)) with true. apply tries_panic. by exists O. }
  cbn [Z.eqb negb when]. apply tries_ret. rewrite Hpn' in *.
  pose proof (one_pte_xlate _ _ s2 _ _ _ Hone) as Hx. rewrite (new_entry_xlate p 6) in Hx by lia.
  destruct (loading_insert s0 A s (p :: fl1) O v p s2 fl' O' H Hv HA) as [HL Hb].
  - by left.
  - done.
  - by etrans.
  - intros d' v' Hd' Hv'. rewrite (Hx d' v') by done. unfold xlate. by rewrite Hm1.
  - apply Hk. rewrite Hm1. apply (lg_open _ _ _ _ _ H).
  - intros q i Hqf HD HO. rewrite Hds by (done || set_solver). by rewrite Hm1.
  - intros q Hqf. destruct (Hq q) as (Ho & _ & Hn); [set_solver|]. split; [done|]. intros Hne. apply Hn. left. by rewrite Hm1.
  - by apply (HQ s2 fl' O').
Qed.

(** ** A region *)

Lemma region_alloc_tries e w va len s0 A s fl O (Q : unit -> kstate -> Prop) :
  cpu_ok s0 -> envs s0 !! e = Some w -> env_pgdir w = kva d -> 0 <= va -> 0 <= len -> va + len <= UTOP ->
  (forall v, in_region va len v -> ~ A v) -> loading s0 A s fl O ->
  (forall s' fl' O', loading s0 (fun v => A v \/ in_region va len v) s' fl' O' ->
     (forall x, 0 <= x < UTOP -> ~ in_region va len (x / 4096) -> user_byte s' d x = user_byte s d x) -> Q tt s') ->
  tries (region_alloc e va len) Q no_memory s.
Proof.
  intros Hcpu He Hpg Hva Hlen Hend HA H HQ. unfold region_alloc.
  assert (va + len < 2 ^ 32 - 4096) as Hlt by (change (2 ^ 32) with 4294967296; unfold UTOP in *; lia).
  rewrite ROUNDDOWN_spec, u32_id, ROUNDUP_spec by lia. destruct (Z.leb_spec (va + len) (2 ^ 32 - 4096)); [|lia].
  change PGSIZE with 4096.
  set (b := va / 4096). set (n := (va + len + 4095) / 4096 - b).
  replace ((va + len + 4095) / 4096 * 4096 - b * 4096) with (n * 4096) by (unfold n; lia). rewrite Z.div_mul by lia.
  assert (0 <= n) as Hn by (unfold n, b; zlia).
  apply (tries_for_loop _ _ _ _ (fun i s' => exists j, i = (b + j) * 4096 /\ 0 <= j /\ exists fl' O',
    loading s0 (fun v => A v \/ b <= v < b + j) s' fl' O' /\
    (forall x, 0 <= x < UTOP -> ~ b <= x / 4096 < b + j -> user_byte s' d x = user_byte s d x))).
  - exists 0. split; [lia|]. split; [lia|]. exists fl, O. split; [|done]. eapply loading_ext; [|exact H]. intros v. intuition lia.
  - intros k s' Hk (j & Hj & Hj0 & fl' & O' & H' & Hb). rewrite Hj.
    assert (j = Z.of_nat k) as -> by lia.
    assert (0 <= b + Z.of_nat k < UVPNS) as Hv.
    { change UVPNS with (UTOP / 4096). unfold n, b in *. unfold UTOP in *. zlia. }
    eapply (alloc_page_tries e w (b + Z.of_nat k) s0 _ s' fl' O'); try done.
    + intros [HAv|?]; [|lia]. revert HAv. apply HA. unfold in_region. fold b. unfold n in *. lia.
    + intros s2 fl2 O2 H2 Hb2. exists (Z.of_nat k + 1). split; [lia|]. split; [lia|]. exists fl2, O2. split.
      * eapply loading_ext; [|exact H2]. intros v. intuition lia.
      * intros x Hx Hxn. rewrite Hb2 by (lia || done). apply Hb; [done|lia].
  - intros s' (j & Hj & Hj0 & fl' & O' & H' & Hb). assert (j = n) as -> by lia. apply (HQ s' fl' O').
    + eapply loading_ext; [|exact H']. intros v. unfold in_region. fold b. unfold n. intuition lia.
    + intros x Hx Hxn. apply Hb; [done|]. unfold in_region in Hxn. fold b in Hxn. unfold n. lia.
Qed.

(** ** One byte *)

Lemma sole_page s0 A s fl O v p : loading s0 A s fl O -> cr3 s0 = d * 4096 -> A v -> xlate s d v = Some (p, 7) ->
  user_page s fl D O base d v p /\ writable (pmem s) d v.
Proof.
  intros H Hc HA Hx. destruct (lg_sole _ _ _ _ _ H v HA) as [Hv _].
  assert (maps (pmem s) d v = Some p) as Hm by (by rewrite maps_fst, Hx). split.
  - constructor; try done; [apply H|]. by rewrite (vf_cr3 _ _ (lg_frame _ _ _ _ _ H)).
  - unfold xlate in Hx. destruct (present (pte (pmem s) d v)) eqn:Hp; [|done]. injection Hx as _ Hfl. split.
    + apply (lg_open _ _ _ _ _ H d (v / 1024) Hd); [by apply vpn_split|].
      unfold pte in Hp. by destruct (present (word (pmem s) d (v / 1024))).
    + change PTE_W with (2 ^ 1). rewrite tst_pow2 by lia. rewrite <- (Z.mod_pow2_bits_low _ 12) by lia.
      change (2 ^ 12) with 4096. by rewrite Hfl.
Qed.

Lemma store_byte_wp b va s0 A s fl O (Q : unit -> kstate -> Prop) :
  cr3 s0 = d * 4096 -> loading s0 A s fl O -> 0 <= va < UTOP -> A (va / 4096) ->
  (forall s', loading s0 A s' fl O ->
     (forall x, 0 <= x < UTOP -> user_byte s' d x = if decide (x = va) then Some (u8 b) else user_byte s d x) -> Q tt s') ->
  wp (ustore_byte va b) Q s.
Proof.
  intros Hc H Hva HA HQ. set (v := va / 4096) in *.
  destruct (lg_sole _ _ _ _ _ H v HA) as [Hv (p & Hx & Hu)].
  destruct (sole_page _ _ _ _ _ _ _ H Hc HA Hx) as [UP Hw].
  destruct (user_page_frame UP) as (Hp & HpD & HpO & _).
  assert (0 <= va mod 4096 < 4096) as Ho by (apply Z.mod_pos_bound; lia).
  replace va with (v * 4096 + va mod 4096) at 1 by (unfold v; zlia).
  eapply wp_Ret; [by apply (ustore_byte_eq UP)|].
  set (m' := set_byte (p * 4096 + va mod 4096) b (pmem s)).
  assert (outside p (pmem s) m') as Hout.
  { intros f i Hf. apply set_byte_outside. change PGSIZE with 4096. intros ->. apply Hf. zlia. }
  pose proof (vi_vm _ _ _ _ _ (lg_inv _ _ _ _ _ H)) as Hok.
  destruct (user_page_data UP m' Hout) as ([INV' _ _ _ _] & _ & Hs).
  { intros i. apply set_byte_word; [lia|]. apply (vo_word _ _ _ _ Hok). }
  assert (forall d' v', d' ∈ D -> 0 <= v' < UVPNS -> xlate (put pmem m' s) d' v' = xlate s d' v') as Hxs.
  { intros d' v' Hd' Hv'. unfold xlate. kred. by rewrite Hs. }
  assert (maps (pmem s) d v = Some p) as Hmv by (by rewrite maps_fst, Hx).
  assert (forall d' x, d' ∈ D -> 0 <= x < UTOP -> user_byte (put pmem m' s) d' x =
    if decide (d' = d /\ x = va) then Some (u8 b) else user_byte s d' x) as Hub.
  { intros d' x Hd' Hxr. pose proof (va_page x Hxr) as Hvx. unfold user_byte.
    rewrite !maps_fst, Hxs, <- maps_fst by done. kred.
    destruct (maps (pmem s) d' (x / 4096)) as [q|] eqn:Eq; cbn.
    - pose proof (Z.mod_pos_bound x 4096 ltac:(lia)) as Hxm.
      assert (0 <= q) as Hq0 by (destruct (vo_map _ _ _ _ Hok _ _ _ Hd' Hvx Eq); lia).
      destruct (decide (q = p)) as [->|Hqp].
      + pose proof (Hu d' (x / 4096) Hd' Hvx Eq) as [= -> Hpage]. unfold m'. destruct (decide (x = va)) as [->|Hne].
        * rewrite decide_True by done. f_equal.
          rewrite <- (get_set_byte (pmem s) (p * 4096 + va mod 4096) (u8 b)) by (try lia; unfold u8; apply Z.mod_pos_bound; lia).
          unfold set_byte. by rewrite (u8_id (u8 b)) by (unfold u8; apply Z.mod_pos_bound; lia).
        * rewrite decide_False by naive_solver. f_equal. apply get_set_byte_ne; [lia|lia|]. unfold v in Hpage. zlia.
      + rewrite decide_False; [f_equal; apply get_byte_word; [lia|]; intros i; by apply Hout|].
        intros [-> ->]. fold v in Eq. congruence.
    - rewrite decide_False; [done|]. intros [-> ->]. fold v in Eq. congruence. }
  apply HQ; [|intros x Hxr; rewrite Hub by done; by repeat case_decide; naive_solver].
  destruct H as [INV Hfr Hop Hid Him Hso Hxl Hby]. constructor.
  - exact INV'.
  - etrans; [exact Hfr|]. auto with vm.
  - intros d' i Hd' Hi. kred. rewrite (Hout d') by (by intros ->). by apply Hop.
  - intros q Hq. destruct (Hid q Hq) as (H1 & H2 & H3 & H4 & H5). split; [exact H1|]. do 3 (split; [done|]).
    intros d' v' Hd' Hv'. rewrite maps_fst, Hxs, <- maps_fst by done. by apply H5.
  - intros q i Hq. kred. destruct (Hid q Hq) as (_ & _ & _ & _ & H5). rewrite Hout by (intros ->; by apply (H5 d v)).
    by apply Him.
  - intros v' Hv'. destruct (Hso v' Hv') as (Hr & p' & Hx' & Hu'). split; [done|]. exists p'. split; [by rewrite Hxs|].
    intros d2 v2 Hd2 Hv2. rewrite maps_fst, Hxs, <- maps_fst by done. by apply Hu'.
  - intros d' v' Hd' Hv' Hn. rewrite Hxs by done. by apply Hxl.
  - intros d' x Hd' Hxr Hn. rewrite Hub by done. rewrite decide_False; [by apply Hby|]. intros [-> ->]. by apply Hn.
Qed.

(** ** The image *)

Context {binary len : Z}.
Hypothesis binary_high : KERNBASE <= binary.
Hypothesis image_covers : forall x, binary <= x < binary + len -> image ((x - KERNBASE) / 4096).

Lemma kbyte_image s0 A s fl O x :
  loading s0 A s fl O -> binary <= x < binary + len -> kbyte s x = kbyte s0 x /\ ram s x 1.
Proof.
  intros H Hx. pose proof (image_covers x Hx) as Hi. split.
  - unfold kbyte. pose proof (Z.mod_pos_bound (x - KERNBASE) 4096 ltac:(lia)) as Hm.
    replace (x - KERNBASE) with ((x - KERNBASE) / 4096 * 4096 + (x - KERNBASE) mod 4096) by zlia.
    apply get_byte_word; [done|]. intros i. by apply (lg_image _ _ _ _ _ H).
  - destruct (lg_idle _ _ _ _ _ H _ Hi) as ([_ Hq] & _). split; [lia|]. change PGSIZE with 4096. zlia.
Qed.

(** A number in the image is still what it was. *)
Lemma read_image s0 A s fl O n x :
  loading s0 A s fl O -> binary <= x -> x + Z.of_nat n <= binary + len -> read_le kload_byte n x s = Ret (kle s0 n x) s.
Proof.
  intros H. revert x. induction n as [|n IH]; intros x Hx Hn; cbn [read_le kle]; [done|].
  destruct (kbyte_image _ _ _ _ _ x H) as [<- Hr]; [lia|].
  erewrite bind_Ret by (by apply kload_byte_eq). by erewrite bind_Ret by (apply IH; lia).
Qed.

(** ** Runs of bytes *)

Lemma zero_user_wp n dst s0 A s fl O (Q : unit -> kstate -> Prop) :
  cr3 s0 = d * 4096 -> loading s0 A s fl O -> 0 <= dst -> dst + Z.of_nat n <= UTOP ->
  (forall x, dst <= x < dst + Z.of_nat n -> A (x / 4096)) ->
  (forall s', loading s0 A s' fl O ->
     (forall x, 0 <= x < UTOP ->
        user_byte s' d x = if decide (dst <= x < dst + Z.of_nat n) then Some 0 else user_byte s d x) -> Q tt s') ->
  wp (zero_user n dst) Q s.
Proof.
  intros Hc. revert dst s. induction n as [|n IH]; intros dst s H Hdst Hend HA HQ; cbn [zero_user].
  { apply wp_ret, HQ; [done|]. intros x Hx. by rewrite decide_False by lia. }
  apply wp_bind. apply (store_byte_wp _ _ s0 A s fl O); [done..|lia|apply HA; lia|]. intros s1 H1 Hb1.
  apply IH; [done|lia|lia|intros x Hx; apply HA; lia|]. intros s2 H2 Hb2. apply HQ; [done|].
  intros x Hx. rewrite Hb2, Hb1 by done. repeat case_decide; (done || lia).
Qed.

Lemma copy_to_user_wp n dst src s0 A s fl O (Q : unit -> kstate -> Prop) :
  cr3 s0 = d * 4096 -> loading s0 A s fl O -> 0 <= dst -> dst + Z.of_nat n <= UTOP ->
  (forall x, dst <= x < dst + Z.of_nat n -> A (x / 4096)) ->
  binary <= src -> src + Z.of_nat n <= binary + len ->
  (forall s', loading s0 A s' fl O ->
     (forall x, 0 <= x < UTOP ->
        user_byte s' d x = if decide (dst <= x < dst + Z.of_nat n) then Some (kbyte s0 (src + (x - dst))) else user_byte s d x) ->
     Q tt s') ->
  wp (copy_to_user n dst src) Q s.
Proof.
  intros Hc. revert dst src s. induction n as [|n IH]; intros dst src s H Hdst Hend HA Hs1 Hs2 HQ; cbn [copy_to_user].
  { apply wp_ret, HQ; [done|]. intros x Hx. by rewrite decide_False by lia. }
  destruct (kbyte_image _ _ _ _ _ src H) as [Hk Hr]; [lia|].
  apply wp_bind. eapply wp_Ret; [by apply kload_byte_eq|]. rewrite Hk.
  apply wp_bind. apply (store_byte_wp _ _ s0 A s fl O); [done..|lia|apply HA; lia|]. intros s1 H1 Hb1.
  apply IH; [done|lia|lia|intros x Hx; apply HA; lia|lia|lia|]. intros s2 H2 Hb2. apply HQ; [done|].
  intros x Hx. rewrite Hb2, Hb1 by done. repeat case_decide; try (done || lia).
  - do 2 f_equal. lia.
  - subst x. rewrite Z.sub_diag, Z.add_0_r. f_equal. apply u8_id. unfold kbyte, get_byte.
    change 0xff with (Z.ones 8). rewrite Z.land_ones by lia. apply Z.mod_pos_bound. lia.
Qed.

(** ** A segment *)

(** The fields of the program header at [ph]. *)
Record segment : Type := Seg { sg_type : Z; sg_offset : Z; sg_va : Z; sg_filesz : Z; sg_memsz : Z }.

Definition segment_at (s : kstate) (ph : Z) : segment :=
  Seg (kle s 4 ph) (kle s 4 (ph + 4)) (kle s 4 (ph + 8)) (kle s 4 (ph + 16)) (kle s 4 (ph + 20)).

Definition loaded (sg : segment) : Prop := sg_type sg = ELF_PROG_LOAD.

(** Page [v] is one of the segment's. *)
Definition segment_page (sg : segment) (v : Z) : Prop := loaded sg /\ in_region (sg_va sg) (sg_memsz sg) v.

Record segment_ok (sg : segment) : Prop := {
  so_offset : 0 <= sg_offset sg /\ sg_offset sg + sg_filesz sg <= len;
  so_filesz : 0 <= sg_filesz sg <= sg_memsz sg;
  so_va : 0 <= sg_va sg /\ sg_va sg + sg_memsz sg <= UTOP
}.

(** Byte [x] of the program: from the file, then zero. *)
Definition segment_byte (s0 : kstate) (sg : segment) (x : Z) : Z :=
  if decide (x < sg_va sg + sg_filesz sg) then kbyte s0 (binary + sg_offset sg + (x - sg_va sg)) else 0.

Definition segment_in (s0 s : kstate) (sg : segment) : Prop :=
  loaded sg -> forall x, sg_va sg <= x < sg_va sg + sg_memsz sg -> user_byte s d x = Some (segment_byte s0 sg x).

Lemma load_segment_tries e w ph s0 A s fl O (Q : unit -> kstate -> Prop) :
  let sg := segment_at s0 ph in
  cpu_ok s0 -> envs s0 !! e = Some w -> env_pgdir w = kva d -> cr3 s0 = d * 4096 ->
  binary <= ph -> ph + 32 <= binary + len -> (loaded sg -> segment_ok sg) ->
  (forall v, segment_page sg v -> ~ A v) -> loading s0 A s fl O ->
  (forall s' fl' O', loading s0 (fun v => A v \/ segment_page sg v) s' fl' O' -> segment_in s0 s' sg ->
     (forall x, 0 <= x < UTOP -> ~ segment_page sg (x / 4096) -> user_byte s' d x = user_byte s d x) -> Q tt s') ->
  tries (load_segment e binary ph) Q no_memory s.
Proof.
  intros sg Hcpu He Hpg Hc Hph Hphe Hok HA H HQ. unfold load_segment.
  assert (forall k, 0 <= k -> k + 4 <= 32 -> kread32 (ph + k) s = Ret (kle s0 4 (ph + k)) s) as Hrd
    by (intros k Hk1 Hk2; apply (read_image s0 A s fl O 4 _ H); lia).
  apply tries_bind. pose proof (Hrd 0 ltac:(lia) ltac:(lia)) as Hrd0. rewrite Z.add_0_r in Hrd0.
  eapply tries_Ret; [exact Hrd0|]. apply tries_when; intros Hty.
  2:{ assert (~ loaded sg) as Hno by (intros E; apply Z.eqb_neq in Hty; by apply Hty).
      apply (HQ s fl O); [|by intros ?|done]. eapply loading_ext; [|exact H]. intros v. unfold segment_page. tauto. }
  apply Z.eqb_eq in Hty. assert (loaded sg) as Hl by done. destruct (Hok Hl) as [[Ho1 Ho2] [Hf1 Hf2] [Hv1 Hv2]].
  do 4 (apply tries_bind; eapply tries_Ret; [apply Hrd; lia|]).
  change (kle s0 4 (ph + 4)) with (sg_offset sg). change (kle s0 4 (ph + 8)) with (sg_va sg).
  change (kle s0 4 (ph + 16)) with (sg_filesz sg). change (kle s0 4 (ph + 20)) with (sg_memsz sg).
  clearbody sg. unfold UTOP in *.
  rewrite !u32_id by lia.
  apply tries_bind. apply (region_alloc_tries e w _ _ s0 A s fl O); try done; try (unfold UTOP; lia).
  { intros v Hv. by apply HA. }
  intros s1 fl1 O1 H1 Hb1.
  assert (forall x, sg_va sg <= x < sg_va sg + sg_memsz sg -> in_region (sg_va sg) (sg_memsz sg) (x / 4096)) as Hin
    by (intros x Hx; by apply region_byte).
  apply tries_bind, tries_of_wp. eapply copy_to_user_wp; [exact Hc|exact H1|lia|unfold UTOP; lia| |lia|lia|].
  { intros x Hx. right. apply Hin. lia. }
  intros s2 H2 Hb2. apply tries_of_wp.
  eapply zero_user_wp; [exact Hc|exact H2|lia|unfold UTOP; lia|intros x Hx; right; apply Hin; lia|].
  intros s3 H3 Hb3. apply (HQ s3 fl1 O1).
  - eapply loading_ext; [|exact H3]. intros v. unfold segment_page. tauto.
  - intros _ x Hx. rewrite Hb3, Hb2 by (unfold UTOP; lia). unfold segment_byte. rewrite !Z2Nat.id by lia.
    repeat case_decide; try (done || lia).
  - intros x Hx Hn. rewrite Hb3, Hb2 by done. rewrite !Z2Nat.id by lia.
    assert (~ in_region (sg_va sg) (sg_memsz sg) (x / 4096)) as Hnr by (intros ?; by apply Hn).
    rewrite !decide_False by (intros ?; apply Hnr, Hin; lia). by apply Hb1.
Qed.
End Load.

(** ** The program *)

Section Program.
Context {base : Z -> Z} {D : gset Z} {d : Z} {binary len : Z}.
Hypothesis base_nonneg : forall q, 0 <= base q.
Hypothesis Hd : d ∈ D.

(** The frames of the [len] bytes at [binary]. *)
Definition image_frame (q : Z) : Prop := exists x, binary <= x < binary + len /\ q = (x - KERNBASE) / 4096.

(** Program header [i], the number of them, and the entry point. *)
Definition elf_segment (s : kstate) (i : Z) : segment := segment_at s (binary + kle s 4 (binary + 28) + 32 * i).
Definition elf_phnum (s : kstate) : Z := kle s 2 (binary + 44).
Definition elf_entry (s : kstate) : Z := kle s 4 (binary + 24).

(** The page of the stack. *)
Definition STACKVPN : Z := (USTACKTOP - PGSIZE) / 4096.

(** What [load_icode] takes for granted about the file. *)
Record elf_image (s : kstate) : Prop := {
  ei_header : KERNBASE <= binary /\ 52 <= len;
  ei_magic : kle s 4 binary = ELF_MAGIC;
  ei_headers : 0 <= kle s 4 (binary + 28) /\ kle s 4 (binary + 28) + 32 * elf_phnum s <= len;
  ei_phnum : 0 <= elf_phnum s;
  ei_segment i : 0 <= i < elf_phnum s -> loaded (elf_segment s i) -> segment_ok (len := len) (elf_segment s i);
  ei_apart i j v : 0 <= i < j -> j < elf_phnum s -> segment_page (elf_segment s i) v -> ~ segment_page (elf_segment s j) v;
  ei_stack i : 0 <= i < elf_phnum s -> ~ segment_page (elf_segment s i) STACKVPN
}.

(** The file is the same in both states. *)
Definition image_same (s s' : kstate) : Prop :=
  forall q i, image_frame q -> word (pmem s') q i = word (pmem s) q i.

Lemma image_frame_byte x : binary <= x < binary + len -> image_frame ((x - KERNBASE) / 4096).
Proof. intros H. by exists x. Qed.

Lemma kbyte_same_image s s' x : image_same s s' -> binary <= x < binary + len -> kbyte s' x = kbyte s x.
Proof.
  intros H Hx. unfold kbyte. rewrite (Z.div_mod (x - KERNBASE) 4096), (Z.mul_comm 4096) by lia.
  apply get_byte_word; [apply Z.mod_pos_bound; lia|]. intros i. by apply H, image_frame_byte.
Qed.

Lemma kle_same_image s s' n x :
  image_same s s' -> binary <= x -> x + Z.of_nat n <= binary + len -> kle s' n x = kle s n x.
Proof.
  intros H. revert x. induction n as [|n IH]; intros x Hx Hn; cbn [kle]; [done|].
  rewrite IH by lia. by rewrite (kbyte_same_image s) by (done || lia).
Qed.

Lemma elf_header_same s s' : image_same s s' -> elf_image s ->
  kle s' 4 (binary + 28) = kle s 4 (binary + 28) /\ elf_phnum s' = elf_phnum s /\ elf_entry s' = elf_entry s.
Proof. intros H [[Hb Hl] _ _ _ _ _ _]. split; [|split]; apply kle_same_image; (done || lia). Qed.

Lemma elf_segment_same s s' i : image_same s s' -> elf_image s -> 0 <= i < elf_phnum s ->
  elf_segment s' i = elf_segment s i.
Proof.
  intros H Hi Hr. destruct (elf_header_same s s' H Hi) as [Hp _]. destruct Hi as [[Hb Hl] _ [Hh1 Hh2] _ _ _ _].
  unfold elf_segment. rewrite Hp. unfold segment_at. f_equal; apply kle_same_image; (done || lia).
Qed.

Lemma elf_image_same s s' : image_same s s' -> elf_image s -> elf_image s'.
Proof.
  intros H Himg. pose proof (fun i => elf_segment_same s s' i H Himg) as Hi.
  destruct (elf_header_same s s' H Himg) as (Hp & Hn & _).
  destruct Himg as [E1 E2 E3 E4 E5 E6 E7]. constructor; rewrite ?Hn, ?Hp; try assumption.
  - rewrite (kle_same_image s) by (done || lia). exact E2.
  - intros i Hr. rewrite Hi by done. by apply E5.
  - intros i j v Hij Hj. rewrite !Hi by lia. by apply E6.
  - intros i Hr. rewrite Hi by done. by apply E7.
Qed.

Lemma segment_byte_same s s' i x : image_same s s' -> elf_image s -> 0 <= i < elf_phnum s -> loaded (elf_segment s i) ->
  sg_va (elf_segment s i) <= x ->
  segment_byte (binary := binary) s' (elf_segment s i) x = segment_byte (binary := binary) s (elf_segment s i) x.
Proof.
  intros H Himg Hr Hl Hx. destruct (ei_segment _ Himg i Hr Hl) as [[Ho1 Ho2] _ _]. unfold segment_byte.
  case_decide; [|done]. apply kbyte_same_image; (done || lia).
Qed.

(** The pages of the first [k] segments. *)
Definition pages_upto (s : kstate) (k v : Z) : Prop := exists i, 0 <= i < k /\ segment_page (elf_segment s i) v.

(** Loading starts. *)
Lemma loading_start (A : Z -> Prop) s fl O :
  vm_inv base s fl D O -> pdes_user D (pmem s) -> (forall q, image_frame q -> idle (D := D) s fl O q) ->
  (forall v, A v -> 0 <= v < UVPNS /\ sole (D := D) (d := d) s v) ->
  loading (base := base) (D := D) (d := d) image_frame s A s fl O.
Proof. intros INV Hop Hid HA. by constructor. Qed.

Lemma load_segments_tries e w s0 fl O (Q : unit -> kstate -> Prop) :
  cpu_ok s0 -> envs s0 !! e = Some w -> env_pgdir w = kva d -> cr3 s0 = d * 4096 -> elf_image s0 ->
  loading (base := base) (D := D) (d := d) image_frame s0 (fun _ => False) s0 fl O ->
  (forall s' fl' O', loading (base := base) (D := D) (d := d) image_frame s0 (pages_upto s0 (elf_phnum s0)) s' fl' O' ->
     (forall i, 0 <= i < elf_phnum s0 -> segment_in (d := d) (binary := binary) s0 s' (elf_segment s0 i)) -> Q tt s') ->
  tries (for_loop (Z.to_nat (elf_phnum s0)) (binary + kle s0 4 (binary + 28)) 32 (load_segment e binary))
    Q (no_memory (base := base) (D := D)) s0.
Proof.
  intros Hcpu He Hpg Hc [[Hb Hl] Hmg [Hh1 Hh2] Hn Hseg Hap _] H HQ.
  set (ph0 := binary + kle s0 4 (binary + 28)) in *. set (n := elf_phnum s0) in *.
  apply (tries_for_loop _ _ _ _ (fun i s' => exists k, i = ph0 + 32 * k /\ 0 <= k /\ exists fl' O',
    loading (base := base) (D := D) (d := d) image_frame s0 (pages_upto s0 k) s' fl' O' /\
    forall j, 0 <= j < k -> segment_in (d := d) (binary := binary) s0 s' (elf_segment s0 j))).
  - exists 0. split; [lia|]. split; [lia|]. exists fl, O. split; [|lia].
    eapply loading_ext; [|exact H]. intros v. split; [done|]. intros (i & ? & _). lia.
  - intros k s' Hk (k' & Hk' & _ & fl' & O' & H' & Hin). assert (k' = Z.of_nat k) as -> by lia.
    set (j := Z.of_nat k) in *. assert (0 <= j < n) as Hj by lia. clearbody j. clear k Hk Hk'.
    change (ph0 + 32 * j) with (binary + kle s0 4 (binary + 28) + 32 * j).
    eapply (load_segment_tries image_frame base_nonneg Hd Hb image_frame_byte e w _ s0 _ s' fl' O'); try done;
      fold (elf_segment s0 j).
    + unfold ph0 in *. lia.
    + unfold ph0 in *. lia.
    + by apply Hseg.
    + intros v Hv (i & Hi & Hvi). apply (Hap i j v); (done || lia).
    + intros s2 fl2 O2 H2 Hj2 Hb2. exists (j + 1). split; [unfold ph0; lia|]. split; [lia|]. exists fl2, O2. split.
      * eapply loading_ext; [|exact H2]. intros v. unfold pages_upto. split.
        -- intros [(i & Hi & Hv)|Hv]; [exists i|exists j]; (split; [lia|done]).
        -- intros (i & Hi & Hv). destruct (decide (i = j)) as [->|]; [by right|]. left. exists i. split; [lia|done].
      * intros i Hi. destruct (decide (i = j)) as [->|Hne]; [done|]. intros Hli x Hx.
        assert (segment_page (elf_segment s0 i) (x / 4096)) as Hpi by (split; [done|by apply region_byte]).
        destruct (Hseg i ltac:(lia) Hli) as [_ _ [Hv1 Hv2]].
        rewrite Hb2; [by apply Hin; [lia|..]|lia|]. apply (Hap i j); [lia..|done].
  - intros s' (k & Hk & _ & fl' & O' & H' & Hin). assert (k = n) as -> by lia. by apply (HQ s' fl' O').
Qed.

Lemma stack_region v : in_region (USTACKTOP - PGSIZE) PGSIZE v <-> v = STACKVPN.
Proof. unfold in_region. change ((USTACKTOP - PGSIZE) / 4096) with STACKVPN. change ((USTACKTOP - PGSIZE + PGSIZE + 4095) / 4096) with (STACKVPN + 1). lia. Qed.

(** Page [v] of [d] is one the loader allocates. *)
Definition program_page (s : kstate) (v : Z) : Prop := pages_upto s (elf_phnum s) v \/ v = STACKVPN.

(** The environment with its program loaded. *)
Record program_loaded (s : kstate) (e : Z) (w : Env) (kf : Z) (s' : kstate) : Prop := {
  pl_inv : exists fl' O', vm_inv base s' fl' D O';
  pl_envs : envs s' = <[e := upd env_tf (put tf_eip (elf_entry s)) w]> (envs s);
  pl_free : env_free_list s' = env_free_list s;
  pl_cr3 : cr3 s' = kf * 4096;
  pl_bytes i : 0 <= i < elf_phnum s -> segment_in (d := d) (binary := binary) s s' (elf_segment s i);
  pl_pages v : program_page s v -> sole (D := D) (d := d) s' v;
  pl_xlate d' v : d' ∈ D -> 0 <= v < UVPNS -> ~ (d' = d /\ program_page s v) -> xlate s' d' v = xlate s d' v;
  pl_others d' x : d' ∈ D -> 0 <= x < UTOP -> ~ (d' = d /\ program_page s (x / 4096)) -> user_byte s' d' x = user_byte s d' x
}.

Lemma program_page_stack s v :
  pages_upto s (elf_phnum s) v \/ in_region (USTACKTOP - PGSIZE) PGSIZE v <-> program_page s v.
Proof. unfold program_page. by rewrite stack_region. Qed.

Lemma image_same_pmem s s' : pmem s' = pmem s -> image_same s s'.
Proof. intros H q i _. by rewrite H. Qed.

Lemma program_page_same s s' v : image_same s s' -> elf_image s -> program_page s' v <-> program_page s v.
Proof.
  intros H Himg. destruct (elf_header_same s s' H Himg) as (_ & Hn & _).
  pose proof (fun i => elf_segment_same s s' i H Himg) as Hi.
  unfold program_page, pages_upto. rewrite Hn.
  split; (intros [(i & Hr & Hp)|?]; [left; exists i; split; [done|]|by right]); revert Hp; by rewrite Hi.
Qed.

Lemma segment_in_same s s' s2 i : image_same s s' -> elf_image s -> 0 <= i < elf_phnum s ->
  segment_in (d := d) (binary := binary) s' s2 (elf_segment s' i) -> segment_in (d := d) (binary := binary) s s2 (elf_segment s i).
Proof.
  intros H Himg Hr Hin Hl x Hx. rewrite (elf_segment_same s s') in Hin by done. rewrite Hin by done. f_equal.
  apply segment_byte_same; (done || lia).
Qed.

Lemma program_loaded_same s s' e w kf s2 : pmem s' = pmem s -> envs s' = envs s -> env_free_list s' = env_free_list s ->
  elf_image s -> program_loaded s' e w kf s2 -> program_loaded s e w kf s2.
Proof.
  intros Hm He Hfl Himg [H1 H2 Hf H3 H4 H5 H6 H7]. pose proof (image_same_pmem s s' Hm) as H.
  pose proof (fun v => program_page_same s s' v H Himg) as Hpp.
  destruct (elf_header_same s s' H Himg) as (_ & Hn & Hen). constructor; try done.
  - by rewrite H2, He, Hen.
  - by rewrite Hf.
  - intros i Hr. apply (segment_in_same s s'); [done..|]. apply H4. by rewrite Hn.
  - intros v Hv. by apply H5, Hpp.
  - intros d' v Hd' Hv Hno. rewrite H6 by (done || by rewrite Hpp). unfold xlate. by rewrite Hm.
  - intros d' x Hd' Hx Hno. rewrite H7 by (done || by rewrite Hpp). unfold user_byte. by rewrite Hm.
Qed.

(** The segments are in, and then the stack's page. *)
Lemma loaded_with_stack e w kf s s1 fl1 O1 s2 s3 fl3 O3 :
  elf_image s -> pmem s2 = pmem s1 -> envs s2 = <[e := upd env_tf (put tf_eip (elf_entry s)) w]> (envs s) ->
  env_free_list s2 = env_free_list s -> cr3 s2 = kf * 4096 ->
  loading (base := base) (D := D) (d := d) image_frame s (pages_upto s (elf_phnum s)) s1 fl1 O1 ->
  (forall i, 0 <= i < elf_phnum s -> segment_in (d := d) (binary := binary) s s1 (elf_segment s i)) ->
  loading (base := base) (D := D) (d := d) image_frame s2
    (fun v => pages_upto s (elf_phnum s) v \/ in_region (USTACKTOP - PGSIZE) PGSIZE v) s3 fl3 O3 ->
  (forall x, 0 <= x < UTOP -> ~ in_region (USTACKTOP - PGSIZE) PGSIZE (x / 4096) -> user_byte s3 d x = user_byte s2 d x) ->
  program_loaded s e w kf s3.
Proof.
  intros Helf Hm2 He2 Hl2 Hc2 H1 Hin H3 Hb3.
  assert (forall d' x, user_byte s2 d' x = user_byte s1 d' x) as Hb2 by (intros; unfold user_byte; by rewrite Hm2).
  assert (forall d' v, xlate s2 d' v = xlate s1 d' v) as Hx2 by (intros; unfold xlate; by rewrite Hm2).
  assert (forall d' v, ~ (d' = d /\ program_page s v) -> ~ (d' = d /\ pages_upto s (elf_phnum s) v)) as Hup
    by (intros d' v Hno [-> Hpu]; apply Hno; split; [done|by left]).
  constructor.
  - exists fl3, O3. apply (lg_inv _ _ _ _ _ _ H3).
  - by rewrite (vf_envs _ _ (lg_frame _ _ _ _ _ _ H3)).
  - by rewrite (vf_env_free_list _ _ (lg_frame _ _ _ _ _ _ H3)).
  - by rewrite (vf_cr3 _ _ (lg_frame _ _ _ _ _ _ H3)).
  - intros i Hi Hli x Hx.
    assert (segment_page (elf_segment s i) (x / 4096)) as Hpi by (split; [done|by apply region_byte]).
    destruct (ei_segment _ Helf i Hi Hli) as [_ _ [Hv1 Hv2]].
    rewrite Hb3, Hb2; [by apply Hin|lia|]. intros Hst'%stack_region. rewrite Hst' in Hpi. by apply (ei_stack _ Helf i).
  - intros v Hv%program_page_stack. by apply (lg_sole _ _ _ _ _ _ H3).
  - intros d' v Hd' Hv Hno. rewrite (lg_xlate _ _ _ _ _ _ H3), Hx2 by (done || by rewrite program_page_stack).
    apply (lg_xlate _ _ _ _ _ _ H1); auto.
  - intros d' x Hd' Hx Hno. rewrite (lg_bytes _ _ _ _ _ _ H3), Hb2 by (done || by rewrite program_page_stack).
    apply (lg_bytes _ _ _ _ _ _ H1); auto.
Qed.

(** What follows the loop of [load_icode]. *)
Lemma load_rest_tries e w kf s s1 fl1 O1 :
  cpu_ok s -> envs s !! e = Some w -> env_pgdir w = kva d -> kern_pgdir s = kva kf -> 0 <= kf < 65536 -> elf_image s ->
  loading (base := base) (D := D) (d := d) image_frame s (pages_upto s (elf_phnum s)) s1 fl1 O1 ->
  (forall i, 0 <= i < elf_phnum s -> segment_in (d := d) (binary := binary) s s1 (elf_segment s i)) ->
  tries
    (entry ← kread32 (binary + 24);
     upd_env e (upd env_tf (put tf_eip entry)) ;;
     kpd ← gets kern_pgdir;
     pa ← PADDR kpd;
     lcr3 pa ;;
     region_alloc e (USTACKTOP - PGSIZE) PGSIZE)
    (fun _ s' => program_loaded s e w kf s') (no_memory (base := base) (D := D)) s1.
Proof.
  intros Hcpu He Hpg Hk Hkf Helf H1 Hin. pose proof (lg_frame _ _ _ _ _ _ H1) as Hf1.
  destruct (ei_header _ Helf) as [Hb Hl]. pose proof (vf_envs _ _ Hf1) as He1.
  apply tries_bind. eapply tries_Ret; [apply (read_image image_frame Hb image_frame_byte _ _ _ _ _ 4 _ H1); lia|].
  fold (elf_entry s).
  apply tries_bind. eapply tries_Ret; [apply upd_env_eq; by rewrite He1|].
  apply tries_bind. eapply tries_Ret; [reflexivity|]. kred. rewrite (vf_kern_pgdir _ _ Hf1), Hk.
  apply tries_bind. eapply tries_Ret; [by apply PADDR_kva|].
  apply tries_bind. eapply tries_Ret; [reflexivity|].
  set (w' := upd env_tf _ w). set (s2 := put cr3 (kf * 4096) _).
  assert (pmem s2 = pmem s1) as Hm2 by reflexivity. assert (cr3 s2 = kf * 4096) as Hc2 by reflexivity.
  assert (env_free_list s2 = env_free_list s) as Hl2 by exact (vf_env_free_list _ _ Hf1).
  assert (envs s2 = <[e := w']> (envs s)) as He2 by (change (envs s2) with (<[e := w']> (envs s1)); by rewrite He1).
  assert (cpu_ok s2) as Hcpu2.
  { eapply (cpu_ok_proj s1); [done|done| |by eapply cpu_ok_frame]. intros x Hx. by apply is_Some_insert. }
  assert (loading (base := base) (D := D) (d := d) image_frame s2 (pages_upto s (elf_phnum s)) s2 fl1 O1) as H2.
  { apply loading_start; [by eapply vm_inv_proj; [..|apply (lg_inv _ _ _ _ _ _ H1)]|apply (lg_open _ _ _ _ _ _ H1)
      |apply (lg_idle _ _ _ _ _ _ H1)|apply (lg_sole _ _ _ _ _ _ H1)]. }
  clearbody s2.
  apply (region_alloc_tries image_frame base_nonneg Hd e w' _ _ s2 (pages_upto s (elf_phnum s)) s2 fl1 O1);
    [exact Hcpu2|by rewrite He2, lookup_insert_eq|exact Hpg|done..| |exact H2|].
  { intros v Hv%stack_region (i & Hi & Hpi). subst v. apply (ei_stack _ Helf i Hi Hpi). }
  intros s3 fl3 O3 H3 Hb3. by eapply loaded_with_stack.
Qed.

Lemma load_icode_tries s fl O e w kf :
  vm_inv base s fl D O -> pdes_user D (pmem s) -> cpu_ok s -> envs s !! e = Some w -> env_pgdir w = kva d ->
  kern_pgdir s = kva kf -> 0 <= kf < 65536 -> elf_image s -> (forall q, image_frame q -> idle (D := D) s fl O q) ->
  tries (load_icode e binary) (fun _ s' => program_loaded s e w kf s') (no_memory (base := base) (D := D)) s.
Proof.
  intros INV Hop Hcpu He Hpg Hk Hkf Helf Hid. pose proof (vi_np INV) as Hnp. destruct (ei_header _ Helf) as [Hb Hl].
  destruct (vo_pd _ _ _ _ (vi_vm _ _ _ _ _ INV) _ Hd) as [Hdr _].
  pose proof (loading_start (fun _ => False) s fl O INV Hop Hid ltac:(done)) as Hs.
  assert (forall n x, binary <= x -> x + Z.of_nat n <= binary + len -> read_le kload_byte n x s = Ret (kle s n x) s) as Hrd
    by (intros n x Hx1 Hx2; exact (read_image image_frame Hb image_frame_byte s _ s fl O n x Hs Hx1 Hx2)).
  unfold load_icode. apply tries_bind. eapply tries_Ret; [apply (Hrd 4%nat); lia|]. rewrite (ei_magic _ Helf).
  change (negb (ELF_MAGIC =? ELF_MAGIC)) with false. cbv iota.
  apply tries_bind. eapply tries_Ret; [apply (Hrd 4%nat); lia|].
  apply tries_bind. eapply tries_Ret; [apply (Hrd 2%nat); lia|]. fold (elf_phnum s).
  apply tries_bind. eapply tries_Ret; [by apply get_env_eq|]. rewrite Hpg.
  apply tries_bind. eapply tries_Ret; [apply PADDR_kva; lia|].
  apply tries_bind. eapply tries_Ret; [reflexivity|].
  set (s0 := put cr3 (d * 4096) _).
  assert (pmem s0 = pmem s) as Hm0 by reflexivity. pose proof (image_same_pmem s s0 Hm0) as Hsame.
  pose proof (elf_image_same s s0 Hsame Helf) as Helf0. destruct (elf_header_same s s0 Hsame Helf) as (<- & <- & _).
  apply tries_bind. apply (load_segments_tries e w s0 fl O); [exact Hcpu|exact He|exact Hpg|reflexivity|exact Helf0| |].
  { apply loading_start; [by eapply vm_inv_proj; [..|exact INV]|exact Hop|exact Hid|done]. }
  intros s1 fl1 O1 H1 Hin. eapply tries_mono; [by apply (load_rest_tries e w kf s0 s1 fl1 O1)|].
  intros [] s'. by apply (program_loaded_same s s0).
Qed.

(** [load_icode] gives each segment of the file its pages, with the bytes of the
    file and then zeros in them, and the stack its page; every such page is open
    to the program and shared with nothing.  The entry point is in [tf_eip], the
    kernel's directory in [%cr3], and no other page of any address space is
    mapped differently or has other bytes.  The only other outcome is the panic
    when no page is left. *)
Theorem load_icode_correct s fl O e w kf :
  vm_inv base s fl D O -> pdes_user D (pmem s) -> cpu_ok s -> envs s !! e = Some w -> env_pgdir w = kva d ->
  kern_pgdir s = kva kf -> 0 <= kf < 65536 -> elf_image s -> (forall q, image_frame q -> idle (D := D) s fl O q) ->
  tries (load_icode e binary) (fun _ s' => program_loaded s e w kf s') (no_memory (base := base) (D := D)) s.
Proof. exact (load_icode_tries s fl O e w kf). Qed.
End Program.

(** A file with one segment, of three bytes and three zeros, in page 2. *)
Definition LOADVA : Z := USTACKTOP - 2 * PGSIZE.

Definition demo_elf : list Z :=
  le_bytes ELF_MAGIC 4 ++ replicate 20 0 ++ le_bytes LOADVA 4 ++ le_bytes 52 4 ++ replicate 12 0 ++
  le_bytes 1 2 ++ replicate 6 0 ++
  concat ((fun w => le_bytes w 4) <$> [ELF_PROG_LOAD; 84; LOADVA; LOADVA; 3; 6; 7; PGSIZE]) ++ [0xAB; 0xCD; 0xEF].

Lemma demo_elf_image binary s :
  KERNBASE <= binary -> kle s 4 binary = ELF_MAGIC -> kle s 4 (binary + 28) = 52 -> elf_phnum (binary := binary) s = 1 ->
  elf_segment (binary := binary) s 0 = Seg ELF_PROG_LOAD 84 LOADVA 3 6 -> elf_image (binary := binary) (len := 87) s.
Proof.
  intros Hb Hm Hh Hn Hs. constructor; rewrite ?Hh, ?Hn; try lia.
  - intros i Hi _. assert (i = 0) as -> by lia. rewrite Hs. constructor; vm_compute; split; discriminate.
  - intros i Hi. assert (i = 0) as -> by lia. rewrite Hs. intros [_ [_ H]]. by vm_compute in H.
Qed.

Definition demo_image : physmem := store_bytes 0x2000 demo_elf (pmem call_demo).

Definition load_demo : kstate := put pmem demo_image (put kern_pgdir (kva 0) call_demo).

Lemma store_bytes_frame p pa l m : p * 4096 <= pa -> pa + Z.of_nat (length l) <= p * 4096 + 4096 -> 0 <= p ->
  (forall i, 0 <= word m p i < 2 ^ 32) ->
  outside p m (store_bytes pa l m) /\ forall i, 0 <= word (store_bytes pa l m) p i < 2 ^ 32.
Proof.
  intros H1 H2 Hp. revert pa m H1 H2. induction l as [|b l IH]; intros pa m H1 H2 Hm; cbn [store_bytes length] in *.
  { split; [by intros ???|done]. }
  destruct (IH (pa + 1) (set_byte pa b m)) as [Ho Hw]; [lia|lia|intros i; apply set_byte_word; [lia|done]|].
  split; [|done]. intros f i Hf. rewrite Ho by done. apply set_byte_outside. change PGSIZE with 4096. intros ->.
  apply Hf. zlia.
Qed.

Lemma demo_image_frame : outside 2 (pmem call_demo) demo_image /\ forall i, 0 <= word demo_image 2 i < 2 ^ 32.
Proof. apply store_bytes_frame; [done|done|done|]. intros i. unfold word. cbn. by rewrite lookup_empty. Qed.

Lemma load_demo_empty i : word demo_image 1 i = 0.
Proof. destruct demo_image_frame as [Ho _]. rewrite Ho by done. unfold word. cbn. by rewrite lookup_empty. Qed.

(** Another frame's contents and another kernel directory. *)
Lemma vm_inv_image base s fl D O f m k : vm_inv base s fl D O -> f ∉ D -> O !! f = None -> outside f (pmem s) m ->
  (forall i, 0 <= word m f i < 2 ^ 32) -> vm_inv base (put pmem m (put kern_pgdir k s)) fl D O.
Proof. intros INV HD HO Hout Hw. eapply vm_inv_proj; [..|by apply (vm_inv_data base s fl D O f m)]; done. Qed.

Lemma load_demo_inv : vm_inv boot_refs load_demo [3; 4; 5] {[1]} ∅.
Proof.
  destruct demo_image_frame as [Ho Hw].
  apply (vm_inv_image _ _ _ _ _ 2); [apply (ca_inv _ _ _ _ _ _ call_demo_calling)|set_solver|done|exact Ho|exact Hw].
Qed.

Lemma load_demo_phnum : elf_phnum (binary := KERNBASE + 0x2000) load_demo = 1.
Proof. by vm_compute. Qed.

Lemma load_demo_segment : elf_segment (binary := KERNBASE + 0x2000) load_demo 0 = Seg ELF_PROG_LOAD 84 LOADVA 3 6.
Proof. by vm_compute. Qed.

Lemma load_demo_elf : elf_image (binary := KERNBASE + 0x2000) (len := 87) load_demo.
Proof. by apply demo_elf_image; [lia|vm_compute..|exact load_demo_phnum|exact load_demo_segment]. Qed.

Lemma load_demo_idle q : image_frame (binary := KERNBASE + 0x2000) (len := 87) q -> idle (D := {[1]}) load_demo [3; 4; 5] ∅ q.
Proof.
  intros (x & Hx & ->). assert ((x - KERNBASE) / 4096 = 2) as -> by zlia.
  split; [done|]. split; [set_solver|]. split; [set_solver|]. split; [done|].
  intros d' v' ->%elem_of_singleton _. change (pmem load_demo) with demo_image. unfold maps, pte. by rewrite load_demo_empty.
Qed.

Lemma load_demo_open : pdes_user {[1]} (pmem load_demo).
Proof.
  intros d i ->%elem_of_singleton _. change (pmem load_demo) with demo_image. by rewrite load_demo_empty.
Qed.

Lemma load_demo_cpu : cpu_ok load_demo.
Proof. exact (calling_cpu_ok _ _ _ _ _ _ call_demo_calling). Qed.

Lemma load_demo_env : envs load_demo !! 0 = Some call_env.
Proof. exact call_demo_cur. Qed.

Lemma load_demo_kern : kern_pgdir load_demo = kva 0.
Proof. reflexivity. Qed.

Lemma load_demo_returns : exists s', load_icode 0 (KERNBASE + 0x2000) load_demo = Ret tt s'.
Proof.
  assert (match load_icode 0 (KERNBASE + 0x2000) load_demo with Ret _ _ => true | _ => false end = true) as Hr
    by (vm_compute; reflexivity).
  destruct (load_icode _ _ load_demo) as [[] s'| | |]; [by exists s'|discriminate Hr..].
Qed.

Lemma load_demo_bytes : let sg := Seg ELF_PROG_LOAD 84 LOADVA 3 6 in
  segment_byte (binary := KERNBASE + 0x2000) load_demo sg (LOADVA + 2) = 0xEF /\
  segment_byte (binary := KERNBASE + 0x2000) load_demo sg (LOADVA + 3) = 0.
Proof. split; vm_compute; reflexivity. Qed.

Lemma load_icode_correct_witness :
  exists s', load_icode 0 (KERNBASE + 0x2000) load_demo = Ret tt s' /\
    user_byte s' 1 (LOADVA + 2) = Some 0xEF /\ user_byte s' 1 (LOADVA + 3) = Some 0 /\
    sole (D := {[1]}) (d := 1) s' STACKVPN.
Proof.
  assert (LOADVA <= LOADVA + 2 < LOADVA + 6 /\ LOADVA <= LOADVA + 3 < LOADVA + 6 /\ 0 <= 0 < 1 /\ 0 <= 0 < 65536)
    as (R2 & R3 & R0 & Rk) by lia.
  pose proof (load_icode_correct (base := boot_refs) (D := {[1]}) (d := 1) (binary := KERNBASE + 0x2000) (len := 87)
    boot_refs_nonneg (proj2 (elem_of_singleton 1 1) eq_refl) load_demo [3; 4; 5] ∅ 0 call_env 0 load_demo_inv load_demo_open
    load_demo_cpu load_demo_env eq_refl load_demo_kern Rk load_demo_elf load_demo_idle) as H.
  destruct load_demo_returns as [s' Hs]. apply (tries_inv _ _ _ _ _ _ Hs) in H. exists s'. split; [exact Hs|].
  pose proof (pl_bytes _ _ _ _ _ H 0) as Hb. rewrite load_demo_phnum, load_demo_segment in Hb.
  pose proof (Hb R0 eq_refl) as Hx. destruct load_demo_bytes as [H2 H3].
  split; [|split].
  - exact (eq_trans (Hx (LOADVA + 2) R2) (f_equal Some H2)).
  - exact (eq_trans (Hx (LOADVA + 3) R3) (f_equal Some H3)).
  - apply (pl_pages _ _ _ _ _ H). right. reflexivity.
Defined.
