(* ===== verification/CreateSpec.v ===== *)
(** * Creating an environment ([env_create] of [kern/env.c])

    [env_alloc] makes an empty address space and [load_icode] fills it: what the
    two together do, in terms of the state before both. *)

From Stdlib Require Import Lia ZArith ZifyClasses ZifyInst ZifyBool.
From stdpp Require Import base gmap list strings numbers.
From S2P Require Import Prelude Cmonad Mmu Printfmt Console State Spinlock Umem Pmap.
From S2P Require Import PageList Vm VmInv PmapLem VmLem PmapSpec VmDir Mpconfig MpSpec UserLem Env EnvLem Sched Syscall SyscallSpec LoadSpec.

Section Create.
Context {base : Z -> Z} {binary len : Z}.
Hypothesis base_nonneg : forall q, 0 <= base q.

(** The new directory [f] and the file. *)
Section NewSpace.
Context {s s1 : kstate} {fl fl' : list Z} {D : gset Z} {O : gmap Z (Z * Z)} {kf f : Z}.
Hypothesis INV : vm_inv base s (f :: fl') D O.
Hypothesis KERN : kern_pgdir_ok s (f :: fl') kf.
Hypothesis MEM : pmem s1 = dir_mem (pmem s) kf f.
Hypothesis RAM : npages s1 = npages s.

Lemma new_unused : 0 <= f < npages s /\ (f ∉ D) /\ O !! f = None /\
  (forall d v, d ∈ D -> 0 <= v < UVPNS -> maps (pmem s) d v <> Some f).
Proof. destruct (free_unused INV f) as (H1 & _ & H2 & H3 & H4); [by left|done|]. done. Qed.

Lemma new_outside : outside f (pmem s) (pmem s1).
Proof. rewrite MEM. apply dir_mem_outside. Qed.

Lemma new_pte d v : d ∈ D -> 0 <= v < UVPNS -> pte (pmem s1) d v = pte (pmem s) d v.
Proof.
  intros Hd Hv. destruct new_unused as (Hf & HfD & HfO & _).
  apply (pte_outside (vi_vm _ _ _ _ _ INV) HfD HfO new_outside d v Hd Hv).
Qed.

Lemma new_empty : user_empty (pmem s1) f.
Proof.
  destruct KERN as [_ _ Hkf Hke]. intros i Hi. rewrite MEM, dir_mem_word by (intros ->; apply Hkf; left).
  rewrite decide_False by lia. by apply Hke.
Qed.

Lemma new_xlate d v : d ∈ D -> 0 <= v < UVPNS -> xlate s1 d v = xlate s d v.
Proof. intros Hd Hv. unfold xlate. by rewrite new_pte. Qed.

Lemma new_byte d x : d ∈ D -> 0 <= x < UTOP -> user_byte s1 d x = user_byte s d x.
Proof.
  intros Hd Hx. pose proof (va_page x Hx) as Hv. destruct new_unused as (_ & _ & _ & Hm). apply user_byte_same.
  - by rewrite !maps_fst, new_xlate.
  - intros p i Hp. apply new_outside. intros ->. by apply (Hm d (x / 4096)).
Qed.

Lemma new_open : pdes_user D (pmem s) -> pdes_user ({[f]} ∪ D) (pmem s1).
Proof.
  intros H d i [->%elem_of_singleton|Hd]%elem_of_union Hi Hp; [by rewrite new_empty in Hp|].
  destruct new_unused as (_ & HfD & _). rewrite new_outside in * by (intros ->; done). by apply H.
Qed.

Lemma new_idle q : idle (D := D) s (f :: fl') O q -> idle (D := {[f]} ∪ D) s1 fl' O q.
Proof.
  intros ([H1 H1'] & H2 & H3 & H4 & H5). split; [by rewrite RAM|]. split; [set_solver|]. split; [set_solver|].
  split; [done|]. intros d v [->%elem_of_singleton|Hd]%elem_of_union Hv.
  - rewrite user_empty_maps; [done|apply new_empty|done].
  - rewrite maps_fst, new_xlate, <- maps_fst by done. by apply H5.
Qed.

Lemma new_image : (forall q, image_frame (binary := binary) (len := len) q -> idle (D := D) s (f :: fl') O q) ->
  image_same (binary := binary) (len := len) s s1.
Proof.
  intros H q i Hq. apply new_outside. destruct (H q Hq) as (_ & H2 & _). intros ->. apply H2. left.
Qed.
End NewSpace.

(** What [env_create] leaves: the environment [e], with its program, in the new directory [f]. *)
Record created (D : gset Z) (s : kstate) (type : EnvType) (e f kf : Z) (v : Env) (s' : kstate) : Prop := {
  cr_inv : exists fl' O', vm_inv base s' fl' ({[f]} ∪ D) O';
  cr_env : envs s' = <[e := put env_type type (upd env_tf (put tf_eip (elf_entry (binary := binary) s)) (new_env v e 0 f))]> (envs s);
  cr_free : env_free_list s' = env_link v;
  cr_cr3 : cr3 s' = kf * 4096;
  cr_bytes i : 0 <= i < elf_phnum (binary := binary) s ->
    segment_in (d := f) (binary := binary) s s' (elf_segment (binary := binary) s i);
  cr_pages v : program_page (binary := binary) s v -> sole (D := {[f]} ∪ D) (d := f) s' v;
  cr_only v : 0 <= v < UVPNS -> ~ program_page (binary := binary) s v -> xlate s' f v = None;
  cr_xlate d v : d ∈ D -> 0 <= v < UVPNS -> xlate s' d v = xlate s d v;
  cr_others d x : d ∈ D -> 0 <= x < UTOP -> user_byte s' d x = user_byte s d x
}.

Lemma loaded_created D s s1 fl' O e v f kf type s2 :
  vm_inv base s (f :: fl') D O -> kern_pgdir_ok s (f :: fl') kf -> pmem s1 = dir_mem (pmem s) kf f ->
  image_same (binary := binary) (len := len) s s1 -> elf_image (binary := binary) (len := len) s ->
  envs s1 = <[e := new_env v e 0 f]> (envs s) -> env_free_list s1 = env_link v ->
  program_loaded (base := base) (D := {[f]} ∪ D) (d := f) (binary := binary) s1 e (new_env v e 0 f) kf s2 ->
  created D s type e f kf v (upd envs (fun a => <[e := put env_type type (upd env_tf (put tf_eip (elf_entry (binary := binary) s1)) (new_env v e 0 f))]> a) s2).
Proof.
  intros INV HK Hm Him Helf He1 Hf1 [H1 H2 H3 H4 H5 H6 H7 H8].
  destruct (elf_header_same s s1 Him Helf) as (_ & Hn & Hen).
  destruct (new_unused INV) as (_ & HfD & _).
  assert (forall d, d ∈ D -> d ∈ {[f]} ∪ D /\ d <> f) as HD by (intros d Hd; split; [set_solver|by intros ->]).
  constructor.
  - destruct H1 as (fl2 & O2 & H1). exists fl2, O2. by eapply vm_inv_proj; [..|exact H1].
  - kred. by rewrite H2, insert_insert_eq, He1, insert_insert_eq, Hen.
  - kred. by rewrite H3, Hf1.
  - done.
  - intros i Hi. apply (segment_in_same (len := len) s s1); [done..|]. apply H5. by rewrite Hn.
  - intros x Hx. apply H6. by apply (program_page_same (len := len) s s1).
  - intros x Hx Hno. change (xlate s2 f x = None).
    rewrite H7; [|set_solver|done|intros [_ Hp]; apply Hno; by apply (program_page_same (len := len) s s1)].
    unfold xlate. rewrite user_empty_pte; [done| |done]. by apply (new_empty HK Hm).
  - intros d x Hd Hx. destruct (HD d Hd). change (xlate s2 d x = xlate s d x).
    rewrite H7 by (done || naive_solver). by apply (new_xlate INV Hm).
  - intros d x Hd Hx. destruct (HD d Hd). change (user_byte s2 d x = user_byte s d x).
    rewrite H8 by (done || naive_solver). by apply (new_byte INV Hm).
Qed.

(** C11: [env_create] takes the first free environment and a page for its directory,
    and loads the program: the environment is runnable at the file's entry point
    with registers [tf_init], no parent and the type asked for; its address space
    holds the bytes of the segments, zeros after them and a stack page, and nothing
    else; the other address spaces have the translations and the bytes they had.
    It panics only when no environment or no page is left. *)
Theorem env_create_correct s fl D O kf type :
  vm_inv base s fl D O -> pdes_user D (pmem s) -> kern_pgdir_ok s fl kf -> cpu_ok s ->
  (forall e, env_free_list s = Some e -> is_Some (envs s !! e)) ->
  elf_image (binary := binary) (len := len) s ->
  (forall q, image_frame (binary := binary) (len := len) q -> idle (D := D) s fl O q) ->
  tries (env_create binary type)
    (fun _ s' => exists e f v, env_free_list s = Some e /\ head fl = Some f /\ envs s !! e = Some v /\
       created D s type e f kf v s')
    (fun s' => env_free_list s = None \/ exists D' O', vm_inv base s' [] D' O') s.
Proof.
  intros INV Hop HK Hcpu Hhd Helf Hid. unfold env_create.
  apply tries_bind, tries_of_wp. eapply wp_mono; [by apply (env_alloc_wp base s fl D O kf 0)|]. intros r s1 H.
  destruct (env_free_list s) as [e|]; [|destruct H as [-> ->]; apply tries_panic; by left].
  destruct fl as [|f fl']; [destruct H as [-> ->]; apply tries_panic; right; by exists D, O|].
  destruct H as (-> & INV1 & Hm1 & [Hfr1 _] & v & Hv & Hl1 & He1).
  pose proof (new_image Hm1 Hid) as Him. pose proof (elf_image_same s s1 Him Helf) as Helf1.
  assert (cpu_ok s1) as Hcpu1.
  { eapply cpu_ok_proj; [apply Hfr1|apply Hfr1| |exact Hcpu]. intros x Hx. rewrite He1. by apply is_Some_insert. }
  pose proof (vi_np INV) as Hnp. pose proof (kp_ram _ _ _ HK) as Hk2. pose proof (kp_va _ _ _ HK) as Hk1.
  apply tries_bind. eapply tries_mono; [eapply tries_weaken|].
  - apply (load_icode_tries (d := f) (len := len) base_nonneg (elem_of_union_l f {[f]} D (proj2 (elem_of_singleton f f) eq_refl))
      s1 fl' O e (new_env v e 0 f) kf INV1 (new_open INV HK Hm1 Hop) Hcpu1); [|done| |lia|exact Helf1|].
    + by rewrite He1, lookup_insert_eq.
    + by rewrite (ef_kern_pgdir _ _ Hfr1).
    + intros q Hq. apply (new_idle INV HK Hm1 (ef_npages _ _ Hfr1)). by apply Hid.
  - intros s' (O' & HO). right. by exists ({[f]} ∪ D), O'.
  - intros [] s2 H2. eapply tries_Ret; [apply upd_env_eq; by rewrite (pl_envs _ _ _ _ _ H2), lookup_insert_eq|].
    exists e, f, v. split; [done|]. split; [done|]. split; [done|]. by apply (loaded_created D s s1 fl' O).
Qed.
End Create.

(** Six pages: the kernel's directory in page 0, the file in page 1, the others free. *)
Definition fresh_pages : kstate :=
  put page_free_list (Some 2)
    (put pages
      {[ 0 := mkPageInfo None 1; 1 := mkPageInfo None 0; 2 := mkPageInfo (Some 3) 0;
         3 := mkPageInfo (Some 4) 0; 4 := mkPageInfo (Some 5) 0; 5 := mkPageInfo None 0 ]} (blank 6)).

Lemma fresh_pages_inv : vm_inv boot_refs fresh_pages [2; 3; 4; 5] ∅ ∅.
Proof.
  constructor.
  - unfold free_list. constructor.
    + done.
    + intros p. split.
      * intros [pi Hpi]. cbn in Hpi. rewrite !lookup_insert_Some, lookup_singleton_Some in Hpi.
        kred. cbn. lia.
      * intros Hp. pattern p. apply six_cases; [eexists; reflexivity..|done].
    + cbn. split; [done|]. do 3 (eexists; split; [reflexivity|]; split; [done|]). eexists. split; [reflexivity|done].
    + intros p pi Hp Hin. assert (p = 2 \/ p = 3 \/ p = 4 \/ p = 5) as [->|[->|[->| ->]]] by set_solver;
        cbn in Hp; by injection Hp as <-.
    + intros p pi Hpi Hin. cbn in Hpi. rewrite !lookup_insert_Some, lookup_singleton_Some in Hpi.
      assert (p <> 2 /\ p <> 3 /\ p <> 4 /\ p <> 5) as (? & ? & ? & ?) by set_solver. naive_solver.
    + intros p pi Hpi. cbn in Hpi. rewrite !lookup_insert_Some, lookup_singleton_Some in Hpi.
      naive_solver lia.
  - constructor.
    + intros f i. cbn. unfold word. rewrite lookup_empty. cbn. lia.
    + set_solver.
    + set_solver.
    + intros f d i. by rewrite lookup_empty.
    + set_solver.
  - intros p Hp. rewrite nmaps_none by set_solver. pattern p. apply six_cases; [reflexivity..|exact Hp].
Qed.

Definition create_file : physmem := store_bytes 0x1000 demo_elf ∅.

(** The processor [s] is about, with no environment running and environment 0 first on the free list. *)
Definition with_envs (s : kstate) : kstate :=
  put env_free_list (Some 0) (put envs (env_table [])
    (put cpus {[ 0 := mkCpuInfo 0 CPU_STARTED None 0 0 ]} (put cpunum 0 s))).

Definition create_demo : kstate := with_envs (put pmem create_file (put kern_pgdir (kva 0) fresh_pages)).

Lemma create_file_frame : outside 1 ∅ create_file /\ forall i, 0 <= word create_file 1 i < 2 ^ 32.
Proof. apply store_bytes_frame; [done|done|done|]. intros i. unfold word. by rewrite lookup_empty. Qed.

Lemma with_envs_inv base s fl D O : vm_inv base s fl D O -> vm_inv base (with_envs s) fl D O.
Proof. by apply vm_inv_proj. Qed.

Lemma create_demo_inv : vm_inv boot_refs create_demo [2; 3; 4; 5] ∅ ∅.
Proof.
  destruct create_file_frame as [Ho Hw].
  apply with_envs_inv, (vm_inv_image _ _ _ _ _ 1); [exact fresh_pages_inv|set_solver|done|exact Ho|exact Hw].
Qed.

Lemma create_demo_kern : kern_pgdir_ok create_demo [2; 3; 4; 5] 0.
Proof.
  constructor; [reflexivity|cbn; lia|set_solver|]. intros i _. change (pmem create_demo) with create_file.
  destruct create_file_frame as [Ho _]. rewrite Ho by done. unfold word. by rewrite lookup_empty.
Qed.

Lemma create_demo_cpu : cpu_ok create_demo.
Proof. by exists (mkCpuInfo 0 CPU_STARTED None 0 0). Qed.

Lemma create_demo_phnum : elf_phnum (binary := KERNBASE + 0x1000) create_demo = 1.
Proof. by vm_compute. Qed.

Lemma create_demo_segment : elf_segment (binary := KERNBASE + 0x1000) create_demo 0 = Seg ELF_PROG_LOAD 84 LOADVA 3 6.
Proof. by vm_compute. Qed.

Lemma create_demo_elf : elf_image (binary := KERNBASE + 0x1000) (len := 87) create_demo.
Proof. by apply demo_elf_image; [lia|vm_compute..|exact create_demo_phnum|exact create_demo_segment]. Qed.

Lemma create_demo_idle q : image_frame (binary := KERNBASE + 0x1000) (len := 87) q ->
  idle (D := ∅) create_demo [2; 3; 4; 5] ∅ q.
Proof.
  intros (x & Hx & ->). assert ((x - KERNBASE) / 4096 = 1) as -> by zlia.
  split; [done|]. split; [set_solver|]. split; [set_solver|]. split; [done|]. set_solver.
Qed.

Lemma create_demo_head e : env_free_list create_demo = Some e -> is_Some (envs create_demo !! e).
Proof. intros [= <-]. exists (table_env [] 0). by apply env_table_lookup. Qed.

Lemma create_demo_returns : exists s', env_create (KERNBASE + 0x1000) ENV_TYPE_USER create_demo = Ret tt s'.
Proof.
  assert (match env_create (KERNBASE + 0x1000) ENV_TYPE_USER create_demo with Ret _ _ => true | _ => false end = true) as Hr
    by (vm_compute; reflexivity).
  destruct (env_create _ _ create_demo) as [[] s'| | |]; [by exists s'|discriminate Hr..].
Qed.

Lemma create_demo_byte :
  segment_byte (binary := KERNBASE + 0x1000) create_demo (Seg ELF_PROG_LOAD 84 LOADVA 3 6) (LOADVA + 2) = 0xEF.
Proof. vm_compute. reflexivity. Qed.

Lemma env_create_correct_witness :
  exists s', env_create (KERNBASE + 0x1000) ENV_TYPE_USER create_demo = Ret tt s' /\
    user_byte s' 2 (LOADVA + 2) = Some 0xEF /\ sole (D := {[2]} ∪ ∅) (d := 2) s' STACKVPN.
Proof.
  assert (LOADVA <= LOADVA + 2 < LOADVA + 6 /\ 0 <= 0 < 1) as (R2 & R0) by lia.
  assert (pdes_user ∅ (pmem create_demo)) as Hop by (clear; by intros d i ?%not_elem_of_empty).
  pose proof (env_create_correct (base := boot_refs) (binary := KERNBASE + 0x1000) (len := 87) boot_refs_nonneg
    create_demo [2; 3; 4; 5] ∅ ∅ 0 ENV_TYPE_USER create_demo_inv Hop create_demo_kern create_demo_cpu create_demo_head
    create_demo_elf create_demo_idle) as H.
  destruct create_demo_returns as [s' Hs]. apply (tries_inv _ _ _ _ _ _ Hs) in H. exists s'. split; [exact Hs|].
  destruct H as (e & f & v & _ & Hf & _ & Hc). injection Hf as <-.
  pose proof (cr_bytes _ _ _ _ _ _ _ _ Hc 0) as Hb. rewrite create_demo_phnum, create_demo_segment in Hb.
  split.
  - exact (eq_trans (Hb R0 eq_refl (LOADVA + 2) R2) (f_equal Some create_demo_byte)).
  - apply (cr_pages _ _ _ _ _ _ _ _ Hc). right. reflexivity.
Defined.
