(* ===== verification/Msgs.v ===== *)
(** * Programs that fork and exchange messages

    What the test programs of [user/] see of [lib/fork.c] and [lib/ipc.c]: the
    calls of one process are one step each, and the steps of the processes
    interleave in any order.  A program is its points and, at each, the call it
    makes next and where it goes on ([action]).  Messages are as the kernel's
    [sys_ipc_recv] and [sys_ipc_try_send] have them: a receive first makes the
    process wait, a send reaches only a process that waits, and is tried again
    otherwise.  A call of [panic] ends in a breakpoint, on which the kernel
    enters its monitor and does not come back: nothing else runs then.  [fork] calls
    it when the kernel gives it no environment, and so never returns an error. *)

From Stdlib Require Import Lia ZArith ZifyClasses ZifyInst ZifyBool.
From stdpp Require Import base gmap list numbers.
From S2P Require Import Prelude.

(** [P] are the points of the program, [E] what it prints. *)
Inductive action (P E : Type) : Type :=
  | Fork (k : Z -> P)              (* fork(): the child's id, 0 in the child *)
  | Send (to_env val : Z) (k : P)  (* ipc_send(to_env, val, 0, 0) *)
  | Recv (k : Z -> Z -> P)         (* ipc_recv(&who, 0, 0): the value and who *)
  | Say (k : Z -> Z -> E) (next : P)  (* cprintf, which may name the process and the CPU *)
  | Yield (k : P)                  (* sys_yield() *)
  | Destroy (id : Z) (k : P)       (* sys_env_destroy(id), for a child *)
  | Exit                           (* umain returns, or exit() *)
  | Panics                         (* panic *)
  | Undefined.                     (* C gives the program no meaning from here on *)
Arguments Fork {P E}. Arguments Send {P E}. Arguments Recv {P E}. Arguments Say {P E}.
Arguments Yield {P E}. Arguments Destroy {P E}. Arguments Exit {P E}. Arguments Panics {P E}. Arguments Undefined {P E}.

(** Where a process is with a message: [env_ipc_recving], and what [env_ipc_value]
    and [env_ipc_from] hold when it has arrived. *)
Inductive mailbox : Type := NotReceiving | Waiting | Arrived (val from : Z).

Inductive status : Type := Running | Panicked | Stray.

#[export] Instance mailbox_eq_dec : EqDecision mailbox.
Proof. solve_decision. Defined.

#[export] Instance status_eq_dec : EqDecision status.
Proof. solve_decision. Defined.

Record msys (P E : Type) := mkMsys {
  procs : gmap Z (P * mailbox);    (* by environment id *)
  used : gset Z;                   (* the ids handed out so far; none is handed out twice *)
  out : list E;                    (* what was printed, the latest first *)
  state : status
}.
Arguments mkMsys {P E}. Arguments procs {P E}. Arguments used {P E}. Arguments out {P E}. Arguments state {P E}.

Section Msgs.
Context {P E : Type} (code : P -> action P E).

(** Process [a] takes a turn; [c] is what the rest of the system decides: the id
    the kernel gives a forked child or its error, or the CPU that is printed. *)
Definition turn (a c : Z) (m : msys P E) : option (msys P E) :=
  match state m, procs m !! a with
  | Running, Some (p, box) =>
      let go q := <[a := q]> (procs m) in
      match code p, box with
      | Fork k, NotReceiving =>
          if c <? 0 then Some (mkMsys (procs m) (used m) (out m) Panicked)
          else if bool_decide (0 < c /\ c ∉ used m)
          then Some (mkMsys (<[c := (k 0, NotReceiving)]> (go (k c, NotReceiving))) ({[c]} ∪ used m) (out m) Running)
          else None
      | Send to_env val k, NotReceiving =>
          match procs m !! to_env with
          | Some (q, Waiting) =>
              Some (mkMsys (<[to_env := (q, Arrived val a)]> (go (k, NotReceiving))) (used m) (out m) Running)
          | Some _ => Some m
          | None => Some (mkMsys (procs m) (used m) (out m) Panicked)
          end
      | Recv k, NotReceiving => Some (mkMsys (go (p, Waiting)) (used m) (out m) Running)
      | Recv k, Arrived val from => Some (mkMsys (go (k val from, NotReceiving)) (used m) (out m) Running)
      | Say k q, NotReceiving => Some (mkMsys (go (q, NotReceiving)) (used m) (k a c :: out m) Running)
      | Yield q, NotReceiving => Some (mkMsys (go (q, NotReceiving)) (used m) (out m) Running)
      | Destroy id q, NotReceiving => Some (mkMsys (delete id (go (q, NotReceiving))) (used m) (out m) Running)
      | Exit, NotReceiving => Some (mkMsys (delete a (procs m)) (used m) (out m) Running)
      | Panics, NotReceiving => Some (mkMsys (procs m) (used m) (out m) Panicked)
      | Undefined, NotReceiving => Some (mkMsys (procs m) (used m) (out m) Stray)
      | _, _ => None
      end
  | _, _ => None
  end.

Definition mstep (m m' : msys P E) : Prop := exists a c, turn a c m = Some m'.

(** One process [a] at the point [p]. *)
Definition minit (a : Z) (p : P) : msys P E := mkMsys {[ a := (p, NotReceiving) ]} {[ a ]} [] Running.

(** A run with the decisions given. *)
Fixpoint turns (l : list (Z * Z)) (m : msys P E) : option (msys P E) :=
  match l with
  | [] => Some m
  | (a, c) :: l' => m' ← turn a c m; turns l' m'
  end.

Lemma turns_steps l m m' : turns l m = Some m' -> rtc mstep m m'.
Proof.
  revert m. induction l as [|[a c] l IH]; intros m; cbn; [by intros [= ->]|].
  destruct (turn a c m) as [m1|] eqn:Et; [|done]. cbn. intros H. eapply rtc_l; [by exists a, c|by apply IH].
Qed.

(** The rule for invariants. *)
Lemma msys_invariant (I : msys P E -> Prop) m0 m :
  I m0 -> (forall m m' a c, I m -> turn a c m = Some m' -> I m') -> rtc mstep m0 m -> I m.
Proof. intros H0 Hs Hr. induction Hr as [|m m1 m2 [a [c Ht]] _ IH]; [done|]. apply IH. by eapply Hs. Qed.

(** What every turn keeps. *)
Lemma turn_used m a c m' : turn a c m = Some m' ->
  (forall x, is_Some (procs m !! x) -> x ∈ used m) -> forall x, is_Some (procs m' !! x) -> x ∈ used m'.
Proof.
  unfold turn. intros Ht Hu x. destruct (state m); [|done..].
  destruct (procs m !! a) as [[p box]|] eqn:Ha; [|done]. assert (a ∈ used m) as Hau by (apply Hu; by eexists).
  destruct (code p), box; repeat case_match; simplify_eq; cbn; try apply Hu;
    repeat (rewrite ?lookup_insert_is_Some, ?lookup_delete_is_Some); try set_solver.
Qed.

Lemma turn_halts m a c m' : turn a c m = Some m' -> state m' <> Running -> out m' = out m.
Proof.
  unfold turn. intros Ht Hs. destruct (state m) eqn:Es; [|done..].
  destruct (procs m !! a) as [[p box]|]; [|done]. destruct (code p), box; repeat case_match; by simplify_eq.
Qed.
End Msgs.
