(* ===== verification/Sieve.v ===== *)
(** * The concurrent prime sieve ([user/primes.c])

    One process feeds 2, 3, 4, ... into a chain of processes, each of which keeps
    the first number it gets, a prime, and passes on the numbers that are not its
    multiples.  The processes fork the chain as they go, and run in any order. *)

From Stdlib Require Import Lia ZArith ZifyClasses ZifyInst ZifyBool.
From stdpp Require Import base gmap list numbers.
From S2P Require Import Prelude Msgs.

(** ** The program *)

Definition INT_MAX : Z := 2 ^ 31 - 1.

(** The calls of [primes.c], each with the local variables that are live there. *)
Inductive point : Type :=
  | MainFork                     (* umain: id = fork() *)
  | MainSend (id i : Z)          (* umain: ipc_send(id, i, 0, 0) *)
  | Top                          (* primeproc: p = ipc_recv(envid, 0, 0) *)
  | Shout (p : Z)                (* cprintf("CPU %d: %d ", thisenv->env_cpunum, p) *)
  | Chain (p : Z)                (* id = fork() *)
  | Filter (p id : Z)            (* i = ipc_recv(envid, 0, 0) *)
  | Pass (p id i : Z)            (* ipc_send(id, i, 0, 0) *)
  | ForkFailed                   (* panic("fork: %e", id) *)
  | Broken.                      (* i++ past INT_MAX, or i % 0 *)

Definition umain : point := MainFork.
Definition primeproc : point := Top.

(** [if (i%p) ipc_send(id, i, 0, 0)], in the loop; [%] truncates. *)
Definition filter_value (p id i : Z) : point :=
  if p =? 0 then Broken else if negb (Z.rem i p =? 0) then Pass p id i else Filter p id.

Definition primes (pt : point) : action point (Z * Z) :=
  match pt with
  | MainFork => Fork (fun id => if id <? 0 then ForkFailed else if id =? 0 then primeproc else MainSend id 2)
  | MainSend id i => Send id i (if i =? INT_MAX then Broken else MainSend id (i + 1))
  | Top => Recv (fun p _ => Shout p)
  | Shout p => Say (fun _ cpu => (cpu, p)) (Chain p)
  | Chain p => Fork (fun id => if id <? 0 then ForkFailed else if id =? 0 then primeproc else Filter p id)
  | Filter p id => Recv (fun i _ => filter_value p id i)
  | Pass p id i => Send id i (Filter p id)
  | ForkFailed => Panics
  | Broken => Undefined
  end.

(** The function in the comment at the top of [primes.c]: no number from 2 to
    [n - 1] divides [n]. *)
Definition isprime (n : Z) : bool := forallb (fun i => negb (n mod i =? 0)) (seqZ 2 (n - 2)).

(** ** Numbers *)

(** What gets past the processes that keep [ps]. *)
Definition survives (ps : list Z) (m : Z) : Prop := 2 <= m /\ forall p, p ∈ ps -> m mod p <> 0.

Definition first (ps : list Z) (p : Z) : Prop := survives ps p /\ forall m, m < p -> ~ survives ps m.

(** Nothing that survives [ps] lies in [(r, i)]. *)
Definition gap (ps : list Z) (r i : Z) : Prop := forall m, r < m < i -> ~ survives ps m.

Lemma isprime_spec n : isprime n = true <-> forall i, 2 <= i < n -> n mod i <> 0.
Proof.
  unfold isprime. rewrite forallb_forall. setoid_rewrite <- list_elem_of_In. setoid_rewrite elem_of_seqZ.
  split; intros H i Hi.
  - specialize (H i ltac:(lia)). lia.
  - specialize (H i ltac:(lia)). lia.
Qed.

(** Every number from 2 on has a divisor with no smaller one. *)
Lemma prime_divisor n : 2 <= n -> exists q, 2 <= q <= n /\ isprime q = true /\ n mod q = 0.
Proof.
  intros Hn. pose proof (Z_lt_induction (fun n => 2 <= n -> exists q, 2 <= q <= n /\ isprime q = true /\ n mod q = 0)) as H.
  apply H; [|lia|done]. clear n Hn H. intros n IH Hn. destruct (isprime n) eqn:Hp.
  { exists n. split; [lia|]. split; [done|]. apply Z_mod_same_full. }
  assert (exists i, 2 <= i < n /\ n mod i = 0) as (i & Hi & Hd).
  { unfold isprime in Hp. apply not_true_iff_false in Hp. rewrite forallb_forall in Hp.
    destruct (existsb (fun i => n mod i =? 0) (seqZ 2 (n - 2))) eqn:He.
    - apply existsb_exists in He as (i & Hi & Hd). rewrite <- list_elem_of_In, elem_of_seqZ in Hi. exists i. lia.
    - exfalso. apply Hp. intros i Hi. rewrite <- not_true_iff_false, existsb_exists in He.
      destruct (n mod i =? 0) eqn:Ed; [|done]. destruct He. by exists i. }
  destruct (IH i ltac:(lia) ltac:(lia)) as (q & Hq & Hqp & Hqd). exists q. split; [lia|]. split; [done|].
  apply Z.mod_divide in Hd, Hqd; [|lia..]. apply Z.mod_divide; [lia|]. by etrans.
Qed.

(** The primes below [n]. *)
Definition primes_below (n : Z) : list Z := base.filter (fun x => isprime x = true) (seqZ 2 (n - 2)).

Lemma elem_of_primes_below n x : x ∈ primes_below n <-> 2 <= x < n /\ isprime x = true.
Proof. unfold primes_below. rewrite list_elem_of_filter, elem_of_seqZ. intuition lia. Qed.

Lemma prime_survives n x : isprime x = true -> 2 <= x -> n <= x -> survives (primes_below n) x.
Proof.
  intros Hp Hx Hn. split; [done|]. intros q [Hq _]%elem_of_primes_below. apply isprime_spec; [done|lia].
Qed.

Lemma filter_none {A} (P : A -> Prop) `{!forall x, Decision (P x)} l : (forall x, x ∈ l -> ~ P x) -> base.filter P l = [].
Proof.
  induction l as [|x l IH]; intros Hl; [done|]. rewrite list.filter_cons_False by (apply Hl; left).
  apply IH. intros y Hy. apply Hl. by right.
Qed.

(** The first number to get past the primes below [n] is the next prime. *)
Lemma next_prime n p : 2 <= n -> first (primes_below n) p -> n <= p /\ primes_below n ++ [p] = primes_below (p + 1).
Proof.
  intros Hn [[Hp Hs] Hmin]. destruct (prime_divisor p Hp) as (q & Hq & Hqp & Hd).
  assert (n <= q) as Hnq.
  { destruct (decide (n <= q)); [done|]. destruct (Hs q); [apply elem_of_primes_below; split; [lia|done]|done]. }
  assert (q = p) as ->.
  { destruct (decide (q = p)); [done|]. destruct (Hmin q ltac:(lia)). by apply prime_survives; [|lia|]. }
  split; [done|]. unfold primes_below.
  replace (p + 1 - 2) with ((n - 2) + ((p - n) + 1)) by lia. rewrite !seqZ_app, !list.filter_app by lia.
  replace (2 + (n - 2)) with n by lia. replace (n + (p - n)) with p by lia. f_equal.
  rewrite (filter_none _ (seqZ n (p - n))).
  - assert (seqZ p 1 = [p]) as -> by (rewrite seqZ_cons by lia; done).
    rewrite list.filter_cons_True by exact Hqp. done.
  - intros x Hx%elem_of_seqZ Hxp. destruct (Hmin x ltac:(lia)). by apply prime_survives; [|lia|lia].
Qed.

Lemma survives_take j k ps m : (j <= k)%nat -> survives (take k ps) m -> survives (take j ps) m.
Proof.
  intros Hjk [H2 H]. split; [done|]. intros p Hp. apply H. apply elem_of_take in Hp as (i & Hi & Hij). apply elem_of_take. exists i. split; [done|lia].
Qed.

Lemma survives_not_multiple j ps p m : ps !! j = Some p -> m mod p = 0 -> ~ survives (take (S j) ps) m.
Proof. intros Hp Hm [_ H]. apply (H p); [|done]. rewrite (take_S_r _ _ _ Hp). set_solver. Qed.

(** ** The chain *)

Section Inv.
Context (ps : list Z).       (* what was printed, the first first *)

(** The process at place [j] of a chain of [n], whose right neighbour is [next],
    after it has been sent numbers up to [r]. *)
Definition node_ok (n j : nat) (next : option (Z * Z)) (r : Z) (st : point * mailbox) : Prop :=
  match st with
  | (Top, NotReceiving) | (Top, Waiting) => j = length ps /\ S j = n /\ r = 1
  | (Top, Arrived v _) | (Shout v, NotReceiving) => j = length ps /\ S j = n /\ r = v /\ first (take j ps) v
  | (Chain p, NotReceiving) => S j = length ps /\ S j = n /\ r = p /\ ps !! j = Some p /\ first (take j ps) p
  | (Filter p id, NotReceiving) | (Filter p id, Waiting) =>
      ps !! j = Some p /\ 2 <= p /\ exists r', next = Some (id, r') /\ r' <= r /\ gap (take (S j) ps) r' (r + 1)
  | (Filter p id, Arrived i _) =>
      ps !! j = Some p /\ 2 <= p /\ exists r', next = Some (id, r') /\ r' < i /\ gap (take (S j) ps) r' i /\
        r = i /\ survives (take j ps) i
  | (Pass p id i, NotReceiving) =>
      ps !! j = Some p /\ 2 <= p /\ exists r', next = Some (id, r') /\ r' < i /\ gap (take (S j) ps) r' i /\
        r = i /\ survives (take (S j) ps) i
  | (ForkFailed, NotReceiving) => S j = n
  | _ => False
  end.

(** The process that feeds the chain. *)
Definition feeder_ok (nodes : list (Z * Z)) (st : point * mailbox) : Prop :=
  match st with
  | (MainFork, NotReceiving) => nodes = [] /\ ps = []
  | (MainSend id i, NotReceiving) => 2 <= i /\ nodes !! 0%nat = Some (id, i - 1)
  | (ForkFailed, NotReceiving) | (Broken, NotReceiving) => True
  | _ => False
  end.

Definition node_at (nodes : list (Z * Z)) (M : gmap Z (point * mailbox)) (j : nat) : Prop :=
  forall e r, nodes !! j = Some (e, r) ->
    exists st, M !! e = Some st /\ node_ok (length nodes) j (nodes !! S j) r st.

(** The feeder [g] and the chain [nodes], each process with the number it was sent last. *)
Record chained (g : Z) (nodes : list (Z * Z)) (M : gmap Z (point * mailbox)) : Prop := {
  ch_nodup : NoDup (g :: nodes.*1);
  ch_dom a : is_Some (M !! a) -> a ∈ g :: nodes.*1;
  ch_feeder : exists st, M !! g = Some st /\ feeder_ok nodes st;
  ch_nodes j : node_at nodes M j
}.
End Inv.

(** ** Steps of the chain *)

Lemma node_unique g nodes ps M j k e r r' : chained ps g nodes M ->
  nodes !! j = Some (e, r) -> nodes !! k = Some (e, r') -> j = k.
Proof.
  intros [Hnd _ _ _] Hj Hk. apply list.NoDup_cons in Hnd as [_ Hnd].
  eapply NoDup_lookup; [exact Hnd| |]; rewrite list_lookup_fmap; [by rewrite Hj|by rewrite Hk].
Qed.

Lemma node_not_feeder g nodes ps M j e r : chained ps g nodes M -> nodes !! j = Some (e, r) -> e <> g.
Proof.
  intros [Hnd _ _ _] Hj ->. apply list.NoDup_cons in Hnd as [Hg _]. apply Hg.
  apply list_elem_of_fmap. exists (g, r). split; [done|]. by eapply list_elem_of_lookup_2.
Qed.

Lemma chained_dom g nodes ps M a st : chained ps g nodes M -> M !! a = Some st ->
  a = g \/ exists j r, nodes !! j = Some (a, r).
Proof.
  intros [_ Hd _ _] Ha. destruct (proj1 (elem_of_cons _ _ _) (Hd a ltac:(by eexists))) as [->|Hin]; [by left|right].
  apply list_elem_of_fmap in Hin as ((e & r) & -> & Hin). apply list_elem_of_lookup_1 in Hin as [j Hj]. by exists j, r.
Qed.

(** A process of the chain changes its state. *)
Lemma chained_node g nodes ps M j e r st : chained ps g nodes M -> nodes !! j = Some (e, r) ->
  node_ok ps (length nodes) j (nodes !! S j) r st -> chained ps g nodes (<[e := st]> M).
Proof.
  intros H Hj Hst. pose proof (node_not_feeder _ _ _ _ _ _ _ H Hj) as Heg.
  pose proof (node_unique g nodes ps M) as Hu. pose proof H as [Hnd Hd (f & Hg & Hf) Hn]. constructor; [done|..].
  - intros a [y [[<- _]|[_ Ha]]%lookup_insert_Some]; [|by apply Hd; eexists].
    right. apply list_elem_of_fmap. exists (e, r). split; [done|]. by eapply list_elem_of_lookup_2.
  - exists f. by rewrite lookup_insert_ne.
  - intros k e' r' Hk. destruct (decide (e' = e)) as [->|Hne].
    + destruct (Hu j k e r r' H Hj Hk). rewrite Hj in Hk. injection Hk as <-. exists st. by rewrite lookup_insert_eq.
    + rewrite lookup_insert_ne by done. by apply Hn.
Qed.

(** The feeder changes its state. *)
Lemma chained_feeder g nodes ps M st : chained ps g nodes M -> feeder_ok ps nodes st -> chained ps g nodes (<[g := st]> M).
Proof.
  intros H Hst. pose proof (node_not_feeder g nodes ps M) as Hng. pose proof H as [Hnd Hd Hf Hn]. constructor; [done|..].
  - intros a [y [[<- _]|[_ Ha]]%lookup_insert_Some]; [by left|by apply Hd; eexists].
  - exists st. by rewrite lookup_insert_eq.
  - intros k e' r' Hk. rewrite lookup_insert_ne by (intros ->; by eapply Hng). by apply Hn.
Qed.

(** A number is passed to a process that waits for one. *)
Lemma node_deliver ps n j next r q i a :
  node_ok ps n j next r (q, Waiting) -> survives (take j ps) i -> r < i -> gap (take j ps) r i ->
  node_ok ps n j next i (q, Arrived i a).
Proof.
  destruct q as [| | | | |p id| | |]; try done; cbn.
  - intros (-> & Hn & ->) Hs Hr Hg. split_and!; [done..|]. split; [done|]. intros m Hm Hsm. apply (Hg m); [|done].
    destruct Hsm as [? _]. lia.
  - intros (Hp & H2 & r' & Hx & Hr' & Hg') Hs Hr Hg. split_and!; [done..|]. exists r'. split_and!; [done|lia| |done|done].
    intros m Hm Hsm. destruct (decide (m < r + 1)); [apply (Hg' m); [lia|done]|].
    apply (Hg m); [lia|]. by apply (survives_take j (S j)); [lia|].
Qed.

Lemma node_at_insert ps nodes M a st k : node_at ps nodes M k -> (forall r, nodes !! k <> Some (a, r)) ->
  node_at ps nodes (<[a := st]> M) k.
Proof. intros H Ha e r Hk. rewrite lookup_insert_ne by (intros ->; by eapply Ha). by apply H. Qed.

Lemma deliver_at ps nodes M j e r q i a k :
  NoDup nodes.*1 -> nodes !! j = Some (e, r) -> M !! e = Some (q, Waiting) -> survives (take j ps) i -> r < i ->
  gap (take j ps) r i -> S k <> j -> node_at ps nodes M k ->
  node_at ps (<[j := (e, i)]> nodes) (<[e := (q, Arrived i a)]> M) k.
Proof.
  intros Hnd Hj He Hs Hr Hg Hk H e' r' Hk'. rewrite length_insert.
  rewrite (list_lookup_insert_ne _ j (S k)) by congruence.
  destruct (decide (k = j)) as [->|Hne].
  - rewrite list_lookup_insert_eq in Hk' by (by eapply lookup_lt_Some). injection Hk' as <- <-.
    destruct (H e r Hj) as (st & Hst & Hok). rewrite He in Hst. injection Hst as <-.
    eexists. rewrite lookup_insert_eq. split; [done|]. by eapply node_deliver.
  - rewrite list_lookup_insert_ne in Hk' by congruence. rewrite lookup_insert_ne; [by apply H|]. intros <-.
    apply Hne. eapply NoDup_lookup; [exact Hnd| |]; rewrite list_lookup_fmap; [by rewrite Hk'|by rewrite Hj].
Qed.

Lemma fst_insert (nodes : list (Z * Z)) j e r i : nodes !! j = Some (e, r) -> (<[j := (e, i)]> nodes).*1 = nodes.*1.
Proof. intros H. rewrite list_fmap_insert. cbn. apply list_insert_id. by rewrite list_lookup_fmap, H. Qed.

(** The feeder's message arrives. *)
Lemma feeder_sends ps g nodes M id i q st : chained ps g nodes M ->
  M !! g = Some (MainSend id i, NotReceiving) -> M !! id = Some (q, Waiting) ->
  (forall nodes' : list (Z * Z), nodes' !! 0%nat = Some (id, i) -> feeder_ok ps nodes' st) ->
  exists nodes', chained ps g nodes' (<[id := (q, Arrived i g)]> (<[g := st]> M)).
Proof.
  intros H Hg Hid Hst. pose proof (node_not_feeder g nodes ps M 0%nat) as Hng. pose proof H as [Hnd Hd (f & Hf & Hfo) Hn].
  rewrite Hg in Hf. injection Hf as <-. destruct Hfo as [Hi H0]. pose proof (Hng _ _ H H0) as Hne.
  exists (<[0%nat := (id, i)]> nodes). pose proof (proj2 (proj1 (list.NoDup_cons _ _) Hnd)) as Hnd'.
  constructor.
  - by rewrite (fst_insert _ _ _ _ _ H0).
  - intros a [y [[<- _]|[_ [[<- _]|[_ Ha]]%lookup_insert_Some]]%lookup_insert_Some]; rewrite (fst_insert _ _ _ _ _ H0);
      [by apply Hd; eexists|by left|by apply Hd; eexists].
  - exists st. rewrite lookup_insert_ne, lookup_insert_eq by done. split; [done|]. apply Hst.
    rewrite list_lookup_insert_eq; [done|by eapply lookup_lt_Some].
  - intros k. eapply (deliver_at _ _ _ 0%nat); [exact Hnd'|exact H0|by rewrite lookup_insert_ne| | | |done|].
    + split; [done|]. cbn. by intros p ?%not_elem_of_nil.
    + lia.
    + intros m Hm. lia.
    + apply node_at_insert; [apply Hn|]. intros r Hr. by apply (node_not_feeder g nodes ps M k g r H Hr).
Qed.

(** A number that is not a multiple is passed on. *)
Lemma node_sends ps g nodes M a p id i q : chained ps g nodes M ->
  M !! a = Some (Pass p id i, NotReceiving) -> a <> g -> M !! id = Some (q, Waiting) ->
  exists nodes', chained ps g nodes' (<[id := (q, Arrived i a)]> (<[a := (Filter p id, NotReceiving)]> M)).
Proof.
  intros H Ha Hag Hid. destruct (chained_dom _ _ _ _ _ _ H Ha) as [|(k & r & Hk)]; [done|].
  pose proof (node_unique g nodes ps M) as Hu. pose proof (node_not_feeder g nodes ps M) as Hng.
  pose proof H as [Hnd Hd (f & Hf & Hfo) Hn].
  destruct (Hn k a r Hk) as (st & Hst & Hok). rewrite Ha in Hst. injection Hst as <-.
  destruct Hok as (Hp & H2 & r' & Hnx & Hr' & Hgap & -> & Hs).
  assert (id <> g) as Hidg by (by eapply Hng). assert (id <> a) as Hida by (intros ->; congruence).
  pose proof (proj2 (proj1 (list.NoDup_cons _ _) Hnd)) as Hnd'.
  exists (<[S k := (id, i)]> nodes). constructor.
  - by rewrite (fst_insert _ _ _ _ _ Hnx).
  - intros x [y [[<- _]|[_ [[<- _]|[_ Hx]]%lookup_insert_Some]]%lookup_insert_Some]; rewrite (fst_insert _ _ _ _ _ Hnx);
      by apply Hd; eexists.
  - exists f. rewrite !lookup_insert_ne by done. split; [done|].
    destruct f as [[]  []]; cbn in *; try done.
    + destruct Hfo as [-> _]. done.
    + destruct Hfo as [Hi0 H0]. split; [done|]. by rewrite list_lookup_insert_ne.
  - intros j. destruct (decide (j = k)) as [->|Hne].
    + intros e r1 He. rewrite list_lookup_insert_ne in He by lia. rewrite Hk in He. injection He as <- <-.
      exists (Filter p id, NotReceiving). rewrite lookup_insert_ne, lookup_insert_eq by done. split; [done|].
      split; [done|]. split; [done|]. exists i.
      rewrite list_lookup_insert_eq by (by eapply lookup_lt_Some). split; [done|]. split; [done|]. intros m Hm. lia.
    + eapply deliver_at; [exact Hnd'|exact Hnx|by rewrite lookup_insert_ne|done|lia|done|lia|].
      apply node_at_insert; [apply Hn|]. intros r1 Hr1. apply Hne. symmetry. exact (Hu _ _ _ _ _ H Hk Hr1).
Qed.

(** The process at the end of the chain forks a new end. *)
Lemma node_forks ps g nodes M a p c : chained ps g nodes M -> M !! a = Some (Chain p, NotReceiving) -> a <> g ->
  M !! c = None ->
  chained ps g (nodes ++ [(c, 1)]) (<[c := (Top, NotReceiving)]> (<[a := (Filter p c, NotReceiving)]> M)).
Proof.
  intros H Ha Hag Hc. destruct (chained_dom _ _ _ _ _ _ H Ha) as [|(k & r & Hk)]; [done|].
  pose proof (node_unique g nodes ps M) as Hu. pose proof (node_not_feeder g nodes ps M) as Hng.
  pose proof H as [Hnd Hd (f & Hf & Hfo) Hn].
  destruct (Hn k a r Hk) as (st & Hst & Hok). rewrite Ha in Hst. injection Hst as <-.
  destruct Hok as (Hlen & Hlast & -> & Hp & [[H2 Hs] Hmin]).
  assert (c <> g /\ c <> a) as [Hcg Hca] by (split; intros ->; congruence).
  assert (c ∉ g :: nodes.*1) as Hnew.
  { intros [->|Hin]%elem_of_cons; [done|]. apply list_elem_of_fmap in Hin as ((e & r') & -> & Hin).
    apply list_elem_of_lookup_1 in Hin as [j Hj]. destruct (Hn j e r' Hj) as (st & Hst & _). cbn in Hc. congruence. }
  constructor.
  - rewrite fmap_app. cbn. change (NoDup ((g :: nodes.*1) ++ [c])). apply list.NoDup_app. split; [done|]. split; [|apply list.NoDup_singleton].
    intros x Hx ->%list_elem_of_singleton. done.
  - rewrite fmap_app. cbn. intros x [y Hx]. destruct (decide (x = c)) as [->|Hxc]; [set_solver|].
    rewrite lookup_insert_ne in Hx by done. destruct (decide (x = a)) as [->|Hxa].
    + specialize (Hd a ltac:(by eexists)). set_solver.
    + rewrite lookup_insert_ne in Hx by done. specialize (Hd x ltac:(by eexists)). set_solver.
  - exists f. rewrite !lookup_insert_ne by done. split; [done|]. destruct f as [[] []]; cbn in *; try done.
    + destruct Hfo as [-> _]. done.
    + destruct Hfo as [Hi0 H0]. split; [done|]. by apply lookup_app_l_Some.
  - intros j e r1 Hj. rewrite length_app. cbn. destruct (decide (j < length nodes)%nat) as [Hlt|Hge].
    + rewrite lookup_app_l in Hj by done. destruct (decide (j = k)) as [->|Hne].
      * rewrite Hk in Hj. injection Hj as <- <-. exists (Filter p c, NotReceiving).
        rewrite lookup_insert_ne, lookup_insert_eq by done. split; [done|]. split; [done|]. split; [done|].
        exists 1. split; [rewrite lookup_app_r by lia; by rewrite Hlast, Nat.sub_diag|]. split; [lia|].
        intros m Hm. destruct (decide (m = p)) as [->|]; [by apply (survives_not_multiple k _ p); [|apply Z_mod_same_full]|].
        intros Hsm%(survives_take k (S k)); [|lia]. apply (Hmin m); [lia|done].
      * destruct (Hn j e r1 Hj) as (st & Hst & Hok). exists st.
        assert (e <> a) by (intros ->; apply Hne; symmetry; exact (Hu _ _ _ _ _ H Hk Hj)).
        assert (e <> c) by (intros ->; congruence). rewrite !lookup_insert_ne by done. split; [done|].
        rewrite lookup_app_l by lia. destruct st as [[] []]; cbn in *; try done; lia.
    + rewrite lookup_app_r in Hj by lia. assert (j = length nodes) as ->
        by (apply lookup_lt_Some in Hj; cbn in Hj; lia). rewrite Nat.sub_diag in Hj. injection Hj as <- <-.
      exists (Top, NotReceiving). rewrite lookup_insert_eq. split; [done|]. cbn. lia.
Qed.

(** It prints its prime. *)
Lemma node_prints ps g nodes M a p : chained ps g nodes M -> M !! a = Some (Shout p, NotReceiving) -> a <> g ->
  first ps p /\ chained (ps ++ [p]) g nodes (<[a := (Chain p, NotReceiving)]> M).
Proof.
  intros H Ha Hag. destruct (chained_dom _ _ _ _ _ _ H Ha) as [|(k & r & Hk)]; [done|].
  pose proof (node_unique g nodes ps M) as Hu.
  pose proof H as [Hnd Hd (f & Hf & Hfo) Hn].
  destruct (Hn k a r Hk) as (st & Hst & Hok). rewrite Ha in Hst. injection Hst as <-.
  destruct Hok as (Hlen & Hlast & -> & Hfi). rewrite Hlen, take_ge in Hfi by lia. split; [done|]. constructor; [done|..].
  - intros x [y [[<- _]|[_ Hx]]%lookup_insert_Some]; by apply Hd; eexists.
  - exists f. rewrite lookup_insert_ne by done. split; [done|]. destruct f as [[] []]; cbn in *; try done.
    destruct Hfo as [-> _]. done.
  - intros j e r1 Hj. destruct (decide (j = k)) as [->|Hne].
    + rewrite Hk in Hj. injection Hj as <- <-. exists (Chain p, NotReceiving). rewrite lookup_insert_eq. split; [done|].
      cbn. rewrite length_app, Hlen. cbn. split_and!; [lia|lia|done| |].
      * by rewrite lookup_app_r, Nat.sub_diag by lia.
      * by rewrite take_app_length.
    + destruct (Hn j e r1 Hj) as (st & Hst & Hok). exists st.
      assert (e <> a) by (intros ->; apply Hne; symmetry; exact (Hu _ _ _ _ _ H Hk Hj)).
      rewrite lookup_insert_ne by done. split; [done|]. apply lookup_lt_Some in Hj.
      assert (j < length ps)%nat as Hjl by lia.
      destruct st as [[] []]; cbn [node_ok] in *; rewrite ?length_app, ?lookup_app_l, ?take_app_le by lia; try done; lia.
Qed.

Lemma feeder_forks g nodes ps M c : chained ps g nodes M -> M !! g = Some (MainFork, NotReceiving) -> M !! c = None ->
  exists nodes', chained ps g nodes' (<[c := (Top, NotReceiving)]> (<[g := (MainSend c 2, NotReceiving)]> M)).
Proof.
  intros [Hnd Hd (f & Hf & Hfo) Hn] Hg Hc. rewrite Hg in Hf. injection Hf as <-. destruct Hfo as [-> ->].
  assert (c <> g) as Hcg by (intros ->; congruence). exists [(c, 1)]. constructor.
  - cbn. apply list.NoDup_cons. split; [|apply list.NoDup_singleton]. by intros ->%list_elem_of_singleton.
  - cbn. intros a [y [[<- _]|[_ [[<- _]|[_ Ha]]%lookup_insert_Some]]%lookup_insert_Some]; [set_solver|set_solver|].
    specialize (Hd a ltac:(by eexists)). set_solver.
  - eexists. rewrite lookup_insert_ne, lookup_insert_eq by done. split; [done|]. cbn. done.
  - intros j e r Hj. assert (j = 0%nat) as -> by (apply lookup_lt_Some in Hj; cbn in Hj; lia). injection Hj as <- <-.
    exists (Top, NotReceiving). by rewrite lookup_insert_eq.
Qed.

(** ** The theorem *)

(** The numbers printed, in order. *)
Definition numbers (m : msys point (Z * Z)) : list Z := reverse (out m).*2.

Lemma numbers_say M u c p (m : msys point (Z * Z)) st : numbers (mkMsys M u ((c, p) :: out m) st) = numbers m ++ [p].
Proof.
  unfold numbers. cbn [out].
  by rewrite fmap_cons, reverse_cons.
Qed.

Definition sieve_inv (g : Z) (m : msys point (Z * Z)) : Prop :=
  (exists n, 2 <= n /\ numbers m = primes_below n) /\
  (state m = Running -> (exists nodes, chained (numbers m) g nodes (procs m)) /\
     forall a, is_Some (procs m !! a) -> a ∈ used m).

Lemma sieve_inv_init g : sieve_inv g (minit g umain).
Proof.
  split; [by exists 2|]. intros _. split.
  - exists []. constructor.
    + apply list.NoDup_singleton.
    + cbn. intros a [y [<- _]%lookup_singleton_Some]. set_solver.
    + exists (MainFork, NotReceiving). cbn. by rewrite lookup_singleton_eq.
    + intros j e r Hj. done.
  - cbn. intros a [y [<- _]%lookup_singleton_Some]. set_solver.
Qed.

(** Each process is the feeder or in the chain. *)
Lemma chained_at ps g nodes M a st : chained ps g nodes M -> M !! a = Some st ->
  (a = g /\ feeder_ok ps nodes st) \/
  (a <> g /\ exists j r, nodes !! j = Some (a, r) /\ node_ok ps (length nodes) j (nodes !! S j) r st).
Proof.
  intros H Ha. destruct (decide (a = g)) as [->|Hne].
  - left. split; [done|]. destruct (ch_feeder _ _ _ _ H) as (f & Hf & Hfo). by simplify_eq.
  - right. split; [done|]. destruct (chained_dom _ _ _ _ _ _ H Ha) as [|(j & r & Hj)]; [done|].
    exists j, r. split; [done|]. destruct (ch_nodes _ _ _ _ H j a r Hj) as (st' & Hst' & Hok). by simplify_eq.
Qed.

Lemma filter_value_ok ps n j next r p id i from :
  node_ok ps n j next r (Filter p id, Arrived i from) -> node_ok ps n j next r (filter_value p id i, NotReceiving).
Proof.
  cbn. intros (Hp & H2 & r' & Hx & Hr & Hg & -> & Hs). unfold filter_value.
  destruct (Z.eqb_spec p 0); [lia|]. pose proof Hs as [Hi _]. rewrite Z.rem_mod_nonneg by lia.
  destruct (Z.eqb_spec (i mod p) 0) as [Hm|Hm]; cbn.
  - split; [done|]. split; [done|]. exists r'. split; [done|]. split; [lia|]. intros m Hmr.
    destruct (decide (m = i)) as [->|]; [by apply (survives_not_multiple j _ p)|]. apply Hg. lia.
  - split; [done|]. split; [done|]. exists r'. split_and!; [done..|]. destruct Hs as [? Hs]. split; [done|].
    intros q Hq. rewrite (take_S_r _ _ _ Hp) in Hq. apply elem_of_app in Hq as [Hq| ->%list_elem_of_singleton]; [by apply Hs|done].
Qed.

(** A turn of a process, seen in the processes and the numbers. *)
Lemma sieve_turn g nodes ps m m' a c : ps = numbers m -> chained ps g nodes (procs m) ->
  (forall x, is_Some (procs m !! x) -> x ∈ used m) -> turn primes a c m = Some m' -> state m' = Running ->
  (numbers m' = ps \/ exists p, first ps p /\ numbers m' = ps ++ [p]) /\ exists nodes', chained (numbers m') g nodes' (procs m').
Proof.
  intros -> H Hu Ht Hr. unfold turn in Ht. destruct (state m); [|done..].
  destruct (procs m !! a) as [[pt box]|] eqn:Ha; [|done].
  assert (forall i, procs m !! i = None <-> ~ is_Some (procs m !! i)) as Hnone by (intros i; by rewrite eq_None_not_Some).
  destruct (chained_at _ _ _ _ _ _ H Ha) as [[-> Hf]|[Hag (j & r & Hj & Hok)]].
  - destruct pt as [|id i| | | | | | |], box; try done; cbn in Ht.
    + destruct (c <? 0) eqn:Ec; [by injection Ht as <-|]. destruct (c =? 0) eqn:E0; case_bool_decide as Hc; try done; [lia|].
      injection Ht as <-. split; [by left|].
      apply (feeder_forks g nodes); [done..|]. rewrite Hnone. intros Hs. by destruct Hc as [_ Hc]; apply Hc, Hu.
    + destruct (procs m !! id) as [[q []]|] eqn:Eid; simplify_eq; try (split; [by left|]); try (by exists nodes).
      eapply (feeder_sends _ g nodes _ id i); [done..|]. intros nodes' H0. destruct Hf as [Hi _].
      destruct (i =? INT_MAX); [done|]. cbn. split; [lia|]. rewrite H0. do 2 f_equal. lia.
    + by injection Ht as <-.
    + by injection Ht as <-.
  - destruct pt as [| | |p|p|p id|p id i| |], box as [| |v from]; try done; cbn in Ht;
      try (injection Ht as <-; split; [by left|]; exists nodes; by eapply chained_node).
    + injection Ht as <-. destruct (node_prints _ _ _ _ _ _ H Ha Hag) as [Hfi Hch].
      rewrite numbers_say. split; [right; by exists p|]. by exists nodes.
    + destruct (c <? 0) eqn:Ec; [by injection Ht as <-|]. destruct (c =? 0) eqn:E0; case_bool_decide as Hc; try done; [lia|].
      injection Ht as <-. split; [by left|].
      eexists. apply (node_forks _ g nodes); [done..|]. rewrite Hnone. intros Hs. by destruct Hc as [_ Hc]; apply Hc, Hu.
    + injection Ht as <-. split; [by left|]. exists nodes. eapply chained_node; [done..|]. by eapply filter_value_ok.
    + destruct (procs m !! id) as [[q []]|] eqn:Eid; simplify_eq; try (split; [by left|]); try (by exists nodes).
      by eapply (node_sends _ g nodes).
    + by injection Ht as <-.
Qed.

Lemma sieve_inv_turn g m m' a c : sieve_inv g m -> turn primes a c m = Some m' -> sieve_inv g m'.
Proof.
  intros [(n & Hn & Hnum) HR] Ht.
  assert (state m = Running) as Hs by (unfold turn in Ht; by destruct (state m)).
  destruct (HR Hs) as [(nodes & Hch) Hu].
  destruct (decide (state m' = Running)) as [Hs'|Hs'].
  - destruct (sieve_turn g nodes (numbers m) m m' a c eq_refl Hch Hu Ht Hs') as [Hout Hch'].
    split; [|intros _; split; [done|by eapply turn_used]].
    destruct Hout as [->|(p & Hp & ->)]; [by exists n|]. rewrite Hnum in Hp |- *.
    destruct (next_prime n p Hn Hp) as [Hnp ->]. exists (p + 1). split; [lia|done].
  - split; [|done]. exists n. split; [done|]. unfold numbers. by rewrite (turn_halts _ _ _ _ _ Ht Hs').
Qed.

(** C9: however the processes of [primes.c] interleave, and whatever becomes of
    the forks, the numbers printed so far are all the primes below some bound, each
    once and in order: exactly the numbers the function in the comment of the file
    calls prime. *)
Theorem primes_correct g m : rtc (mstep primes) (minit g umain) m ->
  exists n, reverse (out m).*2 = base.filter (fun x => isprime x = true) (seqZ 2 (n - 2)).
Proof.
  intros Hr. destruct (msys_invariant primes (sieve_inv g) (minit g umain) m) as [(n & _ & Hn) _]; [|intros; by eapply sieve_inv_turn|done|].
  - apply sieve_inv_init.
  - by exists n.
Qed.

(** A run of the first three processes. *)
Definition demo_turns : list (Z * Z) :=
  [(1, 2); (2, 0); (1, 0); (2, 0); (2, 0); (2, 3); (3, 0); (2, 0); (1, 0); (2, 0); (2, 0); (3, 0); (3, 1)].

Lemma primes_correct_witness : exists m, turns primes demo_turns (minit 1 umain) = Some m /\ out m = [(1, 3); (0, 2)] /\
  exists n, [2; 3] = base.filter (fun x => isprime x = true) (seqZ 2 (n - 2)).
Proof.
  assert (exists m, turns primes demo_turns (minit 1 umain) = Some m /\ out m = [(1, 3); (0, 2)]) as (m & Hm & Ho)
    by (eexists; split; [vm_compute; reflexivity|reflexivity]).
  exists m. split; [exact Hm|]. split; [exact Ho|].
  pose proof (primes_correct 1 m (turns_steps _ _ _ _ Hm)) as H. rewrite Ho in H. exact H.
Defined.

(** ** The chain does not stop *)

(** A turn that does something, and in which no fork fails. *)
Definition can_move (m : msys point (Z * Z)) : Prop := exists a c m', turn primes a c m = Some m' /\ 0 <= c /\ m' <> m.

Lemma can_move_intro (m : msys point (Z * Z)) a c m' : turn primes a c m = Some m' -> 0 <= c -> procs m' <> procs m -> can_move m.
Proof. intros Ht Hc Hp. exists a, c, m'. split; [done|]. split; [done|]. by intros ->. Qed.

(** There is an id for another child. *)
Lemma fresh_id (U : gset Z) : exists c, 0 < c /\ c ∉ U.
Proof.
  pose proof (is_fresh ({[0%nat]} ∪ set_map Z.to_nat U : gset nat)) as Hf. set (n := fresh _) in Hf.
  exists (Z.of_nat n). split.
  - destruct n; [set_solver|lia].
  - intros Hin. apply Hf, elem_of_union_r, elem_of_map. exists (Z.of_nat n). by rewrite Nat2Z.id.
Qed.


Lemma insert_other (M : gmap Z (point * mailbox)) a st st' : M !! a = Some st -> st' <> st -> <[a := st']> M <> M.
Proof. intros Ha Hne H. apply Hne. rewrite <- H, lookup_insert_eq in Ha. by injection Ha. Qed.

Lemma insert_twice_other (M : gmap Z (point * mailbox)) b st a st1 st' : M !! a = Some st1 -> b <> a -> st' <> st1 ->
  <[b := st]> (<[a := st']> M) <> M.
Proof. intros Ha Hb Hne H. apply Hne. rewrite <- H, lookup_insert_ne, lookup_insert_eq in Ha by done. by injection Ha. Qed.

Lemma fork_moves m a p k : state m = Running -> procs m !! a = Some (p, NotReceiving) -> primes p = Fork k ->
  (forall c, 0 < c -> k c <> p) -> (forall x, is_Some (procs m !! x) -> x ∈ used m) -> can_move m.
Proof.
  intros Hs Ha Hp Hk Hu. destruct (fresh_id (used m)) as (c & Hc & Hf).
  assert (c <> a) as Hca by (intros ->; apply Hf, Hu; by eexists).
  eapply (can_move_intro m a c); [|lia|].
  - unfold turn. rewrite Hs, Ha, Hp. destruct (Z.ltb_spec c 0); [lia|]. by rewrite bool_decide_true.
  - cbn. apply (insert_twice_other _ _ _ _ (p, NotReceiving)); [done|done|]. intros [= E]. by apply (Hk c).
Qed.

(** A process whose message would arrive can move. *)
Lemma sender_moves m a id i k q p : state m = Running -> procs m !! a = Some (p, NotReceiving) ->
  primes p = Send id i k -> k <> p -> procs m !! id = Some (q, Waiting) -> can_move m.
Proof.
  intros Hs Ha Hp Hk Hid. assert (id <> a) as Hne by (intros ->; congruence).
  eapply (can_move_intro m a 0); [unfold turn; rewrite Hs, Ha, Hp, Hid; reflexivity|done|]. cbn.
  apply (insert_twice_other _ _ _ _ (p, NotReceiving)); [done|done|]. intros [= ?]. done.
Qed.

(** The chain from place [j] on moves, unless its first process waits. *)
Lemma chain_moves g m nodes d j e r st : state m = Running -> chained (numbers m) g nodes (procs m) ->
  (forall x, is_Some (procs m !! x) -> x ∈ used m) -> (length nodes <= j + d)%nat -> nodes !! j = Some (e, r) -> procs m !! e = Some st -> st.2 <> Waiting -> can_move m.
Proof.
  intros Hs H Hu. revert j e r st. induction d as [|d IH]; intros j e r st Hd Hj He Hw.
  { apply lookup_lt_Some in Hj. lia. }
  destruct (ch_nodes _ _ _ _ H j e r Hj) as (st' & He' & Hok). rewrite He in He'. injection He' as <-.
  assert (forall m', turn primes e 0 m = Some m' -> procs m' <> procs m -> can_move m) as Hmv
    by (intros m' Ht; by apply (can_move_intro m e 0)).
  destruct st as [[| | |p|p|p id|p id i| |] [| |v from]]; try done;
    try (eapply Hmv; [unfold turn; rewrite Hs, He; reflexivity|by eapply insert_other]).
  - eapply fork_moves; [done|exact He|reflexivity| |done]. intros c Hc. cbn. by destruct (c <? 0), (c =? 0).
  - destruct Hok as (_ & _ & r' & Hx & _). destruct (ch_nodes _ _ _ _ H (S j) id r' Hx) as ([q box] & Hid & _).
    destruct (decide (box = Waiting)) as [->|Hbox]; [by eapply sender_moves|].
    apply (IH (S j) id r' (q, box)); [lia|done..].
  - exists e, 0, (mkMsys (procs m) (used m) (out m) Panicked). split; [unfold turn; by rewrite Hs, He|]. split; [done|].
    intros E. apply (f_equal state) in E. cbn in E. congruence.
Qed.

(** C10: the sieve does not deadlock: in every state it reaches, as long as no fork
    fails and the counter does not overflow, some process has a turn that is more
    than the next try of a message that nobody waits for. *)
Theorem primes_no_deadlock g m : rtc (mstep primes) (minit g umain) m -> state m = Running -> can_move m.
Proof.
  intros Hr Hs. destruct (msys_invariant primes (sieve_inv g) (minit g umain) m) as [_ HR];
    [apply sieve_inv_init|intros; by eapply sieve_inv_turn|done|].
  destruct (HR Hs) as [(nodes & H) Hu]. destruct (ch_feeder _ _ _ _ H) as ([pt box] & Hg & Hf).
  destruct pt as [|id i| | | | | | |], box; try done.
  - eapply fork_moves; [done|exact Hg|reflexivity| |done]. intros c Hc. cbn. by destruct (c <? 0), (c =? 0).
  - destruct Hf as [_ H0]. destruct (ch_nodes _ _ _ _ H 0%nat id (i - 1) H0) as ([q box] & Hid & _).
    destruct (decide (box = Waiting)) as [->|Hbox].
    + eapply sender_moves; [done|exact Hg|reflexivity| |exact Hid]. destruct (i =? INT_MAX); [done|]. intros [= E]. lia.
    + by apply (chain_moves g m nodes (length nodes) 0 id (i - 1) (q, box)).
  - exists g, 0, (mkMsys (procs m) (used m) (out m) Panicked). split; [unfold turn; by rewrite Hs, Hg|]. split; [done|].
    intros E. apply (f_equal state) in E. cbn in E. congruence.
  - exists g, 0, (mkMsys (procs m) (used m) (out m) Stray). split; [unfold turn; by rewrite Hs, Hg|]. split; [done|].
    intros E. apply (f_equal state) in E. cbn in E. congruence.
Qed.

Lemma primes_no_deadlock_witness : exists m, turns primes demo_turns (minit 1 umain) = Some m /\ can_move m.
Proof.
  assert (exists m, turns primes demo_turns (minit 1 umain) = Some m /\ state m = Running) as (m & Hm & Ho)
    by (eexists; split; [vm_compute; reflexivity|reflexivity]).
  exists m. split; [exact Hm|]. exact (primes_no_deadlock 1 m (turns_steps _ _ _ _ Hm) Ho).
Defined.
