(* ===== verification/Forktree.v ===== *)
(** * The tree of forks ([user/forktree.c])

    Every process prints its string, forks two children with one more digit and
    goes on; a fork that fails panics, and nothing runs any more. *)

From Stdlib Require Import Lia ZArith ZifyClasses ZifyInst ZifyBool.
From stdpp Require Import base gmap list numbers.
From S2P Require Import Prelude Msgs.

Definition DEPTH : nat := 3.

(** Where a process is; [next] is what is left of the call that [forkchild] is in. *)
Inductive point : Type :=
  | Hello (cur : list Z)                  (* forktree: cprintf *)
  | ForkChild (nxt : list Z) (next : point)  (* forkchild: fork() *)
  | Return.                               (* exit(), or the end of umain *)

(** [snprintf(nxt, DEPTH+1, "%s%c", cur, branch)]. *)
Definition nxt (cur : list Z) (branch : Z) : list Z := take DEPTH (cur ++ [branch]).

Definition forkchild (cur : list Z) (branch : Z) (next : point) : point :=
  if bool_decide (DEPTH <= length cur)%nat then next else ForkChild (nxt cur branch) next.

Definition forktree (pt : point) : action point (Z * list Z) :=
  match pt with
  | Hello cur => Say (fun me _ => (me, cur)) (forkchild cur 48 (forkchild cur 49 Return))
  | ForkChild nxt next => Fork (fun id => if id =? 0 then Hello nxt else next)
  | Return => Exit
  end.

Definition umain : point := Hello [].

(** ** What is left to print *)

Fixpoint tree (d : nat) (cur : list Z) : list (list Z) :=
  cur :: match d with O => [] | S d' => tree d' (cur ++ [48]) ++ tree d' (cur ++ [49]) end.

Fixpoint pending (pt : point) : list (list Z) :=
  match pt with
  | Hello cur => tree (DEPTH - length cur) cur
  | ForkChild nxt next => tree (DEPTH - length nxt) nxt ++ pending next
  | Return => []
  end.

(** The turns a process and its children take. *)
Fixpoint turns_left (pt : point) : nat :=
  match pt with
  | Hello cur => 3 * length (tree (DEPTH - length cur) cur) - 1
  | ForkChild nxt next => 3 * length (tree (DEPTH - length nxt) nxt) + turns_left next
  | Return => 1
  end.

Lemma tree_pos d cur : (0 < length (tree d cur))%nat.
Proof. destruct d; cbn; lia. Qed.

Lemma children_pending cur : (length cur <= DEPTH)%nat ->
  let next := forkchild cur 48 (forkchild cur 49 Return) in
  tree (DEPTH - length cur) cur = cur :: pending next /\
  (turns_left (Hello cur) = S (turns_left next))%nat.
Proof.
  intros Hl. unfold forkchild. case_bool_decide as H.
  - assert (length cur = DEPTH) as E by lia. cbn [turns_left]. rewrite E, Nat.sub_diag. done.
  - assert (forall b, nxt cur b = cur ++ [b]) as Hn by (intros b; unfold nxt; apply take_ge; rewrite length_app; cbn; lia).
    cbn [turns_left pending]. rewrite !Hn, !length_app. cbn [length].
    replace (DEPTH - length cur)%nat with (S (DEPTH - (length cur + 1))) by lia.
    split; [cbn; by rewrite app_nil_r|]. cbn [tree length]. rewrite length_app.
    pose proof (tree_pos (DEPTH - (length cur + 1)) (cur ++ [48])). lia.
Qed.

(** All points of a process are for strings of at most [DEPTH] digits. *)
Fixpoint short (pt : point) : Prop :=
  match pt with
  | Hello cur => (length cur <= DEPTH)%nat
  | ForkChild nxt next => (length nxt <= DEPTH)%nat /\ short next
  | Return => True
  end.

Lemma forkchild_short cur b next : short next -> short (forkchild cur b next).
Proof.
  intros H. unfold forkchild. case_bool_decide; [done|]. split; [|done]. unfold nxt. rewrite length_take. lia.
Qed.

(** ** All processes together *)

Abbreviation table := (gmap Z (point * mailbox)).

Definition all_pending (M : table) : list (list Z) := concat ((fun x => pending x.2.1) <$> map_to_list M).
Definition all_turns (M : table) : nat := sum_list ((fun x => turns_left x.2.1) <$> map_to_list M).

Lemma all_pending_insert M a st : M !! a = None -> all_pending (<[a := st]> M) ≡ₚ pending st.1 ++ all_pending M.
Proof. intros H. unfold all_pending. by rewrite (map_to_list_insert _ _ _ H). Qed.

Lemma all_turns_insert M a st : M !! a = None -> all_turns (<[a := st]> M) = (turns_left st.1 + all_turns M)%nat.
Proof. intros H. unfold all_turns. by rewrite (map_to_list_insert _ _ _ H). Qed.

Lemma all_split M a st : M !! a = Some st ->
  all_pending M ≡ₚ pending st.1 ++ all_pending (delete a M) /\ all_turns M = (turns_left st.1 + all_turns (delete a M))%nat.
Proof.
  intros H. rewrite <- (insert_delete_id M a st H) at 1 3.
  split; [apply all_pending_insert|apply all_turns_insert]; apply lookup_delete_eq.
Qed.

Lemma all_update M a st : 
  all_pending (<[a := st]> M) ≡ₚ pending st.1 ++ all_pending (delete a M) /\
  all_turns (<[a := st]> M) = (turns_left st.1 + all_turns (delete a M))%nat.
Proof.
  rewrite <- (insert_delete_eq M a st). split; [apply all_pending_insert|apply all_turns_insert]; apply lookup_delete_eq.
Qed.

Record tree_ok (m : msys point (Z * list Z)) : Prop := {
  tk_running : state m = Running;
  tk_procs a st : procs m !! a = Some st -> st.2 = NotReceiving /\ short st.1;
  tk_used a : is_Some (procs m !! a) -> a ∈ used m
}.

(** What is printed and what is left to print, in a turn that does not panic. *)
Lemma forktree_turn m a c m' : tree_ok m -> turn forktree a c m = Some m' -> state m' = Running ->
  tree_ok m' /\ (all_turns (procs m') < all_turns (procs m))%nat /\
  (out m).*2 ++ all_pending (procs m) ≡ₚ (out m').*2 ++ all_pending (procs m').
Proof.
  intros [Hr Hp Hu] Ht Hr'. assert (forall x, is_Some (procs m' !! x) -> x ∈ used m') as Hu' by (by eapply turn_used).
  unfold turn in Ht. rewrite Hr in Ht. destruct (procs m !! a) as [[p box]|] eqn:Ha; [|done].
  destruct (Hp a _ Ha) as [Hbox Hsh]. cbn [fst snd] in *. subst box. destruct (all_split _ _ _ Ha) as [Hs1 Hs2]. cbn [fst] in *.
  assert (forall st', st'.2 = NotReceiving /\ short st'.1 ->
    forall x st, <[a := st']> (procs m) !! x = Some st -> st.2 = NotReceiving /\ short st.1) as Hins.
  { intros st' Hok x st [[<- <-]|[_ Hx]]%lookup_insert_Some; [done|by eapply Hp]. }
  destruct p as [cur|nx next|]; cbn [forktree] in Ht.
  - injection Ht as <-. destruct (children_pending cur Hsh) as [Hc1 Hc2]. set (next := forkchild _ _ _) in *.
    destruct (all_update (procs m) a (next, NotReceiving)) as [Hu1 Hu2]. split; [|split].
    + constructor; [done| |done]. apply Hins. split; [done|]. by repeat apply forkchild_short.
    + cbn [procs]. rewrite Hu2, Hs2. cbn [fst]. lia.
    + cbn [procs out]. rewrite Hu1, Hs1. cbn [pending fst].
      rewrite Hc1, fmap_cons. cbn [app snd]. solve_Permutation.
  - destruct Hsh as [Hnx Hnext]. pose proof (tree_pos (DEPTH - length nx) nx) as Hpos.
    destruct (c <? 0) eqn:Ec; [by injection Ht as <-|]. case_bool_decide as Hc; [|done]. injection Ht as <-.
    assert ((c =? 0) = false) as E0 by lia. rewrite E0 in *. change (0 =? 0) with true in *. cbv iota in *.
    assert (c <> a) as Hca by (intros ->; destruct Hc as [_ Hc]; apply Hc, Hu; by eexists).
    assert (<[a := (next, NotReceiving)]> (procs m) !! c = None) as Hnew.
    { rewrite lookup_insert_ne by done. apply eq_None_not_Some. intros Hs. destruct Hc as [_ Hc]. by apply Hc, Hu. }
    destruct (all_update (procs m) a (next, NotReceiving)) as [Hu1 Hu2]. split; [|split].
    + constructor; [done| |done]. cbn [procs]. intros x st [[<- <-]|[_ Hx]]%lookup_insert_Some; [split; [reflexivity|exact Hnx]|].
      by apply (Hins (next, NotReceiving) (conj eq_refl Hnext) x st).
    + cbn [procs]. rewrite all_turns_insert, Hu2, Hs2 by done. cbn [fst turns_left]. lia.
    + cbn [procs out]. rewrite all_pending_insert by done. rewrite Hu1, Hs1. cbn [pending fst].
      solve_Permutation.
  - injection Ht as <-. split; [|split].
    + constructor; [done| |done]. cbn [procs]. intros x st [_ Hx]%lookup_delete_Some. by eapply Hp.
    + cbn [procs]. rewrite Hs2. cbn [turns_left]. lia.
    + cbn [procs out]. by rewrite Hs1.
Qed.

(** A turn that does not leave the system running is a fork that failed. *)
Lemma forktree_panics m a c m' : tree_ok m -> turn forktree a c m = Some m' -> state m' <> Running ->
  c < 0 /\ state m' = Panicked /\ (0 < all_turns (procs m))%nat /\ out m' = out m /\ procs m' = procs m.
Proof.
  intros [Hr Hp Hu] Ht Hr'. unfold turn in Ht. rewrite Hr in Ht. destruct (procs m !! a) as [[p box]|] eqn:Ha; [|done].
  destruct (Hp a _ Ha) as [Hbox _]. cbn [fst snd] in *. subst box. destruct (all_split _ _ _ Ha) as [_ Hs2]. cbn [fst] in *.
  destruct p as [cur|nx next|]; cbn [forktree] in Ht; try (by injection Ht as <-).
  destruct (c <? 0) eqn:Ec; [|by case_bool_decide; [injection Ht as <-|]]. injection Ht as <-.
  pose proof (tree_pos (DEPTH - length nx) nx). cbn [turns_left] in Hs2. split_and!; try done; lia.
Qed.

(** ** The theorem *)

(** A process that is alive has a turn. *)
Lemma forktree_alive m a st : tree_ok m -> procs m !! a = Some st -> exists c m', turn forktree a c m = Some m'.
Proof.
  intros [Hr Hp _] Ha. destruct st as [p box]. destruct (Hp a _ Ha) as [Hbox _]. cbn in Hbox. subst box.
  unfold turn. rewrite Hr, Ha. destruct p; cbn; [by exists 0; eexists|by exists (-1); eexists|by exists 0; eexists].
Qed.

Lemma forktree_turns l m m' : tree_ok m -> turns forktree l m = Some m' ->
  (length l <= all_turns (procs m))%nat /\
  (out m).*2 ++ all_pending (procs m) ≡ₚ (out m').*2 ++ all_pending (procs m') /\
  (Forall (fun d => 0 <= d.2) l -> tree_ok m').
Proof.
  revert m. induction l as [|[a c] l IH]; intros m Hok Ht; cbn [turns] in Ht.
  { injection Ht as <-. split; [cbn; lia|done]. }
  destruct (turn forktree a c m) as [m1|] eqn:E; [|done]. cbn in Ht. destruct (decide (state m1 = Running)) as [Hr|Hr].
  - destruct (forktree_turn m a c m1 Hok E Hr) as (Hok1 & Hlt & Hp1).
    destruct (IH m1 Hok1 Ht) as (Hle & Hp & Hl). split; [cbn; lia|]. split; [by rewrite Hp1, Hp|].
    intros [_ Hall]%list.Forall_cons. auto.
  - destruct (forktree_panics m a c m1 Hok E Hr) as (Hc & Hs & Hpos & Ho & Hp).
    assert (l = [] /\ m' = m1) as [-> ->].
    { destruct l as [|[b d] l]; cbn in Ht; [by injection Ht as <-|]. unfold turn in Ht. by rewrite Hs in Ht. }
    split; [cbn; lia|]. split; [by rewrite Ho, Hp|]. intros [? _]%list.Forall_cons. cbn in *. lia.
Qed.

(** The strings of at most three binary digits. *)
Definition all_strings : list (list Z) := tree DEPTH [].

Lemma start_all g : all_turns (procs (minit (E := Z * list Z) g umain)) = 44%nat /\
  all_pending (procs (minit (E := Z * list Z) g umain)) ≡ₚ all_strings.
Proof.
  unfold minit. cbn [procs]. rewrite <- insert_empty. split.
  - rewrite all_turns_insert by apply lookup_empty. by vm_compute.
  - rewrite all_pending_insert by apply lookup_empty. by vm_compute.
Qed.

(** C19: however the processes of [forktree.c] interleave, they are done after at
    most 44 calls; no string is printed twice and none but the fifteen strings of
    at most three binary digits; and when no process has a call left and no fork
    has failed, each of them has been printed. *)
Theorem forktree_correct g l m : turns forktree l (minit g umain) = Some m ->
  (length l <= 44)%nat /\ NoDup (out m).*2 /\ (out m).*2 ⊆ all_strings /\
  ((forall a c, turn forktree a c m = None) -> Forall (fun d => 0 <= d.2) l -> (out m).*2 ≡ₚ all_strings).
Proof.
  intros Ht. assert (tree_ok (minit g umain)) as Hok.
  { constructor; [done|..].
    - cbn. intros a st Hst. apply lookup_singleton_Some in Hst as [<- <-]. split; [done|]. cbn. lia.
    - cbn. intros a [y Hy]. apply lookup_singleton_Some in Hy as [<- _]. set_solver. }
  destruct (forktree_turns l _ m Hok Ht) as (Hle & Hp & Hl).
  destruct (start_all g) as [E1 E2]. rewrite E1 in Hle. cbn [minit out fmap list_fmap app] in Hp.
  rewrite E2 in Hp. assert (NoDup all_strings) as Hnd by (apply (bool_decide_unpack _); by vm_compute).
  split; [lia|]. split; [|split].
  - rewrite Hp in Hnd. by apply list.NoDup_app in Hnd as [Hnd _].
  - intros x Hx. rewrite Hp. set_solver.
  - intros Hstuck Hall. pose proof (Hl Hall) as Hok'.
    assert (procs m = ∅) as E0.
    { apply map_empty. intros a. destruct (procs m !! a) as [st|] eqn:Ha; [|done].
      destruct (forktree_alive m a st Hok' Ha) as (c & m' & Hm). by rewrite Hstuck in Hm. }
    rewrite E0 in Hp. unfold all_pending in Hp. rewrite map_to_list_empty in Hp. cbn in Hp. rewrite app_nil_r in Hp. done.
Qed.

(** Everyone takes a turn whenever possible: process [a]'s children are [2a] and [2a + 1]. *)
Fixpoint greedy (fuel : nat) (m : msys point (Z * list Z)) (next : Z) : list (Z * Z) :=
  match fuel, map_to_list (procs m) with
  | S fuel', (a, _) :: _ =>
      match turn forktree a next m with
      | Some m' => (a, next) :: greedy fuel' m' (next + 1)
      | None => []
      end
  | _, _ => []
  end.

Lemma forktree_correct_witness : exists m, turns forktree (greedy 50 (minit 1 umain) 2) (minit 1 umain) = Some m /\
  (out m).*2 ≡ₚ all_strings.
Proof.
  assert (exists m, turns forktree (greedy 50 (minit 1 umain) 2) (minit 1 umain) = Some m /\ procs m = ∅) as (m & Hm & He)
    by (eexists; split; [vm_compute; reflexivity|vm_compute; reflexivity]).
  exists m. split; [exact Hm|]. destruct (forktree_correct 1 _ m Hm) as (_ & _ & _ & H). apply H.
  - intros a c. unfold turn. rewrite He, lookup_empty. by destruct (state m).
  - vm_compute. repeat constructor; discriminate.
Defined.
