(* ===== verification/Pingpong.v ===== *)
(** * The rally of two processes ([user/pingpong.c])

    Parent and child send a counter back and forth until it is 10. *)

From Stdlib Require Import Lia ZArith ZifyClasses ZifyInst ZifyBool.
From stdpp Require Import base gmap list numbers.
From S2P Require Import Prelude Msgs.

Inductive point : Type :=
  | Begin                       (* who = fork() *)
  | Announce (who : Z)          (* cprintf("send 0 from %x to %x\n", ..) *)
  | Serve (who : Z)             (* ipc_send(who, 0, 0, 0) *)
  | Loop                        (* i = ipc_recv(&who, 0, 0) *)
  | Got (i who : Z)             (* cprintf("%x got %d from %x\n", ..) *)
  | Back (i who : Z)            (* ipc_send(who, i, 0, 0) *)
  | Return.

Inductive line : Type :=
  | SendLine (me who : Z)
  | GotLine (me i who : Z).

Definition pingpong (pt : point) : action point line :=
  match pt with
  | Begin => Fork (fun who => if negb (who =? 0) then Announce who else Loop)
  | Announce who => Say (fun me _ => SendLine me who) (Serve who)
  | Serve who => Send who 0 Loop
  | Loop => Recv (fun i who => Got (u32 i) who)
  | Got i who => Say (fun me _ => GotLine me i who) (if i =? 10 then Return else Back (u32 (i + 1)) who)
  | Back i who => Send who i (if i =? 10 then Return else Loop)
  | Return => Exit
  end.

Definition umain : point := Begin.

(** ** The rally *)

(** The counter [i] goes from [from i] to the other one. *)
Definition from (g c i : Z) : Z := if Z.even i then g else c.

Definition got_line (g c i : Z) : line := GotLine (from g c (i + 1)) i (from g c i).

(** What is printed before the counter [n] arrives. *)
Definition rally (g c : Z) (n : Z) : list line := SendLine g c :: (got_line g c <$> seqZ 0 n).

Lemma rally_snoc g c n : 0 <= n -> rally g c (n + 1) = rally g c n ++ [got_line g c n].
Proof. intros H. unfold rally. rewrite seqZ_app by lia. rewrite fmap_app. done. Qed.

Lemma from_ne g c i : g <> c -> from g c i <> from g c (i + 1).
Proof. unfold from. rewrite Z.even_add. by destruct (Z.even i). Qed.

Lemma from_two g c i : from g c (i + 2) = from g c i.
Proof. unfold from. rewrite Z.even_add. by destruct (Z.even i). Qed.

Lemma from_cover g c i a : a = g \/ a = c -> a = from g c i \/ a = from g c (i + 1).
Proof. unfold from. rewrite Z.even_add. destruct (Z.even i); cbn; tauto. Qed.

Abbreviation table := (gmap Z (point * mailbox)).

Definition listens (st : option (point * mailbox)) : Prop := st = Some (Loop, NotReceiving) \/ st = Some (Loop, Waiting).
Definition gone (st : option (point * mailbox)) : Prop := st = Some (Return, NotReceiving) \/ st = None.

(** The sender of [i] afterwards. *)
Definition has_sent (i : Z) (st : option (point * mailbox)) : Prop := if i =? 10 then gone st else listens st.

(** The stages of the rally, with what has been printed. *)
Inductive stage (g c : Z) (M : table) : list line -> Prop :=
  | StAnnounce : M !! g = Some (Announce c, NotReceiving) -> listens (M !! c) -> stage g c M []
  | StServe : M !! g = Some (Serve c, NotReceiving) -> listens (M !! c) -> stage g c M (rally g c 0)
  | StBack i : 1 <= i <= 10 -> M !! from g c i = Some (Back i (from g c (i + 1)), NotReceiving) ->
      listens (M !! from g c (i + 1)) -> stage g c M (rally g c i)
  | StSent i : 0 <= i <= 10 -> has_sent i (M !! from g c i) ->
      M !! from g c (i + 1) = Some (Loop, Arrived i (from g c i)) -> stage g c M (rally g c i)
  | StGot i : 0 <= i <= 10 -> has_sent i (M !! from g c i) ->
      M !! from g c (i + 1) = Some (Got i (from g c i), NotReceiving) -> stage g c M (rally g c i)
  | StOver : gone (M !! g) -> gone (M !! c) -> stage g c M (rally g c 11).

Definition only_two (g c : Z) (M : table) : Prop := forall a, is_Some (M !! a) -> a = g \/ a = c.

Definition printed (m : msys point line) : list line := reverse (out m).

(** The state after the fork. *)
Record rallying (g c : Z) (m : msys point line) : Prop := {
  ra_ne : g <> c;
  ra_two : only_two g c (procs m);
  ra_stage : stage g c (procs m) (printed m)
}.

Lemma only_two_insert g c M a st : only_two g c M -> a = g \/ a = c -> only_two g c (<[a := st]> M).
Proof. intros H Ha x [y [[<- _]|[_ Hx]]%lookup_insert_Some]; [done|]. by apply H; eexists. Qed.

Lemma only_two_delete g c M a : only_two g c M -> only_two g c (delete a M).
Proof. intros H x [y [_ Hx]%lookup_delete_Some]. by apply H; eexists. Qed.

Lemma from_is g c i : from g c i = g \/ from g c i = c.
Proof. unfold from. destruct (Z.even i); auto. Qed.

(** A process that waits, or is done, takes a turn. *)
Lemma quiet_turn (m m' : msys point line) a x : state m = Running -> turn pingpong a x m = Some m' ->
  (forall b, b <> a -> procs m' !! b = procs m !! b) /\ state m' = Running /\ out m' = out m \/
  ~ listens (procs m !! a) /\ ~ gone (procs m !! a).
Proof.
  intros Hs Ht. unfold turn in Ht. rewrite Hs in Ht.
  destruct (procs m !! a) as [[[] []]|] eqn:Ha; try done; cbn in Ht;
    try (right; split; intros [?|?]; discriminate); injection Ht as <-; left; cbn;
    (split; [|done]); intros b Hb; [by rewrite lookup_insert_ne|by rewrite lookup_delete_ne].
Qed.

Lemma listens_turn (m m' : msys point line) a x : state m = Running -> turn pingpong a x m = Some m' ->
  listens (procs m !! a) -> listens (procs m' !! a).
Proof.
  intros Hs Ht Hl. unfold turn in Ht. rewrite Hs in Ht. destruct Hl as [Ha|Ha]; rewrite Ha in Ht; cbn in Ht; [|done].
  injection Ht as <-. cbn. rewrite lookup_insert_eq. by right.
Qed.

Lemma gone_turn (m m' : msys point line) a x : state m = Running -> turn pingpong a x m = Some m' ->
  gone (procs m !! a) -> gone (procs m' !! a).
Proof.
  intros Hs Ht Hl. unfold turn in Ht. rewrite Hs in Ht. destruct Hl as [Ha|Ha]; rewrite Ha in Ht; cbn in Ht; [|done].
  injection Ht as <-. cbn. rewrite lookup_delete_eq. by right.
Qed.

Lemma has_sent_turn (m m' : msys point line) a x i : state m = Running -> turn pingpong a x m = Some m' ->
  has_sent i (procs m !! a) -> has_sent i (procs m' !! a).
Proof. unfold has_sent. destruct (i =? 10); [apply gone_turn|apply listens_turn]. Qed.

Lemma has_sent_quiet i st : has_sent i st -> listens st \/ gone st.
Proof. unfold has_sent. destruct (i =? 10); auto. Qed.

(** The stage after the turn of a process that waits or is done. *)
Lemma stage_quiet g c (m m' : msys point line) a x : rallying g c m -> state m = Running -> turn pingpong a x m = Some m' ->
  listens (procs m !! a) \/ gone (procs m !! a) -> rallying g c m' /\ state m' = Running.
Proof.
  intros [Hne H2 Hst] Hs Ht Hq. destruct (quiet_turn m m' a x Hs Ht) as [(Hb & Hs' & Ho)|[? ?]]; [|by destruct Hq].
  assert (is_Some (procs m !! a)) as Hsa.
  { unfold turn in Ht. rewrite Hs in Ht. destruct (procs m !! a); [by eexists|done]. }
  split; [|done]. constructor; [done|..].
  { intros b Hsb. destruct (decide (b = a)) as [->|Hba]; [by apply H2|]. apply H2. by rewrite <- Hb. }
  assert (forall b st, procs m !! b = Some st -> st <> (Loop, NotReceiving) -> st <> (Loop, Waiting) -> st <> (Return, NotReceiving) ->
    procs m' !! b = Some st) as Hact.
  { intros b st Hbst N1 N2 N3. rewrite Hb; [done|]. intros ->. rewrite Hbst in Hq.
    destruct Hq as [[[= ->]|[= ->]]|[[= ->]|?]]; done. }
  assert (forall b, listens (procs m !! b) -> listens (procs m' !! b)) as Hli.
  { intros b Hl. destruct (decide (b = a)) as [->|]; [exact (listens_turn m m' a x Hs Ht Hl)|by rewrite Hb]. }
  assert (forall b, gone (procs m !! b) -> gone (procs m' !! b)) as Hgo.
  { intros b Hl. destruct (decide (b = a)) as [->|]; [exact (gone_turn m m' a x Hs Ht Hl)|by rewrite Hb]. }
  assert (forall b i, has_sent i (procs m !! b) -> has_sent i (procs m' !! b)) as Hhs.
  { intros b i. unfold has_sent. destruct (i =? 10); [apply Hgo|apply Hli]. }
  unfold printed in *. rewrite Ho.
  destruct Hst as [H H'|H H'|i Hi H H'|i Hi H H'|i Hi H H'|H H'].
  - apply StAnnounce; [by apply Hact|by apply Hli].
  - apply StServe; [by apply Hact|by apply Hli].
  - apply StBack; [done|by apply Hact|by apply Hli].
  - apply StSent; [done|by apply Hhs|by apply Hact].
  - apply StGot; [done|by apply Hhs|by apply Hact].
  - apply StOver; by apply Hgo.
Qed.

(** The ball is on its way. *)
Lemma stage_send g c M i k : g <> c -> 0 <= i <= 10 -> listens (M !! from g c (i + 1)) ->
  k = (if i =? 10 then Return else Loop) -> M !! from g c (i + 1) = Some (Loop, Waiting) ->
  stage g c (<[from g c (i + 1) := (Loop, Arrived i (from g c i))]> (<[from g c i := (k, NotReceiving)]> M)) (rally g c i).
Proof.
  intros Hne Hi Hl -> Hw. pose proof (from_ne g c i Hne). apply StSent; [done| |by rewrite lookup_insert_eq].
  rewrite lookup_insert_ne, lookup_insert_eq by done. unfold has_sent. destruct (i =? 10); by left.
Qed.

Lemma printed_say M u (l : line) (m : msys point line) st : printed (mkMsys M u (l :: out m) st) = printed m ++ [l].
Proof. unfold printed. cbn [out]. by rewrite reverse_cons. Qed.

Lemma rallying_turn g c (m m' : msys point line) a x : rallying g c m -> state m = Running -> turn pingpong a x m = Some m' ->
  rallying g c m' /\ state m' = Running.
Proof.
  intros Hr Hs Ht. pose proof Hr as [Hne H2 Hst]. pose proof (stage_quiet g c m m' a x Hr Hs Ht) as Hquiet.
  assert (is_Some (procs m !! a)) as Hsa.
  { unfold turn in Ht. rewrite Hs in Ht. destruct (procs m !! a); [by eexists|done]. }
  pose proof (H2 a Hsa) as Ha. unfold turn in Ht. rewrite Hs in Ht. revert Ht.
  remember (printed m) as log eqn:El. destruct Hst as [H H'|H H'|i Hi H H'|i Hi H H'|i Hi H H'|H H'].
  - destruct Ha as [-> | ->]; [|by auto]. rewrite H. cbn. intros [= <-]. split; [|done].
    constructor; [done|by apply only_two_insert; [|left]|]. rewrite printed_say, <- El.
    apply StServe; cbn; [by rewrite lookup_insert_eq|by rewrite lookup_insert_ne].
  - destruct Ha as [-> | ->]; [|by auto]. rewrite H. cbn. destruct H' as [H'|H']; rewrite H'.
    + intros [= <-]. split; [|done]. constructor; [done|done|]. rewrite <- El. apply StServe; [done|by left].
    + intros [= <-]. split; [|done]. constructor; [done|by apply only_two_insert; [apply only_two_insert; [|left]|right]|].
      change (printed _) with (printed m). rewrite <- El. apply (stage_send g c _ 0 Loop); [done|lia|by right|done|done].
  - destruct (from_cover g c i a Ha) as [-> | ->]; [|by auto]. rewrite H. cbn. destruct H' as [H'|H']; rewrite H'.
    + intros [= <-]. split; [|done]. constructor; [done|done|]. rewrite <- El. apply StBack; [done|done|by left].
    + intros [= <-]. split; [|done].
      constructor; [done|by apply only_two_insert; [apply only_two_insert; [|apply from_is]|apply from_is]|].
      change (printed _) with (printed m). rewrite <- El. apply stage_send; [done|lia|by right|done|done].
  - destruct (from_cover g c i a Ha) as [-> | ->]; [by pose proof (has_sent_quiet _ _ H); auto|]. rewrite H'. cbn.
    intros [= <-]. split; [|done]. constructor; [done|by apply only_two_insert; [|apply from_is]|].
    change (printed _) with (printed m). rewrite <- El. pose proof (from_ne g c i Hne).
    apply StGot; cbn; [done|by rewrite lookup_insert_ne|by rewrite lookup_insert_eq, u32_id by lia].
  - destruct (from_cover g c i a Ha) as [-> | ->]; [by pose proof (has_sent_quiet _ _ H); auto|]. rewrite H'. cbn.
    intros [= <-]. split; [|done]. constructor; [done|by apply only_two_insert; [|apply from_is]|].
    rewrite printed_say, <- El. change (GotLine _ _ _) with (got_line g c i). rewrite <- rally_snoc by lia.
    pose proof (from_ne g c i Hne) as Hn. pose proof (from_two g c i) as Htwo. replace (i + 2) with (i + 1 + 1) in Htwo by lia.
    cbn [procs]. unfold has_sent in H. destruct (Z.eqb_spec i 10) as [->|Hi10].
    + change (10 + 1) with 11 in *. change (from g c 10) with g in *. change (from g c 11) with c in *.
      apply StOver; [by rewrite lookup_insert_ne|rewrite lookup_insert_eq; by left].
    + apply StBack; [lia| |]; rewrite Htwo; [|by rewrite lookup_insert_ne].
      by rewrite lookup_insert_eq, u32_id by lia.
  - destruct Ha as [-> | ->]; intros _; apply Hquiet; by right.
Qed.

(** ** The theorem *)

Definition game (g : Z) (m : msys point line) : Prop :=
  (exists c, printed m `prefix_of` rally g c 11) /\
  (state m = Running ->
    (procs m = {[ g := (Begin, NotReceiving) ]} /\ used m = {[ g ]} /\ out m = []) \/
    (exists c, rallying g c m)).

Lemma stage_prefix g c M log : stage g c M log -> log `prefix_of` rally g c 11.
Proof.
  assert (forall i, 0 <= i <= 11 -> rally g c i `prefix_of` rally g c 11) as H.
  { intros i Hi. unfold rally. apply prefix_cons. replace 11 with (i + (11 - i)) by lia.
    rewrite seqZ_app by lia. rewrite fmap_app. by apply prefix_app_r. }
  destruct 1; try (apply H; lia). apply prefix_nil.
Qed.

Lemma game_turn g (m m' : msys point line) a x : game g m -> turn pingpong a x m = Some m' -> game g m'.
Proof.
  intros [[c0 Hpre] HR] Ht.
  assert (state m = Running) as Hs by (unfold turn in Ht; by destruct (state m)).
  destruct (HR Hs) as [(Hp & Hu & Ho)|(c & Hr)].
  2:{ destruct (rallying_turn g c m m' a x Hr Hs Ht) as [Hr' _]. split; [|by right; exists c].
      exists c. eapply stage_prefix, Hr'. }
  unfold turn in Ht. rewrite Hs, Hp in Ht. destruct (decide (a = g)) as [->|Hag];
    [rewrite lookup_singleton_eq in Ht|by rewrite lookup_singleton_ne in Ht]. cbn in Ht.
  assert (x <> 0 -> negb (x =? 0) = true) as Hx0 by lia.
  destruct (x <? 0) eqn:Ex; [injection Ht as <-; split; [exists c0; unfold printed; cbn; rewrite Ho; apply prefix_nil|done]|].
  case_bool_decide as Hx; [|done]. injection Ht as <-. rewrite Hx0 by lia.
  split; [exists c0; unfold printed; cbn; rewrite Ho; apply prefix_nil|]. intros _. right. exists x.
  assert (g <> x) as Hgx by (intros ->; rewrite Hu in Hx; set_solver).
  constructor; [done|..].
  - cbn. apply only_two_insert; [|by right]. apply only_two_insert; [|by left].
    intros b [y Hy]. apply lookup_singleton_Some in Hy as [<- _]. by left.
  - unfold printed. cbn. rewrite Ho. apply StAnnounce; [by rewrite lookup_insert_ne, lookup_insert_eq by done|].
    rewrite lookup_insert_eq. by left.
Qed.

(** However the two processes of [pingpong.c] interleave, they print the rally:
    the announcement, then the counters 0 to 10 arriving at child and parent in
    turn, each from the other one, and nothing else; a prefix of it at any time. *)
Theorem pingpong_correct g m : rtc (mstep pingpong) (minit g umain) m ->
  exists c, reverse (out m) `prefix_of` SendLine g c ::
    ((fun i => if Z.even i then GotLine c i g else GotLine g i c) <$> seqZ 0 11).
Proof.
  intros Hr. destruct (msys_invariant pingpong (game g) (minit g umain) m) as [[c Hc] _];
    [|intros; by eapply game_turn|done|].
  - split; [exists 0; apply prefix_nil|]. intros _. by left.
  - exists c. exact Hc.
Qed.

(** The whole rally: a process goes on until it waits. *)
Definition demo_turns : list (Z * Z) :=
  (1, 2) :: ((fun a => (a, 0)) <$> [2; 1; 1; 1] ++ concat (replicate 5 [2; 2; 2; 2; 1; 1; 1; 1]) ++ [2; 2]).

Lemma pingpong_correct_witness : exists m, turns pingpong demo_turns (minit 1 umain) = Some m /\
  (length (out m) = 12)%nat /\ exists c, reverse (out m) `prefix_of` SendLine 1 c ::
    ((fun i => if Z.even i then GotLine c i 1 else GotLine 1 i c) <$> seqZ 0 11).
Proof.
  assert (exists m, turns pingpong demo_turns (minit 1 umain) = Some m /\ length (out m) = 12%nat) as (m & Hm & Hl)
    by (eexists; split; [vm_compute; reflexivity|vm_compute; reflexivity]).
  exists m. split; [exact Hm|]. split; [exact Hl|].
  exact (pingpong_correct 1 m (turns_steps _ _ _ _ Hm)).
Defined.
