(* ===== verification/Spin.v ===== *)
(** * A child that spins ([user/spin.c])

    The parent forks a child that never makes a call again, gives up the CPU eight
    times and destroys it. *)

From Stdlib Require Import Lia ZArith ZifyClasses ZifyInst ZifyBool.
From stdpp Require Import base gmap list numbers.
From S2P Require Import Prelude Msgs.

(** The calls of [umain]; [env] is the child's id. *)
Inductive point : Type :=
  | Start                             (* cprintf("I am the parent.  Forking ..") *)
  | Forking                           (* env = fork() *)
  | Child                             (* cprintf("I am the child. ..") *)
  | Spinning                          (* while (1): a turn has no effect *)
  | RunChild (env : Z)                (* cprintf("I am the parent.  Running ..") *)
  | Yielding (n : nat) (env : Z)      (* the last [n + 1] calls of sys_yield *)
  | KillChild (env : Z)               (* cprintf("I am the parent.  Killing ..") *)
  | Destroying (env : Z)              (* sys_env_destroy(env) *)
  | Return.

Inductive line : Type := ForkingTheChild | SpinningLine | RunningTheChild | KillingTheChild.

Definition spin (pt : point) : action point (Z * line) :=
  match pt with
  | Start => Say (fun me _ => (me, ForkingTheChild)) Forking
  | Forking => Fork (fun env => if env =? 0 then Child else RunChild env)
  | Child => Say (fun me _ => (me, SpinningLine)) Spinning
  | Spinning => Yield Spinning
  | RunChild env => Say (fun me _ => (me, RunningTheChild)) (Yielding 7 env)
  | Yielding n env => Yield (match n with O => KillChild env | S n' => Yielding n' env end)
  | KillChild env => Say (fun me _ => (me, KillingTheChild)) (Destroying env)
  | Destroying env => Destroy env Return
  | Return => Exit
  end.

Definition umain : point := Start.

(** ** How far the parent is *)

(** The calls it has left, and the child it knows. *)
Definition calls_left (pt : point) : option nat :=
  match pt with
  | Start => Some 14 | Forking => Some 13 | RunChild _ => Some 12
  | Yielding n _ => if bool_decide (n < 8)%nat then Some (4 + n) else None
  | KillChild _ => Some 3 | Destroying _ => Some 2 | Return => Some 1
  | Child | Spinning => None
  end%nat.

Definition child_of (pt : point) : option Z :=
  match pt with RunChild env | Yielding _ env | KillChild env | Destroying env => Some env | _ => None end.

Definition lines_left (pt : point) : list line :=
  match pt with
  | Start => [ForkingTheChild; RunningTheChild; KillingTheChild]
  | Forking | RunChild _ => [RunningTheChild; KillingTheChild]
  | Yielding _ _ | KillChild _ => [KillingTheChild]
  | _ => []
  end.

Definition all_lines : list line := lines_left Start.

(** What [g] has printed, the first first. *)
Definition said (g : Z) (m : msys point (Z * line)) : list line := (base.filter (fun e => e.1 = g) (reverse (out m))).*2.

Definition child_point (st : point * mailbox) : Prop := st = (Child, NotReceiving) \/ st = (Spinning, NotReceiving).

(** The parent with [n] calls left; the only other process is its child. *)
Inductive parent_has (g : Z) (m : msys point (Z * line)) : nat -> Prop :=
  | PhDone : procs m = ∅ -> said g m = all_lines -> parent_has g m 0
  | PhAt pt n : procs m !! g = Some (pt, NotReceiving) -> calls_left pt = Some n ->
      (forall a st, procs m !! a = Some st -> a <> g -> child_point st /\ child_of pt = Some a) ->
      (forall c, child_of pt = Some c -> c <> g) -> said g m ++ lines_left pt = all_lines -> parent_has g m n.

Lemma said_say g M u a l (m : msys point (Z * line)) st :
  said g (mkMsys M u ((a, l) :: out m) st) = said g m ++ (if decide (a = g) then [l] else []).
Proof.
  unfold said. cbn [out]. rewrite reverse_cons, list.filter_app, fmap_app. f_equal.
  case_decide as H; [by rewrite list.filter_cons_True|by rewrite list.filter_cons_False].
Qed.

Record spin_ok (g : Z) (m : msys point (Z * line)) (n : nat) : Prop := {
  so_running : state m = Running;
  so_used : g ∈ used m;
  so_parent : parent_has g m n
}.

Section Moves.
Context (g : Z) (m : msys point (Z * line)) (pt : point).
Context (Hu : g ∈ used m)
  (Hoth : forall a st, procs m !! a = Some st -> a <> g -> child_point st /\ child_of pt = Some a).

(** The parent goes on to [pt'], printing what takes [out m] to [o]. *)
Lemma parent_moves pt' n o : calls_left pt' = Some n ->
  (forall c, child_of pt = Some c -> child_of pt' = Some c) -> (forall c, child_of pt' = Some c -> c <> g) ->
  said g (mkMsys (procs m) (used m) o Running) ++ lines_left pt' = all_lines ->
  spin_ok g (mkMsys (<[g := (pt', NotReceiving)]> (procs m)) (used m) o Running) n.
Proof.
  intros Hn Hc Hne Hsaid. split; [done|done|]. apply (PhAt _ _ pt' n); cbn; [by rewrite lookup_insert_eq|done| |done|done].
  intros a st [[? _]|[_ Ha]]%lookup_insert_Some Hag; [done|]. destruct (Hoth a st Ha Hag). by auto.
Qed.

(** The child [a] goes on to [st], printing nothing as [g]. *)
Lemma child_moves n a st o : procs m !! g = Some (pt, NotReceiving) -> calls_left pt = Some n ->
  (forall c, child_of pt = Some c -> c <> g) -> is_Some (procs m !! a) -> a <> g -> child_point st ->
  said g (mkMsys (procs m) (used m) o Running) ++ lines_left pt = all_lines ->
  spin_ok g (mkMsys (<[a := st]> (procs m)) (used m) o Running) n.
Proof.
  intros Hpg Hn Hne [u Ha] Hag Hst Hsaid. split; [done|done|]. apply (PhAt _ _ pt n); cbn;
    [by rewrite lookup_insert_ne|done| |done|done].
  intros x sx [[<- <-]|[_ Hx]]%lookup_insert_Some Hxg; [|by apply Hoth]. split; [done|]. by apply (Hoth a u).
Qed.
End Moves.

Lemma said_procs g M u (m : msys point (Z * line)) st : said g (mkMsys M u (out m) st) = said g m.
Proof. done. Qed.

(** [fork] makes the child. *)
Lemma spin_forks g (m : msys point (Z * line)) c : g ∈ used m -> c ∉ used m ->
  (forall a st, procs m !! a = Some st -> a <> g -> False) -> said g m ++ lines_left Forking = all_lines ->
  spin_ok g (mkMsys (<[c := (Child, NotReceiving)]> (<[g := (RunChild c, NotReceiving)]> (procs m))) ({[c]} ∪ used m) (out m) Running) 12.
Proof.
  intros Hu Hc Hoth Hsaid. assert (c <> g) as Hcg by (by intros ->).
  split; [done|cbn; set_solver|]. apply (PhAt _ _ (RunChild c) 12); cbn; [|done| |by intros x [= <-]|done].
  { by rewrite lookup_insert_ne, lookup_insert_eq by done. }
  intros a st [[<- <-]|[_ [[? _]|[_ Ha]]%lookup_insert_Some]]%lookup_insert_Some Hag; [by split; [left|]|done|].
  by destruct (Hoth a st).
Qed.

(** [sys_env_destroy] leaves the parent alone. *)
Lemma destroy_moves g (m : msys point (Z * line)) c : g ∈ used m -> c <> g ->
  (forall a st, procs m !! a = Some st -> a <> g -> child_of (Destroying c) = Some a) -> said g m = all_lines ->
  spin_ok g (mkMsys (delete c (<[g := (Return, NotReceiving)]> (procs m))) (used m) (out m) Running) 1.
Proof.
  intros Hu Hcg Hoth Hsaid. split; [done|done|]. apply (PhAt _ _ Return 1); cbn; [|done| |done|by rewrite app_nil_r].
  { by rewrite lookup_delete_ne, lookup_insert_eq by done. }
  intros a st [Hca [[? _]|[_ Ha]]%lookup_insert_Some]%lookup_delete_Some Hag; [done|].
  pose proof (Hoth a st Ha Hag) as [= ?]. done.
Qed.

(** A turn of the parent is one call; a turn of the child costs nothing.  A [fork] that
    fails panics. *)
Lemma spin_turn g (m m' : msys point (Z * line)) a c n : 0 <= g -> spin_ok g m n -> turn spin a c m = Some m' ->
  if decide (a = g) then exists n', n = S n' /\ (state m' = Panicked \/ spin_ok g m' n') else spin_ok g m' n.
Proof.
  intros Hg [Hs Hu Hp] Ht. unfold turn in Ht. rewrite Hs in Ht.
  destruct Hp as [Hp _|pt n Hpg Hn Hoth Hne Hsaid]; [by rewrite Hp, lookup_empty in Ht|].
  destruct (decide (a = g)) as [->|Hag].
  - rewrite Hpg in Ht. destruct pt as [| | | |env|k env|env|env|]; try done; cbn in Ht, Hn.
    + injection Ht as <-. injection Hn as <-. eexists; split; [done|]. right. eapply parent_moves; try done.
      rewrite said_say, decide_True by done. rewrite <- app_assoc. exact Hsaid.
    + injection Hn as <-. eexists; split; [done|]. destruct (c <? 0) eqn:Ec; [left; by injection Ht as <-|right]. assert (forall x st, procs m !! x = Some st -> x <> g -> False) as Hno
        by (intros x st Hx Hxg; by destruct (Hoth x st Hx Hxg)).
      case_bool_decide as Hcu; [|done]. injection Ht as <-. rewrite (proj2 (Z.eqb_neq c 0)) by lia.
      destruct Hcu. by apply spin_forks.
    + injection Ht as <-. injection Hn as <-. eexists; split; [done|]. right. eapply parent_moves; try done.
      rewrite said_say, decide_True by done. rewrite <- app_assoc. exact Hsaid.
    + case_bool_decide as Hk; [|done]. injection Ht as <-. injection Hn as <-. eexists; split; [done|].
      right. destruct k; eapply parent_moves; try done. cbn. rewrite bool_decide_true by lia. done.
    + injection Ht as <-. injection Hn as <-. eexists; split; [done|]. right. eapply parent_moves; try done.
      rewrite said_say, decide_True by done. rewrite <- app_assoc. exact Hsaid.
    + injection Ht as <-. injection Hn as <-. eexists; split; [done|]. right. apply destroy_moves; [done|by apply Hne| |by rewrite app_nil_r in Hsaid].
      intros x st Hx Hxg. by apply (Hoth x st).
    + injection Ht as <-. injection Hn as <-. eexists; split; [done|]. right. split; [done|done|].
      apply PhDone; [|by rewrite app_nil_r in Hsaid]. cbn. apply map_empty. intros x.
      apply lookup_delete_None. destruct (decide (g = x)) as [|Hx]; [by left|right].
      destruct (procs m !! x) as [st|] eqn:E; [|done]. by destruct (Hoth x st E ltac:(done)).
  - destruct (procs m !! a) as [st|] eqn:Ha; [|done]. destruct (Hoth a st Ha Hag) as [[-> | ->] _]; cbn in Ht; injection Ht as <-;
      (eapply child_moves; [done|done|exact Hpg|done|done|by eexists|done|by right|]); [|exact Hsaid].
    by rewrite said_say, decide_False, app_nil_r by done.
Qed.

(** The turns of [g] in a run. *)
Definition turns_of (g : Z) (l : list (Z * Z)) : nat := length (base.filter (fun d => d.1 = g) l).

Lemma turns_of_cons g a c l : turns_of g ((a, c) :: l) = ((if decide (a = g) then 1 else 0) + turns_of g l)%nat.
Proof. unfold turns_of. case_decide; [by rewrite list.filter_cons_True|by rewrite list.filter_cons_False]. Qed.

Lemma spin_turns g l (m m' : msys point (Z * line)) n : 0 <= g -> spin_ok g m n -> turns spin l m = Some m' ->
  exists n', (n = turns_of g l + n')%nat /\ (state m' = Panicked \/ spin_ok g m' n').
Proof.
  intros Hg. revert m n. induction l as [|[a c] l IH]; intros m n Hok; cbn [turns]; [intros [= ->]; exists n; by auto|].
  destruct (turn spin a c m) as [m1|] eqn:Et; [|done]. cbn. intros Hl.
  pose proof (spin_turn g m m1 a c n Hg Hok Et) as H1. setoid_rewrite turns_of_cons. case_decide as Ha.
  - destruct H1 as (n1 & -> & [Hpan|H1]); [|destruct (IH m1 n1 H1 Hl) as (n' & -> & H'); by exists n'].
    assert (l = [] /\ m' = m1) as [-> ->].
    { destruct l as [|[b d] l]; cbn in Hl; [by injection Hl as <-|]. unfold turn in Hl. by rewrite Hpan in Hl. }
    exists n1. split; [done|by left].
  - destruct (IH m1 n H1 Hl) as (n' & -> & H'). by exists n'.
Qed.

(** The parent never waits. *)
Lemma parent_ready g (m : msys point (Z * line)) n : spin_ok g m (S n) -> exists c, is_Some (turn spin g c m).
Proof.
  intros [Hs Hu Hp]. inversion Hp as [|pt k Hpg Hn _ _ _]; subst. exists (-1). unfold turn. rewrite Hs, Hpg.
  by destruct pt.
Qed.

(** In [spin.c], if the fork does not fail, the child that never makes a call does not keep the parent from
    its own: however often the child runs in between, the parent has a turn until
    it has made its fourteen calls; then it has printed its three lines, in order,
    and no process is left. *)
Theorem spin_correct g l m : 0 <= g -> turns spin l (minit g umain) = Some m ->
  (turns_of g l <= 14)%nat /\
  (state m = Panicked \/ if decide (turns_of g l = 14%nat) then procs m = ∅ /\ said g m = [ForkingTheChild; RunningTheChild; KillingTheChild]
  else exists c, is_Some (turn spin g c m)).
Proof.
  intros Hg Hl. destruct (spin_turns g l (minit g umain) m 14 Hg) as (n & Hn & Hok); [|done|].
  - split; [done|cbn; set_solver|]. apply (PhAt _ _ Start 14); cbn; [by rewrite lookup_singleton_eq|done| |done|done].
    intros a st Ha Hag. by rewrite lookup_singleton_ne in Ha.
  - split; [lia|]. destruct Hok as [?|Hok]; [by left|right]. destruct n as [|n].
    + rewrite decide_True by lia. destruct Hok as [_ _ Hp]. inversion Hp as [|pt k _ Hc _ _ _]; subst; [done|].
      destruct pt; try done. cbn in Hc. by case_bool_decide.
    + rewrite decide_False by lia. by eapply parent_ready.
Qed.

(** The child runs between the calls of the parent. *)
Definition demo_turns : list (Z * Z) :=
  [(1, 0); (1, 2)] ++ concat (replicate 11 [(2, 0); (1, 0)]) ++ [(1, 0)].

Lemma spin_correct_witness : exists m, turns spin demo_turns (minit 1 umain) = Some m /\ turns_of 1 demo_turns = 14%nat /\
  procs m = ∅ /\ said 1 m = [ForkingTheChild; RunningTheChild; KillingTheChild].
Proof.
  assert (exists m, turns spin demo_turns (minit 1 umain) = Some m) as (m & Hm) by (eexists; vm_compute; reflexivity).
  exists m. split; [exact Hm|]. assert (turns_of 1 demo_turns = 14%nat) as Hn by (vm_compute; reflexivity).
  split; [exact Hn|]. destruct (spin_correct 1 demo_turns m ltac:(lia) Hm) as [_ [Hp|H]]; [|by rewrite decide_True in H].
  vm_compute in Hm. injection Hm as <-. discriminate Hp.
Defined.
