(* ===== verification/Entry.v ===== *)
(** * The page tables the kernel starts on ([kern/entrypgdir.c])

    [entry.S] and [mpentry.S] load them before any C code runs, and they are in
    force until [mem_init] or [mp_main] loads [kern_pgdir]. *)

From Stdlib Require Import Lia ZArith ZifyClasses ZifyInst ZifyBool.
From stdpp Require Import base gmap list strings numbers.
From S2P Require Import Prelude Cmonad Mmu Printfmt Console State Spinlock Umem Pmap PageList Vm VmInv PmapLem VmLem.

(** The two static arrays, as the words of a page; [pa] is the physical address of
    [entry_pgtable]. *)
Definition entry_pgdir (pa : Z) : gmap Z Z :=
  <[0 := u32 (pa + PTE_P)]> (<[Z.shiftr KERNBASE PDXSHIFT := u32 (pa + PTE_P + PTE_W)]> ∅).

Definition entry_pgtable : gmap Z Z :=
  map_seqZ 0 ((fun i => Z.lor (Z.lor (i * 0x1000) PTE_P) PTE_W) <$> seqZ 0 NPTENTRIES).

(** The state a processor is in: the directory in frame [d], the table in [t]. *)
Record on_entry_tables (s : kstate) (d t : Z) : Prop := {
  et_cr3 : cr3 s = d * 4096;
  et_dir i : word (pmem s) d i = default 0 (entry_pgdir (t * 4096) !! i);
  et_table i : word (pmem s) t i = default 0 (entry_pgtable !! i);
  et_range : 0 <= t < 2 ^ 20
}.

Lemma lor_low_page i : 0 <= i -> Z.lor (Z.lor (i * 0x1000) PTE_P) PTE_W = i * 4096 + 3.
Proof. intros Hi. rewrite <- Z.lor_assoc. change 0x1000 with (2 ^ 12). apply lor_shift_add; lia. Qed.

Lemma entry_pgtable_lookup i : 0 <= i < 1024 -> entry_pgtable !! i = Some (i * 4096 + 3).
Proof.
  intros Hi. unfold entry_pgtable. rewrite lookup_map_seqZ, option_guard_True, Z.sub_0_r by lia.
  rewrite list_lookup_fmap, lookup_seqZ_lt by (change NPTENTRIES with 1024; lia). cbn. f_equal.
  rewrite Z2Nat.id by lia. apply lor_low_page. lia.
Qed.

Lemma low_flags p x : 0 <= p < 2 ^ 20 -> 0 <= x < 4096 ->
  PTE_ADDR (p * 4096 + x) / PGSIZE = p /\ forall n, 0 <= n < 12 -> tst (p * 4096 + x) (2 ^ n) = Z.testbit x n.
Proof.
  intros Hp Hx. change (2 ^ 20) with 1048576 in Hp. split.
  - rewrite PTE_ADDR_fr by (change (2 ^ 32) with 4294967296; lia). unfold fr. change PGSIZE with 4096. zlia.
  - intros n Hn. rewrite tst_pow2 by lia. rewrite <- (Z.mod_pow2_bits_low (p * 4096 + x) 12) by lia.
    change (2 ^ 12) with 4096. f_equal. rewrite Z.add_comm, Z.mod_add, Z.mod_small by lia. done.
Qed.

(** C40: what the processor translates an address to while it is on these tables:
    the first 4 MB are mapped to themselves, to be read only, since the directory's
    entry does not allow writing; the 4 MB above [KERNBASE] are mapped to the first 4 MB,
    to be read and written; nothing else is mapped. *)
Theorem entry_tables_correct s d t va write : on_entry_tables s d t -> 0 <= va < 2 ^ 32 ->
  mmu_translate s va write =
    if decide (va < 4194304) then (if (write : bool) then None else Some va)
    else if decide (KERNBASE <= va < KERNBASE + 4194304) then Some (va - KERNBASE)
    else None.
Proof.
  intros [Hc Hd Ht Hr] Hva. unfold mmu_translate. rewrite Hc. change PGSIZE with 4096. rewrite Z.div_mul, Hd by lia.
  change (2 ^ 32) with 4294967296 in *. change (2 ^ 20) with 1048576 in *.
  assert (PDX va = va / 4194304) as HD by (apply PDX_div; lia).
  assert (PTX va = va / 4096 mod 1024) as HT by (rewrite PTX_div by lia; zlia).
  assert (0 <= PTX va < 1024) as HTr by (rewrite HT; apply Z.mod_pos_bound; lia).
  unfold entry_pgdir. change (Z.shiftr KERNBASE PDXSHIFT) with 960.
  destruct (low_flags t 1) as [Ha1 Hf1]; [done..|]. destruct (low_flags t 3) as [Ha3 Hf3]; [done..|].
  destruct (low_flags (PTX va) 3) as [_ Hf]; [change (2 ^ 20) with 1048576; lia|done|].
  assert (forall p, 0 <= p < 1024 -> PTE_ADDR (p * 4096 + 3) = p * 4096) as Hpa.
  { intros p Hp. rewrite PTE_ADDR_fr by (change (2 ^ 32) with 4294967296; lia). unfold fr. zlia. }
  change PGSIZE with 4096 in *. change PTE_P with (2 ^ 0) in *. change PTE_W with (2 ^ 1) in *.
  rewrite PGOFF_mod by (change (2 ^ 32) with 4294967296; lia).
  rewrite !u32_id by (change (2 ^ 32) with 4294967296; lia).
  replace (t * 4096 + 2 ^ 0 + 2 ^ 1) with (t * 4096 + 3) by lia. change (t * 4096 + 2 ^ 0) with (t * 4096 + 1).
  destruct (decide (va < 4194304)) as [Hlo|Hlo]; [|destruct (decide (KERNBASE <= va < KERNBASE + 4194304)) as [Hhi|Hhi]].
  - assert (PDX va = 0) as -> by zlia. rewrite lookup_insert_eq. cbn [default from_option id].
    rewrite Ha1, Ht, entry_pgtable_lookup by done. cbn [default from_option id].
    rewrite Hf1, Hf1, Hf, Hf by lia. change (Z.testbit 1 0) with true. change (Z.testbit 1 1) with false.
    change (Z.testbit 3 0) with true. cbn [andb]. destruct write; cbn [negb orb]; [done|]. f_equal. rewrite Hpa by done. zlia.
  - assert (PDX va = 960) as -> by zlia. rewrite lookup_insert_ne, lookup_insert_eq by done. cbn [default from_option id].
    rewrite Ha3, Ht, entry_pgtable_lookup by done. cbn [default from_option id].
    rewrite Hf3, Hf3, Hf, Hf by lia. change (Z.testbit 3 0) with true. change (Z.testbit 3 1) with true.
    cbn [andb]. rewrite orb_true_r. f_equal. rewrite Hpa by done. zlia.
  - assert (PDX va <> 0) by zlia. assert (PDX va <> 960) by zlia.
    rewrite !lookup_insert_ne, lookup_empty by done. done.
Qed.

(** The directory in frame 3, the table in frame 2. *)
Definition entry_demo : kstate :=
  put cr3 (3 * 4096) (put pmem (<[3 := entry_pgdir (2 * 4096)]> (<[2 := entry_pgtable]> ∅)) (blank 4)).

Lemma entry_tables_correct_witness :
  mmu_translate entry_demo 0xf0100010 true = Some 0x100010 /\ mmu_translate entry_demo 0x7c00 true = None.
Proof.
  assert (on_entry_tables entry_demo 3 2) as H.
  { constructor; [reflexivity| | |lia]; intros i.
    - change (pmem entry_demo) with (<[3 := entry_pgdir (2 * 4096)]> (<[2 := entry_pgtable]> (∅ : gmap Z (gmap Z Z)))).
      unfold word. rewrite lookup_insert_eq. reflexivity.
    - change (pmem entry_demo) with (<[3 := entry_pgdir (2 * 4096)]> (<[2 := entry_pgtable]> (∅ : gmap Z (gmap Z Z)))).
      unfold word. rewrite lookup_insert_ne, lookup_insert_eq by done. reflexivity. }
  split.
  - rewrite (entry_tables_correct entry_demo 3 2 0xf0100010 true H) by lia. reflexivity.
  - rewrite (entry_tables_correct entry_demo 3 2 0x7c00 true H) by lia. reflexivity.
Defined.
