(* ===== verification/Boot.v ===== *)
(** * The boot loader ([boot/main.c])

    Before paging: an address is physical, and [ram] holds the bytes that have
    been written.  The IDE disk is the interface [Ide], the four instructions the
    loader reaches the ports with (the fourth, [outw], only to Bochs's port 0x8A00,
    before it spins); [IdeLaws] is what the loader relies on, which is how a
    disk answers the task-file registers in programmed I/O.  Waiting for the disk
    is the only loop with a bound of its own, [fuel], on the reads of the status
    register. *)

From Stdlib Require Import Lia ZArith ZifyClasses ZifyInst ZifyBool.
From stdpp Require Import base gmap list strings numbers.
From S2P Require Import Prelude Cmonad Mmu Env.

Class Ide (dev : Type) := {
  ide_inb : Z -> dev -> Z * dev;
  ide_outb : Z -> Z -> dev -> dev;
  ide_outw : Z -> Z -> dev -> dev;
  ide_insl : Z -> Z -> dev -> list Z * dev      (* the bytes of that many words *)
}.

(** How the loader ends: it jumps to the kernel, or spins for ever. *)
Inductive boot_end : Type :=
  | Entered (entry : Z)
  | Bad.

Record loader (dev : Type) := mkLoader { ram : gmap Z Z; disk : dev }.
Arguments mkLoader {dev} _ _.
Arguments ram {dev} _.
Arguments disk {dev} _.
#[export] Instance eta_loader dev : Eta (loader dev) := fun r => mkLoader (ram r) (disk r).

Definition byte_at {dev} (s : loader dev) (a : Z) : Z := default 0 (ram s !! a).

(** The little-endian number in [n] bytes. *)
Fixpoint le_at (f : Z -> Z) (n : nat) (a : Z) : Z :=
  match n with O => 0 | S n' => f a + 256 * le_at f n' (a + 1) end.

Definition SECTSIZE : Z := 512.
Definition ELFHDR : Z := 0x10000.

Section Boot.
Context {dev : Type} {ide : Ide dev}.

Abbreviation B := (M (loader dev) boot_end).

Definition inb (port : Z) : B Z := fun s =>
  let '(v, d) := ide_inb port (disk s) in Ret v (put disk d s).
Definition outb (port data : Z) : B unit := modify (upd disk (ide_outb port (u8 data))).
Definition outw (port data : Z) : B unit := modify (upd disk (ide_outw port (u16 data))).
Definition insl (port addr cnt : Z) : B unit := fun s =>
  let '(l, d) := ide_insl port cnt (disk s) in
  Ret tt (put disk d (upd ram (fun m => map_seqZ addr l ∪ m) s)).

Definition load32 (a : Z) : B Z := gets (fun s => le_at (byte_at s) 4 a).
Definition load16 (a : Z) : B Z := gets (fun s => le_at (byte_at s) 2 a).

Fixpoint waitdisk (fuel : nat) : B unit :=
  match fuel with
  | O => undef "the disk is never ready"
  | S fuel' => st ← inb 0x1F7; if negb (Z.land st 0xC0 =? 0x40) then waitdisk fuel' else mret tt
  end.

Section Fuel.
Context (fuel : nat).

Definition readsect (dst offset : Z) : B unit :=
  waitdisk fuel ;;
  outb 0x1F2 1 ;;
  outb 0x1F3 offset ;;
  outb 0x1F4 (Z.shiftr offset 8) ;;
  outb 0x1F5 (Z.shiftr offset 16) ;;
  outb 0x1F6 (Z.lor (Z.shiftr offset 24) 0xE0) ;;
  outb 0x1F7 0x20 ;;
  waitdisk fuel ;;
  insl 0x1F0 dst (SECTSIZE / 4).

(** [rounds] is more than the rounds it takes, unless [pa] wraps around. *)
Fixpoint readseg_loop (rounds : nat) (pa end_pa offset : Z) : B unit :=
  match rounds with
  | O => undef "the segment reaches the last sector of the address space"
  | S rounds' =>
      if pa <? end_pa
      then readsect pa offset ;; readseg_loop rounds' (u32 (pa + SECTSIZE)) end_pa (u32 (offset + 1))
      else mret tt
  end.

Definition readseg (pa count offset : Z) : B unit :=
  let end_pa := u32 (pa + count) in
  let pa := Z.land pa (Z.lnot (SECTSIZE - 1)) in
  let offset := u32 (offset / SECTSIZE + 1) in
  readseg_loop (Z.to_nat ((end_pa - pa) / SECTSIZE + 2)) pa end_pa offset.

Fixpoint load_segments (n : nat) (ph eph : Z) : B unit :=
  match n with
  | O => undef "the program headers reach the end of the address space"
  | S n' =>
      if ph <? eph then
        p_pa ← load32 (ph + 12);
        p_memsz ← load32 (ph + 20);
        p_offset ← load32 (ph + 4);
        readseg p_pa p_memsz p_offset ;;
        load_segments n' (u32 (ph + 32)) eph
      else mret tt
  end.

Definition bootmain : B unit :=
  readseg ELFHDR (SECTSIZE * 8) 0 ;;
  e_magic ← load32 ELFHDR;
  if negb (e_magic =? ELF_MAGIC) then outw 0x8A00 0x8A00 ;; outw 0x8A00 0x8E00 ;; stop Bad
  else
    e_phoff ← load32 (ELFHDR + 28);
    let ph := u32 (ELFHDR + e_phoff) in
    e_phnum ← load16 (ELFHDR + 44);
    let eph := u32 (ph + 32 * e_phnum) in
    load_segments (S (Z.to_nat e_phnum)) ph eph ;;
    e_entry ← load32 (ELFHDR + 24);
    stop (Entered e_entry).
End Fuel.
End Boot.

(** ** What the loader relies on *)

Record taskfile := mkTaskfile { tf_count : Z; tf_lba0 : Z; tf_lba1 : Z; tf_lba2 : Z; tf_drive : Z }.
#[export] Instance eta_taskfile : Eta taskfile :=
  fun r => mkTaskfile (tf_count r) (tf_lba0 r) (tf_lba1 r) (tf_lba2 r) (tf_drive r).

(** The registers [0x1F2] to [0x1F6]. *)
Definition set_reg (port v : Z) (t : taskfile) : taskfile :=
  if port =? 0x1F2 then put tf_count v t
  else if port =? 0x1F3 then put tf_lba0 v t
  else if port =? 0x1F4 then put tf_lba1 v t
  else if port =? 0x1F5 then put tf_lba2 v t
  else put tf_drive v t.

(** The block the registers address, in LBA mode on the first drive. *)
Definition lba (t : taskfile) : Z :=
  tf_lba0 t + 2 ^ 8 * tf_lba1 t + 2 ^ 16 * tf_lba2 t + 2 ^ 24 * (tf_drive t mod 16).

Class IdeLaws {dev : Type} (ide : Ide dev) (sector : Z -> list Z) := {
  ide_regs : dev -> taskfile;
  ide_delay : dev -> nat;        (* the reads of the status before it says ready *)
  ide_data : dev -> option Z;    (* the block waiting in the data register *)
  ide_bound : nat;
  ide_delay_le d : (ide_delay d <= ide_bound)%nat;
  ide_status d : let '(v, d') := ide_inb 0x1F7 d in
    ide_regs d' = ide_regs d /\ ide_data d' = ide_data d /\
    (Z.land v 0xC0 = 0x40 <-> ide_delay d = O) /\ ide_delay d' = pred (ide_delay d);
  ide_set_reg port v d : 0x1F2 <= port <= 0x1F6 -> ide_delay d = O ->
    ide_regs (ide_outb port v d) = set_reg port v (ide_regs d) /\ ide_delay (ide_outb port v d) = O;
  ide_read d : ide_delay d = O -> tf_count (ide_regs d) = 1 -> tf_drive (ide_regs d) / 16 = 14 ->
    ide_data (ide_outb 0x1F7 0x20 d) = Some (lba (ide_regs d));
  ide_transfer d b : ide_delay d = O -> ide_data d = Some b ->
    fst (ide_insl 0x1F0 128 d) = sector b;
  sector_length b : length (sector b) = 512%nat;
  sector_bytes b : Forall (fun x => 0 <= x < 256) (sector b)
}.

(** The kernel image: the bytes of the blocks from the second on. *)
Definition image (sector : Z -> list Z) (i : Z) : Z :=
  default 0 (sector (i / 512 + 1) !! Z.to_nat (i mod 512)).

(** Its headers. *)
Section Headers.
Context (sector : Z -> list Z).
Definition im32 (o : Z) : Z := le_at (image sector) 4 o.
Definition e_phoff : Z := im32 28.
Definition e_phnum : Z := le_at (image sector) 2 44.
Definition p_offset (k : Z) : Z := im32 (e_phoff + 32 * k + 4).
Definition p_pa (k : Z) : Z := im32 (e_phoff + 32 * k + 12).
Definition p_memsz (k : Z) : Z := im32 (e_phoff + 32 * k + 20).
End Headers.

(** ** Reading the disk *)

Section Spec.
Context {dev : Type} {ide : Ide dev} {sector : Z -> list Z} {laws : IdeLaws ide sector}.

Lemma waitdisk_wp fuel (s : loader dev) (Q : unit -> loader dev -> Prop) :
  (ide_delay (disk s) < fuel)%nat ->
  (forall d, ide_regs d = ide_regs (disk s) -> ide_data d = ide_data (disk s) -> ide_delay d = O ->
     Q tt (put disk d s)) ->
  wp (waitdisk fuel) Q s.
Proof.
  revert s. induction fuel as [|fuel IH]; intros s Hf HQ; [lia|]. cbn [waitdisk].
  pose proof (ide_status (disk s)) as Hst. apply wp_bind. unfold wp at 1, inb.
  destruct (ide_inb 0x1F7 (disk s)) as [v d]. destruct Hst as (Hr & Hd & Hv & Hn).
  destruct (Z.eqb_spec (Z.land v 0xC0) 0x40) as [E|E]; cbn [negb].
  - apply Hv in E. apply wp_ret. apply HQ; [done|done|by rewrite Hn, E].
  - apply IH; cbn [disk put upd].
    + rewrite Hn. assert (ide_delay (disk s) <> O) by (rewrite <- Hv; done). lia.
    + intros d' Hr' Hd' Hn'. destruct s. apply HQ; congruence || done.
Qed.

(** The block number, as its four bytes go to the four registers. *)
Lemma lba_split n count : 0 <= n < 2 ^ 28 ->
  lba (mkTaskfile count (u8 n) (u8 (Z.shiftr n 8)) (u8 (Z.shiftr n 16)) (u8 (Z.lor (Z.shiftr n 24) 0xE0))) = n /\
  u8 (Z.lor (Z.shiftr n 24) 0xE0) / 16 = 14.
Proof.
  intros Hn. unfold lba. cbn [tf_lba0 tf_lba1 tf_lba2 tf_drive]. rewrite !Z.shiftr_div_pow2 by lia.
  change (2 ^ 28) with 268435456 in Hn. change (2 ^ 24) with 16777216. change (2 ^ 16) with 65536. change (2 ^ 8) with 256.
  assert (Z.lor (n / 16777216) 0xE0 = 14 * 2 ^ 4 + n / 16777216) as ->.
  { rewrite Z.lor_comm. change 0xE0 with (14 * 2 ^ 4). apply lor_shift_add; [lia|]. change (2 ^ 4) with 16. zlia. }
  unfold u8. change (2 ^ 8) with 256. change (2 ^ 4) with 16. split; zlia.
Qed.

Lemma readsect_wp fuel dst n (s : loader dev) :
  (ide_bound < fuel)%nat -> 0 <= n < 2 ^ 28 ->
  wp (readsect fuel dst n) (fun _ s' => ram s' = map_seqZ dst (sector n) ∪ ram s) s.
Proof.
  intros Hf Hn. pose proof ide_delay_le as Hle. unfold readsect.
  apply wp_bind, waitdisk_wp; [specialize (Hle (disk s)); lia|]. intros d0 _ _ Hd0.
  do 6 (apply wp_bind; unfold outb at 1; apply wp_modify). cbn [disk upd put].
  change (u8 1) with 1. change (u8 0x20) with 0x20.
  destruct (ide_set_reg 0x1F2 1 d0 ltac:(lia) Hd0) as [Hr1 Hd1]. set (d1 := ide_outb 0x1F2 1 d0) in *.
  destruct (ide_set_reg 0x1F3 (u8 n) d1 ltac:(lia) Hd1) as [Hr2 Hd2]. set (d2 := ide_outb 0x1F3 _ d1) in *.
  destruct (ide_set_reg 0x1F4 (u8 (Z.shiftr n 8)) d2 ltac:(lia) Hd2) as [Hr3 Hd3]. set (d3 := ide_outb 0x1F4 _ d2) in *.
  destruct (ide_set_reg 0x1F5 (u8 (Z.shiftr n 16)) d3 ltac:(lia) Hd3) as [Hr4 Hd4]. set (d4 := ide_outb 0x1F5 _ d3) in *.
  destruct (ide_set_reg 0x1F6 (u8 (Z.lor (Z.shiftr n 24) 0xE0)) d4 ltac:(lia) Hd4) as [Hr5 Hd5].
  set (d5 := ide_outb 0x1F6 _ d4) in *. rewrite Hr4, Hr3, Hr2, Hr1 in Hr5.
  change (set_reg 0x1F6 _ _) with (mkTaskfile 1 (u8 n) (u8 (Z.shiftr n 8)) (u8 (Z.shiftr n 16))
    (u8 (Z.lor (Z.shiftr n 24) 0xE0))) in Hr5.
  destruct (lba_split n 1 Hn) as [Hlba Hmode].
  assert (ide_data (ide_outb 0x1F7 0x20 d5) = Some n) as Hdata.
  { rewrite ide_read by (by rewrite ?Hr5). by rewrite Hr5, Hlba. }
  apply wp_bind, waitdisk_wp; [eapply Nat.le_lt_trans; [apply Hle|done]|].
  intros d6 _ Hd6 Hz6. change (ide_data d6 = ide_data (ide_outb 0x1F7 0x20 d5)) in Hd6. rewrite Hdata in Hd6.
  pose proof (ide_transfer d6 n Hz6 Hd6) as Ht. unfold wp, insl. change (SECTSIZE / 4) with 128.
  change (disk (put disk d6 _)) with d6. destruct (ide_insl 0x1F0 128 d6) as [l d7]. cbn [fst] in Ht. subst l. by destruct s.
Qed.

Lemma readsect_bytes fuel dst n (s : loader dev) :
  (ide_bound < fuel)%nat -> 1 <= n < 2 ^ 28 ->
  wp (readsect fuel dst n) (fun _ s' => forall a, byte_at s' a =
    if decide (dst <= a < dst + 512) then image sector (512 * (n - 1) + (a - dst)) else byte_at s a) s.
Proof.
  intros Hf Hn. eapply wp_mono; [apply readsect_wp; [done|lia]|]. intros [] s' Hs a. unfold byte_at. rewrite Hs.
  pose proof (sector_length n) as Hlen. case_decide as Ha.
  - destruct (lookup_lt_is_Some_2 (sector n) (Z.to_nat (a - dst))) as [x Hx]; [lia|].
    rewrite (lookup_union_Some_l _ _ a x) by (rewrite lookup_map_seqZ, option_guard_True by lia; exact Hx).
    unfold image. replace ((512 * (n - 1) + (a - dst)) / 512 + 1) with n by zlia.
    replace ((512 * (n - 1) + (a - dst)) mod 512) with (a - dst) by zlia. by rewrite Hx.
  - f_equal. apply lookup_union_r. apply lookup_map_seqZ_None. lia.
Qed.

(** The sectors it takes to go from [pa] to [end_pa]. *)
Definition sectors (pa end_pa : Z) : Z := Z.max 0 ((end_pa - pa + 511) / 512).

Lemma readseg_loop_wp fuel rounds pa end_pa off (s : loader dev) :
  (ide_bound < fuel)%nat -> 0 <= pa -> end_pa <= 2 ^ 32 - 512 -> 1 <= off -> off + sectors pa end_pa <= 2 ^ 28 ->
  sectors pa end_pa < Z.of_nat rounds ->
  wp (readseg_loop fuel rounds pa end_pa off) (fun _ s' => forall a, byte_at s' a =
    if decide (pa <= a < pa + 512 * sectors pa end_pa) then image sector (512 * (off - 1) + (a - pa))
    else byte_at s a) s.
Proof.
  intros Hf. change (2 ^ 32) with 4294967296. change (2 ^ 28) with 268435456.
  revert pa off s. induction rounds as [|rounds IH]; intros pa off s Hpa Hend Hoff Hn Hr; [unfold sectors in Hr; lia|].
  cbn [readseg_loop]. destruct (Z.ltb_spec pa end_pa) as [Hlt|Hge].
  2:{ assert (sectors pa end_pa = 0) as -> by (unfold sectors; zlia). apply wp_ret. intros a. by rewrite decide_False by lia. }
  assert (sectors pa end_pa = 1 + sectors (pa + 512) end_pa) as Hs by (unfold sectors; zlia).
  assert (0 <= sectors (pa + 512) end_pa) as H0 by (unfold sectors; lia).
  apply wp_bind. eapply wp_mono; [apply readsect_bytes; [done|]; change (2 ^ 28) with 268435456; lia|].
  intros [] s1 Hs1. change SECTSIZE with 512. rewrite !u32_id by lia.
  eapply wp_mono; [apply IH; lia|]. intros [] s2 Hs2 a. rewrite Hs2, Hs1, Hs.
  repeat case_decide; first [lia|done|f_equal; lia].
Qed.

(** [readseg] reads whole sectors: it rounds [pa] and [offset] down to a sector
    each, and the end up. *)
Definition seg_lo (pa : Z) : Z := pa / 512 * 512.
Definition seg_hi (pa count : Z) : Z := seg_lo pa + 512 * sectors (seg_lo pa) (pa + count).

Lemma seg_covers pa count : 0 <= count -> seg_lo pa <= pa /\ (0 < count -> pa + count <= seg_hi pa count).
Proof. intros H. unfold seg_hi, sectors, seg_lo. zlia. Qed.

Lemma sector_round pa : 0 <= pa < 2 ^ 32 -> Z.land pa (Z.lnot (SECTSIZE - 1)) = seg_lo pa.
Proof.
  intros H. unfold seg_lo. change (SECTSIZE - 1) with (Z.ones 9). change 512 with (2 ^ 9).
  rewrite <- Z.ldiff_land, Z.ldiff_ones_r, Z.shiftl_mul_pow2, Z.shiftr_div_pow2 by lia. done.
Qed.

Lemma readseg_wp fuel pa count offset (s : loader dev) :
  (ide_bound < fuel)%nat -> 0 <= pa -> 0 <= count -> pa + count <= 2 ^ 32 - 512 -> 0 <= offset < 2 ^ 32 ->
  wp (readseg fuel pa count offset) (fun _ s' => forall a, byte_at s' a =
    if decide (seg_lo pa <= a < seg_hi pa count) then image sector (offset / 512 * 512 + (a - seg_lo pa))
    else byte_at s a) s.
Proof.
  intros Hf Hpa Hc Hend Hoff. unfold readseg. rewrite sector_round by lia. rewrite (u32_id (pa + count)) by lia.
  change SECTSIZE with 512. change (2 ^ 32) with 4294967296 in *.
  assert (0 <= seg_lo pa <= pa) as Hlo by (unfold seg_lo; zlia).
  rewrite u32_id by (change (2 ^ 32) with 4294967296; zlia).
  eapply wp_mono; [apply (readseg_loop_wp fuel); [done|lia|lia|zlia| |]|].
  - change (2 ^ 28) with 268435456. unfold sectors. zlia.
  - unfold sectors. rewrite Z2Nat.id by zlia. zlia.
  - intros [] s' Hs a. rewrite Hs. fold (seg_hi pa count). case_decide; [|done]. f_equal. lia.
Qed.

(** ** The kernel image *)

Lemma le_at_ext f g n a b :
  (forall i, 0 <= i < Z.of_nat n -> f (a + i) = g (b + i)) -> le_at f n a = le_at g n b.
Proof.
  revert a b. induction n as [|n IH]; intros a b H; [done|]. cbn [le_at]. f_equal.
  - specialize (H 0 ltac:(lia)). by rewrite !Z.add_0_r in H.
  - f_equal. apply IH. intros i Hi. rewrite <- !Z.add_assoc, (Z.add_comm 1 i). apply H. lia.
Qed.

Lemma image_range i : 0 <= image sector i < 256.
Proof.
  unfold image. destruct (sector (i / 512 + 1) !! Z.to_nat (i mod 512)) as [x|] eqn:E; cbn; [|lia].
  pose proof (sector_bytes (i / 512 + 1)) as H. rewrite Forall_lookup in H. by apply (H _ _ E).
Qed.

Lemma le_at_range n a : 0 <= le_at (image sector) n a < 2 ^ (8 * Z.of_nat n).
Proof.
  revert a. induction n as [|n IH]; intros a; cbn [le_at]; [lia|]. specialize (IH (a + 1)).
  pose proof (image_range a). replace (8 * Z.of_nat (S n)) with (8 + 8 * Z.of_nat n) by lia.
  rewrite Z.pow_add_r by lia. change (2 ^ 8) with 256. lia.
Qed.

Abbreviation phoff := (e_phoff sector).
Abbreviation phnum := (e_phnum sector).
Abbreviation pa := (p_pa sector).
Abbreviation memsz := (p_memsz sector).
Abbreviation offset := (p_offset sector).

(** What the linker has to see to: the headers are in the first page, a segment
    starts at the same place within a sector in memory and on disk, it is clear of
    the page the headers are read to, and reading it, in whole sectors, does not
    run over the segments before it. *)
Record loadable : Prop := {
  lo_headers : phoff + 32 * phnum <= 4096;
  lo_fits k : 0 <= k < phnum -> pa k + memsz k <= 2 ^ 32 - 512;
  lo_aligned k : 0 <= k < phnum -> pa k mod 512 = offset k mod 512;
  lo_scratch k : 0 <= k < phnum ->
    seg_hi (pa k) (memsz k) <= ELFHDR \/ ELFHDR + 4096 <= seg_lo (pa k);
  lo_order i k : 0 <= i < k -> k < phnum ->
    seg_hi (pa k) (memsz k) <= pa i \/ pa i + memsz i <= seg_lo (pa k)
}.

Definition headers_read (s : loader dev) : Prop :=
  forall i, 0 <= i < 4096 -> byte_at s (ELFHDR + i) = image sector i.

Definition loaded (k : Z) (s : loader dev) : Prop :=
  forall j, 0 <= j < memsz k -> byte_at s (pa k + j) = image sector (offset k + j).

Definition in_segment (a : Z) : Prop := exists k, 0 <= k < phnum /\ seg_lo (pa k) <= a < seg_hi (pa k) (memsz k).

Lemma load_header s n o : headers_read s -> 0 <= o -> o + Z.of_nat n <= 4096 ->
  le_at (byte_at s) n (ELFHDR + o) = le_at (image sector) n o.
Proof.
  intros H Ho Hn. apply le_at_ext. intros i Hi. rewrite <- Z.add_assoc. apply H. lia.
Qed.

Lemma load_segments_wp fuel n k (s0 s : loader dev) :
  (ide_bound < fuel)%nat -> loadable -> 0 <= k <= phnum -> phnum - k < Z.of_nat n ->
  headers_read s -> (forall i, 0 <= i < k -> loaded i s) ->
  (forall a, ~ in_segment a -> byte_at s a = byte_at s0 a) ->
  wp (load_segments fuel n (ELFHDR + phoff + 32 * k) (ELFHDR + phoff + 32 * phnum)) (fun _ s' =>
    headers_read s' /\ (forall i, 0 <= i < phnum -> loaded i s') /\
    (forall a, ~ in_segment a -> byte_at s' a = byte_at s0 a)) s.
Proof.
  intros Hf [Hh Hfit Hal Hsc Hord]. revert k s. induction n as [|n IH]; intros k s Hk Hn Hhd Hl Hfr; [lia|].
  pose proof (le_at_range 4 28) as Hp1. change (0 <= phoff < 2 ^ 32) in Hp1.
  cbn [load_segments]. destruct (Z.ltb_spec (ELFHDR + phoff + 32 * k) (ELFHDR + phoff + 32 * phnum)) as [Hlt|Hge].
  2:{ apply wp_ret. assert (k = phnum) as -> by lia. by split_and!. }
  do 3 (apply wp_bind; unfold load32 at 1; apply wp_gets).
  replace (ELFHDR + phoff + 32 * k + 12) with (ELFHDR + (phoff + 32 * k + 12)) by lia.
  replace (ELFHDR + phoff + 32 * k + 20) with (ELFHDR + (phoff + 32 * k + 20)) by lia.
  replace (ELFHDR + phoff + 32 * k + 4) with (ELFHDR + (phoff + 32 * k + 4)) by lia.
  rewrite !load_header by first [done|lia].
  fold (im32 sector (phoff + 32 * k + 12)). fold (im32 sector (phoff + 32 * k + 20)). fold (im32 sector (phoff + 32 * k + 4)).
  fold (pa k). fold (memsz k). fold (offset k).
  pose proof (le_at_range 4 (phoff + 32 * k + 12)) as Hr1. pose proof (le_at_range 4 (phoff + 32 * k + 20)) as Hr2.
  pose proof (le_at_range 4 (phoff + 32 * k + 4)) as Hr3. change (2 ^ (8 * Z.of_nat 4)) with (2 ^ 32) in Hr1, Hr2, Hr3.
  change (0 <= pa k < 2 ^ 32) in Hr1. change (0 <= memsz k < 2 ^ 32) in Hr2. change (0 <= offset k < 2 ^ 32) in Hr3.
  assert (0 <= k < phnum) as Hk' by lia. pose proof (Hfit k Hk') as Hfk. pose proof (Hal k Hk') as Hak.
  destruct (seg_covers (pa k) (memsz k)) as [Hc1 Hc2]; [lia|].
  apply wp_bind. eapply wp_mono; [apply readseg_wp; lia || done|]. intros [] s1 Hs1.
  rewrite u32_id by (unfold ELFHDR; change (2 ^ 32) with 4294967296; lia).
  replace (ELFHDR + phoff + 32 * k + 32) with (ELFHDR + phoff + 32 * (k + 1)) by lia.
  apply IH; [lia|lia| | |].
  - intros i Hi. rewrite Hs1, decide_False by (destruct (Hsc k Hk'); lia). by apply Hhd.
  - intros i Hi j Hj. rewrite Hs1. destruct (decide (i = k)) as [->|Hne].
    + rewrite decide_True by lia. f_equal. unfold seg_lo. change (2 ^ 32) with 4294967296 in *. zlia.
    + rewrite decide_False by (destruct (Hord i k); lia). apply Hl; lia.
  - intros a Ha. rewrite Hs1, decide_False; [by apply Hfr|]. intros Hb. apply Ha. by exists k.
Qed.

(** C16: the boot loader, with a disk that answers as the controller is documented
    to, and an image laid out as [loadable] says.  It jumps to the entry point in the
    image's header, with every byte of every segment in memory at the segment's
    physical address, and no byte changed outside the segments' sectors and the
    page the headers are read to.  An image without the magic number makes it spin. *)
Theorem bootmain_correct fuel (s : loader dev) : (ide_bound < fuel)%nat ->
  if im32 sector 0 =? ELF_MAGIC
  then loadable -> exists s', bootmain fuel s = Stop (Entered (im32 sector 24)) s' /\
    (forall k, 0 <= k < phnum -> loaded k s') /\
    (forall a, ~ in_segment a -> ~ ELFHDR <= a < ELFHDR + 4096 -> byte_at s' a = byte_at s a)
  else exists s', bootmain fuel s = Stop Bad s'.
Proof.
  intros Hf. unfold bootmain.
  destruct (wp_inv _ _ _ (readseg_wp fuel ELFHDR (SECTSIZE * 8) 0 s Hf ltac:(done) ltac:(done) ltac:(done) ltac:(done)))
    as ([] & s1 & Hr1 & Hs1). change (seg_lo ELFHDR) with ELFHDR in Hs1.
  change (seg_hi ELFHDR (SECTSIZE * 8)) with (ELFHDR + 4096) in Hs1.
  assert (headers_read s1) as Hh.
  { intros i Hi. rewrite Hs1, decide_True by lia. f_equal. change (0 / 512 * 512) with 0. lia. }
  erewrite bind_Ret by exact Hr1. erewrite bind_Ret by reflexivity.
  pose proof (load_header s1 4 0 Hh ltac:(lia) ltac:(cbn; lia)) as Hm. rewrite Z.add_0_r in Hm.
  rewrite Hm. fold (im32 sector 0).
  destruct (Z.eqb_spec (im32 sector 0) ELF_MAGIC) as [E|E]; cbn [negb]; [intros Hlo|by eexists].
  pose proof (lo_headers Hlo) as Hph.
  pose proof (le_at_range 4 28) as Hp1. pose proof (le_at_range 2 44) as Hp2. 
  change (0 <= phoff < 2 ^ 32) in Hp1. change (0 <= phnum < 2 ^ 16) in Hp2.
  erewrite bind_Ret by reflexivity. rewrite (load_header s1 4 28 Hh) by lia. change (le_at (image sector) 4 28) with phoff.
  erewrite bind_Ret by reflexivity. rewrite (load_header s1 2 44 Hh) by lia. change (le_at (image sector) 2 44) with phnum.
  rewrite !u32_id by (unfold ELFHDR; change (2 ^ 32) with 4294967296; lia).
  destruct (wp_inv _ _ _ (load_segments_wp fuel (S (Z.to_nat phnum)) 0 s1 s1 Hf Hlo ltac:(lia) ltac:(lia) Hh
    ltac:(intros; lia) ltac:(done))) as ([] & s2 & Hr2 & Hh2 & Hl2 & Hfr).
  replace (ELFHDR + phoff + 32 * 0) with (ELFHDR + phoff) in Hr2 by lia.
  erewrite bind_Ret by exact Hr2. erewrite bind_Ret by reflexivity.
  rewrite (load_header s2 4 24 Hh2) by lia. exists s2. split; [done|]. split; [done|].
  intros a Ha Hb. rewrite Hfr, Hs1, decide_False by done. done.
Qed.
End Spec.

(** ** A drive *)

Record drive := mkDrive { dr_regs : taskfile; dr_data : option Z; dr_busy : bool }.
#[export] Instance eta_drive : Eta drive := fun r => mkDrive (dr_regs r) (dr_data r) (dr_busy r).

Section Drive.
Context (sector : Z -> list Z).

(** Busy for one read of the status after a command. *)
#[local] Instance drive_ide : Ide drive := {
  ide_inb port d := if port =? 0x1F7 then (if dr_busy d then 0x80 else 0x40, put dr_busy false d) else (0, d);
  ide_outb port v d :=
    if bool_decide (0x1F2 <= port <= 0x1F6) then upd dr_regs (set_reg port v) d
    else if (port =? 0x1F7) && (v =? 0x20) then put dr_data (Some (lba (dr_regs d))) (put dr_busy true d)
    else d;
  ide_outw _ _ d := d;
  ide_insl _ _ d := (match dr_data d with Some b => sector b | None => [] end, put dr_data None d)
}.

Context (Hlen : forall b, length (sector b) = 512%nat) (Hbytes : forall b, Forall (fun x => 0 <= x < 256) (sector b)).

#[local] Instance drive_laws : IdeLaws drive_ide sector.
Proof.
  apply (Build_IdeLaws _ _ _ dr_regs (fun d => if dr_busy d then 1%nat else 0%nat) dr_data 1%nat).
  - intros d. destruct (dr_busy d); lia.
  - intros [r b []]; cbn; by split_and!.
  - intros port v [r b []] Hp Hd; [done|]. cbn. by rewrite bool_decide_eq_true_2.
  - intros [r b []] Hd; [done|]. cbn. done.
  - intros d b _ Hb. cbn. by rewrite Hb.
  - exact Hlen.
  - exact Hbytes.
Defined.
End Drive.

(** An image of one segment of 600 bytes, at [0x1000] in the image, for [0x100000]. *)
Definition demo_header : list Z :=
  [0x7F; 0x45; 0x4C; 0x46] ++ replicate 20 0 ++ [0x0C; 0; 0x10; 0] ++ [52; 0; 0; 0] ++ replicate 12 0 ++ [1; 0] ++
  replicate 6 0 ++ [1; 0; 0; 0] ++ [0; 0x10; 0; 0] ++ [0; 0; 0x10; 0xF0] ++ [0; 0; 0x10; 0] ++ [0x58; 2; 0; 0] ++
  [0x58; 2; 0; 0] ++ replicate 436 0.

Definition demo_disk (b : Z) : list Z :=
  if b =? 1 then demo_header else (fun i => (b + i) mod 256) <$> seqZ 0 512.

Lemma demo_disk_length b : length (demo_disk b) = 512%nat.
Proof. unfold demo_disk. destruct (b =? 1); [reflexivity|]. by rewrite length_fmap, length_seqZ. Qed.

Lemma demo_disk_bytes b : Forall (fun x => 0 <= x < 256) (demo_disk b).
Proof.
  unfold demo_disk. destruct (b =? 1).
  - apply (bool_decide_unpack _). vm_compute. exact I.
  - apply Forall_fmap, Forall_true. intros i. apply Z.mod_pos_bound. lia.
Qed.

Lemma demo_loadable : loadable (sector := demo_disk).
Proof.
  assert (e_phnum demo_disk = 1) as Hn by (vm_compute; reflexivity).
  constructor; rewrite ?Hn.
  - vm_compute. discriminate.
  - intros k Hk. assert (k = 0) as -> by lia. vm_compute. discriminate.
  - intros k Hk. assert (k = 0) as -> by lia. vm_compute. reflexivity.
  - intros k Hk. assert (k = 0) as -> by lia. right. vm_compute. discriminate.
  - intros i k Hi Hk. lia.
Qed.

Lemma bootmain_correct_witness :
  exists s', bootmain (ide := drive_ide demo_disk) 2 (mkLoader ∅ (mkDrive (mkTaskfile 0 0 0 0 0) None false)) =
    Stop (Entered 0x10000C) s' /\ byte_at s' 0x100257 = 97.
Proof.
  pose proof (bootmain_correct (laws := drive_laws demo_disk demo_disk_length demo_disk_bytes) 2
    (mkLoader ∅ (mkDrive (mkTaskfile 0 0 0 0 0) None false)) ltac:(cbn; lia)) as H.
  assert ((im32 demo_disk 0 =? ELF_MAGIC) = true) as Hm by (vm_compute; reflexivity). rewrite Hm in H.
  destruct (H demo_loadable) as (s' & Hs & Hl & _). exists s'. split; [exact Hs|].
  assert (p_memsz demo_disk 0 = 600) as H1 by (vm_compute; reflexivity).
  assert (p_pa demo_disk 0 = 0x100000) as H2 by (vm_compute; reflexivity).
  pose proof (Hl 0 ltac:(vm_compute; split; congruence || reflexivity) 599 ltac:(rewrite H1; lia)) as Hb.
  rewrite H2 in Hb. etransitivity; [exact Hb|]. vm_compute. reflexivity.
Defined.
