(* ===== verification/Init.v ===== *)
(** * Starting the kernel and the other processors ([kern/init.c])

    [i386_init], [boot_aps] and [mp_main] as one processor runs them, and the
    start of the processors as they interleave ([sstep]).  What the other
    processors do while [boot_aps] polls is the parameter [others].

    Clearing the BSS is the state [i386_init] starts in: a variable of the kernel
    is a field of the state and not memory. *)

From Stdlib Require Import Lia ZArith ZifyClasses ZifyInst ZifyBool.
From stdpp Require Import base gmap list strings numbers.
From S2P Require Import Prelude Cmonad Mmu Printfmt Console State Spinlock Umem Pmap MemInit Lapic Mpconfig Env Trap.

(** What the devices read as when the kernel starts. *)
Record devices := mkDevices {
  has_cga : bool; crt_hi : Z; crt_lo : Z; crt_mem : gmap Z Z;   (* the display *)
  lsr : Z;                                                       (* the serial port *)
  imcr : Z                                                       (* the port 0x23 *)
}.

Section Init.
Context {machine : Machine}.

(** ** [_panic] and [_warn] *)

(** [panic] of the other files is [_panic] with its message; here is what it does
    before the monitor. *)
Definition _panic {A} (file : string) (line : Z) (fmt : string) (args : list varg) : K A :=
  p ← gets panicstr;
  when (negb p)
    (modify (put panicstr true) ;;
     me ← gets cpunum;
     cprintf "kernel panic on CPU %d at %s:%d: " [AInt me; pstr file; AInt line] ;;
     cprintf fmt args ;;
     cprintf nl []) ;;
  stop InMonitor.

Definition _warn (file : string) (line : Z) (fmt : string) (args : list varg) : K unit :=
  cprintf "kernel warning at %s:%d: " [pstr file; AInt line] ;;
  cprintf fmt args ;;
  cprintf nl [].

(** ** The other processors *)

Context (others : kstate -> kstate).

(** [while (c->cpu_status != CPU_STARTED);] with [fuel] reads. *)
Fixpoint wait_started (fuel : nat) (c : Z) : K unit :=
  match fuel with
  | O => undef "the processor does not start"
  | S fuel' =>
      cs ← gets cpus;
      match cs !! c with
      | None => undef "outside the cpus array"
      | Some ci =>
          if bool_decide (cpu_status ci = CPU_STARTED) then mret tt
          else modify others ;; wait_started fuel' c
      end
  end.

(** One round of the loop. *)
Definition boot_ap (fuel : nat) (code c : Z) : K unit :=
  me ← gets cpunum;
  if c =? me then mret tt
  else
    modify (put mpentry_kstack (u32 (percpu_kstacks c + KSTKSIZE))) ;;
    cs ← gets cpus;
    match cs !! c with
    | None => undef "outside the cpus array"
    | Some ci =>
        pa ← PADDR code;
        lapic_startap (cpu_id ci) pa ;;
        wait_started fuel c
    end.

(** [memmove(code, bytes, n)]; the bytes are part of the kernel's image. *)
Fixpoint copy_code (code : Z) (bytes : list Z) : K unit :=
  match bytes with
  | [] => mret tt
  | b :: bytes' => kstore_byte code b ;; copy_code (code + 1) bytes'
  end.

Definition boot_aps (fuel : nat) : K unit :=
  code ← KADDR MPENTRY_PADDR;
  copy_code code mpentry_code ;;
  n ← gets ncpu;
  for_loop (Z.to_nat n) 0 1 (boot_ap fuel code).

(** The processor's own set-up, up to the exchange that reports it. *)
Definition mp_setup : K unit :=
  kpd ← gets kern_pgdir;
  pa ← PADDR kpd;
  lcr3 pa ;;
  me ← gets cpunum;
  cprintln "SMP: CPU %d starting" [AInt me] ;;
  lapic_init ;;
  env_init_percpu ;;
  trap_init_percpu ;;
  upd_thiscpu (put cpu_status CPU_STARTED).

Definition mp_main : K unit := mp_setup ;; lock_kernel ;; sched_yield.

(** ** The boot processor *)

(** [binaries] are the addresses of the programs [ENV_CREATE] names. *)
Definition i386_init (dev : devices) (fuel : nat) (binaries : list Z) : K unit :=
  with_cons (cons_init (has_cga dev) (crt_hi dev) (crt_lo dev) (crt_mem dev) (lsr dev)) ;;
  cprintln "6828 decimal is %o octal!" [AInt 6828] ;;
  mem_init ;;
  env_init ;;
  trap_init ;;
  mp_init (imcr dev) ;;
  lapic_init ;;
  with_cons pic_init ;;
  lock_kernel ;;
  boot_aps fuel ;;
  foldr (fun b k => env_create b ENV_TYPE_USER ;; k) (mret tt) binaries ;;
  sched_yield.
End Init.

(** ** Interleavings

    The accesses to what the processors share while they start: [mpentry_kstack],
    the [cpu_status] of each, and the big kernel lock, whose exchange is one
    access (see [Spinlock] for the rest of it).  A read of [cpu_status] or an
    exchange that finds it has to go on waiting changes nothing and is no step. *)

(** The boot processor: at the loop's test; about to store the stack; about to
    send the startup interrupt; polling; past [boot_aps], with the lock; in its first
    [sched_yield]; in the monitor, because that found nothing to run ([sched_halt]
    keeps the lock there and never leaves it); and past it, with the lock given back. *)
Inductive bpc : Set :=
  | BLoop (c : Z) | BStack (c : Z) | BStart (c : Z) | BWait (c : Z) | BEnvs | BYield | BMonitor | BOut.

(** Another one: before its startup interrupt; in [mpentry.S], before it loads its
    stack; in [mp_main], before the exchange on its status; about to take the
    lock; in the kernel and its scheduler, with the lock; in the monitor, where it keeps
    the lock for good; and out of the kernel, running an environment or halted, until
    the next trap.  Once past its first [sched_yield], the boot processor is one
    of them. *)
Inductive apc : Set := Halted | Entry | OnStack | Started | Scheduling | Monitoring | Gone.

#[export] Instance apc_eq_dec : EqDecision apc.
Proof. solve_decision. Defined.

Record sstate := mkSstate {
  bsp : bpc;
  ap : Z -> apc;
  own_stack : Z -> option Z;    (* the stack pointer each loaded *)
  kst : Z;                      (* mpentry_kstack *)
  status : Z -> CpuStatus;
  holder : option Z
}.
#[export] Instance eta_sstate : Eta sstate := fun r =>
  mkSstate (bsp r) (ap r) (own_stack r) (kst r) (status r) (holder r).

Definition set_at {A} (i : Z) (x : A) (f : Z -> A) : Z -> A := fun j => if decide (j = i) then x else f j.

Section Start.
Context {machine : Machine} (n boot : Z).

Definition stack_top (c : Z) : Z := u32 (percpu_kstacks c + KSTKSIZE).

Inductive sstep : sstate -> sstate -> Prop :=
  | s_skip c s : bsp s = BLoop c -> c < n -> c = boot -> sstep s (put bsp (BLoop (c + 1)) s)
  | s_next c s : bsp s = BLoop c -> c < n -> c <> boot -> sstep s (put bsp (BStack c) s)
  | s_done c s : bsp s = BLoop c -> n <= c -> sstep s (put bsp BEnvs s)
  | s_stack c s : bsp s = BStack c -> sstep s (put bsp (BStart c) (put kst (stack_top c) s))
  | s_start c s : bsp s = BStart c -> sstep s (put bsp (BWait c) (upd ap (set_at c Entry) s))
  | s_up c s : bsp s = BWait c -> status s c = CPU_STARTED -> sstep s (put bsp (BLoop (c + 1)) s)
  | s_envs s : bsp s = BEnvs -> sstep s (put bsp BYield s)
  | s_yield s : bsp s = BYield -> sstep s (put bsp BOut (put holder None (upd ap (set_at boot Gone) s)))
  | s_idle s : bsp s = BYield ->
      sstep s (put bsp BOut (put holder None (upd ap (set_at boot Gone) (upd status (set_at boot CPU_HALTED) s))))
  | s_nothing s : bsp s = BYield -> sstep s (put bsp BMonitor s)
  | s_entry i s : ap s i = Entry ->
      sstep s (upd ap (set_at i OnStack) (upd own_stack (set_at i (Some (kst s))) s))
  | s_main i s : ap s i = OnStack ->
      sstep s (upd ap (set_at i Started) (upd status (set_at i CPU_STARTED) s))
  | s_lock i s : ap s i = Started -> holder s = None ->
      sstep s (upd ap (set_at i Scheduling) (put holder (Some i) s))
  | s_leave i s : ap s i = Scheduling -> sstep s (upd ap (set_at i Gone) (put holder None s))
  | s_halt i s : ap s i = Scheduling ->
      sstep s (upd ap (set_at i Gone) (upd status (set_at i CPU_HALTED) (put holder None s)))
  | s_monitor i s : ap s i = Scheduling -> sstep s (upd ap (set_at i Monitoring) s)
  | s_wake i s : ap s i = Gone -> sstep s (upd status (set_at i CPU_STARTED) s)
  | s_trap i s : ap s i = Gone -> status s i = CPU_STARTED -> holder s = None ->
      sstep s (upd ap (set_at i Scheduling) (put holder (Some i) s)).

(** [boot_aps] is entered with the lock. *)
Definition start : sstate :=
  mkSstate (BLoop 0) (fun _ => Halted) (fun _ => None) 0
    (set_at boot CPU_STARTED (fun _ => CPU_UNUSED)) (Some boot).

(** ** What holds on the way *)

Definition other (i : Z) : Prop := 0 <= i < n /\ i <> boot.
#[local] Instance other_dec i : Decision (other i).
Proof. unfold other. apply _. Defined.

(** Where processor [i] can be, with the boot processor at [b]. *)
Definition can_be (b : bpc) (i : Z) (p : apc) : Prop :=
  match b with
  | BLoop c | BStack c | BStart c => p = if decide (other i /\ i < c) then Started else Halted
  | BWait c => if decide (i = c) then p = Entry \/ p = OnStack \/ p = Started
               else p = if decide (other i /\ i < c) then Started else Halted
  | BEnvs | BYield | BMonitor => p = if decide (other i) then Started else Halted
  | BOut => if decide (other i) then p = Started \/ p = Scheduling \/ p = Monitoring \/ p = Gone
            else if decide (i = boot) then p = Scheduling \/ p = Monitoring \/ p = Gone else p = Halted
  end.

Definition bsp_ok (b : bpc) : Prop :=
  match b with
  | BLoop c => 0 <= c
  | BStack c | BStart c | BWait c => other c
  | _ => True
  end.

Definition has_started (p : apc) : Prop := p = Started \/ p = Scheduling \/ p = Monitoring \/ p = Gone.

(** In the kernel with the lock. *)
Definition inside (p : apc) : Prop := p = Scheduling \/ p = Monitoring.

Definition status_ok (p : apc) (st : CpuStatus) : Prop :=
  match p with
  | Halted | Entry | OnStack => st <> CPU_STARTED
  | Started | Scheduling | Monitoring => st = CPU_STARTED
  | Gone => st = CPU_STARTED \/ st = CPU_HALTED
  end.

(** The lock is with the boot processor until it has left the kernel, and then with
    the one processor that is in it. *)
Definition holder_ok (b : bpc) (f : Z -> apc) (h : option Z) : Prop :=
  match b with
  | BOut => match h with
            | Some i => inside (f i) /\ forall j, inside (f j) -> j = i
            | None => forall j, ~ inside (f j)
            end
  | _ => h = Some boot
  end.

Record start_inv (s : sstate) : Prop := {
  si_bsp : bsp_ok (bsp s);
  si_ap i : can_be (bsp s) i (ap s i);
  si_kst c : bsp s = BStart c \/ bsp s = BWait c -> kst s = stack_top c;
  si_status i : i <> boot -> status_ok (ap s i) (status s i);
  si_stack i a : own_stack s i = Some a -> a = stack_top i;
  si_loaded i : i <> boot -> ap s i = OnStack \/ has_started (ap s i) -> is_Some (own_stack s i);
  si_holder : holder_ok (bsp s) (ap s) (holder s)
}.

Lemma set_at_eq {A} i (x : A) f : set_at i x f i = x.
Proof. unfold set_at. by rewrite decide_True. Qed.

Lemma set_at_ne {A} i (x : A) f j : j <> i -> set_at i x f j = f j.
Proof. intros H. unfold set_at. by rewrite decide_False. Qed.

Lemma start_ok : start_inv start.
Proof.
  unfold start. constructor; cbn.
  - lia.
  - intros i. rewrite decide_False; [done|]. intros [[? _] ?]. lia.
  - intros c [?|?]; done.
  - intros i Hi. by rewrite set_at_ne.
  - done.
  - intros i _ [?|[?|[?|[?|?]]]]; done.
  - done.
Qed.

(** Only the processor that is being waited for is on its way in. *)
Lemma on_its_way s i : start_inv s -> ap s i = Entry \/ ap s i = OnStack -> bsp s = BWait i /\ other i.
Proof.
  intros H Hp. pose proof (si_ap _ H i) as Hc. pose proof (si_bsp _ H) as Hb. unfold can_be in Hc.
  destruct (bsp s) as [c|c|c|c| | | |]; repeat case_decide; destruct Hp as [Hp|Hp]; rewrite Hp in Hc; try done;
    try (by intuition congruence); subst; split; done.
Qed.

Lemma scheduling_out s i : start_inv s -> inside (ap s i) \/ ap s i = Gone -> bsp s = BOut /\ (other i \/ i = boot).
Proof.
  intros H Hp. pose proof (si_ap _ H i) as Hc. unfold can_be in Hc. unfold inside in Hp.
  destruct (bsp s) as [c|c|c|c| | | |]; repeat case_decide; intuition congruence.
Qed.

Lemma started_waits s i : start_inv s -> ap s i = Started -> other i.
Proof.
  intros H Hp. pose proof (si_ap _ H i) as Hc. pose proof (si_bsp _ H) as Hb. unfold can_be in Hc.
  destruct (bsp s) as [c|c|c|c| | | |]; repeat case_decide; subst; intuition congruence.
Qed.

(** A step of processor [i] alone. *)
Lemma start_inv_ap s i p st stk h : start_inv s -> can_be (bsp s) i p ->
  (forall j, j <> i -> st j = status s j) -> (i <> boot -> status_ok p (st i)) ->
  (stk = own_stack s \/ stk = set_at i (Some (stack_top i)) (own_stack s)) ->
  (i <> boot -> p = OnStack \/ has_started p -> is_Some (stk i)) ->
  holder_ok (bsp s) (set_at i p (ap s)) h ->
  start_inv (mkSstate (bsp s) (set_at i p (ap s)) stk (kst s) st h).
Proof.
  intros [Hb Ha Hk Hst Hsk Hl Hh] Hp Hs Hsi Hstk Hld Hh'. constructor; cbn.
  - done.
  - intros j. destruct (decide (j = i)) as [->|]; [by rewrite set_at_eq|by rewrite set_at_ne].
  - done.
  - intros j Hj. destruct (decide (j = i)) as [->|Hne]; [by rewrite set_at_eq; apply Hsi|].
    rewrite set_at_ne, Hs by done. by apply Hst.
  - intros j a. destruct Hstk as [->| ->]; [apply Hsk|]. destruct (decide (j = i)) as [->|Hne].
    + rewrite set_at_eq. by intros [= <-].
    + rewrite set_at_ne by done. apply Hsk.
  - intros j Hj. destruct (decide (j = i)) as [->|Hne]; [by rewrite set_at_eq; apply Hld|]. rewrite set_at_ne by done.
    intros Hp'. destruct Hstk as [->| ->]; [by apply Hl|]. rewrite set_at_ne by done. by apply Hl.
  - exact Hh'.
Qed.

(** A step of the boot processor that moves nobody else. *)
Lemma start_inv_bsp s b k h : start_inv s -> bsp_ok b -> (forall i, can_be b i (ap s i)) ->
  (forall c, b = BStart c \/ b = BWait c -> k = stack_top c) -> b <> BOut -> h = Some boot ->
  start_inv (mkSstate b (ap s) (own_stack s) k (status s) h).
Proof. intros [Hb Ha Hk Hst Hsk Hl Hh] Hb' Hc Hk' Ho Hh'. constructor; try done. cbn. by destruct b. Qed.

(** The startup interrupt. *)
Lemma start_inv_start c s : start_inv s -> bsp s = BStart c ->
  start_inv (put bsp (BWait c) (upd ap (set_at c Entry) s)).
Proof.
  intros H E. pose proof H as [Hb Ha Hk Hs Hsk Hl Hh].
  rewrite E in *. cbn in Hb.
  assert (ap s c = Halted) as Hc by (specialize (Ha c); cbn in Ha; rewrite Ha; apply decide_False; lia).
  constructor; cbn; [done| |intros c' [?|[= <-]]; [done|by apply Hk; left]| |done| |done].
  + intros i. case_decide as Hi; [subst; rewrite set_at_eq; by left|]. rewrite set_at_ne by done. apply Ha.
  + intros i Hi. specialize (Hs i Hi). destruct (decide (i = c)) as [->|]; [|by rewrite set_at_ne].
    rewrite set_at_eq. by rewrite Hc in Hs.
  + intros i Hi. destruct (decide (i = c)) as [->|]; [|rewrite set_at_ne by done; by apply Hl].
    rewrite set_at_eq. unfold has_started. intuition congruence.
Qed.

(** The boot processor leaves the kernel for the first time. *)
Lemma start_inv_yield s st : start_inv s -> bsp s = BYield -> (forall i, i <> boot -> st i = status s i) ->
  start_inv (mkSstate BOut (set_at boot Gone (ap s)) (own_stack s) (kst s) st None).
Proof.
  intros [Hb Ha Hk Hs Hsk Hl Hh] E Hst. rewrite E in *.
  assert (forall j, ~ inside (set_at boot Gone (ap s) j)) as Hout.
  { intros j. destruct (decide (j = boot)) as [->|Hj]; [rewrite set_at_eq; by intros [?|?]|]. rewrite set_at_ne by done.
    specialize (Ha j). cbn in Ha. rewrite Ha. case_decide; by intros [?|?]. }
  constructor; cbn; [done| |by intros c [?|?]| |done| |done].
  - intros i. specialize (Ha i). cbn in Ha. destruct (decide (i = boot)) as [->|Hi].
    + rewrite decide_False by (by intros [_ ?]). rewrite set_at_eq. by right; right.
    + rewrite set_at_ne, Ha by done. case_decide; [by left|done].
  - intros i Hi. rewrite set_at_ne, Hst by done. by apply Hs.
  - intros i Hi. rewrite set_at_ne by done. by apply Hl.
Qed.

(** A processor that is out of the kernel or in it changes places. *)
Lemma start_inv_out s i p st h : start_inv s -> bsp s = BOut -> other i \/ i = boot -> inside p \/ p = Gone ->
  (forall j, j <> i -> st j = status s j) -> (i <> boot -> status_ok p (st i)) -> has_started (ap s i) -> holder_ok BOut (set_at i p (ap s)) h ->
  start_inv (mkSstate (bsp s) (set_at i p (ap s)) (own_stack s) (kst s) st h).
Proof.
  intros H E Hi Hp Hst Hsi Hs Hh. apply start_inv_ap; try done.
  - rewrite E. cbn. unfold inside in Hp. repeat case_decide; intuition congruence.
  - by left.
  - intros Hne _. apply (si_loaded _ H i Hne). by right.
  - by rewrite E.
Qed.

(** Taking the lock, and giving it back. *)
Lemma holder_lock f i : holder_ok BOut f None -> holder_ok BOut (set_at i Scheduling f) (Some i).
Proof.
  intros Hn. split; [rewrite set_at_eq; by left|]. intros j. destruct (decide (j = i)) as [->|]; [done|].
  rewrite set_at_ne by done. intros Hj. by destruct (Hn j).
Qed.

Lemma holder_leave f i h p : holder_ok BOut f h -> inside (f i) -> ~ inside p -> holder_ok BOut (set_at i p f) None.
Proof.
  intros Hh Hi Hp j. destruct (decide (j = i)) as [->|Hne]; [by rewrite set_at_eq|]. rewrite set_at_ne by done. intros Hj.
  destruct h as [o|]; [|by apply (Hh j)]. destruct Hh as [_ Hu]. apply Hne. by rewrite (Hu i Hi), (Hu j Hj).
Qed.

Lemma holder_stay f i h p : holder_ok BOut f h -> inside (f i) -> inside p -> holder_ok BOut (set_at i p f) h.
Proof.
  intros Hh Hi Hp. destruct h as [o|]; [|by destruct (Hh i)]. destruct Hh as [Ho Hu]. pose proof (Hu i Hi) as <-.
  split; [by rewrite set_at_eq|]. intros j. destruct (decide (j = i)) as [->|]; [done|]. rewrite set_at_ne by done. apply Hu.
Qed.

Lemma start_inv_lock i s : start_inv s -> ap s i = Started \/ (ap s i = Gone /\ status s i = CPU_STARTED) -> holder s = None ->
  start_inv (upd ap (set_at i Scheduling) (put holder (Some i) s)).
Proof.
  intros H Hp Hf. pose proof H as [Hb Ha Hk Hs Hsk Hl Hh].
  assert (bsp s = BOut) as Eb by (destruct (bsp s); cbn in Hh; congruence || done).
  apply (start_inv_out s i Scheduling (status s) (Some i)); try done.
  - destruct Hp as [Hp|[Hp _]]; [left; by apply (started_waits s)|]. by apply (scheduling_out s i H); right.
  - by left; left.
  - intros Hne. destruct Hp as [Hp|[_ Hp]]; [|done]. specialize (Hs i Hne). by rewrite Hp in Hs.
  - unfold has_started. destruct Hp as [Hp|[Hp _]]; auto.
  - apply holder_lock. by rewrite <- Hf, <- Eb.
Qed.

Lemma start_inv_leave i s st : start_inv s -> ap s i = Scheduling ->
  (forall j, j <> i -> st j = status s j) -> st i = status s i \/ st i = CPU_HALTED ->
  start_inv (mkSstate (bsp s) (set_at i Gone (ap s)) (own_stack s) (kst s) st None).
Proof.
  intros H E Hst Hsi. destruct (scheduling_out s i H ltac:(by left; left)) as [Eb Hi].
  apply start_inv_out; try done; [by right| |rewrite E; by right; left|].
  - intros Hne. pose proof (si_status _ H i Hne) as Hs. rewrite E in Hs. cbn in Hs |- *. rewrite <- Hs. by destruct Hsi; auto.
  - eapply holder_leave; [pose proof (si_holder _ H) as Hh; rewrite Eb in Hh; exact Hh|rewrite E; by left|by intros [?|?]].
Qed.

Lemma start_inv_monitor i s : start_inv s -> ap s i = Scheduling -> start_inv (upd ap (set_at i Monitoring) s).
Proof.
  intros H E. destruct (scheduling_out s i H ltac:(by left; left)) as [Eb Hi].
  apply (start_inv_out s i Monitoring (status s) (holder s)); try done; [by left; right| |rewrite E; by right; left|].
  - intros Hne. pose proof (si_status _ H i Hne) as Hs. by rewrite E in Hs.
  - apply holder_stay; [pose proof (si_holder _ H) as Hh; rewrite Eb in Hh; exact Hh|rewrite E; by left|by right].
Qed.

Lemma start_inv_wake i s : start_inv s -> ap s i = Gone -> start_inv (upd status (set_at i CPU_STARTED) s).
Proof.
  intros [Hb Ha Hk Hs Hsk Hl Hh] E. constructor; try done. intros j Hj. cbn. specialize (Hs j Hj).
  destruct (decide (j = i)) as [->|]; [|by rewrite set_at_ne]. rewrite set_at_eq, E. by left.
Qed.

Lemma start_inv_step s s' : start_inv s -> sstep s s' -> start_inv s'.
Proof.
  intros H Hst. pose proof H as [Hb Ha Hk Hs Hsk Hl Hh].
  destruct Hst as [c s E Hc Hcb|c s E Hc Hcb|c s E Hc|c s E|c s E|c s E Hup|s E|s E|s E|s E|i s E|i s E|i s E Hf
    |i s E|i s E|i s E|i s E|i s E Hi Hf].
  - rewrite E in *. cbn in Hb. apply (start_inv_bsp s); cbn; [done|lia| |naive_solver|done..]. intros i. specialize (Ha i). cbn in Ha. rewrite Ha.
    unfold other. repeat case_decide; lia || done.
  - rewrite E in *. cbn in Hb. apply (start_inv_bsp s); cbn; [done|by repeat split|done|naive_solver|done..].
  - rewrite E in *. cbn in Hb. apply (start_inv_bsp s); cbn; [done|done| |naive_solver|done..]. intros i. specialize (Ha i). cbn in Ha. rewrite Ha.
    unfold other. repeat case_decide; lia || done.
  - rewrite E in *. cbn in Hb. apply (start_inv_bsp s); cbn; [done|done|done|naive_solver|done..].
  - by apply start_inv_start.
  - rewrite E in *. cbn in Hb. apply (start_inv_bsp s); cbn; [done|destruct Hb; lia| |naive_solver|done..]. intros i.
    pose proof (Ha i) as Hi. cbn in Hi. case_decide as Hic.
    + subst. specialize (Hs c ltac:(apply Hb)). rewrite decide_True by (split; [done|lia]).
      destruct Hi as [Hi|[Hi|Hi]]; rewrite Hi in Hs |- *; cbn in Hs; congruence.
    + rewrite Hi. repeat case_decide; unfold other in *; lia || done.
  - rewrite E in *. apply (start_inv_bsp s); cbn; [done|done|done|naive_solver|done..].
  - by apply (start_inv_yield s (status s)).
  - apply (start_inv_yield s (set_at boot CPU_HALTED (status s))); [done..|]. intros i Hi. by apply set_at_ne.
  - rewrite E in *. apply (start_inv_bsp s); cbn; [done|done|done|naive_solver|done..].
  - destruct (on_its_way s i H ltac:(by left)) as [Eb Hi].
    apply (start_inv_ap s i OnStack (status s) (set_at i (Some (kst s)) (own_stack s)) (holder s)); try done.
    + rewrite Eb. cbn. rewrite decide_True by done. by right; left.
    + intros Hne. specialize (Hs i Hne). by rewrite E in Hs.
    + right. by rewrite (Hk i) by (by right).
    + intros _ _. rewrite set_at_eq. by eexists.
    + by rewrite Eb in *.
  - destruct (on_its_way s i H ltac:(by right)) as [Eb Hi].
    apply (start_inv_ap s i Started (set_at i CPU_STARTED (status s)) (own_stack s) (holder s)); try done.
    + rewrite Eb. cbn. rewrite decide_True by done. by right; right.
    + intros j Hj. by apply set_at_ne.
    + intros _. by rewrite set_at_eq.
    + by left.
    + intros Hne _. apply Hl; [done|by left].
    + by rewrite Eb in *.
  - apply start_inv_lock; [done|by left|done].
  - by apply (start_inv_leave i s (status s)); [..|left].
  - apply (start_inv_leave i s (set_at i CPU_HALTED (status s))); [done..| |right; apply set_at_eq]. intros j Hj. by apply set_at_ne.
  - by apply start_inv_monitor.
  - by apply start_inv_wake.
  - apply start_inv_lock; [done|by right|done].
Qed.

Lemma start_reachable s : rtc sstep start s -> start_inv s.
Proof.
  intros H. assert (start_inv start) as Hi by apply start_ok. revert Hi.
  induction H as [|s1 s2 s3 Hs _ IH]; [done|]. intros Hi. by apply IH, (start_inv_step s1).
Qed.

(** C13: under every interleaving, each processor [boot_aps] starts runs on its own
    stack, because only one at a time is between its startup interrupt and
    reporting itself; when [boot_aps] is past, all of them have reported; and none
    of them is in the scheduler before the boot processor has created the first
    environments and left the kernel, nor two at a time. *)
Theorem ap_start_safe s : rtc sstep start s ->
  (forall i a, own_stack s i = Some a -> a = stack_top i) /\
  (forall i j, ap s i = Entry \/ ap s i = OnStack -> ap s j = Entry \/ ap s j = OnStack -> i = j) /\
  (bsp s = BEnvs \/ bsp s = BYield \/ bsp s = BOut -> forall i, 0 <= i < n -> i <> boot -> has_started (ap s i)) /\
  (forall i, ap s i = Scheduling \/ ap s i = Gone -> bsp s = BOut) /\
  (forall i j, ap s i = Scheduling -> ap s j = Scheduling -> i = j).
Proof.
  intros Hr. pose proof (start_reachable s Hr) as H. split; [apply (si_stack _ H)|]. split; [|split; [|split]].
  - intros i j Hi Hj. destruct (on_its_way s i H Hi) as [Ei _]. destruct (on_its_way s j H Hj) as [Ej _]. congruence.
  - intros Hb i Hi Hne. pose proof (si_ap _ H i) as Hc. unfold has_started.
    destruct Hb as [Hb|[Hb|Hb]]; rewrite Hb in Hc; cbn in Hc; rewrite decide_True in Hc by done; by auto.
  - intros i Hi. apply (scheduling_out s i H). unfold inside. tauto.
  - intros i j Hi Hj. destruct (scheduling_out s i H ltac:(by left; left)) as [Eb _]. pose proof (si_holder _ H) as Hh.
    rewrite Eb in Hh. destruct (holder s) as [o|]; [|destruct (Hh i); by left]. destruct Hh as [_ Hu].
    rewrite (Hu i), (Hu j) by (by left). done.
Qed.

(** ** [boot_aps] ends *)

(** The boot processor is in the loop of [boot_aps]. *)
Definition booting (b : bpc) : bool := match b with BLoop _ | BStack _ | BStart _ | BWait _ => true | _ => false end.

(** A step on the way. *)
Definition boot_step (s s' : sstate) : Prop := booting (bsp s) = true /\ sstep s s'.

(** The steps left: six for each processor. *)
Definition remaining (s : sstate) : Z :=
  match bsp s with
  | BLoop c => 6 * Z.max (n - c) 0 + 1
  | BStack c => 6 * (n - c)
  | BStart c => 6 * (n - c) - 1
  | BWait c => 6 * (n - c) - match ap s c with Entry => 2 | OnStack => 3 | _ => 4 end
  | _ => 0
  end.

Lemma remaining_nonneg s : start_inv s -> 0 <= remaining s.
Proof.
  intros H. pose proof (si_bsp _ H) as Hb. unfold remaining. destruct (bsp s) as [c|c|c|c| | | |]; cbn in Hb; try lia;
    destruct Hb; [lia..|]. destruct (ap s c); lia.
Qed.

Lemma remaining_step s s' : start_inv s -> boot_step s s' -> remaining s' + 1 <= remaining s.
Proof.
  intros H [Hb Hst]. pose proof (si_bsp _ H) as Hok. unfold remaining.
  destruct Hst as [c s E Hc Hcb|c s E Hc Hcb|c s E Hc|c s E|c s E|c s E Hup|s E|s E|s E|s E|i s E|i s E|i s E Hf
    |i s E|i s E|i s E|i s E|i s E Hi Hf]; try (rewrite E in *; cbn in Hok, Hb; try done);
    cbn [bsp ap put upd eta_sstate status own_stack]; try lia.
  - rewrite set_at_eq. lia.
  - pose proof (si_status _ H c ltac:(apply Hok)) as Hs. destruct Hok as [? ?]. destruct (ap s c); cbn in Hs; try congruence; lia.
  - destruct (on_its_way s i H ltac:(by left)) as [Eb _]. rewrite Eb. rewrite set_at_eq, E. lia.
  - destruct (on_its_way s i H ltac:(by right)) as [Eb _]. rewrite Eb. rewrite set_at_eq, E. lia.
  - pose proof (si_holder _ H) as Hh. by destruct (bsp s); cbn in Hh; try congruence.
  - destruct (scheduling_out s i H ltac:(by left; left)) as [Eb _]. by rewrite Eb in Hb.
  - destruct (scheduling_out s i H ltac:(by left; left)) as [Eb _]. by rewrite Eb in Hb.
  - destruct (scheduling_out s i H ltac:(by left; left)) as [Eb _]. by rewrite Eb in Hb.
  - destruct (scheduling_out s i H ltac:(by right)) as [Eb _]. by rewrite Eb in Hb.
  - destruct (scheduling_out s i H ltac:(by right)) as [Eb _]. by rewrite Eb in Hb.
Qed.

(** While it is in the loop, somebody can go on. *)
Lemma booting_steps s : start_inv s -> booting (bsp s) = true -> exists s', sstep s s'.
Proof.
  intros H Hbt. pose proof (si_bsp _ H) as Hb. pose proof (si_ap _ H) as Ha.
  destruct (bsp s) as [c|c|c|c| | | |] eqn:E; try done.
  - destruct (decide (n <= c)); [by eexists; eapply s_done|].
    destruct (decide (c = boot)); eexists; [eapply s_skip|eapply s_next]; done || lia.
  - by eexists; eapply s_stack.
  - by eexists; eapply s_start.
  - specialize (Ha c). cbn in Ha. rewrite decide_True in Ha by done. destruct Ha as [Hc|[Hc|Hc]].
    + by eexists; eapply (s_entry c).
    + by eexists; eapply (s_main c).
    + eexists. eapply (s_up c); [done|]. pose proof (si_status _ H c ltac:(apply Hb)) as Hs. by rewrite Hc in Hs.
Qed.

(** When it leaves the loop, the others have all reported. *)
Lemma boot_step_done s s' : start_inv s -> boot_step s s' -> booting (bsp s') = false -> bsp s' = BEnvs.
Proof.
  intros H [Hb Hst]. destruct Hst as [c s E Hc Hcb|c s E Hc Hcb|c s E Hc|c s E|c s E|c s E Hup|s E|s E|s E|s E|i s E|i s E|i s E Hf
    |i s E|i s E|i s E|i s E|i s E Hi Hf]; try (by rewrite E in Hb); cbn [bsp ap put upd eta_sstate]; try done; congruence.
Qed.

Lemma boot_run k s : nsteps boot_step k start s ->
  start_inv s /\ Z.of_nat k + remaining s <= 6 * Z.max n 0 + 1 /\ (booting (bsp s) = false -> bsp s = BEnvs).
Proof.
  revert s. induction k as [|k IH]; intros s Hr.
  - inversion Hr; subst. split; [apply start_ok|]. split; [unfold remaining, start; cbn; lia|done].
  - apply nsteps_inv_r in Hr as (s1 & Hr & Hs). destruct (IH s1 Hr) as (H1 & Hn & _).
    split; [by eapply start_inv_step, Hs|]. split; [pose proof (remaining_step s1 s H1 Hs); lia|by apply (boot_step_done s1)].
Qed.

(** C15: [boot_aps] ends, however the processors interleave: from its start at most
    six steps for each processor and one more are taken, and there is always one to take
    until the boot processor is past the loop, when every other processor has loaded its
    stack and reported itself and waits for the lock.  A read of a processor's
    status that finds it not started is no step, so that this says the loop ends if
    no processor stops for good. *)
Theorem boot_aps_terminates k s : nsteps boot_step k start s ->
  Z.of_nat k <= 6 * Z.max n 0 + 1 /\
  if booting (bsp s) then exists s', sstep s s'
  else bsp s = BEnvs /\ forall i, 0 <= i < n -> i <> boot -> ap s i = Started /\ own_stack s i = Some (stack_top i).
Proof.
  intros Hr. destruct (boot_run k s Hr) as (H & Hk & Hend). pose proof (remaining_nonneg s H).
  split; [lia|]. destruct (booting (bsp s)) eqn:Hb; [by apply booting_steps|]. specialize (Hend eq_refl).
  split; [done|]. intros i Hi Hne. pose proof (si_ap _ H i) as Ha. rewrite Hend in Ha. cbn in Ha.
  rewrite decide_True in Ha by done. split; [done|].
  destruct (si_loaded _ H i Hne) as [a Hst]; [right; by left|]. by rewrite (si_stack _ H i a Hst) in Hst.
Qed.
End Start.

(** Two processors: the second on its way in. *)
Lemma start_demo : exists s, rtc (sstep (machine := small_machine) 2 0) (start 0) s /\
  bsp s = BWait 1 /\ ap s 1 = OnStack /\ own_stack s 1 = Some 0xf0110000.
Proof.
  eexists. split.
  - eapply rtc_l; [by apply (s_skip 2 0 0)|]. eapply rtc_l; [by apply (s_next 2 0 1)|].
    eapply rtc_l; [by apply (s_stack 2 0 1)|]. eapply rtc_l; [by apply (s_start 2 0 1)|].
    eapply rtc_l; [by apply (s_entry 2 0 1)|]. apply rtc_refl.
  - done.
Qed.

Lemma ap_start_safe_witness : exists s, rtc (sstep (machine := small_machine) 2 0) (start 0) s /\
  ap s 1 = OnStack /\ own_stack s 1 = Some (stack_top (machine := small_machine) 1).
Proof.
  destruct start_demo as (s & Hr & _ & Ha & Hs). exists s. split; [exact Hr|]. split; [exact Ha|].
  destruct (ap_start_safe (machine := small_machine) 2 0 s Hr) as (Hst & _). rewrite (Hst _ _ Hs) in Hs. exact Hs.
Defined.

(** The whole start of two processors. *)
Lemma boot_demo : exists s, nsteps (boot_step (machine := small_machine) 2 0) 8 (start 0) s /\ bsp s = BEnvs.
Proof.
  eexists. split.
  - eapply nsteps_l; [split; [reflexivity|by apply (s_skip 2 0 0)]|]. eapply nsteps_l; [split; [reflexivity|by apply (s_next 2 0 1)]|].
    eapply nsteps_l; [split; [reflexivity|by apply (s_stack 2 0 1)]|]. eapply nsteps_l; [split; [reflexivity|by apply (s_start 2 0 1)]|].
    eapply nsteps_l; [split; [reflexivity|by apply (s_entry 2 0 1)]|]. eapply nsteps_l; [split; [reflexivity|by apply (s_main 2 0 1)]|].
    eapply nsteps_l; [split; [reflexivity|by apply (s_up 2 0 1)]|]. eapply nsteps_l; [split; [reflexivity|by apply (s_done 2 0 2)]|].
    apply nsteps_O.
  - done.
Qed.

Lemma boot_aps_terminates_witness : exists s, bsp s = BEnvs /\ ap s 1 = Started /\
  own_stack s 1 = Some (stack_top (machine := small_machine) 1).
Proof.
  destruct boot_demo as (s & Hr & Hb). exists s. split; [exact Hb|].
  destruct (boot_aps_terminates (machine := small_machine) 2 0 8 s Hr) as [_ H]. rewrite Hb in H.
  destruct H as [_ H]. apply (H 1); lia.
Defined.
