(* ===== verification/InitSpec.v ===== *)
(** * [boot_aps] refines the start of the processors

    The function of [kern/init.c] as it runs on the kernel's state against the
    steps of [Init]: whatever the other processors do between two of its reads, as
    long as they take steps of their own, a run of [boot_aps] is a run of the
    interleaving. *)

From Stdlib Require Import Lia ZArith ZifyClasses ZifyInst ZifyBool FunctionalExtensionality.
From stdpp Require Import base gmap list strings numbers.
From S2P Require Import Prelude Cmonad Mmu Printfmt Console State Spinlock Umem Pmap MemInit Lapic Mpconfig Env Trap Init.

Lemma bind_Ret_inv {S X A B} (m : M S X A) (f : A -> M S X B) s b s' :
  (m ≫= f) s = Ret b s' -> exists a s1, m s = Ret a s1 /\ f a s1 = Ret b s'.
Proof. unfold mbind, M_bind. destruct (m s); naive_solver. Qed.

(** ** What sending the startup interrupt leaves alone *)

Record shared_same (s s' : kstate) : Prop := {
  sh_cpus : cpus s' = cpus s;
  sh_kst : mpentry_kstack s' = mpentry_kstack s;
  sh_lock : kernel_lock s' = kernel_lock s;
  sh_cpunum : cpunum s' = cpunum s;
  sh_ncpu : ncpu s' = ncpu s
}.

#[export] Instance shared_same_preorder : PreOrder shared_same.
Proof. split; [by constructor|]. intros s1 s2 s3 [] []. constructor; congruence. Qed.

Definition keeps {A} (m : K A) : Prop := forall s a s', m s = Ret a s' -> shared_same s s'.

Lemma keeps_kstate_bind {A B} (m : K A) (f : A -> K B) : keeps m -> (forall a, keeps (f a)) -> keeps (m ≫= f).
Proof. intros Hm Hf s b s' (a & s1 & H1 & H2)%bind_Ret_inv. etrans; [by eapply Hm|by eapply Hf]. Qed.

Lemma keeps_ret {A} (a : A) : keeps (mret a).
Proof. intros s a' s' [= <- <-]. reflexivity. Qed.

Lemma keeps_emit ev : keeps (emit ev).
Proof. intros s a s' [= <- <-]. by constructor. Qed.

Lemma keeps_gets {A} (f : kstate -> A) : keeps (gets f).
Proof. intros s a s' [= <- <-]. reflexivity. Qed.

Lemma keeps_panic {A} msg : keeps (panic msg : K A).
Proof. done. Qed.

Lemma keeps_with_cons {A} (m : M console leave A) : keeps (with_cons m).
Proof. intros s a s'. unfold with_cons. destruct (m (cons s)); [|done..]. intros [= <- <-]. by constructor. Qed.

Lemma keeps_kstore_byte va b : keeps (kstore_byte va b).
Proof.
  intros s a s'. unfold kstore_byte, pstore_byte. destruct (in_linear s va); [|done].
  destruct (_ <? _); [|done]. intros [= <- <-]. by constructor.
Qed.

Lemma keeps_write_le n va v : keeps (write_le kstore_byte n va v).
Proof.
  revert va v. induction n as [|n IH]; intros va v; cbn [write_le]; [apply keeps_ret|].
  apply keeps_kstate_bind; [apply keeps_kstore_byte|]. intros _. apply IH.
Qed.

Lemma keeps_KADDR pa : keeps (KADDR pa).
Proof. apply keeps_kstate_bind; [apply keeps_gets|]. intros np. destruct (_ <=? _); [apply keeps_panic|apply keeps_ret]. Qed.

Lemma keeps_PADDR va : keeps (PADDR va).
Proof. unfold PADDR. destruct (_ <? _); [apply keeps_panic|apply keeps_ret]. Qed.

Lemma keeps_for_loop n i step body : (forall j, keeps (body j)) -> keeps (for_loop n i step body : K unit).
Proof.
  intros H. revert i. induction n as [|n IH]; intros i; cbn [for_loop]; [apply keeps_ret|].
  apply keeps_kstate_bind; [apply H|]. intros _. apply IH.
Qed.

Create HintDb keeps.
#[export] Hint Resolve keeps_emit keeps_ret keeps_gets keeps_with_cons keeps_KADDR keeps_PADDR
  keeps_kstore_byte keeps_write_le : keeps.
#[export] Hint Extern 1 (keeps (_ ≫= _)) => apply keeps_kstate_bind; [|intros ?] : keeps.
#[export] Hint Extern 1 (keeps (for_loop _ _ _ _)) => apply keeps_for_loop; intros ? : keeps.

Section Refine.
Context {machine : Machine}.

Lemma keeps_startap apicid addr : keeps (lapic_startap apicid addr).
Proof. unfold lapic_startap, lapicw, kstore16. auto 20 with keeps. Qed.

Lemma keeps_copy_code code bytes : keeps (copy_code code bytes).
Proof. revert code. induction bytes as [|b bytes IH]; intros code; cbn [copy_code]; auto with keeps. Qed.

(** ** The shared variables of the state *)

Definition view (b : bpc) (f : Z -> apc) (stk : Z -> option Z) (s : kstate) : sstate :=
  mkSstate b f stk (mpentry_kstack s) (fun i => default CPU_UNUSED (cpu_status <$> cpus s !! i)) (lk_cpu (kernel_lock s)).

Lemma view_same b f stk s s' : shared_same s s' -> view b f stk s' = view b f stk s.
Proof. intros [H1 H2 H3 _ _]. unfold view. by rewrite H1, H2, H3. Qed.

Context (n boot : Z) (others : kstate -> kstate).

(** The other processors take steps of their own, while the boot processor waits. *)
Hypothesis others_step : forall c f stk s, start_inv n boot (view (BWait c) f stk s) ->
  cpu_status <$> cpus s !! c <> Some CPU_STARTED ->
  exists f' stk', rtc (sstep n boot) (view (BWait c) f stk s) (view (BWait c) f' stk' (others s)) /\
    cpunum (others s) = cpunum s /\ ncpu (others s) = ncpu s.

Lemma start_inv_rtc s s' : start_inv n boot s -> rtc (sstep n boot) s s' -> start_inv n boot s'.
Proof. intros H Hr. revert H. induction Hr as [|s1 s2 s3 Hs _ IH]; [done|]. intros H. by apply IH, (start_inv_step n boot s1). Qed.

Lemma wait_started_run fuel c f stk s s' :
  start_inv n boot (view (BWait c) f stk s) -> wait_started others fuel c s = Ret tt s' ->
  exists f' stk', rtc (sstep n boot) (view (BWait c) f stk s) (view (BLoop (c + 1)) f' stk' s') /\
    cpunum s' = cpunum s /\ ncpu s' = ncpu s.
Proof.
  revert f stk s. induction fuel as [|fuel IH]; intros f stk s H; [done|]. cbn [wait_started].
  intros (cs & s1 & [= <- <-] & H2)%bind_Ret_inv. destruct (cpus s !! c) as [ci|] eqn:Ec; [|done].
  case_bool_decide as Hst.
  - injection H2 as <-. exists f, stk. split; [|done]. apply rtc_once, (s_up n boot c); [done|]. cbn. by rewrite Ec, <- Hst.
  - apply bind_Ret_inv in H2 as ([] & s1 & [= <-] & H2).
    destruct (others_step c f stk s H) as (f1 & stk1 & Hr & Hc & Hn); [rewrite Ec; cbn; congruence|].
    destruct (IH f1 stk1 (others s)) as (f2 & stk2 & Hr2 & Hc2 & Hn2); [by eapply start_inv_rtc|done|].
    exists f2, stk2. split; [by etrans|]. split; congruence.
Qed.

Lemma boot_ap_run fuel code c f stk s s' :
  cpunum s = boot -> 0 <= c < n -> start_inv n boot (view (BLoop c) f stk s) ->
  boot_ap others fuel code c s = Ret tt s' ->
  exists f' stk', rtc (sstep n boot) (view (BLoop c) f stk s) (view (BLoop (c + 1)) f' stk' s') /\
    cpunum s' = cpunum s /\ ncpu s' = ncpu s.
Proof.
  intros Hme Hc H. unfold boot_ap. intros (me & s1 & [= <- <-] & H2)%bind_Ret_inv. rewrite Hme in H2.
  destruct (Z.eqb_spec c boot) as [Hcb|Hcb].
  { injection H2 as <-. exists f, stk. split; [|done]. apply rtc_once. by apply (s_skip n boot c); [|lia|]. }
  apply bind_Ret_inv in H2 as ([] & s2 & [= <-] & H2). fold (stack_top c) in H2.
  set (s2 := put mpentry_kstack (stack_top c) s) in *.
  apply bind_Ret_inv in H2 as (cs & s3 & Hcs & H2). injection Hcs as _ Hs3. subst s3.
  destruct (cs !! c) as [ci|]; [|done].
  apply bind_Ret_inv in H2 as (pa & s3 & Hpa & H2). apply bind_Ret_inv in H2 as ([] & s4 & H4 & H5).
  assert (shared_same s2 s4) as Hsh by (etrans; [by eapply keeps_PADDR|by eapply keeps_startap]).
  assert (rtc (sstep n boot) (view (BLoop c) f stk s) (view (BWait c) (set_at c Entry f) stk s4)) as Hr.
  { rewrite (view_same _ _ _ _ _ Hsh). eapply rtc_l; [by apply (s_next n boot c); [|lia|]|].
    eapply rtc_l; [by apply (s_stack n boot c)|]. eapply rtc_l; [by apply (s_start n boot c)|]. apply rtc_refl. }
  destruct (wait_started_run fuel c _ _ s4 s' (start_inv_rtc _ _ H Hr) H5) as (f2 & stk2 & Hr2 & Hc2 & Hn2).
  exists f2, stk2. split; [by etrans|]. rewrite Hc2, Hn2, (sh_cpunum _ _ Hsh), (sh_ncpu _ _ Hsh). done.
Qed.

Lemma boot_loop_run fuel code k c f stk s s' :
  cpunum s = boot -> 0 <= c -> c + Z.of_nat k = Z.max c n -> start_inv n boot (view (BLoop c) f stk s) ->
  for_loop k c 1 (boot_ap others fuel code) s = Ret tt s' ->
  exists f' stk', rtc (sstep n boot) (view (BLoop c) f stk s) (view (BLoop (Z.max c n)) f' stk' s') /\ ncpu s' = ncpu s.
Proof.
  revert c f stk s. induction k as [|k IH]; intros c f stk s Hme Hc Hk H; cbn [for_loop].
  - intros [= <-]. exists f, stk. replace (Z.max c n) with c by lia. done.
  - intros ([] & s1 & H1 & H2)%bind_Ret_inv.
    destruct (boot_ap_run fuel code c f stk s s1 Hme ltac:(lia) H H1) as (f1 & stk1 & Hr1 & Hc1 & Hn1).
    destruct (IH (c + 1) f1 stk1 s1) as (f2 & stk2 & Hr2 & Hn2); [congruence|lia|lia|by eapply start_inv_rtc|done|].
    exists f2, stk2. replace (Z.max (c + 1) n) with (Z.max c n) in Hr2 by lia. split; [by etrans|congruence].
Qed.

(** C14: [boot_aps], called by the boot processor with the lock while no other
    processor has started: when it returns it has run the steps of the interleaving
    from the head of its loop to the end, whatever the others did meanwhile; every
    other processor reports [CPU_STARTED] and has loaded its own stack. *)
Theorem boot_aps_refines fuel s s' :
  cpunum s = boot -> ncpu s = n -> lk_cpu (kernel_lock s) = Some boot ->
  (forall i, i <> boot -> cpu_status <$> cpus s !! i <> Some CPU_STARTED) ->
  boot_aps others fuel s = Ret tt s' ->
  exists f stk, rtc (sstep n boot) (view (BLoop 0) (fun _ => Halted) (fun _ => None) s) (view BEnvs f stk s') /\
    forall i, 0 <= i < n -> i <> boot -> cpu_status <$> cpus s' !! i = Some CPU_STARTED /\ stk i = Some (stack_top i).
Proof.
  intros Hme Hn Hlk Hst. unfold boot_aps.
  intros (code & s1 & H1 & H2)%bind_Ret_inv. apply bind_Ret_inv in H2 as ([] & s2 & H2 & H3).
  apply bind_Ret_inv in H3 as (n0 & s3 & [= <- <-] & H4).
  assert (shared_same s s2) as Hsh by (etrans; [by eapply keeps_KADDR|by eapply keeps_copy_code]).
  rewrite (sh_ncpu _ _ Hsh), Hn in H4.
  assert (start_inv n boot (view (BLoop 0) (fun _ => Halted) (fun _ => None) s)) as H.
  { constructor; cbn; [lia| |naive_solver| |done| |exact Hlk].
    - intros i. rewrite decide_False; [done|]. intros [[? _] ?]. lia.
    - intros i Hi. specialize (Hst i Hi). destruct (cpus s !! i) as [ci|]; cbn in *; congruence.
    - intros i _ [?|[?|[?|[?|?]]]]; done. }
  rewrite <- (view_same _ _ _ _ _ Hsh) in H |- *.
  destruct (boot_loop_run fuel code (Z.to_nat n) 0 _ _ s2 s' ltac:(rewrite (sh_cpunum _ _ Hsh); done) ltac:(lia) ltac:(lia) H H4)
    as (f & stk & Hr & _).
  assert (rtc (sstep n boot) (view (BLoop 0) (fun _ => Halted) (fun _ => None) s2) (view BEnvs f stk s')) as Hr2.
  { etrans; [exact Hr|]. apply rtc_once. by apply (s_done n boot (Z.max 0 n)); [|lia]. }
  exists f, stk. split; [exact Hr2|]. intros i Hi Hne. pose proof (start_inv_rtc _ _ H Hr2) as H'.
  pose proof (si_ap _ _ _ H' i) as Ha. cbn in Ha. rewrite decide_True in Ha by done. split.
  - pose proof (si_status _ _ _ H' i Hne) as Hs. cbn in Hs. rewrite Ha in Hs. cbn in Hs.
    by destruct (cpus s' !! i); cbn in *; [rewrite Hs|].
  - destruct (si_loaded _ _ _ H' i Hne) as [a E]; [right; by left|]. cbn in E. rewrite E. f_equal.
    by apply (si_stack _ _ _ H').
Qed.
End Refine.

(** ** Two processors *)

(** The second has started by the next read of its status. *)
Definition second_starts (s : kstate) : kstate := upd cpus (alter (put cpu_status CPU_STARTED) 1) s.

Lemma view_eq b f stk k st h s : k = mpentry_kstack s -> h = lk_cpu (kernel_lock s) ->
  (forall i, st i = default CPU_UNUSED (cpu_status <$> cpus s !! i)) -> mkSstate b f stk k st h = view b f stk s.
Proof. intros -> -> Hst. unfold view. f_equal. by extensionality i. Qed.

Lemma second_starts_step c f stk s : start_inv (machine := small_machine) 2 0 (view (BWait c) f stk s) ->
  cpu_status <$> cpus s !! c <> Some CPU_STARTED ->
  exists f' stk', rtc (sstep (machine := small_machine) 2 0) (view (BWait c) f stk s) (view (BWait c) f' stk' (second_starts s)) /\
    cpunum (second_starts s) = cpunum s /\ ncpu (second_starts s) = ncpu s.
Proof.
  intros H Hst. destruct (si_bsp _ _ _ H) as [Hc Hne]. assert (c = 1) as -> by lia.
  assert (forall i, default CPU_UNUSED (cpu_status <$> cpus (second_starts s) !! i) =
    if decide (i = 1 /\ is_Some (cpus s !! 1)) then CPU_STARTED else default CPU_UNUSED (cpu_status <$> cpus s !! i)) as Hcpu.
  { intros i. change (cpus (second_starts s)) with (alter (put cpu_status CPU_STARTED) 1 (cpus s)).
    destruct (decide (i = 1)) as [->|Hi]; [rewrite lookup_alter_eq|rewrite lookup_alter_ne by done].
    - destruct (cpus s !! 1) as [ci|]; cbn; case_decide as Hd; try done; [destruct Hd; by eauto|by destruct Hd as [_ [? ?]]].
    - by rewrite decide_False by (by intros [? _]). }
  destruct (cpus s !! 1) as [ci|] eqn:E.
  2:{ exists f, stk. split; [|done]. replace (view (BWait 1) f stk (second_starts s)) with (view (BWait 1) f stk s); [done|].
      apply view_eq; [done..|]. intros i. rewrite Hcpu, decide_False; [done|]. by intros [_ [? ?]]. }
  pose proof (si_ap _ _ _ H 1) as Ha. cbn in Ha.
  assert (f 1 = Entry \/ f 1 = OnStack) as Hf.
  { destruct Ha as [?|[?|Hs]]; [by left|by right|]. pose proof (si_status _ _ _ H 1 ltac:(lia)) as Hs'.
    cbn in Hs'. rewrite Hs, E in Hs'. cbn in Hs', Hst. by rewrite Hs' in Hst. }
  assert (forall g stk', g 1 = OnStack ->
    sstep (machine := small_machine) 2 0 (view (BWait 1) g stk' s) (view (BWait 1) (set_at 1 Started g) stk' (second_starts s))) as Hmain.
  { intros g stk' Hg. pose proof (s_main (machine := small_machine) 2 0 1 (view (BWait 1) g stk' s) Hg) as Hs.
    match type of Hs with sstep _ _ _ ?t =>
      replace (view (BWait 1) (set_at 1 Started g) stk' (second_starts s)) with t; [exact Hs|] end.
    apply view_eq; [done..|]. intros i. rewrite Hcpu. cbn. unfold set_at.
    destruct (decide (i = 1)) as [->|Hi]; [by rewrite decide_True by (split; [done|by eexists])|].
    by rewrite decide_False by (by intros [? _]). }
  destruct Hf as [Hf|Hf].
  - eexists _, _. split; [|done]. eapply rtc_l; [by apply (s_entry (machine := small_machine) 2 0 1)|].
    apply rtc_once. apply (Hmain (set_at 1 OnStack f) (set_at 1 (Some (mpentry_kstack s)) stk)). apply set_at_eq.
  - eexists _, _. split; [|done]. by apply rtc_once, Hmain.
Qed.

Definition two_cpus : kstate :=
  put ncpu 2 (put kernel_lock (mkSpinlock 1 (Some 0) [])
    (put cpus {[ 0 := mkCpuInfo 0 CPU_STARTED None 0 0; 1 := mkCpuInfo 1 CPU_UNUSED None 0 0 ]} (blank 16))).

Lemma boot_aps_refines_witness : exists s' f stk,
  boot_aps (machine := small_machine) second_starts 2 two_cpus = Ret tt s' /\
  rtc (sstep (machine := small_machine) 2 0) (view (BLoop 0) (fun _ => Halted) (fun _ => None) two_cpus) (view BEnvs f stk s') /\
  stk 1 = Some (stack_top (machine := small_machine) 1).
Proof.
  assert (exists s', boot_aps (machine := small_machine) second_starts 2 two_cpus = Ret tt s') as [s' Hs]
    by (eexists; vm_compute; reflexivity).
  destruct (boot_aps_refines (machine := small_machine) 2 0 second_starts second_starts_step 2 two_cpus s'
    eq_refl eq_refl eq_refl) as (f & stk & Hr & Hl).
  - intros i Hi. change (cpus two_cpus) with
      (<[0 := mkCpuInfo 0 CPU_STARTED None 0 0]> {[ 1 := mkCpuInfo 1 CPU_UNUSED None 0 0 ]} : gmap Z CpuInfo).
    rewrite lookup_insert_ne by done. destruct (decide (i = 1)) as [->|Hne].
    + rewrite lookup_singleton_eq. discriminate.
    + rewrite lookup_singleton_ne by done. discriminate.
  - exact Hs.
  - exists s', f, stk. split; [exact Hs|]. split; [exact Hr|]. apply (Hl 1); lia.
Defined.
