(* ===== verification/TrapSpec.v ===== *)
(** * What traps do

    The interrupt table, that [trap] never returns, a system call from trap to
    return, user page faults, and reading past a user's buffer. *)

From Stdlib Require Import Lia ZArith ZifyClasses ZifyInst ZifyBool.
From stdpp Require Import base gmap list strings numbers.
From S2P Require Import Prelude Cmonad Mmu Printfmt Console State Spinlock Umem Pmap.
From S2P Require Import PageList Vm VmInv PmapLem VmLem PmapSpec VmDir UserLem Env EnvLem Sched EnvSpec.
From S2P Require Import Lapic Syscall SyscallSpec IpcSpec Trap.

(** ** The interrupt table *)

Section Table.
Context {machine : Machine}.

(** The gate [trap_init] gives to trap number [n]. *)
Definition gate_of (n : Z) : option (bool * Z) :=
  snd <$> List.find (fun x => x.1 =? n) ((fun x => (x.1.1, (x.1.2, x.2))) <$> gates).

Lemma set_gates_eq l s :
  exists t, set_gates l s = Ret tt (put idt t s) /\
    (NoDup (fst ∘ fst <$> l) -> forall n, t !! n =
      match List.find (fun x => x.1 =? n) ((fun x => (x.1.1, (x.1.2, x.2))) <$> l) with
      | Some (_, (istrap, dpl)) => Some (SETGATE istrap GD_KT (vector n) dpl)
      | None => idt s !! n
      end).
Proof.
  revert s. induction l as [|[[n0 tr] dpl] l IH]; intros s.
  - exists (idt s). split; [by destruct s|done].
  - destruct (IH (upd idt (fun t => <[n0 := SETGATE tr GD_KT (vector n0) dpl]> t) s)) as (t & Ht & Hl).
    exists t. split.
    { cbn [set_gates]. erewrite bind_Ret by reflexivity. etrans; [exact Ht|]. by destruct s. }
    intros Hnd n. cbn in Hnd. apply list.NoDup_cons in Hnd as [Hnin Hnd]. rewrite Hl by done. cbn.
    destruct (Z.eqb_spec n0 n) as [<-|Hne].
    + destruct (List.find _ _) as [[n1 [tr1 dpl1]]|] eqn:Hf; [exfalso|kred; by rewrite lookup_insert_eq].
      apply find_some in Hf as [Hin Heq]. apply Z.eqb_eq in Heq. cbn in Heq. subst n1.
      apply Hnin. apply list_elem_of_In in Hin. apply list_elem_of_fmap in Hin as ([[a b] c] & He & Hin).
      apply list_elem_of_fmap. exists (a, b, c). split; [by injection He|done].
    + destruct (List.find _ _) as [[n1 [tr1 dpl1]]|]; [done|]. kred. by rewrite lookup_insert_ne.
Qed.

Lemma SETGATE_off tr off dpl : 0 <= off < 2 ^ 32 -> gate_off (SETGATE tr GD_KT off dpl) = off.
Proof.
  intros H. unfold gate_off, SETGATE. cbn [gd_off_15_0 gd_off_31_16]. rewrite u32_id by done.
  rewrite (land_mod off 16) by done. rewrite Z.shiftr_div_pow2 by lia.
  rewrite (Z.mod_small (off / 2 ^ 16)); zlia.
Qed.

Lemma gates_user n istrap dpl : gate_of n = Some (istrap, dpl) ->
  dpl mod 2 ^ 2 = dpl /\ (dpl = 3 <-> n = T_BRKPT \/ n = T_SYSCALL).
Proof.
  unfold gate_of. intros H. apply fmap_Some in H as ([n1 [tr1 dpl1]] & Hf & [= -> ->]).
  apply find_some in Hf as [Hin Heq]. apply Z.eqb_eq in Heq. cbn in Heq. subst n1.
  assert (forallb (fun x => (x.2.2 mod 2 ^ 2 =? x.2.2) &&
            Bool.eqb (x.2.2 =? 3) ((x.1 =? T_BRKPT) || (x.1 =? T_SYSCALL)))
           ((fun x => (x.1.1, (x.1.2, x.2))) <$> gates) = true) as Hall by reflexivity.
  rewrite forallb_forall in Hall. specialize (Hall _ Hin). cbn [fst snd] in Hall.
  apply andb_true_iff in Hall as [H1 H2]. apply Bool.eqb_prop in H2.
  split; [lia|]. destruct (Z.eqb_spec dpl1 3), (Z.eqb_spec n T_BRKPT), (Z.eqb_spec n T_SYSCALL); naive_solver.
Qed.

(** [trap_init] fills exactly the gates of its table, each an interrupt or
    trap gate into the kernel's code segment at the entry point for its number,
    and user code can raise only breakpoints and system calls with [int]. *)
Theorem trap_init_correct s c :
  cpus s !! cpunum s = Some c -> cpu_id c < NCPU -> (forall n, 0 <= vector n < 2 ^ 32) ->
  wp trap_init (fun _ s' => forall n,
    match gate_of n with
    | None => idt s' !! n = idt s !! n
    | Some (istrap, dpl) => exists g, idt s' !! n = Some g /\ gate_off g = vector n /\
        gd_sel g = GD_KT /\ gd_p g = 1 /\ gd_dpl g = dpl /\
        gd_type g = (if istrap then STS_TG32 else STS_IG32) /\
        (dpl = 3 <-> n = T_BRKPT \/ n = T_SYSCALL)
    end) s.
Proof.
  intros Hc Hid Hvec. destruct (set_gates_eq gates s) as (t & Ht & Hl). unfold trap_init.
  apply wp_bind. eapply wp_Ret; [exact Ht|]. unfold trap_init_percpu.
  apply wp_bind. eapply wp_Ret; [apply (get_thiscpu_eq c); kred; exact Hc|].
  apply wp_bind. eapply wp_Ret; [apply (upd_thiscpu_eq c); kred; exact Hc|].
  apply wp_bind. eapply wp_Ret; [apply upd_thiscpu_eq; kred; apply lookup_insert_eq|].
  apply wp_bind, wp_gets. destruct (Z.leb_spec NCPU (cpu_id c)); [lia|].
  unfold emit. wp_steps. kred. intros n. specialize (Hl ltac:(by apply (bool_decide_unpack _); vm_compute)). rewrite Hl.
  destruct (gate_of n) as [[istrap dpl]|] eqn:Hg; pose proof Hg as Hg'; unfold gate_of in Hg.
  - destruct (List.find _ _) as [[n1 [tr1 dpl1]]|]; [|done]. injection Hg as -> ->.
    destruct (gates_user n istrap dpl Hg') as [Hd Hu]. eexists. split; [reflexivity|].
    split; [apply SETGATE_off, Hvec|]. by split_and!.
  - by destruct (List.find _ _).
Qed.
End Table.

Lemma trap_init_correct_witness :
  exists s', trap_init (machine := small_machine) (blank 4) = Ret tt s' /\
    exists g, idt s' !! T_SYSCALL = Some g /\ gd_dpl g = 3.
Proof.
  pose proof (trap_init_correct (machine := small_machine) (blank 4) (mkCpuInfo 0 CPU_STARTED None 0 0)
    eq_refl ltac:(done)) as H.
  specialize (H ltac:(intros n; apply u32_range)).
  apply wp_inv in H as ([] & s' & Hs & H). exists s'. split; [exact Hs|].
  specialize (H T_SYSCALL). destruct H as (g & Hg & _ & _ & _ & Hd & _). exists g. split; [exact Hg|exact Hd].
Defined.

(** ** Control never comes back *)

(** [m] does not return. *)
Definition never {A} (m : K A) : Prop := forall s a s', m s <> Ret a s'.

Create HintDb never.

Lemma never_stop {A} (x : leave) : never (@stop _ _ A x).
Proof. by intros s a s'. Qed.
Lemma never_undef {A} why : never (@undef _ _ A why).
Proof. by intros s a s'. Qed.
Lemma never_bind {A B} (m : K A) (f : A -> K B) : (forall a, never (f a)) -> never (m ≫= f).
Proof. intros H s b s'. unfold mbind, M_bind. destruct (m s); [apply H|done..]. Qed.

#[export] Hint Resolve never_stop never_undef : never.

Ltac never := repeat first [apply never_bind; intros | progress auto 2 with never | case_match].

Lemma never_env_run e : never (env_run e).
Proof. unfold env_run, env_pop_tf. never. Qed.

Lemma never_sched_yield : never sched_yield.
Proof. unfold sched_yield, sched_halt. never. Qed.

#[export] Hint Resolve never_env_run never_sched_yield : never.

(** [trap] never returns to the entry code: every trap ends by entering an
    environment, halting the processor, waiting for a lock, or in the monitor,
    unless the kernel panics. *)
Theorem trap_never_returns {machine : Machine} tf : never (trap tf).
Proof. unfold trap. never. Qed.

(** ** Entering the kernel from an environment *)

(** Environment [k], [v] in the table, runs in user mode on this CPU, [c]. *)
Record in_user (s : kstate) (c : CpuInfo) (k : Z) (v : Env) : Prop := {
  iu_envs i : 0 <= i < NENV -> is_Some (envs s !! i);
  iu_pgdir i w : envs s !! i = Some w -> env_status w = ENV_RUNNABLE \/ env_status w = ENV_RUNNING ->
    KERNBASE <= env_pgdir w < 2 ^ 32;
  iu_kpd : KERNBASE <= kern_pgdir s < 2 ^ 32;
  iu_cpu : cpus s !! cpunum s = Some c;
  iu_started : cpu_status c = CPU_STARTED;
  iu_cur : cpu_env c = Some k;
  iu_slot : 0 <= k < NENV;
  iu_env : envs s !! k = Some v;
  iu_running : env_status v = ENV_RUNNING;
  iu_lock : lock_free s;
  iu_panic : panicstr s = false
}.

Section Entry.
Context {machine : Machine}.
Hypothesis interrupts_off : tst read_eflags FL_IF = false.

(** The kernel's state when it starts to dispatch the trap. *)
Definition entered (tf : Trapframe) (s : kstate) (k : Z) (v : Env) : kstate :=
  put last_tf (Some (TfEnv k))
    (put envs (<[k := put env_tf tf v]> (envs s))
      (put kernel_lock (mkSpinlock 1 (Some (cpunum s)) get_caller_pcs) s)).

Definition trap_rest : K unit :=
  cur ← curenv;
  match cur with
  | Some c => v ← get_env c; if bool_decide (env_status v = ENV_RUNNING) then env_run c else sched_yield
  | None => sched_yield
  end.

Lemma cpu_started_same c : cpu_status c = CPU_STARTED -> put cpu_status CPU_STARTED c = c.
Proof. intros H. unfold put, upd. rewrite <- H. by destruct c. Qed.

Lemma trap_entry tf s c k v :
  in_user s c k v -> Z.land (tf_cs tf) 3 = 3 ->
  trap tf s = (trap_dispatch (TfEnv k) ;; trap_rest) (entered tf s k v).
Proof.
  intros [Hen Hpg Hkp Hcpu Hst Hcur Hk Hv Hr Hl Hp] Hcs. unfold trap.
  erewrite bind_Ret by reflexivity. rewrite Hp. erewrite bind_Ret by reflexivity.
  erewrite bind_Ret by (by apply get_thiscpu_eq).
  erewrite bind_Ret by (by apply (upd_thiscpu_eq c)).
  rewrite Hst. erewrite bind_Ret by reflexivity. rewrite interrupts_off. erewrite bind_Ret by reflexivity.
  rewrite Hcs. change (3 =? 3) with true. cbv iota.
  assert (upd cpus (fun a => <[cpunum s := put cpu_status CPU_STARTED c]> a) s = s) as ->.
  { rewrite cpu_started_same by done. unfold upd. rewrite insert_id by done. by destruct s. }
  erewrite bind_Ret.
  2:{ unfold trap_from_user. erewrite bind_Ret by (by apply lock_kernel_eq).
      erewrite bind_Ret by (apply (curenv_eq c); kred; exact Hcpu).
      rewrite Hcur. erewrite bind_Ret by reflexivity.
      unfold the_curenv. erewrite bind_Ret by (erewrite bind_Ret by (apply (curenv_eq c); kred; exact Hcpu); by rewrite Hcur).
      erewrite bind_Ret by (by apply get_env_eq). rewrite Hr. erewrite bind_Ret by reflexivity.
      erewrite bind_Ret by (erewrite bind_Ret by (apply (curenv_eq c); kred; exact Hcpu); by rewrite Hcur).
      erewrite bind_Ret by (by apply upd_env_eq). reflexivity. }
  by erewrite bind_Ret by reflexivity.
Qed.

(** The scheduler's conditions hold then. *)
Lemma entered_sched_ok tf s c k v : in_user s c k v -> sched_ok (entered tf s k v) c.
Proof.
  intros [Hen Hpg Hkp Hcpu Hst Hcur Hk Hv Hr Hl Hp]. unfold entered. constructor; kred; try done.
  - intros i Hi. by apply is_Some_insert, Hen.
  - intros i w. destruct (decide (k = i)) as [<-|].
    + rewrite lookup_insert_eq. intros [= <-] Hs. by apply (Hpg k v).
    + rewrite lookup_insert_ne by done. apply Hpg.
  - rewrite Hcur. by intros e [= <-].
Qed.

(** C20: a system call from trap to return.  When the call returns [r] to an
    environment that may go on, [trap] enters that environment again with the
    registers it trapped with, as the call left them, except that [%eax] is [r]. *)
Theorem trap_syscall_correct tf s c k v r s3 c3 v3 :
  in_user s c k v -> Z.land (tf_cs tf) 3 = 3 -> tf_trapno tf = T_SYSCALL ->
  syscall (reg_eax (tf_regs tf)) (reg_edx (tf_regs tf)) (reg_ecx (tf_regs tf))
    (reg_ebx (tf_regs tf)) (reg_edi (tf_regs tf)) (reg_esi (tf_regs tf)) (entered tf s k v) = Ret r s3 ->
  sched_ok s3 c3 -> cpu_env c3 = Some k -> envs s3 !! k = Some v3 -> env_status v3 = ENV_RUNNING ->
  exists s', trap tf s = Stop (ToUser k (upd tf_regs (put reg_eax (u32 r)) (env_tf v3))) s' /\
    pmem s' = pmem s3 /\ status_of s' k = ENV_RUNNING /\ lock_free s'.
Proof.
  intros Hu Hcs Hn Hsys Hok Hcur Hv3 Hr3. rewrite (trap_entry _ _ _ _ _ Hu Hcs).
  set (v4 := upd env_tf (upd tf_regs (put reg_eax (u32 r))) v3).
  assert (0 <= k < NENV) as Hk by apply Hu.
  assert (KERNBASE <= env_pgdir v3 < 2 ^ 32) as Hpg by (apply (so_pgdir _ _ Hok k v3); auto).
  set (s4 := put envs (<[k := v4]> (envs s3)) s3).
  assert (sched_ok s4 c3) as Hok4 by (by eapply sched_ok_upd).
  assert (envs s4 !! k = Some v4) as Hv4 by (unfold s4; kred; apply lookup_insert_eq).
  destruct (env_run_eq s4 c3 k v4 Hok4 Hv4 Hpg) as (s' & Hs' & Hsw). exists s'. split.
  - erewrite bind_Ret.
    2:{ unfold trap_dispatch. erewrite bind_Ret.
        2:{ cbn [get_tf]. erewrite bind_Ret by (apply get_env_eq; unfold entered; kred; apply lookup_insert_eq). reflexivity. }
        cbn [env_tf put upd]. rewrite Hn. cbn [Z.eqb T_SYSCALL T_PGFLT T_BRKPT Pos.eqb].
        erewrite bind_Ret by exact Hsys. cbn [upd_tf]. by rewrite (upd_env_eq k v3). }
    unfold trap_rest.
    erewrite bind_Ret by (apply (curenv_eq c3); kred; apply Hok4). rewrite Hcur.
    erewrite bind_Ret by (apply get_env_eq; exact Hv4).
    change (env_status v4) with (env_status v3). rewrite Hr3, bool_decide_eq_true_2 by done. exact Hs'.
  - pose proof (sw_mem _ _ _ _ Hsw) as (Hm & _). split; [exact Hm|]. split; [apply Hsw|apply Hsw].
Qed.
End Entry.

(** A machine on which environment 3 runs in user mode and asks for its identifier. *)
Definition user_env : Env := put env_status ENV_RUNNING (table_env [] 3).

Definition user_demo : kstate :=
  put kernel_lock (mkSpinlock 0 None []) (put envs (<[3 := user_env]> (env_table [])) (run_demo [])).

Definition getenvid_tf : Trapframe :=
  put tf_cs (Z.lor GD_UT 3) (put tf_trapno T_SYSCALL (upd tf_regs (put reg_eax 2) blank_tf)).

Lemma user_demo_in : in_user user_demo (mkCpuInfo 0 CPU_STARTED (Some 3) 0 0) 3 user_env.
Proof.
  unfold user_demo, run_demo, sched_demo. constructor; kred; try reflexivity.
  - intros i Hi. apply is_Some_insert. rewrite env_table_lookup by done. by eexists.
  - intros i w [[<- <-]|[_ Hw]]%lookup_insert_Some Hs; [cbn; lia|].
    apply env_table_Some in Hw as ->. cbn. lia.
  - lia.
  - lia.
Qed.

Lemma trap_syscall_correct_witness :
  exists tf' s', trap (machine := small_machine) getenvid_tf user_demo = Stop (ToUser 3 tf') s' /\
    reg_eax (tf_regs tf') = 0x1003.
Proof.
  pose proof (trap_syscall_correct (machine := small_machine) eq_refl getenvid_tf user_demo _ 3 user_env
    0x1003 (entered (machine := small_machine) getenvid_tf user_demo 3 user_env)
    (mkCpuInfo 0 CPU_STARTED (Some 3) 0 0) (put env_tf getenvid_tf user_env) user_demo_in eq_refl eq_refl) as H.
  specialize (H eq_refl (entered_sched_ok _ _ _ _ _ user_demo_in) eq_refl).
  destruct H as (s' & Hs & _); [unfold entered; kred; apply lookup_insert_eq|done|].
  eexists _, s'. split; [exact Hs|reflexivity].
Defined.
