(* ===== verification/FaultSpec.v ===== *)
(** * User memory at work: page fault upcalls, and reading past a buffer

    The user page fault handler from trap to upcall, and what [sys_cputs] does
    with a buffer that ends where the mapped memory ends. *)

From Stdlib Require Import Lia ZArith ZifyClasses ZifyInst ZifyBool.
From stdpp Require Import base gmap list strings numbers.
From S2P Require Import Prelude Cmonad Mmu Printfmt Console State Spinlock Umem Pmap.
From S2P Require Import PageList Vm VmInv PmapLem VmLem PmapSpec VmDir UserLem Env EnvLem Sched EnvSpec.
From S2P Require Import Lapic Syscall SyscallSpec IpcSpec Trap TrapSpec.

(** ** [user_mem_assert] within one page *)

Lemma first_bad_one m d perm v :
  first_bad m d perm (seqZ v 1) = if user_page_ok m d perm v then None else Some v.
Proof. rewrite seqZ_cons by lia. cbn. by destruct (user_page_ok m d perm v). Qed.

Lemma user_mem_assert_page base s fl D O e w d v o len perm :
  vm_inv base s fl D O -> d ∈ D -> kernel_pdes_ok (pmem s) (npages s) d ->
  envs s !! e = Some w -> env_pgdir w = kva d ->
  0 <= v < UVPNS -> 0 <= o < 4096 -> 1 <= len -> o + len <= 4096 ->
  user_page_ok (pmem s) d (Z.lor perm PTE_U) v = true ->
  user_mem_assert e (v * 4096 + o) len perm s = Ret tt s.
Proof.
  intros INV Hd Hk He Hpg Hv Ho Hl Hol Hok. unfold user_mem_assert.
  assert (user_mem_check e (v * 4096 + o) len (Z.lor perm PTE_U) s = Ret 0 s) as Hc;
    [|by erewrite bind_Ret by exact Hc].
  rewrite (user_mem_check_eq base s fl D O e w d) by (done || lia). cbv zeta.
  replace ((v * 4096 + o) / 4096) with v by zlia.
  replace ((v * 4096 + o + len + 4095) / 4096) with (v + 1) by zlia.
  replace (v + 1 - v) with 1 by lia. by rewrite first_bad_one, Hok.
Qed.

(** ** Reading to the end of a page *)

Lemma translate_unmapped base s fl D O d v o write :
  vm_inv base s fl D O -> d ∈ D -> cr3 s = d * 4096 -> 0 <= v < UVPNS -> 0 <= o < 4096 ->
  maps (pmem s) d v = None -> mmu_translate s (v * 4096 + o) write = None.
Proof.
  intros INV Hd Hcr Hv Ho Hm. assert (0 <= v * 4096 + o < UTOP) as Hva by lia.
  destruct (PDX_vpn _ Hva) as (HD & HT & _).
  assert (PGNUM (v * 4096 + o) = v) as Hg by (rewrite PGNUM_div by lia; zlia). rewrite Hg in HD, HT.
  pose proof (vo_word _ _ _ _ (vi_vm _ _ _ _ _ INV) d (v / 1024)) as Hw.
  unfold mmu_translate. rewrite Hcr. change PGSIZE with 4096. rewrite Z.div_mul by lia.
  rewrite HD, HT, PTE_ADDR_fr, Z.div_mul by (done || lia).
  unfold maps, pte, present in Hm. destruct (tst (word (pmem s) d (v / 1024)) PTE_P); [|done].
  destruct (tst (word (pmem s) (fr (word (pmem s) d (v / 1024))) (v mod 1024)) PTE_P); [done|].
  by rewrite andb_false_r.
Qed.

(** The bytes at [o] to [o + n - 1] of the page are not zero, and the page after
    it is not mapped. *)
Record at_edge (s : kstate) (d v p o : Z) (n : nat) : Prop := {
  ed_bytes i : 0 <= i < Z.of_nat n -> get_byte (pmem s) (p * 4096 + o + i) <> 0;
  ed_end : o + Z.of_nat n = 4096;
  ed_v : v + 1 < UVPNS;
  ed_next : maps (pmem s) d (v + 1) = None
}.

Lemma read_user_string_step fuel precision va :
  read_user_string (S fuel) precision va =
    (b ← uload_byte va;
     if b =? 0 then mret [b]
     else if precision <? 0 then
       rest ← read_user_string fuel precision (va + 1); mret (b :: rest)
     else if 0 <=? precision - 1 then
       rest ← read_user_string fuel (precision - 1) (va + 1); mret (b :: rest)
     else mret [b]).
Proof. reflexivity. Qed.

Lemma read_over_edge base s fl D O d v p o n :
  user_page s fl D O base d v p -> 0 <= o -> at_edge s d v p o n ->
  read_user_string (S n) (Z.of_nat n) (v * 4096 + o) s = Panic "page fault happened in kernel" s.
Proof.
  intros UP. revert o. induction n as [|n IH]; intros o Ho [Hb He Hv Hn].
  - rewrite read_user_string_step. unfold mbind at 1, M_bind at 1, uload_byte.
    destruct UP as [INV Hd Hcr Hv' _]. rewrite u32_id by lia.
    replace (v * 4096 + o) with ((v + 1) * 4096 + 0) by lia.
    by rewrite (translate_unmapped base s fl D O d) by (done || lia).
  - assert (o < 4096) as Ho' by lia. pose proof (Hb 0 ltac:(lia)) as Hb0. rewrite Z.add_0_r in Hb0.
    rewrite read_user_string_step. erewrite bind_Ret by (apply (uload_byte_eq UP); lia).
    destruct (Z.eqb_spec (get_byte (pmem s) (p * 4096 + o)) 0); [done|].
    destruct (Z.ltb_spec (Z.of_nat (S n)) 0); [lia|]. destruct (Z.leb_spec 0 (Z.of_nat (S n) - 1)); [|lia].
    replace (v * 4096 + o + 1) with (v * 4096 + (o + 1)) by lia.
    replace (Z.of_nat (S n) - 1) with (Z.of_nat n) by lia.
    unfold mbind at 1, M_bind at 1. rewrite (IH (o + 1)); [done|lia|].
    constructor; try done; try lia. intros i Hi.
    replace (p * 4096 + (o + 1) + i) with (p * 4096 + o + (i + 1)) by lia. apply Hb. lia.
Qed.

(** C29: [sys_cputs] checks the bytes it was asked to print, but the conversion
    [%.*s] loads one byte more before it looks at the length.  When the buffer
    ends at the end of a mapped page and the next page is not mapped, the kernel
    takes a page fault in kernel mode and panics: any environment can bring
    down the system. *)
Theorem sys_cputs_overread base s fl D O k vk d v p o n :
  calling base s fl D O k -> caller s D k vk d -> kernel_pdes_ok (pmem s) (npages s) d ->
  user_page s fl D O base d v p -> tst (pte (pmem s) d v) PTE_U = true ->
  (1 <= n)%nat -> 0 <= o -> 0 < v * 4096 + o -> at_edge s d v p o n ->
  sys_cputs (v * 4096 + o) (Z.of_nat n) s = Panic "page fault happened in kernel" s.
Proof.
  intros H [Hvk _ Hd Hpg] Hk UP HU Hn Ho Ha He. unfold sys_cputs.
  pose proof (ed_end _ _ _ _ _ _ He) as Hend. pose proof (us_v _ _ _ _ _ _ _ _ UP) as Hv.
  erewrite bind_Ret by (by eapply the_curenv_eq).
  erewrite bind_Ret.
  2:{ apply (user_mem_assert_page base s fl D O k vk d); try done; try lia; [apply UP|].
      unfold user_page_ok. change (Z.lor PTE_U PTE_U) with PTE_U.
      destruct (Z.ltb_spec (v * 4096) ULIM); [|lia]. cbn [andb].
      pose proof (us_maps _ _ _ _ _ _ _ _ UP) as Hm. unfold maps in Hm.
      destruct (present (pte (pmem s) d v)); [|done]. cbn [andb].
      change PTE_U with (2 ^ 2) in *. rewrite tst_pow2 in HU by lia. apply Z.eqb_eq, Z.bits_inj'.
      intros i Hi. rewrite Z.land_spec. destruct (decide (i = 2)) as [->|]; [by rewrite HU|].
      rewrite Z.pow2_bits_false by done. apply andb_false_r. }
  destruct (Z.eqb_spec (v * 4096 + o) NULL) as [Hz|_]; [unfold NULL in Hz; lia|].
  unfold mbind, M_bind, user_string. rewrite s32_id by lia.
  destruct (Z.ltb_spec (Z.of_nat n) 0); [lia|].
  replace (Z.to_nat (Z.of_nat n + 1)) with (S n) by lia. by rewrite (read_over_edge base s fl D O d v p o n).
Qed.

(** ** A concrete address space

    [six_pages] with page 3 as a page table of the directory in page 1, and page
    2 mapped at [0x801000], to be read, and ending in an [A]; and the same page
    at the place of the exception stack, to be written. *)

Definition edge_mem (v flags : Z) : physmem :=
  set_word 2 1023 0x41000000
    (set_word 3 (v mod 1024) (Z.lor (2 * 4096) flags)
      (set_word 1 (v / 1024) (Z.lor (3 * 4096) 7) (<[3 := ∅]> ∅))).

Definition edge_pages (v flags : Z) : kstate :=
  put pmem (edge_mem v flags)
    (put pages
      {[ 0 := mkPageInfo None 1; 1 := mkPageInfo None 1; 2 := mkPageInfo None 1;
         3 := mkPageInfo None 1; 4 := mkPageInfo (Some 5) 0; 5 := mkPageInfo None 0 ]}
      (put page_free_list (Some 4) (put cr3 4096 (blank 6)))).

Lemma edge_pages_inv v flags :
  0 <= v < UVPNS -> 0 <= flags < 4096 -> present flags = true ->
  vm_inv boot_refs (edge_pages v flags) [4; 5] {[1]} (<[3 := (1, v / 1024)]> ∅).
Proof.
  intros Hv Hf Hp. destruct (vpn_split v Hv) as [Hi Hj].
  pose proof (vm_inv_new_pt six_pages_inv 3 (mkPageInfo (Some 4) 0) [4; 5] 1 (v / 1024) 7 eq_refl
    ltac:(done) eq_refl ltac:(set_solver) Hi eq_refl ltac:(lia) eq_refl) as INV1.
  assert (present (Z.lor (2 * 4096) flags) = true) as Hpe
    by (unfold present in *; by rewrite tst_lor, Hp, orb_true_r).
  assert (fr (Z.lor (2 * 4096) flags) = 2) as Hfe by (by apply fr_lor_flags).
  pose proof (vm_inv_set_pt INV1 3 1 (v / 1024) (v mod 1024) (Z.lor (2 * 4096) flags)
    (lookup_insert_eq _ _ _) Hj) as INV2.
  specialize (INV2 ltac:(split; [|intros _; rewrite Hfe; split_and!; [cbn; lia|cbn; lia|set_solver|done]];
    apply (lor_small _ _ 32); lia)).
  assert (maps (set_word 1 (v / 1024) (Z.lor (3 * 4096) 7) (<[3 := ∅]> ∅)) 1
            (v / 1024 * 1024 + v mod 1024) = None) as Hno.
  { unfold maps, pte. replace ((v / 1024 * 1024 + v mod 1024) / 1024) with (v / 1024) by zlia.
    rewrite word_set_eq. change (fr (Z.lor (3 * 4096) 7)) with 3. rewrite word_set_ne by (left; done).
    rewrite word_zero_page. by case_match. }
  pose proof (vm_inv_ref INV2 2 (mkPageInfo None 0) 1 eq_refl ltac:(set_solver) ltac:(cbn; lia)) as INV3.
  assert (vm_inv boot_refs (put pmem (set_word 3 (v mod 1024) (Z.lor (2 * 4096) flags)
      (set_word 1 (v / 1024) (Z.lor (3 * 4096) 7) (<[3 := ∅]> ∅))) (edge_pages v flags))
      [4; 5] {[1]} (<[3 := (1, v / 1024)]> ∅)) as INV4.
  { eapply vm_inv_proj; [..|eapply vm_inv_base; [|exact INV3]]; try reflexivity.
    intros q. cbn beta.
    match goal with |- context [maps ?m 1 _] =>
      change m with (set_word 1 (v / 1024) (Z.lor (3 * 4096) 7) (<[3 := ∅]> (∅ : physmem))) end.
    rewrite Hno, Hfe, Hpe.
    rewrite (decide_False (P := None = Some q)) by done.
    destruct (decide (q = 2)) as [->|Hq].
    - rewrite decide_True by done. lia.
    - rewrite decide_False by (intros [_ ?]; done). lia. }
  apply (vm_inv_data _ _ _ _ _ 2 (edge_mem v flags)) in INV4; [exact INV4|set_solver|done| |].
  - intros f i Hne. apply word_set_ne. by left.
  - intros i. apply set_word_range; [|lia]. apply (vo_word _ _ _ _ (vi_vm _ _ _ _ _ INV4)).
Qed.

Definition edge_demo (v flags : Z) : kstate := with_caller (edge_pages v flags).

Lemma edge_demo_page v flags :
  0 <= v < UVPNS -> 0 <= flags < 4096 -> present flags = true ->
  pte (pmem (edge_demo v flags)) 1 v = 2 * 4096 + flags /\
  user_page (edge_demo v flags) [4; 5] {[1]} (<[3 := (1, v / 1024)]> ∅) boot_refs 1 v 2.
Proof.
  intros Hv Hf Hp. assert (pte (pmem (edge_demo v flags)) 1 v = 2 * 4096 + flags) as Hpte.
  { change (pmem (edge_demo v flags)) with (edge_mem v flags). unfold edge_mem, pte.
    rewrite !(word_set_ne _ _ _ _ 1) by (left; done). rewrite word_set_eq.
    change (fr (Z.lor (3 * 4096) 7)) with 3. change (present (Z.lor (3 * 4096) 7)) with true. cbv iota.
    rewrite word_set_ne by (left; done). rewrite word_set_eq. by apply lor_page. }
  split; [done|]. constructor; try done.
  - apply (vm_inv_proj boot_refs (edge_pages v flags)); try reflexivity. by apply edge_pages_inv.
  - unfold maps. rewrite Hpte, <- lor_page by done. unfold present in *.
    rewrite tst_lor, Hp, orb_true_r. by rewrite fr_lor_flags.
Qed.

Lemma sys_cputs_overread_witness :
  sys_cputs 0x801fff 1 (edge_demo 2049 5) = Panic "page fault happened in kernel" (edge_demo 2049 5).
Proof.
  destruct (edge_demo_page 2049 5 ltac:(lia) ltac:(lia) eq_refl) as [Hpte UP].
  apply (sys_cputs_overread boot_refs (edge_demo 2049 5) [4; 5] {[1]} (<[3 := (1, 2)]> ∅) 0 call_env 1 2049 2 4095 1).
  - apply with_caller_calling; [by apply (edge_pages_inv 2049 5); [lia|lia|]|apply boot_refs_nonneg].
  - constructor; [apply with_caller_cur|done|set_solver|done].
  - intros i Hi. change (pmem (edge_demo 2049 5)) with (edge_mem 2049 5). unfold edge_mem.
    rewrite !(word_set_ne _ _ _ _ 1) by (left; done). rewrite word_set_ne by (right; assert (2049 / 1024 = 2) by reflexivity; lia).
    rewrite word_zero_page. by case_match.
  - exact UP.
  - by rewrite Hpte.
  - lia.
  - lia.
  - lia.
  - constructor; [|done|lia|reflexivity]. intros i Hi. assert (i = 0) as -> by lia. vm_compute. discriminate.
Defined.

(** ** User page faults *)

Lemma user_page_proj s s' fl D O base d v p :
  pmem s' = pmem s -> pages s' = pages s -> page_free_list s' = page_free_list s ->
  npages s' = npages s -> cr3 s' = cr3 s ->
  user_page s fl D O base d v p -> user_page s' fl D O base d v p.
Proof.
  intros Hm Hp Hf Hn Hc [INV Hd Hcr Hv Hmp]. constructor; try done.
  - by apply (vm_inv_proj base s).
  - by rewrite Hc.
  - by rewrite Hm.
Qed.

(** The bytes of a fault frame in memory. *)
Definition utf_bytes (u : UTrapframe) : list Z :=
  concat ((fun w => le_split 4 (u32 w)) <$> utf_words u).

Lemma uwrite_words_bytes va l s :
  uwrite_words va l s = ustore_bytes va (concat ((fun w => le_split 4 (u32 w)) <$> l)) s.
Proof.
  revert va s. induction l as [|w l IH]; intros va s; [done|].
  rewrite fmap_cons. cbn [concat uwrite_words]. rewrite <- ustore_bytes_app, length_le_split.
  unfold mbind, M_bind, uwrite32. rewrite write_le_bytes.
  destruct (ustore_bytes va (le_split 4 (u32 w)) s); [apply IH|done..].
Qed.

Lemma le_split_byte n v : Forall (fun b => 0 <= b < 256) (le_split n v).
Proof. revert v. induction n as [|n IH]; intros v; constructor; [apply Z.mod_pos_bound; lia|apply IH]. Qed.

Lemma utf_bytes_byte u i b : utf_bytes u !! i = Some b -> 0 <= b < 256.
Proof.
  intros H. assert (Forall (fun b => 0 <= b < 256) (utf_bytes u)) as Hall.
  { unfold utf_bytes. apply Forall_concat, Forall_fmap, list.Forall_true. intros w. apply le_split_byte. }
  by apply (Forall_lookup_1 _ _ _ _ Hall H).
Qed.

Lemma length_utf_bytes u : length (utf_bytes u) = 52%nat.
Proof. reflexivity. Qed.

(** The page of the user exception stack. *)
Definition XPAGE : Z := 977919.
Lemma XPAGE_eq : XPAGE = PGNUM (UXSTACKTOP - PGSIZE). Proof. reflexivity. Qed.

(** Where the frame goes, when there is room for it. *)
Lemma utf_address_spec esp :
  0 <= esp < 2 ^ 32 -> UXSTACKTOP - PGSIZE <= utf_address esp ->
  exists o, utf_address esp = XPAGE * 4096 + o /\ 0 <= o /\ o + 52 <= 4096 /\
    (UXSTACKTOP - PGSIZE <= esp < UXSTACKTOP -> utf_address esp + sizeof_UTrapframe + 4 = esp).
Proof.
  intros He H. exists (utf_address esp - XPAGE * 4096). unfold utf_address in *.
  change UXSTACKTOP with 4005560320 in *. change PGSIZE with 4096 in *.
  unfold XPAGE, sizeof_UTrapframe in *.
  destruct (Z.leb_spec (4005560320 - 4096) esp), (Z.leb_spec esp (4005560320 - 1)); cbn [andb] in *; try lia.
  rewrite u32_id in * by lia. lia.
Qed.

Section Fault.
Context {machine : Machine}.
Hypothesis interrupts_off : tst read_eflags FL_IF = false.

(** Environment [k] has an exception stack in frame [p] and an upcall. *)
Record can_upcall (s : kstate) (fl : list Z) (D : gset Z) (O : gmap Z (Z * Z)) (base : Z -> Z)
    (v : Env) (d p : Z) : Prop := {
  cu_page : user_page s fl D O base d XPAGE p;
  cu_pgdir : env_pgdir v = kva d;
  cu_kernel : kernel_pdes_ok (pmem s) (npages s) d;
  cu_user : tst (pte (pmem s) d XPAGE) PTE_U = true;
  cu_write : writable (pmem s) d XPAGE;
  cu_upcall : env_pgfault_upcall v <> 0
}.

Lemma cu_page_ok s fl D O base v d p :
  can_upcall s fl D O base v d p -> user_page_ok (pmem s) d (Z.lor PTE_W PTE_U) XPAGE = true.
Proof.
  intros [UP _ _ HU [_ HW] _]. unfold user_page_ok. change (XPAGE * 4096 <? ULIM) with true. cbn [andb].
  pose proof (us_maps _ _ _ _ _ _ _ _ UP) as Hm. unfold maps in Hm.
  destruct (present (pte (pmem s) d XPAGE)); [|done]. cbn [andb]. apply Z.eqb_eq.
  change PTE_U with (2 ^ 2) in *. change PTE_W with (2 ^ 1) in *. rewrite tst_pow2 in HU, HW by lia.
  apply Z.bits_inj'. intros i Hi. rewrite Z.land_spec, Z.lor_spec.
  destruct (decide (i = 2)) as [->|]; [by rewrite HU|]. destruct (decide (i = 1)) as [->|]; [by rewrite HW|].
  rewrite !Z.pow2_bits_false by done. apply andb_false_r.
Qed.

(** The handler's way from the fault to the upcall, over what it calls. *)
Lemma fault_to_upcall s1 k v tf m' x s' :
  let a := utf_address (tf_esp tf) in
  let utf := mkUTrapframe rcr2 (tf_err tf) (tf_regs tf) (tf_eip tf) (tf_eflags tf) (tf_esp tf) in
  envs s1 !! k = Some (put env_tf tf v) -> Z.land (tf_cs tf) 3 = 3 -> tf_trapno tf = T_PGFLT ->
  env_pgfault_upcall v <> NULL ->
  (forall s2, cpus s2 = cpus s1 -> cpunum s2 = cpunum s1 -> the_curenv s2 = Ret k s2) ->
  user_mem_assert k a sizeof_UTrapframe PTE_W s1 = Ret tt s1 ->
  uwrite_words a (utf_words utf) s1 = Ret tt (put pmem m' s1) ->
  env_run k (put envs (<[k := put env_tf (put tf_esp a (put tf_eip (env_pgfault_upcall v) tf)) v]> (envs s1))
    (put pmem m' s1)) = Stop x s' ->
  trap_dispatch (TfEnv k) s1 = Stop x s'.
Proof.
  intros a utf Hv1 Hcs Hn Hup Hcur Hassert Hst Hrun. set (v1 := put env_tf tf v) in *. unfold trap_dispatch.
  erewrite bind_Ret by (cbn [get_tf]; erewrite bind_Ret by (by apply get_env_eq); reflexivity).
  change (env_tf v1) with tf. rewrite Hn. cbn [Z.eqb T_PGFLT Pos.eqb]. unfold page_fault_handler.
  erewrite bind_Ret by (cbn [get_tf]; erewrite bind_Ret by (by apply get_env_eq); reflexivity).
  change (env_tf v1) with tf. rewrite Hcs. cbn [Z.eqb Pos.eqb].
  erewrite bind_Ret by (by apply Hcur). erewrite bind_Ret by (by apply get_env_eq).
  change (env_pgfault_upcall v1) with (env_pgfault_upcall v).
  destruct (Z.eqb_spec (env_pgfault_upcall v) NULL) as [|_]; [done|]. erewrite bind_Ret by reflexivity.
  erewrite bind_Ret by (by apply Hcur). erewrite bind_Ret by exact Hassert. erewrite bind_Ret by exact Hst.
  erewrite bind_Ret by (by apply Hcur). erewrite bind_Ret by (by apply get_env_eq).
  erewrite bind_Ret by (by apply upd_env_eq).
  erewrite bind_Ret by (apply upd_env_eq; kred; apply lookup_insert_eq).
  match goal with |- env_run k ?st = _ => refine (eq_trans (f_equal (env_run k) _) Hrun) end.
  unfold upd, put. cbn. by rewrite !insert_insert_eq.
Qed.

(** C21: a page fault in user mode, with an upcall installed and room on the
    exception stack: the kernel writes the fault frame there and nowhere else,
    byte for byte, below the frame of a fault in progress with one word free in
    between, and enters the upcall of the same environment with that frame on
    the stack and all other registers as they were. *)
Theorem user_page_fault_correct base s fl D O c k v d p tf :
  in_user s c k v -> Z.land (tf_cs tf) 3 = 3 -> tf_trapno tf = T_PGFLT ->
  0 <= tf_esp tf < 2 ^ 32 -> can_upcall s fl D O base v d p ->
  UXSTACKTOP - PGSIZE <= utf_address (tf_esp tf) ->
  let a := utf_address (tf_esp tf) in
  let at_ := p * 4096 + (a - XPAGE * 4096) in
  let utf := mkUTrapframe rcr2 (tf_err tf) (tf_regs tf) (tf_eip tf) (tf_eflags tf) (tf_esp tf) in
  (UXSTACKTOP - PGSIZE <= tf_esp tf < UXSTACKTOP -> a + sizeof_UTrapframe + 4 = tf_esp tf) /\
  exists s', trap tf s = Stop (ToUser k (put tf_esp a (put tf_eip (env_pgfault_upcall v) tf))) s' /\
    (forall i b, utf_bytes utf !! i = Some b -> get_byte (pmem s') (at_ + Z.of_nat i) = b) /\
    (forall pa, 0 <= pa -> ~ (at_ <= pa < at_ + sizeof_UTrapframe) ->
       get_byte (pmem s') pa = get_byte (pmem s) pa).
Proof.
  intros Hu Hcs Hn Hesp CU Hroom a at_ utf.
  destruct (utf_address_spec _ Hesp Hroom) as (o & Ha & Ho & Ho' & Hnest). split; [exact Hnest|].
  rewrite (trap_entry interrupts_off _ _ _ _ _ Hu Hcs). set (s1 := entered tf s k v).
  pose proof (entered_sched_ok tf _ _ _ _ Hu) as Hok1. fold s1 in Hok1.
  pose proof CU as [UP Hpg Hk HU HW Hup].
  assert (user_page s1 fl D O base d XPAGE p) as UP1 by (by eapply user_page_proj; [..|exact UP]).
  set (v1 := put env_tf tf v).
  assert (envs s1 !! k = Some v1) as Hv1 by (unfold s1, entered; kred; apply lookup_insert_eq).
  assert (forall s2, cpus s2 = cpus s1 -> cpunum s2 = cpunum s1 -> the_curenv s2 = Ret k s2) as Hcur.
  { intros s2 Hc Hn2. unfold the_curenv.
    erewrite bind_Ret by (apply (curenv_eq c); rewrite Hc, Hn2; apply Hok1). by rewrite (iu_cur _ _ _ _ Hu). }
  assert (0 <= k < NENV) as Hks by apply Hu.
  (* the frame *)
  assert (writable (pmem s1) d XPAGE) as HW1 by exact HW.
  pose proof (ustore_bytes_wp s1 fl D O base d XPAGE p o (utf_bytes utf) UP1 HW1 Ho
    ltac:(rewrite length_utf_bytes; lia)) as Hst.
  apply wp_inv in Hst as ([] & s2 & Hst & m' & -> & _ & _ & Hin & Hoff).
  rewrite length_utf_bytes in Hoff. rewrite <- Ha in Hst. fold a in Hst.
  set (s2 := put pmem m' s1) in *. set (v2 := put env_tf (put tf_eip (env_pgfault_upcall v) tf) v).
  set (v3 := put env_tf (put tf_esp a (put tf_eip (env_pgfault_upcall v) tf)) v).
  set (s3 := put envs (<[k := v3]> (envs s2)) s2).
  assert (sched_ok s2 c) as Hok2 by (destruct Hok1; by constructor).
  assert (KERNBASE <= env_pgdir v1 < 2 ^ 32) as Hpgr by (apply (so_pgdir _ _ Hok1 k v1); [done|right; apply Hu]).
  assert (sched_ok s3 c) as Hok3 by (by apply (sched_ok_upd s2 c k v1)).
  destruct (env_run_eq s3 c k v3 Hok3 (lookup_insert_eq _ _ _) Hpgr) as (s' & Hrun & Hsw).
  exists s'. split.
  - apply bind_Stop. apply (fault_to_upcall s1 k v tf m'); try done.
    + rewrite Ha. apply (user_mem_assert_page base s1 fl D O k v1 d);
        [apply UP1|apply UP|exact Hk|exact Hv1|exact Hpg|split; [done|reflexivity]|lia| | |];
        [unfold sizeof_UTrapframe; lia..|]. by apply (cu_page_ok s fl D O base v d p).
    + rewrite uwrite_words_bytes. exact Hst.
  - pose proof (sw_mem _ _ _ _ Hsw) as (Hm & _). rewrite Hm. change (pmem s3) with m'.
    assert (at_ = p * 4096 + o) as -> by (unfold at_; lia). split.
    + intros i b Hi. rewrite (Hin i b Hi). apply u8_id. by eapply utf_bytes_byte.
    + exact Hoff.
Qed.
End Fault.

(** Environment 0 of [edge_demo] with the upcall at [0x800000], in user mode. *)
Definition fault_env : Env := put env_pgfault_upcall 0x800000 call_env.

Definition fault_demo : kstate :=
  put kern_pgdir KERNBASE (put kernel_lock (mkSpinlock 0 None [])
    (put envs (<[0 := fault_env]> (env_table [])) (edge_demo XPAGE 7))).

Definition fault_tf : Trapframe :=
  put tf_cs (Z.lor GD_UT 3) (put tf_trapno T_PGFLT (put tf_esp 0xeebffe00 blank_tf)).

Lemma fault_demo_in : in_user fault_demo (mkCpuInfo 0 CPU_STARTED (Some 0) 0 0) 0 fault_env.
Proof.
  unfold fault_demo, edge_demo, with_caller. constructor; kred; try reflexivity.
  - intros i Hi. apply is_Some_insert. rewrite env_table_lookup by done. by eexists.
  - intros i w [[<- <-]|[_ Hw]]%lookup_insert_Some Hs; [change (env_pgdir fault_env) with (kva 1); unfold kva; change KERNBASE with 4026531840; lia|].
    apply env_table_Some in Hw as ->. by destruct Hs.
  - lia.
  - lia.
Qed.

Lemma can_upcall_put kp l es s fl D O base v d p :
  can_upcall s fl D O base v d p ->
  can_upcall (put kern_pgdir kp (put kernel_lock l (put envs es s))) fl D O base v d p.
Proof. intros [UP ?????]. constructor; try done. by apply (user_page_proj s). Qed.

Lemma edge_demo_upcall :
  can_upcall (edge_demo XPAGE 7) [4; 5] {[1]} (<[3 := (1, XPAGE / 1024)]> ∅) boot_refs fault_env 1 2.
Proof.
  destruct (edge_demo_page XPAGE 7 ltac:(done) ltac:(lia) eq_refl) as [Hpte UP].
  constructor; rewrite ?Hpte; [exact UP|reflexivity| |reflexivity| |discriminate];
    change (pmem (edge_demo XPAGE 7)) with (edge_mem XPAGE 7) in *; unfold edge_mem.
  - intros i Hi. rewrite !(word_set_ne _ _ _ _ 1) by (left; discriminate).
    rewrite word_set_ne by (right; change (XPAGE / 1024) with 954; clear -Hi; unfold UPDES in Hi; lia).
    unfold word. by rewrite lookup_insert_ne, lookup_empty.
  - split; [|by fold (edge_mem XPAGE 7); rewrite Hpte].
    rewrite !(word_set_ne _ _ _ _ 1) by (left; discriminate). by rewrite word_set_eq.
Qed.

Lemma fault_demo_upcall :
  can_upcall fault_demo [4; 5] {[1]} (<[3 := (1, XPAGE / 1024)]> ∅) boot_refs fault_env 1 2.
Proof. apply can_upcall_put, edge_demo_upcall. Qed.

Lemma user_page_fault_correct_witness :
  exists s', trap (machine := small_machine) fault_tf fault_demo
      = Stop (ToUser 0 (put tf_esp 0xeebffdc8 (put tf_eip 0x800000 fault_tf))) s' /\
    get_byte (pmem s') (2 * 4096 + 0xdc8) = 0 /\ get_byte (pmem s') (2 * 4096 + 0xdcb) = 0xde.
Proof.
  destruct (user_page_fault_correct (machine := small_machine) eq_refl boot_refs fault_demo
    [4; 5] {[1]} (<[3 := (1, XPAGE / 1024)]> ∅) (mkCpuInfo 0 CPU_STARTED (Some 0) 0 0) 0 fault_env 1 2
    fault_tf fault_demo_in eq_refl eq_refl ltac:(done) fault_demo_upcall ltac:(done))
    as (_ & s' & Hs & Hin & _).
  exists s'. split; [exact Hs|]. split.
  - exact (Hin 0%nat 0 eq_refl).
  - exact (Hin 3%nat 0xde eq_refl).
Defined.
